(* ===== verification/_CoqProject ===== *)
-Q . S2P
Prelude.v
CMem.v
Util.v
Ipv6Text.v
HexDump.v
Proto.v
Link.v
Network.v
Transport.v
DnsName.v
Dns.v
Packet.v
FlowTable.v
Stats.v
Filter.v
Json.v
Config.v
Clock.v
Binary64.v
Report.v
Output.v
OutputText.v
OutputJson.v
System.v
Capture.v
Main.v
Protocol.v
SessionSteps.v
Session.v
Program.v
Runs.v
