(* ===== verification/Prelude.v ===== *)
(** * NetScope: a verification library for a bounds-checked packet analyser

    NetScope ([src/]) captures Ethernet frames with libpcap, decodes them (Ethernet, ARP, IPv4,
    IPv6, TCP, UDP, ICMP, ICMPv6, DNS), counts conversations and prints packets as text or JSON.
    This library translates all of its C code into executable Rocq functions and proves what
    makes them correct.

    ** The program and its models

    The parts call each other from top to bottom; a file models the sources named next to it.

    - [Prelude] and [CMem]: no program code.  The error monad [M] whose faults are C's undefined
      behaviour, bytes, lists addressed by integers, machine-width arithmetic ([u8c] to [u64c],
      [szadd]), character buffers with uninitialised bytes, [snprintf], C strings, decimal and
      hexadecimal text.
    - [Util], [Ipv6Text], [HexDump] ([src/src/util.c]): bounds-checked readers, the text of MAC,
      IPv4 and IPv6 addresses, the hex dump.
    - [Proto], [Link], [Network], [Transport] ([src/src/protocols/*.c] but DNS): the parsers.
    - [DnsName], [Dns] ([src/src/protocols/dns.c]): name decompression, records, messages.
    - [Packet] ([src/src/packet.c]): the dispatcher [ns_packet_parse].  The unions of the packet
      are tagged with the member stored last; reading another one is a fault.
    - [FlowTable], [Stats] ([src/src/stats.c]): the hash table of conversations, the counters.
    - [Filter] ([src/src/filter.c]): the capture filter from the options.
    - [Config] ([src/src/config.c], [version.h]): the command line, help and version texts.
    - [Clock], [Binary64]: the calendar functions of the C library and IEEE 754 doubles as far as
      the sources use them.
    - [Report] (the rest of [stats.c], [ns_format_bytes]): the statistics report.
    - [Json]: no program code; JSON values, a writer and an independent reader.
    - [Output] ([src/src/output.c]): text line, verbose block and JSON line of a packet;
      [OutputText], [OutputJson]: the reference texts and documents they are proved to print.
    - [System]: the calls to libpcap and the operating system, as events; [src/src/log.c] and
      [src/src/signal_handler.c].
    - [Capture] ([src/src/capture.c]) and [Main] ([src/src/main.c]): sessions and the program.
      The local structures of [main] are passed along; the globals, the streams and the trace of
      calls are the record [world].
    - [Protocol], [SessionSteps], [Session], [Program], [Runs]: no program code; the protocol of
      calls as an automaton, which also records what the environment answered (refusals, link
      type, terminal, clock), a program logic, and the proofs about sessions and [main].

    ** Interfaces

    Code that is not under [src/] is a parameter, a class with its documented behaviour as laws
    and a concrete instance the witnesses use: [GetoptLong] (instance [simple_getopt]),
    [LocalTime] ([utc]), [Qsort] ([merge_qsort]), [System] with [SystemLaws] ([sample_system]):
    the answers of libpcap and the system, as functions of the trace so far, and the moments at
    which signals arrive.  Nothing is assumed about which calls succeed.  That delivered packets
    have [caplen] bytes and time stamps in range is a law; that the source ends, that libpcap
    honours [pcap_breakloop] within [K] packets, and that link types have names when debug
    messages are on ([names_known]; [Runs.unnamed_link_faults] shows why) are hypotheses of the
    theorems that need them.

    ** The theorems

    - Memory safety and soundness of decoding, for all frames ([Packet.packet_parse_sound],
      [Dns.dns_message_exact], [DnsName.dns_name_exact], [Util.readers_exact],
      [Network.extension_walk_exact]); completeness, and that only broken layers are flagged
      ([Packet.packet_parse_complete]); independence from what lies behind the captured bytes
      ([Packet.packet_parse_local]).
    - Round trips: every header built by the encoders of this library is parsed back, up to a
      whole UDP frame; addresses, TCP flags and DNS names are recovered from their texts.
      IPv6 addresses are printed as RFC 5952, section 4, says ([Ipv6Text.ipv6_text_roundtrip]).
    - Refinement: the flow table is a bounded finite map ([FlowTable.flow_table_refines]); the
      counters are counts ([Stats.stats_run_exact]); the report shows them
      ([Report.stats_report_exact]), with its double arithmetic proved exact or correctly rounded
      for fewer than 2^38 packets and byte counts below 2^53 ([Report.percentage_exact],
      [Report.format_bytes_exact]).
    - Text and JSON output equal their references and no buffer cuts them
      ([OutputJson.output_packet_exact], for options with a documented effect together;
      [OutputJson.json_line_valid]).
    - The command line: the declarative configuration ([Config.config_parse_exact]), its type
      invariant ([Config.config_well_formed]), ports ([Config.port_exact]), and the filter, for
      host names that fit their piece of the expression ([Filter.filter_exact]).
    - Whole runs: the outcomes of [main], with the messages, log, colors and duration the answers
      of the environment call for ([Runs.main_exact]), resource and call discipline with signals
      between any two calls ([Runs.main_obeys_protocol]), the end of a capture on a stop request
      ([Runs.stop_request_ends_capture]), and the requests that are lost
      ([Runs.early_stop_request_lost]).

    Where the code departs from its documentation, the theorem leaves the case out and an [Example]
    next to it shows what happens: eight extension headers ([Network.eight_extensions_rejected]),
    later IPv6 fragments ([Packet.ipv6_late_fragment_misread]), long host names
    ([Filter.filter_cuts_long_host]), ports with signs ([Config.port_with_sign_and_space]), JSON
    with [--quiet] ([OutputJson.json_ignores_quiet]) or with a report on the same stream
    ([Runs.live_json_mixes_report]), nameless link types ([Runs.unnamed_link_faults]).

    ** Loops and fuel

    Loops over data recurse on it.  The others have fuel, and a theorem shows it is enough for
    every input: 8 turns for IPv6 extension headers, 1024 for the table probe, 5 for the units of
    [ns_format_bytes], the bound of [decode_name_loop] on labels and pointers.  Only [pcap_loop]
    can run for ever: its fuel bounds the packets of a session, and [enough] says when it suffices.

    ** Not modelled

    The Windows and macOS branches of the preprocessor; failing writes to the streams, whose
    results the sources ignore (the hex dump, which stops at a failed write, is modelled with any
    writer); the interleaving of standard output and standard error; the process before [main]
    and after it.  Two signals between the same two calls act as one.  The tests under
    [src/tests] and the build files are not part of the model. *)

From Stdlib Require Export ZArith Strings.Byte.
From stdpp Require Export base numbers list strings option.

#[global] Open Scope Z_scope.

(** ** Undefined behaviour as a value

    C code is translated into the error monad [M]: [Done a] is a run that ends with the
    value [a]; [Fault f] is a run that leaves the C abstract machine (an access outside
    an object or through a null pointer, the use of an uninitialised local, the use of a union member that is not the
    one stored) or that exhausts the fuel given to a
    loop.  "The code never faults" is therefore a memory-safety and termination
    statement. *)

Inductive fault := OutOfBounds | NullPointer | Uninitialised | WrongMember | OutOfFuel.

Inductive M (A : Type) : Type :=
  | Done (a : A)
  | Fault (f : fault).
Arguments Done {A} a.
Arguments Fault {A} f.

#[global] Instance M_ret : MRet M := fun A a => Done a.
#[global] Instance M_bind : MBind M := fun A B k m =>
  match m with
  | Done a => k a
  | Fault f => Fault f
  end.

(** [wp m Q]: the run [m] does not fault and its value satisfies [Q]. *)
Definition wp {A} (m : M A) (Q : A -> Prop) : Prop :=
  match m with
  | Done a => Q a
  | Fault _ => False
  end.

Lemma wp_done {A} (m : M A) Q : wp m Q <-> exists a, m = Done a /\ Q a.
Proof. destruct m; simpl; split; [eauto|by intros (? & [= ->] & ?)|done|by intros (? & ? & ?)]. Qed.

Lemma wp_bind {A B} (m : M A) (k : A -> M B) Q :
  wp m (fun a => wp (k a) Q) -> wp (m ≫= k) Q.
Proof. destruct m; done. Qed.

Lemma wp_mono {A} (m : M A) (P Q : A -> Prop) :
  wp m P -> (forall a, P a -> Q a) -> wp m Q.
Proof. destruct m; simpl; auto. Qed.

(** Two runs that start alike and continue alike are equal. *)
Lemma bind_ext {A B} (m m' : M A) (k k' : A -> M B) :
  m = m' -> (forall a, m = Done a -> k a = k' a) -> (m ≫= k) = (m' ≫= k').
Proof. intros <- H. destruct m; [by apply H|done]. Qed.

(** Reading a local that was never assigned. *)
Definition use_init {A} (o : option A) : M A :=
  match o with
  | Some a => Done a
  | None => Fault Uninitialised
  end.

(** ** Tactics *)

Create HintDb netscope.

(** Splits on every boolean comparison of the goal, turning it into a proposition. *)
Ltac zcase :=
  match goal with
  | |- context [?a <=? ?b] => destruct (Z.leb_spec a b)
  | |- context [?a <? ?b] => destruct (Z.ltb_spec a b)
  | |- context [?a =? ?b] => destruct (Z.eqb_spec a b)
  end.

(** Runs the binds whose first computation is done. *)
Ltac mred := cbn [mbind M_bind].

Ltac zcases := repeat (zcase; simpl; try lia).

(** ** Bytes *)

#[global] Instance byte_eq_decision : EqDecision byte := Byte.byte_eq_dec.

(** The unsigned value of a byte, and the byte a value is stored as (modulo 256). *)
Definition bv (b : byte) : Z := Z.of_N (Byte.to_N b).
Definition zb (z : Z) : byte := default x00 (Byte.of_N (Z.to_N (z mod 256))).

Lemma bv_range b : 0 <= bv b < 256.
Proof. unfold bv. pose proof (Byte.to_N_bounded b). lia. Qed.

Lemma bv_inj b1 b2 : bv b1 = bv b2 -> b1 = b2.
Proof.
  unfold bv. intros H%N2Z.inj. pose proof (Byte.of_to_N b1). pose proof (Byte.of_to_N b2).
  congruence.
Qed.

Lemma bv_zb z : bv (zb z) = z mod 256.
Proof.
  unfold bv, zb. pose proof (Z.mod_pos_bound z 256 ltac:(lia)).
  destruct (Byte.of_N (Z.to_N (z mod 256))) as [b|] eqn:E; simpl.
  - apply Byte.to_of_N in E. lia.
  - apply Byte.of_N_None_iff in E. lia.
Qed.

Lemma bv_zb_small z : 0 <= z < 256 -> bv (zb z) = z.
Proof. intros. rewrite bv_zb. by apply Z.mod_small. Qed.

Lemma zb_bv b : zb (bv b) = b.
Proof. apply bv_inj. rewrite bv_zb. apply Z.mod_small, bv_range. Qed.

Lemma zb_mod z : zb (z mod 256) = zb z.
Proof. unfold zb. by rewrite Z.mod_mod by lia. Qed.

(** Text literals: the bytes of an ASCII string constant, without its terminator. *)
Definition txt (s : string) : list byte := String.list_byte_of_string s.

(** ** Lists of bytes addressed by [Z] *)

Definition zlen {A} (l : list A) : Z := Z.of_nat (length l).

(** [slice l off n]: the [n] elements of [l] from offset [off]. *)
Definition slice {A} (l : list A) (off n : Z) : list A :=
  take (Z.to_nat n) (drop (Z.to_nat off) l).

Section lists.
Context {A : Type}.
Implicit Types l : list A.

Lemma zlen_nonneg l : 0 <= zlen l.
Proof. unfold zlen. lia. Qed.

Lemma zlen_app l1 l2 : zlen (l1 ++ l2) = zlen l1 + zlen l2.
Proof. unfold zlen. rewrite length_app. lia. Qed.

Lemma zlen_cons x l : zlen (x :: l) = 1 + zlen l.
Proof. unfold zlen. simpl length. lia. Qed.

Lemma zlen_nil : zlen (@nil A) = 0.
Proof. done. Qed.

Lemma zlen_take n l : zlen (take n l) = Z.min (Z.of_nat n) (zlen l).
Proof. unfold zlen. rewrite length_take. lia. Qed.

Lemma zlen_drop n l : zlen (drop n l) = Z.max 0 (zlen l - Z.of_nat n).
Proof. unfold zlen. rewrite length_drop. lia. Qed.

Lemma zlen_slice l off n :
  0 <= off -> 0 <= n -> off + n <= zlen l -> zlen (slice l off n) = n.
Proof. intros. unfold slice. rewrite zlen_take, zlen_drop. lia. Qed.

Lemma slice_take l off n (k : nat) :
  0 <= off -> 0 <= n -> off + n <= Z.of_nat k -> slice (take k l) off n = slice l off n.
Proof.
  intros. unfold slice.
  rewrite <- (take_drop k l) at 2.
  destruct (decide (k <= length l)%nat) as [Hk|Hk].
  - rewrite drop_app_le by (rewrite length_take; lia).
    rewrite take_app_le; [done|]. rewrite length_drop, length_take. lia.
  - rewrite (drop_ge l k) by lia. by rewrite app_nil_r.
Qed.

Lemma slice_app_l l1 l2 off n :
  0 <= off -> 0 <= n -> off + n <= zlen l1 -> slice (l1 ++ l2) off n = slice l1 off n.
Proof.
  intros ? ? Hle. unfold zlen in Hle. unfold slice.
  rewrite drop_app_le by lia. rewrite take_app_le; [done|]. rewrite length_drop. lia.
Qed.

Lemma slice_app_r l1 l2 off n :
  zlen l1 <= off -> slice (l1 ++ l2) off n = slice l2 (off - zlen l1) n.
Proof.
  intros Hle. unfold zlen in *. unfold slice. rewrite drop_app_ge by lia. do 2 f_equal. lia.
Qed.

Lemma slice_all l n : n = zlen l -> slice l 0 n = l.
Proof. intros ->. unfold slice, zlen. rewrite Nat2Z.id, drop_0. by rewrite take_ge. Qed.

Lemma slice_drop l k off n :
  0 <= k -> 0 <= off -> slice (drop (Z.to_nat k) l) off n = slice l (k + off) n.
Proof. intros. unfold slice. rewrite drop_drop. do 2 f_equal. lia. Qed.

Lemma slice_split l off n m :
  0 <= off -> 0 <= n -> 0 <= m ->
  slice l off (n + m) = slice l off n ++ slice l (off + n) m.
Proof.
  intros. unfold slice. rewrite !Z2Nat.inj_add by lia.
  by rewrite <- drop_drop, take_take_drop.
Qed.

Lemma slice_cons l off n x :
  0 <= off -> 0 < n -> l !! Z.to_nat off = Some x ->
  slice l off n = x :: slice l (off + 1) (n - 1).
Proof.
  intros ? ? Hx. unfold slice. rewrite (drop_S _ _ _ Hx).
  replace (Z.to_nat n) with (S (Z.to_nat (n - 1))) by lia. simpl. do 3 f_equal. lia.
Qed.

Lemma slice_zero l off : slice l off 0 = [].
Proof. done. Qed.

(** Two lists of a known small length are determined by their elements. *)
Lemma zlen_inv_nil l : zlen l = 0 -> l = [].
Proof. unfold zlen. intros. apply nil_length_inv. lia. Qed.
End lists.

#[global] Hint Rewrite @zlen_app @zlen_cons @zlen_nil @zlen_take @zlen_drop : zlen.

Ltac zlen := autorewrite with zlen in *.

(** ** Big- and little-endian integers *)

Definition be (bs : list byte) : Z := fold_left (fun a b => a * 256 + bv b) bs 0.

Fixpoint to_be (n : nat) (z : Z) : list byte :=
  match n with
  | O => []
  | S n => to_be n (z / 256) ++ [zb z]
  end.

Fixpoint le (bs : list byte) : Z :=
  match bs with
  | [] => 0
  | b :: bs => bv b + 256 * le bs
  end.

Fixpoint to_le (n : nat) (z : Z) : list byte :=
  match n with
  | O => []
  | S n => zb z :: to_le n (z / 256)
  end.

Lemma be_snoc bs b : be (bs ++ [b]) = be bs * 256 + bv b.
Proof. unfold be. by rewrite fold_left_app. Qed.

Lemma be_range bs : 0 <= be bs < 256 ^ zlen bs.
Proof.
  induction bs as [|b bs IH] using rev_ind; [done|].
  rewrite be_snoc, zlen_app. change (zlen [b]) with 1.
  rewrite Z.pow_add_r by (try apply zlen_nonneg; lia). pose proof (bv_range b). lia.
Qed.

Lemma length_to_be n z : length (to_be n z) = n.
Proof. revert z. induction n; intros; simpl; [done|]. rewrite length_app, IHn. simpl. lia. Qed.

Lemma zlen_to_be n z : zlen (to_be n z) = Z.of_nat n.
Proof. unfold zlen. by rewrite length_to_be. Qed.

Lemma be_to_be n z : 0 <= z < 256 ^ Z.of_nat n -> be (to_be n z) = z.
Proof.
  revert z. induction n as [|n IH]; intros z Hz; [simpl in *; unfold be; simpl; lia|].
  simpl to_be. rewrite be_snoc, bv_zb, IH.
  - pose proof (Z.div_mod z 256). lia.
  - rewrite Nat2Z.inj_succ, Z.pow_succ_r in Hz by lia.
    split; [apply Z.div_pos; lia|]. apply Z.div_lt_upper_bound; lia.
Qed.

Lemma to_be_be bs : to_be (length bs) (be bs) = bs.
Proof.
  induction bs as [|b bs IH] using rev_ind; [done|].
  rewrite length_app, Nat.add_1_r. simpl. rewrite be_snoc. pose proof (bv_range b).
  rewrite Z.div_add_l, Z.div_small, Z.add_0_r, IH by lia. f_equal.
  rewrite <- zb_mod, Z.add_comm, Z.mod_add, Z.mod_small by lia. by rewrite zb_bv.
Qed.

Lemma be_inj bs1 bs2 : length bs1 = length bs2 -> be bs1 = be bs2 -> bs1 = bs2.
Proof. intros Hl Hb. rewrite <- (to_be_be bs1), <- (to_be_be bs2). congruence. Qed.

Lemma le_range bs : 0 <= le bs < 256 ^ zlen bs.
Proof.
  induction bs as [|b bs IH]; [done|]. simpl le. rewrite zlen_cons.
  rewrite Z.pow_add_r by (try apply zlen_nonneg; lia). pose proof (bv_range b). lia.
Qed.

Lemma to_le_le bs : to_le (length bs) (le bs) = bs.
Proof.
  induction bs as [|b bs IH]; [done|]. simpl. pose proof (bv_range b). f_equal.
  - rewrite <- zb_mod. rewrite (Z.mul_comm 256), Z.mod_add, Z.mod_small by lia. apply zb_bv.
  - rewrite (Z.mul_comm 256), Z.div_add, Z.div_small by lia. done.
Qed.

Lemma length_to_le n z : length (to_le n z) = n.
Proof. revert z. induction n; intros; simpl; auto. Qed.

Lemma le_to_le n z : 0 <= z < 256 ^ Z.of_nat n -> le (to_le n z) = z.
Proof.
  revert z. induction n as [|n IH]; intros z Hz; [simpl in *; lia|].
  simpl. rewrite bv_zb, IH.
  - pose proof (Z.div_mod z 256). lia.
  - rewrite Nat2Z.inj_succ, Z.pow_succ_r in Hz by lia.
    split; [apply Z.div_pos; lia|]. apply Z.div_lt_upper_bound; lia.
Qed.

(** ** Joining and splitting on a separator *)

Fixpoint join (sep : list byte) (fs : list (list byte)) : list byte :=
  match fs with
  | [] => []
  | [f] => f
  | f :: fs => f ++ sep ++ join sep fs
  end.

Fixpoint split_on (c : byte) (s : list byte) : list (list byte) :=
  match s with
  | [] => [[]]
  | x :: s =>
      if decide (x = c) then [] :: split_on c s
      else match split_on c s with
           | [] => [[x]]
           | f :: fs => (x :: f) :: fs
           end
  end.

Lemma split_on_none c f : c ∉ f -> split_on c f = [f].
Proof.
  induction f as [|x f IH]; [done|]. rewrite not_elem_of_cons. intros [Hx Hf]. simpl.
  rewrite decide_False by congruence. by rewrite IH.
Qed.

Lemma split_on_app c f s : c ∉ f -> split_on c (f ++ c :: s) = f :: split_on c s.
Proof.
  induction f as [|x f IH]; simpl; [by rewrite decide_True|].
  rewrite not_elem_of_cons. intros [Hx Hf]. rewrite decide_False by congruence. by rewrite IH.
Qed.

Lemma split_on_join c fs : fs <> [] -> Forall (fun f => c ∉ f) fs -> split_on c (join [c] fs) = fs.
Proof.
  intros Hne. induction 1 as [|f fs Hf Hfs IH]; [done|].
  destruct fs as [|f' fs]; [by apply split_on_none|].
  change (join [c] (f :: f' :: fs)) with (f ++ c :: join [c] (f' :: fs)).
  rewrite split_on_app by done. by rewrite IH.
Qed.

Lemma join_cons sep f fs : fs <> [] -> join sep (f :: fs) = f ++ sep ++ join sep fs.
Proof. by destruct fs. Qed.

Lemma join_snoc sep fs f : fs <> [] -> join sep (fs ++ [f]) = join sep fs ++ sep ++ f.
Proof.
  induction fs as [|g fs IH]; [done|]. intros _. destruct fs as [|g' fs]; [done|].
  change ((g :: g' :: fs) ++ [f]) with (g :: ((g' :: fs) ++ [f])).
  rewrite !join_cons by done. rewrite IH by done. by rewrite <- !app_assoc.
Qed.

Lemma join_app sep fs gs :
  fs <> [] -> gs <> [] -> join sep (fs ++ gs) = join sep fs ++ sep ++ join sep gs.
Proof.
  intros Hf Hg. induction fs as [|f fs IH]; [done|]. destruct fs as [|f' fs].
  - simpl. by destruct gs.
  - change ((f :: f' :: fs) ++ gs) with (f :: ((f' :: fs) ++ gs)).
    rewrite !join_cons by done. rewrite IH by done. by rewrite <- !app_assoc.
Qed.
