(* ===== verification/CMem.v ===== *)
(** * The fragment of C that NetScope is written in

    [size_t] arithmetic at its width, packet buffers, character buffers with
    indeterminate contents, and the library functions the sources call on them
    ([memcpy], [snprintf], [strcmp], number formatting).

    Platform: 64-bit [size_t], little-endian object representation, 32-bit [int] and
    enumerations. *)

From S2P Require Import Prelude.

(** ** Integers at their width *)

Definition is_size (n : Z) : Prop := 0 <= n < 2 ^ 64.

Definition szadd (a b : Z) : Z := (a + b) mod 2 ^ 64.
Definition szsub (a b : Z) : Z := (a - b) mod 2 ^ 64.
Definition szmul (a b : Z) : Z := (a * b) mod 2 ^ 64.

Definition u8c (z : Z) : Z := z mod 2 ^ 8.
Definition u16c (z : Z) : Z := z mod 2 ^ 16.
Definition u32c (z : Z) : Z := z mod 2 ^ 32.
Definition u64c (z : Z) : Z := z mod 2 ^ 64.

Lemma szadd_small a b : 0 <= a + b < 2 ^ 64 -> szadd a b = a + b.
Proof. intros. by apply Z.mod_small. Qed.

Lemma szsub_small a b : 0 <= a - b < 2 ^ 64 -> szsub a b = a - b.
Proof. intros. by apply Z.mod_small. Qed.

Lemma szsub_szsub a b c : szsub (szsub a b) c = szsub a (b + c).
Proof. unfold szsub. rewrite Zminus_mod_idemp_l. f_equal. lia. Qed.

Lemma szmul_small a b : 0 <= a * b < 2 ^ 64 -> szmul a b = a * b.
Proof. intros. by apply Z.mod_small. Qed.

Lemma u8c_small z : 0 <= z < 256 -> u8c z = z.
Proof. intros. apply Z.mod_small. lia. Qed.

Lemma u16c_small z : 0 <= z < 65536 -> u16c z = z.
Proof. intros. apply Z.mod_small. lia. Qed.

Lemma u32c_small z : 0 <= z < 4294967296 -> u32c z = z.
Proof. intros. apply Z.mod_small. lia. Qed.

(** Masks and shifts as arithmetic. *)
Lemma land_mask z n : 0 <= n -> Z.land z (2 ^ n - 1) = z mod 2 ^ n.
Proof. intros. rewrite <- Z.land_ones by lia. f_equal. rewrite Z.ones_equiv. lia. Qed.

Lemma lor_shiftl_add a b n : 0 <= n -> 0 <= b < 2 ^ n -> Z.lor (Z.shiftl a n) b = a * 2 ^ n + b.
Proof.
  intros Hn Hb. rewrite <- Z.shiftl_mul_pow2 by lia.
  symmetry. rewrite Z.add_nocarry_lxor; [apply Z.lxor_lor|]; apply Z.bits_inj'; intros i Hi;
    rewrite Z.land_spec, Z.bits_0, Z.shiftl_spec by lia;
    (destruct (Z.ltb_spec i n);
      [rewrite (Z.testbit_neg_r a) by lia; apply andb_false_l|]);
    rewrite <- (Z.mod_small b (2 ^ n)) by lia; rewrite Z.mod_pow2_bits_high by lia;
    apply andb_false_r.
Qed.

Lemma land_bit z n : 0 <= n -> negb (Z.land z (2 ^ n) =? 0) = Z.testbit z n.
Proof.
  intros Hn. assert (E : Z.land z (2 ^ n) = if Z.testbit z n then 2 ^ n else 0).
  { apply Z.bits_inj'. intros i Hi. rewrite Z.land_spec.
    destruct (decide (i = n)) as [->|].
    - rewrite Z.pow2_bits_true, andb_true_r by lia. destruct (Z.testbit z n).
      + by rewrite Z.pow2_bits_true.
      + by rewrite Z.bits_0.
    - rewrite Z.pow2_bits_false, andb_false_r by lia. destruct (Z.testbit z n).
      + by rewrite Z.pow2_bits_false.
      + by rewrite Z.bits_0. }
  rewrite E. destruct (Z.testbit z n); [|done]. pose proof (Z.pow_pos_nonneg 2 n).
  destruct (Z.eqb_spec (2 ^ n) 0); [lia|done].
Qed.

(** ** Packet buffers

    A [const uint8_t *data] argument is the list of the bytes from [data] to the end of
    the object it points into; the [length] argument that travels with it is separate, and
    [view_ok] is the caller's promise about the two. *)

Definition view_ok (data : list byte) (length : Z) : Prop :=
  0 <= length <= zlen data /\ length < 2 ^ 64.

Definition view (data : list byte) (length : Z) : list byte := take (Z.to_nat length) data.

(** [data[i]] *)
Definition rd (data : list byte) (i : Z) : M Z :=
  if 0 <=? i then
    match data !! Z.to_nat i with
    | Some b => Done (bv b)
    | None => Fault OutOfBounds
    end
  else Fault OutOfBounds.

(** the source side of [memcpy(dst, data + off, n)] *)
Definition rd_bytes (data : list byte) (off n : Z) : M (list byte) :=
  if (0 <=? off) && (0 <=? n) && (off + n <=? zlen data)
  then Done (slice data off n) else Fault OutOfBounds.

(** [data + off]: forming a pointer past one-past-the-end is undefined *)
Definition ptr_add (data : list byte) (off : Z) : M (list byte) :=
  if (0 <=? off) && (off <=? zlen data)
  then Done (drop (Z.to_nat off) data) else Fault OutOfBounds.

(** Pure counterparts, total on every offset. *)
Definition u8_at (bs : list byte) (i : Z) : Z := be (slice bs i 1).
Definition u16_at (bs : list byte) (i : Z) : Z := be (slice bs i 2).
Definition u32_at (bs : list byte) (i : Z) : Z := be (slice bs i 4).
Definition u64_at (bs : list byte) (i : Z) : Z := be (slice bs i 8).

Lemma zlen_view data length : view_ok data length -> zlen (view data length) = length.
Proof. intros [? ?]. unfold view. rewrite zlen_take. lia. Qed.

Lemma view_view data length : view (view data length) length = view data length.
Proof. unfold view. by rewrite take_take, Nat.min_id. Qed.

Lemma view_ok_view data length : view_ok data length -> view_ok (view data length) length.
Proof. intros H. unfold view_ok. rewrite zlen_view by done. destruct H. lia. Qed.

Lemma view_all data : view data (zlen data) = data.
Proof. unfold view, zlen. by rewrite Nat2Z.id, firstn_all. Qed.

Lemma view_ok_all data : zlen data < 2 ^ 64 -> view_ok data (zlen data).
Proof. unfold view_ok. pose proof (zlen_nonneg data). lia. Qed.

Lemma slice_view data length off n :
  0 <= off -> 0 <= n -> off + n <= length -> slice (view data length) off n = slice data off n.
Proof. intros. apply slice_take; lia. Qed.

Lemma rd_slice data i b bs : 0 <= i -> slice data i 1 = b :: bs -> rd data i = Done (bv b).
Proof.
  intros Hi. unfold slice, rd. destruct (Z.leb_spec 0 i); [|lia].
  destruct (data !! Z.to_nat i) eqn:E.
  - rewrite (drop_S _ _ _ E). change (Z.to_nat 1) with 1%nat. simpl. by intros [= -> _].
  - rewrite drop_ge by (by apply lookup_ge_None). done.
Qed.

Lemma rd_done data i : 0 <= i < zlen data -> rd data i = Done (u8_at data i).
Proof.
  intros Hi. pose proof (zlen_slice data i 1 ltac:(lia) ltac:(lia) ltac:(lia)) as Hl.
  unfold u8_at. destruct (slice data i 1) as [|b [|b' l]] eqn:E; zlen; try lia.
  - by rewrite (rd_slice data i b []) by (done || lia).
  - pose proof (zlen_nonneg l). lia.
Qed.

Lemma rd_bytes_done data off n :
  0 <= off -> 0 <= n -> off + n <= zlen data -> rd_bytes data off n = Done (slice data off n).
Proof. intros. unfold rd_bytes. by zcases. Qed.

Lemma ptr_add_done data off :
  0 <= off <= zlen data -> ptr_add data off = Done (drop (Z.to_nat off) data).
Proof. intros. unfold ptr_add. by zcases. Qed.

Lemma u8_at_range bs i : 0 <= u8_at bs i < 256.
Proof.
  unfold u8_at. pose proof (be_range (slice bs i 1)).
  assert (zlen (slice bs i 1) <= 1) by (unfold slice; zlen; lia).
  pose proof (Z.pow_le_mono_r 256 (zlen (slice bs i 1)) 1). lia.
Qed.

Lemma u16_at_range bs i : 0 <= u16_at bs i < 65536.
Proof.
  unfold u16_at. pose proof (be_range (slice bs i 2)).
  assert (zlen (slice bs i 2) <= 2) by (unfold slice; zlen; lia).
  pose proof (Z.pow_le_mono_r 256 (zlen (slice bs i 2)) 2). lia.
Qed.

Lemma u32_at_range bs i : 0 <= u32_at bs i < 4294967296.
Proof.
  unfold u32_at. pose proof (be_range (slice bs i 4)).
  assert (zlen (slice bs i 4) <= 4) by (unfold slice; zlen; lia).
  pose proof (Z.pow_le_mono_r 256 (zlen (slice bs i 4)) 4). lia.
Qed.

Lemma be_slice_split bs i n :
  0 <= i -> 0 <= n -> i + n + 1 <= zlen bs ->
  be (slice bs i (n + 1)) = be (slice bs i n) * 256 + u8_at bs (i + n).
Proof.
  intros. rewrite slice_split by lia. unfold u8_at.
  pose proof (zlen_slice bs (i + n) 1 ltac:(lia) ltac:(lia) ltac:(lia)) as Hl.
  destruct (slice bs (i + n) 1) as [|b [|b' l]]; zlen; try lia.
  - rewrite be_snoc. by unfold be.
  - pose proof (zlen_nonneg l). lia.
Qed.

(** ** Character buffers

    A [char buf[N]] is a list of [N] cells; [None] is an indeterminate cell. *)

Abbreviation cbuf := (list (option byte)).

Definition uninit_buf (n : Z) : cbuf := replicate (Z.to_nat n) None.
Definition zero_buf (n : Z) : cbuf := replicate (Z.to_nat n) (Some x00).

(** [memcpy(buf + pos, bs, |bs|)] *)
Definition buf_copy (buf : cbuf) (pos : Z) (bs : list byte) : M cbuf :=
  if (0 <=? pos) && (pos + zlen bs <=? zlen buf)
  then Done (take (Z.to_nat pos) buf ++ (Some <$> bs) ++ drop (Z.to_nat (pos + zlen bs)) buf)
  else Fault OutOfBounds.

(** [buf[pos] = b] *)
Definition buf_set (buf : cbuf) (pos : Z) (b : byte) : M cbuf := buf_copy buf pos [b].

(** [snprintf(buf + pos, n, ...)] with the already formatted [text]: at most [n - 1] bytes
    and a terminator are stored; the value is the untruncated length. *)
Definition buf_snprintf (buf : cbuf) (pos n : Z) (text : list byte) : M (cbuf * Z) :=
  if n =? 0 then Done (buf, zlen text)
  else buf' ← buf_copy buf pos (take (Z.to_nat (n - 1)) text ++ [x00]); Done (buf', zlen text).

(** Reading the C string stored in a buffer. *)
Fixpoint cstring (buf : cbuf) : M (list byte) :=
  match buf with
  | [] => Fault OutOfBounds
  | None :: _ => Fault Uninitialised
  | Some c :: buf =>
      if decide (c = x00) then Done [] else s ← cstring buf; Done (c :: s)
  end.

(** The C string a caller sees when the bytes [s] are followed by a terminator. *)
Fixpoint until_nul (s : list byte) : list byte :=
  match s with
  | [] => []
  | c :: s => if decide (c = x00) then [] else c :: until_nul s
  end.

(** The string left in a fresh buffer of [n > 0] bytes by [snprintf(buf, n, "%s", s)]. *)
Definition sn (n : Z) (s : list byte) : list byte := take (Z.to_nat (n - 1)) s.

Definition no_nul (s : list byte) : Prop := x00 ∉ s.

#[global] Instance no_nul_dec s : Decision (no_nul s) := _.

(** [holds buf s]: the buffer starts with the bytes [s] followed by a terminator. *)
Definition holds (buf : cbuf) (s : list byte) : Prop :=
  exists rest, buf = (Some <$> s) ++ Some x00 :: rest.

Lemma zlen_fmap {A B} (f : A -> B) l : zlen (f <$> l) = zlen l.
Proof. unfold zlen. by rewrite length_fmap. Qed.

Lemma zlen_buf_copy buf pos bs buf' : buf_copy buf pos bs = Done buf' -> zlen buf' = zlen buf.
Proof.
  unfold buf_copy. zcases; intros [= <-]. zlen. rewrite zlen_fmap.
  pose proof (zlen_nonneg bs). lia.
Qed.

Lemma buf_copy_done buf pos bs :
  0 <= pos -> pos + zlen bs <= zlen buf ->
  buf_copy buf pos bs =
    Done (take (Z.to_nat pos) buf ++ (Some <$> bs) ++ drop (Z.to_nat (pos + zlen bs)) buf).
Proof. intros. unfold buf_copy. by zcases. Qed.

(** Appending [bs] right after an already written prefix [s]. *)
Lemma buf_copy_append (s bs : list byte) (rest : cbuf) :
  zlen bs <= zlen rest ->
  buf_copy ((Some <$> s) ++ rest) (zlen s) bs
  = Done ((Some <$> (s ++ bs)) ++ drop (length bs) rest).
Proof.
  intros. pose proof (zlen_nonneg s). pose proof (zlen_nonneg bs).
  rewrite buf_copy_done by (rewrite ?zlen_app, ?zlen_fmap; lia). f_equal.
  unfold zlen. rewrite Nat2Z.id, fmap_app, <- app_assoc.
  rewrite take_app_length' by (by rewrite length_fmap). do 2 f_equal.
  rewrite drop_app_ge by (rewrite length_fmap; lia). f_equal. rewrite length_fmap. lia.
Qed.

Lemma buf_set_append (s : list byte) (rest : cbuf) b :
  1 <= zlen rest ->
  buf_set ((Some <$> s) ++ rest) (zlen s) b = Done ((Some <$> (s ++ [b])) ++ drop 1 rest).
Proof. intros. unfold buf_set. by rewrite buf_copy_append. Qed.

Lemma buf_snprintf_append (s text : list byte) (rest : cbuf) n :
  zlen text < n -> zlen text < zlen rest ->
  buf_snprintf ((Some <$> s) ++ rest) (zlen s) n text
  = Done ((Some <$> (s ++ text)) ++ Some x00 :: drop (S (length text)) rest, zlen text).
Proof.
  intros. pose proof (zlen_nonneg text). unfold buf_snprintf.
  destruct (Z.eqb_spec n 0); [lia|]. rewrite take_ge by (unfold zlen in *; lia).
  rewrite buf_copy_append by (zlen; lia). mred. do 2 f_equal.
  rewrite (app_assoc s), (fmap_app _ (s ++ text)), <- app_assoc. f_equal.
  rewrite length_app, Nat.add_1_r. done.
Qed.

Lemma buf_snprintf_start buf n text :
  0 < n <= zlen buf ->
  exists buf', buf_snprintf buf 0 n text = Done (buf', zlen text)
            /\ holds buf' (sn n text) /\ zlen buf' = zlen buf.
Proof.
  intros Hn. unfold buf_snprintf. destruct (Z.eqb_spec n 0); [lia|].
  set (s := take (Z.to_nat (n - 1)) text).
  assert (zlen s <= n - 1) by (unfold s; zlen; lia).
  assert (Hz : zlen (s ++ [x00]) <= zlen buf) by (zlen; lia).
  pose proof (buf_copy_append [] (s ++ [x00]) buf Hz) as E.
  change ((Some <$> []) ++ buf) with buf in E. change (zlen (@nil byte)) with 0 in E.
  rewrite E. mred. eexists. split; [done|]. split.
  - exists (drop (length (s ++ [x00])) buf). change ([] ++ s ++ [x00]) with (s ++ [x00]).
    rewrite fmap_app, <- app_assoc. done.
  - apply (zlen_buf_copy buf 0 (s ++ [x00])). done.
Qed.

Lemma until_nul_no_nul s : no_nul s -> until_nul s = s.
Proof.
  unfold no_nul. induction s as [|c s IH]; simpl; [done|]. intros Hn.
  rewrite not_elem_of_cons in Hn. destruct Hn as [Hc Hs].
  rewrite decide_False by congruence. by rewrite IH.
Qed.

Lemma zlen_until_nul s : zlen (until_nul s) <= zlen s.
Proof. induction s as [|c s IH]; simpl; [done|]. case_decide; zlen; pose proof (zlen_nonneg s); lia. Qed.

Lemma no_nul_until_nul s : no_nul (until_nul s).
Proof.
  unfold no_nul. induction s as [|c s IH]; simpl; [apply not_elem_of_nil|].
  case_decide; [apply not_elem_of_nil|]. rewrite not_elem_of_cons. split; congruence.
Qed.

Lemma cstring_prefix s rest : cstring ((Some <$> s) ++ Some x00 :: rest) = Done (until_nul s).
Proof.
  induction s as [|c s IH]; [done|]. rewrite fmap_cons. cbn [app cstring until_nul].
  case_decide; [done|]. by rewrite IH.
Qed.

Lemma cstring_holds buf s : holds buf s -> cstring buf = Done (until_nul s).
Proof. intros [rest ->]. apply cstring_prefix. Qed.

Lemma holds_zlen buf s : holds buf s -> zlen s < zlen buf.
Proof.
  intros [rest ->]. rewrite zlen_app, zlen_fmap, zlen_cons. pose proof (zlen_nonneg rest). lia.
Qed.

(** ** Numbers as text *)

Definition digit (d : Z) : byte := zb (if d <? 10 then 48 + d else 87 + d).

(** The inverse of [digit] on the characters it produces. *)
Definition digit_val (b : byte) : Z := if bv b <? 58 then bv b - 48 else bv b - 87.

Fixpoint digits_aux (fuel : nat) (base n : Z) (acc : list byte) : list byte :=
  match fuel with
  | O => acc
  | S fuel =>
      let acc := digit (n mod base) :: acc in
      if n / base =? 0 then acc else digits_aux fuel base (n / base) acc
  end.

(** The digits of [n >= 0] in [base], without leading zeros. *)
Definition digits (base n : Z) : list byte := digits_aux (S (Z.to_nat (Z.log2 n))) base n [].

(** [%u], [%zu], [%x] and [%d] *)
Definition fmt_u (n : Z) : list byte := digits 10 n.
Definition fmt_x (n : Z) : list byte := digits 16 n.
Definition fmt_d (n : Z) : list byte := if n <? 0 then txt "-" ++ digits 10 (- n) else digits 10 n.

(** [%0wX]: left padding with zeros; [%wX] with spaces; [%-wX] on the right *)
Definition pad_left (c : byte) (w : nat) (s : list byte) : list byte :=
  replicate (w - length s) c ++ s.
Definition pad_right (c : byte) (w : nat) (s : list byte) : list byte :=
  s ++ replicate (w - length s) c.
Definition fmt_0x (w : nat) (n : Z) : list byte := pad_left x30 w (fmt_x n).

Definition undigits (base : Z) (s : list byte) : Z :=
  fold_left (fun a b => a * base + digit_val b) s 0.

Lemma digit_val_digit d : 0 <= d < 16 -> digit_val (digit d) = d.
Proof. intros. unfold digit_val, digit. zcases; rewrite !bv_zb_small in * by lia; lia. Qed.

Lemma undigits_snoc base s b : undigits base (s ++ [b]) = undigits base s * base + digit_val b.
Proof. unfold undigits. by rewrite fold_left_app. Qed.

(** One step of the digit loop, read from the most significant end. *)
Lemma digits_aux_acc fuel base n acc :
  digits_aux fuel base n acc = digits_aux fuel base n [] ++ acc.
Proof.
  revert n acc. induction fuel as [|fuel IH]; intros n acc; [done|]. cbn [digits_aux].
  destruct (n / base =? 0); [done|]. rewrite (IH _ (_ :: acc)), (IH _ [_]).
  by rewrite <- app_assoc.
Qed.

Lemma digits_fuel base n fuel :
  2 <= base -> 0 <= n < 2 ^ Z.of_nat fuel -> n / base < 2 ^ Z.of_nat (pred fuel).
Proof.
  intros. destruct fuel as [|fuel].
  - simpl in *. assert (n = 0) as -> by lia. rewrite Z.div_0_l by lia. lia.
  - simpl pred. rewrite Nat2Z.inj_succ, Z.pow_succ_r in * by lia.
    apply Z.div_lt_upper_bound; nia.
Qed.

Lemma digits_aux_spec (P : Z -> list byte -> Prop) base :
  2 <= base ->
  (forall d, 0 <= d < base -> P d [digit d]) ->
  (forall n s, base <= n -> P (n / base) s -> P n (s ++ [digit (n mod base)])) ->
  forall fuel n, 0 <= n < 2 ^ Z.of_nat fuel -> (0 < fuel)%nat -> P n (digits_aux fuel base n []).
Proof.
  intros Hb H1 H2 fuel. induction fuel as [|fuel IH]; intros n Hn Hf; [lia|].
  cbn [digits_aux]. pose proof (Z.div_mod n base ltac:(lia)).
  pose proof (Z.mod_pos_bound n base ltac:(lia)).
  destruct (Z.eqb_spec (n / base) 0) as [E|E].
  - rewrite Z.mod_small by nia. apply H1. nia.
  - rewrite digits_aux_acc.
    pose proof (digits_fuel base n (S fuel) Hb Hn). pose proof (Z.div_pos n base).
    apply H2; [nia|]. apply IH; [simpl pred in *; lia|].
    destruct fuel; [simpl in *|]; lia.
Qed.

(** Induction over the digits of a number. *)
Lemma digits_ind (P : Z -> list byte -> Prop) base :
  2 <= base ->
  (forall d, 0 <= d < base -> P d [digit d]) ->
  (forall n s, base <= n -> P (n / base) s -> P n (s ++ [digit (n mod base)])) ->
  forall n, 0 <= n -> P n (digits base n).
Proof.
  intros Hb H1 H2 n Hn. unfold digits. apply digits_aux_spec; try done; [|lia].
  split; [done|]. rewrite Nat2Z.inj_succ, Z2Nat.id by apply Z.log2_nonneg.
  destruct (decide (n = 0)) as [->|]; [done|]. apply Z.log2_spec. lia.
Qed.

Lemma undigits_digits base n : 2 <= base <= 16 -> 0 <= n -> undigits base (digits base n) = n.
Proof.
  intros Hb Hn. apply (digits_ind (fun n s => undigits base s = n)); [lia| | |done].
  - intros d Hd. unfold undigits. simpl. rewrite digit_val_digit; lia.
  - intros m s Hm IH. pose proof (Z.mod_pos_bound m base ltac:(lia)).
    rewrite undigits_snoc, digit_val_digit, IH by lia. pose proof (Z.div_mod m base). lia.
Qed.

(** The characters of a formatted number. *)
Definition is_digit (b : byte) : Prop := 48 <= bv b <= 57 \/ 97 <= bv b <= 102.

#[global] Instance is_digit_dec b : Decision (is_digit b) := _.

Lemma digit_is_digit d : 0 <= d < 16 -> is_digit (digit d).
Proof. intros. unfold is_digit, digit. zcases; rewrite bv_zb_small by lia; lia. Qed.

Lemma digits_is_digit base n : 2 <= base <= 16 -> 0 <= n -> Forall is_digit (digits base n).
Proof.
  intros Hb Hn. apply (digits_ind (fun _ s => Forall is_digit s)); [lia| | |done].
  - intros. constructor; [|done]. apply digit_is_digit. lia.
  - intros m s ? ?. apply Forall_app. split; [done|]. constructor; [|done].
    apply digit_is_digit. pose proof (Z.mod_pos_bound m base ltac:(lia)). lia.
Qed.

Lemma digits_zlen base n k :
  2 <= base -> 0 <= n < base ^ Z.of_nat k -> (0 < k)%nat -> 1 <= zlen (digits base n) <= Z.of_nat k.
Proof.
  intros Hb Hn. assert (Hn0 : 0 <= n) by lia. revert k Hn.
  apply (digits_ind (fun n s => forall k, 0 <= n < base ^ Z.of_nat k -> (0 < k)%nat ->
    1 <= zlen s <= Z.of_nat k)); [lia| | |lia].
  - intros d Hd k ? ?. change (zlen [digit d]) with 1. lia.
  - intros m s Hm IH k Hk Hk0. zlen. destruct k as [|k]; [lia|].
    rewrite Nat2Z.inj_succ, Z.pow_succ_r in Hk by lia.
    assert (k <> 0)%nat by (intros ->; simpl in Hk; lia).
    specialize (IH k). pose proof (Z.div_lt_upper_bound m base (base ^ Z.of_nat k)).
    pose proof (Z.div_pos m base). lia.
Qed.

(** Decimal digits at the start of a text. *)
Definition is_decimal (b : byte) : bool := (48 <=? bv b) && (bv b <=? 57).

Fixpoint span_decimal (s : list byte) : list byte * list byte :=
  match s with
  | c :: s' => if is_decimal c then let '(ds, r) := span_decimal s' in (c :: ds, r) else ([], s)
  | [] => ([], [])
  end.

Lemma span_decimal_app ds r :
  Forall (fun b => is_decimal b = true) ds -> match r with c :: _ => is_decimal c = false | [] => True end ->
  span_decimal (ds ++ r) = (ds, r).
Proof.
  intros Hf Hr. induction Hf as [|d ds Hd Hf IH]; cbn [app span_decimal].
  - destruct r as [|c r]; [done|]. cbn [span_decimal]. by rewrite Hr.
  - by rewrite Hd, IH.
Qed.

(** Decimal text has no leading zero, except the text of zero. *)
Lemma digits_decimal n :
  0 <= n -> Forall (fun b => is_decimal b = true) (digits 10 n) /\ digits 10 n <> [] /\
  (head (digits 10 n) = Some x30 -> n = 0).
Proof.
  intros Hn.
  assert (Hd : forall d, 0 <= d < 10 -> is_decimal (digit d) = true /\ (digit d = x30 -> d = 0)).
  { intros d Hd. unfold is_decimal, digit. destruct (Z.ltb_spec d 10); [|lia]. rewrite bv_zb_small by lia.
    split; [zcases|]. intros E%(f_equal bv). rewrite bv_zb_small in E by lia. change (bv x30) with 48 in E. lia. }
  apply (digits_ind (fun n s => Forall (fun b => is_decimal b = true) s /\ s <> [] /\
    (head s = Some x30 -> n = 0))); [lia| | |done].
  - intros d Hr. destruct (Hd d Hr) as [H1 H2]. split; [by repeat constructor|]. split; [done|].
    cbn [head]. intros E. apply H2. congruence.
  - intros m s Hm (Hf & Hne & Hh). pose proof (Z.mod_pos_bound m 10 ltac:(lia)).
    split; [apply Forall_app; split; [done|]; constructor; [by apply Hd|done]|].
    split; [by destruct s|]. destruct s as [|c s]; [done|]. intros E. specialize (Hh E).
    pose proof (Z.div_str_pos m 10). lia.
Qed.

(** Printable ASCII. *)
Definition plain (s : list byte) : Prop := Forall (fun b => 32 <= bv b < 127) s.

#[global] Instance plain_dec s : Decision (plain s) := _.

Lemma plain_app s t : plain s -> plain t -> plain (s ++ t).
Proof. intros. by apply Forall_app. Qed.

Lemma plain_no_nul s : plain s -> no_nul s.
Proof.
  intros Hs Hn. unfold plain in Hs. rewrite list.Forall_forall in Hs. specialize (Hs _ Hn).
  change (bv x00) with 0 in Hs. lia.
Qed.

Lemma plain_digits n : 0 <= n -> plain (digits 10 n).
Proof.
  intros Hn. pose proof (digits_is_digit 10 n ltac:(lia) Hn) as H. revert H. apply Forall_impl.
  intros b. unfold is_digit. lia.
Qed.

(** Concatenations of constants, digits and known plain texts. *)
Ltac plain_text :=
  repeat match goal with |- plain (_ ++ _) => apply plain_app end;
  first [assumption | apply plain_digits; lia | by apply (bool_decide_unpack _)].

(** ** [strcmp] *)

(** The sign of [strcmp(a, b)] on C strings, compared as unsigned characters. *)
Fixpoint strcmp (a b : list byte) : Z :=
  match a, b with
  | [], [] => 0
  | [], _ :: _ => -1
  | _ :: _, [] => 1
  | x :: a, y :: b => if bv x <? bv y then -1 else if bv y <? bv x then 1 else strcmp a b
  end.

Lemma strcmp_eq a b : strcmp a b = 0 <-> a = b.
Proof.
  revert b. induction a as [|x a IH]; intros [|y b]; simpl; try (split; done || lia).
  zcases; rewrite ?IH.
  - split; [lia|]. intros [= -> ->]. lia.
  - split; [lia|]. intros [= -> ->]. lia.
  - assert (x = y) as -> by (apply bv_inj; lia). split; [by intros ->|by intros [= ->]].
Qed.

Lemma strcmp_antisym a b : strcmp b a = - strcmp a b.
Proof. revert b. induction a as [|x a IH]; intros [|y b]; simpl; try done. zcases. apply IH. Qed.
