(* ===== verification/Util.v ===== *)
(** * [src/util.c]: bounds-checked readers and text formatting

    [ns_bounds_check] and the big-endian readers are the only way a parser touches packet
    bytes through an offset taken from the packet; the formatters turn addresses into the
    text the flow table and the output use. *)

From S2P Require Import Prelude CMem.

(** ** Bounds check and readers *)

Definition ns_bounds_check (length offset size : Z) : bool :=
  if offset >? length then false else size <=? szsub length offset.

(** A reader returns [Some v] for [true] with [*value = v], and [None] for [false], which
    leaves [*value] untouched. *)
Definition ns_read_u8 (data : list byte) (length offset : Z) : M (option Z) :=
  if negb (ns_bounds_check length offset 1) then Done None
  else v ← rd data offset; Done (Some v).

Definition ns_read_u16_be (data : list byte) (length offset : Z) : M (option Z) :=
  if negb (ns_bounds_check length offset 2) then Done None
  else b0 ← rd data offset;
       b1 ← rd data (szadd offset 1);
       Done (Some (u16c (Z.lor (Z.shiftl b0 8) b1))).

Definition ns_read_u32_be (data : list byte) (length offset : Z) : M (option Z) :=
  if negb (ns_bounds_check length offset 4) then Done None
  else b0 ← rd data offset;
       b1 ← rd data (szadd offset 1);
       b2 ← rd data (szadd offset 2);
       b3 ← rd data (szadd offset 3);
       Done (Some (Z.lor (Z.lor (Z.lor (u32c (Z.shiftl b0 24)) (u32c (Z.shiftl b1 16)))
                                (u32c (Z.shiftl b2 8))) b3)).

Fixpoint read_u64_loop (n : nat) (data : list byte) (offset i v : Z) : M Z :=
  match n with
  | O => Done v
  | S n => b ← rd data (szadd offset i);
           read_u64_loop n data offset (i + 1) (Z.lor (u64c (Z.shiftl v 8)) b)
  end.

Definition ns_read_u64_be (data : list byte) (length offset : Z) : M (option Z) :=
  if negb (ns_bounds_check length offset 8) then Done None
  else v ← read_u64_loop 8 data offset 0 0; Done (Some v).

(** A caller that ignores a reader's result and uses the local it fills. *)
Definition filled (r : M (option Z)) : M Z := o ← r; use_init o.

(** ** Addresses as text *)

(** [mac] is a [const uint8_t mac[6]]: reading past it would fault. *)
Definition ns_format_mac (mac : list byte) (buf_len : Z) : M (list byte) :=
  m0 ← rd mac 0; m1 ← rd mac 1; m2 ← rd mac 2; m3 ← rd mac 3; m4 ← rd mac 4; m5 ← rd mac 5;
  Done (sn buf_len (fmt_0x 2 m0 ++ txt ":" ++ fmt_0x 2 m1 ++ txt ":" ++ fmt_0x 2 m2 ++ txt ":" ++
                    fmt_0x 2 m3 ++ txt ":" ++ fmt_0x 2 m4 ++ txt ":" ++ fmt_0x 2 m5)).

(** [addr_be] is viewed through its object representation. *)
Definition ns_format_ipv4 (addr_be : Z) (buf_len : Z) : M (list byte) :=
  let b := to_le 4 addr_be in
  b0 ← rd b 0; b1 ← rd b 1; b2 ← rd b 2; b3 ← rd b 3;
  Done (sn buf_len (fmt_u b0 ++ txt "." ++ fmt_u b1 ++ txt "." ++ fmt_u b2 ++ txt "." ++ fmt_u b3)).

(** [groups[i] = addr[2i] << 8 | addr[2i + 1]] for [i < 8] *)
Fixpoint ipv6_groups (n : nat) (addr : list byte) (i : Z) : M (list Z) :=
  match n with
  | O => Done []
  | S n => hi ← rd addr (i * 2);
           lo ← rd addr (i * 2 + 1);
           gs ← ipv6_groups n addr (i + 1);
           Done (u16c (Z.lor (Z.shiftl hi 8) lo) :: gs)
  end.

Record zero_run := ZeroRun { best_start : Z; best_len : Z; cur_start : Z; cur_len : Z }.

Definition zero_run_step (s : zero_run) (i group : Z) : zero_run :=
  if group =? 0 then
    let cur_start := if s.(cur_start) <? 0 then i else s.(cur_start) in
    let cur_len := s.(cur_len) + 1 in
    if cur_len >? s.(best_len) then ZeroRun cur_start cur_len cur_start cur_len
    else ZeroRun s.(best_start) s.(best_len) cur_start cur_len
  else ZeroRun s.(best_start) s.(best_len) (-1) 0.

Fixpoint zero_run_loop (groups : list Z) (i : Z) (s : zero_run) : zero_run :=
  match groups with
  | [] => s
  | g :: groups => zero_run_loop groups (i + 1) (zero_run_step s i g)
  end.

(** The run to compress, [(-1, 0)] when no run has two groups. *)
Definition zero_run_best (groups : list Z) : Z * Z :=
  let s := zero_run_loop groups 0 (ZeroRun (-1) 0 (-1) 0) in
  if s.(best_len) <? 2 then (-1, 0) else (s.(best_start), s.(best_len)).

Fixpoint ipv6_emit (fuel : nat) (groups : list Z) (bs bl i pos : Z) (tmp : cbuf) : M (cbuf * Z) :=
  match fuel with
  | O => Fault OutOfFuel
  | S fuel =>
      if negb (i <? 8) then Done (tmp, pos)
      else if i =? bs then
        tmp ← buf_set tmp pos x3a;
        tmp ← buf_set tmp (pos + 1) x3a;
        ipv6_emit fuel groups bs bl (i + bl) (pos + 2) tmp
      else
        '(tmp, pos) ← (if negb (i =? 0) && negb (i =? bs + bl)
                       then tmp ← buf_set tmp pos x3a; Done (tmp, pos + 1)
                       else Done (tmp, pos));
        group ← (match groups !! Z.to_nat i with Some g => Done g | None => Fault OutOfBounds end);
        '(tmp, written) ← buf_snprintf tmp pos (szsub 46 pos) (fmt_x group);
        ipv6_emit fuel groups bs bl (i + 1) (szadd pos written) tmp
  end.

Definition ns_format_ipv6 (addr : list byte) (buf_len : Z) : M (list byte) :=
  groups ← ipv6_groups 8 addr 0;
  let '(bs, bl) := zero_run_best groups in
  '(tmp, pos) ← ipv6_emit 9 groups bs bl 0 0 (uninit_buf 46);
  '(tmp, pos) ← (if pos =? 0
                 then tmp ← buf_set tmp pos x3a; tmp ← buf_set tmp (pos + 1) x3a; Done (tmp, pos + 2)
                 else Done (tmp, pos));
  tmp ← buf_set tmp pos x00;
  s ← cstring tmp;
  Done (sn buf_len s).

(** ** The readers, characterised *)

Lemma ns_bounds_check_spec length offset size :
  is_size length -> is_size offset -> is_size size ->
  ns_bounds_check length offset size = (offset + size <=? length).
Proof.
  unfold is_size, ns_bounds_check. intros. rewrite Z.gtb_ltb.
  destruct (Z.ltb_spec length offset); [zcases|].
  rewrite szsub_small by lia. zcases.
Qed.

Lemma ns_read_u8_range data length offset v :
  ns_read_u8 data length offset = Done (Some v) -> 0 <= v < 256.
Proof.
  unfold ns_read_u8, rd. destruct (negb _); [done|]. destruct (0 <=? offset); [|done].
  destruct (data !! _) as [b|]; [|done]. mred. intros [= <-]. apply bv_range.
Qed.

(** The comparison the comment above [ns_bounds_check] warns against. *)
Definition naive_bounds_check (length offset size : Z) : bool := negb (szadd offset size >? length).

Section readers.
Context (data : list byte) (length : Z) (Hview : view_ok data length).

#[local] Lemma len_size : is_size length.
Proof. destruct Hview. unfold is_size. lia. Qed.

#[local] Lemma rd_view i : 0 <= i < length -> rd data i = Done (u8_at (view data length) i).
Proof.
  intros. destruct Hview. rewrite rd_done by lia. unfold u8_at. by rewrite slice_view by lia.
Qed.

#[local] Lemma be_view_step i n m :
  m = n + 1 -> 0 <= i -> 0 <= n -> i + n + 1 <= length ->
  be (slice (view data length) i m)
  = be (slice (view data length) i n) * 256 + u8_at (view data length) (i + n).
Proof. intros ->. intros. apply be_slice_split; rewrite ?zlen_view; done || lia. Qed.

Lemma ns_read_u8_spec offset :
  is_size offset ->
  ns_read_u8 data length offset
  = Done (if offset + 1 <=? length then Some (u8_at (view data length) offset) else None).
Proof.
  intros Ho. unfold ns_read_u8.
  rewrite ns_bounds_check_spec by (done || apply len_size).
  zcases; [|done]. unfold is_size in *. by rewrite rd_view by lia.
Qed.

Lemma ns_read_u16_be_spec offset :
  is_size offset ->
  ns_read_u16_be data length offset
  = Done (if offset + 2 <=? length then Some (u16_at (view data length) offset) else None).
Proof.
  intros Ho. unfold ns_read_u16_be. pose proof len_size. unfold is_size in *.
  rewrite ns_bounds_check_spec by done. zcases; [|done].
  rewrite szadd_small by lia. rewrite !rd_view by lia. simpl. do 2 f_equal.
  set (bs := view data length). pose proof (u8_at_range bs offset).
  pose proof (u8_at_range bs (offset + 1)).
  rewrite lor_shiftl_add by lia. rewrite u16c_small by lia.
  unfold u16_at, bs. rewrite (be_view_step offset 1 2) by lia. reflexivity.
Qed.

Lemma ns_read_u32_be_spec offset :
  is_size offset ->
  ns_read_u32_be data length offset
  = Done (if offset + 4 <=? length then Some (u32_at (view data length) offset) else None).
Proof.
  intros Ho. unfold ns_read_u32_be. pose proof len_size. unfold is_size in *.
  rewrite ns_bounds_check_spec by done. zcases; [|done].
  rewrite !szadd_small by lia. rewrite !rd_view by lia. simpl. do 2 f_equal.
  set (bs := view data length).
  pose proof (u8_at_range bs offset). pose proof (u8_at_range bs (offset + 1)).
  pose proof (u8_at_range bs (offset + 2)). pose proof (u8_at_range bs (offset + 3)).
  rewrite !(u32c_small (Z.shiftl _ _)) by (rewrite Z.shiftl_mul_pow2 by lia; lia).
  unfold u32_at, bs. rewrite (be_view_step offset 3 4), (be_view_step offset 2 3),
    (be_view_step offset 1 2) by lia. fold bs.
  change (be (slice bs offset 1)) with (u8_at bs offset).
  replace (Z.shiftl (u8_at bs offset) 24)
    with (Z.shiftl (Z.shiftl (Z.shiftl (u8_at bs offset) 8) 8) 8)
    by (rewrite !Z.shiftl_shiftl by lia; done).
  replace (Z.shiftl (u8_at bs (offset + 1)) 16)
    with (Z.shiftl (Z.shiftl (u8_at bs (offset + 1)) 8) 8)
    by (rewrite !Z.shiftl_shiftl by lia; done).
  rewrite <- !Z.shiftl_lor, !lor_shiftl_add by lia. lia.
Qed.

#[local] Lemma read_u64_loop_spec n offset i :
  0 <= offset -> 0 <= i -> offset + i + Z.of_nat n <= length -> i + Z.of_nat n <= 8 ->
  read_u64_loop n data offset i (be (slice (view data length) offset i))
  = Done (be (slice (view data length) offset (i + Z.of_nat n))).
Proof.
  revert i. induction n as [|n IH]; intros i Ho Hi Hlen H8.
  { simpl. do 3 f_equal. lia. }
  cbn [read_u64_loop]. pose proof len_size. unfold is_size in *.
  rewrite szadd_small by lia. rewrite rd_view by lia. mred.
  pose proof (u8_at_range (view data length) (offset + i)).
  pose proof (be_range (slice (view data length) offset i)) as Hr.
  assert (zlen (slice (view data length) offset i) <= 7) by (unfold slice; zlen; lia).
  pose proof (Z.pow_le_mono_r 256 (zlen (slice (view data length) offset i)) 7).
  unfold u64c. rewrite Z.mod_small by (rewrite Z.shiftl_mul_pow2 by lia; lia).
  rewrite lor_shiftl_add by lia. change (2 ^ 8) with 256.
  rewrite <- (be_view_step offset i (i + 1)) by lia. rewrite IH by lia. do 3 f_equal. lia.
Qed.

Lemma ns_read_u64_be_spec offset :
  is_size offset ->
  ns_read_u64_be data length offset
  = Done (if offset + 8 <=? length then Some (u64_at (view data length) offset) else None).
Proof.
  intros Ho. unfold ns_read_u64_be. pose proof len_size. unfold is_size in *.
  rewrite ns_bounds_check_spec by done. destruct (Z.leb_spec (offset + 8) length); [|done].
  pose proof (read_u64_loop_spec 8 offset 0 ltac:(lia) ltac:(lia) ltac:(lia) ltac:(lia)) as E.
  unfold u64_at. change (be (slice (view data length) offset 0)) with 0 in E.
  by rewrite E.
Qed.
End readers.

(** ** Addresses as text, characterised *)

Lemma is_digit_not_in c s : Forall is_digit s -> ~ is_digit c -> c ∉ s.
Proof. rewrite Forall_forall. intros H1 H2 H3%list_elem_of_In. auto. Qed.

Lemma fmt_u_not_in c n : 0 <= n -> ~ is_digit c -> c ∉ fmt_u n.
Proof. intros. apply is_digit_not_in; [|done]. apply digits_is_digit; lia. Qed.

Lemma fmt_x_not_in c n : 0 <= n -> ~ is_digit c -> c ∉ fmt_x n.
Proof. intros. apply is_digit_not_in; [|done]. apply digits_is_digit; lia. Qed.

Lemma fmt_0x_is_digit w n : 0 <= n -> Forall is_digit (fmt_0x w n).
Proof.
  intros. unfold fmt_0x, pad_left. apply Forall_app. split; [|apply digits_is_digit; lia].
  apply Forall_replicate. by apply (bool_decide_unpack _).
Qed.

Lemma undigits_zeros base n s : undigits base (replicate n x30 ++ s) = undigits base s.
Proof.
  unfold undigits. rewrite fold_left_app. f_equal. induction n; simpl; [done|].
  by rewrite Z.add_0_r.
Qed.

Lemma undigits_fmt_0x w n : 0 <= n -> undigits 16 (fmt_0x w n) = n.
Proof. intros. unfold fmt_0x, pad_left. rewrite undigits_zeros. apply undigits_digits; lia. Qed.

Lemma zlen_fmt_0x (w : nat) n :
  (0 < w)%nat -> 0 <= n < 16 ^ Z.of_nat w -> zlen (fmt_0x w n) = Z.of_nat w.
Proof.
  intros. pose proof (digits_zlen 16 n w ltac:(lia) ltac:(lia) ltac:(lia)) as Hd.
  unfold fmt_0x, pad_left, fmt_x. rewrite zlen_app. unfold zlen in *.
  rewrite length_replicate. lia.
Qed.

Lemma sn_fits n s : zlen s < n -> sn n s = s.
Proof. unfold sn, zlen. intros. apply take_ge. lia. Qed.

(** Reference readers of the three notations. *)
Definition parse_ipv4 (s : list byte) : list Z := undigits 10 <$> split_on x2e s.
Definition parse_mac (s : list byte) : list Z := undigits 16 <$> split_on x3a s.

Definition ipv4_text (bs : list byte) : list byte := join (txt ".") (fmt_u ∘ bv <$> bs).
Definition mac_text (bs : list byte) : list byte := join (txt ":") (fmt_0x 2 ∘ bv <$> bs).

Lemma ns_format_ipv4_eq bs n :
  length bs = 4%nat -> ns_format_ipv4 (le bs) n = Done (sn n (ipv4_text bs)).
Proof.
  intros Hl. unfold ns_format_ipv4. pose proof (to_le_le bs) as E. rewrite Hl in E. rewrite E.
  destruct bs as [|b0 [|b1 [|b2 [|b3 [|]]]]]; try done.
Qed.

Lemma ns_format_mac_eq bs n :
  length bs = 6%nat -> ns_format_mac bs n = Done (sn n (mac_text bs)).
Proof. intros Hl. destruct bs as [|b0 [|b1 [|b2 [|b3 [|b4 [|b5 [|]]]]]]]; try done. Qed.

Lemma ipv4_text_parse bs : bs <> [] -> parse_ipv4 (ipv4_text bs) = bv <$> bs.
Proof.
  intros Hne. unfold parse_ipv4, ipv4_text. change (txt ".") with [x2e].
  rewrite split_on_join.
  - rewrite <- list_fmap_compose. apply list_fmap_ext. intros _ b _. simpl.
    pose proof (bv_range b). apply undigits_digits; lia.
  - by destruct bs.
  - apply Forall_fmap, Forall_forall. intros b _. simpl. pose proof (bv_range b).
    apply fmt_u_not_in; [lia|]. by apply (bool_decide_unpack _).
Qed.

Lemma mac_text_parse bs : bs <> [] -> parse_mac (mac_text bs) = bv <$> bs.
Proof.
  intros Hne. unfold parse_mac, mac_text. change (txt ":") with [x3a].
  rewrite split_on_join.
  - rewrite <- list_fmap_compose. apply list_fmap_ext. intros _ b _. simpl.
    pose proof (bv_range b). apply undigits_fmt_0x; lia.
  - by destruct bs.
  - apply Forall_fmap, Forall_forall. intros b _. simpl. pose proof (bv_range b).
    eapply is_digit_not_in; [apply fmt_0x_is_digit; lia|]. by apply (bool_decide_unpack _).
Qed.

Lemma zlen_join sep fs k :
  0 <= k -> Forall (fun f => zlen f <= k) fs ->
  zlen (join sep fs) <= zlen fs * k + (zlen fs - 1) * zlen sep \/ fs = [].
Proof.
  intros Hk. induction 1 as [|f fs Hf Hfs IH]; [by right|left].
  destruct fs as [|f' fs]; [change (join sep [f]) with f; change (zlen [f]) with 1; lia|].
  rewrite join_cons by done. destruct IH as [IH|]; [|done]. rewrite !zlen_app, (zlen_cons f). nia.
Qed.

Lemma no_nul_join sep fs : no_nul sep -> Forall no_nul fs -> no_nul (join sep fs).
Proof.
  unfold no_nul. intros Hs. induction 1 as [|f fs Hf Hfs IH]; [apply not_elem_of_nil|].
  destruct fs as [|f' fs]; [done|]. rewrite join_cons by done. rewrite !elem_of_app. tauto.
Qed.

Lemma no_nul_digits s : Forall is_digit s -> no_nul s.
Proof. intros. eapply is_digit_not_in; [done|]. by apply (bool_decide_unpack _). Qed.

Lemma zlen_ipv4_text bs : length bs = 4%nat -> zlen (ipv4_text bs) <= 15.
Proof.
  intros Hl. destruct (zlen_join (txt ".") (fmt_u ∘ bv <$> bs) 3) as [H|H]; [lia| | |].
  - apply Forall_fmap, Forall_forall. intros b _. simpl. pose proof (bv_range b).
    pose proof (digits_zlen 10 (bv b) 3 ltac:(lia) ltac:(lia) ltac:(lia)). unfold fmt_u. lia.
  - unfold ipv4_text. rewrite zlen_fmap in H. unfold zlen at 2 3 in H. rewrite Hl in H.
    change (zlen (txt ".")) with 1 in H. lia.
  - by destruct bs.
Qed.

Lemma no_nul_ipv4_text bs : no_nul (ipv4_text bs).
Proof.
  apply no_nul_join; [by apply (bool_decide_unpack _)|]. apply Forall_fmap, Forall_forall.
  intros b _. apply no_nul_digits. simpl. pose proof (bv_range b). apply digits_is_digit; lia.
Qed.

(** ** Properties *)

(** C16. [ns_bounds_check] is exact at the width of [size_t]: it accepts an access iff the
    mathematical range [offset, offset + size) ends within [length], with no overflow; the
    comparison [offset + size > length] it replaces accepts every access whose end wraps
    around to a small value. *)
Theorem bounds_check_exact (length offset size : Z) :
  is_size length -> is_size offset -> is_size size ->
  (ns_bounds_check length offset size = true <-> offset + size <= length) /\
  (2 ^ 64 <= offset + size <= 2 ^ 64 + length ->
   naive_bounds_check length offset size = true /\ ns_bounds_check length offset size = false).
Proof.
  intros Hl Ho Hs. rewrite ns_bounds_check_spec by done. split; [apply Z.leb_le|].
  unfold is_size, naive_bounds_check, szadd in *. intros Hw.
  rewrite <- (Z.mod_add (offset + size) (-1)) by lia. rewrite Z.mod_small by lia.
  rewrite Z.gtb_ltb. zcases.
Qed.

Lemma bounds_check_exact_witness :
  naive_bounds_check 100 50 (2 ^ 64 - 10) = true /\ ns_bounds_check 100 50 (2 ^ 64 - 10) = false.
Proof.
  apply (bounds_check_exact 100 50 (2 ^ 64 - 10)); unfold is_size; lia.
Defined.

(** C24. The four readers, for every buffer and every [size_t] offset: they never touch a byte
    outside the first [length] bytes, they succeed iff the field lies within [length], and
    then deliver the big-endian value of exactly those bytes. *)
Theorem readers_exact (data : list byte) (length offset : Z) :
  view_ok data length -> is_size offset ->
  let bs := view data length in
  ns_read_u8 data length offset
    = Done (if offset + 1 <=? length then Some (be (slice bs offset 1)) else None) /\
  ns_read_u16_be data length offset
    = Done (if offset + 2 <=? length then Some (be (slice bs offset 2)) else None) /\
  ns_read_u32_be data length offset
    = Done (if offset + 4 <=? length then Some (be (slice bs offset 4)) else None) /\
  ns_read_u64_be data length offset
    = Done (if offset + 8 <=? length then Some (be (slice bs offset 8)) else None).
Proof.
  intros Hv Ho bs. rewrite ns_read_u8_spec, ns_read_u16_be_spec, ns_read_u32_be_spec,
    ns_read_u64_be_spec by done. done.
Qed.

Lemma readers_exact_witness :
  ns_read_u32_be (txt "abcdef") 6 1 = Done (Some (be (txt "bcde"))) /\
  ns_read_u64_be (txt "abcdef") 6 1 = Done None.
Proof.
  destruct (readers_exact (txt "abcdef") 6 1) as (_ & _ & H32 & H64).
  - split; [done|lia].
  - unfold is_size. lia.
  - split; [exact H32|exact H64].
Defined.

(** C32. Dotted-quad text: for the four bytes of an address as stored in memory, the text
    written into a 16-byte buffer is complete (at most 15 characters, no terminator inside),
    and reading it back gives the four bytes. *)
Theorem ipv4_text_roundtrip (bs : list byte) :
  length bs = 4%nat ->
  exists s, ns_format_ipv4 (le bs) 16 = Done s /\ zlen s <= 15 /\ no_nul s
         /\ parse_ipv4 s = bv <$> bs.
Proof.
  intros Hl. pose proof (zlen_ipv4_text bs Hl). exists (ipv4_text bs).
  rewrite ns_format_ipv4_eq, sn_fits by (done || lia). repeat split; [done|apply no_nul_ipv4_text|].
  apply ipv4_text_parse. by destruct bs.
Qed.

Lemma ipv4_text_roundtrip_witness :
  exists s, ns_format_ipv4 (le [xc0; xa8; x01; x0c]) 16 = Done s /\ zlen s <= 15 /\ no_nul s
         /\ parse_ipv4 s = [192; 168; 1; 12].
Proof. exact (ipv4_text_roundtrip [xc0; xa8; x01; x0c] eq_refl). Defined.

Lemma zlen_mac_text bs : length bs = 6%nat -> zlen (mac_text bs) = 17.
Proof.
  intros Hl. destruct bs as [|b0 [|b1 [|b2 [|b3 [|b4 [|b5 [|]]]]]]]; try done.
  unfold mac_text. rewrite !fmap_cons. cbn [join fmap list_fmap].
  rewrite !zlen_app. change (zlen (txt ":")) with 1.
  assert (H2 : forall b, zlen (fmt_0x 2 (bv b)) = 2).
  { intros b. pose proof (bv_range b). rewrite zlen_fmt_0x; lia. }
  unfold compose. rewrite !H2. done.
Qed.

(** MAC text: six bytes are written as exactly 17 characters into an 18-byte buffer, and
    reading the text back gives the six bytes. *)
Theorem mac_text_roundtrip (bs : list byte) :
  length bs = 6%nat ->
  exists s, ns_format_mac bs 18 = Done s /\ zlen s = 17 /\ parse_mac s = bv <$> bs.
Proof.
  intros Hl. pose proof (zlen_mac_text bs Hl) as Hz.
  exists (mac_text bs). rewrite ns_format_mac_eq, sn_fits by (done || lia).
  repeat split; [done|]. apply mac_text_parse. by destruct bs.
Qed.

Lemma mac_text_roundtrip_witness :
  exists s, ns_format_mac [xaa; xbb; xcc; x0d; x00; xff] 18 = Done s /\ zlen s = 17
         /\ parse_mac s = [0xaa; 0xbb; 0xcc; 0x0d; 0; 0xff].
Proof. exact (mac_text_roundtrip [xaa; xbb; xcc; x0d; x00; xff] eq_refl). Defined.
