(* ===== verification/Ipv6Text.v ===== *)
(** * [ns_format_ipv6]: compressed IPv6 text

    The formatter of [src/util.c] is shown to stay inside its 46-byte scratch buffer, to
    compress the leftmost longest run of at least two zero groups (RFC 5952), and to be
    inverted by a reference reader, hence injective on addresses. *)

From S2P Require Import Prelude CMem Util.

(** The eight 16-bit groups of an address. *)
Fixpoint words (bs : list byte) : list Z :=
  match bs with
  | hi :: lo :: bs => be [hi; lo] :: words bs
  | _ => []
  end.

(** The text with the run [(s, l)] compressed; a negative [s] compresses nothing. *)
Definition compressed_text (gs : list Z) (s l : Z) : list byte :=
  if s <? 0 then join (txt ":") (fmt_x <$> gs)
  else join (txt ":") (fmt_x <$> take (Z.to_nat s) gs) ++ txt "::" ++
       join (txt ":") (fmt_x <$> drop (Z.to_nat (s + l)) gs).

Definition ipv6_text (bs : list byte) : list byte :=
  let '(s, l) := zero_run_best (words bs) in compressed_text (words bs) s l.

(** ** The groups *)

Lemma be_two hi lo : u16c (Z.lor (Z.shiftl (bv hi) 8) (bv lo)) = be [hi; lo].
Proof.
  pose proof (bv_range hi). pose proof (bv_range lo).
  rewrite lor_shiftl_add by lia. rewrite u16c_small by lia. unfold be. simpl. lia.
Qed.

Lemma ipv6_groups_words bs : length bs = 16%nat -> ipv6_groups 8 bs 0 = Done (words bs).
Proof.
  intros Hl.
  destruct bs as [|b0 [|b1 [|b2 [|b3 [|b4 [|b5 [|b6 [|b7 [|b8 [|b9 [|b10 [|b11 [|b12 [|b13
    [|b14 [|b15 [|]]]]]]]]]]]]]]]]]; try done.
  cbn [words]. rewrite <- !be_two. reflexivity.
Qed.

Lemma length_words bs : length bs = 16%nat -> length (words bs) = 8%nat.
Proof.
  intros Hl. assert (Hw : forall n bs, length bs = (2 * n)%nat -> length (words bs) = n).
  { induction n as [|n IH]; intros [|hi [|lo l]] E; simpl in *; try lia. rewrite IH; lia. }
  by apply Hw.
Qed.

(** Induction two bytes at a time. *)
Lemma pairs_ind (P : list byte -> Prop) :
  P [] -> (forall b, P [b]) -> (forall hi lo bs, P bs -> P (hi :: lo :: bs)) -> forall bs, P bs.
Proof.
  intros H0 H1 H2 bs. enough (P bs /\ forall b, P (b :: bs)) by tauto.
  induction bs as [|b bs [IH1 IH2]]; [auto|]. split; [auto|]. intros b'. by apply H2.
Qed.

Lemma words_range bs : Forall (fun g => 0 <= g < 65536) (words bs).
Proof.
  induction bs using pairs_ind; simpl; [constructor|constructor|]. constructor; [|done].
  apply (be_range [hi; lo]).
Qed.

Lemma words_inj bs bs' : length bs = length bs' -> Nat.even (length bs) = true ->
  words bs = words bs' -> bs = bs'.
Proof.
  revert bs'. induction bs using pairs_ind; intros [|hi' [|lo' bs']]; simpl;
    intros Hl He; try done.
  intros [= Hb Hw]. f_equal; [|f_equal].
  - apply (be_inj [hi; lo] [hi'; lo']) in Hb; [congruence|done].
  - apply (be_inj [hi; lo] [hi'; lo']) in Hb; [congruence|done].
  - apply IHbs; auto; lia.
Qed.

(** ** The zero run *)

(** [s, l] is a run of [l] zero groups starting at [s]. *)
Definition zero_run_at (gs : list Z) (s l : Z) : Prop :=
  0 <= s /\ 0 <= l /\ s + l <= zlen gs /\ Forall (fun g => g = 0) (slice gs s l).

(** RFC 5952, 4.2: the run to compress is the first among the longest, if it has at least
    two groups. *)
Definition rfc5952_run (gs : list Z) (r : Z * Z) : Prop :=
  (r = (-1, 0) /\ forall s l, zero_run_at gs s l -> l < 2)
  \/ (2 <= r.2 /\ zero_run_at gs r.1 r.2
      /\ forall s l, zero_run_at gs s l -> l < r.2 \/ (l = r.2 /\ r.1 <= s)).

(** Only which groups are zero matters. *)
Definition pattern_of (gs : list Z) : list Z := (fun g => if g =? 0 then 0 else 1) <$> gs.

Lemma zero_run_loop_pattern gs i s :
  zero_run_loop (pattern_of gs) i s = zero_run_loop gs i s.
Proof.
  revert i s. induction gs as [|g gs IH]; intros i s; [done|].
  unfold pattern_of. rewrite fmap_cons. simpl zero_run_loop. fold (pattern_of gs). rewrite IH.
  f_equal. unfold zero_run_step. by destruct (Z.eqb_spec g 0).
Qed.

Lemma zero_run_best_pattern gs : zero_run_best (pattern_of gs) = zero_run_best gs.
Proof. unfold zero_run_best. by rewrite zero_run_loop_pattern. Qed.

Lemma zero_run_at_pattern gs s l : zero_run_at (pattern_of gs) s l <-> zero_run_at gs s l.
Proof.
  unfold zero_run_at, pattern_of, slice. rewrite zlen_fmap, <- fmap_drop, <- fmap_take, Forall_fmap.
  do 3 f_equiv. apply Forall_proper; [|done]. intros g. simpl. by destruct (Z.eqb_spec g 0).
Qed.

(** All [2 ^ n] patterns of [n] groups. *)
Fixpoint patterns (n : nat) : list (list Z) :=
  match n with
  | O => [[]]
  | S n => (cons 0 <$> patterns n) ++ (cons 1 <$> patterns n)
  end.

Lemma pattern_of_in gs : pattern_of gs ∈ patterns (length gs).
Proof.
  induction gs as [|g gs IH]; [constructor|].
  change (pattern_of (g :: gs)) with ((if g =? 0 then 0 else 1) :: pattern_of gs).
  cbn [length patterns]. rewrite elem_of_app. destruct (g =? 0).
  - left. by apply list_elem_of_fmap_2.
  - right. by apply list_elem_of_fmap_2.
Qed.

Definition zero_run_atb (gs : list Z) (s l : Z) : bool :=
  (s + l <=? zlen gs) && forallb (Z.eqb 0) (slice gs s l).

Definition rfc5952_check (gs : list Z) : bool :=
  let '(bs, bl) := zero_run_best gs in
  let idx := Z.of_nat <$> seq 0 9 in
  if bl =? 0 then (bs =? -1) &&
    forallb (fun s => forallb (fun l => negb (zero_run_atb gs s l) || (l <? 2)) idx) idx
  else (2 <=? bl) && (0 <=? bs) && zero_run_atb gs bs bl &&
    forallb (fun s => forallb (fun l =>
      negb (zero_run_atb gs s l) || (l <? bl) || ((l =? bl) && (bs <=? s))) idx) idx.

Lemma zero_run_atb_spec gs s l :
  0 <= s -> 0 <= l -> zero_run_atb gs s l = true <-> zero_run_at gs s l.
Proof.
  intros. unfold zero_run_atb, zero_run_at. rewrite andb_true_iff, Z.leb_le, forallb_forall.
  rewrite Forall_forall. split.
  - intros [? Hz]. repeat split; try done. intros g Hg. specialize (Hz g Hg). lia.
  - intros (_ & _ & ? & Hz). split; [done|]. intros g Hg. rewrite (Hz g Hg). done.
Qed.

Lemma rfc5952_check_all : forallb rfc5952_check (patterns 8) = true.
Proof. by vm_compute. Qed.

Lemma idx_bounded (f : Z -> bool) k :
  forallb f (Z.of_nat <$> seq 0 9) = true -> 0 <= k <= 8 -> f k = true.
Proof.
  rewrite forallb_forall. intros Hf Hk. apply Hf, list_elem_of_In, list_elem_of_fmap.
  exists (Z.to_nat k). split; [lia|]. apply elem_of_seq. lia.
Qed.

Lemma rfc5952_check_sound gs :
  length gs = 8%nat -> rfc5952_check gs = true -> rfc5952_run gs (zero_run_best gs).
Proof.
  intros Hl. unfold rfc5952_check, rfc5952_run. destruct (zero_run_best gs) as [bs bl].
  cbn [fst snd]. set (idx := Z.of_nat <$> seq 0 9).
  assert (Hrun : forall s l, zero_run_at gs s l -> 0 <= s <= 8 /\ 0 <= l <= 8).
  { intros s l (? & ? & Hle & _). unfold zlen in Hle. rewrite Hl in Hle. lia. }
  destruct (Z.eqb_spec bl 0) as [->|Hbl]; rewrite !andb_true_iff.
  - intros [Hbs Hall]. left. split; [f_equal; lia|]. intros s l Hz.
    destruct (Hrun s l Hz). pose proof (idx_bounded _ s Hall ltac:(lia)) as Hs.
    pose proof (idx_bounded _ l Hs ltac:(lia)) as Hsl. cbn beta in Hsl.
    apply zero_run_atb_spec in Hz; [|lia..]. rewrite Hz in Hsl. cbn [negb orb] in Hsl. lia.
  - intros [[[? ?] Hz0] Hall]. right. split; [lia|]. split; [apply zero_run_atb_spec; lia || done|].
    intros s l Hz. destruct (Hrun s l Hz). pose proof (idx_bounded _ s Hall ltac:(lia)) as Hs.
    pose proof (idx_bounded _ l Hs ltac:(lia)) as Hsl. cbn beta in Hsl.
    apply zero_run_atb_spec in Hz; [|lia..]. rewrite Hz in Hsl. cbn [negb orb] in Hsl. lia.
Qed.

Lemma zero_run_best_rfc5952 gs : length gs = 8%nat -> rfc5952_run gs (zero_run_best gs).
Proof.
  intros Hl. assert (Hp : rfc5952_run (pattern_of gs) (zero_run_best (pattern_of gs))).
  { apply rfc5952_check_sound; [unfold pattern_of; by rewrite length_fmap|].
    pose proof rfc5952_check_all as Hall. rewrite forallb_forall in Hall.
    apply Hall, list_elem_of_In. rewrite <- Hl. apply pattern_of_in. }
  rewrite zero_run_best_pattern in Hp. unfold rfc5952_run in *.
  setoid_rewrite zero_run_at_pattern in Hp. done.
Qed.

(** ** The emitting loop *)

(** What the loop appends from group [i] on. *)
Fixpoint emit_text (fuel : nat) (gs : list Z) (bs bl i : Z) : list byte :=
  match fuel with
  | O => []
  | S fuel =>
      if negb (i <? 8) then []
      else if i =? bs then txt "::" ++ emit_text fuel gs bs bl (i + bl)
      else (if negb (i =? 0) && negb (i =? bs + bl) then txt ":" else []) ++
           fmt_x (default 0 (gs !! Z.to_nat i)) ++ emit_text fuel gs bs bl (i + 1)
  end.

Section emit.
Context (gs : list Z) (Hl : length gs = 8%nat) (Hr : Forall (fun g => 0 <= g < 65536) gs).
Context (bs bl : Z) (Hrun : (bs = -1 /\ bl = 0) \/ (0 <= bs /\ 2 <= bl /\ bs + bl <= 8)).

#[local] Lemma group_text i :
  0 <= i < 8 -> exists g, gs !! Z.to_nat i = Some g /\ 1 <= zlen (fmt_x g) <= 4.
Proof.
  intros Hi. destruct (gs !! Z.to_nat i) as [g|] eqn:E.
  - exists g. split; [done|]. pose proof (Forall_lookup_1 _ _ _ _ Hr E) as Hg.
    cbn beta in Hg. apply (digits_zlen 16 g 4); lia.
  - apply lookup_ge_None in E. lia.
Qed.

Lemma ipv6_emit_text fuel i s rest :
  0 <= i <= 8 -> (8 - Z.to_nat i < fuel)%nat -> zlen s <= 5 * i -> zlen s + zlen rest = 46 ->
  exists rest',
    ipv6_emit fuel gs bs bl i (zlen s) ((Some <$> s) ++ rest)
    = Done ((Some <$> (s ++ emit_text fuel gs bs bl i)) ++ rest',
            zlen (s ++ emit_text fuel gs bs bl i))
    /\ zlen (s ++ emit_text fuel gs bs bl i) <= 40
    /\ zlen (s ++ emit_text fuel gs bs bl i) + zlen rest' = 46.
Proof.
  revert i s rest. induction fuel as [|fuel IH]; intros i s rest Hi Hf Hs Hlen; [lia|].
  pose proof (zlen_nonneg s). cbn [ipv6_emit emit_text].
  destruct (Z.ltb_spec i 8) as [Hi8|Hi8]; cbn [negb].
  2:{ exists rest. rewrite app_nil_r. split; [done|]. lia. }
  destruct (Z.eqb_spec i bs) as [E|E].
  - rewrite buf_set_append by lia. mred.
    replace (zlen s + 1) with (zlen (s ++ [x3a])) by (by zlen).
    rewrite buf_set_append by (zlen; lia). mred.
    replace (zlen s + 2) with (zlen ((s ++ [x3a]) ++ [x3a])) by (zlen; lia).
    destruct (IH (i + bl) ((s ++ [x3a]) ++ [x3a]) (drop 1 (drop 1 rest))) as (rest' & -> & ? & ?);
      [lia..|zlen; lia|zlen; lia|].
    rewrite <- !app_assoc in *. by exists rest'.
  - destruct (group_text i ltac:(lia)) as (g & Hg & Hgl). rewrite Hg. simpl default.
    set (sep := if negb (i =? 0) && negb (i =? bs + bl) then txt ":" else []).
    assert (Hsep : (if negb (i =? 0) && negb (i =? bs + bl)
               then tmp ← buf_set ((Some <$> s) ++ rest) (zlen s) x3a; Done (tmp, zlen s + 1)
               else Done ((Some <$> s) ++ rest, zlen s))
             = Done ((Some <$> (s ++ sep)) ++ drop (length sep) rest, zlen (s ++ sep))
             /\ zlen sep <= 1 /\ zlen (s ++ sep) <= 5 * i + 1).
    { unfold sep. destruct (negb (i =? 0) && negb (i =? bs + bl)).
      - rewrite buf_set_append by lia. mred. change (txt ":") with [x3a].
        split; [do 2 f_equal; by zlen|]. zlen. lia.
      - rewrite app_nil_r, drop_0. split; [done|]. zlen. lia. }
    destruct Hsep as (-> & Hsep1 & Hsep2). mred.
    pose proof (zlen_nonneg sep). pose proof (zlen_app s sep).
    rewrite szsub_small by lia.
    rewrite buf_snprintf_append by (rewrite ?zlen_drop; unfold zlen in *; lia). mred.
    rewrite szadd_small by lia. rewrite <- zlen_app.
    destruct (IH (i + 1) ((s ++ sep) ++ fmt_x g)
      (Some x00 :: drop (S (length (fmt_x g))) (drop (length sep) rest))) as (rest' & -> & ? & ?);
      [lia..|rewrite !zlen_app; lia| |].
    { rewrite zlen_cons, !zlen_drop, !zlen_app. unfold zlen in *. lia. }
    rewrite <- !app_assoc in *. by exists rest'.
Qed.
End emit.

(** On eight groups the loop writes exactly the compressed text. *)
Lemma emit_text_compressed gs bs bl :
  length gs = 8%nat -> (bs = -1 /\ bl = 0) \/ (0 <= bs /\ 2 <= bl /\ bs + bl <= 8) ->
  emit_text 9 gs bs bl 0 = compressed_text gs bs bl.
Proof.
  intros Hl Hrun.
  destruct gs as [|g0 [|g1 [|g2 [|g3 [|g4 [|g5 [|g6 [|g7 [|]]]]]]]]]; try done.
  destruct Hrun as [[-> ->]|Hrun].
  { cbv -[fmt_x txt app]. by rewrite <- ?app_assoc, ?app_nil_l, ?app_nil_r. }
  assert (Hb : bs = 0 \/ bs = 1 \/ bs = 2 \/ bs = 3 \/ bs = 4 \/ bs = 5 \/ bs = 6) by lia.
  assert (Hc : bl = 2 \/ bl = 3 \/ bl = 4 \/ bl = 5 \/ bl = 6 \/ bl = 7 \/ bl = 8) by lia.
  destruct_or! Hb; destruct_or! Hc; subst bs bl; try lia;
    cbv -[fmt_x txt app]; by rewrite <- ?app_assoc, ?app_nil_l, ?app_nil_r.
Qed.

Lemma rfc5952_run_shape gs :
  length gs = 8%nat ->
  let '(s, l) := zero_run_best gs in (s = -1 /\ l = 0) \/ (0 <= s /\ 2 <= l /\ s + l <= 8).
Proof.
  intros Hl. pose proof (zero_run_best_rfc5952 gs Hl) as H. destruct (zero_run_best gs) as [s l].
  destruct H as [[[= -> ->] _]|(? & (? & ? & Hle & _) & _)]; [by left|right].
  cbn [fst snd] in *. unfold zlen in Hle. rewrite Hl in Hle. lia.
Qed.

Lemma compressed_text_nonempty gs s l : length gs = 8%nat -> zlen (compressed_text gs s l) <> 0.
Proof.
  intros Hl. unfold compressed_text. destruct (s <? 0).
  - destruct gs as [|g0 [|g1 gs]]; try done. rewrite !fmap_cons, join_cons by done.
    zlen. change (zlen (txt ":")) with 1. pose proof (zlen_nonneg (fmt_x g0)).
    pose proof (zlen_nonneg (join (txt ":") (fmt_x g1 :: (fmt_x <$> gs)))). lia.
  - rewrite !zlen_app. change (zlen (txt "::")) with 2.
    pose proof (zlen_nonneg (join (txt ":") (fmt_x <$> take (Z.to_nat s) gs))).
    pose proof (zlen_nonneg (join (txt ":") (fmt_x <$> drop (Z.to_nat (s + l)) gs))). lia.
Qed.

Lemma no_nul_groups gs :
  Forall (fun g => 0 <= g < 65536) gs -> Forall no_nul (fmt_x <$> gs).
Proof.
  intros Hr. apply Forall_fmap. eapply List.Forall_impl; [|done]. intros g Hg. cbn in Hg |- *. apply no_nul_digits.
  apply digits_is_digit; lia.
Qed.

Lemma no_nul_compressed gs s l :
  Forall (fun g => 0 <= g < 65536) gs -> no_nul (compressed_text gs s l).
Proof.
  intros Hr. assert (Hc : no_nul (txt ":")) by (by apply (bool_decide_unpack _)).
  unfold compressed_text. destruct (s <? 0).
  - by apply no_nul_join, no_nul_groups.
  - unfold no_nul. rewrite !elem_of_app. intros [H|[H|H]].
    + revert H. apply no_nul_join; [done|]. by apply no_nul_groups, Forall_take.
    + revert H. by apply (bool_decide_unpack _).
    + revert H. apply no_nul_join; [done|]. by apply no_nul_groups, Forall_drop.
Qed.

Lemma ipv6_text_facts bs :
  length bs = 16%nat ->
  no_nul (ipv6_text bs) /\ zlen (ipv6_text bs) <= 40 /\
  forall n, ns_format_ipv6 bs n = Done (sn n (ipv6_text bs)).
Proof.
  intros Hl. unfold ipv6_text, ns_format_ipv6.
  rewrite ipv6_groups_words by done. mred.
  pose proof (length_words bs Hl) as Hw. pose proof (words_range bs) as Hr.
  pose proof (rfc5952_run_shape (words bs) Hw) as Hrun.
  destruct (zero_run_best (words bs)) as [s l].
  destruct (ipv6_emit_text (words bs) Hw Hr s l Hrun 9 0 [] (uninit_buf 46)) as (rest & E & Hle & Hz);
    [lia|lia|zlen; lia|done|].
  rewrite emit_text_compressed in E, Hle, Hz by done. simpl app in E, Hle, Hz.
  set (t := compressed_text (words bs) s l) in *.
  assert (Hnn : no_nul t) by by apply no_nul_compressed.
  split; [done|]. split; [done|]. intros n.
  change (zlen (@nil byte)) with 0 in E. change ((Some <$> []) ++ uninit_buf 46) with (uninit_buf 46) in E.
  rewrite E. mred. pose proof (compressed_text_nonempty (words bs) s l Hw).
  destruct (Z.eqb_spec (zlen t) 0); [done|]. mred.
  rewrite buf_set_append by lia. mred.
  rewrite fmap_app, <- app_assoc. simpl. rewrite cstring_prefix. simpl.
  by rewrite until_nul_no_nul.
Qed.

(** ** Reading the text back *)

(** The fields before and after the first empty one. *)
Fixpoint break_empty (fs : list (list byte)) : list (list byte) * option (list (list byte)) :=
  match fs with
  | [] => ([], None)
  | [] :: fs => ([], Some fs)
  | f :: fs => let '(l, r) := break_empty fs in (f :: l, r)
  end.

Definition non_empty (f : list byte) : bool := match f with [] => false | _ => true end.

(** A reader of compressed IPv6 text into eight groups. *)
Definition parse_ipv6 (s : list byte) : list Z :=
  match break_empty (split_on x3a s) with
  | (l, None) => undigits 16 <$> l
  | (l, Some r) =>
      let l := undigits 16 <$> l in
      let r := undigits 16 <$> List.filter non_empty r in
      l ++ replicate (8 - length l - length r) 0 ++ r
  end.

Definition or_blank (fs : list (list byte)) : list (list byte) :=
  match fs with [] => [[]] | _ => fs end.

Lemma compressed_join c A B :
  join [c] A ++ [c; c] ++ join [c] B = join [c] (or_blank A ++ [] :: or_blank B).
Proof.
  change ([] :: or_blank B) with ([[]] ++ or_blank B).
  rewrite !join_app by (destruct A, B; discriminate).
  assert (Hb : forall fs, join [c] (or_blank fs) = join [c] fs) by (by intros []).
  rewrite !Hb. done.
Qed.

Lemma break_empty_app A R :
  Forall (fun f => f <> []) A -> break_empty (A ++ [] :: R) = (A, Some R).
Proof. induction 1 as [|[|x f] A ? ? IH]; simpl; [done|done|]. by rewrite IH. Qed.

Lemma break_empty_none A : Forall (fun f => f <> []) A -> break_empty A = (A, None).
Proof. induction 1 as [|[|x f] A ? ? IH]; simpl; [done|done|]. by rewrite IH. Qed.

Lemma filter_non_empty A : Forall (fun f => f <> []) A -> List.filter non_empty A = A.
Proof. induction 1 as [|[|x f] A ? ? IH]; simpl; [done|done|]. by rewrite IH. Qed.

Lemma filter_or_blank B :
  Forall (fun f => f <> []) B -> List.filter non_empty (or_blank B) = B.
Proof. destruct B; [done|]. apply filter_non_empty. Qed.

Section read_back.
Context (gs : list Z) (Hr : Forall (fun g => 0 <= g < 65536) gs).

#[local] Lemma hex_fields :
  Forall (fun f => x3a ∉ f) (fmt_x <$> gs) /\ Forall (fun f => f <> []) (fmt_x <$> gs)
  /\ (undigits 16 <$> (fmt_x <$> gs)) = gs.
Proof.
  induction Hr as [|g gs' Hg Hgs IH]; [done|]. destruct IH as (IH1 & IH2 & IH3); [done|].
  rewrite !fmap_cons. repeat split.
  - constructor; [|done]. apply fmt_x_not_in; [lia|]. by apply (bool_decide_unpack _).
  - constructor; [|done]. pose proof (digits_zlen 16 g 4 ltac:(lia) ltac:(lia) ltac:(lia)) as H.
    unfold fmt_x. intros E. rewrite E, zlen_nil in H. lia.
  - rewrite IH3. f_equal. apply undigits_digits; lia.
Qed.
End read_back.

Lemma parse_compressed gs s l :
  length gs = 8%nat -> Forall (fun g => 0 <= g < 65536) gs ->
  (s = -1 /\ l = 0) \/ zero_run_at gs s l ->
  parse_ipv6 (compressed_text gs s l) = gs.
Proof.
  intros Hl Hr Hrun. unfold parse_ipv6, compressed_text. change (txt ":") with [x3a].
  destruct Hrun as [[-> ->]|(Hs & Hl0 & Hle & Hz)].
  - destruct (hex_fields gs Hr) as (H1 & H2 & H3). change (-1 <? 0) with true. cbv iota.
    rewrite split_on_join by (done || by destruct gs). by rewrite break_empty_none.
  - destruct (Z.ltb_spec s 0); [lia|]. change (txt "::") with [x3a; x3a].
    set (L := take (Z.to_nat s) gs). set (R := drop (Z.to_nat (s + l)) gs).
    destruct (hex_fields L) as (HA1 & HA2 & HA3); [by apply Forall_take|].
    destruct (hex_fields R) as (HB1 & HB2 & HB3); [by apply Forall_drop|].
    rewrite compressed_join, split_on_join; [|by destruct (fmt_x <$> L)|].
    2:{ apply Forall_app. split; [|constructor; [apply not_elem_of_nil|]].
        - destruct (fmt_x <$> L); [repeat constructor; apply not_elem_of_nil|done].
        - destruct (fmt_x <$> R); [repeat constructor; apply not_elem_of_nil|done]. }
    assert (Hgs : L ++ replicate (8 - length L - length R) 0 ++ R = gs).
    { unfold zlen in Hle. rewrite Hl in Hle.
      transitivity (take (Z.to_nat s) gs ++ drop (Z.to_nat s) gs); [|apply take_drop]. f_equal.
      rewrite <- (take_drop (Z.to_nat l) (drop (Z.to_nat s) gs)). f_equal.
      - apply replicate_as_Forall. split.
        + unfold L, R. rewrite !length_take, !length_drop. lia.
        + eapply List.Forall_impl; [|exact Hz]. by intros ? ->.
      - unfold R. rewrite drop_drop. f_equal. lia. }
    destruct (fmt_x <$> L) as [|f fs] eqn:EL.
    + simpl or_blank. cbn [app break_empty].
      change (List.filter non_empty ([] :: or_blank (fmt_x <$> R)))
        with (List.filter non_empty (or_blank (fmt_x <$> R))).
      rewrite filter_or_blank by done. rewrite HB3. simpl fmap in *. rewrite HA3. done.
    + change (or_blank (f :: fs)) with (f :: fs). rewrite break_empty_app by done.
      rewrite filter_or_blank by done. cbn beta iota zeta. by rewrite HA3, HB3.
Qed.

Lemma ipv6_text_parse bs : length bs = 16%nat -> parse_ipv6 (ipv6_text bs) = words bs.
Proof.
  intros Hl. pose proof (length_words bs Hl) as Hw. unfold ipv6_text.
  pose proof (zero_run_best_rfc5952 (words bs) Hw) as H.
  destruct (zero_run_best (words bs)) as [s l].
  apply parse_compressed; [done|apply words_range|].
  destruct H as [[[= -> ->] _]|(_ & ? & _)]; [by left|by right].
Qed.

Lemma ipv6_text_inj bs bs' :
  length bs = 16%nat -> length bs' = 16%nat -> ipv6_text bs = ipv6_text bs' -> bs = bs'.
Proof.
  intros H H' E. apply words_inj; [congruence|by rewrite H|].
  by rewrite <- !ipv6_text_parse, E.
Qed.

(** ** Properties *)

(** C31. IPv6 text: for every 16-byte address the formatter stays inside its scratch buffer,
    terminates, and leaves in a 46-byte buffer the address's text by RFC 5952, section 4, and nothing else:
    the eight groups in lower-case hexadecimal without leading zeros, the leftmost longest run
    of at least two zero groups, where there is one, replaced by [::]. The text has at most 40
    characters and determines the address: a reference reader recovers the eight groups. *)
Theorem ipv6_text_roundtrip (bs : list byte) :
  length bs = 16%nat ->
  exists start len s, rfc5952_run (words bs) (start, len) /\
    s = compressed_text (words bs) start len /\
    ns_format_ipv6 bs 46 = Done s /\ zlen s <= 40 /\ no_nul s /\ parse_ipv6 s = words bs.
Proof.
  intros Hl. destruct (ipv6_text_facts bs Hl) as (Hnn & Hz & Heq).
  pose proof (zero_run_best_rfc5952 (words bs) (length_words bs Hl)) as Hr.
  destruct (zero_run_best (words bs)) as [start len] eqn:E.
  exists start, len, (ipv6_text bs). rewrite Heq, sn_fits by lia.
  split; [done|]. split; [unfold ipv6_text; by rewrite E|]. repeat split; [done..|].
  by apply ipv6_text_parse.
Qed.

Lemma ipv6_text_roundtrip_witness :
  let bs := [x20; x01; x0d; xb8; x00; x00; x00; x01; x00; x00; x00; x00; x00; x00; x00; x01] in
  ns_format_ipv6 bs 46 = Done (txt "2001:db8:0:1::1")
  /\ exists start len s, rfc5952_run (words bs) (start, len)
     /\ s = compressed_text (words bs) start len
     /\ ns_format_ipv6 bs 46 = Done s /\ zlen s <= 40 /\ no_nul s /\ parse_ipv6 s = words bs.
Proof. intros bs. split; [by vm_compute|]. exact (ipv6_text_roundtrip bs eq_refl). Defined.
