(* ===== verification/HexDump.v ===== *)
(** * [ns_hex_dump] of [src/util.c]

    The dump writes one canonical line per 16 bytes through a callback.  The line buffer
    of 128 bytes is reused between lines; [append_line] clamps at its end.  The theorems
    show that no line is ever clamped and that the callback sees exactly the reference
    rows, up to its first failure. *)

From S2P Require Import Prelude CMem Util.

Definition append_line (buf : cbuf) (buf_len pos : Z) (text : list byte) : M (cbuf * Z) :=
  if pos >=? buf_len then Done (buf, pos)
  else
    '(buf, written) ← buf_snprintf buf pos (szsub buf_len pos) text;
    if written <=? 0 then Done (buf, pos)
    else
      let remaining := szsub buf_len pos in
      let actual := if written <? remaining then written else szsub remaining 1 in
      Done (buf, szadd pos actual).

(** [for (i = 0; i < 16; i++)]: the hexadecimal columns *)
Fixpoint hex_cells (n : nat) (data : list byte) (offset chunk i : Z) (line : cbuf) (pos : Z)
    : M (cbuf * Z) :=
  match n with
  | O => Done (line, pos)
  | S n =>
      '(line, pos) ← (if i <? chunk
                      then c ← rd data (szadd offset i);
                           append_line line 128 pos (fmt_0x 2 c ++ txt " ")
                      else append_line line 128 pos (txt "   "));
      '(line, pos) ← (if i =? 7 then append_line line 128 pos (txt " ") else Done (line, pos));
      hex_cells n data offset chunk (i + 1) line pos
  end.

Definition gutter_char (c : Z) : byte := if (0x20 <=? c) && (c <? 0x7f) then zb c else x2e.

(** [for (i = 0; i < chunk && pos + 1 < sizeof(line); i++)]: the ASCII gutter *)
Fixpoint ascii_cells (fuel : nat) (data : list byte) (offset chunk i : Z) (line : cbuf) (pos : Z)
    : M (cbuf * Z) :=
  match fuel with
  | O => Fault OutOfFuel
  | S fuel =>
      if (i <? chunk) && (szadd pos 1 <? 128) then
        c ← rd data (szadd offset i);
        line ← buf_set line pos (gutter_char c);
        ascii_cells fuel data offset chunk (i + 1) line (pos + 1)
      else Done (line, pos)
  end.

(** One iteration: the line buffer after the row at [offset] has been composed in it. *)
Definition hex_line (data : list byte) (length offset : Z) (line : cbuf) : M cbuf :=
  let chunk := if szsub length offset <? 16 then szsub length offset else 16 in
  '(line, pos) ← append_line line 128 0 (fmt_0x 4 offset ++ txt "  ");
  '(line, pos) ← hex_cells 16 data offset chunk 0 line pos;
  '(line, pos) ← append_line line 128 pos (txt " ");
  '(line, pos) ← ascii_cells 17 data offset chunk 0 line pos;
  '(line, pos) ← (if szadd pos 1 <? 128 then line ← buf_set line pos x0a; Done (line, pos + 1)
                  else Done (line, pos));
  buf_set line pos x00.

Section dump.
(** [write(ctx, chunk)]: the caller's callback, with the state behind [ctx]. *)
Context {C : Type} (write : C -> list byte -> bool * C).

Fixpoint hex_dump_loop (fuel : nat) (data : list byte) (length offset : Z) (line : cbuf) (ctx : C)
    : M (bool * C) :=
  match fuel with
  | O => Fault OutOfFuel
  | S fuel =>
      if negb (offset <? length) then Done (true, ctx)
      else
        line ← hex_line data length offset line;
        s ← cstring line;
        let '(ok, ctx) := write ctx s in
        if negb ok then Done (false, ctx)
        else hex_dump_loop fuel data length (szadd offset 16) line ctx
  end.

Definition ns_hex_dump (data : list byte) (length : Z) (ctx : C) : M (bool * C) :=
  hex_dump_loop (S (Z.to_nat (length / 16 + 1))) data length 0 (uninit_buf 128) ctx.

(** Calling the callback on each row until one call fails. *)
Fixpoint write_all (rows : list (list byte)) (ctx : C) : bool * C :=
  match rows with
  | [] => (true, ctx)
  | row :: rows =>
      let '(ok, ctx) := write ctx row in
      if ok then write_all rows ctx else (false, ctx)
  end.
End dump.

(** [ns_hex_dump_file]: the callback is [fputs] on a stream. *)
Section dump_file.
Context {F : Type} (fputs : list byte -> F -> Z * F).

Definition ns_hex_dump_file_write (out : F) (chunk : list byte) : bool * F :=
  let '(r, out) := fputs chunk out in (r >=? 0, out).

Definition ns_hex_dump_file (data : list byte) (length : Z) (out : F) : M F :=
  '(_, out) ← ns_hex_dump ns_hex_dump_file_write data length out; Done out.
End dump_file.

(** ** The reference rows *)

Definition hex_cell (chunk : list byte) (i : Z) : list byte :=
  match chunk !! Z.to_nat i with
  | Some b => fmt_0x 2 (bv b) ++ txt " "
  | None => txt "   "
  end ++ (if i =? 7 then txt " " else []).

Fixpoint hex_columns (n : nat) (chunk : list byte) (i : Z) : list byte :=
  match n with
  | O => []
  | S n => hex_cell chunk i ++ hex_columns n chunk (i + 1)
  end.

Definition hex_row (offset : Z) (chunk : list byte) : list byte :=
  fmt_0x 4 offset ++ txt "  " ++ hex_columns 16 chunk 0 ++ txt " " ++
  ((fun b => gutter_char (bv b)) <$> chunk) ++ [x0a].

(** The rows of a dump: the bytes in groups of sixteen. *)
Fixpoint hex_rows (n : nat) (bs : list byte) (offset : Z) : list (list byte) :=
  match n with
  | O => []
  | S n =>
      if offset <? zlen bs
      then hex_row offset (slice bs offset 16) :: hex_rows n bs (offset + 16) else []
  end.

Definition hex_dump_rows (bs : list byte) : list (list byte) := hex_rows (length bs) bs 0.

(** ** The line buffer *)

(** The first [pos] bytes of the 128-byte buffer hold the text [s]. *)
Definition line_holds (s : list byte) (st : cbuf * Z) : Prop :=
  st.2 = zlen s /\ zlen st.1 = 128 /\ exists rest, st.1 = (Some <$> s) ++ rest.

Lemma append_line_holds line pos s text :
  line_holds s (line, pos) -> 0 < zlen text -> zlen s + zlen text < 128 ->
  wp (append_line line 128 pos text) (line_holds (s ++ text)).
Proof.
  intros (Hp & Hl & rest & Hr) H0 Hfit. cbn [fst snd] in *. subst pos line.
  pose proof (zlen_nonneg s). rewrite zlen_app, zlen_fmap in Hl. unfold append_line.
  rewrite Z.geb_leb. destruct (Z.leb_spec 128 (zlen s)); [lia|]. rewrite szsub_small by lia.
  assert (E : buf_snprintf ((Some <$> s) ++ rest) (zlen s) (128 - zlen s) text
    = Done ((Some <$> (s ++ text)) ++ Some x00 :: drop (S (length text)) rest, zlen text)).
  { unfold buf_snprintf. destruct (Z.eqb_spec (128 - zlen s) 0); [lia|].
    rewrite take_ge by (unfold zlen in *; lia). rewrite buf_copy_append by (zlen; lia). mred.
    do 2 f_equal. rewrite (app_assoc s), (fmap_app _ (s ++ text)), <- app_assoc. f_equal.
    by rewrite length_app, Nat.add_1_r. }
  rewrite E. mred. destruct (Z.leb_spec (zlen text) 0); [lia|].
  destruct (Z.ltb_spec (zlen text) (128 - zlen s)); [|lia].
  rewrite szadd_small by lia. simpl. split; [by rewrite zlen_app|]. split; [|eauto].
  cbn [fst]. rewrite zlen_app, zlen_fmap, zlen_app, zlen_cons, zlen_drop. unfold zlen in *. lia.
Qed.

Lemma buf_set_line line pos s b :
  line_holds s (line, pos) -> zlen s < 128 ->
  wp (buf_set line pos b) (fun line => line_holds (s ++ [b]) (line, pos + 1)).
Proof.
  intros (Hp & Hl & rest & Hr) Hfit. cbn [fst snd] in *. subst pos line.
  rewrite zlen_app, zlen_fmap in Hl. unfold buf_set. rewrite buf_copy_append by (zlen; lia).
  simpl. split; [by zlen|]. split; [|eauto].
  cbn [fst]. rewrite zlen_app, zlen_fmap, zlen_app, zlen_drop. change (zlen [b]) with 1. lia.
Qed.

Section row.
Context (data : list byte) (length : Z) (Hview : view_ok data length) (Hbig : length <= 2 ^ 63).
Context (offset : Z) (Hoff : 0 <= offset < length).

#[local] Abbreviation chunk := (slice (view data length) offset 16).

#[local] Lemma zlen_chunk : zlen chunk = Z.min 16 (length - offset).
Proof. unfold slice. rewrite zlen_take, zlen_drop, zlen_view by done. lia. Qed.

#[local] Lemma rd_chunk i b : chunk !! Z.to_nat i = Some b -> 0 <= i ->
  rd data (szadd offset i) = Done (bv b).
Proof.
  intros Hb Hi. apply lookup_lt_Some in Hb as Hlt. pose proof zlen_chunk as Hc.
  unfold zlen in Hc. destruct Hview. rewrite szadd_small by lia.
  unfold slice, view in Hb. rewrite lookup_take_lt in Hb by lia.
  rewrite lookup_drop, lookup_take_lt in Hb by lia.
  unfold rd. destruct (Z.leb_spec 0 (offset + i)); [|lia].
  replace (Z.to_nat (offset + i)) with (Z.to_nat offset + Z.to_nat i)%nat by lia. by rewrite Hb.
Qed.

#[local] Lemma cell_text i :
  0 <= i -> exists t, hex_cell chunk i = t ++ (if i =? 7 then txt " " else []) /\ zlen t = 3
  /\ forall line pos, (if i <? Z.min 16 (length - offset)
       then c ← rd data (szadd offset i); append_line line 128 pos (fmt_0x 2 c ++ txt " ")
       else append_line line 128 pos (txt "   ")) = append_line line 128 pos t.
Proof.
  intros Hi. unfold hex_cell. pose proof zlen_chunk as Hc. unfold zlen in Hc.
  destruct (chunk !! Z.to_nat i) as [b|] eqn:E.
  - exists (fmt_0x 2 (bv b) ++ txt " "). split; [done|]. pose proof (bv_range b). split.
    + rewrite zlen_app, zlen_fmt_0x by lia. done.
    + intros. apply lookup_lt_Some in E as Hlt.
      destruct (Z.ltb_spec i (Z.min 16 (length - offset))); [|lia].
      by rewrite (rd_chunk i b).
  - exists (txt "   "). split; [done|]. split; [done|]. intros.
    apply lookup_ge_None in E. destruct (Z.ltb_spec i (Z.min 16 (length - offset))); [lia|done].
Qed.

Lemma hex_cells_holds n i line pos s :
  0 <= i -> i + Z.of_nat n = 16 -> zlen s <= 18 + 4 * i -> line_holds s (line, pos) ->
  wp (hex_cells n data offset (Z.min 16 (length - offset)) i line pos)
     (fun st => line_holds (s ++ hex_columns n chunk i) st
             /\ zlen (s ++ hex_columns n chunk i) <= 82).
Proof.
  revert i line pos s. induction n as [|n IH]; intros i line pos s Hi Hn Hs Hst.
  { simpl. rewrite app_nil_r. split; [done|lia]. }
  cbn [hex_cells hex_columns]. destruct (cell_text i Hi) as (t & -> & Ht & ->).
  apply wp_bind. eapply wp_mono; [apply (append_line_holds _ _ s); [done|lia..]|].
  intros [line1 pos1] H1. apply wp_bind. rewrite !app_assoc.
  set (sp := if i =? 7 then txt " " else []).
  assert (Hsp : zlen sp <= 1) by (unfold sp; by destruct (i =? 7)).
  apply (wp_mono _ (line_holds ((s ++ t) ++ sp))).
  - unfold sp. destruct (i =? 7).
    + apply append_line_holds; [done|done|]. rewrite zlen_app. change (zlen (txt " ")) with 1. lia.
    + by rewrite app_nil_r.
  - intros [line2 pos2] H2. apply IH; [lia|lia| |done]. rewrite !zlen_app. lia.
Qed.

Lemma ascii_cells_holds fuel i line pos s :
  0 <= i <= zlen chunk -> (Z.to_nat (zlen chunk - i) < fuel)%nat ->
  zlen s + (zlen chunk - i) <= 99 -> line_holds s (line, pos) ->
  wp (ascii_cells fuel data offset (Z.min 16 (length - offset)) i line pos)
     (line_holds (s ++ ((fun b => gutter_char (bv b)) <$> drop (Z.to_nat i) chunk))).
Proof.
  rewrite <- zlen_chunk. revert i line pos s.
  induction fuel as [|fuel IH]; intros i line pos s Hi Hf Hs Hst; [lia|].
  cbn [ascii_cells]. destruct Hst as (Hp & Hl & rest & Hr) eqn:E. cbn [snd] in Hp. clear E.
  pose proof (zlen_nonneg s). rewrite szadd_small by lia.
  destruct (Z.ltb_spec i (zlen chunk)).
  - destruct (Z.ltb_spec (pos + 1) 128); [|lia]. cbn [andb].
    destruct (chunk !! Z.to_nat i) as [b|] eqn:E.
    2:{ apply lookup_ge_None in E. unfold zlen in *. lia. }
    rewrite (rd_chunk i b) by (done || lia). mred.
    rewrite (drop_S _ _ _ E), fmap_cons, cons_middle, app_assoc.
    replace (S (Z.to_nat i)) with (Z.to_nat (i + 1)) by lia.
    apply wp_bind. eapply wp_mono; [apply (buf_set_line _ _ s); [repeat split; eauto|lia]|].
    intros line1 Hst1. apply IH; [lia|lia| |done]. zlen. lia.
  - cbn [andb]. rewrite drop_ge, app_nil_r by (unfold zlen in *; lia). repeat split; eauto.
Qed.

Lemma hex_line_row line :
  zlen line = 128 ->
  wp (hex_line data length offset line)
     (fun line => holds line (hex_row offset chunk) /\ zlen line = 128).
Proof.
  intros Hline. destruct Hview. unfold hex_line. rewrite szsub_small by lia.
  replace (if length - offset <? 16 then length - offset else 16)
    with (Z.min 16 (length - offset)) by zcases.
  pose proof (digits_zlen 16 offset 16 ltac:(lia) ltac:(lia) ltac:(lia)) as Hd.
  assert (H4 : 4 <= zlen (fmt_0x 4 offset) <= 16).
  { unfold fmt_0x, pad_left, fmt_x, zlen in *. rewrite length_app, length_replicate. lia. }
  apply wp_bind. eapply wp_mono; [apply (append_line_holds _ _ [])|].
  { repeat split; [done|]. by exists line. }
  1,2: rewrite !zlen_app; change (zlen (txt "  ")) with 2; rewrite ?zlen_nil; lia.
  intros [l1 p1] H1. apply wp_bind. simpl app in H1.
  eapply wp_mono; [apply (hex_cells_holds 16 0 l1 p1 (fmt_0x 4 offset ++ txt "  ")); [lia|lia| |done]|].
  { rewrite zlen_app. change (zlen (txt "  ")) with 2. lia. }
  intros [l2 p2] [H2 Hz2]. apply wp_bind.
  eapply wp_mono; [apply append_line_holds; [exact H2|done|]|].
  { change (zlen (txt " ")) with 1. lia. }
  intros [l3 p3] H3. apply wp_bind. pose proof zlen_chunk.
  eapply wp_mono; [refine (ascii_cells_holds 17 0 l3 p3 _ _ _ _ H3); [lia|lia|]|].
  { rewrite zlen_app. change (zlen (txt " ")) with 1. lia. }
  rewrite drop_0. set (row := _ ++ _). intros [l4 p4] H4'.
  assert (Hrow : zlen row <= 99).
  { unfold row. rewrite zlen_app, zlen_fmap, zlen_app. change (zlen (txt " ")) with 1. lia. }
  pose proof (zlen_nonneg row). destruct H4' as (Hp4 & Hl4 & r4 & Hr4). cbn [snd fst] in *.
  rewrite szadd_small by lia. destruct (Z.ltb_spec (p4 + 1) 128); [|lia].
  apply wp_bind, wp_bind.
  eapply wp_mono; [apply (buf_set_line _ _ row); [repeat split; eauto|lia]|].
  intros l5 Hst5. cbn [wp]. eapply wp_mono; [apply (buf_set_line _ _ (row ++ [x0a]) x00); [exact Hst5|zlen; lia]|].
  intros l6 (_ & Hl6 & r6 & Hr6). cbn [fst] in *. split; [|done]. exists r6. rewrite Hr6.
  unfold hex_row. replace (fmt_0x 4 offset ++ _) with (row ++ [x0a]).
  - by rewrite (fmap_app _ (row ++ [x0a])), <- app_assoc.
  - unfold row. by rewrite <- !app_assoc.
Qed.

Lemma no_nul_hex_row : no_nul (hex_row offset chunk).
Proof.
  assert (Hd : forall w n, 0 <= n -> no_nul (fmt_0x w n)).
  { intros. by apply no_nul_digits, fmt_0x_is_digit. }
  assert (Hcols : forall n i, no_nul (hex_columns n chunk i)).
  { induction n as [|n IH]; intros i; [apply not_elem_of_nil|]. cbn [hex_columns].
    unfold no_nul, hex_cell. rewrite !elem_of_app.
    intros [[H|H]|H]; [|by destruct (i =? 7); revert H; apply (bool_decide_unpack _)|by apply (IH _ H)].
    destruct (chunk !! Z.to_nat i) as [b|]; [|by revert H; apply (bool_decide_unpack _)].
    rewrite elem_of_app in H. pose proof (bv_range b).
    destruct H as [H|H]; [by eapply Hd; [|exact H]; lia|by revert H; apply (bool_decide_unpack _)]. }
  unfold no_nul, hex_row. rewrite !elem_of_app, list_elem_of_fmap.
  intros [H|[H|[H|[H|[(b & Hb & _)|H]]]]].
  - eapply Hd; [|exact H]. lia.
  - by revert H; apply (bool_decide_unpack _).
  - by apply (Hcols _ _ H).
  - by revert H; apply (bool_decide_unpack _).
  - apply (f_equal bv) in Hb. unfold gutter_char in Hb. change (bv x00) with 0 in Hb.
    destruct (Z.leb_spec 0x20 (bv b)), (Z.ltb_spec (bv b) 0x7f); cbn [andb] in Hb;
      rewrite ?bv_zb_small in Hb by lia; try lia; done.
  - by revert H; apply (bool_decide_unpack _).
Qed.
End row.

Lemma hex_dump_loop_rows {C} (write : C -> list byte -> bool * C) data len fuel n offset line ctx :
  view_ok data len -> len <= 2 ^ 63 -> 0 <= offset -> zlen line = 128 ->
  len - offset <= 16 * (Z.of_nat fuel - 1) -> (0 < fuel)%nat -> len - offset <= 16 * Z.of_nat n ->
  hex_dump_loop write fuel data len offset line ctx
  = Done (write_all write (hex_rows n (view data len) offset) ctx).
Proof.
  intros Hview Hbig. revert n offset line ctx.
  induction fuel as [|fuel IH]; intros n offset line ctx Ho Hl Hf Hf0 Hn; [lia|].
  cbn [hex_dump_loop]. destruct (Z.ltb_spec offset len) as [Hlt|Hge]; cbn [negb].
  - destruct n as [|n]; [lia|]. cbn [hex_rows].
    rewrite zlen_view by done. destruct (Z.ltb_spec offset len); [|lia].
    pose proof (hex_line_row data len Hview Hbig offset (conj Ho Hlt) line Hl) as Hrow.
    apply wp_done in Hrow as (line' & -> & Hh & Hl'). mred.
    rewrite (cstring_holds _ _ Hh). mred.
    rewrite until_nul_no_nul by (apply no_nul_hex_row; lia).
    cbn [write_all]. destruct (write ctx _) as [[] ctx']; cbn [negb]; [|done].
    rewrite szadd_small by lia. apply IH; lia || done.
  - destruct n as [|n]; [done|]. cbn [hex_rows]. rewrite zlen_view by done.
    destruct (Z.ltb_spec offset len); [lia|done].
Qed.

Lemma ns_hex_dump_rows {C} (write : C -> list byte -> bool * C) data len ctx :
  view_ok data len -> len <= 2 ^ 63 ->
  ns_hex_dump write data len ctx = Done (write_all write (hex_dump_rows (view data len)) ctx).
Proof.
  intros Hview Hbig. unfold ns_hex_dump, hex_dump_rows. pose proof (zlen_view _ _ Hview) as Hz.
  destruct Hview as [? ?]. pose proof (Z.div_mod len 16). pose proof (Z.mod_pos_bound len 16).
  pose proof (Z.div_pos len 16). unfold zlen in Hz.
  apply hex_dump_loop_rows; [done|done|lia|done|lia..].
Qed.

(** C33. A hex dump never faults, never clamps a line and terminates: for every buffer, the
    callback receives exactly the reference rows (offset, sixteen hexadecimal cells, ASCII
    gutter) in order, stopping after the first call that fails, and the result is [false]
    exactly in that case. *)
Theorem hex_dump_writes_reference_rows {C} (write : C -> list byte -> bool * C)
    (data : list byte) (len : Z) (ctx : C) :
  view_ok data len -> len <= 2 ^ 63 ->
  ns_hex_dump write data len ctx = Done (write_all write (hex_dump_rows (view data len)) ctx).
Proof. apply ns_hex_dump_rows. Qed.

Lemma hex_dump_writes_reference_rows_witness :
  ns_hex_dump (fun out s => (true, out ++ s)) (txt "0123456789abcdefXYZ") 19 []
  = Done (write_all (fun out s => (true, out ++ s)) (hex_dump_rows (txt "0123456789abcdefXYZ")) [])
  /\ zlen (hex_dump_rows (txt "0123456789abcdefXYZ")) = 2.
Proof.
  split; [|reflexivity].
  apply (hex_dump_writes_reference_rows _ (txt "0123456789abcdefXYZ") 19); [|lia].
  split; [done|lia].
Defined.
