(* ===== verification/Proto.v ===== *)
(** * What a protocol parser promises to its caller

    [include/netscope/protocols/proto_common.h], the lemmas that run a parser's reads, and
    the interface between the parsers of [src/protocols/] and the dispatcher of
    [src/packet.c]: a parser given a buffer and the number of captured bytes neither faults
    nor depends on anything beyond those bytes. *)

From S2P Require Import Prelude CMem Util.

Inductive ns_parse_status_t :=
  | NS_PARSE_OK
  | NS_PARSE_TRUNCATED
  | NS_PARSE_MALFORMED
  | NS_PARSE_UNSUPPORTED.

#[global] Instance ns_parse_status_t_eq_dec : EqDecision ns_parse_status_t.
Proof. solve_decision. Defined.

(** [Decoder p post]: on every valid view, [p data length] returns, its result satisfies
    [post] for the captured bytes, and it is the result of running on those bytes alone. *)
Class Decoder {R : Type} (p : list byte -> Z -> M R) (post : list byte -> R -> Prop) : Prop := {
  decoder_safe data length : view_ok data length -> wp (p data length) (post (view data length));
  decoder_local data length : view_ok data length -> p data length = p (view data length) length
}.

(** A parser that computes a function of the captured bytes. *)
Lemma decoder_of_spec {R} (p : list byte -> Z -> M R) (spec : list byte -> R) :
  (forall data length, view_ok data length -> p data length = Done (spec (view data length))) ->
  Decoder p (fun bs r => r = spec bs).
Proof.
  intros Heq. split; intros data length Hv.
  - by rewrite Heq.
  - rewrite !Heq by auto using view_ok_view. by rewrite view_view.
Qed.

(** Two buffers that agree on the captured bytes are parsed alike. *)
Lemma decoder_agree {R} (p : list byte -> Z -> M R) post `{!Decoder p post} data data' length :
  view_ok data length -> view_ok data' length -> view data length = view data' length ->
  p data length = p data' length.
Proof. intros. rewrite (decoder_local data), (decoder_local data') by done. congruence. Qed.

(** ** The readers look at the captured bytes only *)

Section local_reads.
Context (data : list byte) (length : Z) (Hview : view_ok data length).

#[local] Lemma rd_negative (l : list byte) i : i < 0 -> rd l i = Fault OutOfBounds.
Proof. intros. unfold rd. by destruct (Z.leb_spec 0 i); [lia|]. Qed.

#[local] Lemma check_large offset n : length < offset -> ns_bounds_check length offset n = false.
Proof. intros. unfold ns_bounds_check. rewrite Z.gtb_ltb. by destruct (Z.ltb_spec length offset); [|lia]. Qed.

Lemma ns_read_u8_local offset :
  ns_read_u8 data length offset = ns_read_u8 (view data length) length offset.
Proof.
  destruct (decide (offset < 0)); [unfold ns_read_u8; by rewrite !(rd_negative _ offset)|].
  destruct (decide (length < offset)); [unfold ns_read_u8; by rewrite !check_large|].
  rewrite !ns_read_u8_spec by (auto using view_ok_view || destruct Hview; unfold is_size; lia).
  by rewrite view_view.
Qed.

Lemma ns_read_u16_be_local offset :
  ns_read_u16_be data length offset = ns_read_u16_be (view data length) length offset.
Proof.
  destruct (decide (offset < 0)); [unfold ns_read_u16_be; by rewrite !(rd_negative _ offset)|].
  destruct (decide (length < offset)); [unfold ns_read_u16_be; by rewrite !check_large|].
  rewrite !ns_read_u16_be_spec by (auto using view_ok_view || destruct Hview; unfold is_size; lia).
  by rewrite view_view.
Qed.

Lemma ns_read_u32_be_local offset :
  ns_read_u32_be data length offset = ns_read_u32_be (view data length) length offset.
Proof.
  destruct (decide (offset < 0)); [unfold ns_read_u32_be; by rewrite !(rd_negative _ offset)|].
  destruct (decide (length < offset)); [unfold ns_read_u32_be; by rewrite !check_large|].
  rewrite !ns_read_u32_be_spec by (auto using view_ok_view || destruct Hview; unfold is_size; lia).
  by rewrite view_view.
Qed.

Lemma rd_bytes_local offset n :
  offset + n <= length -> rd_bytes data offset n = rd_bytes (view data length) offset n.
Proof.
  intros H. destruct Hview. unfold rd_bytes. rewrite zlen_view by done.
  destruct (Z.leb_spec 0 offset), (Z.leb_spec 0 n); cbn [andb]; try done.
  rewrite !(proj2 (Z.leb_le _ _)) by lia. by rewrite slice_view by lia.
Qed.

Lemma rd_local i : i < length -> rd data i = rd (view data length) i.
Proof.
  intros Hi. destruct (decide (i < 0)); [by rewrite !rd_negative|]. destruct Hview.
  rewrite !rd_done by (rewrite ?zlen_view; done || lia). unfold u8_at. by rewrite slice_view by lia.
Qed.

Lemma filled_u16_range offset v :
  filled (ns_read_u16_be data length offset) = Done v -> 0 <= v < 65536.
Proof.
  unfold filled, ns_read_u16_be. destruct (negb _); [done|]. destruct (rd data offset); [|done]. mred.
  destruct (rd data (szadd offset 1)); [|done]. mred. intros [= <-]. apply Z.mod_pos_bound. lia.
Qed.
End local_reads.

(** ** Running the reads of a parser *)

Section reads.
Context (data : list byte) (length : Z) (Hview : view_ok data length).

Lemma bounds_view offset size :
  0 <= offset < 2 ^ 64 -> 0 <= size < 2 ^ 64 ->
  ns_bounds_check length offset size = (offset + size <=? length).
Proof. intros. apply ns_bounds_check_spec; unfold is_size; destruct Hview; lia. Qed.

Lemma filled_u8 offset :
  0 <= offset -> offset + 1 <= length ->
  filled (ns_read_u8 data length offset) = Done (u8_at (view data length) offset).
Proof.
  intros. unfold filled. rewrite ns_read_u8_spec by (done || unfold is_size; destruct Hview; lia).
  mred. destruct (Z.leb_spec (offset + 1) length); [done|lia].
Qed.

Lemma filled_u16 offset :
  0 <= offset -> offset + 2 <= length ->
  filled (ns_read_u16_be data length offset) = Done (u16_at (view data length) offset).
Proof.
  intros. unfold filled. rewrite ns_read_u16_be_spec by (done || unfold is_size; destruct Hview; lia).
  mred. destruct (Z.leb_spec (offset + 2) length); [done|lia].
Qed.

Lemma filled_u32 offset :
  0 <= offset -> offset + 4 <= length ->
  filled (ns_read_u32_be data length offset) = Done (u32_at (view data length) offset).
Proof.
  intros. unfold filled. rewrite ns_read_u32_be_spec by (done || unfold is_size; destruct Hview; lia).
  mred. destruct (Z.leb_spec (offset + 4) length); [done|lia].
Qed.

Lemma rd_bytes_view offset n :
  0 <= offset -> 0 <= n -> offset + n <= length ->
  rd_bytes data offset n = Done (slice (view data length) offset n).
Proof.
  intros. destruct Hview. rewrite rd_bytes_done by lia. by rewrite slice_view by lia.
Qed.
End reads.

(** Decides the bounds checks and runs the reads of a straight-line parser on [Hv : view_ok]. *)
Ltac run_reads Hv :=
  rewrite ?(filled_u8 _ _ Hv), ?(filled_u16 _ _ Hv), ?(filled_u32 _ _ Hv),
    ?(rd_bytes_view _ _ Hv) by lia; mred.

Ltac check_bounds Hv :=
  rewrite ?(bounds_view _ _ Hv) by lia; rewrite ?Z.add_0_l;
  match goal with |- context [?a <=? ?b] => destruct (Z.leb_spec a b) end;
  cbn [negb]; [|try done].

(** ** Reading encoded fields back

    [u16_at] and its siblings on a buffer given as a concatenation of encoded fields. *)

Lemma field_here n z tl :
  0 <= z < 256 ^ Z.of_nat n -> be (slice (to_be n z ++ tl) 0 (Z.of_nat n)) = z.
Proof.
  intros. rewrite slice_app_l by (rewrite ?zlen_to_be; lia).
  rewrite slice_all by (by rewrite zlen_to_be). by apply be_to_be.
Qed.

Lemma u8_here z tl : 0 <= z < 256 -> u8_at (to_be 1 z ++ tl) 0 = z.
Proof. intros. apply (field_here 1). lia. Qed.

Lemma u16_here z tl : 0 <= z < 65536 -> u16_at (to_be 2 z ++ tl) 0 = z.
Proof. intros. apply (field_here 2). lia. Qed.

Lemma u32_here z tl : 0 <= z < 4294967296 -> u32_at (to_be 4 z ++ tl) 0 = z.
Proof. intros. apply (field_here 4). lia. Qed.

(** Skipping a field of known length. *)
Lemma u8_skip hd tl i : zlen hd <= i -> u8_at (hd ++ tl) i = u8_at tl (i - zlen hd).
Proof. intros. unfold u8_at. by rewrite slice_app_r. Qed.

Lemma u16_skip hd tl i : zlen hd <= i -> u16_at (hd ++ tl) i = u16_at tl (i - zlen hd).
Proof. intros. unfold u16_at. by rewrite slice_app_r. Qed.

Lemma u32_skip hd tl i : zlen hd <= i -> u32_at (hd ++ tl) i = u32_at tl (i - zlen hd).
Proof. intros. unfold u32_at. by rewrite slice_app_r. Qed.

Lemma slice_here {A} (hd tl : list A) n : n = zlen hd -> slice (hd ++ tl) 0 n = hd.
Proof.
  intros ->. pose proof (zlen_nonneg hd). rewrite slice_app_l by lia. by apply slice_all.
Qed.

Lemma slice_skip {A} (hd tl : list A) i n :
  zlen hd <= i -> slice (hd ++ tl) i n = slice tl (i - zlen hd) n.
Proof. apply slice_app_r. Qed.

(** Closes length side conditions of encoded headers. *)
Ltac enc_len := rewrite ?zlen_app, ?zlen_to_be; lia.

(** Proves [u16_at (f1 ++ f2 ++ ...) k = z] (or its siblings, or a [slice]) by walking to the
    field at the constant offset [k]. *)
Ltac field_at :=
  first
    [ rewrite u8_here by lia; reflexivity
    | rewrite u16_here by lia; reflexivity
    | rewrite u32_here by lia; reflexivity
    | rewrite slice_here by enc_len; reflexivity
    | first [rewrite u8_skip by enc_len | rewrite u16_skip by enc_len
            | rewrite u32_skip by enc_len | rewrite slice_skip by enc_len];
      rewrite ?zlen_to_be;
      repeat match goal with H : zlen ?x = _ |- context [_ - zlen ?x] => rewrite H end;
      match goal with
      | |- context [?a - ?b] => let v := eval vm_compute in (a - b) in change (a - b) with v
      end;
      field_at ].
