(* ===== verification/Link.v ===== *)
(** * Link layer: [src/protocols/ethernet.c] and [src/protocols/arp.c] *)

From S2P Require Import Prelude CMem Util Proto.

Definition NS_ETH_ADDR_LEN := 6.
Definition NS_ETH_HEADER_LEN := 14.
Definition NS_VLAN_TAG_LEN := 4.

Definition NS_ETHERTYPE_IPV4 := 0x0800.
Definition NS_ETHERTYPE_ARP := 0x0806.
Definition NS_ETHERTYPE_IPV6 := 0x86DD.
Definition NS_ETHERTYPE_VLAN := 0x8100.

Record ns_eth_info_t := EthInfo {
  eth_destination : list byte;
  eth_source : list byte;
  eth_ethertype : Z;
  eth_has_vlan : bool;
  eth_vlan_id : Z
}.

(** the all-zero object *)
Definition zero_eth : ns_eth_info_t := EthInfo (replicate 6 x00) (replicate 6 x00) 0 false 0.

(** The result is the status, [*out] and [*header_len] ([None]: not assigned). *)
Definition ns_parse_ethernet (data : list byte) (length : Z) (out : ns_eth_info_t)
    : M (ns_parse_status_t * ns_eth_info_t * option Z) :=
  if negb (ns_bounds_check length 0 NS_ETH_HEADER_LEN) then Done (NS_PARSE_TRUNCATED, out, None)
  else
    destination ← rd_bytes data 0 NS_ETH_ADDR_LEN;
    source ← rd_bytes data NS_ETH_ADDR_LEN NS_ETH_ADDR_LEN;
    let out := EthInfo destination source 0 false 0 in
    r ← ns_read_u16_be data length (2 * NS_ETH_ADDR_LEN);
    match r with
    | None => Done (NS_PARSE_TRUNCATED, out, None)
    | Some ethertype =>
        if ethertype =? NS_ETHERTYPE_VLAN then
          if negb (ns_bounds_check length 0 (NS_ETH_HEADER_LEN + NS_VLAN_TAG_LEN))
          then Done (NS_PARSE_TRUNCATED, out, None)
          else
            vlan_field ← filled (ns_read_u16_be data length (2 * NS_ETH_ADDR_LEN + 2));
            inner_type ← filled (ns_read_u16_be data length (2 * NS_ETH_ADDR_LEN + 4));
            Done (NS_PARSE_OK,
                  EthInfo destination source inner_type true (u16c (Z.land vlan_field 0x0FFF)),
                  Some (NS_ETH_HEADER_LEN + NS_VLAN_TAG_LEN))
        else
          Done (NS_PARSE_OK, EthInfo destination source ethertype false 0, Some NS_ETH_HEADER_LEN)
    end.

Definition NS_ARP_HTYPE_ETHERNET := 1.
Definition NS_ARP_PTYPE_IPV4 := 0x0800.
Definition NS_ARP_HEADER_LEN := 8.
Definition NS_ARP_OP_REQUEST := 1.
Definition NS_ARP_OP_REPLY := 2.

Record ns_arp_info_t := ArpInfo {
  arp_operation : Z;
  arp_sender_mac : list byte;
  arp_sender_ip : Z;
  arp_target_mac : list byte;
  arp_target_ip : Z
}.

Definition zero_arp : ns_arp_info_t := ArpInfo 0 (replicate 6 x00) 0 (replicate 6 x00) 0.

(** [memcpy] into a [uint32_t] stores the object representation, hence [le]. *)
Definition ns_parse_arp (data : list byte) (length : Z) (out : ns_arp_info_t)
    : M (ns_parse_status_t * ns_arp_info_t) :=
  if negb (ns_bounds_check length 0 NS_ARP_HEADER_LEN) then Done (NS_PARSE_TRUNCATED, out)
  else
    htype ← filled (ns_read_u16_be data length 0);
    ptype ← filled (ns_read_u16_be data length 2);
    hlen ← filled (ns_read_u8 data length 4);
    plen ← filled (ns_read_u8 data length 5);
    operation ← filled (ns_read_u16_be data length 6);
    if negb (htype =? NS_ARP_HTYPE_ETHERNET) || negb (ptype =? NS_ARP_PTYPE_IPV4)
       || negb (hlen =? NS_ETH_ADDR_LEN) || negb (plen =? 4)
    then Done (NS_PARSE_UNSUPPORTED, out)
    else
      let body_len := 2 * hlen + 2 * plen in
      if negb (ns_bounds_check length NS_ARP_HEADER_LEN body_len) then Done (NS_PARSE_TRUNCATED, out)
      else
        let off := NS_ARP_HEADER_LEN in
        sender_mac ← rd_bytes data off NS_ETH_ADDR_LEN;
        let off := szadd off NS_ETH_ADDR_LEN in
        sender_ip ← rd_bytes data off 4;
        let off := szadd off 4 in
        target_mac ← rd_bytes data off NS_ETH_ADDR_LEN;
        let off := szadd off NS_ETH_ADDR_LEN in
        target_ip ← rd_bytes data off 4;
        Done (NS_PARSE_OK, ArpInfo operation sender_mac (le sender_ip) target_mac (le target_ip)).

(** ** Ethernet: the parser as a function of the captured bytes *)

Definition eth_spec (out : ns_eth_info_t) (bs : list byte)
    : ns_parse_status_t * ns_eth_info_t * option Z :=
  if negb (14 <=? zlen bs) then (NS_PARSE_TRUNCATED, out, None)
  else
    let dst := slice bs 0 6 in let src := slice bs 6 6 in
    if negb (u16_at bs 12 =? 0x8100)
    then (NS_PARSE_OK, EthInfo dst src (u16_at bs 12) false 0, Some 14)
    else if negb (18 <=? zlen bs) then (NS_PARSE_TRUNCATED, EthInfo dst src 0 false 0, None)
    else (NS_PARSE_OK, EthInfo dst src (u16_at bs 16) true (u16_at bs 14 mod 4096), Some 18).

Lemma ns_parse_ethernet_spec data length out :
  view_ok data length -> ns_parse_ethernet data length out = Done (eth_spec out (view data length)).
Proof.
  intros Hv. unfold ns_parse_ethernet, eth_spec.
  unfold NS_ETH_HEADER_LEN, NS_ETH_ADDR_LEN, NS_VLAN_TAG_LEN, NS_ETHERTYPE_VLAN.
  rewrite zlen_view by done. check_bounds Hv. run_reads Hv.
  change (2 * 6) with 12. change (12 + 2) with 14. change (12 + 4) with 16. change (14 + 4) with 18.
  rewrite (ns_read_u16_be_spec data length Hv 12) by (unfold is_size; lia). mred.
  destruct (Z.leb_spec (12 + 2) length); [|lia].
  set (bs := view data length). destruct (u16_at bs 12 =? 0x8100); cbn [negb]; [|done].
  check_bounds Hv. run_reads Hv. do 3 f_equal.
  change 0x0FFF with (2 ^ 12 - 1). rewrite land_mask by lia. rewrite u16c_small; [done|].
  pose proof (Z.mod_pos_bound (u16_at bs 14) (2 ^ 12)). subst bs. lia.
Qed.

#[export] Instance ethernet_decoder out :
  Decoder (fun d l => ns_parse_ethernet d l out) (fun bs r => r = eth_spec out bs).
Proof. apply decoder_of_spec. intros. by apply ns_parse_ethernet_spec. Qed.

(** ** ARP *)

Definition arp_spec (out : ns_arp_info_t) (bs : list byte) : ns_parse_status_t * ns_arp_info_t :=
  if negb (8 <=? zlen bs) then (NS_PARSE_TRUNCATED, out)
  else if negb (bool_decide (slice bs 0 6 = to_be 2 1 ++ to_be 2 0x0800 ++ [x06; x04]))
  then (NS_PARSE_UNSUPPORTED, out)
  else if negb (28 <=? zlen bs) then (NS_PARSE_TRUNCATED, out)
  else (NS_PARSE_OK, ArpInfo (u16_at bs 6) (slice bs 8 6) (le (slice bs 14 4))
                             (slice bs 18 6) (le (slice bs 24 4))).

(** The four type and size fields hold the Ethernet/IPv4 values iff the first six bytes are
    the constant prefix of such a packet. *)
Lemma arp_prefix bs :
  6 <= zlen bs ->
  (u16_at bs 0 =? 1) && (u16_at bs 2 =? 0x0800) && (u8_at bs 4 =? 6) && (u8_at bs 5 =? 4)
  = bool_decide (slice bs 0 6 = to_be 2 1 ++ to_be 2 0x0800 ++ [x06; x04]).
Proof.
  intros Hl. destruct bs as [|b0 [|b1 [|b2 [|b3 [|b4 [|b5 bs]]]]]]; try (zlen; lia).
  clear Hl. unfold u16_at, u8_at, slice. change (Z.to_nat 6) with 6%nat.
  cbn [take drop Z.to_nat Pos.to_nat Pos.iter_op Nat.add]. 
  apply eq_true_iff_eq. rewrite bool_decide_eq_true, !andb_true_iff, !Z.eqb_eq.
  split.
  - intros [[[H1 H2] H3] H4].
    apply (be_inj [b0; b1] (to_be 2 1)) in H1; [|done].
    apply (be_inj [b2; b3] (to_be 2 0x0800)) in H2; [|done].
    apply (be_inj [b4] [x06]) in H3; [|done]. apply (be_inj [b5] [x04]) in H4; [|done].
    vm_compute in H1, H2. by simplify_eq.
  - intros E. vm_compute in E. by simplify_eq.
Qed.

Lemma ns_parse_arp_spec data length out :
  view_ok data length -> ns_parse_arp data length out = Done (arp_spec out (view data length)).
Proof.
  intros Hv. unfold ns_parse_arp, arp_spec.
  unfold NS_ARP_HEADER_LEN, NS_ARP_HTYPE_ETHERNET, NS_ARP_PTYPE_IPV4, NS_ETH_ADDR_LEN.
  rewrite zlen_view by done. check_bounds Hv. run_reads Hv.
  rewrite <- !negb_andb, arp_prefix by (rewrite zlen_view by done; lia).
  set (bs := view data length) in *. case_bool_decide as E; cbn [negb]; [|done].
  assert (E4 : u8_at bs 4 = 6 /\ u8_at bs 5 = 4).
  { pose proof (arp_prefix bs) as Hp. rewrite bool_decide_eq_true_2, !andb_true_iff, !Z.eqb_eq in Hp
      by done. subst bs. rewrite zlen_view in Hp by done. destruct Hp as [[[]]]; [lia|done]. }
  destruct E4 as [-> ->]. change (2 * 6 + 2 * 4) with 20.
  rewrite (bounds_view _ _ Hv) by lia. change (8 + 20) with 28.
  destruct (Z.leb_spec 28 length); cbn [negb]; [|done].
  change (szadd 8 6) with 14. change (szadd 14 4) with 18. change (szadd 18 6) with 24.
  subst bs. run_reads Hv. done.
Qed.

#[export] Instance arp_decoder out :
  Decoder (fun d l => ns_parse_arp d l out) (fun bs r => r = arp_spec out bs).
Proof. apply decoder_of_spec. intros. by apply ns_parse_arp_spec. Qed.

(** ** Wire formats and properties *)

(** An untagged and an 802.1Q-tagged Ethernet header. *)
Definition encode_eth (h : ns_eth_info_t) : list byte :=
  eth_destination h ++ eth_source h ++
  (if eth_has_vlan h then to_be 2 NS_ETHERTYPE_VLAN ++ to_be 2 (eth_vlan_id h) else []) ++
  to_be 2 (eth_ethertype h).

Definition valid_eth (h : ns_eth_info_t) : Prop :=
  zlen (eth_destination h) = 6 /\ zlen (eth_source h) = 6 /\ 0 <= eth_ethertype h < 65536 /\
  if eth_has_vlan h then 0 <= eth_vlan_id h < 4096
  else eth_vlan_id h = 0 /\ eth_ethertype h <> NS_ETHERTYPE_VLAN.

Lemma eth_spec_encode h out payload :
  valid_eth h -> eth_spec out (encode_eth h ++ payload) = (NS_PARSE_OK, h, Some (zlen (encode_eth h))).
Proof.
  destruct h as [dst src et [] vid]; intros (Hd & Hs & He & Hv);
    unfold encode_eth, NS_ETHERTYPE_VLAN in *; cbn [eth_destination eth_source eth_ethertype eth_has_vlan eth_vlan_id] in *;
    unfold eth_spec; rewrite <- ?app_assoc, ?app_nil_l in *; rewrite !zlen_app, !zlen_to_be, Hd, Hs;
    pose proof (zlen_nonneg payload).
  - set (bs := dst ++ _). assert (E1 : u16_at bs 12 = 0x8100) by (unfold bs; field_at).
    assert (E2 : u16_at bs 14 = vid) by (unfold bs; field_at).
    assert (E3 : u16_at bs 16 = et) by (unfold bs; field_at).
    assert (E4 : slice bs 0 6 = dst) by (unfold bs; field_at).
    assert (E5 : slice bs 6 6 = src) by (unfold bs; field_at).
    rewrite E1, E2, E3, E4, E5. zcases. rewrite Z.mod_small by lia. done.
  - set (bs := dst ++ _). assert (E1 : u16_at bs 12 = et) by (unfold bs; field_at).
    assert (E4 : slice bs 0 6 = dst) by (unfold bs; field_at).
    assert (E5 : slice bs 6 6 = src) by (unfold bs; field_at).
    rewrite E1, E4, E5. destruct Hv as [-> Hv]. by zcases.
Qed.



Definition encode_arp (h : ns_arp_info_t) : list byte :=
  to_be 2 NS_ARP_HTYPE_ETHERNET ++ to_be 2 NS_ARP_PTYPE_IPV4 ++ to_be 1 6 ++ to_be 1 4 ++
  to_be 2 (arp_operation h) ++ arp_sender_mac h ++ to_le 4 (arp_sender_ip h) ++
  arp_target_mac h ++ to_le 4 (arp_target_ip h).

Definition valid_arp (h : ns_arp_info_t) : Prop :=
  0 <= arp_operation h < 65536 /\ zlen (arp_sender_mac h) = 6 /\ zlen (arp_target_mac h) = 6 /\
  0 <= arp_sender_ip h < 2 ^ 32 /\ 0 <= arp_target_ip h < 2 ^ 32.

Lemma zlen_to_le n z : zlen (to_le n z) = Z.of_nat n.
Proof. unfold zlen. by rewrite length_to_le. Qed.

(** C26. ARP: every Ethernet/IPv4 ARP packet, followed by any padding, is parsed back to
    itself; cut anywhere before its 28th byte it is reported as truncated. *)
Theorem arp_roundtrip (h out : ns_arp_info_t) (padding : list byte) :
  valid_arp h -> zlen (encode_arp h ++ padding) < 2 ^ 64 ->
  ns_parse_arp (encode_arp h ++ padding) (zlen (encode_arp h ++ padding)) out
    = Done (NS_PARSE_OK, h) /\
  forall n, 0 <= n < 28 -> ns_parse_arp (encode_arp h) n out = Done (NS_PARSE_TRUNCATED, out).
Proof.
  destruct h as [op smac sip tmac tip]. intros (Ho & Hsm & Htm & Hsi & Hti) Hlen.
  cbn [arp_operation arp_sender_mac arp_sender_ip arp_target_mac arp_target_ip] in *.
  set (h := ArpInfo op smac sip tmac tip) in *.
  assert (Hz : zlen (encode_arp h) = 28).
  { unfold encode_arp, h.
    cbn [arp_operation arp_sender_mac arp_sender_ip arp_target_mac arp_target_ip].
    rewrite !zlen_app, !zlen_to_be, !zlen_to_le, Hsm, Htm. done. }
  pose proof (zlen_to_le 4 sip) as Hl1. pose proof (zlen_to_le 4 tip) as Hl2.
  simpl Z.of_nat in Hl1, Hl2. split.
  - rewrite ns_parse_arp_spec by (by apply view_ok_all). rewrite view_all. unfold arp_spec.
    pose proof (zlen_nonneg padding). rewrite zlen_app, Hz.
    destruct (Z.leb_spec 8 (28 + zlen padding)); [|lia]. cbn [negb].
    rewrite bool_decide_eq_true_2 by done. cbn [negb].
    destruct (Z.leb_spec 28 (28 + zlen padding)); [|lia]. cbn [negb]. do 2 f_equal.
    unfold encode_arp, h.
    cbn [arp_operation arp_sender_mac arp_sender_ip arp_target_mac arp_target_ip]. rewrite <- !app_assoc.
    set (bs := to_be 2 NS_ARP_HTYPE_ETHERNET ++ _).
    assert (E1 : u16_at bs 6 = op) by (unfold bs; field_at).
    assert (E2 : slice bs 8 6 = smac) by (unfold bs; field_at).
    assert (E3 : slice bs 14 4 = to_le 4 sip) by (unfold bs; field_at).
    assert (E4 : slice bs 18 6 = tmac) by (unfold bs; field_at).
    assert (E5 : slice bs 24 4 = to_le 4 tip) by (unfold bs; field_at).
    rewrite E1, E2, E3, E4, E5, !le_to_le by lia. done.
  - intros n Hn. assert (Hv : view_ok (encode_arp h) n) by (unfold view_ok; lia).
    rewrite ns_parse_arp_spec by done. unfold arp_spec. rewrite zlen_view by done.
    destruct (Z.leb_spec 8 n); cbn [negb]; [|done].
    rewrite slice_view by lia. rewrite bool_decide_eq_true_2 by done. cbn [negb].
    destruct (Z.leb_spec 28 n); [lia|done].
Qed.

Lemma arp_roundtrip_witness :
  let h := ArpInfo NS_ARP_OP_REQUEST (replicate 6 xaa) 0x0101a8c0 (replicate 6 x00) 0x0501a8c0 in
  ns_parse_arp (encode_arp h ++ replicate 18 x00) 46 zero_arp = Done (NS_PARSE_OK, h) /\
  ns_parse_arp (encode_arp h) 27 zero_arp = Done (NS_PARSE_TRUNCATED, zero_arp).
Proof.
  intros h. destruct (arp_roundtrip h zero_arp (replicate 18 x00)) as [H1 H2].
  - by repeat split.
  - done.
  - split; [exact H1|]. apply H2. lia.
Defined.
