(* ===== verification/Network.v ===== *)
(** * Network layer: [src/protocols/ipv4.c] and [src/protocols/ipv6.c] *)

From S2P Require Import Prelude CMem Util Proto.

Definition NS_IPV4_MIN_HEADER_LEN := 20.

Record ns_ipv4_info_t := Ipv4Info {
  ipv4_version : Z;
  ipv4_ihl : Z;
  ipv4_dscp : Z;
  ipv4_ecn : Z;
  ipv4_total_length : Z;
  ipv4_identification : Z;
  ipv4_flag_df : bool;
  ipv4_flag_mf : bool;
  ipv4_fragment_offset : Z;
  ipv4_ttl : Z;
  ipv4_protocol : Z;
  ipv4_header_checksum : Z;
  ipv4_source : Z;
  ipv4_destination : Z;
  ipv4_header_length : Z;
  ipv4_is_fragment : bool;
  ipv4_is_initial_fragment : bool
}.

Definition zero_ipv4 : ns_ipv4_info_t := Ipv4Info 0 0 0 0 0 0 false false 0 0 0 0 0 0 0 false false.

Definition ns_parse_ipv4 (data : list byte) (length : Z) (out : ns_ipv4_info_t)
    : M (ns_parse_status_t * ns_ipv4_info_t * option Z) :=
  if negb (ns_bounds_check length 0 NS_IPV4_MIN_HEADER_LEN) then Done (NS_PARSE_TRUNCATED, out, None)
  else
    version_ihl ← filled (ns_read_u8 data length 0);
    let version := u8c (Z.shiftr version_ihl 4) in
    let ihl := u8c (Z.land version_ihl 0x0F) in
    if negb (version =? 4) then Done (NS_PARSE_MALFORMED, out, None)
    else if ihl <? 5 then Done (NS_PARSE_MALFORMED, out, None)
    else
      let hdr_len := szmul ihl 4 in
      if negb (ns_bounds_check length 0 hdr_len) then Done (NS_PARSE_TRUNCATED, out, None)
      else
        dscp_ecn ← filled (ns_read_u8 data length 1);
        total_length ← filled (ns_read_u16_be data length 2);
        identification ← filled (ns_read_u16_be data length 4);
        flags_frag ← filled (ns_read_u16_be data length 6);
        ttl ← filled (ns_read_u8 data length 8);
        protocol ← filled (ns_read_u8 data length 9);
        checksum ← filled (ns_read_u16_be data length 10);
        src ← rd_bytes data 12 4;
        dst ← rd_bytes data 16 4;
        if total_length <? hdr_len then Done (NS_PARSE_MALFORMED, out, None)
        else
          let flag_df := negb (Z.land flags_frag 0x4000 =? 0) in
          let flag_mf := negb (Z.land flags_frag 0x2000 =? 0) in
          let fragment_offset := u16c (Z.land flags_frag 0x1FFF) in
          let is_fragment := flag_mf || negb (fragment_offset =? 0) in
          Done (NS_PARSE_OK,
                {| ipv4_version := version;
                   ipv4_ihl := ihl;
                   ipv4_dscp := u8c (Z.shiftr dscp_ecn 2);
                   ipv4_ecn := u8c (Z.land dscp_ecn 0x03);
                   ipv4_total_length := total_length;
                   ipv4_identification := identification;
                   ipv4_flag_df := flag_df;
                   ipv4_flag_mf := flag_mf;
                   ipv4_fragment_offset := fragment_offset;
                   ipv4_ttl := ttl;
                   ipv4_protocol := protocol;
                   ipv4_header_checksum := checksum;
                   ipv4_source := le src;
                   ipv4_destination := le dst;
                   ipv4_header_length := hdr_len;
                   ipv4_is_fragment := is_fragment;
                   ipv4_is_initial_fragment := is_fragment && (fragment_offset =? 0) |},
                Some hdr_len).

Definition NS_IPV6_ADDR_LEN := 16.
Definition NS_IPV6_HEADER_LEN := 40.
Definition NS_IPV6_NEXT_HOP_BY_HOP := 0.
Definition NS_IPV6_NEXT_ROUTING := 43.
Definition NS_IPV6_NEXT_FRAGMENT := 44.
Definition NS_IPV6_NEXT_DEST_OPTS := 60.
Definition NS_IPV6_MAX_EXTENSION_HEADERS := 8%nat.

Record ns_ipv6_info_t := Ipv6Info {
  ipv6_version : Z;
  ipv6_traffic_class : Z;
  ipv6_flow_label : Z;
  ipv6_payload_length : Z;
  ipv6_next_header : Z;
  ipv6_hop_limit : Z;
  ipv6_source : list byte;
  ipv6_destination : list byte;
  ipv6_header_length : Z
}.

Definition zero_ipv6 : ns_ipv6_info_t :=
  Ipv6Info 0 0 0 0 0 0 (replicate 16 x00) (replicate 16 x00) 0.

Definition ns_parse_ipv6 (data : list byte) (length : Z) (out : ns_ipv6_info_t)
    : M (ns_parse_status_t * ns_ipv6_info_t * option Z) :=
  if negb (ns_bounds_check length 0 NS_IPV6_HEADER_LEN) then Done (NS_PARSE_TRUNCATED, out, None)
  else
    first_word ← filled (ns_read_u32_be data length 0);
    let version := u8c (Z.shiftr first_word 28) in
    if negb (version =? 6) then Done (NS_PARSE_MALFORMED, out, None)
    else
      payload_length ← filled (ns_read_u16_be data length 4);
      next_header ← filled (ns_read_u8 data length 6);
      hop_limit ← filled (ns_read_u8 data length 7);
      source ← rd_bytes data 8 NS_IPV6_ADDR_LEN;
      destination ← rd_bytes data 24 NS_IPV6_ADDR_LEN;
      Done (NS_PARSE_OK,
            {| ipv6_version := version;
               ipv6_traffic_class := u8c (Z.land (Z.shiftr first_word 20) 0xFF);
               ipv6_flow_label := Z.land first_word 0x000FFFFF;
               ipv6_payload_length := payload_length;
               ipv6_next_header := next_header;
               ipv6_hop_limit := hop_limit;
               ipv6_source := source;
               ipv6_destination := destination;
               ipv6_header_length := NS_IPV6_HEADER_LEN |},
            Some NS_IPV6_HEADER_LEN).

(** One turn of the extension-header loop: [None] when the function returns, with its
    result, otherwise the advanced [*offset] and [*next_header]. *)
Inductive ext_step :=
  | ExtReturn (result : bool)
  | ExtContinue (offset next_header : Z).

Definition skip_one_extension (data : list byte) (length offset next_header : Z) : M ext_step :=
  if (next_header =? NS_IPV6_NEXT_HOP_BY_HOP) || (next_header =? NS_IPV6_NEXT_ROUTING)
     || (next_header =? NS_IPV6_NEXT_DEST_OPTS) then
    if negb (ns_bounds_check length offset 2) then Done (ExtReturn false)
    else
      next ← filled (ns_read_u8 data length offset);
      ext_len_units ← filled (ns_read_u8 data length (szadd offset 1));
      let ext_len := szmul (szadd ext_len_units 1) 8 in
      if negb (ns_bounds_check length offset ext_len) then Done (ExtReturn false)
      else Done (ExtContinue (szadd offset ext_len) next)
  else if next_header =? NS_IPV6_NEXT_FRAGMENT then
    r ← ns_read_u8 data length offset;
    match r with
    | None => Done (ExtReturn false)
    | Some next =>
        if negb (ns_bounds_check length offset 8) then Done (ExtReturn false)
        else Done (ExtContinue (szadd offset 8) next)
    end
  else Done (ExtReturn true).

(** The result is the function's value with the final [*offset] and [*next_header]. *)
Fixpoint skip_extensions (n : nat) (data : list byte) (length offset next_header : Z)
    : M (bool * Z * Z) :=
  match n with
  | O => Done (false, offset, next_header)
  | S n =>
      s ← skip_one_extension data length offset next_header;
      match s with
      | ExtReturn result => Done (result, offset, next_header)
      | ExtContinue offset next_header => skip_extensions n data length offset next_header
      end
  end.

Definition ns_ipv6_skip_extension_headers (data : list byte) (length offset next_header : Z)
    : M (bool * Z * Z) :=
  skip_extensions NS_IPV6_MAX_EXTENSION_HEADERS data length offset next_header.

(** ** IPv4 as a function of the captured bytes *)

Definition ipv4_fields (bs : list byte) : ns_ipv4_info_t :=
  let frag := u16_at bs 6 in
  {| ipv4_version := u8_at bs 0 / 16;
     ipv4_ihl := u8_at bs 0 mod 16;
     ipv4_dscp := u8_at bs 1 / 4;
     ipv4_ecn := u8_at bs 1 mod 4;
     ipv4_total_length := u16_at bs 2;
     ipv4_identification := u16_at bs 4;
     ipv4_flag_df := Z.testbit frag 14;
     ipv4_flag_mf := Z.testbit frag 13;
     ipv4_fragment_offset := frag mod 8192;
     ipv4_ttl := u8_at bs 8;
     ipv4_protocol := u8_at bs 9;
     ipv4_header_checksum := u16_at bs 10;
     ipv4_source := le (slice bs 12 4);
     ipv4_destination := le (slice bs 16 4);
     ipv4_header_length := 4 * (u8_at bs 0 mod 16);
     ipv4_is_fragment := Z.testbit frag 13 || negb (frag mod 8192 =? 0);
     ipv4_is_initial_fragment := Z.testbit frag 13 && (frag mod 8192 =? 0) |}.

Definition ipv4_spec (out : ns_ipv4_info_t) (bs : list byte)
    : ns_parse_status_t * ns_ipv4_info_t * option Z :=
  let hdr := 4 * (u8_at bs 0 mod 16) in
  if zlen bs <? 20 then (NS_PARSE_TRUNCATED, out, None)
  else if negb (u8_at bs 0 / 16 =? 4) || (hdr <? 20) then (NS_PARSE_MALFORMED, out, None)
  else if zlen bs <? hdr then (NS_PARSE_TRUNCATED, out, None)
  else if u16_at bs 2 <? hdr then (NS_PARSE_MALFORMED, out, None)
  else (NS_PARSE_OK, ipv4_fields bs, Some hdr).

Lemma ns_parse_ipv4_spec data length out :
  view_ok data length -> ns_parse_ipv4 data length out = Done (ipv4_spec out (view data length)).
Proof.
  intros Hv. unfold ns_parse_ipv4, ipv4_spec, NS_IPV4_MIN_HEADER_LEN. rewrite zlen_view by done.
  rewrite (bounds_view _ _ Hv), Z.add_0_l, <- Z.ltb_antisym by lia.
  destruct (Z.ltb_spec length 20); [done|]. run_reads Hv.
  set (bs := view data length) in *. pose proof (u8_at_range bs 0) as H0.
  pose proof (Z.div_mod (u8_at bs 0) 16). pose proof (Z.mod_pos_bound (u8_at bs 0) 16).
  rewrite Z.shiftr_div_pow2 by lia. change (2 ^ 4) with 16.
  change 0x0F with (2 ^ 4 - 1). rewrite (land_mask (u8_at bs 0) 4) by lia. change (2 ^ 4) with 16.
  rewrite !(u8c_small (_ / 16)), !(u8c_small (_ mod 16)) by lia.
  rewrite szmul_small, (Z.mul_comm _ 4) by lia.
  destruct (Z.eqb_spec (u8_at bs 0 / 16) 4); cbn [negb orb]; [|done].
  replace (4 * (u8_at bs 0 mod 16) <? 20) with (u8_at bs 0 mod 16 <? 5) by zcases.
  destruct (Z.ltb_spec (u8_at bs 0 mod 16) 5); [done|].
  rewrite (bounds_view _ _ Hv), Z.add_0_l, <- Z.ltb_antisym by lia.
  destruct (Z.ltb_spec length (4 * (u8_at bs 0 mod 16))); [done|]. run_reads Hv. fold bs.
  destruct (u16_at bs 2 <? 4 * (u8_at bs 0 mod 16)); [done|]. do 3 f_equal.
  unfold ipv4_fields. pose proof (u8_at_range bs 1). pose proof (u16_at_range bs 6).
  change 0x4000 with (2 ^ 14). change 0x2000 with (2 ^ 13). rewrite !land_bit by lia.
  change 0x1FFF with (2 ^ 13 - 1). rewrite (land_mask _ 13) by lia. change (2 ^ 13) with 8192.
  pose proof (Z.mod_pos_bound (u16_at bs 6) 8192). rewrite (u16c_small (_ mod 8192)) by lia.
  rewrite Z.shiftr_div_pow2 by lia. change 0x03 with (2 ^ 2 - 1). rewrite (land_mask _ 2) by lia.
  change (2 ^ 2) with 4. pose proof (Z.div_mod (u8_at bs 1) 4).
  pose proof (Z.mod_pos_bound (u8_at bs 1) 4). rewrite !(u8c_small (_ / 4)), !(u8c_small (_ mod 4)) by lia.
  f_equal. by destruct (Z.testbit _ 13), (_ =? 0).
Qed.

#[export] Instance ipv4_decoder out :
  Decoder (fun d l => ns_parse_ipv4 d l out) (fun bs r => r = ipv4_spec out bs).
Proof. apply decoder_of_spec. intros. by apply ns_parse_ipv4_spec. Qed.

(** ** IPv6 as a function of the captured bytes *)

Definition ipv6_spec (out : ns_ipv6_info_t) (bs : list byte)
    : ns_parse_status_t * ns_ipv6_info_t * option Z :=
  if zlen bs <? 40 then (NS_PARSE_TRUNCATED, out, None)
  else if negb (u32_at bs 0 / 2 ^ 28 =? 6) then (NS_PARSE_MALFORMED, out, None)
  else (NS_PARSE_OK,
        Ipv6Info 6 (u32_at bs 0 / 2 ^ 20 mod 256) (u32_at bs 0 mod 2 ^ 20) (u16_at bs 4)
          (u8_at bs 6) (u8_at bs 7) (slice bs 8 16) (slice bs 24 16) 40,
        Some 40).

Lemma ns_parse_ipv6_spec data length out :
  view_ok data length -> ns_parse_ipv6 data length out = Done (ipv6_spec out (view data length)).
Proof.
  intros Hv. unfold ns_parse_ipv6, ipv6_spec, NS_IPV6_HEADER_LEN, NS_IPV6_ADDR_LEN.
  rewrite zlen_view by done.
  rewrite (bounds_view _ _ Hv), Z.add_0_l, <- Z.ltb_antisym by lia.
  destruct (Z.ltb_spec length 40); [done|]. run_reads Hv. set (bs := view data length).
  pose proof (u32_at_range bs 0). pose proof (Z.div_mod (u32_at bs 0) (2 ^ 28)).
  pose proof (Z.mod_pos_bound (u32_at bs 0) (2 ^ 28)).
  rewrite !Z.shiftr_div_pow2, (u8c_small (_ / 2 ^ 28)) by lia.
  destruct (Z.eqb_spec (u32_at bs 0 / 2 ^ 28) 6) as [E|]; cbn [negb]; [|done]. do 3 f_equal.
  rewrite E. change 0xFF with (2 ^ 8 - 1). change 0x000FFFFF with (2 ^ 20 - 1).
  rewrite !land_mask by lia. change (2 ^ 8) with 256. f_equal.
  apply u8c_small. apply Z.mod_pos_bound. lia.
Qed.

#[export] Instance ipv6_decoder out :
  Decoder (fun d l => ns_parse_ipv6 d l out) (fun bs r => r = ipv6_spec out bs).
Proof. apply decoder_of_spec. intros. by apply ns_parse_ipv6_spec. Qed.

(** ** Extension headers *)

Definition is_extension (nh : Z) : bool :=
  (nh =? NS_IPV6_NEXT_HOP_BY_HOP) || (nh =? NS_IPV6_NEXT_ROUTING) || (nh =? NS_IPV6_NEXT_DEST_OPTS)
  || (nh =? NS_IPV6_NEXT_FRAGMENT).

Definition extension_len (bs : list byte) (off nh : Z) : Z :=
  if nh =? NS_IPV6_NEXT_FRAGMENT then 8 else 8 * (u8_at bs (off + 1) + 1).

(** [extension_at bs off nh off' nh']: a complete extension header of kind [nh] at [off],
    followed at [off'] by a header of kind [nh']. *)
Definition extension_at (bs : list byte) (off nh off' nh' : Z) : Prop :=
  is_extension nh = true /\ off' = off + extension_len bs off nh /\ off' <= zlen bs
  /\ nh' = u8_at bs off.

(** [extension_chain bs n off nh off' nh']: [n] consecutive extension headers. *)
Inductive extension_chain (bs : list byte) : nat -> Z -> Z -> Z -> Z -> Prop :=
  | chain_nil off nh : extension_chain bs 0 off nh off nh
  | chain_cons n off nh off1 nh1 off' nh' :
      extension_at bs off nh off1 nh1 -> extension_chain bs n off1 nh1 off' nh' ->
      extension_chain bs (S n) off nh off' nh'.

Fixpoint extension_walk (n : nat) (bs : list byte) (off nh : Z) : bool * Z * Z :=
  match n with
  | O => (false, off, nh)
  | S n =>
      if negb (is_extension nh) then (true, off, nh)
      else if off + extension_len bs off nh <=? zlen bs
      then extension_walk n bs (off + extension_len bs off nh) (u8_at bs off)
      else (false, off, nh)
  end.

Lemma extension_len_range bs off nh : 8 <= extension_len bs off nh <= 2048.
Proof. unfold extension_len. pose proof (u8_at_range bs (off + 1)). zcases. Qed.

Lemma u8_at_past bs i : zlen bs <= i -> u8_at bs i = 0.
Proof.
  intros. unfold u8_at, slice. rewrite drop_ge; [done|]. unfold zlen in *. lia.
Qed.

Lemma skip_one_extension_spec data length off nh :
  view_ok data length -> 0 <= off <= length ->
  let bs := view data length in
  skip_one_extension data length off nh
  = Done (if negb (is_extension nh) then ExtReturn true
          else if off + extension_len bs off nh <=? length
          then ExtContinue (off + extension_len bs off nh) (u8_at bs off) else ExtReturn false).
Proof.
  intros Hv Ho bs. unfold skip_one_extension, is_extension, extension_len.
  unfold NS_IPV6_NEXT_HOP_BY_HOP, NS_IPV6_NEXT_ROUTING, NS_IPV6_NEXT_DEST_OPTS, NS_IPV6_NEXT_FRAGMENT.
  destruct (Hv) as [Hv1 Hv2]. pose proof (u8_at_range bs (off + 1)).
  destruct (nh =? 0) eqn:E0, (nh =? 43) eqn:E43, (nh =? 60) eqn:E60, (nh =? 44) eqn:E44;
    try lia; cbn [orb negb]; try done.
  all: rewrite (bounds_view _ _ Hv) by lia.
  4:{ rewrite (ns_read_u8_spec _ _ Hv) by (unfold is_size; lia). mred. fold bs.
      destruct (Z.leb_spec (off + 1) length), (Z.leb_spec (off + 8) length); cbn [negb];
        try lia; try done. by rewrite szadd_small by lia. }
  all: destruct (Z.leb_spec (off + 2) length); cbn [negb];
    [|rewrite u8_at_past by (unfold bs; rewrite zlen_view by done; lia); by zcases].
  all: rewrite !(szadd_small off 1) by lia; run_reads Hv; fold bs.
  all: rewrite (szadd_small _ 1), szmul_small by lia;
    replace ((u8_at bs (off + 1) + 1) * 8) with (8 * (u8_at bs (off + 1) + 1)) by lia;
    rewrite (bounds_view _ _ Hv) by lia;
    destruct (Z.leb_spec (off + 8 * (u8_at bs (off + 1) + 1)) length); cbn [negb]; [|done];
    by rewrite szadd_small by lia.
Qed.

Lemma skip_extensions_walk n data length off nh :
  view_ok data length -> 0 <= off <= length ->
  skip_extensions n data length off nh = Done (extension_walk n (view data length) off nh).
Proof.
  intros Hv. revert off nh. induction n as [|n IH]; intros off nh Ho; [done|].
  cbn [skip_extensions extension_walk]. rewrite skip_one_extension_spec by done. mred.
  rewrite zlen_view by done. pose proof (extension_len_range (view data length) off nh).
  destruct (is_extension nh); cbn [negb]; [|done].
  destruct (Z.leb_spec (off + extension_len (view data length) off nh) length); [|done].
  apply IH. lia.
Qed.

Lemma extension_walk_bounds n bs off nh :
  0 <= off <= zlen bs -> let '(_, off', _) := extension_walk n bs off nh in off <= off' <= zlen bs.
Proof.
  revert off nh. induction n as [|n IH]; intros off nh Ho; cbn [extension_walk]; [lia|].
  destruct (is_extension nh); cbn [negb]; [|lia].
  pose proof (extension_len_range bs off nh).
  destruct (Z.leb_spec (off + extension_len bs off nh) (zlen bs)); [|lia].
  specialize (IH (off + extension_len bs off nh) (u8_at bs off)).
  destruct (extension_walk n bs _ _) as [[ok off'] nh']. lia.
Qed.

Lemma extension_walk_chain n bs off nh off' nh' :
  extension_walk n bs off nh = (true, off', nh') <->
  exists k, (k < n)%nat /\ extension_chain bs k off nh off' nh' /\ is_extension nh' = false.
Proof.
  revert off nh. induction n as [|n IH]; intros off nh; cbn [extension_walk].
  { split; [done|]. intros (k & ? & _). lia. }
  destruct (is_extension nh) eqn:E; cbn [negb].
  - destruct (Z.leb_spec (off + extension_len bs off nh) (zlen bs)) as [Hle|Hle].
    + rewrite IH. split.
      * intros (k & Hk & Hc & Hn). exists (S k). split; [lia|]. split; [|done].
        econstructor; [|done]. by repeat split.
      * intros (k & Hk & Hc & Hn). inversion Hc as [|k' ? ? off1 nh1 ? ? Hat Hc']; subst.
        { congruence. }
        destruct Hat as (_ & -> & _ & ->). exists k'. split; [lia|done].
    + split; [done|]. intros (k & _ & Hc & Hn).
      inversion Hc as [|k' ? ? off1 nh1 ? ? Hat Hc']; subst; [congruence|].
      destruct Hat as (_ & -> & ? & _). lia.
  - split.
    + intros [= <- <-]. exists 0%nat. split; [lia|]. split; [constructor|done].
    + intros (k & _ & Hc & Hn). inversion Hc as [|k' ? ? off1 nh1 ? ? Hat Hc']; subst; [done|].
      destruct Hat as (? & _). congruence.
Qed.

(** ** Wire formats and properties *)

Definition encode_ipv4 (h : ns_ipv4_info_t) (options : list byte) : list byte :=
  to_be 1 (16 * 4 + ipv4_ihl h) ++ to_be 1 (4 * ipv4_dscp h + ipv4_ecn h) ++
  to_be 2 (ipv4_total_length h) ++ to_be 2 (ipv4_identification h) ++
  to_be 2 ((if ipv4_flag_df h then 2 ^ 14 else 0) + (if ipv4_flag_mf h then 2 ^ 13 else 0)
           + ipv4_fragment_offset h) ++
  to_be 1 (ipv4_ttl h) ++ to_be 1 (ipv4_protocol h) ++ to_be 2 (ipv4_header_checksum h) ++
  to_le 4 (ipv4_source h) ++ to_le 4 (ipv4_destination h) ++ options.

(** A header whose fields are in range and whose redundant fields agree with the others. *)
Definition valid_ipv4 (h : ns_ipv4_info_t) (options : list byte) : Prop :=
  ipv4_version h = 4 /\ 5 <= ipv4_ihl h < 16 /\ zlen options = 4 * ipv4_ihl h - 20 /\
  ipv4_header_length h = 4 * ipv4_ihl h /\
  0 <= ipv4_dscp h < 64 /\ 0 <= ipv4_ecn h < 4 /\
  ipv4_header_length h <= ipv4_total_length h < 65536 /\
  0 <= ipv4_identification h < 65536 /\ 0 <= ipv4_fragment_offset h < 8192 /\
  0 <= ipv4_ttl h < 256 /\ 0 <= ipv4_protocol h < 256 /\ 0 <= ipv4_header_checksum h < 65536 /\
  0 <= ipv4_source h < 2 ^ 32 /\ 0 <= ipv4_destination h < 2 ^ 32 /\
  ipv4_is_fragment h = ipv4_flag_mf h || negb (ipv4_fragment_offset h =? 0) /\
  ipv4_is_initial_fragment h = ipv4_flag_mf h && (ipv4_fragment_offset h =? 0).

(** The flags-and-offset word. *)
Lemma frag_word (df mf : bool) fo :
  0 <= fo < 8192 ->
  let w := (if df then 2 ^ 14 else 0) + (if mf then 2 ^ 13 else 0) + fo in
  0 <= w < 65536 /\ Z.testbit w 14 = df /\ Z.testbit w 13 = mf /\ w mod 8192 = fo.
Proof.
  intros Hfo w. assert (Hw : w = (if df then 2 else 0) * 8192 + (if mf then 1 else 0) * 8192 + fo)
    by (unfold w; destruct df, mf; lia).
  split; [rewrite Hw; destruct df, mf; lia|].
  assert (Hq : w / 8192 = (if df then 2 else 0) + (if mf then 1 else 0)).
  { rewrite Hw. rewrite <- Z.mul_add_distr_r, Z.div_add_l, Z.div_small by lia. lia. }
  split; [|split].
  - replace 14 with (1 + 13) by lia. rewrite <- Z.div_pow2_bits by lia. change (2 ^ 13) with 8192.
    rewrite Hq. by destruct df, mf.
  - replace 13 with (0 + 13) by lia. rewrite <- Z.div_pow2_bits by lia. change (2 ^ 13) with 8192.
    rewrite Hq. by destruct df, mf.
  - rewrite Hw. rewrite <- Z.mul_add_distr_r, Z.add_comm, Z.mod_add, Z.mod_small by lia. lia.
Qed.

Lemma hi_lo_nibble q r m : 0 <= r < m -> (m * q + r) / m = q /\ (m * q + r) mod m = r.
Proof.
  intros. rewrite (Z.mul_comm m), Z.div_add_l, Z.div_small by lia.
  rewrite (Z.add_comm (q * m)), Z.mod_add, Z.mod_small by lia. lia.
Qed.

Lemma zlen_encode_ipv4 h options :
  valid_ipv4 h options -> zlen (encode_ipv4 h options) = 4 * ipv4_ihl h.
Proof.
  intros (_ & _ & Ho & _). unfold encode_ipv4. rewrite !zlen_app, !zlen_to_be, Ho.
  unfold zlen. rewrite !length_to_le. lia.
Qed.

Lemma ipv4_fields_encode h options payload :
  valid_ipv4 h options -> ipv4_fields (encode_ipv4 h options ++ payload) = h.
Proof.
  destruct h as [ver ihl dscp ecn tot id df mf fo ttl proto cks src dst hl isf isi].
  intros (Hver & Hihl & Hopt & Hhl & Hdscp & Hecn & Htot & Hid & Hfo & Httl & Hproto & Hcks
    & Hsrc & Hdst & Hisf & Hisi).
  unfold encode_ipv4. cbn [ipv4_version ipv4_ihl ipv4_dscp ipv4_ecn ipv4_total_length
    ipv4_identification ipv4_flag_df ipv4_flag_mf ipv4_fragment_offset ipv4_ttl ipv4_protocol
    ipv4_header_checksum ipv4_source ipv4_destination ipv4_header_length ipv4_is_fragment
    ipv4_is_initial_fragment] in *.
  destruct (frag_word df mf fo Hfo) as (Hw & Hw14 & Hw13 & Hwm).
  set (w := (if df then _ else _) + _ + fo) in *.
  destruct (hi_lo_nibble 4 ihl 16 ltac:(lia)) as [Hn1 Hn2].
  destruct (hi_lo_nibble dscp ecn 4 ltac:(lia)) as [Hn3 Hn4].
  assert (Hl1 : zlen (to_le 4 src) = 4) by (unfold zlen; by rewrite length_to_le).
  assert (Hl2 : zlen (to_le 4 dst) = 4) by (unfold zlen; by rewrite length_to_le).
  rewrite <- !app_assoc. set (bs := to_be 1 _ ++ _).
  assert (E0 : u8_at bs 0 = 16 * 4 + ihl) by (unfold bs; field_at).
  assert (E1 : u8_at bs 1 = 4 * dscp + ecn) by (unfold bs; field_at).
  assert (E2 : u16_at bs 2 = tot) by (unfold bs; field_at).
  assert (E4 : u16_at bs 4 = id) by (unfold bs; field_at).
  assert (E6 : u16_at bs 6 = w) by (unfold bs; field_at).
  assert (E8 : u8_at bs 8 = ttl) by (unfold bs; field_at).
  assert (E9 : u8_at bs 9 = proto) by (unfold bs; field_at).
  assert (E10 : u16_at bs 10 = cks) by (unfold bs; field_at).
  assert (E12 : slice bs 12 4 = to_le 4 src) by (unfold bs; field_at).
  assert (E16 : slice bs 16 4 = to_le 4 dst) by (unfold bs; field_at).
  unfold ipv4_fields. rewrite E0, E1, E2, E4, E6, E8, E9, E10, E12, E16, Hw14, Hw13, Hwm.
  rewrite !le_to_le, Hn1, Hn2, Hn3, Hn4 by (simpl; lia). subst ver hl isf isi. done.
Qed.

Lemma ipv4_spec_encode h out options payload :
  valid_ipv4 h options ->
  ipv4_spec out (encode_ipv4 h options ++ payload) = (NS_PARSE_OK, h, Some (4 * ipv4_ihl h)) /\
  u8_at (encode_ipv4 h options ++ payload) 0 = 16 * 4 + ipv4_ihl h.
Proof.
  intros Hval. pose proof (ipv4_fields_encode h options payload Hval) as Hf.
  pose proof (zlen_encode_ipv4 h options Hval) as Hz. pose proof (zlen_nonneg payload).
  set (bs := encode_ipv4 h options ++ payload) in *.
  assert (Hzb : zlen bs = 4 * ipv4_ihl h + zlen payload) by (unfold bs; by rewrite zlen_app, Hz).
  destruct Hval as (Hver & Hihl & _ & Hhl & _ & _ & Htot & _).
  pose proof (f_equal ipv4_version Hf) as F1. pose proof (f_equal ipv4_ihl Hf) as F2.
  pose proof (f_equal ipv4_total_length Hf) as F3. cbn [ipv4_fields ipv4_version ipv4_ihl ipv4_total_length] in *.
  split.
  - unfold ipv4_spec. rewrite F1, F2, F3, Hf, Hver. by zcases.
  - rewrite (Z.div_mod (u8_at bs 0) 16) by lia. rewrite F1, F2, Hver. lia.
Qed.

(** C27. IPv4 round trip: every header with its options, followed by any payload, is parsed
    back to itself, fragmentation flags included, and the header length points at the
    payload; a capture cut inside the header is truncated, never misread. *)
Theorem ipv4_roundtrip (h out : ns_ipv4_info_t) (options payload : list byte) :
  valid_ipv4 h options -> zlen (encode_ipv4 h options ++ payload) < 2 ^ 64 ->
  ns_parse_ipv4 (encode_ipv4 h options ++ payload) (zlen (encode_ipv4 h options ++ payload)) out
    = Done (NS_PARSE_OK, h, Some (4 * ipv4_ihl h)) /\
  forall n, 0 <= n < 4 * ipv4_ihl h ->
    ns_parse_ipv4 (encode_ipv4 h options ++ payload) n out = Done (NS_PARSE_TRUNCATED, out, None).
Proof.
  intros Hval Hlen. destruct (ipv4_spec_encode h out options payload Hval) as [Hs H0].
  pose proof (zlen_encode_ipv4 h options Hval) as Hz. destruct Hval as (_ & Hihl & _). split.
  - rewrite ns_parse_ipv4_spec, view_all by (by apply view_ok_all). by rewrite Hs.
  - set (bs := encode_ipv4 h options ++ payload) in *. pose proof (zlen_nonneg payload).
    assert (Hzb : zlen bs = 4 * ipv4_ihl h + zlen payload) by (unfold bs; by rewrite zlen_app, Hz).
    intros n Hn. assert (Hv : view_ok bs n) by (unfold view_ok; lia).
    rewrite ns_parse_ipv4_spec by done. unfold ipv4_spec. rewrite zlen_view by done.
    destruct (Z.ltb_spec n 20); [done|].
    assert (E : u8_at (view bs n) 0 = u8_at bs 0) by (unfold u8_at; by rewrite slice_view by lia).
    destruct (hi_lo_nibble 4 (ipv4_ihl h) 16) as [E1 E2]; [lia|]. rewrite E, H0, E1, E2. by zcases.
Qed.

Lemma ipv4_roundtrip_witness :
  let h := Ipv4Info 4 6 10 1 40 7 false true 0 64 17 0 0x0101a8c0 0x08080808 24 true true in
  ns_parse_ipv4 (encode_ipv4 h (txt "opts") ++ txt "payload") 31 zero_ipv4
    = Done (NS_PARSE_OK, h, Some 24) /\
  ns_parse_ipv4 (encode_ipv4 h (txt "opts") ++ txt "payload") 23 zero_ipv4
    = Done (NS_PARSE_TRUNCATED, zero_ipv4, None).
Proof.
  intros h. destruct (ipv4_roundtrip h zero_ipv4 (txt "opts") (txt "payload")) as [H1 H2].
  - by repeat split.
  - done.
  - split; [exact H1|]. apply H2. by cbn.
Defined.

Definition encode_ipv6 (h : ns_ipv6_info_t) : list byte :=
  to_be 4 (2 ^ 28 * 6 + (2 ^ 20 * ipv6_traffic_class h + ipv6_flow_label h)) ++
  to_be 2 (ipv6_payload_length h) ++ to_be 1 (ipv6_next_header h) ++ to_be 1 (ipv6_hop_limit h) ++
  ipv6_source h ++ ipv6_destination h.

Definition valid_ipv6 (h : ns_ipv6_info_t) : Prop :=
  ipv6_version h = 6 /\ 0 <= ipv6_traffic_class h < 256 /\ 0 <= ipv6_flow_label h < 2 ^ 20 /\
  0 <= ipv6_payload_length h < 65536 /\ 0 <= ipv6_next_header h < 256 /\
  0 <= ipv6_hop_limit h < 256 /\ zlen (ipv6_source h) = 16 /\ zlen (ipv6_destination h) = 16 /\
  ipv6_header_length h = 40.

Lemma zlen_encode_ipv6 h : valid_ipv6 h -> zlen (encode_ipv6 h) = 40.
Proof.
  intros (_ & _ & _ & _ & _ & _ & Hs & Hd & _). unfold encode_ipv6.
  rewrite !zlen_app, !zlen_to_be, Hs, Hd. done.
Qed.

Lemma ipv6_spec_encode h out payload :
  valid_ipv6 h -> ipv6_spec out (encode_ipv6 h ++ payload) = (NS_PARSE_OK, h, Some 40).
Proof.
  intros Hval. pose proof (zlen_encode_ipv6 h Hval) as Hz. pose proof (zlen_nonneg payload).
  destruct h as [ver tc fl plen nh hop src dst hl].
  destruct Hval as (Hver & Htc & Hfl & Hpl & Hnh & Hhop & Hs & Hd & Hhl).
  cbn [ipv6_version ipv6_traffic_class ipv6_flow_label ipv6_payload_length ipv6_next_header
    ipv6_hop_limit ipv6_source ipv6_destination ipv6_header_length] in *.
  unfold ipv6_spec. rewrite zlen_app, Hz. destruct (Z.ltb_spec (40 + zlen payload) 40); [lia|].
  unfold encode_ipv6. cbn [ipv6_version ipv6_traffic_class ipv6_flow_label ipv6_payload_length
    ipv6_next_header ipv6_hop_limit ipv6_source ipv6_destination]. rewrite <- !app_assoc.
  set (w := 2 ^ 28 * 6 + _). set (bs := to_be 4 w ++ _).
  assert (E0 : u32_at bs 0 = w) by (unfold bs, w; field_at).
  assert (E4 : u16_at bs 4 = plen) by (unfold bs; field_at).
  assert (E6 : u8_at bs 6 = nh) by (unfold bs; field_at).
  assert (E7 : u8_at bs 7 = hop) by (unfold bs; field_at).
  assert (E8 : slice bs 8 16 = src) by (unfold bs; field_at).
  assert (E24 : slice bs 24 16 = dst) by (unfold bs; field_at).
  rewrite E0, E4, E6, E7, E8, E24.
  destruct (hi_lo_nibble 6 (2 ^ 20 * tc + fl) (2 ^ 28)) as [Hq _]; [lia|]. unfold w at 1. rewrite Hq.
  replace w with (2 ^ 20 * (2 ^ 8 * 6 + tc) + fl) by (unfold w; lia).
  destruct (hi_lo_nibble (2 ^ 8 * 6 + tc) fl (2 ^ 20)) as [-> ->]; [lia|].
  destruct (hi_lo_nibble 6 tc (2 ^ 8)) as [_ E]; [lia|]. change (2 ^ 8) with 256 in *. rewrite E.
  by subst ver hl.
Qed.

(** C28. IPv6 round trip: every fixed header, followed by anything, is parsed back to itself
    with header length 40; a capture shorter than 40 bytes is truncated; a version nibble
    other than 6 is malformed. *)
Theorem ipv6_roundtrip (h out : ns_ipv6_info_t) (payload : list byte) :
  valid_ipv6 h -> zlen (encode_ipv6 h ++ payload) < 2 ^ 64 ->
  ns_parse_ipv6 (encode_ipv6 h ++ payload) (zlen (encode_ipv6 h ++ payload)) out
    = Done (NS_PARSE_OK, h, Some 40) /\
  forall data len, view_ok data len ->
    (len < 40 -> ns_parse_ipv6 data len out = Done (NS_PARSE_TRUNCATED, out, None)) /\
    (40 <= len -> u32_at data 0 / 2 ^ 28 <> 6 ->
     ns_parse_ipv6 data len out = Done (NS_PARSE_MALFORMED, out, None)).
Proof.
  intros Hval Hlen. split.
  - rewrite ns_parse_ipv6_spec, view_all by (by apply view_ok_all). by rewrite ipv6_spec_encode.
  - intros data len Hv. rewrite ns_parse_ipv6_spec by done. unfold ipv6_spec.
    rewrite zlen_view by done. split; intros; [by zcases|].
    unfold u32_at in *. rewrite slice_view by lia. destruct (Z.ltb_spec len 40); [lia|].
    by destruct (Z.eqb_spec (be (slice data 0 4) / 2 ^ 28) 6).
Qed.

Lemma ipv6_roundtrip_witness :
  let h := Ipv6Info 6 0xb8 0x12345 8 58 64 (replicate 16 xfe) (replicate 16 x01) 40 in
  ns_parse_ipv6 (encode_ipv6 h ++ txt "payload!") 48 zero_ipv6 = Done (NS_PARSE_OK, h, Some 40).
Proof.
  intros h. apply (ipv6_roundtrip h zero_ipv6 (txt "payload!")); [|done]. by repeat split.
Defined.

(** C12. The extension-header walk never faults and leaves the offset inside the captured
    bytes. Every chain of fewer than [NS_IPV6_MAX_EXTENSION_HEADERS] = 8 complete Hop-by-Hop,
    Routing, Destination-Options and Fragment headers starting at [off] and followed by
    another kind of header is accepted, and the offset and next header returned are those
    after the chain. Everything that is not such a chain of at most eight members (a cut
    header, a longer chain) is rejected. A chain of exactly eight is left open here: see
    [eight_extensions_rejected]. *)
Theorem extension_walk_exact (data : list byte) (len off nh : Z) :
  view_ok data len -> 0 <= off <= len ->
  exists ok off' nh', ns_ipv6_skip_extension_headers data len off nh = Done (ok, off', nh') /\
    off <= off' <= len /\
    (forall n off2 nh2, (n < NS_IPV6_MAX_EXTENSION_HEADERS)%nat ->
       extension_chain (view data len) n off nh off2 nh2 -> is_extension nh2 = false ->
       ok = true /\ off' = off2 /\ nh' = nh2) /\
    ((forall n off2 nh2, (n <= NS_IPV6_MAX_EXTENSION_HEADERS)%nat ->
       extension_chain (view data len) n off nh off2 nh2 -> is_extension nh2 = true) ->
     ok = false).
Proof.
  intros Hv Ho. unfold ns_ipv6_skip_extension_headers. rewrite skip_extensions_walk by done.
  set (m := NS_IPV6_MAX_EXTENSION_HEADERS). set (bs := view data len).
  pose proof (extension_walk_bounds m bs off nh) as Hb. unfold bs in Hb.
  rewrite zlen_view in Hb by done. fold bs in Hb. specialize (Hb Ho).
  destruct (extension_walk m bs off nh) as [[ok off'] nh'] eqn:E.
  exists ok, off', nh'. split; [done|]. split; [done|]. split.
  - intros n off2 nh2 Hn Hc Hx.
    assert (extension_walk m bs off nh = (true, off2, nh2)) as E2
      by (apply extension_walk_chain; eauto).
    rewrite E in E2. by injection E2.
  - intros Hno. destruct ok; [|done]. apply extension_walk_chain in E as (n & Hn & Hc & Hx).
    rewrite (Hno n off' nh') in Hx; [done|lia|done].
Qed.

(** A Hop-by-Hop header of eight bytes announcing [nh]. *)
Definition hop_header (nh : byte) : list byte := [nh; x00; x00; x00; x00; x00; x00; x00].

Lemma extension_walk_exact_witness :
  let data := hop_header x2b ++ hop_header x06 ++ txt "TCP" in
  ns_ipv6_skip_extension_headers data 19 0 0 = Done (true, 16, 6) /\
  exists off' nh', ns_ipv6_skip_extension_headers data 15 0 0 = Done (false, off', nh').
Proof.
  intros data. split.
  - destruct (extension_walk_exact data 19 0 0) as (ok & off' & nh' & -> & _ & Hall & _);
      [by split|lia|].
    destruct (Hall 2%nat 16 6) as (-> & -> & ->); [by vm_compute; lia| |done|done].
    econstructor; [by vm_compute|]. econstructor; [by vm_compute|]. constructor.
  - destruct (extension_walk_exact data 15 0 0) as (ok & off' & nh' & E & _ & _ & Hno);
      [by split|lia|].
    exists off', nh'. rewrite E, Hno; [done|]. intros n off2 nh2 _ Hc.
    inversion Hc as [|n1 ? ? off1 nh1 ? ? Hat Hc1]; subst; [done|].
    destruct Hat as (_ & -> & _ & ->).
    inversion Hc1 as [|n2 ? ? off1 nh1 ? ? Hat Hc2]; subst; [done|].
    destruct Hat as (_ & -> & Hle & _). by vm_compute in Hle.
Defined.

(** The limit is off by one against its name: a chain of exactly
    [NS_IPV6_MAX_EXTENSION_HEADERS] = 8 complete extension headers followed by an upper-layer
    header is rejected, because recognising the upper layer takes a ninth turn. *)
Theorem eight_extensions_rejected :
  let data := concat (replicate 7 (hop_header x00)) ++ hop_header x06 ++ replicate 20 x00 in
  extension_chain data 8 0 0 64 6 /\ is_extension 6 = false /\
  ns_ipv6_skip_extension_headers data 84 0 0 = Done (false, 64, 6).
Proof.
  intros data. split; [|by split; vm_compute].
  do 8 (econstructor; [by vm_compute|]). constructor.
Qed.
