(* ===== verification/Transport.v ===== *)
(** * Transport layer: [src/protocols/tcp.c], [udp.c], [icmp.c] and [icmpv6.c] *)

From S2P Require Import Prelude CMem Util Proto.

(** ** TCP *)

Definition NS_TCP_MIN_HEADER_LEN := 20.

Definition NS_TCP_FLAG_FIN := 0x01.
Definition NS_TCP_FLAG_SYN := 0x02.
Definition NS_TCP_FLAG_RST := 0x04.
Definition NS_TCP_FLAG_PSH := 0x08.
Definition NS_TCP_FLAG_ACK := 0x10.
Definition NS_TCP_FLAG_URG := 0x20.
Definition NS_TCP_FLAG_ECE := 0x40.
Definition NS_TCP_FLAG_CWR := 0x80.

Record ns_tcp_info_t := TcpInfo {
  tcp_source_port : Z;
  tcp_destination_port : Z;
  tcp_sequence_number : Z;
  tcp_ack_number : Z;
  tcp_data_offset : Z;
  tcp_flags : Z;
  tcp_window_size : Z;
  tcp_checksum : Z;
  tcp_urgent_pointer : Z;
  tcp_header_length : Z
}.

Definition zero_tcp : ns_tcp_info_t := TcpInfo 0 0 0 0 0 0 0 0 0 0.

Definition ns_parse_tcp (data : list byte) (length : Z) (out : ns_tcp_info_t)
    : M (ns_parse_status_t * ns_tcp_info_t * option Z) :=
  if negb (ns_bounds_check length 0 NS_TCP_MIN_HEADER_LEN) then Done (NS_PARSE_TRUNCATED, out, None)
  else
    src_port ← filled (ns_read_u16_be data length 0);
    dst_port ← filled (ns_read_u16_be data length 2);
    seq ← filled (ns_read_u32_be data length 4);
    ack ← filled (ns_read_u32_be data length 8);
    data_offset_reserved ← filled (ns_read_u8 data length 12);
    flags ← filled (ns_read_u8 data length 13);
    window ← filled (ns_read_u16_be data length 14);
    checksum ← filled (ns_read_u16_be data length 16);
    urgent ← filled (ns_read_u16_be data length 18);
    let data_offset := u8c (Z.shiftr data_offset_reserved 4) in
    if data_offset <? 5 then Done (NS_PARSE_MALFORMED, out, None)
    else
      let hdr_len := szmul data_offset 4 in
      if negb (ns_bounds_check length 0 hdr_len) then Done (NS_PARSE_TRUNCATED, out, None)
      else
        Done (NS_PARSE_OK,
              {| tcp_source_port := src_port;
                 tcp_destination_port := dst_port;
                 tcp_sequence_number := seq;
                 tcp_ack_number := ack;
                 tcp_data_offset := data_offset;
                 tcp_flags := flags;
                 tcp_window_size := window;
                 tcp_checksum := checksum;
                 tcp_urgent_pointer := urgent;
                 tcp_header_length := hdr_len |},
              Some hdr_len).

(** The table [kFlags], in the order the names are printed. *)
Definition kFlags : list (Z * list byte) :=
  [(NS_TCP_FLAG_SYN, txt "SYN"); (NS_TCP_FLAG_ACK, txt "ACK"); (NS_TCP_FLAG_FIN, txt "FIN");
   (NS_TCP_FLAG_RST, txt "RST"); (NS_TCP_FLAG_PSH, txt "PSH"); (NS_TCP_FLAG_URG, txt "URG");
   (NS_TCP_FLAG_ECE, txt "ECE"); (NS_TCP_FLAG_CWR, txt "CWR")].

Fixpoint tcp_flags_loop (table : list (Z * list byte)) (flags : Z) (buf : cbuf) (buf_len pos : Z)
    (first : bool) : M (cbuf * Z) :=
  match table with
  | [] => Done (buf, pos)
  | (bit, name) :: table =>
      if Z.land flags bit =? 0 then tcp_flags_loop table flags buf buf_len pos first
      else
        '(buf, written) ← buf_snprintf buf pos (szsub buf_len pos)
                            ((if first then [] else txt ",") ++ name);
        if (written <? 0) || (written >=? szsub buf_len pos) then Done (buf, pos)
        else tcp_flags_loop table flags buf buf_len (szadd pos written) false
  end.

(** The buffer after the call. *)
Definition ns_tcp_flags_to_string (flags : Z) (buf : cbuf) (buf_len : Z) : M cbuf :=
  buf ← buf_set buf 0 x00;
  '(buf, pos) ← tcp_flags_loop kFlags flags buf buf_len 0 true;
  if pos =? 0 then '(buf, _) ← buf_snprintf buf 0 buf_len (txt "-"); Done buf else Done buf.

(** ** UDP *)

Definition NS_UDP_HEADER_LEN := 8.

Record ns_udp_info_t := UdpInfo {
  udp_source_port : Z;
  udp_destination_port : Z;
  udp_length : Z;
  udp_checksum : Z
}.

Definition zero_udp : ns_udp_info_t := UdpInfo 0 0 0 0.

Definition ns_parse_udp (data : list byte) (length : Z) (out : ns_udp_info_t)
    : M (ns_parse_status_t * ns_udp_info_t) :=
  if negb (ns_bounds_check length 0 NS_UDP_HEADER_LEN) then Done (NS_PARSE_TRUNCATED, out)
  else
    src_port ← filled (ns_read_u16_be data length 0);
    dst_port ← filled (ns_read_u16_be data length 2);
    udp_len ← filled (ns_read_u16_be data length 4);
    checksum ← filled (ns_read_u16_be data length 6);
    if udp_len <? NS_UDP_HEADER_LEN then Done (NS_PARSE_MALFORMED, out)
    else Done (NS_PARSE_OK, UdpInfo src_port dst_port udp_len checksum).

(** ** ICMP and ICMPv6 *)

Definition NS_ICMP_HEADER_LEN := 8.
Definition NS_ICMP_TYPE_ECHO_REPLY := 0.
Definition NS_ICMP_TYPE_DEST_UNREACHABLE := 3.
Definition NS_ICMP_TYPE_REDIRECT := 5.
Definition NS_ICMP_TYPE_ECHO_REQUEST := 8.
Definition NS_ICMP_TYPE_TIME_EXCEEDED := 11.

Record ns_icmp_info_t := IcmpInfo {
  icmp_type : Z;
  icmp_code : Z;
  icmp_checksum : Z;
  icmp_identifier : Z;
  icmp_sequence : Z
}.

Definition zero_icmp : ns_icmp_info_t := IcmpInfo 0 0 0 0 0.

Definition ns_parse_icmp (data : list byte) (length : Z) (out : ns_icmp_info_t)
    : M (ns_parse_status_t * ns_icmp_info_t) :=
  if negb (ns_bounds_check length 0 4) then Done (NS_PARSE_TRUNCATED, out)
  else
    type ← filled (ns_read_u8 data length 0);
    code ← filled (ns_read_u8 data length 1);
    checksum ← filled (ns_read_u16_be data length 2);
    let out := IcmpInfo type code checksum 0 0 in
    if (type =? NS_ICMP_TYPE_ECHO_REQUEST) || (type =? NS_ICMP_TYPE_ECHO_REPLY) then
      if negb (ns_bounds_check length 0 NS_ICMP_HEADER_LEN) then Done (NS_PARSE_TRUNCATED, out)
      else
        id ← filled (ns_read_u16_be data length 4);
        seq ← filled (ns_read_u16_be data length 6);
        Done (NS_PARSE_OK, IcmpInfo type code checksum id seq)
    else Done (NS_PARSE_OK, out).

Definition ns_icmp_type_name (type : Z) : list byte :=
  if type =? NS_ICMP_TYPE_ECHO_REPLY then txt "Echo Reply"
  else if type =? NS_ICMP_TYPE_DEST_UNREACHABLE then txt "Destination Unreachable"
  else if type =? NS_ICMP_TYPE_REDIRECT then txt "Redirect"
  else if type =? NS_ICMP_TYPE_ECHO_REQUEST then txt "Echo Request"
  else if type =? NS_ICMP_TYPE_TIME_EXCEEDED then txt "Time Exceeded"
  else txt "Unknown".

Definition NS_ICMPV6_HEADER_LEN := 8.
Definition NS_ICMPV6_TYPE_DEST_UNREACHABLE := 1.
Definition NS_ICMPV6_TYPE_PACKET_TOO_BIG := 2.
Definition NS_ICMPV6_TYPE_TIME_EXCEEDED := 3.
Definition NS_ICMPV6_TYPE_ECHO_REQUEST := 128.
Definition NS_ICMPV6_TYPE_ECHO_REPLY := 129.
Definition NS_ICMPV6_TYPE_NEIGHBOR_SOLICITATION := 135.
Definition NS_ICMPV6_TYPE_NEIGHBOR_ADVERTISEMENT := 136.

Record ns_icmpv6_info_t := Icmpv6Info {
  icmpv6_type : Z;
  icmpv6_code : Z;
  icmpv6_checksum : Z;
  icmpv6_identifier : Z;
  icmpv6_sequence : Z
}.

Definition zero_icmpv6 : ns_icmpv6_info_t := Icmpv6Info 0 0 0 0 0.

Definition ns_parse_icmpv6 (data : list byte) (length : Z) (out : ns_icmpv6_info_t)
    : M (ns_parse_status_t * ns_icmpv6_info_t) :=
  if negb (ns_bounds_check length 0 4) then Done (NS_PARSE_TRUNCATED, out)
  else
    type ← filled (ns_read_u8 data length 0);
    code ← filled (ns_read_u8 data length 1);
    checksum ← filled (ns_read_u16_be data length 2);
    let out := Icmpv6Info type code checksum 0 0 in
    if (type =? NS_ICMPV6_TYPE_ECHO_REQUEST) || (type =? NS_ICMPV6_TYPE_ECHO_REPLY) then
      if negb (ns_bounds_check length 0 NS_ICMPV6_HEADER_LEN) then Done (NS_PARSE_TRUNCATED, out)
      else
        id ← filled (ns_read_u16_be data length 4);
        seq ← filled (ns_read_u16_be data length 6);
        Done (NS_PARSE_OK, Icmpv6Info type code checksum id seq)
    else Done (NS_PARSE_OK, out).

Definition ns_icmpv6_type_name (type : Z) : list byte :=
  if type =? NS_ICMPV6_TYPE_DEST_UNREACHABLE then txt "Destination Unreachable"
  else if type =? NS_ICMPV6_TYPE_PACKET_TOO_BIG then txt "Packet Too Big"
  else if type =? NS_ICMPV6_TYPE_TIME_EXCEEDED then txt "Time Exceeded"
  else if type =? NS_ICMPV6_TYPE_ECHO_REQUEST then txt "Echo Request"
  else if type =? NS_ICMPV6_TYPE_ECHO_REPLY then txt "Echo Reply"
  else if type =? NS_ICMPV6_TYPE_NEIGHBOR_SOLICITATION then txt "Neighbor Solicitation"
  else if type =? NS_ICMPV6_TYPE_NEIGHBOR_ADVERTISEMENT then txt "Neighbor Advertisement"
  else txt "Unknown".

(** ** The parsers as functions of the captured bytes *)

Definition tcp_fields (bs : list byte) : ns_tcp_info_t :=
  {| tcp_source_port := u16_at bs 0;
     tcp_destination_port := u16_at bs 2;
     tcp_sequence_number := u32_at bs 4;
     tcp_ack_number := u32_at bs 8;
     tcp_data_offset := u8_at bs 12 / 16;
     tcp_flags := u8_at bs 13;
     tcp_window_size := u16_at bs 14;
     tcp_checksum := u16_at bs 16;
     tcp_urgent_pointer := u16_at bs 18;
     tcp_header_length := 4 * (u8_at bs 12 / 16) |}.

Definition tcp_spec (out : ns_tcp_info_t) (bs : list byte)
    : ns_parse_status_t * ns_tcp_info_t * option Z :=
  let hdr := 4 * (u8_at bs 12 / 16) in
  if zlen bs <? 20 then (NS_PARSE_TRUNCATED, out, None)
  else if hdr <? 20 then (NS_PARSE_MALFORMED, out, None)
  else if zlen bs <? hdr then (NS_PARSE_TRUNCATED, out, None)
  else (NS_PARSE_OK, tcp_fields bs, Some hdr).

Lemma ns_parse_tcp_spec data length out :
  view_ok data length -> ns_parse_tcp data length out = Done (tcp_spec out (view data length)).
Proof.
  intros Hv. unfold ns_parse_tcp, tcp_spec, NS_TCP_MIN_HEADER_LEN. rewrite zlen_view by done.
  rewrite (bounds_view _ _ Hv), Z.add_0_l, <- Z.ltb_antisym by lia.
  destruct (Z.ltb_spec length 20); [done|]. run_reads Hv. set (bs := view data length) in *.
  pose proof (u8_at_range bs 12). pose proof (Z.div_mod (u8_at bs 12) 16).
  pose proof (Z.mod_pos_bound (u8_at bs 12) 16). rewrite Z.shiftr_div_pow2 by lia.
  change (2 ^ 4) with 16. rewrite !u8c_small, szmul_small, (Z.mul_comm _ 4) by lia.
  replace (4 * (u8_at bs 12 / 16) <? 20) with (u8_at bs 12 / 16 <? 5) by zcases.
  destruct (Z.ltb_spec (u8_at bs 12 / 16) 5); [done|].
  rewrite (bounds_view _ _ Hv), Z.add_0_l, <- Z.ltb_antisym by lia.
  by destruct (length <? 4 * (u8_at bs 12 / 16)).
Qed.

#[export] Instance tcp_decoder out :
  Decoder (fun d l => ns_parse_tcp d l out) (fun bs r => r = tcp_spec out bs).
Proof. apply decoder_of_spec. intros. by apply ns_parse_tcp_spec. Qed.

Definition udp_spec (out : ns_udp_info_t) (bs : list byte) : ns_parse_status_t * ns_udp_info_t :=
  if zlen bs <? 8 then (NS_PARSE_TRUNCATED, out)
  else if u16_at bs 4 <? 8 then (NS_PARSE_MALFORMED, out)
  else (NS_PARSE_OK, UdpInfo (u16_at bs 0) (u16_at bs 2) (u16_at bs 4) (u16_at bs 6)).

Lemma ns_parse_udp_spec data length out :
  view_ok data length -> ns_parse_udp data length out = Done (udp_spec out (view data length)).
Proof.
  intros Hv. unfold ns_parse_udp, udp_spec, NS_UDP_HEADER_LEN. rewrite zlen_view by done.
  rewrite (bounds_view _ _ Hv), Z.add_0_l, <- Z.ltb_antisym by lia.
  destruct (Z.ltb_spec length 8); [done|]. run_reads Hv. by destruct (_ <? 8).
Qed.

#[export] Instance udp_decoder out :
  Decoder (fun d l => ns_parse_udp d l out) (fun bs r => r = udp_spec out bs).
Proof. apply decoder_of_spec. intros. by apply ns_parse_udp_spec. Qed.

(** ICMP and ICMPv6 share their layout and differ in which types carry an identifier and a
    sequence number. *)
Definition echo_spec {I : Type} (mk : Z -> Z -> Z -> Z -> Z -> I) (is_echo : Z -> bool) (out : I)
    (bs : list byte) : ns_parse_status_t * I :=
  let hdr := mk (u8_at bs 0) (u8_at bs 1) (u16_at bs 2) in
  if zlen bs <? 4 then (NS_PARSE_TRUNCATED, out)
  else if negb (is_echo (u8_at bs 0)) then (NS_PARSE_OK, hdr 0 0)
  else if zlen bs <? 8 then (NS_PARSE_TRUNCATED, hdr 0 0)
  else (NS_PARSE_OK, hdr (u16_at bs 4) (u16_at bs 6)).

Definition is_icmp_echo (t : Z) : bool := (t =? 8) || (t =? 0).
Definition is_icmpv6_echo (t : Z) : bool := (t =? 128) || (t =? 129).

Definition icmp_spec := echo_spec IcmpInfo is_icmp_echo.
Definition icmpv6_spec := echo_spec Icmpv6Info is_icmpv6_echo.

Lemma ns_parse_icmp_spec data length out :
  view_ok data length -> ns_parse_icmp data length out = Done (icmp_spec out (view data length)).
Proof.
  intros Hv. unfold ns_parse_icmp, icmp_spec, echo_spec, is_icmp_echo, NS_ICMP_HEADER_LEN,
    NS_ICMP_TYPE_ECHO_REQUEST, NS_ICMP_TYPE_ECHO_REPLY. rewrite zlen_view by done.
  rewrite !(bounds_view _ _ Hv), !Z.add_0_l, <- !Z.ltb_antisym by lia.
  destruct (Z.ltb_spec length 4); [done|]. rewrite (filled_u16 _ _ Hv 2) by lia. run_reads Hv.
  destruct (_ || _); cbn [negb]; [|done]. destruct (Z.ltb_spec length 8); [done|]. by run_reads Hv.
Qed.

Lemma ns_parse_icmpv6_spec data length out :
  view_ok data length -> ns_parse_icmpv6 data length out = Done (icmpv6_spec out (view data length)).
Proof.
  intros Hv. unfold ns_parse_icmpv6, icmpv6_spec, echo_spec, is_icmpv6_echo, NS_ICMPV6_HEADER_LEN,
    NS_ICMPV6_TYPE_ECHO_REQUEST, NS_ICMPV6_TYPE_ECHO_REPLY. rewrite zlen_view by done.
  rewrite !(bounds_view _ _ Hv), !Z.add_0_l, <- !Z.ltb_antisym by lia.
  destruct (Z.ltb_spec length 4); [done|]. rewrite (filled_u16 _ _ Hv 2) by lia. run_reads Hv.
  destruct (_ || _); cbn [negb]; [|done]. destruct (Z.ltb_spec length 8); [done|]. by run_reads Hv.
Qed.

#[export] Instance icmp_decoder out :
  Decoder (fun d l => ns_parse_icmp d l out) (fun bs r => r = icmp_spec out bs).
Proof. apply decoder_of_spec. intros. by apply ns_parse_icmp_spec. Qed.

#[export] Instance icmpv6_decoder out :
  Decoder (fun d l => ns_parse_icmpv6 d l out) (fun bs r => r = icmpv6_spec out bs).
Proof. apply decoder_of_spec. intros. by apply ns_parse_icmpv6_spec. Qed.

(** ** Wire formats and properties *)

(** The four reserved bits of the data-offset byte are arbitrary. *)
Definition encode_tcp (h : ns_tcp_info_t) (reserved : Z) (options : list byte) : list byte :=
  to_be 2 (tcp_source_port h) ++ to_be 2 (tcp_destination_port h) ++
  to_be 4 (tcp_sequence_number h) ++ to_be 4 (tcp_ack_number h) ++
  to_be 1 (16 * tcp_data_offset h + reserved) ++ to_be 1 (tcp_flags h) ++
  to_be 2 (tcp_window_size h) ++ to_be 2 (tcp_checksum h) ++ to_be 2 (tcp_urgent_pointer h) ++
  options.

Definition valid_tcp (h : ns_tcp_info_t) (reserved : Z) (options : list byte) : Prop :=
  0 <= tcp_source_port h < 65536 /\ 0 <= tcp_destination_port h < 65536 /\
  0 <= tcp_sequence_number h < 2 ^ 32 /\ 0 <= tcp_ack_number h < 2 ^ 32 /\
  5 <= tcp_data_offset h < 16 /\ 0 <= reserved < 16 /\ 0 <= tcp_flags h < 256 /\
  0 <= tcp_window_size h < 65536 /\ 0 <= tcp_checksum h < 65536 /\
  0 <= tcp_urgent_pointer h < 65536 /\ tcp_header_length h = 4 * tcp_data_offset h /\
  zlen options = 4 * tcp_data_offset h - 20.

Lemma zlen_encode_tcp h reserved options :
  valid_tcp h reserved options -> zlen (encode_tcp h reserved options) = 4 * tcp_data_offset h.
Proof.
  intros (_ & _ & _ & _ & _ & _ & _ & _ & _ & _ & _ & Ho). unfold encode_tcp.
  rewrite !zlen_app, !zlen_to_be, Ho. lia.
Qed.

Lemma tcp_fields_encode h reserved options payload :
  valid_tcp h reserved options -> tcp_fields (encode_tcp h reserved options ++ payload) = h.
Proof.
  destruct h as [sp dp seq ack off flags win cks urg hl].
  intros (Hsp & Hdp & Hseq & Hack & Hoff & Hres & Hfl & Hwin & Hcks & Hurg & Hhl & Hopt).
  unfold encode_tcp. cbn [tcp_source_port tcp_destination_port tcp_sequence_number tcp_ack_number
    tcp_data_offset tcp_flags tcp_window_size tcp_checksum tcp_urgent_pointer tcp_header_length] in *.
  rewrite <- !app_assoc. set (bs := to_be 2 sp ++ _).
  assert (E0 : u16_at bs 0 = sp) by (unfold bs; field_at).
  assert (E2 : u16_at bs 2 = dp) by (unfold bs; field_at).
  assert (E4 : u32_at bs 4 = seq) by (unfold bs; field_at).
  assert (E8 : u32_at bs 8 = ack) by (unfold bs; field_at).
  assert (E12 : u8_at bs 12 = 16 * off + reserved) by (unfold bs; field_at).
  assert (E13 : u8_at bs 13 = flags) by (unfold bs; field_at).
  assert (E14 : u16_at bs 14 = win) by (unfold bs; field_at).
  assert (E16 : u16_at bs 16 = cks) by (unfold bs; field_at).
  assert (E18 : u16_at bs 18 = urg) by (unfold bs; field_at).
  unfold tcp_fields. rewrite E0, E2, E4, E8, E12, E13, E14, E16, E18.
  rewrite (Z.mul_comm 16), Z.div_add_l, Z.div_small, Z.add_0_r by lia. by subst hl.
Qed.

Lemma tcp_spec_encode h out reserved options payload :
  valid_tcp h reserved options ->
  tcp_spec out (encode_tcp h reserved options ++ payload) = (NS_PARSE_OK, h, Some (4 * tcp_data_offset h)) /\
  u8_at (encode_tcp h reserved options ++ payload) 12 / 16 = tcp_data_offset h.
Proof.
  intros Hval. pose proof (tcp_fields_encode h reserved options payload Hval) as Hf.
  pose proof (zlen_encode_tcp h reserved options Hval) as Hz. pose proof (zlen_nonneg payload).
  destruct Hval as (_ & _ & _ & _ & Hoff & _). pose proof (f_equal tcp_data_offset Hf) as F.
  cbn [tcp_fields tcp_data_offset] in F. split; [|done].
  unfold tcp_spec. rewrite F, Hf, zlen_app, Hz. by zcases.
Qed.

(** C29. TCP round trip: every header with its options, followed by any payload and whatever
    the reserved bits are, is parsed back to itself with the header length pointing at the
    payload; a capture cut inside the header is truncated. *)
Theorem tcp_roundtrip (h out : ns_tcp_info_t) (reserved : Z) (options payload : list byte) :
  valid_tcp h reserved options -> zlen (encode_tcp h reserved options ++ payload) < 2 ^ 64 ->
  let bs := encode_tcp h reserved options ++ payload in
  ns_parse_tcp bs (zlen bs) out = Done (NS_PARSE_OK, h, Some (4 * tcp_data_offset h)) /\
  forall n, 0 <= n < 4 * tcp_data_offset h ->
    ns_parse_tcp bs n out = Done (NS_PARSE_TRUNCATED, out, None).
Proof.
  intros Hval Hlen bs. destruct (tcp_spec_encode h out reserved options payload Hval) as [Hs F].
  pose proof (zlen_encode_tcp h reserved options Hval) as Hz. pose proof (zlen_nonneg payload).
  fold bs in Hs, F, Hlen. assert (Hzb : zlen bs = 4 * tcp_data_offset h + zlen payload)
    by (unfold bs; by rewrite zlen_app, Hz).
  destruct Hval as (_ & _ & _ & _ & Hoff & _). split.
  - rewrite ns_parse_tcp_spec, view_all by (by apply view_ok_all). by rewrite Hs.
  - intros n Hn. assert (Hv : view_ok bs n) by (unfold view_ok; lia).
    rewrite ns_parse_tcp_spec by done. unfold tcp_spec. rewrite zlen_view by done.
    destruct (Z.ltb_spec n 20); [done|].
    assert (E : u8_at (view bs n) 12 = u8_at bs 12) by (unfold u8_at; by rewrite slice_view by lia).
    rewrite E, F. by zcases.
Qed.

Lemma tcp_roundtrip_witness :
  let h := TcpInfo 51342 443 1 2 6 0x12 8192 0xbeef 0 24 in
  ns_parse_tcp (encode_tcp h 9 (txt "opts") ++ txt "data") 28 zero_tcp = Done (NS_PARSE_OK, h, Some 24)
  /\ ns_parse_tcp (encode_tcp h 9 (txt "opts") ++ txt "data") 23 zero_tcp
     = Done (NS_PARSE_TRUNCATED, zero_tcp, None).
Proof.
  intros h. destruct (tcp_roundtrip h zero_tcp 9 (txt "opts") (txt "data")) as [H1 H2].
  - by repeat split.
  - done.
  - split; [exact H1|]. apply H2. by cbn.
Defined.

(** A UDP header and a datagram. *)
Definition encode_udp (h : ns_udp_info_t) : list byte :=
  to_be 2 (udp_source_port h) ++ to_be 2 (udp_destination_port h) ++ to_be 2 (udp_length h) ++
  to_be 2 (udp_checksum h).

Definition valid_udp (h : ns_udp_info_t) : Prop :=
  0 <= udp_source_port h < 65536 /\ 0 <= udp_destination_port h < 65536 /\
  8 <= udp_length h < 65536 /\ 0 <= udp_checksum h < 65536.

Lemma udp_spec_encode h out payload :
  valid_udp h -> udp_spec out (encode_udp h ++ payload) = (NS_PARSE_OK, h).
Proof.
  destruct h as [sp dp len cks]. intros (Hsp & Hdp & Hlen & Hcks). unfold encode_udp.
  cbn [udp_source_port udp_destination_port udp_length udp_checksum] in *.
  rewrite <- !app_assoc. set (bs := to_be 2 sp ++ _).
  assert (E0 : u16_at bs 0 = sp) by (unfold bs; field_at).
  assert (E2 : u16_at bs 2 = dp) by (unfold bs; field_at).
  assert (E4 : u16_at bs 4 = len) by (unfold bs; field_at).
  assert (E6 : u16_at bs 6 = cks) by (unfold bs; field_at).
  assert (8 <= zlen bs)
    by (unfold bs; rewrite !zlen_app, !zlen_to_be; pose proof (zlen_nonneg payload); lia).
  unfold udp_spec. rewrite E0, E2, E4, E6. by zcases.
Qed.

(** The two echo messages of ICMP and ICMPv6: type, code, checksum, identifier, sequence. *)
Definition encode_echo (type code checksum identifier sequence : Z) : list byte :=
  to_be 1 type ++ to_be 1 code ++ to_be 2 checksum ++ to_be 2 identifier ++ to_be 2 sequence.

Lemma echo_spec_encode {I} (mk : Z -> Z -> Z -> Z -> Z -> I) is_echo out ty code cks id seq payload :
  0 <= ty < 256 -> 0 <= code < 256 -> 0 <= cks < 65536 -> 0 <= id < 65536 -> 0 <= seq < 65536 ->
  is_echo ty = true ->
  echo_spec mk is_echo out (encode_echo ty code cks id seq ++ payload)
  = (NS_PARSE_OK, mk ty code cks id seq).
Proof.
  intros Hty Hcode Hcks Hid Hseq Hecho. unfold encode_echo. rewrite <- !app_assoc.
  set (bs := to_be 1 ty ++ _).
  assert (E0 : u8_at bs 0 = ty) by (unfold bs; field_at).
  assert (E1 : u8_at bs 1 = code) by (unfold bs; field_at).
  assert (E2 : u16_at bs 2 = cks) by (unfold bs; field_at).
  assert (E4 : u16_at bs 4 = id) by (unfold bs; field_at).
  assert (E6 : u16_at bs 6 = seq) by (unfold bs; field_at).
  assert (8 <= zlen bs)
    by (unfold bs; rewrite !zlen_app, !zlen_to_be; pose proof (zlen_nonneg payload); lia).
  unfold echo_spec. rewrite E0, E1, E2, E4, E6, Hecho. by zcases.
Qed.

(** C30. UDP and ICMP round trips: a well-formed UDP header and an echo request or reply of
    either ICMP version is parsed back to its own fields, whatever follows it. *)
Theorem datagram_roundtrip (h uout : ns_udp_info_t) (e iout : ns_icmp_info_t)
    (e6 iout6 : ns_icmpv6_info_t) (payload : list byte) :
  valid_udp h ->
  let icmp_ok code cks id seq := 0 <= code < 256 /\ 0 <= cks < 65536 /\ 0 <= id < 65536
                                    /\ 0 <= seq < 65536 in
  (icmp_type e = 8 \/ icmp_type e = 0) ->
  icmp_ok (icmp_code e) (icmp_checksum e) (icmp_identifier e) (icmp_sequence e) ->
  (icmpv6_type e6 = 128 \/ icmpv6_type e6 = 129) ->
  icmp_ok (icmpv6_code e6) (icmpv6_checksum e6) (icmpv6_identifier e6) (icmpv6_sequence e6) ->
  zlen payload < 2 ^ 63 ->
  let ubs := encode_udp h ++ payload in
  let ibs := encode_echo (icmp_type e) (icmp_code e) (icmp_checksum e) (icmp_identifier e)
               (icmp_sequence e) ++ payload in
  let ibs6 := encode_echo (icmpv6_type e6) (icmpv6_code e6) (icmpv6_checksum e6)
                (icmpv6_identifier e6) (icmpv6_sequence e6) ++ payload in
  ns_parse_udp ubs (zlen ubs) uout = Done (NS_PARSE_OK, h) /\
  ns_parse_icmp ibs (zlen ibs) iout = Done (NS_PARSE_OK, e) /\
  ns_parse_icmpv6 ibs6 (zlen ibs6) iout6 = Done (NS_PARSE_OK, e6).
Proof.
  intros Hh icmp_ok Ht (? & ? & ? & ?) Ht6 (? & ? & ? & ?) Hp ubs ibs ibs6.
  assert (Hz : zlen ubs = 8 + zlen payload /\ zlen ibs = 8 + zlen payload /\
               zlen ibs6 = 8 + zlen payload)
    by (unfold ubs, ibs, ibs6, encode_udp, encode_echo; rewrite !zlen_app, !zlen_to_be; lia).
  destruct Hz as (Hu & Hi & Hi6). split; [|split].
  - rewrite ns_parse_udp_spec, view_all by (apply view_ok_all; lia). unfold ubs.
    by rewrite udp_spec_encode.
  - rewrite ns_parse_icmp_spec, view_all by (apply view_ok_all; lia). unfold ibs, icmp_spec.
    rewrite echo_spec_encode by (lia || by destruct Ht as [-> | ->]). by destruct e.
  - rewrite ns_parse_icmpv6_spec, view_all by (apply view_ok_all; lia). unfold ibs6, icmpv6_spec.
    rewrite echo_spec_encode by (lia || by destruct Ht6 as [-> | ->]). by destruct e6.
Qed.

Lemma datagram_roundtrip_witness :
  ns_parse_udp (encode_udp (UdpInfo 5353 53 9 77) ++ [x41]) 9 zero_udp
  = Done (NS_PARSE_OK, UdpInfo 5353 53 9 77).
Proof.
  apply (datagram_roundtrip (UdpInfo 5353 53 9 77) zero_udp (IcmpInfo 8 0 1 2 3) zero_icmp
    (Icmpv6Info 129 0 1 2 3) zero_icmpv6 [x41]); (by repeat split) || (by left) || (by right) || done.
Defined.

(** *** The flag names *)

Definition flag_names (table : list (Z * list byte)) (flags : Z) : list (list byte) :=
  snd <$> filter (fun bn => Z.land flags (fst bn) <> 0) table.

(** The text the loop has written once [done] names are out. *)
Definition flags_so_far (s : list byte) (table : list (Z * list byte)) (flags : Z) : list byte :=
  join (txt ",") ((if decide (s = []) then [] else [s]) ++ flag_names table flags).

Lemma tcp_flags_loop_spec table flags s rest buf_len first :
  Forall (fun bn => 1 <= zlen (snd bn) <= 3) table ->
  first = bool_decide (s = []) ->
  zlen s + 4 * zlen table + (if first then 0 else 1) <= buf_len < 2 ^ 64 -> zlen s < buf_len ->
  buf_len <= zlen s + 1 + zlen rest ->
  exists rest', tcp_flags_loop table flags ((Some <$> s) ++ Some x00 :: rest) buf_len (zlen s) first
    = Done ((Some <$> flags_so_far s table flags) ++ Some x00 :: rest', zlen (flags_so_far s table flags))
    /\ zlen (flags_so_far s table flags) + zlen rest' = zlen s + zlen rest.
Proof.
  intros Ht. revert s rest first.
  induction Ht as [|[bit name] table Hn Ht IH]; intros s rest first Hf Hb Hsb Hr.
  { assert (E : flags_so_far s [] flags = s).
    { unfold flags_so_far. cbn [flag_names filter list_filter fmap list_fmap]. rewrite app_nil_r.
      by case_decide; subst. }
    exists rest. by rewrite E. }
  rewrite zlen_cons in Hb. cbn [snd] in *. cbn [tcp_flags_loop].
  pose proof (zlen_nonneg s). pose proof (zlen_nonneg table).
  destruct (Z.eqb_spec (Z.land flags bit) 0) as [Hbit|Hbit].
  { unfold flags_so_far, flag_names. rewrite filter_cons_False by (intros E; by apply E).
    apply IH; [done|destruct first; lia|lia..]. }
  rewrite szsub_small by lia. set (piece := (if first then [] else txt ",") ++ name).
  assert (Hp : 1 <= zlen piece <= (if first then 3 else 4)) by (unfold piece; rewrite zlen_app; destruct first;
    change (zlen (txt ",")) with 1; change (zlen (@nil byte)) with 0; lia).
  rewrite buf_snprintf_append by (rewrite ?zlen_cons; destruct first; lia). mred.
  replace ((zlen piece <? 0) || (zlen piece >=? buf_len - zlen s)) with false
    by (rewrite Z.geb_leb; destruct first; zcases).
  rewrite szadd_small, <- zlen_app by (destruct first; lia).
  assert (Hne : s ++ piece <> []) by (intros E; apply (f_equal zlen) in E; zlen; lia).
  assert (Hj : flags_so_far (s ++ piece) table flags = flags_so_far s ((bit, name) :: table) flags).
  { unfold flags_so_far, flag_names. rewrite filter_cons_True by done. rewrite fmap_cons.
    rewrite (decide_False (P := s ++ piece = [])) by done. unfold piece. cbn [snd]. rewrite Hf.
    destruct (decide (s = [])) as [->|Hs]; [done|]. rewrite bool_decide_false by done. cbn [app].
    destruct (snd <$> _); [done|]. rewrite !join_cons by done. by rewrite <- !app_assoc. }
  rewrite <- Hj.
  destruct (IH (s ++ piece) (drop (S (length piece)) (Some x00 :: rest)) false) as (rest' & E & Hz);
    [|rewrite zlen_app; destruct first; lia..|rewrite zlen_app, zlen_drop, zlen_cons; unfold zlen in *; destruct first; lia|].
  { symmetry. by apply bool_decide_eq_false. }
  exists rest'. split; [done|]. rewrite Hz, zlen_app, zlen_drop, zlen_cons. unfold zlen in *. destruct first; lia.
Qed.

(** The printed text, and the flags byte read back from it. *)
Definition flags_text (flags : Z) : list byte :=
  match flag_names kFlags flags with
  | [] => txt "-"
  | names => join (txt ",") names
  end.

Definition flags_of_text (s : list byte) : Z :=
  foldr (fun bn acc => if decide (snd bn ∈ split_on x2c s) then Z.lor (fst bn) acc else acc) 0 kFlags.

Lemma flags_text_facts flags :
  0 <= flags < 256 ->
  flags_of_text (flags_text flags) = flags /\ no_nul (flags_text flags) /\
  (flag_names kFlags flags <> [] -> zlen (join (txt ",") (flag_names kFlags flags)) <> 0).
Proof.
  intros Hf. assert (Hin : In flags (seqZ 0 256)) by (apply list_elem_of_In, elem_of_seqZ; lia).
  clear Hf. revert flags Hin. apply (proj1 (Forall_forall _ _)). apply (bool_decide_unpack _).
  by vm_compute.
Qed.

Lemma ns_tcp_flags_to_string_spec flags buf buf_len :
  0 <= flags < 256 -> 32 <= buf_len <= zlen buf -> buf_len < 2 ^ 64 ->
  wp (ns_tcp_flags_to_string flags buf buf_len) (fun buf' => holds buf' (flags_text flags)).
Proof.
  intros Hf Hb Hs. destruct (flags_text_facts flags Hf) as (_ & _ & Hpos).
  unfold ns_tcp_flags_to_string.
  assert (E : buf_set buf 0 x00 = Done (Some x00 :: drop 1 buf)) by (apply (buf_set_append []); lia).
  rewrite E. mred. clear E.
  destruct (tcp_flags_loop_spec kFlags flags [] (drop 1 buf) buf_len true) as (rest' & E & Hz).
  - apply (bool_decide_unpack _). by vm_compute.
  - done.
  - change (zlen (@nil byte)) with 0. change (zlen kFlags) with 8. lia.
  - change (zlen (@nil byte)) with 0. lia.
  - change (zlen (@nil byte)) with 0. zlen. lia.
  - cbn [app fmap list_fmap] in E. change (zlen (@nil byte)) with 0 in E, Hz.
    rewrite E. mred. revert E Hz Hpos. unfold flags_so_far, flags_text. rewrite !(decide_True (P := [] = [])) by done.
    cbn [app].
    destruct (flag_names kFlags flags) as [|n ns] eqn:En; intros _ Hz Hpos.
    + change (zlen (join _ [])) with 0 in *. cbn [Z.eqb join fmap list_fmap app].
      destruct (buf_snprintf_start (Some x00 :: rest') buf_len (txt "-")) as (b' & -> & Hh & _).
      { rewrite zlen_cons. revert Hz. zlen. lia. }
      mred. cbn [wp]. unfold sn in Hh. rewrite take_ge in Hh by (cbn; lia). done.
    + destruct (Z.eqb_spec (zlen (join (txt ",") (n :: ns))) 0); [by destruct Hpos|]. by exists rest'.
Qed.

(** C35. Flag names: in a buffer of at least 32 bytes, the size its callers use and
    exactly what the eight names need, the TCP flag printer neither overflows
    nor reads an unwritten cell, it prints the names of exactly the flags that are set,
    separated by commas ("-" when none is), and the flags byte can be read back from the text. *)
Theorem tcp_flags_text_roundtrip (flags : Z) (buf : cbuf) (buf_len : Z) :
  0 <= flags < 256 -> 32 <= buf_len <= zlen buf -> buf_len < 2 ^ 64 ->
  wp (buf' ← ns_tcp_flags_to_string flags buf buf_len; cstring buf')
     (fun s => s = flags_text flags /\ flags_of_text s = flags).
Proof.
  intros Hf Hb Hs. apply wp_bind. eapply wp_mono; [by apply ns_tcp_flags_to_string_spec|].
  intros buf' Hh. cbn beta. rewrite (cstring_holds _ _ Hh). cbn [wp].
  rewrite until_nul_no_nul by (by apply flags_text_facts). split; [done|].
  by apply flags_text_facts.
Qed.

Lemma tcp_flags_text_roundtrip_witness :
  wp (buf' ← ns_tcp_flags_to_string 255 (uninit_buf 32) 32; cstring buf')
     (fun s => s = flags_text 255 /\ flags_of_text s = 255).
Proof. apply (tcp_flags_text_roundtrip 255 (uninit_buf 32) 32); (by cbn) || done. Defined.
