(* ===== verification/DnsName.v ===== *)
(** * DNS names: [ns_dns_decode_name] of [src/protocols/dns.c]

    A name is a sequence of labels, possibly continued elsewhere in the message through a
    compression pointer.  The decoder is a loop without an obvious bound (a hostile message
    can make pointers form a cycle), which writes into a caller's buffer. *)

From S2P Require Import Prelude CMem Util Proto.

Definition NS_DNS_MAX_NAME := 255.
Definition NS_DNS_MAX_JUMPS := 32.

(** ** The decoder *)

(** The [for (;;)] loop.  The value holds the status ([NS_PARSE_OK] when the loop is left by
    [break]), the output buffer, [out_pos] and [*end_offset], which stays indeterminate until
    the loop stores it. *)
Fixpoint decode_name_loop (fuel : nat) (data : list byte) (length : Z) (out : cbuf)
    (out_len pos out_pos : Z) (end_set : bool) (end_offset : option Z) (jumps : Z)
    : M (ns_parse_status_t * cbuf * Z * option Z) :=
  match fuel with
  | O => Fault OutOfFuel
  | S fuel =>
      r ← ns_read_u8 data length pos;
      match r with
      | None => Done (NS_PARSE_TRUNCATED, out, out_pos, end_offset)
      | Some len_byte =>
          if Z.land len_byte 0xC0 =? 0xC0 then
            r ← ns_read_u16_be data length pos;
            match r with
            | None => Done (NS_PARSE_TRUNCATED, out, out_pos, end_offset)
            | Some ptr_field =>
                let end_offset := if end_set then end_offset else Some (szadd pos 2) in
                let jumps := jumps + 1 in
                if jumps >? NS_DNS_MAX_JUMPS
                then Done (NS_PARSE_MALFORMED, out, out_pos, end_offset)
                else decode_name_loop fuel data length out out_len (Z.land ptr_field 0x3FFF)
                       out_pos true end_offset jumps
            end
          else if negb (Z.land len_byte 0xC0 =? 0)
          then Done (NS_PARSE_MALFORMED, out, out_pos, end_offset)
          else if len_byte =? 0
          then Done (NS_PARSE_OK, out, out_pos,
                     if end_set then end_offset else Some (szadd pos 1))
          else
            let label_len := len_byte in
            let pos := szadd pos 1 in
            if negb (ns_bounds_check length pos label_len)
            then Done (NS_PARSE_TRUNCATED, out, out_pos, end_offset)
            else
              let needed := szadd (szadd out_pos label_len) 1 in
              if needed >=? out_len then Done (NS_PARSE_MALFORMED, out, out_pos, end_offset)
              else
                '(out, out_pos) ← (if negb (out_pos =? 0)
                                   then out ← buf_set out out_pos x2e; Done (out, szadd out_pos 1)
                                   else Done (out, out_pos));
                label ← rd_bytes data pos label_len;
                out ← buf_copy out out_pos label;
                decode_name_loop fuel data length out out_len (szadd pos label_len)
                  (szadd out_pos label_len) end_set end_offset jumps
      end
  end.

(** Every turn of the loop returns, follows one of at most 32 pointers, or writes at least one
    byte of the buffer. *)
Definition decode_name_fuel (out_len : Z) : nat := Z.to_nat (34 + out_len).

(** The status, the buffer and [*end_offset] after the call. *)
Definition ns_dns_decode_name (data : list byte) (length offset : Z) (out : cbuf) (out_len : Z)
    : M (ns_parse_status_t * cbuf * option Z) :=
  if out_len =? 0 then Done (NS_PARSE_MALFORMED, out, None)
  else
    '(status, out, out_pos, end_offset) ←
      decode_name_loop (decode_name_fuel out_len) data length out out_len offset 0 false None 0;
    match status with
    | NS_PARSE_OK =>
        '(out, out_pos) ← (if out_pos =? 0
                           then out ← buf_set out out_pos x2e; Done (out, szadd out_pos 1)
                           else Done (out, out_pos));
        out ← buf_set out out_pos x00;
        Done (NS_PARSE_OK, out, end_offset)
    | _ => Done (status, out, end_offset)
    end.

(** ** Names of a message

    [dns_name bs pos jumps labels stop]: the name written at [pos] has the given labels, is
    completed after following [jumps] pointers, and occupies the bytes up to [stop] where it
    is written. *)
Inductive dns_name (bs : list byte) : Z -> Z -> list (list byte) -> Z -> Prop :=
  | name_root pos :
      0 <= pos -> pos + 1 <= zlen bs -> u8_at bs pos = 0 -> dns_name bs pos 0 [] (pos + 1)
  | name_label pos len jumps labels stop :
      0 <= pos -> u8_at bs pos = len -> 1 <= len < 64 -> pos + 1 + len <= zlen bs ->
      dns_name bs (pos + 1 + len) jumps labels stop ->
      dns_name bs pos jumps (slice bs (pos + 1) len :: labels) stop
  | name_pointer pos jumps labels stop :
      0 <= pos -> 192 <= u8_at bs pos -> pos + 2 <= zlen bs ->
      dns_name bs (u16_at bs pos mod 2 ^ 14) jumps labels stop ->
      dns_name bs pos (jumps + 1) labels (pos + 2).

(** The text of a name: its labels separated by dots, or a single dot for the root. *)
Definition name_text (labels : list (list byte)) : list byte :=
  match labels with
  | [] => txt "."
  | _ => join (txt ".") labels
  end.

(** What fits a buffer of [out_len] bytes.  The first label is held to a bound one stricter
    than needed, because the decoder counts a separator for it too. *)
Definition name_fits (out_len : Z) (labels : list (list byte)) : Prop :=
  match labels with
  | [] => True
  | label :: _ => zlen label + 1 < out_len /\ zlen (join (txt ".") labels) < out_len
  end.

Lemma dns_name_jumps bs pos jumps labels stop : dns_name bs pos jumps labels stop -> 0 <= jumps.
Proof. induction 1; lia. Qed.

Lemma dns_name_stop bs pos jumps labels stop :
  dns_name bs pos jumps labels stop -> 0 <= pos < stop /\ stop <= zlen bs.
Proof. induction 1; lia. Qed.

Lemma dns_name_labels bs pos jumps labels stop :
  dns_name bs pos jumps labels stop -> Forall (fun l => 1 <= zlen l <= 63) labels.
Proof.
  induction 1; [done| |done]. constructor; [|done]. rewrite zlen_slice by lia. lia.
Qed.

(** The relation is a function of the position. *)
Lemma dns_name_det bs pos j1 l1 s1 j2 l2 s2 :
  dns_name bs pos j1 l1 s1 -> dns_name bs pos j2 l2 s2 -> j1 = j2 /\ l1 = l2 /\ s1 = s2.
Proof.
  intros H. revert j2 l2 s2. induction H as [pos|pos len j l s|pos j l s]; intros j2 l2 s2 Hn;
    inversion Hn; simplify_eq; try lia; try done.
  - edestruct IHdns_name as (-> & -> & ->); done.
  - edestruct IHdns_name as (-> & -> & ->); done.
Qed.

(** ** The two top bits of a length byte *)

Lemma land_c0 b :
  0 <= b < 256 ->
  (Z.land b 0xC0 =? 0xC0) = (192 <=? b) /\ (Z.land b 0xC0 =? 0) = (b <? 64).
Proof.
  intros Hb. assert (Hin : In b (seqZ 0 256)) by (apply list_elem_of_In, elem_of_seqZ; lia).
  clear Hb. revert b Hin. apply (proj1 (Forall_forall _ _)). apply (bool_decide_unpack _).
  by vm_compute.
Qed.

(** ** Fitting the buffer *)

Lemma join_snoc_zlen (ls : list (list byte)) l :
  zlen (join (txt ".") (ls ++ [l]))
  = zlen (join (txt ".") ls) + (if decide (ls = []) then 0 else 1) + zlen l.
Proof.
  case_decide as H; [subst; cbn [app join]; change (zlen (@nil byte)) with 0; lia|].
  rewrite join_snoc by done. rewrite !zlen_app. change (zlen (txt ".")) with 1. lia.
Qed.

Lemma join_prefix_zlen (ls ms : list (list byte)) :
  zlen (join (txt ".") ls) <= zlen (join (txt ".") (ls ++ ms)).
Proof.
  destruct ls as [|l ls]; [apply zlen_nonneg|]. destruct ms as [|m ms]; [by rewrite app_nil_r|].
  rewrite join_app, !zlen_app by done. pose proof (zlen_nonneg (join (txt ".") (m :: ms))).
  change (zlen (txt ".")) with 1. lia.
Qed.

Lemma name_fits_prefix out_len ls ms : name_fits out_len (ls ++ ms) -> name_fits out_len ls.
Proof.
  destruct ls as [|l ls]; [done|]. cbn [app name_fits]. intros [H1 H2]. split; [done|].
  pose proof (join_prefix_zlen (l :: ls) ms). cbn [app] in *. lia.
Qed.

(** The decoder's test is the fitting condition of one more label. *)
Lemma name_fits_snoc out_len ls l :
  (ls = [] <-> zlen (join (txt ".") ls) = 0) -> name_fits out_len ls -> 0 <= zlen l ->
  name_fits out_len (ls ++ [l]) <-> zlen (join (txt ".") ls) + zlen l + 1 < out_len.
Proof.
  intros Hnil Hfit Hl. pose proof (join_snoc_zlen ls l) as Hz. destruct ls as [|l0 ls].
  - cbn [app name_fits join] in *. change (zlen (@nil byte)) with 0. lia.
  - rewrite decide_False in Hz by done. destruct Hfit as [Hf _]. cbn [app name_fits] in *. lia.
Qed.

Lemma join_nonempty (ls : list (list byte)) :
  Forall (fun l => 1 <= zlen l <= 63) ls -> (ls = [] <-> zlen (join (txt ".") ls) = 0).
Proof.
  intros H. split; [by intros ->|]. destruct H as [|l ls Hl]; [done|].
  pose proof (join_prefix_zlen [l] ls). cbn [app join] in *. lia.
Qed.

(** ** The loop computes the name *)

Section decode.
Context (data : list byte) (length : Z) (Hview : view_ok data length).
Context (out_len : Z) (Hout : 2 <= out_len < 2 ^ 63).
#[local] Notation bs := (view data length).

(** What the loop has established when it returns, started at [pos] with the labels [done]
    already written. *)
Definition loop_post (pos : Z) (done : list (list byte)) (end_set : bool) (end_offset : option Z)
    (jumps : Z) (r : ns_parse_status_t * cbuf * Z * option Z) : Prop :=
  let '(status, out, out_pos, end_offset') := r in
  zlen out = out_len /\ status <> NS_PARSE_UNSUPPORTED /\
  match status with
  | NS_PARSE_OK =>
      exists j labels stop rest, dns_name bs pos j labels stop /\ jumps + j <= NS_DNS_MAX_JUMPS /\
        name_fits out_len (done ++ labels) /\
        out = (Some <$> join (txt ".") (done ++ labels)) ++ rest /\
        out_pos = zlen (join (txt ".") (done ++ labels)) /\
        end_offset' = (if end_set then end_offset else Some stop)
  | _ =>
      forall j labels stop, dns_name bs pos j labels stop -> jumps + j <= NS_DNS_MAX_JUMPS ->
        ~ name_fits out_len (done ++ labels)
  end.

(** The loop state that has written [done]. *)
Definition loop_pre (pos : Z) (done : list (list byte)) (out : cbuf) (jumps : Z) (fuel : nat) : Prop :=
  0 <= pos < 2 ^ 64 /\ Forall (fun l => 1 <= zlen l <= 63) done /\ name_fits out_len done /\
  (exists rest, out = (Some <$> join (txt ".") done) ++ rest) /\ zlen out = out_len /\
  0 <= jumps <= NS_DNS_MAX_JUMPS /\
  NS_DNS_MAX_JUMPS - jumps + (out_len - zlen (join (txt ".") done)) < Z.of_nat fuel.

(** One label is appended. *)
Lemma write_label done out label :
  Forall (fun l => 1 <= zlen l <= 63) done -> (exists rest, out = (Some <$> join (txt ".") done) ++ rest) ->
  zlen out = out_len -> zlen (join (txt ".") done) + zlen label + 1 < out_len ->
  exists out1 pos1 out',
    (if negb (zlen (join (txt ".") done) =? 0)
     then out ← buf_set out (zlen (join (txt ".") done)) x2e;
          Done (out, zlen (join (txt ".") done) + 1)
     else Done (out, zlen (join (txt ".") done))) = Done (out1, pos1) /\
    buf_copy out1 pos1 label = Done out' /\
    szadd pos1 (zlen label) = zlen (join (txt ".") (done ++ [label])) /\
    (exists rest, out' = (Some <$> join (txt ".") (done ++ [label])) ++ rest) /\
    zlen out' = out_len.
Proof.
  intros Hd [rest ->] Hz Hfit. pose proof (join_nonempty done Hd) as Hnil.
  rewrite zlen_app, zlen_fmap in Hz. pose proof (zlen_nonneg label).
  pose proof (zlen_nonneg (join (txt ".") done)). rewrite join_snoc_zlen.
  destruct (decide (done = [])) as [->|Hne].
  - cbn [join app fmap list_fmap] in *. change (zlen (@nil byte)) with 0 in *. cbn [negb Z.eqb].
    pose proof (buf_copy_append [] label rest ltac:(lia)) as E.
    change (zlen (@nil byte)) with 0 in E. cbn [fmap list_fmap app] in E.
    do 3 eexists. split; [done|]. split; [done|]. rewrite szadd_small by lia.
    split; [done|]. split; [by eexists|]. rewrite zlen_app, zlen_fmap, zlen_drop. unfold zlen in *. lia.
  - rewrite (proj2 (Z.eqb_neq _ _)) by tauto. cbn [negb]. rewrite buf_set_append by lia. mred.
    replace (zlen (join (txt ".") done) + 1) with (zlen (join (txt ".") done ++ [x2e])) by (zlen; lia).
    do 3 eexists. split; [done|]. rewrite buf_copy_append by (rewrite zlen_drop; lia).
    split; [done|]. rewrite zlen_app, szadd_small, join_snoc by (done || zlen; lia). change (zlen [x2e]) with 1.
    split; [done|]. rewrite <- !app_assoc. split; [by eexists|].
    rewrite zlen_app, zlen_fmap, !zlen_app, !zlen_drop. change (zlen [x2e]) with 1. unfold zlen in *. lia.
Qed.

(** A name does not start at [pos]: the loop may give up. *)
Lemma loop_stop status pos done out out_pos end_set end_offset end_offset' jumps :
  status = NS_PARSE_TRUNCATED \/ status = NS_PARSE_MALFORMED -> zlen out = out_len ->
  (forall j labels stop, dns_name bs pos j labels stop -> jumps + j <= NS_DNS_MAX_JUMPS ->
     ~ name_fits out_len (done ++ labels)) ->
  loop_post pos done end_set end_offset jumps (status, out, out_pos, end_offset').
Proof. intros [-> | ->]; repeat split; done. Qed.

(** What is established from the target of a pointer holds from the pointer. *)
Lemma loop_post_pointer pos done (end_set : bool) end_offset jumps r :
  0 <= pos -> 192 <= u8_at bs pos -> pos + 2 <= length ->
  loop_post (u16_at bs pos mod 2 ^ 14) done true (if end_set then end_offset else Some (pos + 2))
    (jumps + 1) r ->
  loop_post pos done end_set end_offset jumps r.
Proof.
  intros Hpos Hptr Hin. pose proof (zlen_view data length Hview) as Hz.
  destruct r as [[[status out] out_pos] e]. unfold loop_post. intros (Ho & Hs & Hm).
  split; [done|]. split; [done|]. destruct status; try done.
  - destruct Hm as (j & labels & stop & rest & Hn & Hj & ? & ? & ? & He).
    exists (j + 1), labels, (pos + 2), rest. split; [apply (name_pointer _ _ _ _ stop); (done || lia)|].
    split; [lia|]. repeat (split; [done|]). by destruct end_set.
  - intros j labels stop Hn Hj. inversion Hn; simplify_eq; try lia. eapply Hm; [done|lia].
  - intros j labels stop Hn Hj. inversion Hn; simplify_eq; try lia. eapply Hm; [done|lia].
Qed.

(** What is established after a label holds from the label. *)
Lemma loop_post_label pos len done end_set end_offset jumps r :
  0 <= pos -> u8_at bs pos = len -> 1 <= len < 64 -> pos + 1 + len <= length ->
  loop_post (pos + 1 + len) (done ++ [slice bs (pos + 1) len]) end_set end_offset jumps r ->
  loop_post pos done end_set end_offset jumps r.
Proof.
  intros Hpos Hlen Hrange Hin. pose proof (zlen_view data length Hview) as Hz.
  destruct r as [[[status out] out_pos] e]. unfold loop_post. intros (Ho & Hs & Hm).
  split; [done|]. split; [done|]. destruct status; try done.
  - destruct Hm as (j & labels & stop & rest & Hn & Hj & Hf & He & Hp & Hend).
    rewrite <- app_assoc in *. exists j, (slice bs (pos + 1) len :: labels), stop, rest.
    split; [by apply name_label; try lia|]. done.
  - intros j labels stop Hn Hj. inversion Hn; simplify_eq; try lia.
    match goal with H : dns_name _ _ _ _ _ |- _ => specialize (Hm _ _ _ H Hj) end.
    by rewrite <- app_assoc in Hm.
  - intros j labels stop Hn Hj. inversion Hn; simplify_eq; try lia.
    match goal with H : dns_name _ _ _ _ _ |- _ => specialize (Hm _ _ _ H Hj) end.
    by rewrite <- app_assoc in Hm.
Qed.

Lemma decode_name_loop_spec fuel pos done out end_set end_offset jumps :
  loop_pre pos done out jumps fuel ->
  wp (decode_name_loop fuel data length out out_len pos (zlen (join (txt ".") done)) end_set
        end_offset jumps)
     (loop_post pos done end_set end_offset jumps).
Proof.
  revert pos done out end_set end_offset jumps.
  induction fuel as [|fuel IH]; intros pos done out end_set end_offset jumps
    (Hpos & Hd & Hfit & Hrest & Hz & Hj & Hfuel).
  { assert (zlen (join (txt ".") done) <= out_len); [|unfold NS_DNS_MAX_JUMPS in *; lia].
    destruct Hrest as [rest ->]. rewrite zlen_app, zlen_fmap in Hz. pose proof (zlen_nonneg rest). lia. }
  cbn [decode_name_loop]. rewrite ns_read_u8_spec by done. mred.
  pose proof (zlen_view data length Hview) as Hzv. pose proof Hview as [Hlen Hmax].
  destruct (Z.leb_spec (pos + 1) length) as [Hin|Hin]; cycle 1.
  { apply loop_stop; [by left|done|]. intros j labels stop Hn. apply dns_name_stop in Hn as Hs.
    destruct Hs. lia. }
  pose proof (u8_at_range bs pos) as Hb. destruct (land_c0 _ Hb) as [-> ->].
  destruct (Z.leb_spec 192 (u8_at bs pos)) as [Hptr|Hptr].
  - rewrite ns_read_u16_be_spec by done. mred. destruct (Z.leb_spec (pos + 2) length); cycle 1.
    { apply loop_stop; [by left|done|]. intros j labels stop Hn. inversion Hn; simplify_eq; lia. }
    rewrite Z.gtb_ltb. destruct (Z.ltb_spec NS_DNS_MAX_JUMPS (jumps + 1)) as [Hmaxj|Hmaxj].
    { apply loop_stop; [by right|done|]. intros j labels stop Hn Hle.
      inversion Hn; simplify_eq; try lia.
      match goal with H : dns_name _ _ _ _ _ |- _ => apply dns_name_jumps in H end. lia. }
    rewrite szadd_small, (land_mask _ 14) by lia.
    eapply wp_mono; [apply IH|intros r; apply loop_post_pointer; lia].
    pose proof (Z.mod_pos_bound (u16_at bs pos) (2 ^ 14)). repeat split; try done; lia.
  - replace (negb (u8_at bs pos <? 64)) with (64 <=? u8_at bs pos) by apply Z.leb_antisym.
    destruct (Z.leb_spec 64 (u8_at bs pos)).
    { apply loop_stop; [by right|done|]. intros j labels stop Hn. inversion Hn; simplify_eq; lia. }
    destruct (Z.eqb_spec (u8_at bs pos) 0) as [H0|H0].
    { split; [done|]. split; [done|]. destruct Hrest as [rest Hrest].
      exists 0, [], (pos + 1), rest. rewrite app_nil_r, szadd_small by lia.
      split; [by apply name_root; lia|]. split; [lia|]. done. }
    rewrite (szadd_small pos), (bounds_view _ _ Hview) by lia.
    destruct (Z.leb_spec (pos + 1 + u8_at bs pos) length) as [Hll|Hll]; cbn [negb]; cycle 1.
    { apply loop_stop; [by left|done|]. intros j labels stop Hn. inversion Hn; simplify_eq; lia. }
    set (label := slice bs (pos + 1) (u8_at bs pos)).
    assert (Hlz : zlen label = u8_at bs pos) by (apply zlen_slice; lia).
    pose proof (name_fits_snoc out_len done label (join_nonempty _ Hd) Hfit ltac:(lia)) as Hsnoc.
    assert (Hjz : 0 <= zlen (join (txt ".") done) <= out_len).
    { split; [apply zlen_nonneg|]. destruct Hrest as [rest ->]. rewrite zlen_app, zlen_fmap in Hz.
      pose proof (zlen_nonneg rest). lia. }
    rewrite !(szadd_small (zlen (join _ _))), szadd_small, Z.geb_leb by (rewrite ?szadd_small; lia).
    rewrite <- Hlz in *. destruct (Z.leb_spec out_len (zlen (join (txt ".") done) + zlen label + 1)).
    { apply loop_stop; [by right|done|]. intros j labels stop Hn _ Hf.
      inversion Hn; simplify_eq; try lia. fold label in Hf.
      rewrite cons_middle, app_assoc in Hf.
      apply name_fits_prefix, Hsnoc in Hf. lia. }
    destruct (write_label done out label) as (out1 & pos1 & out' & -> & Hc & Hp & Hr & Hz'); [done..|lia|].
    mred. rewrite (rd_bytes_view _ _ Hview) by lia. mred. rewrite Hlz. fold label. rewrite Hc. mred.
    rewrite <- Hlz, Hp, szadd_small by lia.
    eapply wp_mono; [apply IH|intros r; rewrite Hlz; apply loop_post_label; lia].
    pose proof (join_snoc_zlen done label). repeat split; try done; try lia.
    + apply Forall_app. split; [done|]. constructor; [lia|done].
    + apply Hsnoc. lia.
    + case_decide; lia.
Qed.
End decode.

(** ** The whole function *)

(** The decoder's contract.  [NS_PARSE_OK] means that a name is written at [offset] that needs
    at most 32 pointers and fits the buffer; the buffer then holds its text, terminated, and
    [*end_offset] is where the name stops.  Any other status means that there is none. *)
Definition decode_post (bs : list byte) (offset out_len : Z)
    (r : ns_parse_status_t * cbuf * option Z) : Prop :=
  let '(status, out, end_offset) := r in
  zlen out = out_len /\ status <> NS_PARSE_UNSUPPORTED /\
  match status with
  | NS_PARSE_OK =>
      exists jumps labels stop, dns_name bs offset jumps labels stop /\ jumps <= NS_DNS_MAX_JUMPS /\
        name_fits out_len labels /\ holds out (name_text labels) /\ end_offset = Some stop
  | _ =>
      forall jumps labels stop, dns_name bs offset jumps labels stop -> jumps <= NS_DNS_MAX_JUMPS ->
        ~ name_fits out_len labels
  end.

Lemma ns_dns_decode_name_spec data length offset out out_len :
  view_ok data length -> is_size offset -> 2 <= out_len < 2 ^ 63 -> zlen out = out_len ->
  wp (ns_dns_decode_name data length offset out out_len)
     (decode_post (view data length) offset out_len).
Proof.
  intros Hv Hoff Hout Hz. unfold ns_dns_decode_name. destruct (Z.eqb_spec out_len 0); [lia|].
  apply wp_bind. eapply wp_mono.
  { apply (decode_name_loop_spec data length Hv out_len Hout _ offset []).
    split; [exact Hoff|]. split; [constructor|]. split; [done|]. split; [by exists out|].
    unfold decode_name_fuel, NS_DNS_MAX_JUMPS. change (zlen (join (txt ".") [])) with 0. lia. }
  intros [[[status out1] out_pos] e] (Hz1 & Hun & Hm). cbn beta iota. destruct status; try done.
  destruct Hm as (j & labels & stop & rest & Hn & Hj & Hf & Ho & Hp & He). cbn [app] in *.
  pose proof (join_nonempty labels (dns_name_labels _ _ _ _ _ Hn)) as Hne. subst out1 out_pos e.
  rewrite zlen_app, zlen_fmap in Hz1. destruct labels as [|l ls].
  - cbn [join app fmap list_fmap] in *. change (zlen (@nil byte)) with 0 in *. cbn [Z.eqb].
    pose proof (buf_set_append [] rest x2e ltac:(lia)) as E.
    cbn [app fmap list_fmap] in E. change (zlen (@nil byte)) with 0 in E. rewrite E. mred.
    pose proof (buf_set_append [x2e] (drop 1 rest) x00 ltac:(rewrite zlen_drop; lia)) as E2.
    change (szadd 0 1) with (zlen [x2e]). cbn [app fmap list_fmap] in E2. cbn [app]. rewrite E2. mred.
    split; [cbn [app]; rewrite !zlen_cons, !zlen_drop; lia|]. split; [done|].
    exists j, [], stop. repeat (split; [done|]). split; [|done]. by eexists.
  - rewrite (proj2 (Z.eqb_neq _ _)) by (by intros E; apply Hne in E). mred.
    destruct Hf as [Hf1 Hf2]. rewrite buf_set_append by lia. mred.
    split; [rewrite zlen_app, zlen_fmap, zlen_app, zlen_drop; change (zlen [x00]) with 1; lia|].
    split; [done|]. exists j, (l :: ls), stop. repeat (split; [done|]). split; [|done].
    eexists. rewrite fmap_app, <- app_assoc. done.
Qed.

(** *** Locality *)

Lemma decode_name_loop_local fuel data length out out_len pos out_pos end_set end_offset jumps :
  view_ok data length ->
  decode_name_loop fuel data length out out_len pos out_pos end_set end_offset jumps
  = decode_name_loop fuel (view data length) length out out_len pos out_pos end_set end_offset jumps.
Proof.
  intros Hv. revert out pos out_pos end_set end_offset jumps.
  induction fuel as [|fuel IH]; intros out pos out_pos end_set end_offset jumps; [done|].
  cbn [decode_name_loop]. apply bind_ext; [by apply ns_read_u8_local|]. intros [len_byte|] Hr; [|done].
  apply ns_read_u8_range in Hr. destruct (_ =? 0xC0).
  { apply bind_ext; [by apply ns_read_u16_be_local|]. intros [ptr|] _; [|done]. by destruct (_ >? _). }
  destruct (negb _); [done|]. destruct (len_byte =? 0); [done|].
  destruct (ns_bounds_check length (szadd pos 1) len_byte) eqn:Hb; cbn [negb]; [|done].
  destruct (_ >=? _); [done|]. destruct Hv as [Hv1 Hv2].
  pose proof (Z.mod_pos_bound (pos + 1) (2 ^ 64) ltac:(lia)) as Hp. fold (szadd pos 1) in Hp.
  rewrite ns_bounds_check_spec in Hb by (unfold is_size; lia). apply Z.leb_le in Hb.
  apply bind_ext; [done|]. intros [o p] _. apply bind_ext; [by apply rd_bytes_local|]. intros seg _.
  apply bind_ext; [done|]. intros o' _. apply IH.
Qed.

Lemma ns_dns_decode_name_local data length offset out out_len :
  view_ok data length ->
  ns_dns_decode_name data length offset out out_len
  = ns_dns_decode_name (view data length) length offset out out_len.
Proof. intros. unfold ns_dns_decode_name. by rewrite decode_name_loop_local. Qed.

(** ** Names on the wire *)

Definition encode_labels (labels : list (list byte)) : list byte :=
  concat ((fun l => zb (zlen l) :: l) <$> labels).

Definition encode_name (labels : list (list byte)) : list byte := encode_labels labels ++ [x00].

(** A name whose last labels are shared with the name at [target]. *)
Definition encode_name_at (labels : list (list byte)) (target : Z) : list byte :=
  encode_labels labels ++ to_be 2 (0xC000 + target).

Lemma zlen_encode_labels_cons l ls :
  zlen (encode_labels (l :: ls)) = 1 + zlen l + zlen (encode_labels ls).
Proof. unfold encode_labels. rewrite fmap_cons. cbn [concat]. rewrite zlen_app, zlen_cons. lia. Qed.

Lemma dns_name_encode_labels pre labels tail jumps rest stop :
  Forall (fun l => 1 <= zlen l <= 63) labels ->
  dns_name (pre ++ encode_labels labels ++ tail) (zlen pre + zlen (encode_labels labels)) jumps rest stop ->
  dns_name (pre ++ encode_labels labels ++ tail) (zlen pre) jumps (labels ++ rest) stop.
Proof.
  intros Hl. revert pre. induction Hl as [|l ls Hl Hls IH]; intros pre Hn.
  { change (encode_labels []) with (@nil byte) in *. change (zlen (@nil byte)) with 0 in Hn.
    by rewrite Z.add_0_r in Hn. }
  set (bs := pre ++ encode_labels (l :: ls) ++ tail) in *.
  assert (Ebs : bs = pre ++ to_be 1 (zlen l) ++ l ++ encode_labels ls ++ tail).
  { unfold bs, encode_labels. rewrite fmap_cons. cbn [concat to_be app]. by rewrite <- !app_assoc. }
  pose proof (zlen_nonneg pre). pose proof (zlen_nonneg tail). pose proof (zlen_nonneg (encode_labels ls)).
  assert (Hlen : u8_at bs (zlen pre) = zlen l)
    by (rewrite Ebs, u8_skip, Z.sub_diag by lia; apply u8_here; lia).
  assert (Hs : slice bs (zlen pre + 1) (zlen l) = l).
  { rewrite Ebs, slice_skip, slice_skip by (rewrite ?zlen_to_be; lia). rewrite zlen_to_be.
    replace (zlen pre + 1 - zlen pre - Z.of_nat 1) with 0 by lia. by apply slice_here. }
  assert (Hz : zlen bs = zlen pre + 1 + zlen l + zlen (encode_labels ls) + zlen tail)
    by (rewrite Ebs, !zlen_app, zlen_to_be; lia).
  cbn [app]. rewrite <- Hs. apply name_label; [lia|done|lia|lia|].
  assert (Epre : bs = (pre ++ to_be 1 (zlen l) ++ l) ++ encode_labels ls ++ tail)
    by (by rewrite Ebs, <- !app_assoc).
  rewrite zlen_encode_labels_cons in Hn. rewrite Epre in Hn |- *.
  specialize (IH (pre ++ to_be 1 (zlen l) ++ l)). rewrite !zlen_app, zlen_to_be in IH.
  replace (zlen pre + 1 + zlen l) with (zlen pre + (Z.of_nat 1 + zlen l)) by lia.
  apply IH. replace (zlen pre + (Z.of_nat 1 + zlen l) + zlen (encode_labels ls)) with
    (zlen pre + (1 + zlen l + zlen (encode_labels ls))) by lia. done.
Qed.

Lemma dns_name_encode pre labels tail :
  Forall (fun l => 1 <= zlen l <= 63) labels ->
  dns_name (pre ++ encode_name labels ++ tail) (zlen pre) 0 labels (zlen pre + zlen (encode_name labels)).
Proof.
  intros Hl. unfold encode_name. rewrite zlen_app, <- app_assoc. change (zlen [x00]) with 1.
  pose proof (zlen_nonneg pre). pose proof (zlen_nonneg tail). pose proof (zlen_nonneg (encode_labels labels)).
  rewrite <- (app_nil_r labels) at 2. rewrite Z.add_assoc. apply dns_name_encode_labels; [done|].
  apply name_root; [lia|rewrite !zlen_app; change (zlen [x00]) with 1; lia|].
  rewrite u8_skip, u8_skip by lia. replace (_ - _ - _) with 0 by lia. done.
Qed.

Lemma dns_name_encode_at pre labels tail target jumps rest stop :
  Forall (fun l => 1 <= zlen l <= 63) labels -> 0 <= target < 2 ^ 14 ->
  dns_name (pre ++ encode_name_at labels target ++ tail) target jumps rest stop ->
  dns_name (pre ++ encode_name_at labels target ++ tail) (zlen pre) (jumps + 1) (labels ++ rest)
    (zlen pre + zlen (encode_name_at labels target)).
Proof.
  intros Hl Ht Hn. unfold encode_name_at in *. rewrite zlen_app, zlen_to_be, <- app_assoc in *.
  pose proof (zlen_nonneg pre). pose proof (zlen_nonneg tail). pose proof (zlen_nonneg (encode_labels labels)).
  rewrite Z.add_assoc. apply dns_name_encode_labels; [done|].
  assert (E : u16_at (pre ++ encode_labels labels ++ to_be 2 (49152 + target) ++ tail)
                (zlen pre + zlen (encode_labels labels)) = 49152 + target).
  { rewrite u16_skip, u16_skip by lia. replace (_ - _ - _) with 0 by lia. apply u16_here. lia. }
  assert (E8 : u8_at (pre ++ encode_labels labels ++ to_be 2 (49152 + target) ++ tail)
                (zlen pre + zlen (encode_labels labels)) = (49152 + target) / 256).
  { rewrite u8_skip, u8_skip by lia. replace (_ - _ - _) with 0 by lia.
    change (to_be 2 (49152 + target)) with (to_be 1 ((49152 + target) / 256) ++ [zb (49152 + target)]).
    rewrite <- app_assoc. apply u8_here. split; [apply Z.div_pos; lia|apply Z.div_lt_upper_bound; lia]. }
  apply (name_pointer _ _ _ _ stop); [lia| | |].
  - rewrite E8. apply Z.div_le_lower_bound; lia.
  - rewrite !zlen_app, zlen_to_be. lia.
  - rewrite E. replace ((49152 + target) mod 2 ^ 14) with target; [done|].
    change (49152 + target) with (3 * 2 ^ 14 + target). rewrite Z.add_comm, Z.mod_add by lia.
    by rewrite Z.mod_small.
Qed.

(** From a name of the message to the decoder's answer. *)
Lemma decode_dns_name bs offset out out_len jumps labels stop :
  zlen bs < 2 ^ 64 -> 2 <= out_len < 2 ^ 63 -> zlen out = out_len ->
  dns_name bs offset jumps labels stop -> jumps <= NS_DNS_MAX_JUMPS -> name_fits out_len labels ->
  wp (ns_dns_decode_name bs (zlen bs) offset out out_len)
     (fun '(status, out, end_offset) =>
        status = NS_PARSE_OK /\ holds out (name_text labels) /\ end_offset = Some stop).
Proof.
  intros Hbs Hout Hz Hn Hj Hf. pose proof (view_ok_all bs Hbs) as Hv.
  pose proof (dns_name_stop _ _ _ _ _ Hn). eapply wp_mono.
  { apply ns_dns_decode_name_spec; [done|unfold is_size; lia|done|done]. }
  rewrite view_all. intros [[status out'] e] (_ & Hun & Hm). destruct status.
  - destruct Hm as (j & ls & s & Hn' & _ & _ & Hh & He).
    destruct (dns_name_det _ _ _ _ _ _ _ _ Hn Hn') as (-> & -> & ->). done.
  - by destruct (Hm _ _ _ Hn Hj).
  - by destruct (Hm _ _ _ Hn Hj).
  - done.
Qed.

(** ** Properties *)

(** C4. Name decoding is safe, terminates and is exact: on any captured bytes, from any
    offset, with any buffer of at least two bytes, the decoder returns without leaving either
    buffer; it answers OK exactly when a name reachable with at most 32 pointers is written
    there and fits, the buffer then being its terminated text and the end offset lying after
    it and within the message. *)
Theorem dns_name_exact (data : list byte) (length offset : Z) (out : cbuf) (out_len : Z) :
  view_ok data length -> is_size offset -> 2 <= out_len < 2 ^ 63 -> zlen out = out_len ->
  wp (ns_dns_decode_name data length offset out out_len) (fun '(status, out', end_offset) =>
    zlen out' = out_len /\
    (status = NS_PARSE_OK <->
       exists jumps labels stop, dns_name (view data length) offset jumps labels stop /\
         jumps <= 32 /\ name_fits out_len labels) /\
    forall jumps labels stop, dns_name (view data length) offset jumps labels stop ->
      status = NS_PARSE_OK ->
      cstring out' = Done (until_nul (name_text labels)) /\ end_offset = Some stop /\
      offset < stop <= length).
Proof.
  intros Hv Hoff Hout Hz. eapply wp_mono; [by apply ns_dns_decode_name_spec|].
  intros [[status out'] e] (Hz' & Hun & Hm). split; [done|]. split.
  - destruct status; [|split; [done|]..|done].
    + split; [|done]. intros _. destruct Hm as (j & ls & s & ? & ? & ? & _). by exists j, ls, s.
    + intros (j & ls & s & Hn & Hj & Hf). by destruct (Hm _ _ _ Hn Hj).
    + intros (j & ls & s & Hn & Hj & Hf). by destruct (Hm _ _ _ Hn Hj).
  - intros j ls s Hn ->. destruct Hm as (j' & ls' & s' & Hn' & _ & _ & Hh & He).
    destruct (dns_name_det _ _ _ _ _ _ _ _ Hn Hn') as (-> & -> & ->).
    split; [by apply cstring_holds|]. split; [done|].
    apply dns_name_stop in Hn as [? Hs]. rewrite zlen_view in Hs by done. lia.
Qed.

Lemma dns_name_exact_witness :
  view_ok (encode_name [txt "example"; txt "org"]) 13 /\
  wp (ns_dns_decode_name (encode_name [txt "example"; txt "org"]) 13 0 (uninit_buf 256) 256)
     (fun '(status, out', end_offset) => zlen out' = 256).
Proof.
  split; [done|]. eapply wp_mono.
  - apply (dns_name_exact (encode_name [txt "example"; txt "org"]) 13 0 (uninit_buf 256) 256); done.
  - by intros [[status out'] e] (? & _).
Defined.

(** C19. Names round trip: a name of labels of 1 to 63 bytes whose text fits the buffer is
    decoded back to its dotted text, both when it is written out in full and when its last
    labels are shared with an earlier name through a compression pointer, and the end offset
    is the first byte after it in either case. *)
Theorem dns_name_roundtrip (pre mid post : list byte) (labels shared : list (list byte)) (out : cbuf) :
  Forall (fun l => 1 <= zlen l <= 63) labels -> Forall (fun l => 1 <= zlen l <= 63) shared ->
  name_fits 256 (labels ++ shared) -> zlen pre < 2 ^ 14 -> zlen out = 256 ->
  zlen (pre ++ encode_name shared ++ mid ++ encode_name_at labels (zlen pre) ++ post) < 2 ^ 64 ->
  zlen (pre ++ encode_name (labels ++ shared) ++ post) < 2 ^ 64 ->
  let full := pre ++ encode_name (labels ++ shared) ++ post in
  let at_ := zlen pre + zlen (encode_name shared) + zlen mid in
  let compressed := pre ++ encode_name shared ++ mid ++ encode_name_at labels (zlen pre) ++ post in
  let decodes bs offset stop :=
    wp (ns_dns_decode_name bs (zlen bs) offset out 256) (fun '(status, out, end_offset) =>
      status = NS_PARSE_OK /\ holds out (name_text (labels ++ shared)) /\ end_offset = Some stop) in
  decodes full (zlen pre) (zlen pre + zlen (encode_name (labels ++ shared))) /\
  decodes compressed at_ (at_ + zlen (encode_name_at labels (zlen pre))).
Proof.
  intros Hl Hs Hf Hpre Hout Hz1 Hz2 full at_ compressed decodes. pose proof (zlen_nonneg pre). split.
  - apply (decode_dns_name _ _ _ _ 0); [done|lia|done| |unfold NS_DNS_MAX_JUMPS; lia|done].
    apply dns_name_encode. by apply Forall_app.
  - apply (decode_dns_name _ _ _ _ (0 + 1)); [done|lia|done| |unfold NS_DNS_MAX_JUMPS; lia|done].
    assert (E : compressed = (pre ++ encode_name shared ++ mid) ++ encode_name_at labels (zlen pre) ++ post)
      by (unfold compressed; by rewrite <- !app_assoc).
    assert (Hat : at_ = zlen (pre ++ encode_name shared ++ mid)) by (unfold at_; rewrite !zlen_app; lia).
    rewrite E, Hat. apply (dns_name_encode_at _ labels post (zlen pre) 0 shared
      (zlen pre + zlen (encode_name shared))); [done|lia|].
    rewrite <- !app_assoc. by apply dns_name_encode.
Qed.

Lemma dns_name_roundtrip_witness :
  wp (ns_dns_decode_name (encode_name [txt "org"] ++ encode_name_at [txt "www"; txt "example"] 0) 19 5
        (uninit_buf 256) 256)
     (fun '(status, out, end_offset) =>
        status = NS_PARSE_OK /\ holds out (txt "www.example.org") /\ end_offset = Some 19).
Proof.
  apply (dns_name_roundtrip [] [] [] [txt "www"; txt "example"] [txt "org"] (uninit_buf 256));
    try done; by repeat constructor.
Defined.

(** C20. Pointer loops are rejected: when every position of a set holds a compression pointer
    into the set (a cycle of any length, a pointer to itself), decoding from any of them
    returns, and does not answer OK. *)
Theorem dns_pointer_cycle (data : list byte) (length offset : Z) (out : cbuf) (out_len : Z)
    (cycle : list Z) :
  view_ok data length -> is_size offset -> 2 <= out_len < 2 ^ 63 -> zlen out = out_len ->
  offset ∈ cycle ->
  (forall p, p ∈ cycle -> 192 <= u8_at (view data length) p /\
                        u16_at (view data length) p mod 2 ^ 14 ∈ cycle) ->
  wp (ns_dns_decode_name data length offset out out_len)
     (fun '(status, _, _) => status = NS_PARSE_TRUNCATED \/ status = NS_PARSE_MALFORMED).
Proof.
  intros Hv Hoff Hout Hz Hin Hc. eapply wp_mono; [by apply ns_dns_decode_name_spec|].
  intros [[status out'] e] (_ & Hun & Hm). destruct status; [|by left|by right|done].
  destruct Hm as (j & ls & s & Hn & _). exfalso.
  revert Hin. clear -Hn Hc. induction Hn as [pos|pos len j ls s|pos j ls s]; intros Hin;
    destruct (Hc _ Hin); [lia|lia|by apply IHHn].
Qed.

Lemma dns_pointer_cycle_witness :
  wp (ns_dns_decode_name [xc0; x02; xc0; x00] 4 0 (uninit_buf 256) 256)
     (fun '(status, _, _) => status = NS_PARSE_TRUNCATED \/ status = NS_PARSE_MALFORMED).
Proof.
  apply (dns_pointer_cycle [xc0; x02; xc0; x00] 4 0 (uninit_buf 256) 256 [0; 2]); try done.
  - apply list_elem_of_In. by left.
  - intros p Hp. rewrite !list_elem_of_In in *. destruct Hp as [<- | [<- | []]].
    + split; [done|]. by right; left.
    + split; [done|]. by left.
Defined.

(** The bound on the buffer is needed: with a one-byte buffer the root name writes its
    terminator one past the end. *)
Example decode_name_one_byte_buffer :
  ns_dns_decode_name [x00] 1 0 (uninit_buf 1) 1 = Fault OutOfBounds.
Proof. done. Qed.
