(* ===== verification/Dns.v ===== *)
(** * DNS messages: [src/protocols/dns.c]

    Questions, resource records and their textual rendering, and [ns_parse_dns].  Names are
    decoded by [DnsName]. *)

From S2P Require Import Prelude CMem Util Ipv6Text Proto DnsName.

Definition NS_DNS_HEADER_LEN := 12.
Definition NS_DNS_MAX_QUESTIONS := 4.
Definition NS_DNS_MAX_ANSWERS := 12.
Definition NS_DNS_MAX_RDATA_TEXT := NS_DNS_MAX_NAME + 8.

Definition NS_DNS_TYPE_A := 1.
Definition NS_DNS_TYPE_NS := 2.
Definition NS_DNS_TYPE_CNAME := 5.
Definition NS_DNS_TYPE_PTR := 12.
Definition NS_DNS_TYPE_MX := 15.
Definition NS_DNS_TYPE_TXT := 16.
Definition NS_DNS_TYPE_AAAA := 28.

Record ns_dns_question_t := DnsQuestion {
  question_name : cbuf;
  question_type : Z;
  question_qclass : Z
}.

Record ns_dns_record_t := DnsRecord {
  record_name : cbuf;
  record_type : Z;
  record_rclass : Z;
  record_ttl : Z;
  record_rdlength : Z;
  record_rdata_text : cbuf
}.

Record ns_dns_info_t := DnsInfo {
  dns_transaction_id : Z;
  dns_flags : Z;
  dns_is_response : bool;
  dns_question_count : Z;
  dns_answer_count : Z;
  dns_authority_count : Z;
  dns_additional_count : Z;
  dns_decoded_question_count : Z;
  dns_questions : list ns_dns_question_t;
  dns_decoded_answer_count : Z;
  dns_answers : list ns_dns_record_t
}.

(** The objects after [memset(_, 0, sizeof)]. *)
Definition zero_question : ns_dns_question_t := DnsQuestion (zero_buf (NS_DNS_MAX_NAME + 1)) 0 0.
Definition zero_record : ns_dns_record_t :=
  DnsRecord (zero_buf (NS_DNS_MAX_NAME + 1)) 0 0 0 0 (zero_buf NS_DNS_MAX_RDATA_TEXT).
Definition zero_dns : ns_dns_info_t :=
  DnsInfo 0 0 false 0 0 0 0 0 (replicate 4 zero_question) 0 (replicate 12 zero_record).

(** ** Questions *)

(** [out] is [None] when the caller passes [NULL].  The value holds the status, [*offset] and
    the slot. *)
Definition ns_dns_parse_question (data : list byte) (length offset : Z) (out : option ns_dns_question_t)
    : M (ns_parse_status_t * Z * option ns_dns_question_t) :=
  let name_buf := match out with
                  | Some q => question_name q
                  | None => uninit_buf (NS_DNS_MAX_NAME + 1)
                  end in
  let name_buf_len := NS_DNS_MAX_NAME + 1 in
  '(status, name_buf, name_end) ← ns_dns_decode_name data length offset name_buf name_buf_len;
  let out := (fun q => DnsQuestion name_buf (question_type q) (question_qclass q)) <$> out in
  match status with
  | NS_PARSE_OK =>
      name_end ← use_init name_end;
      if negb (ns_bounds_check length name_end 4) then Done (NS_PARSE_TRUNCATED, offset, out)
      else
        type ← filled (ns_read_u16_be data length name_end);
        qclass ← filled (ns_read_u16_be data length (szadd name_end 2));
        Done (NS_PARSE_OK, szadd name_end 4,
              (fun q => DnsQuestion (question_name q) type qclass) <$> out)
  | _ => Done (status, offset, out)
  end.

(** ** Rendering record data *)

Definition ns_dns_format_a (data : list byte) (length rdata_offset rdlength : Z) (out : cbuf) (out_len : Z)
    : M (bool * cbuf) :=
  if negb (rdlength =? 4) || negb (ns_bounds_check length rdata_offset 4) then Done (false, out)
  else
    addr ← rd_bytes data rdata_offset 4;
    text ← ns_format_ipv4 (le addr) out_len;
    '(out, _) ← buf_snprintf out 0 out_len text;
    Done (true, out).

Definition ns_dns_format_aaaa (data : list byte) (length rdata_offset rdlength : Z) (out : cbuf) (out_len : Z)
    : M (bool * cbuf) :=
  if negb (rdlength =? 16) || negb (ns_bounds_check length rdata_offset 16) then Done (false, out)
  else
    addr ← ptr_add data rdata_offset;
    text ← ns_format_ipv6 addr out_len;
    '(out, _) ← buf_snprintf out 0 out_len text;
    Done (true, out).

Definition ns_dns_format_name_rdata (data : list byte) (length rdata_offset : Z) (out : cbuf) (out_len : Z)
    : M (bool * cbuf) :=
  '(status, out, _) ← ns_dns_decode_name data length rdata_offset out out_len;
  Done (match status with NS_PARSE_OK => true | _ => false end, out).

Definition ns_dns_format_mx (data : list byte) (length rdata_offset : Z) (out : cbuf) (out_len : Z)
    : M (bool * cbuf) :=
  if negb (ns_bounds_check length rdata_offset 2) then Done (false, out)
  else
    r ← ns_read_u16_be data length rdata_offset;
    match r with
    | None => Done (false, out)
    | Some preference =>
        '(status, name, _) ← ns_dns_decode_name data length (szadd rdata_offset 2)
                               (uninit_buf (NS_DNS_MAX_NAME + 1)) (NS_DNS_MAX_NAME + 1);
        match status with
        | NS_PARSE_OK =>
            name ← cstring name;
            '(out, _) ← buf_snprintf out 0 out_len (fmt_u preference ++ txt " " ++ name);
            Done (true, out)
        | _ => Done (false, out)
        end
    end.

(** The [while] loop over the character strings of a TXT record; each turn consumes at least
    one of the [rdlength] bytes. *)
Fixpoint format_txt_loop (fuel : nat) (data : list byte) (rdata_offset rdlength : Z) (out : cbuf)
    (out_len pos out_pos : Z) : M (cbuf * Z) :=
  match fuel with
  | O => Fault OutOfFuel
  | S fuel =>
      if (pos <? rdlength) && (szadd out_pos 1 <? out_len) then
        seg_len ← rd data (szadd rdata_offset pos);
        let pos := szadd pos 1 in
        if szadd pos seg_len >? rdlength then Done (out, out_pos)
        else
          let copy := if szadd out_pos seg_len >=? out_len
                      then szsub (szsub out_len out_pos) 1 else seg_len in
          seg ← rd_bytes data (rdata_offset + pos) copy;
          out ← buf_copy out out_pos seg;
          format_txt_loop fuel data rdata_offset rdlength out out_len (szadd pos seg_len)
            (szadd out_pos copy)
      else Done (out, out_pos)
  end.

Definition ns_dns_format_txt (data : list byte) (length rdata_offset rdlength : Z) (out : cbuf) (out_len : Z)
    : M (bool * cbuf) :=
  if negb (ns_bounds_check length rdata_offset rdlength) then Done (false, out)
  else
    out ← buf_set out 0 x00;
    '(out, out_pos) ← format_txt_loop (S (Z.to_nat rdlength)) data rdata_offset rdlength out out_len 0 0;
    out ← buf_set out out_pos x00;
    Done (true, out).

Definition ns_dns_format_rdata (data : list byte) (length rdata_offset rdlength type : Z) (out : cbuf)
    (out_len : Z) : M cbuf :=
  '(ok, out) ←
    (if type =? NS_DNS_TYPE_A then ns_dns_format_a data length rdata_offset rdlength out out_len
     else if type =? NS_DNS_TYPE_AAAA then
       ns_dns_format_aaaa data length rdata_offset rdlength out out_len
     else if (type =? NS_DNS_TYPE_CNAME) || (type =? NS_DNS_TYPE_NS) || (type =? NS_DNS_TYPE_PTR) then
       ns_dns_format_name_rdata data length rdata_offset out out_len
     else if type =? NS_DNS_TYPE_MX then ns_dns_format_mx data length rdata_offset out out_len
     else if type =? NS_DNS_TYPE_TXT then
       ns_dns_format_txt data length rdata_offset rdlength out out_len
     else Done (false, out));
  if ok : bool then Done out
  else '(out, _) ← buf_snprintf out 0 out_len (txt "<" ++ fmt_u rdlength ++ txt " bytes>"); Done out.

(** ** Records *)

Definition ns_dns_parse_record (data : list byte) (length offset : Z) (out : option ns_dns_record_t)
    : M (ns_parse_status_t * Z * option ns_dns_record_t) :=
  '(status, name, name_end) ← ns_dns_decode_name data length offset
                                (uninit_buf (NS_DNS_MAX_NAME + 1)) (NS_DNS_MAX_NAME + 1);
  match status with
  | NS_PARSE_OK =>
      name_end ← use_init name_end;
      if negb (ns_bounds_check length name_end 10) then Done (NS_PARSE_TRUNCATED, offset, out)
      else
        type ← filled (ns_read_u16_be data length name_end);
        rclass ← filled (ns_read_u16_be data length (szadd name_end 2));
        ttl ← filled (ns_read_u32_be data length (szadd name_end 4));
        rdlength ← filled (ns_read_u16_be data length (szadd name_end 8));
        let rdata_offset := szadd name_end 10 in
        if negb (ns_bounds_check length rdata_offset rdlength)
        then Done (NS_PARSE_TRUNCATED, offset, out)
        else
          out ← match out with
                | None => Done None
                | Some r =>
                    rdata_text ← ns_dns_format_rdata data length rdata_offset rdlength type
                                   (record_rdata_text r) NS_DNS_MAX_RDATA_TEXT;
                    Done (Some (DnsRecord name type rclass ttl rdlength rdata_text))
                end;
          Done (NS_PARSE_OK, szadd rdata_offset rdlength, out)
  | _ => Done (status, offset, out)
  end.

(** ** Messages *)

(** [&array[i]] as a value, and storing it back. *)
Definition slot_get {A} (array : list A) (i : Z) : M A :=
  match array !! Z.to_nat i with
  | Some a => Done a
  | None => Fault OutOfBounds
  end.

Definition with_question (out : ns_dns_info_t) (i : Z) (q : ns_dns_question_t) : ns_dns_info_t :=
  {| dns_transaction_id := dns_transaction_id out; dns_flags := dns_flags out;
     dns_is_response := dns_is_response out; dns_question_count := dns_question_count out;
     dns_answer_count := dns_answer_count out; dns_authority_count := dns_authority_count out;
     dns_additional_count := dns_additional_count out;
     dns_decoded_question_count := dns_decoded_question_count out;
     dns_questions := <[Z.to_nat i := q]> (dns_questions out);
     dns_decoded_answer_count := dns_decoded_answer_count out; dns_answers := dns_answers out |}.

Definition with_question_count (out : ns_dns_info_t) (n : Z) : ns_dns_info_t :=
  {| dns_transaction_id := dns_transaction_id out; dns_flags := dns_flags out;
     dns_is_response := dns_is_response out; dns_question_count := dns_question_count out;
     dns_answer_count := dns_answer_count out; dns_authority_count := dns_authority_count out;
     dns_additional_count := dns_additional_count out;
     dns_decoded_question_count := n; dns_questions := dns_questions out;
     dns_decoded_answer_count := dns_decoded_answer_count out; dns_answers := dns_answers out |}.

Definition with_answer (out : ns_dns_info_t) (i : Z) (r : ns_dns_record_t) : ns_dns_info_t :=
  {| dns_transaction_id := dns_transaction_id out; dns_flags := dns_flags out;
     dns_is_response := dns_is_response out; dns_question_count := dns_question_count out;
     dns_answer_count := dns_answer_count out; dns_authority_count := dns_authority_count out;
     dns_additional_count := dns_additional_count out;
     dns_decoded_question_count := dns_decoded_question_count out;
     dns_questions := dns_questions out;
     dns_decoded_answer_count := dns_decoded_answer_count out;
     dns_answers := <[Z.to_nat i := r]> (dns_answers out) |}.

Definition with_answer_count (out : ns_dns_info_t) (n : Z) : ns_dns_info_t :=
  {| dns_transaction_id := dns_transaction_id out; dns_flags := dns_flags out;
     dns_is_response := dns_is_response out; dns_question_count := dns_question_count out;
     dns_answer_count := dns_answer_count out; dns_authority_count := dns_authority_count out;
     dns_additional_count := dns_additional_count out;
     dns_decoded_question_count := dns_decoded_question_count out;
     dns_questions := dns_questions out;
     dns_decoded_answer_count := n; dns_answers := dns_answers out |}.

(** [for (uint16_t i = 0; i < qdcount; i++)] *)
Fixpoint questions_loop (fuel : nat) (data : list byte) (length qdcount i offset : Z) (out : ns_dns_info_t)
    : M (ns_parse_status_t * Z * ns_dns_info_t) :=
  match fuel with
  | O => Fault OutOfFuel
  | S fuel =>
      if i <? qdcount then
        if i <? NS_DNS_MAX_QUESTIONS then
          slot ← slot_get (dns_questions out) (dns_decoded_question_count out);
          '(status, offset, slot) ← ns_dns_parse_question data length offset (Some slot);
          let out := match slot with
                     | Some q => with_question out (dns_decoded_question_count out) q
                     | None => out
                     end in
          match status with
          | NS_PARSE_OK =>
              questions_loop fuel data length qdcount (u16c (i + 1)) offset
                (with_question_count out (szadd (dns_decoded_question_count out) 1))
          | _ => Done (status, offset, out)
          end
        else
          '(status, offset, _) ← ns_dns_parse_question data length offset None;
          match status with
          | NS_PARSE_OK => questions_loop fuel data length qdcount (u16c (i + 1)) offset out
          | _ => Done (status, offset, out)
          end
      else Done (NS_PARSE_OK, offset, out)
  end.

(** [for (uint16_t i = 0; i < ancount && i < NS_DNS_MAX_ANSWERS; i++)] *)
Fixpoint answers_loop (fuel : nat) (data : list byte) (length ancount i offset : Z) (out : ns_dns_info_t)
    : M (ns_parse_status_t * Z * ns_dns_info_t) :=
  match fuel with
  | O => Fault OutOfFuel
  | S fuel =>
      if (i <? ancount) && (i <? NS_DNS_MAX_ANSWERS) then
        slot ← slot_get (dns_answers out) (dns_decoded_answer_count out);
        '(status, offset, slot) ← ns_dns_parse_record data length offset (Some slot);
        let out := match slot with
                   | Some r => with_answer out (dns_decoded_answer_count out) r
                   | None => out
                   end in
        match status with
        | NS_PARSE_OK =>
            answers_loop fuel data length ancount (u16c (i + 1)) offset
              (with_answer_count out (szadd (dns_decoded_answer_count out) 1))
        | _ => Done (status, offset, out)
        end
      else Done (NS_PARSE_OK, offset, out)
  end.

Definition ns_parse_dns (data : list byte) (length : Z) (out : ns_dns_info_t)
    : M (ns_parse_status_t * ns_dns_info_t) :=
  if negb (ns_bounds_check length 0 NS_DNS_HEADER_LEN) then Done (NS_PARSE_TRUNCATED, out)
  else
    txn_id ← filled (ns_read_u16_be data length 0);
    flags ← filled (ns_read_u16_be data length 2);
    qdcount ← filled (ns_read_u16_be data length 4);
    ancount ← filled (ns_read_u16_be data length 6);
    nscount ← filled (ns_read_u16_be data length 8);
    arcount ← filled (ns_read_u16_be data length 10);
    let out := {| dns_transaction_id := txn_id;
                  dns_flags := flags;
                  dns_is_response := negb (Z.land flags 0x8000 =? 0);
                  dns_question_count := qdcount;
                  dns_answer_count := ancount;
                  dns_authority_count := nscount;
                  dns_additional_count := arcount;
                  dns_decoded_question_count := 0;
                  dns_questions := dns_questions zero_dns;
                  dns_decoded_answer_count := 0;
                  dns_answers := dns_answers zero_dns |} in
    '(status, offset, out) ← questions_loop (S (Z.to_nat qdcount)) data length qdcount 0
                               NS_DNS_HEADER_LEN out;
    match status with
    | NS_PARSE_OK =>
        '(status, offset, out) ← answers_loop (S (Z.to_nat ancount)) data length ancount 0 offset out;
        Done (status, out)
    | _ => Done (status, out)
    end.

(** The returned string: a literal, or the text left in [buf] by [snprintf]. *)
Definition ns_dns_type_name (type buf_len : Z) : list byte :=
  if type =? NS_DNS_TYPE_A then txt "A"
  else if type =? NS_DNS_TYPE_NS then txt "NS"
  else if type =? NS_DNS_TYPE_CNAME then txt "CNAME"
  else if type =? NS_DNS_TYPE_PTR then txt "PTR"
  else if type =? NS_DNS_TYPE_MX then txt "MX"
  else if type =? NS_DNS_TYPE_TXT then txt "TXT"
  else if type =? NS_DNS_TYPE_AAAA then txt "AAAA"
  else sn buf_len (txt "TYPE" ++ fmt_u type).

(** ** What record data is rendered as *)

(** The character strings of a TXT record, up to the first that overruns the data. *)
Fixpoint txt_strings (fuel : nat) (bs : list byte) : list (list byte) :=
  match fuel, bs with
  | S fuel, b :: bs =>
      if bv b <=? zlen bs
      then take (Z.to_nat (bv b)) bs :: txt_strings fuel (drop (Z.to_nat (bv b)) bs)
      else []
  | _, _ => []
  end.

Definition is_name_type (type : Z) : Prop :=
  type = NS_DNS_TYPE_CNAME \/ type = NS_DNS_TYPE_NS \/ type = NS_DNS_TYPE_PTR.

(** [decodable bs off n labels stop]: the decoder accepts the name at [off] into [n] bytes. *)
Definition decodable (bs : list byte) (off n : Z) (labels : list (list byte)) (stop : Z) : Prop :=
  exists jumps, dns_name bs off jumps labels stop /\ jumps <= NS_DNS_MAX_JUMPS /\ name_fits n labels.

(** The text shown for [rdlen] bytes of data at [off]. *)
Inductive rdata_shows (bs : list byte) (off rdlen type : Z) : list byte -> Prop :=
  | shows_a : type = NS_DNS_TYPE_A -> rdlen = 4 ->
      rdata_shows bs off rdlen type (ipv4_text (slice bs off 4))
  | shows_aaaa : type = NS_DNS_TYPE_AAAA -> rdlen = 16 ->
      rdata_shows bs off rdlen type (ipv6_text (slice bs off 16))
  | shows_name labels stop : is_name_type type -> decodable bs off 263 labels stop ->
      rdata_shows bs off rdlen type (name_text labels)
  | shows_mx labels stop : type = NS_DNS_TYPE_MX -> off + 2 <= zlen bs ->
      decodable bs (off + 2) 256 labels stop ->
      rdata_shows bs off rdlen type (fmt_u (u16_at bs off) ++ txt " " ++ until_nul (name_text labels))
  | shows_txt : type = NS_DNS_TYPE_TXT ->
      rdata_shows bs off rdlen type
        (take 262 (concat (txt_strings (S (Z.to_nat rdlen)) (slice bs off rdlen))))
  | shows_size :
      ~ (type = NS_DNS_TYPE_A /\ rdlen = 4) -> ~ (type = NS_DNS_TYPE_AAAA /\ rdlen = 16) ->
      (is_name_type type -> forall labels stop, ~ decodable bs off 263 labels stop) ->
      (type = NS_DNS_TYPE_MX -> forall labels stop, off + 2 <= zlen bs -> ~ decodable bs (off + 2) 256 labels stop) ->
      type <> NS_DNS_TYPE_TXT ->
      rdata_shows bs off rdlen type (txt "<" ++ fmt_u rdlen ++ txt " bytes>").

Lemma ns_format_ipv6_prefix bs rest n :
  length bs = 16%nat -> ns_format_ipv6 (bs ++ rest) n = ns_format_ipv6 bs n.
Proof.
  intros Hl. unfold ns_format_ipv6. replace (ipv6_groups 8 (bs ++ rest) 0) with (ipv6_groups 8 bs 0); [done|].
  do 16 (destruct bs as [|? bs]; [done|]). by destruct bs.
Qed.

(** Reading byte by byte what is left of a region. *)
Lemma slice_head data off n :
  0 <= off -> 0 < n -> off + n <= zlen data ->
  exists b, slice data off n = b :: slice data (off + 1) (n - 1) /\ rd data off = Done (bv b).
Proof.
  intros Hoff Hn Hz. destruct (data !! Z.to_nat off) as [b|] eqn:E.
  - exists b. split; [by apply slice_cons|]. unfold rd. rewrite E. by destruct (Z.leb_spec 0 off); [|lia].
  - apply lookup_ge_None in E. unfold zlen in *. lia.
Qed.

Lemma slice_take_drop (data : list byte) x n k :
  0 <= x -> 0 <= k <= n -> x + n <= zlen data ->
  take (Z.to_nat k) (slice data x n) = slice data x k /\
  drop (Z.to_nat k) (slice data x n) = slice data (x + k) (n - k).
Proof.
  intros Hx Hk Hz. replace n with (k + (n - k)) at 1 2 by lia. rewrite slice_split by lia.
  assert (length (slice data x k) = Z.to_nat k) as E.
  { pose proof (zlen_slice data x k ltac:(lia) ltac:(lia) ltac:(lia)). unfold zlen in *. lia. }
  by rewrite take_app_length', drop_app_length'.
Qed.

(** Appending a segment cut to the room left is appending all of it, up to the room left. *)
Lemma take_cut {A} (room : nat) (s seg rest : list A) (c : nat) :
  (length s <= room)%nat -> c = Nat.min (length seg) (room - length s) ->
  take room ((s ++ take c seg) ++ rest) = take room (s ++ seg ++ rest).
Proof.
  intros Hs ->. destruct (decide (length seg <= room - length s)%nat) as [H|H].
  - rewrite (take_ge seg) by lia. by rewrite <- app_assoc.
  - rewrite Nat.min_r by lia. rewrite take_app_le by (rewrite length_app, length_take; lia).
    rewrite app_assoc, (take_app_le (s ++ seg)) by (rewrite length_app; lia).
    rewrite !take_app, take_take. f_equal. f_equal. lia.
Qed.

Section txt_loop.
Context (data : list byte) (off rdlen : Z) (Hoff : 0 <= off).
Context (Hin : off + rdlen <= zlen data) (Hmax : off + rdlen < 2 ^ 64) (Hrd16 : rdlen < 65536).
Context (out_len : Z) (Hout : 2 <= out_len < 2 ^ 63).

Lemma format_txt_loop_spec fuel pos s rest :
  0 <= pos <= rdlen -> rdlen - pos < Z.of_nat fuel ->
  zlen s < out_len -> zlen s + zlen rest = out_len ->
  let all := take (Z.to_nat (out_len - 1)) (s ++ concat (txt_strings fuel (slice data (off + pos) (rdlen - pos)))) in
  exists rest', format_txt_loop fuel data off rdlen ((Some <$> s) ++ rest) out_len pos (zlen s)
    = Done ((Some <$> all) ++ rest', zlen all) /\ zlen all + zlen rest' = out_len /\ zlen all < out_len.
Proof.
  revert pos s rest. induction fuel as [|fuel IH]; intros pos s rest Hpos Hfuel Hs Hz; [lia|].
  pose proof (zlen_nonneg s) as Hs0. cbn [format_txt_loop]. cbn zeta. rewrite (szadd_small (zlen s)) by lia.
  assert (Hstop : forall l, (l = [] \/ zlen s + 1 = out_len) ->
    let all := take (Z.to_nat (out_len - 1)) (s ++ l) in
    Done ((Some <$> s) ++ rest, zlen s) = Done ((Some <$> all) ++ rest, zlen all) /\
    zlen all + zlen rest = out_len /\ zlen all < out_len).
  { intros l Hl all. assert (all = s) as ->; [|done]. unfold all. destruct Hl as [->|Hl].
    - rewrite app_nil_r. apply take_ge. unfold zlen in *. lia.
    - rewrite take_app_le by (unfold zlen in *; lia). apply take_ge. unfold zlen in *. lia. }
  destruct (Z.ltb_spec pos rdlen) as [Hlt|Hge]; cbn [andb]; cycle 1.
  { exists rest. apply Hstop. left. replace (rdlen - pos) with 0 by lia. done. }
  destruct (Z.ltb_spec (zlen s + 1) out_len) as [Hroom|Hfull]; cycle 1.
  { exists rest. apply Hstop. right. lia. }
  destruct (slice_head data (off + pos) (rdlen - pos)) as (b & Hb & Hr); [lia..|].
  rewrite (szadd_small off), Hr, (szadd_small pos 1) by lia. mred. cbn [txt_strings].
  pose proof (bv_range b) as Hbv. rewrite (szadd_small (pos + 1)), Z.gtb_ltb by lia.
  rewrite Hb, zlen_slice by lia.
  destruct (Z.leb_spec (bv b) (rdlen - pos - 1)) as [Hfit|Hover]; cycle 1.
  { destruct (Z.ltb_spec rdlen (pos + 1 + bv b)); [|lia]. exists rest. apply Hstop. by left. }
  destruct (Z.ltb_spec rdlen (pos + 1 + bv b)); [lia|].
  destruct (slice_take_drop data (off + pos + 1) (rdlen - pos - 1) (bv b)) as [-> ->]; [lia..|].
  set (seg := slice data (off + pos + 1) (bv b)).
  assert (Hseg : zlen seg = bv b) by (apply zlen_slice; lia).
  set (c := if szadd (zlen s) (bv b) >=? out_len then szsub (szsub out_len (zlen s)) 1 else bv b).
  assert (Hc : c = Z.min (bv b) (out_len - 1 - zlen s)).
  { unfold c. rewrite szadd_small, Z.geb_leb by lia. rewrite !szsub_small by (rewrite ?szsub_small; lia).
    destruct (Z.leb_spec out_len (zlen s + bv b)); lia. }
  clearbody c. rewrite rd_bytes_done by lia. mred.
  assert (Hcs : slice data (off + (pos + 1)) c = take (Z.to_nat c) seg).
  { symmetry. rewrite Z.add_assoc. apply slice_take_drop; lia. }
  rewrite Hcs. assert (Hzc : zlen (take (Z.to_nat c) seg) = c) by (rewrite zlen_take; lia).
  rewrite buf_copy_append by lia. mred. rewrite (szadd_small (zlen s)) by lia.
  replace (zlen s + c) with (zlen (s ++ take (Z.to_nat c) seg)) by (rewrite zlen_app; lia).
  destruct (IH (pos + 1 + bv b) (s ++ take (Z.to_nat c) seg)
    (drop (length (take (Z.to_nat c) seg)) rest)) as (rest' & E & Hz1 & Hz2);
    [lia|lia|rewrite zlen_app; lia|rewrite zlen_app, zlen_drop; unfold zlen in *; lia|].
  exists rest'. rewrite E. clear E. cbn [concat].
  replace (off + (pos + 1 + bv b)) with (off + pos + 1 + bv b) in * by lia.
  replace (rdlen - (pos + 1 + bv b)) with (rdlen - pos - 1 - bv b) in * by lia.
  rewrite take_cut in * by (unfold zlen in *; lia). done.
Qed.
End txt_loop.

(** ** The renderers *)

Section rdata.
Context (data : list byte) (length : Z) (Hview : view_ok data length).
Context (off rdlen : Z) (Hoff : 0 <= off) (Hrd : 0 <= rdlen < 65536) (Hin : off + rdlen <= length).
Context (out : cbuf) (Hout : zlen out = NS_DNS_MAX_RDATA_TEXT).
#[local] Notation bs := (view data length).

(** A renderer either shows a text, or reports failure when [absent] holds. *)
Definition renders (shown : list byte -> Prop) (absent : Prop) (r : bool * cbuf) : Prop :=
  let '(ok, out') := r in
  zlen out' = NS_DNS_MAX_RDATA_TEXT /\
  if ok : bool then exists text, shown text /\ holds out' text else absent.

Lemma snprintf_holds (b : cbuf) text :
  zlen b = NS_DNS_MAX_RDATA_TEXT -> zlen text < NS_DNS_MAX_RDATA_TEXT ->
  exists b', buf_snprintf b 0 NS_DNS_MAX_RDATA_TEXT text = Done (b', zlen text)
    /\ holds b' text /\ zlen b' = NS_DNS_MAX_RDATA_TEXT.
Proof.
  intros Hb Ht. destruct (buf_snprintf_start b NS_DNS_MAX_RDATA_TEXT text) as (b' & E & Hh & Hz).
  - unfold NS_DNS_MAX_RDATA_TEXT, NS_DNS_MAX_NAME in *. lia.
  - rewrite sn_fits in Hh by done. exists b'. by rewrite Hz.
Qed.

Lemma ns_dns_format_a_spec :
  wp (ns_dns_format_a data length off rdlen out NS_DNS_MAX_RDATA_TEXT)
     (renders (fun t => rdlen = 4 /\ t = ipv4_text (slice bs off 4)) (rdlen <> 4)).
Proof.
  unfold ns_dns_format_a. destruct (Z.eqb_spec rdlen 4) as [->|]; cbn [negb orb]; [|done].
  rewrite (bounds_view _ _ Hview) by (destruct Hview; lia).
  destruct (Z.leb_spec (off + 4) length); [|lia]. cbn [negb].
  rewrite (rd_bytes_view _ _ Hview) by lia. mred. assert (Hl : List.length (slice bs off 4) = 4%nat).
  { pose proof (zlen_slice bs off 4). rewrite (zlen_view _ _ Hview) in *. unfold zlen in *. lia. }
  rewrite ns_format_ipv4_eq by done. mred. pose proof (zlen_ipv4_text _ Hl) as Ht.
  rewrite sn_fits by (unfold NS_DNS_MAX_RDATA_TEXT, NS_DNS_MAX_NAME; lia).
  destruct (snprintf_holds out (ipv4_text (slice bs off 4))) as (b' & -> & Hh & Hz);
    [done|unfold NS_DNS_MAX_RDATA_TEXT, NS_DNS_MAX_NAME; lia|].
  mred. split; [done|]. by eexists.
Qed.

Lemma ns_dns_format_aaaa_spec :
  wp (ns_dns_format_aaaa data length off rdlen out NS_DNS_MAX_RDATA_TEXT)
     (renders (fun t => rdlen = 16 /\ t = ipv6_text (slice bs off 16)) (rdlen <> 16)).
Proof.
  unfold ns_dns_format_aaaa. destruct (Z.eqb_spec rdlen 16) as [->|]; cbn [negb orb]; [|done].
  rewrite (bounds_view _ _ Hview) by (destruct Hview; lia).
  destruct (Z.leb_spec (off + 16) length); [|lia]. cbn [negb].
  rewrite ptr_add_done by (destruct Hview; lia). mred.
  assert (Hl : List.length (slice bs off 16) = 16%nat).
  { pose proof (zlen_slice bs off 16). rewrite (zlen_view _ _ Hview) in *. unfold zlen in *. lia. }
  rewrite <- (take_drop 16 (drop (Z.to_nat off) data)).
  change (take 16 (drop (Z.to_nat off) data)) with (slice data off 16).
  rewrite <- (slice_view data length) by lia. rewrite ns_format_ipv6_prefix by done.
  destruct (ipv6_text_facts _ Hl) as (_ & Ht & ->). mred.
  rewrite sn_fits by (unfold NS_DNS_MAX_RDATA_TEXT, NS_DNS_MAX_NAME; lia).
  destruct (snprintf_holds out (ipv6_text (slice bs off 16))) as (b' & -> & Hh & Hz);
    [done|unfold NS_DNS_MAX_RDATA_TEXT, NS_DNS_MAX_NAME; lia|].
  mred. split; [done|]. by eexists.
Qed.

(** The decoder, seen through [decodable]. *)
Lemma decode_decodable offset buf n :
  is_size offset -> 2 <= n < 2 ^ 63 -> zlen buf = n ->
  wp (ns_dns_decode_name data length offset buf n) (fun '(status, buf', e) =>
    zlen buf' = n /\ status <> NS_PARSE_UNSUPPORTED /\
    match status with
    | NS_PARSE_OK => exists labels stop, decodable bs offset n labels stop /\ offset < stop <= length /\
                       holds buf' (name_text labels) /\ e = Some stop
    | _ => forall labels stop, ~ decodable bs offset n labels stop
    end).
Proof.
  intros. eapply wp_mono; [by apply ns_dns_decode_name_spec|].
  intros [[status buf'] e] (Hz & Hun & Hm). split; [done|]. split; [done|]. destruct status.
  - destruct Hm as (j & labels & stop & Hn & Hj & Hf & Hh & He). exists labels, stop.
    split; [by exists j|]. apply dns_name_stop in Hn as [Hn1 Hn2].
    rewrite (zlen_view _ _ Hview) in Hn2. repeat split; done || lia.
  - intros labels stop (j & Hn & Hj & Hf). by eapply Hm.
  - intros labels stop (j & Hn & Hj & Hf). by eapply Hm.
  - done.
Qed.

Lemma ns_dns_format_name_rdata_spec :
  wp (ns_dns_format_name_rdata data length off out NS_DNS_MAX_RDATA_TEXT)
     (renders (fun t => exists labels stop, t = name_text labels /\ decodable bs off 263 labels stop)
              (forall labels stop, ~ decodable bs off 263 labels stop)).
Proof.
  unfold ns_dns_format_name_rdata. apply wp_bind. eapply wp_mono.
  { apply decode_decodable; [destruct Hview; unfold is_size; lia|done|done]. }
  intros [[status buf'] e] (Hz & Hun & Hm). cbn beta iota. split; [done|]. destruct status; try done.
  destruct Hm as (labels & stop & Hd & _ & Hh & _). exists (name_text labels). split; [|done].
  by exists labels, stop.
Qed.

Lemma ns_dns_format_mx_spec :
  wp (ns_dns_format_mx data length off out NS_DNS_MAX_RDATA_TEXT)
     (renders (fun t => exists labels stop,
                 t = fmt_u (u16_at bs off) ++ txt " " ++ until_nul (name_text labels) /\
                 off + 2 <= length /\ decodable bs (off + 2) 256 labels stop)
              (forall labels stop, off + 2 <= length -> ~ decodable bs (off + 2) 256 labels stop)).
Proof.
  unfold ns_dns_format_mx. destruct Hview as [Hv1 Hv2]. rewrite (bounds_view _ _ Hview) by lia.
  destruct (Z.leb_spec (off + 2) length); cbn [negb]; [|split; [done|lia]].
  rewrite ns_read_u16_be_spec by (done || unfold is_size; lia). mred.
  destruct (Z.leb_spec (off + 2) length); [|lia]. rewrite szadd_small by lia.
  apply wp_bind. eapply wp_mono; [apply decode_decodable; [unfold is_size; lia|done|done]|].
  intros [[status buf'] e] (Hz & Hun & Hm). cbn beta iota. destruct status; [|split; [done|auto]..|done].
  destruct Hm as (labels & stop & Hd & _ & Hh & _). rewrite (cstring_holds _ _ Hh). mred.
  pose proof (u16_at_range bs off). pose proof (digits_zlen 10 (u16_at bs off) 5) as Hdig.
  assert (Hun2 : zlen (until_nul (name_text labels)) <= 255).
  { apply holds_zlen in Hh. pose proof (zlen_until_nul (name_text labels)). rewrite Hz in Hh.
    change (NS_DNS_MAX_NAME + 1) with 256 in *. lia. }
  destruct (snprintf_holds out (fmt_u (u16_at bs off) ++ txt " " ++ until_nul (name_text labels)))
    as (b' & -> & Hh' & Hz'); [done| |].
  { rewrite !zlen_app. change (zlen (txt " ")) with 1. unfold fmt_u.
    change NS_DNS_MAX_RDATA_TEXT with 263. lia. }
  mred. split; [done|]. eexists. split; [|done]. by exists labels, stop.
Qed.

Lemma ns_dns_format_txt_spec :
  wp (ns_dns_format_txt data length off rdlen out NS_DNS_MAX_RDATA_TEXT)
     (renders (fun t => t = take 262 (concat (txt_strings (S (Z.to_nat rdlen)) (slice bs off rdlen)))) False).
Proof.
  unfold ns_dns_format_txt. destruct Hview as [Hv1 Hv2]. rewrite (bounds_view _ _ Hview) by lia.
  destruct (Z.leb_spec (off + rdlen) length); [|lia]. cbn [negb].
  rewrite (slice_view data length) by lia. change NS_DNS_MAX_RDATA_TEXT with 263 in *.
  pose proof (buf_set_append [] out x00 ltac:(lia)) as E. cbn [app fmap list_fmap] in E.
  change (zlen (@nil byte)) with 0 in E. rewrite E. mred. clear E.
  destruct (format_txt_loop_spec data off rdlen Hoff ltac:(lia) ltac:(lia) ltac:(lia) 263 ltac:(lia)
    (S (Z.to_nat rdlen)) 0 [] (Some x00 :: drop 1 out)) as (rest' & E & Hz & Hlt);
    [lia|lia|done|rewrite zlen_cons, zlen_drop; change (zlen (@nil byte)) with 0; lia|].
  change (zlen (@nil byte)) with 0 in E. cbn [app fmap list_fmap] in *. rewrite Z.add_0_r, Z.sub_0_r in *.
  rewrite E. mred. clear E. change (Z.to_nat (263 - 1)) with 262%nat in *.
  set (all := take 262 _) in *. rewrite buf_set_append by lia. mred. split.
  - rewrite zlen_app, zlen_fmap, zlen_app, zlen_drop. change (zlen [x00]) with 1.
    change NS_DNS_MAX_RDATA_TEXT with 263. lia.
  - exists all. split; [done|]. eexists. rewrite fmap_app, <- app_assoc. done.
Qed.
End rdata.

(** A rendered text, or the size of the data, ends up in the buffer. *)
Lemma render_or_size bs off rdlen type m shown absent :
  0 <= rdlen < 65536 -> wp m (renders shown absent) ->
  (forall text, shown text -> rdata_shows bs off rdlen type text) ->
  (absent -> rdata_shows bs off rdlen type (txt "<" ++ fmt_u rdlen ++ txt " bytes>")) ->
  wp ('(ok, out) ← m;
      if ok : bool then Done out
      else '(out, _) ← buf_snprintf out 0 NS_DNS_MAX_RDATA_TEXT (txt "<" ++ fmt_u rdlen ++ txt " bytes>");
           Done out)
     (fun out => zlen out = NS_DNS_MAX_RDATA_TEXT /\
        exists text, rdata_shows bs off rdlen type text /\ holds out text).
Proof.
  intros Hrd Hm Hs Ha. apply wp_bind. eapply wp_mono; [done|]. intros [[] out] [Hz H]; cbn beta iota.
  - destruct H as (text & Ht & Hh). split; [done|]. exists text. auto.
  - destruct (snprintf_holds out (txt "<" ++ fmt_u rdlen ++ txt " bytes>")) as (b' & -> & Hh & Hz');
      [done| |mred; cbn [wp]; by eauto 10].
    pose proof (digits_zlen 10 rdlen 5). rewrite !zlen_app. unfold fmt_u.
    change NS_DNS_MAX_RDATA_TEXT with 263. change (zlen (txt "<")) with 1. change (zlen (txt " bytes>")) with 7. lia.
Qed.

(** The cases in which a renderer does not apply. *)
#[local] Ltac no_render :=
  first [tauto | by intros [? ?] | by intros [|[|]] | by intros ? | done].

Lemma ns_dns_format_rdata_spec data length off rdlen type out :
  view_ok data length -> 0 <= off -> 0 <= rdlen < 65536 -> off + rdlen <= length ->
  zlen out = NS_DNS_MAX_RDATA_TEXT ->
  wp (ns_dns_format_rdata data length off rdlen type out NS_DNS_MAX_RDATA_TEXT)
     (fun out => zlen out = NS_DNS_MAX_RDATA_TEXT /\
        exists text, rdata_shows (view data length) off rdlen type text /\ holds out text).
Proof.
  intros Hv Hoff Hrd Hin Hz. unfold ns_dns_format_rdata.
  assert (Hlen : zlen (view data length) = length) by (by apply zlen_view).
  destruct (Z.eqb_spec type NS_DNS_TYPE_A) as [->|].
  { eapply render_or_size; [done|by apply ns_dns_format_a_spec| |].
    - intros text [-> ->]. by apply shows_a.
    - intros Hne. apply shows_size; no_render. }
  destruct (Z.eqb_spec type NS_DNS_TYPE_AAAA) as [->|].
  { eapply render_or_size; [done|by apply ns_dns_format_aaaa_spec| |].
    - intros text [-> ->]. by apply shows_aaaa.
    - intros Hne. apply shows_size; no_render. }
  destruct ((type =? NS_DNS_TYPE_CNAME) || (type =? NS_DNS_TYPE_NS) || (type =? NS_DNS_TYPE_PTR)) eqn:E.
  { rewrite !orb_true_iff, !Z.eqb_eq in E. assert (Hn : is_name_type type) by (unfold is_name_type; tauto).
    eapply render_or_size; [done|by eapply ns_dns_format_name_rdata_spec| |].
    - intros text (labels & stop & -> & Hd). by eapply shows_name.
    - intros Hne. destruct Hn as [-> | [-> | ->]]; apply shows_size; no_render. }
  rewrite !orb_false_iff, !Z.eqb_neq in E. assert (Hn : ~ is_name_type type) by (unfold is_name_type; tauto).
  destruct (Z.eqb_spec type NS_DNS_TYPE_MX) as [->|].
  { eapply render_or_size; [done|by eapply ns_dns_format_mx_spec| |].
    - intros text (labels & stop & -> & H2 & Hd). eapply shows_mx; [done|lia|done].
    - intros Hne. apply shows_size; [no_render..| |no_render].
      intros _ labels stop. rewrite Hlen. apply Hne. }
  destruct (Z.eqb_spec type NS_DNS_TYPE_TXT) as [->|].
  { eapply render_or_size; [done|by apply ns_dns_format_txt_spec| |done].
    intros text ->. by apply shows_txt. }
  eapply (render_or_size _ _ _ _ _ (fun _ => False) True); [done|done|done|].
  intros _. apply shows_size; tauto.
Qed.

(** ** Questions and records of a message *)

Definition question := (list (list byte) * Z * Z)%type.
Definition record := (list (list byte) * Z * Z * Z * Z)%type.

(** The question (or record) at [off] and the offset after it. *)
Definition question_at (bs : list byte) (off : Z) (q : question) (stop : Z) : Prop :=
  let '(labels, type, qclass) := q in
  exists e, decodable bs off 256 labels e /\ e + 4 <= zlen bs /\ type = u16_at bs e /\
    qclass = u16_at bs (e + 2) /\ stop = e + 4.

Definition record_at (bs : list byte) (off : Z) (r : record) (stop : Z) : Prop :=
  let '(labels, type, rclass, ttl, rdlength) := r in
  exists e, decodable bs off 256 labels e /\ e + 10 + rdlength <= zlen bs /\ e + 10 <= zlen bs /\
    type = u16_at bs e /\ rclass = u16_at bs (e + 2) /\ ttl = u32_at bs (e + 4) /\
    rdlength = u16_at bs (e + 8) /\ stop = e + 10 + rdlength.

(** What a filled slot shows. *)
Definition question_shows (q : question) (slot : ns_dns_question_t) : Prop :=
  let '(labels, type, qclass) := q in
  zlen (question_name slot) = 256 /\ holds (question_name slot) (name_text labels) /\
  question_type slot = type /\ question_qclass slot = qclass.

Definition record_shows (bs : list byte) (rs : record * Z) (slot : ns_dns_record_t) : Prop :=
  let '((labels, type, rclass, ttl, rdlength), stop) := rs in
  zlen (record_name slot) = 256 /\ holds (record_name slot) (name_text labels) /\
  record_type slot = type /\ record_rclass slot = rclass /\ record_ttl slot = ttl /\
  record_rdlength slot = rdlength /\ zlen (record_rdata_text slot) = NS_DNS_MAX_RDATA_TEXT /\
  exists text, rdata_shows bs (stop - rdlength) rdlength type text /\
    holds (record_rdata_text slot) text.

Lemma decodable_det bs off n l1 s1 l2 s2 :
  decodable bs off n l1 s1 -> decodable bs off n l2 s2 -> l1 = l2 /\ s1 = s2.
Proof. intros (? & H1 & _) (? & H2 & _). by destruct (dns_name_det _ _ _ _ _ _ _ _ H1 H2) as (_ & ? & ?). Qed.

Definition slot_ok (q : ns_dns_question_t) : Prop := zlen (question_name q) = 256.
Definition rslot_ok (r : ns_dns_record_t) : Prop :=
  zlen (record_name r) = 256 /\ zlen (record_rdata_text r) = NS_DNS_MAX_RDATA_TEXT.

Lemma ns_dns_parse_question_spec data length offset out :
  view_ok data length -> is_size offset -> (forall q, out = Some q -> slot_ok q) ->
  wp (ns_dns_parse_question data length offset out) (fun '(status, offset', out') =>
    status <> NS_PARSE_UNSUPPORTED /\ (forall q, out' = Some q -> slot_ok q) /\ (is_Some out -> is_Some out') /\
    match status with
    | NS_PARSE_OK => exists q, question_at (view data length) offset q offset' /\ is_size offset' /\
        (forall slot, out' = Some slot -> question_shows q slot)
    | _ => forall q stop, ~ question_at (view data length) offset q stop
    end).
Proof.
  intros Hv Hoff Hslot. unfold ns_dns_parse_question. apply wp_bind. eapply wp_mono.
  { apply decode_decodable; [done|done|done|]. destruct out as [q|]; [by apply Hslot|done]. }
  assert (Hlen : zlen (view data length) = length) by (by apply zlen_view). pose proof Hv as [Hv1 Hv2].
  pose proof Hoff as [Hoff1 _].
  intros [[status buf'] e] (Hz & Hun & Hm). cbn beta iota.
  assert (Hok : forall q, (fun q => DnsQuestion buf' (question_type q) (question_qclass q)) <$> out = Some q -> slot_ok q)
    by (intros q; destruct out; [intros [= <-]; exact Hz|done]).
  assert (Hsome : is_Some out -> is_Some ((fun q => DnsQuestion buf' (question_type q) (question_qclass q)) <$> out))
    by (intros [q ->]; by eexists).
  destruct status; [|repeat (split; [done|]); intros [[? ?] ?] ? (? & ? & _); by eapply Hm..|done].
  destruct Hm as (labels & stop & Hd & Hs & Hh & ->). cbn [use_init]. mred.
  rewrite (bounds_view _ _ Hv) by lia. destruct (Z.leb_spec (stop + 4) length); cbn [negb]; cycle 1.
  { repeat (split; [done|]). intros [[? ?] ?] ? (? & Hd2 & ? & _).
    destruct (decodable_det _ _ _ _ _ _ _ Hd Hd2) as [-> ->]. lia. }
  rewrite !szadd_small by lia. run_reads Hv. split; [done|]. split.
  { intros q. destruct out; [|done]. intros [= <-]. exact Hz. }
  split; [intros [q ->]; by eexists|].
  exists (labels, u16_at (view data length) stop, u16_at (view data length) (stop + 2)).
  split; [by exists stop; rewrite Hlen|]. split; [unfold is_size; lia|].
  intros slot. destruct out; [|done]. by intros [= <-].
Qed.

Lemma ns_dns_parse_record_spec data length offset slot :
  view_ok data length -> is_size offset -> rslot_ok slot ->
  wp (ns_dns_parse_record data length offset (Some slot)) (fun '(status, offset', out') =>
    status <> NS_PARSE_UNSUPPORTED /\
    match status with
    | NS_PARSE_OK => exists r slot', out' = Some slot' /\ rslot_ok slot' /\ is_size offset' /\
        record_at (view data length) offset r offset' /\ record_shows (view data length) (r, offset') slot'
    | _ => out' = Some slot /\ forall r stop, ~ record_at (view data length) offset r stop
    end).
Proof.
  intros Hv Hoff [Hslot1 Hslot2]. unfold ns_dns_parse_record. apply wp_bind. eapply wp_mono.
  { apply decode_decodable; done. }
  assert (Hlen : zlen (view data length) = length) by (by apply zlen_view). pose proof Hv as [Hv1 Hv2].
  pose proof Hoff as [Hoff1 _]. intros [[status buf'] e] (Hz & Hun & Hm). cbn beta iota.
  destruct status; [|split; [done|]; split; [done|]; intros [[[[? ?] ?] ?] ?] ? (? & ? & _); by eapply Hm..|done].
  destruct Hm as (labels & stop & Hd & Hs & Hh & ->). cbn [use_init]. mred.
  rewrite (bounds_view _ _ Hv) by lia. destruct (Z.leb_spec (stop + 10) length); cbn [negb]; cycle 1.
  { split; [done|]. split; [done|]. intros [[[[? ?] ?] ?] ?] ? (? & Hd2 & ? & ? & _).
    destruct (decodable_det _ _ _ _ _ _ _ Hd Hd2) as [-> ->]. lia. }
  rewrite !(szadd_small stop) by lia. run_reads Hv. pose proof (u16_at_range (view data length) (stop + 8)) as Hr.
  rewrite (bounds_view _ _ Hv) by lia.
  destruct (Z.leb_spec (stop + 10 + u16_at (view data length) (stop + 8)) length); cbn [negb]; cycle 1.
  { split; [done|]. split; [done|]. intros [[[[? ?] ?] ?] ?] ? (? & Hd2 & ? & ? & _ & _ & _ & -> & _).
    destruct (decodable_det _ _ _ _ _ _ _ Hd Hd2) as [-> ->]. lia. }
  apply wp_bind, wp_bind. eapply wp_mono; [apply ns_dns_format_rdata_spec; (done || lia)|].
  intros text_buf (Hz2 & text & Ht & Hh2). cbn beta. cbn [wp]. rewrite szadd_small by lia. split; [done|].
  exists (labels, u16_at (view data length) stop, u16_at (view data length) (stop + 2),
          u32_at (view data length) (stop + 4), u16_at (view data length) (stop + 8)).
  eexists. split; [done|]. split; [done|]. split; [unfold is_size; lia|]. split.
  - exists stop. rewrite Hlen. repeat split; done || lia.
  - repeat (split; [done|]). exists text. split; [|done].
    by replace (stop + 10 + u16_at (view data length) (stop + 8) - u16_at (view data length) (stop + 8))
      with (stop + 10) by lia.
Qed.

(** ** Arrays filled from the front *)

Section slots.
Context {A S : Type} (shows : A -> S -> Prop) (ok : S -> Prop) (cap : nat).

(** [n] slots are in use; they show the first items of [items]. *)
Definition filled_slots (n : Z) (slots : list S) (items : list A) : Prop :=
  n = Z.of_nat (length items `min` cap) /\ length slots = cap /\ Forall ok slots /\
  Forall2 shows (take cap items) (take (Z.to_nat n) slots).

Lemma filled_slots_get n slots items :
  filled_slots n slots items -> (length items < cap)%nat ->
  exists s, slot_get slots n = Done s /\ ok s.
Proof.
  intros (-> & Hl & Hok & _) Hlt. unfold slot_get. rewrite Nat2Z.id.
  destruct (slots !! (length items `min` cap)%nat) as [s|] eqn:E.
  - exists s. split; [done|]. by eapply Forall_lookup_1.
  - apply lookup_ge_None in E. lia.
Qed.

Lemma filled_slots_touch n slots items s :
  filled_slots n slots items -> ok s -> filled_slots n (<[Z.to_nat n := s]> slots) items.
Proof.
  intros (Hn & Hl & Hok & Hs) H. split; [done|]. rewrite length_insert. split; [done|].
  split; [by apply Forall_insert|]. by rewrite take_insert_ge by lia.
Qed.

Lemma filled_slots_push n slots items a s :
  filled_slots n slots items -> (length items < cap)%nat -> ok s -> shows a s ->
  filled_slots (n + 1) (<[Z.to_nat n := s]> slots) (items ++ [a]).
Proof.
  intros (-> & Hl & Hok & Hs) Hlt H Ha. rewrite Nat2Z.id, Nat.min_l in * by lia.
  split; [rewrite length_app; cbn; lia|]. rewrite length_insert. split; [done|].
  split; [by apply Forall_insert|]. rewrite take_ge in * by (rewrite ?length_app; cbn; lia).
  replace (Z.to_nat (Z.of_nat (length items) + 1)) with (Datatypes.S (length items)) by lia.
  rewrite (take_S_r _ _ s) by (rewrite list_lookup_insert_eq by lia; done).
  rewrite take_insert_ge by lia. apply Forall2_app; [done|]. by constructor.
Qed.

Lemma filled_slots_skip n slots items a :
  filled_slots n slots items -> (cap <= length items)%nat -> filled_slots n slots (items ++ [a]).
Proof.
  intros (-> & Hl & Hok & Hs) Hge. split; [rewrite length_app; cbn; lia|]. split; [done|].
  split; [done|]. by rewrite take_app_le.
Qed.
End slots.

(** Consecutive items from [off] to [stop], each with the offset after it. *)
Inductive items_at {A} (P : Z -> A -> Z -> Prop) : Z -> list (A * Z) -> Z -> Prop :=
  | items_nil off : items_at P off [] off
  | items_cons off a next rest stop :
      P off a next -> items_at P next rest stop -> items_at P off ((a, next) :: rest) stop.

Lemma question_at_det bs off q1 s1 q2 s2 :
  question_at bs off q1 s1 -> question_at bs off q2 s2 -> q1 = q2 /\ s1 = s2.
Proof.
  destruct q1 as [[? ?] ?], q2 as [[? ?] ?].
  intros (? & D1 & _ & -> & -> & ->) (? & D2 & _ & -> & -> & ->).
  by destruct (decodable_det _ _ _ _ _ _ _ D1 D2) as [-> ->].
Qed.

Lemma record_at_det bs off r1 s1 r2 s2 :
  record_at bs off r1 s1 -> record_at bs off r2 s2 -> r1 = r2 /\ s1 = s2.
Proof.
  destruct r1 as [[[[? ?] ?] ?] ?], r2 as [[[[? ?] ?] ?] ?].
  intros (? & D1 & _ & _ & -> & -> & -> & -> & ->) (? & D2 & _ & _ & -> & -> & -> & -> & ->).
  by destruct (decodable_det _ _ _ _ _ _ _ D1 D2) as [-> ->].
Qed.

Lemma items_at_det {A} (P : Z -> A -> Z -> Prop) off l1 s1 l2 s2 :
  (forall o a1 n1 a2 n2, P o a1 n1 -> P o a2 n2 -> a1 = a2 /\ n1 = n2) -> zlen l1 = zlen l2 ->
  items_at P off l1 s1 -> items_at P off l2 s2 -> l1 = l2 /\ s1 = s2.
Proof.
  intros Hdet Hl H. revert l2 s2 Hl. induction H as [off|off a next rest stop Hp Hr IH]; intros l2 s2 Hl H2.
  - destruct H2 as [|? ? ? rest]; [done|]. rewrite zlen_cons in Hl. change (zlen []) with 0 in Hl.
    pose proof (zlen_nonneg rest). lia.
  - inversion H2 as [|? a2 n2 rest2 ? Hp2 Hr2]; subst.
    + rewrite zlen_cons in Hl. change (zlen []) with 0 in Hl. pose proof (zlen_nonneg rest). lia.
    + destruct (Hdet _ _ _ _ _ Hp Hp2) as [-> ->]. rewrite !zlen_cons in Hl.
      destruct (IH rest2 s2) as [-> ->]; [lia|done|done].
Qed.

(** ** The two loops *)

Definition dns_header (out : ns_dns_info_t) :=
  (dns_transaction_id out, dns_flags out, dns_is_response out, dns_question_count out,
   dns_answer_count out, dns_authority_count out, dns_additional_count out).

Definition questions_ok (out : ns_dns_info_t) (items : list (question * Z)) : Prop :=
  filled_slots (fun qs => question_shows qs.1) slot_ok 4
    (dns_decoded_question_count out) (dns_questions out) items.

Definition answers_ok (bs : list byte) (out : ns_dns_info_t) (items : list (record * Z)) : Prop :=
  filled_slots (record_shows bs) rslot_ok 12 (dns_decoded_answer_count out) (dns_answers out) items.

Section loops.
Context (data : list byte) (length : Z) (Hview : view_ok data length).
#[local] Notation bs := (view data length).

(** [start] has already been scanned; [more] is found, or there is none of the right length. *)
Definition scanned {A} (P : Z -> A -> Z -> Prop) (okay : ns_dns_info_t -> list (A * Z) -> Prop)
    (start : list (A * Z)) (count offset : Z) (r : ns_parse_status_t * Z * ns_dns_info_t) : Prop :=
  let '(status, offset', out') := r in
  status <> NS_PARSE_UNSUPPORTED /\
  match status with
  | NS_PARSE_OK =>
      exists more, items_at P offset more offset' /\ zlen start + zlen more = count /\
        is_size offset' /\ okay out' (start ++ more)
  | _ =>
      (exists more, okay out' (start ++ more)) /\
      forall more stop, zlen start + zlen more = count -> ~ items_at P offset more stop
  end.

Lemma scanned_stop {A} (P : Z -> A -> Z -> Prop) okay start count offset offset' out status :
  status = NS_PARSE_TRUNCATED \/ status = NS_PARSE_MALFORMED -> zlen start < count ->
  okay out start -> (forall a stop, ~ P offset a stop) ->
  scanned P okay start count offset (status, offset', out).
Proof.
  intros Hst Hlt Hok Hno. assert (H : forall more stop, zlen start + zlen more = count ->
    ~ items_at P offset more stop).
  { intros more stop Hl Hi. inversion Hi; subst; [change (zlen []) with 0 in *; lia|]. by eapply Hno. }
  destruct Hst as [-> | ->]; (split; [done|]); (split; [exists []; by rewrite app_nil_r|done]).
Qed.

Lemma scanned_cons {A} (P : Z -> A -> Z -> Prop) okay start count offset a next r :
  (forall a' next', P offset a' next' -> a' = a /\ next' = next) -> zlen start < count ->
  P offset a next -> scanned P okay (start ++ [(a, next)]) count next r ->
  scanned P okay start count offset r.
Proof.
  intros Hdet Hlt Hp. destruct r as [[status offset'] out']. intros [Hun H]. split; [done|].
  assert (Hno : (forall more stop, zlen (start ++ [(a, next)]) + zlen more = count -> ~ items_at P next more stop) ->
    forall more stop, zlen start + zlen more = count -> ~ items_at P offset more stop).
  { intros Hno more stop Hl Hi. inversion Hi as [|? a0 n0 rest ? Hp0 Hr]; subst;
      [change (zlen []) with 0 in *; lia|].
    destruct (Hdet _ _ Hp0) as [-> ->]. eapply Hno; [|exact Hr]. rewrite zlen_app, !zlen_cons.
    change (zlen (A := A * Z) []) with 0. lia. }
  destruct status; try done.
  - destruct H as (more & Hi & Hl & Hs & Hok). exists ((a, next) :: more).
    split; [by econstructor|]. split; [zlen; lia|]. split; [done|]. by rewrite cons_middle, app_assoc.
  - destruct H as ((more & Hok) & H). split; [|auto]. exists ((a, next) :: more).
    by rewrite cons_middle, app_assoc.
  - destruct H as ((more & Hok) & H). split; [|auto]. exists ((a, next) :: more).
    by rewrite cons_middle, app_assoc.
Qed.

Definition questions_frame (out out' : ns_dns_info_t) : Prop :=
  dns_header out' = dns_header out /\ dns_decoded_answer_count out' = dns_decoded_answer_count out /\
  dns_answers out' = dns_answers out.

Lemma questions_loop_spec fuel qdcount i offset out start :
  i = zlen start -> i <= qdcount < 65536 -> qdcount - i < Z.of_nat fuel -> is_size offset ->
  questions_ok out start ->
  wp (questions_loop fuel data length qdcount i offset out)
     (fun r => questions_frame out r.2 /\ scanned (question_at bs) questions_ok start qdcount offset r).
Proof.
  revert i offset out start. induction fuel as [|fuel IH]; intros i offset out start -> Hi Hfuel Hoff Hok; [lia|].
  cbn [questions_loop]. pose proof (zlen_nonneg start) as Hs0. destruct (Z.ltb_spec (zlen start) qdcount) as [Hlt|Hge]; cycle 1.
  { split; [done|]. split; [done|]. exists []. rewrite app_nil_r. change (zlen []) with 0.
    split; [constructor|]. split; [lia|]. done. }
  assert (Hu : u16c (zlen start + 1) = zlen start + 1) by (apply u16c_small; lia).
  rewrite Hu. destruct (Z.ltb_spec (zlen start) NS_DNS_MAX_QUESTIONS) as [Hcap|Hcap]; unfold NS_DNS_MAX_QUESTIONS in Hcap.
  - assert (Hcap' : (List.length start < 4)%nat) by (unfold zlen in Hcap; lia).
    destruct (filled_slots_get _ _ _ _ _ _ Hok Hcap') as (slot & -> & Hslot). mred.
    apply wp_bind. eapply wp_mono; [apply ns_dns_parse_question_spec; [done|done|by intros q [= <-]]|].
    intros [[status offset'] out'] (Hun & Hso & Hsome & Hm). cbn beta iota.
    destruct (Hsome ltac:(by eexists)) as [slot' ->]. specialize (Hso _ eq_refl).
    destruct status; [|split; [done|]; apply scanned_stop; [by left + by right|done| |]..|done].
    + destruct Hm as (q & Hq & Hoff' & Hshow). eapply wp_mono.
      * apply (IH _ _ _ (start ++ [(q, offset')])); [zlen; lia|lia|lia|done|].
        unfold questions_ok. cbn. destruct (Hok) as (Hn & _). rewrite szadd_small by lia.
        apply filled_slots_push; auto.
      * intros [[st o] out2] [Hf Hsc]. split; [done|]. eapply scanned_cons; try done.
        intros a' next' Ha. by apply (question_at_det bs offset).
    + by apply filled_slots_touch.
    + intros a stop. apply Hm.
    + by apply filled_slots_touch.
    + intros a stop. apply Hm.
  - assert (Hcap' : (4 <= List.length start)%nat) by (unfold zlen in Hcap; lia).
    apply wp_bind. eapply wp_mono; [apply ns_dns_parse_question_spec; done|].
    intros [[status offset'] out'] (Hun & _ & _ & Hm). cbn beta iota.
    destruct status; [|split; [done|]; apply scanned_stop; [by left + by right|done|done|intros a stop; apply Hm]..|done].
    destruct Hm as (q & Hq & Hoff' & _). eapply wp_mono.
    + apply (IH _ _ _ (start ++ [(q, offset')])); [zlen; lia|lia|lia|done|]. by apply filled_slots_skip.
    + intros [[st o] out2] [Hf Hsc]. split; [done|]. eapply scanned_cons; try done.
      intros a' next' Ha. by apply (question_at_det bs offset).
Qed.

Definition answers_frame (out out' : ns_dns_info_t) : Prop :=
  dns_header out' = dns_header out /\ dns_decoded_question_count out' = dns_decoded_question_count out /\
  dns_questions out' = dns_questions out.

Lemma answers_loop_spec fuel ancount i offset out start :
  i = zlen start -> i <= Z.min ancount 12 -> ancount < 65536 -> ancount - i < Z.of_nat fuel -> is_size offset ->
  answers_ok bs out start ->
  wp (answers_loop fuel data length ancount i offset out)
     (fun r => answers_frame out r.2 /\
               scanned (record_at bs) (answers_ok bs) start (Z.min ancount 12) offset r).
Proof.
  revert i offset out start.
  induction fuel as [|fuel IH]; intros i offset out start -> Hi Han Hfuel Hoff Hok; [lia|].
  cbn [answers_loop]. unfold NS_DNS_MAX_ANSWERS. pose proof (zlen_nonneg start) as Hs0.
  replace ((zlen start <? ancount) && (zlen start <? 12)) with (zlen start <? Z.min ancount 12) by zcases.
  destruct (Z.ltb_spec (zlen start) (Z.min ancount 12)) as [Hlt|Hge]; cycle 1.
  { split; [done|]. split; [done|]. exists []. rewrite app_nil_r. change (zlen []) with 0.
    split; [constructor|]. split; [lia|]. done. }
  rewrite u16c_small by lia. assert (Hcap : (List.length start < 12)%nat) by (unfold zlen in Hlt; lia).
  destruct (filled_slots_get _ _ _ _ _ _ Hok Hcap) as (slot & -> & Hslot). mred.
  apply wp_bind. eapply wp_mono; [by apply ns_dns_parse_record_spec|].
  intros [[status offset'] out'] (Hun & Hm). cbn beta iota.
  destruct status; [|destruct Hm as [-> Hm]; split; [done|];
    apply scanned_stop; [by left + by right|done|by apply filled_slots_touch|intros a stop; apply Hm]..|done].
  destruct Hm as (r & slot' & -> & Hslot' & Hoff' & Hr & Hshow). eapply wp_mono.
  - apply (IH _ _ _ (start ++ [(r, offset')])); [zlen; lia|zlen; lia|lia|lia|done|].
    unfold answers_ok. cbn. destruct Hok as (Hn & Hok'). rewrite szadd_small by lia.
    apply filled_slots_push; auto. by split.
  - intros [[st o] out2] [Hf Hsc]. split; [done|]. eapply scanned_cons; try done.
    intros a' next' Ha. by apply (record_at_det bs offset).
Qed.
End loops.

(** ** Messages *)

(** The message [bs] has these questions, and these answers up to the twelve that are looked at. *)
Definition dns_message (bs : list byte) (qs : list (question * Z)) (rs : list (record * Z)) : Prop :=
  12 <= zlen bs /\ zlen qs = u16_at bs 4 /\ zlen rs = Z.min (u16_at bs 6) 12 /\
  exists middle stop, items_at (question_at bs) 12 qs middle /\ items_at (record_at bs) middle rs stop.

Definition dns_header_of (bs : list byte) :=
  (u16_at bs 0, u16_at bs 2, Z.testbit (u16_at bs 2) 15, u16_at bs 4, u16_at bs 6, u16_at bs 8, u16_at bs 10).

(** A message object as [ns_parse_dns] leaves it: the header is the message's, at most four
    questions and twelve answers are in use, and each slot in use shows one of the message. *)
Definition dns_info_ok (bs : list byte) (out : ns_dns_info_t) (qs : list (question * Z))
    (rs : list (record * Z)) : Prop :=
  dns_header out = dns_header_of bs /\ questions_ok out qs /\ answers_ok bs out rs.

(** The outcome of parsing a message whose header is there. *)
Definition dns_outcome (bs : list byte) (r : ns_parse_status_t * ns_dns_info_t) : Prop :=
  let '(status, out) := r in
  status <> NS_PARSE_UNSUPPORTED /\
  (exists qs rs, dns_info_ok bs out qs rs /\ (status = NS_PARSE_OK -> dns_message bs qs rs)) /\
  (status <> NS_PARSE_OK -> forall qs rs, ~ dns_message bs qs rs).

(** The questions cannot be scanned. *)
Lemma questions_outcome bs status offset out :
  status <> NS_PARSE_OK -> dns_header out = dns_header_of bs -> answers_ok bs out [] ->
  scanned (question_at bs) questions_ok [] (u16_at bs 4) 12 (status, offset, out) ->
  dns_outcome bs (status, out).
Proof.
  intros Hst Hh Ha (Hun & Hm). split; [done|].
  assert (Hm' : (exists more, questions_ok out more) /\ forall more stop, zlen more = u16_at bs 4 ->
    ~ items_at (question_at bs) 12 more stop) by (destruct status; done).
  destruct Hm' as [[more Hq] Hno]. split; [by exists more, []|].
  intros _ qs rs (_ & Hl & _ & middle & stop & Hi & _). by eapply Hno.
Qed.

(** The questions are [qs]; the answers are scanned. *)
Lemma answers_outcome bs qs middle status offset out :
  12 <= zlen bs -> dns_header out = dns_header_of bs -> questions_ok out qs -> zlen qs = u16_at bs 4 ->
  items_at (question_at bs) 12 qs middle ->
  scanned (record_at bs) (answers_ok bs) [] (Z.min (u16_at bs 6) 12) middle (status, offset, out) ->
  dns_outcome bs (status, out).
Proof.
  intros Hz Hh Hq Hql Hqs (Hun & Hm). split; [done|].
  assert (Hno : (forall more stop, zlen more = Z.min (u16_at bs 6) 12 -> ~ items_at (record_at bs) middle more stop) ->
    forall qs' rs, ~ dns_message bs qs' rs).
  { intros Hno qs' rs (_ & Hl & Hrl & middle' & stop & Hi & Hr). rewrite <- Hql in Hl.
    destruct (items_at_det _ _ _ _ _ _ (question_at_det bs) (eq_sym Hl) Hqs Hi) as [<- <-].
    by eapply Hno. }
  destruct status; try done.
  - destruct Hm as (rs & Hrs & Hrl & _ & Hr). split; [|done]. exists qs, rs. split; [done|]. intros _.
    split; [done|]. split; [done|]. split; [done|]. by exists middle, offset.
  - destruct Hm as ((rs & Hr) & H'). split; [by exists qs, rs|]. intros _. by apply Hno.
  - destruct Hm as ((rs & Hr) & H'). split; [by exists qs, rs|]. intros _. by apply Hno.
Qed.

Lemma ns_parse_dns_spec data length out :
  view_ok data length ->
  wp (ns_parse_dns data length out) (fun r =>
    if length <? 12 then r = (NS_PARSE_TRUNCATED, out) else dns_outcome (view data length) r).
Proof.
  intros Hv. unfold ns_parse_dns, NS_DNS_HEADER_LEN.
  assert (Hlen : zlen (view data length) = length) by (by apply zlen_view).
  rewrite (bounds_view _ _ Hv), Z.add_0_l, <- Z.ltb_antisym by lia.
  destruct (Z.ltb_spec length 12); [done|].
  run_reads Hv. set (bs := view data length) in *.
  pose proof (u16_at_range bs 4) as H4. pose proof (u16_at_range bs 6) as H6.
  apply wp_bind. eapply wp_mono.
  { apply (questions_loop_spec data length Hv _ _ _ _ _ []);
      [done|change (zlen []) with 0; lia|lia|unfold is_size; lia|].
    split; [done|]. split; [done|]. split; [|constructor]. by apply Forall_replicate. }
  intros [[status offset] out1] ((Hh & Hac & Ha) & Hsc). fold bs in Hsc. cbn beta iota in *.
  cbn [snd] in *. assert (Hh1 : dns_header out1 = dns_header_of bs).
  { rewrite Hh. unfold dns_header_of. by rewrite <- land_bit by lia. }
  assert (Ha0 : answers_ok bs out1 []).
  { unfold answers_ok. rewrite Hac, Ha. split; [done|]. split; [done|]. split; [|constructor].
    by apply Forall_replicate. }
  destruct status; [|by eapply questions_outcome..].
  destruct Hsc as (_ & qs & Hqs & Hql & Hoff & Hq). apply wp_bind. eapply wp_mono.
  { apply (answers_loop_spec data length Hv _ _ _ _ _ []);
      [done|change (zlen []) with 0; lia|lia|lia|done|done]. }
  intros [[status offset'] out2] ((Hh' & Hqc & Hqq) & Hsc). fold bs in Hsc. cbn beta iota in *.
  cbn [snd] in *. eapply answers_outcome; [lia|by rewrite Hh'| |exact Hql|done|done].
  unfold questions_ok. by rewrite Hqc, Hqq.
Qed.

(** ** Locality *)

Section local.
Context (data : list byte) (length : Z) (Hview : view_ok data length).
#[local] Notation bs := (view data length).

#[local] Lemma parse_question_local offset out :
  ns_dns_parse_question data length offset out = ns_dns_parse_question bs length offset out.
Proof.
  unfold ns_dns_parse_question. apply bind_ext; [by apply ns_dns_decode_name_local|].
  intros [[[] name] e] _; [|done..]. apply bind_ext; [done|]. intros e' _. destruct (negb _); [done|].
  rewrite !(ns_read_u16_be_local data) by done. done.
Qed.

#[local] Lemma format_txt_loop_local fuel off rdlen out out_len pos out_pos :
  0 <= off -> 0 <= rdlen < 65536 -> off + rdlen <= length -> 0 <= pos <= rdlen ->
  0 <= out_pos < out_len -> out_len < 2 ^ 63 ->
  format_txt_loop fuel data off rdlen out out_len pos out_pos
  = format_txt_loop fuel bs off rdlen out out_len pos out_pos.
Proof.
  intros Hoff Hrd Hin Hpos Hop Hol. revert out pos out_pos Hpos Hop.
  induction fuel as [|fuel IH]; intros out pos out_pos Hpos Hop; [done|].
  cbn [format_txt_loop]. rewrite (szadd_small out_pos) by lia.
  destruct (Z.ltb_spec pos rdlen); cbn [andb]; [|done]. destruct (Z.ltb_spec (out_pos + 1) out_len); [|done].
  destruct Hview as [Hv1 Hv2]. rewrite (szadd_small off) by lia.
  apply bind_ext; [apply rd_local; (done || lia)|]. intros seg_len Hs.
  assert (Hseg : 0 <= seg_len < 256).
  { rewrite rd_done in Hs by lia. injection Hs as <-. apply u8_at_range. }
  rewrite (szadd_small pos), (szadd_small (pos + 1)), Z.gtb_ltb by lia.
  destruct (Z.ltb_spec rdlen (pos + 1 + seg_len)); [done|].
  set (copy := if _ : bool then _ else _). assert (Hc : copy = Z.min seg_len (out_len - 1 - out_pos)).
  { unfold copy. rewrite szadd_small, Z.geb_leb by lia. rewrite !szsub_small by (rewrite ?szsub_small; lia).
    destruct (Z.leb_spec out_len (out_pos + seg_len)); lia. }
  clearbody copy. apply bind_ext; [apply rd_bytes_local; (done || lia)|]. intros seg _.
  apply bind_ext; [done|]. intros o _. rewrite szadd_small by lia. apply IH; lia.
Qed.

#[local] Lemma format_rdata_local off rdlen type out :
  is_size off -> 0 <= rdlen < 65536 -> off + rdlen <= length ->
  ns_dns_format_rdata data length off rdlen type out NS_DNS_MAX_RDATA_TEXT
  = ns_dns_format_rdata bs length off rdlen type out NS_DNS_MAX_RDATA_TEXT.
Proof.
  intros Hoff Hrd Hin. unfold ns_dns_format_rdata. apply bind_ext; [|done].
  pose proof Hview as [Hv1 Hv2]. pose proof Hoff as [Hoff1 Hoff2].
  pose proof (ns_dns_decode_name_local data length) as Hname.
  destruct (type =? NS_DNS_TYPE_A).
  { unfold ns_dns_format_a. destruct (Z.eqb_spec rdlen 4); cbn [negb orb]; [|done].
    destruct (negb _); [done|]. by rewrite (rd_bytes_local data length) by (done || lia). }
  destruct (type =? NS_DNS_TYPE_AAAA).
  { unfold ns_dns_format_aaaa. destruct (Z.eqb_spec rdlen 16); cbn [negb orb]; [|done].
    destruct (negb _); [done|]. rewrite !ptr_add_done by (rewrite ?zlen_view; done || lia). mred.
    assert (E : forall l : list byte, drop (Z.to_nat off) l = slice l off 16 ++ drop 16 (drop (Z.to_nat off) l))
      by (intros; unfold slice; by rewrite take_drop).
    assert (Hl : List.length (slice data off 16) = 16%nat).
    { pose proof (zlen_slice data off 16). unfold zlen in *. lia. }
    rewrite (E data), (E bs), (slice_view data length) by lia. by rewrite !ns_format_ipv6_prefix. }
  destruct (_ || _); [unfold ns_dns_format_name_rdata; by rewrite Hname|].
  destruct (type =? NS_DNS_TYPE_MX).
  { unfold ns_dns_format_mx. destruct (negb _); [done|]. rewrite (ns_read_u16_be_local data) by done.
    apply bind_ext; [done|]. intros [p|] _; [|done]. by rewrite Hname. }
  destruct (type =? NS_DNS_TYPE_TXT); [|done]. unfold ns_dns_format_txt. destruct (negb _); [done|].
  apply bind_ext; [done|]. intros o _. by rewrite format_txt_loop_local by (done || lia).
Qed.

#[local] Lemma parse_record_local offset out :
  ns_dns_parse_record data length offset out = ns_dns_parse_record bs length offset out.
Proof.
  unfold ns_dns_parse_record. apply bind_ext; [by apply ns_dns_decode_name_local|].
  intros [[[] name] e] _; [|done..]. apply bind_ext; [done|]. intros e' _. destruct (negb _); [done|].
  rewrite !(ns_read_u16_be_local data), !(ns_read_u32_be_local data) by done.
  do 3 (apply bind_ext; [done|]; intros ? _). apply bind_ext; [done|]. intros rdlen Hr.
  apply filled_u16_range in Hr. destruct (ns_bounds_check length (szadd e' 10) rdlen) eqn:Hb; [|done].
  assert (Hs : is_size (szadd e' 10)) by (apply Z.mod_pos_bound; lia). pose proof Hview as [Hv1 Hv2].
  rewrite ns_bounds_check_spec in Hb by (done || unfold is_size; lia). apply Z.leb_le in Hb.
  cbn [negb]. destruct out as [r|]; [|done]. by rewrite format_rdata_local.
Qed.

#[local] Lemma questions_loop_local fuel qdcount i offset out :
  questions_loop fuel data length qdcount i offset out
  = questions_loop fuel bs length qdcount i offset out.
Proof.
  revert i offset out. induction fuel as [|fuel IH]; intros i offset out; [done|]. cbn [questions_loop].
  destruct (i <? qdcount); [|done]. destruct (i <? NS_DNS_MAX_QUESTIONS).
  - apply bind_ext; [done|]. intros slot _. rewrite parse_question_local. apply bind_ext; [done|].
    intros [[[] o] s] _; [apply IH|done..].
  - rewrite parse_question_local. apply bind_ext; [done|]. intros [[[] o] s] _; [apply IH|done..].
Qed.

#[local] Lemma answers_loop_local fuel ancount i offset out :
  answers_loop fuel data length ancount i offset out
  = answers_loop fuel bs length ancount i offset out.
Proof.
  revert i offset out. induction fuel as [|fuel IH]; intros i offset out; [done|]. cbn [answers_loop].
  destruct (_ && _); [|done]. apply bind_ext; [done|]. intros slot _. rewrite parse_record_local.
  apply bind_ext; [done|]. intros [[[] o] s] _; [apply IH|done..].
Qed.

Lemma ns_parse_dns_local out : ns_parse_dns data length out = ns_parse_dns bs length out.
Proof.
  unfold ns_parse_dns. destruct (negb _); [done|]. rewrite !(ns_read_u16_be_local data) by done.
  do 6 (apply bind_ext; [done|]; intros ? _). rewrite questions_loop_local.
  apply bind_ext; [done|]. intros [[[] o] s] _; [|done..]. by rewrite answers_loop_local.
Qed.
End local.

#[export] Instance dns_decoder out :
  Decoder (fun d l => ns_parse_dns d l out)
          (fun bs r => if zlen bs <? 12 then r = (NS_PARSE_TRUNCATED, out) else dns_outcome bs r).
Proof.
  split; intros data length Hv.
  - rewrite zlen_view by done. by apply ns_parse_dns_spec.
  - by apply ns_parse_dns_local.
Qed.

(** The two outcomes of a parse, as the interface promises them. *)
Lemma dns_status_cases bs out status out' :
  (if zlen bs <? 12 then (status, out') = (NS_PARSE_TRUNCATED, out) else dns_outcome bs (status, out')) ->
  (status = NS_PARSE_OK /\ exists qs rs, dns_message bs qs rs /\ dns_info_ok bs out' qs rs) \/
  (status <> NS_PARSE_OK /\ forall qs rs, ~ dns_message bs qs rs).
Proof.
  destruct (Z.ltb_spec (zlen bs) 12) as [Hl|Hl].
  - intros [= -> ->]. right. split; [done|]. intros qs rs (Hz & _). lia.
  - intros (_ & (qs & rs & Hok & Hm) & Hno). destruct (decide (status = NS_PARSE_OK)) as [Hs|Hs].
    + left. split; [done|]. exists qs, rs. auto.
    + right. auto.
Qed.

(** ** Properties *)

(** C3. DNS messages are parsed exactly: on any captured bytes the parser returns without a
    fault; it answers OK exactly when the bytes hold a header, all the questions it announces
    and its answers (up to twelve), and it then stores the header's fields, the first four
    questions and those answers, each name as terminated text and each record's data
    rendered according to its type. *)
Theorem dns_message_exact (data : list byte) (length : Z) (out : ns_dns_info_t) :
  view_ok data length ->
  wp (ns_parse_dns data length out) (fun '(status, out') =>
    (status = NS_PARSE_OK <-> exists qs rs, dns_message (view data length) qs rs) /\
    (status = NS_PARSE_OK -> exists qs rs, dns_message (view data length) qs rs /\
       dns_info_ok (view data length) out' qs rs)).
Proof.
  intros Hv. eapply wp_mono; [exact (@decoder_safe _ _ _ (dns_decoder out) data length Hv)|].
  intros [status out'] H. cbn beta in H. destruct (dns_status_cases _ _ _ _ H) as [(-> & qs & rs & Hm & Hok)|(Hs & Hno)].
  - split; [|eauto]. split; [eauto|done].
  - split; [|done]. split; [done|]. intros (qs & rs & Hm). by destruct (Hno qs rs).
Qed.

(** A response to one question, whose answer shares the question's name. *)
Definition sample_response : list byte :=
  to_be 2 0x1234 ++ to_be 2 0x8180 ++ to_be 2 1 ++ to_be 2 1 ++ to_be 2 0 ++ to_be 2 0 ++
  encode_name [txt "example"; txt "org"] ++ to_be 2 1 ++ to_be 2 1 ++
  encode_name_at [] 12 ++ to_be 2 1 ++ to_be 2 1 ++ to_be 4 300 ++ to_be 2 4 ++ [xc0; x00; x02; x07].

Lemma dns_message_exact_witness :
  view_ok sample_response 45 /\
  wp (ns_parse_dns sample_response 45 zero_dns) (fun '(status, _) =>
    status = NS_PARSE_OK <-> exists qs rs, dns_message (view sample_response 45) qs rs).
Proof.
  split; [done|]. eapply wp_mono; [apply (dns_message_exact sample_response 45 zero_dns); done|].
  by intros [status out'] [H _].
Defined.

(** C21. The message object stays within its arrays whatever the packet says: when the header is
    there, at most four questions and twelve answers are counted, and the name of each of them and the rendered data of each answer are
    terminated strings inside their buffers, also when parsing fails part way. *)
Theorem dns_info_bounded (data : list byte) (length : Z) (out : ns_dns_info_t) :
  view_ok data length -> 12 <= length ->
  wp (ns_parse_dns data length out) (fun '(_, out') =>
    0 <= dns_decoded_question_count out' <= 4 /\ List.length (dns_questions out') = 4%nat /\
    0 <= dns_decoded_answer_count out' <= 12 /\ List.length (dns_answers out') = 12%nat /\
    (forall i q, (Z.of_nat i < dns_decoded_question_count out') -> dns_questions out' !! i = Some q ->
       exists s, cstring (question_name q) = Done s /\ zlen s <= NS_DNS_MAX_NAME) /\
    (forall i r, (Z.of_nat i < dns_decoded_answer_count out') -> dns_answers out' !! i = Some r ->
       (exists s, cstring (record_name r) = Done s /\ zlen s <= NS_DNS_MAX_NAME) /\
       (exists s, cstring (record_rdata_text r) = Done s /\ zlen s < NS_DNS_MAX_RDATA_TEXT))).
Proof.
  intros Hv Hl. eapply wp_mono; [by apply ns_parse_dns_spec|]. intros [status out'] H. cbn beta in H.
  destruct (Z.ltb_spec length 12); [lia|]. destruct H as (_ & (qs & rs & (_ & Hq & Ha) & _) & _).
  destruct Hq as (Hqn & Hql & _ & Hqs), Ha as (Han & Hal & _ & Has).
  split; [lia|]. split; [done|]. split; [lia|]. split; [done|].
  assert (Hstr : forall buf s n, holds buf s -> zlen buf = n -> exists t, cstring buf = Done t /\ zlen t < n).
  { intros buf s n Hh Hn. exists (until_nul s). split; [by apply cstring_holds|].
    apply holds_zlen in Hh. pose proof (zlen_until_nul s). lia. }
  split.
  - intros i q Hi Hlk. assert (Hlk' : take (Z.to_nat (dns_decoded_question_count out')) (dns_questions out') !! i = Some q)
      by (by rewrite lookup_take_lt by lia).
    destruct (Forall2_lookup_r _ _ _ _ _ Hqs Hlk') as ([[[labels ty] cl] o] & _ & (Hz & Hh & _)).
    destruct (Hstr _ _ _ Hh Hz) as (t & ? & ?). exists t. unfold NS_DNS_MAX_NAME. split; [done|lia].
  - intros i r Hi Hlk. assert (Hlk' : take (Z.to_nat (dns_decoded_answer_count out')) (dns_answers out') !! i = Some r)
      by (by rewrite lookup_take_lt by lia).
    destruct (Forall2_lookup_r _ _ _ _ _ Has Hlk') as
      ([[[[[labels ty] cl] ttl] rl] o] & _ & (Hz & Hh & _ & _ & _ & _ & Hz2 & text & _ & Hh2)).
    destruct (Hstr _ _ _ Hh Hz) as (t & ? & ?). split; [exists t; unfold NS_DNS_MAX_NAME; split; [done|lia]|].
    by apply (Hstr _ text).
Qed.

Lemma dns_info_bounded_witness :
  wp (ns_parse_dns sample_response 45 zero_dns) (fun '(_, out') =>
    0 <= dns_decoded_question_count out' <= 4).
Proof.
  eapply wp_mono; [apply (dns_info_bounded sample_response 45 zero_dns); done|].
  by intros [status out'] [H _].
Defined.

(** The sample as it is stored. *)
Example sample_response_parsed :
  (r ← ns_parse_dns sample_response 45 zero_dns;
   let '(status, out) := r in
   q ← slot_get (dns_questions out) 0; qn ← cstring (question_name q);
   a ← slot_get (dns_answers out) 0; an ← cstring (record_name a); text ← cstring (record_rdata_text a);
   Done (status, dns_decoded_question_count out, dns_decoded_answer_count out, qn, an, record_ttl a, text))
  = Done (NS_PARSE_OK, 1, 1, txt "example.org", txt "example.org", 300, txt "192.0.2.7").
Proof. vm_compute. done. Qed.
