(* ===== verification/Packet.v ===== *)
(** * The dispatcher: [src/packet.c]

    [ns_packet_parse] runs the parsers of the layers one after the other on the captured
    bytes and records what each found in an [ns_packet_t]. *)

From S2P Require Import Prelude CMem Util Proto Link Network Transport DnsName Dns.

(** ** The packet *)

Record ns_timestamp_t := Timestamp { ts_seconds : Z; ts_microseconds : Z }.

Inductive ns_link_type_t := NS_LINK_UNKNOWN | NS_LINK_ETHERNET.

Inductive ns_proto_t :=
  | NS_PROTO_UNKNOWN
  | NS_PROTO_ARP
  | NS_PROTO_IPV4
  | NS_PROTO_IPV6
  | NS_PROTO_TCP
  | NS_PROTO_UDP
  | NS_PROTO_ICMP
  | NS_PROTO_ICMPV6
  | NS_PROTO_DNS.

#[global] Instance ns_link_type_t_eq_dec : EqDecision ns_link_type_t.
Proof. solve_decision. Defined.
#[global] Instance ns_proto_t_eq_dec : EqDecision ns_proto_t.
Proof. solve_decision. Defined.

(** The unions [net] and [transport], tagged with the member stored last; [NetZero] and
    [TransportZero] are the all-zero objects [memset] leaves, readable through any member. *)
Inductive ns_net_t :=
  | NetZero
  | NetArp (arp : ns_arp_info_t)
  | NetIpv4 (ipv4 : ns_ipv4_info_t)
  | NetIpv6 (ipv6 : ns_ipv6_info_t).

Inductive ns_transport_t :=
  | TransportZero
  | TransportTcp (tcp : ns_tcp_info_t)
  | TransportUdp (udp : ns_udp_info_t)
  | TransportIcmp (icmp : ns_icmp_info_t)
  | TransportIcmpv6 (icmpv6 : ns_icmpv6_info_t).

Definition net_arp (n : ns_net_t) : M ns_arp_info_t :=
  match n with NetZero => Done zero_arp | NetArp a => Done a | _ => Fault WrongMember end.
Definition net_ipv4 (n : ns_net_t) : M ns_ipv4_info_t :=
  match n with NetZero => Done zero_ipv4 | NetIpv4 i => Done i | _ => Fault WrongMember end.
Definition net_ipv6 (n : ns_net_t) : M ns_ipv6_info_t :=
  match n with NetZero => Done zero_ipv6 | NetIpv6 i => Done i | _ => Fault WrongMember end.
Definition transport_tcp (t : ns_transport_t) : M ns_tcp_info_t :=
  match t with TransportZero => Done zero_tcp | TransportTcp i => Done i | _ => Fault WrongMember end.
Definition transport_udp (t : ns_transport_t) : M ns_udp_info_t :=
  match t with TransportZero => Done zero_udp | TransportUdp i => Done i | _ => Fault WrongMember end.
Definition transport_icmp (t : ns_transport_t) : M ns_icmp_info_t :=
  match t with TransportZero => Done zero_icmp | TransportIcmp i => Done i | _ => Fault WrongMember end.
Definition transport_icmpv6 (t : ns_transport_t) : M ns_icmpv6_info_t :=
  match t with TransportZero => Done zero_icmpv6 | TransportIcmpv6 i => Done i | _ => Fault WrongMember end.

(** [raw_data] is the buffer the packet points at; [payload] is an offset into it, [None] for
    [NULL]; [malformed_reason] likewise. *)
Record ns_packet_t := Packet {
  pkt_number : Z;
  pkt_timestamp : ns_timestamp_t;
  pkt_captured_length : Z;
  pkt_original_length : Z;
  pkt_raw_data : list byte;
  pkt_link_type : ns_link_type_t;
  pkt_has_eth : bool;
  pkt_eth : ns_eth_info_t;
  pkt_network_proto : ns_proto_t;
  pkt_net : ns_net_t;
  pkt_transport_proto : ns_proto_t;
  pkt_transport : ns_transport_t;
  pkt_has_dns : bool;
  pkt_dns : ns_dns_info_t;
  pkt_payload : option Z;
  pkt_payload_length : Z;
  pkt_malformed : bool;
  pkt_malformed_reason : option (list byte)
}.

(** Assignments to the fields the parser changes. *)
Definition set_eth (p : ns_packet_t) (eth : ns_eth_info_t) (has_eth : bool) : ns_packet_t :=
  let '(Packet num ts cl ol raw lt _ _ np n tp t hd d pl pll m mr) := p in
  Packet num ts cl ol raw lt has_eth eth np n tp t hd d pl pll m mr.
Definition set_net (p : ns_packet_t) (n : ns_net_t) : ns_packet_t :=
  let '(Packet num ts cl ol raw lt he e np _ tp t hd d pl pll m mr) := p in
  Packet num ts cl ol raw lt he e np n tp t hd d pl pll m mr.
Definition set_network_proto (p : ns_packet_t) (np : ns_proto_t) : ns_packet_t :=
  let '(Packet num ts cl ol raw lt he e _ n tp t hd d pl pll m mr) := p in
  Packet num ts cl ol raw lt he e np n tp t hd d pl pll m mr.
Definition set_transport (p : ns_packet_t) (t : ns_transport_t) : ns_packet_t :=
  let '(Packet num ts cl ol raw lt he e np n tp _ hd d pl pll m mr) := p in
  Packet num ts cl ol raw lt he e np n tp t hd d pl pll m mr.
Definition set_transport_proto (p : ns_packet_t) (tp : ns_proto_t) : ns_packet_t :=
  let '(Packet num ts cl ol raw lt he e np n _ t hd d pl pll m mr) := p in
  Packet num ts cl ol raw lt he e np n tp t hd d pl pll m mr.
Definition set_dns (p : ns_packet_t) (d : ns_dns_info_t) (hd : bool) : ns_packet_t :=
  let '(Packet num ts cl ol raw lt he e np n tp t _ _ pl pll m mr) := p in
  Packet num ts cl ol raw lt he e np n tp t hd d pl pll m mr.
Definition set_payload (p : ns_packet_t) (pl : option Z) (pll : Z) : ns_packet_t :=
  let '(Packet num ts cl ol raw lt he e np n tp t hd d _ _ m mr) := p in
  Packet num ts cl ol raw lt he e np n tp t hd d pl pll m mr.

Definition ns_packet_mark_malformed (p : ns_packet_t) (reason : list byte) : ns_packet_t :=
  let '(Packet num ts cl ol raw lt he e np n tp t hd d pl pll _ _) := p in
  Packet num ts cl ol raw lt he e np n tp t hd d pl pll true (Some reason).

(** ** The dispatcher *)

Definition ns_packet_set_payload (out : ns_packet_t) (data : list byte) (length offset : Z) : M ns_packet_t :=
  if offset >? length then Done (set_payload out None 0)
  else _ ← ptr_add data offset; Done (set_payload out (Some offset) (szsub length offset)).

Definition ns_packet_parse_dns_if_applicable (out : ns_packet_t) (data : list byte)
    (length offset src_port dst_port : Z) : M ns_packet_t :=
  if negb (src_port =? 53) && negb (dst_port =? 53) then Done out
  else if offset >? length then Done out
  else
    p ← ptr_add data offset;
    '(status, dns) ← ns_parse_dns p (szsub length offset) (pkt_dns out);
    match status with
    | NS_PARSE_OK => Done (set_dns out dns true)
    | _ => Done (set_dns out dns (pkt_has_dns out))
    end.

Definition NS_IP_PROTO_ICMP := 1.
Definition NS_IP_PROTO_TCP := 6.
Definition NS_IP_PROTO_UDP := 17.
Definition NS_IP_PROTO_ICMPV6 := 58.

Definition ns_packet_parse_transport (out : ns_packet_t) (data : list byte) (length offset proto : Z)
    : M ns_packet_t :=
  if proto =? NS_IP_PROTO_TCP then
    p ← ptr_add data offset; tcp ← transport_tcp (pkt_transport out);
    '(status, tcp, header_len) ← ns_parse_tcp p (szsub length offset) tcp;
    let out := set_transport out (TransportTcp tcp) in
    match status with
    | NS_PARSE_OK =>
        header_len ← use_init header_len;
        let out := set_transport_proto out NS_PROTO_TCP in
        out ← ns_packet_set_payload out data length (szadd offset header_len);
        ns_packet_parse_dns_if_applicable out data length (szadd offset header_len)
          (tcp_source_port tcp) (tcp_destination_port tcp)
    | NS_PARSE_TRUNCATED => Done (ns_packet_mark_malformed out (txt "TCP header truncated"))
    | _ => Done (ns_packet_mark_malformed out (txt "TCP header inconsistent"))
    end
  else if proto =? NS_IP_PROTO_UDP then
    p ← ptr_add data offset; udp ← transport_udp (pkt_transport out);
    '(status, udp) ← ns_parse_udp p (szsub length offset) udp;
    let out := set_transport out (TransportUdp udp) in
    match status with
    | NS_PARSE_OK =>
        let out := set_transport_proto out NS_PROTO_UDP in
        let app_offset := szadd offset 8 in
        out ← ns_packet_set_payload out data length app_offset;
        ns_packet_parse_dns_if_applicable out data length app_offset
          (udp_source_port udp) (udp_destination_port udp)
    | NS_PARSE_TRUNCATED => Done (ns_packet_mark_malformed out (txt "UDP header truncated"))
    | _ => Done (ns_packet_mark_malformed out (txt "UDP header inconsistent"))
    end
  else if proto =? NS_IP_PROTO_ICMP then
    p ← ptr_add data offset; icmp ← transport_icmp (pkt_transport out);
    '(status, icmp) ← ns_parse_icmp p (szsub length offset) icmp;
    let out := set_transport out (TransportIcmp icmp) in
    match status with
    | NS_PARSE_OK => Done (set_transport_proto out NS_PROTO_ICMP)
    | _ => Done (ns_packet_mark_malformed out (txt "ICMP header truncated"))
    end
  else if proto =? NS_IP_PROTO_ICMPV6 then
    p ← ptr_add data offset; icmpv6 ← transport_icmpv6 (pkt_transport out);
    '(status, icmpv6) ← ns_parse_icmpv6 p (szsub length offset) icmpv6;
    let out := set_transport out (TransportIcmpv6 icmpv6) in
    match status with
    | NS_PARSE_OK => Done (set_transport_proto out NS_PROTO_ICMPV6)
    | _ => Done (ns_packet_mark_malformed out (txt "ICMPv6 header truncated"))
    end
  else Done out.

Definition ns_packet_parse_ipv4 (out : ns_packet_t) (data : list byte) (length offset : Z) : M ns_packet_t :=
  p ← ptr_add data offset; ipv4 ← net_ipv4 (pkt_net out);
  '(status, ipv4, header_len) ← ns_parse_ipv4 p (szsub length offset) ipv4;
  let out := set_net out (NetIpv4 ipv4) in
  match status with
  | NS_PARSE_TRUNCATED => Done (ns_packet_mark_malformed out (txt "IPv4 header truncated"))
  | NS_PARSE_OK =>
      let out := set_network_proto out NS_PROTO_IPV4 in
      header_len ← use_init header_len;
      let transport_offset := szadd offset header_len in
      out ← ns_packet_set_payload out data length transport_offset;
      if ipv4_is_fragment ipv4 && negb (ipv4_is_initial_fragment ipv4) then Done out
      else ns_packet_parse_transport out data length transport_offset (ipv4_protocol ipv4)
  | _ => Done (ns_packet_mark_malformed out (txt "IPv4 header inconsistent"))
  end.

Definition ns_packet_parse_ipv6 (out : ns_packet_t) (data : list byte) (length offset : Z) : M ns_packet_t :=
  p ← ptr_add data offset; ipv6 ← net_ipv6 (pkt_net out);
  '(status, ipv6, header_len) ← ns_parse_ipv6 p (szsub length offset) ipv6;
  let out := set_net out (NetIpv6 ipv6) in
  match status with
  | NS_PARSE_TRUNCATED => Done (ns_packet_mark_malformed out (txt "IPv6 header truncated"))
  | NS_PARSE_OK =>
      let out := set_network_proto out NS_PROTO_IPV6 in
      header_len ← use_init header_len;
      let ext_offset := szadd offset header_len in
      '(ok, ext_offset, next_header) ←
        ns_ipv6_skip_extension_headers data length ext_offset (ipv6_next_header ipv6);
      if negb ok then
        let out := ns_packet_mark_malformed out (txt "IPv6 extension header chain invalid") in
        ns_packet_set_payload out data length ext_offset
      else
        out ← ns_packet_set_payload out data length ext_offset;
        ns_packet_parse_transport out data length ext_offset next_header
  | _ => Done (ns_packet_mark_malformed out (txt "IPv6 header inconsistent"))
  end.

Definition ns_packet_parse_arp (out : ns_packet_t) (data : list byte) (length offset : Z) : M ns_packet_t :=
  p ← ptr_add data offset; arp ← net_arp (pkt_net out);
  '(status, arp) ← ns_parse_arp p (szsub length offset) arp;
  let out := set_net out (NetArp arp) in
  let out := match status with
             | NS_PARSE_OK => set_network_proto out NS_PROTO_ARP
             | NS_PARSE_TRUNCATED => ns_packet_mark_malformed out (txt "ARP packet truncated")
             | _ => out
             end in
  ns_packet_set_payload out data length offset.

Definition ns_packet_parse (data : list byte) (captured_length original_length : Z)
    (timestamp : ns_timestamp_t) (number : Z) (link_type : ns_link_type_t) : M ns_packet_t :=
  let out :=
    {| pkt_number := number; pkt_timestamp := timestamp;
       pkt_captured_length := captured_length; pkt_original_length := original_length;
       pkt_raw_data := data; pkt_link_type := link_type;
       pkt_has_eth := false; pkt_eth := zero_eth;
       pkt_network_proto := NS_PROTO_UNKNOWN; pkt_net := NetZero;
       pkt_transport_proto := NS_PROTO_UNKNOWN; pkt_transport := TransportZero;
       pkt_has_dns := false; pkt_dns := zero_dns;
       pkt_payload := Some 0; pkt_payload_length := captured_length;
       pkt_malformed := false; pkt_malformed_reason := None |} in
  match link_type with
  | NS_LINK_ETHERNET =>
      '(status, eth, offset) ← ns_parse_ethernet data captured_length (pkt_eth out);
      match status with
      | NS_PARSE_OK =>
          let out := set_eth out eth true in
          offset ← use_init offset;
          out ← ns_packet_set_payload out data captured_length offset;
          if eth_ethertype eth =? NS_ETHERTYPE_IPV4 then
            ns_packet_parse_ipv4 out data captured_length offset
          else if eth_ethertype eth =? NS_ETHERTYPE_IPV6 then
            ns_packet_parse_ipv6 out data captured_length offset
          else if eth_ethertype eth =? NS_ETHERTYPE_ARP then
            ns_packet_parse_arp out data captured_length offset
          else Done out
      | _ => Done (ns_packet_mark_malformed (set_eth out eth (pkt_has_eth out))
                     (txt "Ethernet header truncated"))
      end
  | _ => Done out
  end.

Definition ns_proto_name (proto : ns_proto_t) : list byte :=
  match proto with
  | NS_PROTO_ARP => txt "ARP"
  | NS_PROTO_IPV4 => txt "IPv4"
  | NS_PROTO_IPV6 => txt "IPv6"
  | NS_PROTO_TCP => txt "TCP"
  | NS_PROTO_UDP => txt "UDP"
  | NS_PROTO_ICMP => txt "ICMP"
  | NS_PROTO_ICMPV6 => txt "ICMPv6"
  | NS_PROTO_DNS => txt "DNS"
  | NS_PROTO_UNKNOWN => txt "Unknown"
  end.

(** ** What a decoded packet says about the captured bytes

    Every layer a packet claims to have is the one its parser finds at the offset where the
    layer below ends. *)

(** The link layer ends at [off]. *)
Definition link_layer (bs : list byte) (p : ns_packet_t) (off : Z) : Prop :=
  pkt_has_eth p = true /\ eth_spec zero_eth bs = (NS_PARSE_OK, pkt_eth p, Some off).

(** The network layer the packet claims, after a link layer that ends at [off]. *)
Definition network_layer (bs : list byte) (p : ns_packet_t) (off : Z) : Prop :=
  let rest := drop (Z.to_nat off) bs in
  match pkt_network_proto p with
  | NS_PROTO_ARP =>
      eth_ethertype (pkt_eth p) = NS_ETHERTYPE_ARP /\
      exists arp, pkt_net p = NetArp arp /\ arp_spec zero_arp rest = (NS_PARSE_OK, arp)
  | NS_PROTO_IPV4 =>
      eth_ethertype (pkt_eth p) = NS_ETHERTYPE_IPV4 /\
      exists ipv4, pkt_net p = NetIpv4 ipv4 /\
        ipv4_spec zero_ipv4 rest = (NS_PARSE_OK, ipv4, Some (ipv4_header_length ipv4))
  | NS_PROTO_IPV6 =>
      eth_ethertype (pkt_eth p) = NS_ETHERTYPE_IPV6 /\
      exists ipv6, pkt_net p = NetIpv6 ipv6 /\ ipv6_spec zero_ipv6 rest = (NS_PARSE_OK, ipv6, Some 40)
  | NS_PROTO_UNKNOWN => True
  | _ => False
  end.

(** An upper layer of protocol [proto] starts at [at_]: after an IPv4 header that is not a
    later fragment, or after a chain of IPv6 extension headers. *)
Definition upper_layer (bs : list byte) (p : ns_packet_t) (off at_ proto : Z) : Prop :=
  match pkt_network_proto p, pkt_net p with
  | NS_PROTO_IPV4, NetIpv4 ipv4 =>
      at_ = off + ipv4_header_length ipv4 /\ proto = ipv4_protocol ipv4 /\
      (ipv4_is_fragment ipv4 = true -> ipv4_is_initial_fragment ipv4 = true)
  | NS_PROTO_IPV6, NetIpv6 ipv6 =>
      extension_walk NS_IPV6_MAX_EXTENSION_HEADERS bs (off + 40) (ipv6_next_header ipv6)
      = (true, at_, proto)
  | _, _ => False
  end.

(** The transport layer the packet claims, and where its payload starts. *)
Definition transport_layer (bs : list byte) (p : ns_packet_t) (at_ proto : Z) : Prop :=
  let rest := drop (Z.to_nat at_) bs in
  match pkt_transport_proto p with
  | NS_PROTO_TCP =>
      proto = NS_IP_PROTO_TCP /\
      exists tcp h, pkt_transport p = TransportTcp tcp /\
        tcp_spec zero_tcp rest = (NS_PARSE_OK, tcp, Some h) /\ pkt_payload p = Some (at_ + h)
  | NS_PROTO_UDP =>
      proto = NS_IP_PROTO_UDP /\
      exists udp, pkt_transport p = TransportUdp udp /\
        udp_spec zero_udp rest = (NS_PARSE_OK, udp) /\ pkt_payload p = Some (at_ + 8)
  | NS_PROTO_ICMP =>
      proto = NS_IP_PROTO_ICMP /\
      exists icmp, pkt_transport p = TransportIcmp icmp /\
        icmp_spec zero_icmp rest = (NS_PARSE_OK, icmp) /\ pkt_payload p = Some at_
  | NS_PROTO_ICMPV6 =>
      proto = NS_IP_PROTO_ICMPV6 /\
      exists icmpv6, pkt_transport p = TransportIcmpv6 icmpv6 /\
        icmpv6_spec zero_icmpv6 rest = (NS_PARSE_OK, icmpv6) /\ pkt_payload p = Some at_
  | _ => False
  end.

(** One of the two ports is 53. *)
Definition dns_ports (p : ns_packet_t) : Prop :=
  match pkt_transport_proto p, pkt_transport p with
  | NS_PROTO_TCP, TransportTcp tcp => tcp_source_port tcp = 53 \/ tcp_destination_port tcp = 53
  | NS_PROTO_UDP, TransportUdp udp => udp_source_port udp = 53 \/ udp_destination_port udp = 53
  | _, _ => False
  end.

(** The application layer: the payload is a DNS message. *)
Definition dns_layer (bs : list byte) (p : ns_packet_t) : Prop :=
  dns_ports p /\
  exists o qs rs, pkt_payload p = Some o /\
    dns_message (drop (Z.to_nat o) bs) qs rs /\ dns_info_ok (drop (Z.to_nat o) bs) (pkt_dns p) qs rs.

(** The payload is a suffix of the captured bytes. *)
Definition payload_ok (bs : list byte) (p : ns_packet_t) : Prop :=
  exists o, pkt_payload p = Some o /\ 0 <= o <= zlen bs /\ pkt_payload_length p = zlen bs - o.

Definition malformed_ok (p : ns_packet_t) : Prop :=
  pkt_malformed p = true <-> is_Some (pkt_malformed_reason p).

(** A protocol that has a parser, and the tag its layer is given. *)
Definition transport_tag (proto : Z) : ns_proto_t :=
  if proto =? NS_IP_PROTO_TCP then NS_PROTO_TCP
  else if proto =? NS_IP_PROTO_UDP then NS_PROTO_UDP
  else if proto =? NS_IP_PROTO_ICMP then NS_PROTO_ICMP
  else if proto =? NS_IP_PROTO_ICMPV6 then NS_PROTO_ICMPV6
  else NS_PROTO_UNKNOWN.

Definition network_tag (ethertype : Z) : ns_proto_t :=
  if ethertype =? NS_ETHERTYPE_IPV4 then NS_PROTO_IPV4
  else if ethertype =? NS_ETHERTYPE_IPV6 then NS_PROTO_IPV6
  else if ethertype =? NS_ETHERTYPE_ARP then NS_PROTO_ARP
  else NS_PROTO_UNKNOWN.

(** Soundness: what is claimed is there. *)
Definition packet_sound (bs : list byte) (p : ns_packet_t) : Prop :=
  payload_ok bs p /\ malformed_ok p /\
  (pkt_has_eth p = true -> exists off, link_layer bs p off) /\
  (pkt_network_proto p <> NS_PROTO_UNKNOWN ->
     exists off, link_layer bs p off /\ network_layer bs p off) /\
  (pkt_transport_proto p <> NS_PROTO_UNKNOWN ->
     exists off at_ proto, link_layer bs p off /\ network_layer bs p off /\
       upper_layer bs p off at_ proto /\ transport_layer bs p at_ proto) /\
  (pkt_has_dns p = true -> dns_layer bs p).

(** A later fragment of an IPv6 datagram: the chain of extension headers holds a Fragment
    header whose fragment offset is not zero, so that no transport header follows it. *)
Definition later_ipv6_fragment (bs : list byte) (p : ns_packet_t) : Prop :=
  match pkt_network_proto p, pkt_net p with
  | NS_PROTO_IPV6, NetIpv6 ipv6 =>
      exists off n at_, link_layer bs p off /\
        extension_chain bs n (off + 40) (ipv6_next_header ipv6) at_ NS_IPV6_NEXT_FRAGMENT /\
        at_ + 8 <= zlen bs /\ u16_at bs (at_ + 2) / 8 <> 0
  | _, _ => False
  end.

(** The bytes at [at_] are no header of the transport protocol [proto], which has a parser. *)
Definition transport_broken (bs : list byte) (at_ proto : Z) : Prop :=
  let rest := drop (Z.to_nat at_) bs in
  match transport_tag proto with
  | NS_PROTO_TCP => (tcp_spec zero_tcp rest).1.1 <> NS_PARSE_OK
  | NS_PROTO_UDP => (udp_spec zero_udp rest).1 <> NS_PARSE_OK
  | NS_PROTO_ICMP => (icmp_spec zero_icmp rest).1 <> NS_PARSE_OK
  | NS_PROTO_ICMPV6 => (icmpv6_spec zero_icmpv6 rest).1 <> NS_PARSE_OK
  | _ => False
  end.

(** The bytes at [off] are no header of the network protocol the Ethernet type announces: an
    IP header that is cut or inconsistent, a cut ARP packet. *)
Definition network_broken (bs : list byte) (ethertype off : Z) : Prop :=
  let rest := drop (Z.to_nat off) bs in
  match network_tag ethertype with
  | NS_PROTO_IPV4 => (ipv4_spec zero_ipv4 rest).1.1 <> NS_PARSE_OK
  | NS_PROTO_IPV6 => (ipv6_spec zero_ipv6 rest).1.1 <> NS_PARSE_OK
  | NS_PROTO_ARP => (arp_spec zero_arp rest).1 = NS_PARSE_TRUNCATED
  | _ => False
  end.

(** The extension headers after the IPv6 header at [off] lead to no upper layer. *)
Definition extensions_broken (bs : list byte) (p : ns_packet_t) (off : Z) : Prop :=
  exists ipv6, pkt_network_proto p = NS_PROTO_IPV6 /\ pkt_net p = NetIpv6 ipv6 /\
    (extension_walk NS_IPV6_MAX_EXTENSION_HEADERS bs (off + 40) (ipv6_next_header ipv6)).1.1 = false.

(** Some layer that is announced is not there. *)
Definition layer_broken (bs : list byte) (p : ns_packet_t) : Prop :=
  (eth_spec zero_eth bs).1.1 <> NS_PARSE_OK \/
  exists off, link_layer bs p off /\
    (network_broken bs (eth_ethertype (pkt_eth p)) off \/ extensions_broken bs p off \/
     exists at_ proto, upper_layer bs p off at_ proto /\ transport_broken bs at_ proto).

(** Completeness: in a packet that is not flagged, every layer that has a parser is decoded,
    where one of its kind can start. *)
Definition packet_complete (bs : list byte) (p : ns_packet_t) : Prop :=
  pkt_malformed p = false ->
  (pkt_link_type p = NS_LINK_ETHERNET -> pkt_has_eth p = true) /\
  (pkt_has_eth p = true -> network_tag (eth_ethertype (pkt_eth p)) <> NS_PROTO_ARP ->
     pkt_network_proto p = network_tag (eth_ethertype (pkt_eth p))) /\
  (forall off arp, link_layer bs p off -> eth_ethertype (pkt_eth p) = NS_ETHERTYPE_ARP ->
     arp_spec zero_arp (drop (Z.to_nat off) bs) = (NS_PARSE_OK, arp) ->
     pkt_network_proto p = NS_PROTO_ARP) /\
  (~ later_ipv6_fragment bs p ->
     (forall off at_ proto, link_layer bs p off -> upper_layer bs p off at_ proto ->
        pkt_transport_proto p = transport_tag proto) /\
     (dns_ports p -> forall o qs rs, pkt_payload p = Some o ->
        dns_message (drop (Z.to_nat o) bs) qs rs -> pkt_has_dns p = true)).

(** A packet is flagged only for a layer that is broken. *)
Definition flagged_rightly (bs : list byte) (p : ns_packet_t) : Prop :=
  pkt_malformed p = true -> layer_broken bs p.

(** ** Running a parser on the rest of the packet *)

(** The pointer and length passed down are a valid view of the bytes after [off]. *)
Lemma subview data length off :
  view_ok data length -> 0 <= off <= length ->
  ptr_add data off = Done (drop (Z.to_nat off) data) /\ szsub length off = length - off /\
  view_ok (drop (Z.to_nat off) data) (length - off) /\
  view (drop (Z.to_nat off) data) (length - off) = drop (Z.to_nat off) (view data length).
Proof.
  intros [Hl Hm] Ho. split; [apply ptr_add_done; lia|]. split; [apply szsub_small; lia|].
  split; [unfold view_ok; rewrite zlen_drop; lia|].
  unfold view. rewrite take_drop_commute. do 2 f_equal. lia.
Qed.

(** A parser behind the interface, called on the rest of the packet. *)
Lemma wp_layer {R} (parse : list byte -> Z -> M R) post `{!Decoder parse post} data length off (Q : R -> Prop) :
  view_ok data length -> 0 <= off <= length ->
  (forall r, post (drop (Z.to_nat off) (view data length)) r -> Q r) ->
  wp (parse (drop (Z.to_nat off) data) (szsub length off)) Q.
Proof.
  intros Hv Ho HQ. destruct (subview data length off Hv Ho) as (_ & -> & Hv' & Hview).
  eapply wp_mono; [by apply decoder_safe|]. rewrite Hview. exact HQ.
Qed.

Lemma zlen_rest data length off :
  view_ok data length -> 0 <= off <= length ->
  zlen (drop (Z.to_nat off) (view data length)) = length - off.
Proof. intros Hv Ho. rewrite zlen_drop, zlen_view by done. lia. Qed.

Lemma set_payload_done p data length off :
  view_ok data length -> 0 <= off <= length ->
  ns_packet_set_payload p data length off = Done (set_payload p (Some off) (length - off)).
Proof.
  intros Hv Ho. unfold ns_packet_set_payload. rewrite Z.gtb_ltb.
  destruct (Z.ltb_spec length off); [lia|]. destruct (subview data length off Hv Ho) as (-> & -> & _). done.
Qed.

(** What a parser's status says about the header length it reports. *)
Lemma tcp_spec_cases out bs :
  match tcp_spec out bs with
  | (NS_PARSE_OK, _, h) => exists n, h = Some n /\ 20 <= n <= zlen bs
  | (NS_PARSE_UNSUPPORTED, _, _) => False
  | _ => True
  end.
Proof.
  unfold tcp_spec. destruct (zlen bs <? 20); [done|]. destruct (Z.ltb_spec (4 * (u8_at bs 12 / 16)) 20); [done|].
  destruct (Z.ltb_spec (zlen bs) (4 * (u8_at bs 12 / 16))); [done|]. eexists. split; [done|lia].
Qed.

Lemma udp_spec_cases out bs :
  match udp_spec out bs with
  | (NS_PARSE_OK, _) => 8 <= zlen bs
  | (NS_PARSE_UNSUPPORTED, _) => False
  | _ => True
  end.
Proof. unfold udp_spec. destruct (Z.ltb_spec (zlen bs) 8); [done|]. by destruct (_ <? 8). Qed.

Lemma ipv4_spec_cases out bs :
  match ipv4_spec out bs with
  | (NS_PARSE_OK, ipv4, h) => h = Some (ipv4_header_length ipv4) /\ 20 <= ipv4_header_length ipv4 <= zlen bs
  | (NS_PARSE_UNSUPPORTED, _, _) => False
  | _ => True
  end.
Proof.
  unfold ipv4_spec. destruct (zlen bs <? 20); [done|].
  destruct (_ =? 4); cbn [negb orb]; [|done].
  destruct (Z.ltb_spec (4 * (u8_at bs 0 mod 16)) 20); [done|].
  destruct (Z.ltb_spec (zlen bs) (4 * (u8_at bs 0 mod 16))); [done|].
  destruct (_ <? _); [done|]. cbn [ipv4_fields ipv4_header_length]. split; [done|lia].
Qed.

Lemma ipv6_spec_cases out bs :
  match ipv6_spec out bs with
  | (NS_PARSE_OK, ipv6, h) => h = Some 40 /\ 40 <= zlen bs
  | (NS_PARSE_UNSUPPORTED, _, _) => False
  | _ => True
  end.
Proof. unfold ipv6_spec. destruct (Z.ltb_spec (zlen bs) 40); [done|]. by destruct (negb _). Qed.

Lemma eth_spec_cases out bs :
  match eth_spec out bs with
  | (NS_PARSE_OK, _, h) => exists n, h = Some n /\ 14 <= n <= zlen bs
  | _ => True
  end.
Proof.
  unfold eth_spec. destruct (Z.leb_spec 14 (zlen bs)); cbn [negb]; [|done].
  destruct (_ =? 0x8100); cbn [negb]; [|by eexists].
  destruct (Z.leb_spec 18 (zlen bs)); cbn [negb]; [|done]. eexists. split; [done|lia].
Qed.

(** ** The application layer *)

Section stages.
Context (data : list byte) (length : Z) (Hview : view_ok data length).
#[local] Notation bs := (view data length).

Lemma parse_dns_stage p o sp dp :
  0 <= o <= length -> pkt_has_dns p = false ->
  wp (ns_packet_parse_dns_if_applicable p data length o sp dp) (fun p' =>
    exists dns has, p' = set_dns p dns has /\
      (has = true -> (sp = 53 \/ dp = 53) /\
         exists qs rs, dns_message (drop (Z.to_nat o) bs) qs rs /\ dns_info_ok (drop (Z.to_nat o) bs) dns qs rs) /\
      (sp = 53 \/ dp = 53 -> forall qs rs, dns_message (drop (Z.to_nat o) bs) qs rs -> has = true)).
Proof.
  intros Ho Hd. unfold ns_packet_parse_dns_if_applicable. destruct (subview data length o Hview Ho) as (-> & _).
  assert (Hsame : p = set_dns p (pkt_dns p) false) by (destruct p; cbn in *; by subst).
  destruct (negb (sp =? 53) && negb (dp =? 53)) eqn:Hports.
  { rewrite andb_true_iff, !negb_true_iff, !Z.eqb_neq in Hports. cbn [wp]. eexists _, _.
    split; [exact Hsame|]. split; [done|]. tauto. }
  rewrite andb_false_iff, !negb_false_iff, !Z.eqb_eq in Hports.
  rewrite Z.gtb_ltb. destruct (Z.ltb_spec length o); [lia|]. mred. apply wp_bind.
  apply (wp_layer (fun d l => ns_parse_dns d l (pkt_dns p)) _ data length o); [done|done|].
  intros [status dns] Hpost. destruct (dns_status_cases _ _ _ _ Hpost) as [(-> & Hm)|(Hst & Hno)].
  - cbn. exists dns, true. split; [done|]. split; [|done]. intros _. split; [tauto|done].
  - assert (E : forall A (x y : A), match status with NS_PARSE_OK => x | _ => y end = y) by (by destruct status).
    cbn. rewrite E. exists dns, false. rewrite Hd. split; [done|]. split; [done|].
    intros _ qs rs Hm. by destruct (Hno qs rs).
Qed.

(** *** The transport layer *)

(** The part of a packet the network layer has completed. *)
Definition lower (p : ns_packet_t) :=
  (pkt_number p, pkt_timestamp p, pkt_captured_length p, pkt_original_length p, pkt_raw_data p,
   pkt_link_type p, pkt_has_eth p, pkt_eth p, pkt_network_proto p, pkt_net p).

(** The part the caller of [ns_packet_parse] provides. *)
Definition lower_meta (p : ns_packet_t) :=
  (pkt_number p, pkt_timestamp p, pkt_captured_length p, pkt_original_length p, pkt_raw_data p,
   pkt_link_type p).

(** No upper layer yet, the payload starting at [at_], nothing flagged. *)
Definition fresh (at_ : Z) (p : ns_packet_t) : Prop :=
  pkt_transport_proto p = NS_PROTO_UNKNOWN /\ pkt_transport p = TransportZero /\
  pkt_has_dns p = false /\ pkt_payload p = Some at_ /\ pkt_payload_length p = length - at_ /\
  pkt_malformed p = false /\ pkt_malformed_reason p = None.

Definition transport_done (at_ proto : Z) (p p' : ns_packet_t) : Prop :=
  lower p' = lower p /\ payload_ok bs p' /\ malformed_ok p' /\
  (pkt_transport_proto p' <> NS_PROTO_UNKNOWN -> transport_layer bs p' at_ proto) /\
  (pkt_has_dns p' = true -> dns_layer bs p') /\
  (pkt_malformed p' = false ->
     pkt_transport_proto p' = transport_tag proto /\
     (dns_ports p' -> forall o qs rs, pkt_payload p' = Some o ->
        dns_message (drop (Z.to_nat o) bs) qs rs -> pkt_has_dns p' = true)) /\
  (pkt_malformed p' = true -> transport_broken bs at_ proto).

(** A transport layer that could not be decoded. *)
Lemma transport_failed at_ proto p t reason :
  0 <= at_ <= length -> fresh at_ p -> transport_broken bs at_ proto ->
  transport_done at_ proto p (ns_packet_mark_malformed (set_transport p t) reason).
Proof.
  intros Hat. destruct p. intros (? & ? & ? & ? & ? & ? & ?) Hb. cbn in *. subst.
  split; [done|]. split; [exists at_; by rewrite zlen_view by done|]. split; [by split|].
  by repeat (split; [done|]).
Qed.

(** A layer without ports: nothing above it is looked at. *)
Lemma transport_portless at_ proto p t tag :
  0 <= at_ <= length -> fresh at_ p -> tag = transport_tag proto ->
  (tag <> NS_PROTO_UNKNOWN -> transport_layer bs (set_transport_proto (set_transport p t) tag) at_ proto) ->
  tag <> NS_PROTO_TCP -> tag <> NS_PROTO_UDP ->
  transport_done at_ proto p (set_transport_proto (set_transport p t) tag).
Proof.
  intros Hat. destruct p. intros (? & ? & ? & ? & ? & ? & ?) Htag Hl Ht Hu. cbn in *. subst.
  split; [done|]. split; [exists at_; by rewrite zlen_view by done|]. split; [by split; [|intros [? ?]]|].
  split; [done|]. split; [done|]. split; [|done]. intros _. split; [done|]. unfold dns_ports. cbn.
  destruct (transport_tag proto), t; done.
Qed.

(** A layer with ports: the payload after it is tried as DNS. *)
Lemma transport_ported at_ proto p t tag o sp dp :
  0 <= at_ -> at_ <= o <= length -> fresh at_ p -> tag = transport_tag proto ->
  let p1 := set_transport_proto (set_transport p t) tag in
  transport_layer bs (set_payload p1 (Some o) (length - o)) at_ proto ->
  (dns_ports p1 <-> sp = 53 \/ dp = 53) ->
  wp (p1 ← ns_packet_set_payload p1 data length o;
      ns_packet_parse_dns_if_applicable p1 data length o sp dp) (transport_done at_ proto p).
Proof.
  intros Hat Ho. destruct p. intros (? & ? & ? & ? & ? & ? & ?) Htag p1 Hl Hports. subst p1. cbn in *. subst.
  rewrite set_payload_done by (done || lia). mred. eapply wp_mono; [apply parse_dns_stage; [lia|done]|].
  intros p' (dns & has & -> & Hs & Hc). cbn in *. split; [done|].
  split; [exists o; rewrite zlen_view by done; split; [done|]; split; [lia|done]|].
  split; [by split; [|intros [? ?]]|]. split; [intros _; by destruct (transport_tag proto)|]. split.
  - intros Hhas. cbn in Hhas. subst has. destruct (Hs eq_refl) as (Hp & qs & rs & Hm & Hi). split; [by apply Hports|]. by exists o, qs, rs.
  - split; [|done]. intros _. split; [done|]. intros Hp o' qs rs [= <-] Hm. eapply Hc; [by apply Hports|done].
Qed.

Lemma parse_transport_stage p at_ proto :
  0 <= at_ <= length -> fresh at_ p ->
  wp (ns_packet_parse_transport p data length at_ proto) (transport_done at_ proto p).
Proof.
  intros Hat Hf. pose proof Hf as (_ & Ht & _). unfold ns_packet_parse_transport. rewrite Ht.
  destruct (subview data length at_ Hview Hat) as (-> & _). pose proof (zlen_rest data length at_ Hview Hat) as Hz.
  pose proof Hview as [Hv1 Hv2]. set (rest := drop (Z.to_nat at_) bs) in *.
  destruct (Z.eqb_spec proto NS_IP_PROTO_TCP) as [->|].
  { cbn [transport_tcp]. mred. apply wp_bind.
    apply (wp_layer (fun d l => ns_parse_tcp d l zero_tcp) _ data length at_); [done|done|].
    intros [[status tcp] h] E. pose proof (tcp_spec_cases zero_tcp rest) as Hc. fold rest in E.
    rewrite <- E in Hc. cbn beta iota. destruct status; [|apply transport_failed; [done|done|by unfold transport_broken; cbn zeta; fold rest; rewrite <- E]..|done].
    destruct Hc as (n & -> & Hn). cbn [use_init]. mred. rewrite szadd_small by lia.
    apply transport_ported; [lia|lia|done|done| |by destruct p].
    destruct p. cbn. split; [done|]. by exists tcp, n. }
  destruct (Z.eqb_spec proto NS_IP_PROTO_UDP) as [->|].
  { cbn [transport_udp]. mred. apply wp_bind.
    apply (wp_layer (fun d l => ns_parse_udp d l zero_udp) _ data length at_); [done|done|].
    intros [status udp] E. pose proof (udp_spec_cases zero_udp rest) as Hc. fold rest in E.
    rewrite <- E in Hc. cbn beta iota. destruct status; [|apply transport_failed; [done|done|by unfold transport_broken; cbn zeta; fold rest; rewrite <- E]..|done].
    rewrite szadd_small by lia. apply transport_ported; [lia|lia|done|done| |by destruct p].
    destruct p. cbn. split; [done|]. by exists udp. }
  destruct (Z.eqb_spec proto NS_IP_PROTO_ICMP) as [->|].
  { cbn [transport_icmp]. mred. apply wp_bind.
    apply (wp_layer (fun d l => ns_parse_icmp d l zero_icmp) _ data length at_); [done|done|].
    intros [status icmp] E. fold rest in E. cbn beta iota. destruct status; try (apply transport_failed; [done|done|by unfold transport_broken; cbn zeta; fold rest; rewrite <- E]).
    apply transport_portless; try done. intros _. destruct p, Hf as (? & ? & ? & ? & _). cbn in *. by eauto. }
  destruct (Z.eqb_spec proto NS_IP_PROTO_ICMPV6) as [->|].
  { cbn [transport_icmpv6]. mred. apply wp_bind.
    apply (wp_layer (fun d l => ns_parse_icmpv6 d l zero_icmpv6) _ data length at_); [done|done|].
    intros [status icmp] E. fold rest in E. cbn beta iota. destruct status; try (apply transport_failed; [done|done|by unfold transport_broken; cbn zeta; fold rest; rewrite <- E]).
    apply transport_portless; try done. intros _. destruct p, Hf as (? & ? & ? & ? & _). cbn in *. by eauto. }
  cbn [wp]. replace p with (set_transport_proto (set_transport p TransportZero) NS_PROTO_UNKNOWN) at 2
    by (destruct p, Hf as (? & ? & _); cbn in *; by subst).
  apply transport_portless; try done. unfold transport_tag. by zcases.
Qed.

(** *** The network layer *)

Definition packet_ok (p : ns_packet_t) : Prop :=
  packet_sound bs p /\ packet_complete bs p /\ flagged_rightly bs p.

Lemma link_layer_det p off off' : link_layer bs p off -> link_layer bs p off' -> off = off'.
Proof. intros [_ H] [_ H']. congruence. Qed.

Lemma upper_layer_det p off a1 p1 a2 p2 :
  upper_layer bs p off a1 p1 -> upper_layer bs p off a2 p2 -> a1 = a2 /\ p1 = p2.
Proof.
  unfold upper_layer. destruct (pkt_network_proto p), (pkt_net p); try done.
  - intros (-> & -> & _) (-> & -> & _). done.
  - intros H1 H2. split; congruence.
Qed.

(** The layers below are untouched by what comes after. *)
Lemma lower_layers p p' off :
  lower p' = lower p ->
  (link_layer bs p' off <-> link_layer bs p off) /\ (network_layer bs p' off <-> network_layer bs p off) /\
  forall at_ proto, upper_layer bs p' off at_ proto <-> upper_layer bs p off at_ proto.
Proof. destruct p, p'. intros [= -> -> -> -> -> -> -> -> -> ->]. done. Qed.

(** A packet whose upper layer has been tried. *)
Lemma packet_ok_upper p p' off at_ proto :
  link_layer bs p off -> network_layer bs p off -> upper_layer bs p off at_ proto ->
  pkt_network_proto p = network_tag (eth_ethertype (pkt_eth p)) ->
  transport_done at_ proto p p' -> packet_ok p'.
Proof.
  intros Hl Hn Hu Htag (Hlow & Hpay & Hmal & Ht & Hd & Hc & Hb). destruct (lower_layers p p' off Hlow) as (El & En & Eu).
  split; [|split].
  - split; [done|]. split; [done|]. split; [intros _; exists off; by apply El|].
    split; [intros _; exists off; by rewrite El, En|]. split; [|done].
    intros H. exists off, at_, proto. rewrite El, En, Eu. auto.
  - intros Hm. destruct (Hc Hm) as [Htp Hdns]. assert (He : pkt_has_eth p' = true) by (by apply El).
    assert (Htag' : pkt_network_proto p' = network_tag (eth_ethertype (pkt_eth p')))
      by (by injection Hlow as _ _ _ _ _ _ _ -> -> _).
    split; [done|]. split; [done|]. split; [by intros ? ? _ E _; rewrite Htag', E|].
    intros _. split; [|done]. intros off' at' proto' Hl' Hu'. rewrite <- (link_layer_det _ _ _ (proj2 El Hl) Hl') in Hu'. rewrite Eu in Hu'.
    by destruct (upper_layer_det _ _ _ _ _ _ Hu Hu') as [_ <-].
  - intros Hm. right. exists off. split; [by apply El|]. right. right. exists at_, proto. split; [by apply Eu|auto].
Qed.

(** A packet whose decoding ends below the transport layer. *)
Lemma packet_ok_stop p off :
  link_layer bs p off -> (pkt_network_proto p <> NS_PROTO_UNKNOWN -> network_layer bs p off) ->
  payload_ok bs p -> malformed_ok p -> pkt_transport_proto p = NS_PROTO_UNKNOWN -> pkt_has_dns p = false ->
  (pkt_malformed p = false ->
     (network_tag (eth_ethertype (pkt_eth p)) <> NS_PROTO_ARP ->
        pkt_network_proto p = network_tag (eth_ethertype (pkt_eth p))) /\
     (forall arp, eth_ethertype (pkt_eth p) = NS_ETHERTYPE_ARP ->
        arp_spec zero_arp (drop (Z.to_nat off) bs) = (NS_PARSE_OK, arp) ->
        pkt_network_proto p = NS_PROTO_ARP) /\
     forall at_ proto, ~ upper_layer bs p off at_ proto) ->
  (pkt_malformed p = true ->
     network_broken bs (eth_ethertype (pkt_eth p)) off \/ extensions_broken bs p off) ->
  packet_ok p.
Proof.
  intros Hl Hn Hpay Hmal Ht Hd Hc Hb. split; [|split].
  - split; [done|]. split; [done|]. split; [by exists off|]. split; [by exists off; auto|].
    split; [done|]. by rewrite Hd.
  - intros Hm. destruct (Hc Hm) as (Htag & Harp & Hno). split; [by destruct Hl|]. split; [done|]. split.
    { intros off' arp Hl'. rewrite <- (link_layer_det _ _ _ Hl Hl'). apply Harp. }
    intros _. split.
    + intros off' at_ proto Hl' Hu. rewrite <- (link_layer_det _ _ _ Hl Hl') in Hu. by destruct (Hno at_ proto).
    + unfold dns_ports. by rewrite Ht.
  - intros Hm. right. exists off. split; [done|]. destruct (Hb Hm); auto.
Qed.

(** The packet between the link and the network layer. *)
Definition linked (off : Z) (p : ns_packet_t) : Prop :=
  0 <= off <= length /\ link_layer bs p off /\ fresh off p /\
  pkt_network_proto p = NS_PROTO_UNKNOWN /\ pkt_net p = NetZero.

Lemma network_failed p off n reason :
  linked off p -> network_broken bs (eth_ethertype (pkt_eth p)) off ->
  packet_ok (ns_packet_mark_malformed (set_net p n) reason).
Proof.
  intros (Ho & Hl & Hf & Hn & _) Hb. destruct p, Hf as (? & ? & ? & ? & ? & ? & ?). cbn in *. subst.
  apply (packet_ok_stop _ off); try done; [exists off; by rewrite zlen_view by done|].
  intros _. by left.
Qed.

(** The packet after a network header that ends at [at_]. *)
Definition networked (p : ns_packet_t) (tag : ns_proto_t) (n : ns_net_t) (at_ : Z) : ns_packet_t :=
  set_payload (set_network_proto (set_net p n) tag) (Some at_) (length - at_).

Lemma fresh_networked p off tag n at_ : fresh off p -> fresh at_ (networked p tag n at_).
Proof. destruct p. by intros (? & ? & ? & ? & ? & ? & ?). Qed.

Lemma lower_meta_transport at_ proto p p' : transport_done at_ proto p p' -> lower_meta p' = lower_meta p.
Proof. intros (Hlow & _). destruct p, p'. by injection Hlow as -> -> -> -> -> -> _ _ _ _. Qed.

(** The upper layer above a decoded network layer. *)
Lemma network_done p off tag n at_ proto :
  linked off p -> 0 <= at_ <= length -> tag = network_tag (eth_ethertype (pkt_eth p)) ->
  network_layer bs (networked p tag n at_) off -> upper_layer bs (networked p tag n at_) off at_ proto ->
  wp (ns_packet_parse_transport (networked p tag n at_) data length at_ proto)
     (fun p' => lower_meta p' = lower_meta p /\ packet_ok p').
Proof.
  intros (Ho & Hl & Hf & _ & _) Hat Htag Hn Hu. eapply wp_mono.
  { apply parse_transport_stage; [done|by eapply fresh_networked]. }
  intros p' Hd. split; [rewrite (lower_meta_transport _ _ _ _ Hd); by destruct p|].
  eapply (packet_ok_upper (networked p tag n at_) p' off at_ proto); try done; by destruct p.
Qed.

Lemma parse_ipv4_stage p off :
  linked off p -> eth_ethertype (pkt_eth p) = NS_ETHERTYPE_IPV4 ->
  wp (ns_packet_parse_ipv4 p data length off) (fun p' => lower_meta p' = lower_meta p /\ packet_ok p').
Proof.
  intros Hlk He. pose proof Hlk as (Ho & Hl & Hf & Hn & Hz). unfold ns_packet_parse_ipv4. rewrite Hz.
  destruct (subview data length off Hview Ho) as (-> & _). pose proof (zlen_rest data length off Hview Ho) as Hzr.
  pose proof Hview as [Hv1 Hv2]. set (rest := drop (Z.to_nat off) bs) in *.
  cbn [net_ipv4]. mred. apply wp_bind.
  apply (wp_layer (fun d l => ns_parse_ipv4 d l zero_ipv4) _ data length off); [done|done|].
  intros [[status ipv4] h] E. pose proof (ipv4_spec_cases zero_ipv4 rest) as Hc. fold rest in E.
  rewrite <- E in Hc. cbn beta iota.
  destruct status; [|split; [by destruct p|eapply network_failed; [done|];
    unfold network_broken; cbn zeta; fold rest; by rewrite He, <- E]..|done].
  destruct Hc as [-> Hh]. cbn [use_init]. mred. rewrite szadd_small, set_payload_done by (done || lia). mred.
  fold (networked p NS_PROTO_IPV4 (NetIpv4 ipv4) (off + ipv4_header_length ipv4)).
  assert (Hnet : network_layer bs (networked p NS_PROTO_IPV4 (NetIpv4 ipv4) (off + ipv4_header_length ipv4)) off).
  { destruct p. cbn in *. split; [done|]. by exists ipv4. }
  destruct (ipv4_is_fragment ipv4 && negb (ipv4_is_initial_fragment ipv4)) eqn:Hfrag.
  - apply andb_true_iff in Hfrag as [Hf1 Hf2]. cbn [wp]. split; [by destruct p|].
    destruct p, Hf as (? & ? & ? & ? & ? & ? & ?). cbn in *. subst. apply (packet_ok_stop _ off); try done; cbn.
    + exists (off + ipv4_header_length ipv4). rewrite zlen_view by done. cbn. split; [done|]. split; [lia|done].
    + by split; [|intros [? ?]].
    + rewrite He. intros _. split; [done|]. split; [done|].
      intros at_ proto (_ & _ & Hi). rewrite (Hi Hf1) in Hf2. done.
  - apply (network_done p off); [done|lia|by rewrite He|done|]. destruct p. cbn. split; [done|]. split; [done|].
    intros Hf1. rewrite Hf1 in Hfrag. by destruct (ipv4_is_initial_fragment ipv4).
Qed.

Lemma parse_ipv6_stage p off :
  linked off p -> eth_ethertype (pkt_eth p) = NS_ETHERTYPE_IPV6 ->
  wp (ns_packet_parse_ipv6 p data length off) (fun p' => lower_meta p' = lower_meta p /\ packet_ok p').
Proof.
  intros Hlk He. pose proof Hlk as (Ho & Hl & Hf & Hn & Hz). unfold ns_packet_parse_ipv6. rewrite Hz.
  destruct (subview data length off Hview Ho) as (-> & _). pose proof (zlen_rest data length off Hview Ho) as Hzr.
  pose proof Hview as [Hv1 Hv2]. set (rest := drop (Z.to_nat off) bs) in *.
  cbn [net_ipv6]. mred. apply wp_bind.
  apply (wp_layer (fun d l => ns_parse_ipv6 d l zero_ipv6) _ data length off); [done|done|].
  intros [[status ipv6] h] E. pose proof (ipv6_spec_cases zero_ipv6 rest) as Hc. fold rest in E.
  rewrite <- E in Hc. cbn beta iota.
  destruct status; [|split; [by destruct p|eapply network_failed; [done|];
    unfold network_broken; cbn zeta; fold rest; by rewrite He, <- E]..|done].
  destruct Hc as [-> Hh]. cbn [use_init]. mred. rewrite szadd_small by lia.
  unfold ns_ipv6_skip_extension_headers. rewrite skip_extensions_walk by (done || lia). mred.
  pose proof (extension_walk_bounds NS_IPV6_MAX_EXTENSION_HEADERS bs (off + 40) (ipv6_next_header ipv6)) as Hb.
  rewrite zlen_view in Hb by done. specialize (Hb ltac:(lia)).
  destruct (extension_walk _ _ _ _) as [[ok at_] nh] eqn:Ew.
  assert (Hnet : network_layer bs (networked p NS_PROTO_IPV6 (NetIpv6 ipv6) at_) off).
  { destruct p. cbn in *. split; [done|]. by exists ipv6. }
  destruct ok; cbn [negb].
  - rewrite set_payload_done by (done || lia). mred. fold (networked p NS_PROTO_IPV6 (NetIpv6 ipv6) at_).
    apply (network_done p off); [done|lia|by rewrite He|done|]. by destruct p.
  - rewrite set_payload_done by (done || lia). cbn [wp]. split; [by destruct p|].
    destruct p, Hf as (? & ? & ? & ? & ? & ? & ?). cbn in *. subst. apply (packet_ok_stop _ off); try done; cbn.
    + exists at_. rewrite zlen_view by done. cbn. split; [done|]. split; [lia|done].
    + intros _. right. exists ipv6. cbn. by rewrite Ew.
Qed.

Lemma parse_arp_stage p off :
  linked off p -> eth_ethertype (pkt_eth p) = NS_ETHERTYPE_ARP ->
  wp (ns_packet_parse_arp p data length off) (fun p' => lower_meta p' = lower_meta p /\ packet_ok p').
Proof.
  intros Hlk He. pose proof Hlk as (Ho & Hl & Hf & Hn & Hz). unfold ns_packet_parse_arp. rewrite Hz.
  destruct (subview data length off Hview Ho) as (-> & _). cbn [net_arp]. mred. apply wp_bind.
  apply (wp_layer (fun d l => ns_parse_arp d l zero_arp) _ data length off); [done|done|].
  intros [status arp] E. cbn beta iota. rewrite set_payload_done by done. cbn [wp].
  destruct p, Hf as (? & ? & ? & ? & ? & ? & ?). cbn in *. subst.
  split; [by destruct status|]. apply (packet_ok_stop _ off); destruct status; try done; cbn.
  all: first [by exists off; rewrite zlen_view by done | by split; [|intros [? ?]]
             | intros _; split; [done|]; by exists arp
             | intros _; left; unfold network_broken; rewrite He; cbn zeta; by rewrite <- E
             | rewrite He; intros _; split; [by intros []|]; split; [|by intros ? ? []];
               intros arp' _ E'; rewrite <- E in E'; by simplify_eq].
Qed.
End stages.

(** ** The whole parser *)

Lemma ns_packet_parse_ok data captured original ts number link :
  view_ok data captured ->
  wp (ns_packet_parse data captured original ts number link) (fun p =>
    lower_meta p = (number, ts, captured, original, data, link) /\ packet_ok data captured p).
Proof.
  intros Hv. pose proof Hv as [Hv1 Hv2]. unfold ns_packet_parse.
  assert (Hbare : forall eth m r, (m = true <-> is_Some r) -> (link = NS_LINK_ETHERNET -> m = true) ->
    (m = true -> (eth_spec zero_eth (view data captured)).1.1 <> NS_PARSE_OK) ->
    packet_ok data captured (Packet number ts captured original data link false eth NS_PROTO_UNKNOWN NetZero
      NS_PROTO_UNKNOWN TransportZero false zero_dns (Some 0) captured m r)).
  { intros eth m r Hm He Hb. split; [|split].
    - split; [exists 0; rewrite zlen_view by done; cbn; split; [done|]; lia|]. by repeat (split; [done|]).
    - intros Hf. cbn in Hf. split; [intros Hl; cbn in Hl; by rewrite He in Hf|]. split; [done|].
      split; [by intros ? ? [? _]|]. intros _. split; [by intros ? ? ? [? _]|]. by intros [].
    - intros Hf. left. auto. }
  destruct link; [split; [done|]; apply Hbare; [by split; [|intros [? ?]]|done|done]|].
  rewrite ns_parse_ethernet_spec by done. mred. pose proof (eth_spec_cases zero_eth (view data captured)) as Hc.
  destruct (eth_spec zero_eth (view data captured)) as [[status eth] h] eqn:E. cbn [pkt_eth] in *. rewrite E.
  destruct status; [|by split; [|apply Hbare]..].
  destruct Hc as (off & -> & Hoff). rewrite zlen_view in Hoff by done. cbn [use_init]. mred.
  rewrite set_payload_done by (done || lia). mred. set (p := set_payload _ _ _).
  assert (Hlk : linked data captured off p) by (by repeat split; try lia).
  assert (Hmeta : (number, ts, captured, original, data, NS_LINK_ETHERNET) = lower_meta p) by done.
  rewrite Hmeta. change eth with (pkt_eth p). destruct (Z.eqb_spec (eth_ethertype (pkt_eth p)) NS_ETHERTYPE_IPV4).
  { by apply parse_ipv4_stage. }
  destruct (Z.eqb_spec (eth_ethertype (pkt_eth p)) NS_ETHERTYPE_IPV6); [by apply parse_ipv6_stage|].
  destruct (Z.eqb_spec (eth_ethertype (pkt_eth p)) NS_ETHERTYPE_ARP); [by apply parse_arp_stage|].
  cbn [wp]. split; [done|]. destruct Hlk as (_ & Hl & _).
  apply (packet_ok_stop data captured p off); try done.
  - exists off. rewrite zlen_view by done. split; [done|]. split; [lia|done].
  - by split; [|intros [? ?]].
  - intros _. split; [intros _; unfold network_tag; by zcases|]. split; [done|]. by intros ? ? [].
Qed.

(** ** Locality

    Nothing but the captured bytes decides what is decoded: parsing the whole buffer is parsing
    those bytes alone, and pointing the result at the buffer. *)

Definition with_raw (d : list byte) (p : ns_packet_t) : ns_packet_t :=
  let '(Packet num ts cl ol _ lt he e np n tp t hd dns pl pll m mr) := p in
  Packet num ts cl ol d lt he e np n tp t hd dns pl pll m mr.

Section local.
Context (data : list byte) (length : Z) (Hview : view_ok data length).
#[local] Notation bs := (view data length).

(** [m] is [m'] up to the buffer pointed at. *)
Definition repoint (m m' : M ns_packet_t) : Prop := m = (p ← m'; Done (with_raw data p)).

Lemma layer_local {R} (parse : list byte -> Z -> M R) post `{!Decoder parse post} off :
  0 <= off <= length ->
  parse (drop (Z.to_nat off) data) (szsub length off) = parse (drop (Z.to_nat off) bs) (szsub length off).
Proof.
  intros Ho. destruct (subview data length off Hview Ho) as (_ & -> & Hv & <-).
  rewrite (decoder_local (p := parse) (drop (Z.to_nat off) data) (length - off)) by done. done.
Qed.

(** Both pointers are formed. *)
Lemma pointers off :
  0 <= off <= length ->
  ptr_add data off = Done (drop (Z.to_nat off) data) /\ ptr_add bs off = Done (drop (Z.to_nat off) bs).
Proof. intros Ho. pose proof Hview as [? ?]. by rewrite !ptr_add_done by (rewrite ?zlen_view; done || lia). Qed.

Lemma set_payload_local p off :
  0 <= off <= length ->
  repoint (ns_packet_set_payload (with_raw data p) data length off) (ns_packet_set_payload p bs length off).
Proof.
  intros Ho. unfold repoint. rewrite !set_payload_done by auto using view_ok_view. by destruct p.
Qed.

Lemma parse_dns_local p o sp dp :
  0 <= o <= length ->
  repoint (ns_packet_parse_dns_if_applicable (with_raw data p) data length o sp dp)
          (ns_packet_parse_dns_if_applicable p bs length o sp dp).
Proof.
  intros Ho. unfold repoint, ns_packet_parse_dns_if_applicable. destruct (_ && _); [done|].
  destruct (o >? length); [done|]. destruct (pointers o Ho) as [-> ->]. mred.
  replace (pkt_dns (with_raw data p)) with (pkt_dns p) by (by destruct p).
  rewrite (layer_local (fun d l => ns_parse_dns d l (pkt_dns p)) _ o Ho).
  destruct (ns_parse_dns _ _ _) as [[status dns]|f]; [|done]. mred. by destruct p, status.
Qed.

(** Setting the payload, then trying DNS. *)
Lemma payload_dns_local p o sp dp :
  0 <= o <= length ->
  repoint (p ← ns_packet_set_payload (with_raw data p) data length o;
           ns_packet_parse_dns_if_applicable p data length o sp dp)
          (p ← ns_packet_set_payload p bs length o; ns_packet_parse_dns_if_applicable p bs length o sp dp).
Proof.
  intros Ho. unfold repoint. rewrite set_payload_local by done.
  rewrite (set_payload_done p bs) by auto using view_ok_view. mred. by apply parse_dns_local.
Qed.

Lemma parse_transport_local p off proto :
  0 <= off <= length ->
  repoint (ns_packet_parse_transport (with_raw data p) data length off proto)
          (ns_packet_parse_transport p bs length off proto).
Proof.
  intros Ho. unfold repoint, ns_packet_parse_transport. destruct (pointers off Ho) as [-> ->]. mred.
  pose proof (subview data length off Hview Ho) as (_ & Hsub & Hv' & Hvw). pose proof Hview as [Hv1 Hv2].
  pose proof (zlen_rest data length off Hview Ho) as Hz. set (rest := drop (Z.to_nat off) bs) in *.
  assert (Hr : view_ok rest (length - off) /\ view rest (length - off) = rest).
  { rewrite <- Hvw. split; [by apply view_ok_view|apply view_view]. }
  destruct Hr as [Hr1 Hr2]. replace (pkt_transport (with_raw data p)) with (pkt_transport p) by (by destruct p).
  destruct (proto =? NS_IP_PROTO_TCP).
  { destruct (transport_tcp (pkt_transport p)) as [tcp|]; [|done]. mred.
    rewrite (layer_local (fun d l => ns_parse_tcp d l tcp) _ off Ho). fold rest.
    rewrite Hsub, ns_parse_tcp_spec, Hr2 by done. mred. pose proof (tcp_spec_cases tcp rest) as Hc.
    destruct (tcp_spec tcp rest) as [[status tcp'] h]. destruct status; [|by destruct p..].
    destruct Hc as (n & -> & Hn). cbn [use_init]. mred. rewrite szadd_small by lia.
    etrans; [|apply payload_dns_local; lia]. by destruct p. }
  destruct (proto =? NS_IP_PROTO_UDP).
  { destruct (transport_udp (pkt_transport p)) as [udp|]; [|done]. mred.
    rewrite (layer_local (fun d l => ns_parse_udp d l udp) _ off Ho). fold rest.
    rewrite Hsub, ns_parse_udp_spec, Hr2 by done. mred. pose proof (udp_spec_cases udp rest) as Hc.
    destruct (udp_spec udp rest) as [status udp']. destruct status; [|by destruct p..].
    rewrite szadd_small by lia. etrans; [|apply payload_dns_local; lia]. by destruct p. }
  destruct (proto =? NS_IP_PROTO_ICMP).
  { destruct (transport_icmp (pkt_transport p)) as [icmp|]; [|done]. mred.
    rewrite (layer_local (fun d l => ns_parse_icmp d l icmp) _ off Ho). fold rest.
    destruct (ns_parse_icmp _ _ _) as [[status i]|]; [|done]. by destruct p, status. }
  destruct (proto =? NS_IP_PROTO_ICMPV6); [|done].
  destruct (transport_icmpv6 (pkt_transport p)) as [icmp|]; [|done]. mred.
  rewrite (layer_local (fun d l => ns_parse_icmpv6 d l icmp) _ off Ho). fold rest.
  destruct (ns_parse_icmpv6 _ _ _) as [[status i]|]; [|done]. by destruct p, status.
Qed.

Lemma parse_ipv4_local p off :
  0 <= off <= length ->
  repoint (ns_packet_parse_ipv4 (with_raw data p) data length off) (ns_packet_parse_ipv4 p bs length off).
Proof.
  intros Ho. unfold repoint, ns_packet_parse_ipv4. destruct (pointers off Ho) as [-> ->]. mred.
  pose proof (subview data length off Hview Ho) as (_ & Hsub & Hv' & Hvw). pose proof Hview as [Hv1 Hv2].
  pose proof (zlen_rest data length off Hview Ho) as Hz. set (rest := drop (Z.to_nat off) bs) in *.
  replace (pkt_net (with_raw data p)) with (pkt_net p) by (by destruct p).
  destruct (net_ipv4 (pkt_net p)) as [ipv4|]; [|done]. mred.
  rewrite (layer_local (fun d l => ns_parse_ipv4 d l ipv4) _ off Ho). fold rest.
  rewrite Hsub, ns_parse_ipv4_spec by (rewrite <- Hvw; by apply view_ok_view).
  replace (view rest (length - off)) with rest by (rewrite <- Hvw; by rewrite view_view). mred.
  pose proof (ipv4_spec_cases ipv4 rest) as Hc. destruct (ipv4_spec ipv4 rest) as [[status i] h].
  destruct status; [|by destruct p..]. destruct Hc as [-> Hh]. cbn [use_init]. mred. rewrite szadd_small by lia.
  rewrite !set_payload_done by (auto using view_ok_view; lia). mred. destruct (_ && _); [by destruct p|].
  etrans; [|apply parse_transport_local; lia]. by destruct p.
Qed.

Lemma parse_ipv6_local p off :
  0 <= off <= length ->
  repoint (ns_packet_parse_ipv6 (with_raw data p) data length off) (ns_packet_parse_ipv6 p bs length off).
Proof.
  intros Ho. unfold repoint, ns_packet_parse_ipv6. destruct (pointers off Ho) as [-> ->]. mred.
  pose proof (subview data length off Hview Ho) as (_ & Hsub & Hv' & Hvw). pose proof Hview as [Hv1 Hv2].
  pose proof (zlen_rest data length off Hview Ho) as Hz. set (rest := drop (Z.to_nat off) bs) in *.
  replace (pkt_net (with_raw data p)) with (pkt_net p) by (by destruct p).
  destruct (net_ipv6 (pkt_net p)) as [ipv6|]; [|done]. mred.
  rewrite (layer_local (fun d l => ns_parse_ipv6 d l ipv6) _ off Ho). fold rest.
  rewrite Hsub, ns_parse_ipv6_spec by (rewrite <- Hvw; by apply view_ok_view).
  replace (view rest (length - off)) with rest by (rewrite <- Hvw; by rewrite view_view). mred.
  pose proof (ipv6_spec_cases ipv6 rest) as Hc. destruct (ipv6_spec ipv6 rest) as [[status i] h].
  destruct status; [|by destruct p..]. destruct Hc as [-> Hh]. cbn [use_init]. mred. rewrite szadd_small by lia.
  unfold ns_ipv6_skip_extension_headers. rewrite !skip_extensions_walk by (auto using view_ok_view; lia).
  rewrite view_view. mred.
  pose proof (extension_walk_bounds NS_IPV6_MAX_EXTENSION_HEADERS bs (off + 40) (ipv6_next_header i)) as Hb.
  rewrite zlen_view in Hb by done. specialize (Hb ltac:(lia)).
  destruct (extension_walk _ _ _ _) as [[ok at_] nh]. destruct ok; cbn [negb];
    rewrite !set_payload_done by (auto using view_ok_view; lia); mred; [|by destruct p].
  etrans; [|apply parse_transport_local; lia]. by destruct p.
Qed.

Lemma parse_arp_local p off :
  0 <= off <= length ->
  repoint (ns_packet_parse_arp (with_raw data p) data length off) (ns_packet_parse_arp p bs length off).
Proof.
  intros Ho. unfold repoint, ns_packet_parse_arp. destruct (pointers off Ho) as [-> ->]. mred.
  replace (pkt_net (with_raw data p)) with (pkt_net p) by (by destruct p).
  destruct (net_arp (pkt_net p)) as [arp|]; [|done]. mred.
  rewrite (layer_local (fun d l => ns_parse_arp d l arp) _ off Ho).
  destruct (ns_parse_arp _ _ _) as [[status a]|]; [|done]. mred.
  rewrite !set_payload_done by auto using view_ok_view. by destruct p, status.
Qed.

Lemma ns_packet_parse_local original ts number link :
  repoint (ns_packet_parse data length original ts number link)
          (ns_packet_parse bs length original ts number link).
Proof.
  unfold repoint, ns_packet_parse. destruct link; [done|]. cbn [pkt_eth].
  rewrite !ns_parse_ethernet_spec by auto using view_ok_view. rewrite view_view. mred.
  pose proof (eth_spec_cases zero_eth bs) as Hc. destruct (eth_spec zero_eth bs) as [[status eth] h].
  destruct status; try done. destruct Hc as (off & -> & Hoff). rewrite zlen_view in Hoff by done.
  cbn [use_init]. mred. rewrite !set_payload_done by (auto using view_ok_view; lia). mred.
  set (p := set_payload (set_eth (Packet _ _ _ _ bs _ _ _ _ _ _ _ _ _ _ _ _ _) _ _) _ _).
  change (set_payload (set_eth (Packet _ _ _ _ data _ _ _ _ _ _ _ _ _ _ _ _ _) _ _) _ _) with (with_raw data p).
  destruct (_ =? NS_ETHERTYPE_IPV4); [apply parse_ipv4_local; lia|].
  destruct (_ =? NS_ETHERTYPE_IPV6); [apply parse_ipv6_local; lia|].
  destruct (_ =? NS_ETHERTYPE_ARP); [apply parse_arp_local; lia|]. done.
Qed.
End local.

(** ** Properties *)

(** A DNS query over UDP, IPv4 and Ethernet, used by the witnesses. *)
Definition sample_query : list byte :=
  to_be 2 7 ++ to_be 2 0x0100 ++ to_be 2 1 ++ to_be 2 0 ++ to_be 2 0 ++ to_be 2 0 ++
  encode_name [txt "example"; txt "org"] ++ to_be 2 1 ++ to_be 2 1.
Definition sample_eth : ns_eth_info_t :=
  EthInfo (replicate 6 xff) (replicate 6 xaa) NS_ETHERTYPE_IPV4 false 0.
Definition sample_ipv4 : ns_ipv4_info_t :=
  Ipv4Info 4 5 0 0 57 1 true false 0 64 17 0 0x0101a8c0 0x08080808 20 false false.
Definition sample_udp : ns_udp_info_t := UdpInfo 4000 53 37 0.
Definition sample_frame : list byte :=
  encode_eth sample_eth ++ encode_ipv4 sample_ipv4 [] ++ encode_udp sample_udp ++ sample_query.

(** C1. Parsing is memory safe and sound: on every captured frame the dispatcher returns
    without a fault; the metadata is the caller's; the payload is a suffix of the captured
    bytes; a reason is recorded exactly when the packet is flagged; and every layer the packet
    claims is what its parser finds where the layer below ends: IPv4, IPv6 or ARP after an
    Ethernet header of that type, TCP, UDP or ICMP after an IPv4 header that is not a later
    fragment or a chain of IPv6 extension headers, and DNS only as a complete message in the
    payload of a TCP or UDP layer with port 53. *)
Theorem packet_parse_sound (data : list byte) (captured original : Z) (ts : ns_timestamp_t)
    (number : Z) (link : ns_link_type_t) :
  view_ok data captured ->
  wp (ns_packet_parse data captured original ts number link) (fun p =>
    lower_meta p = (number, ts, captured, original, data, link) /\
    packet_sound (view data captured) p).
Proof.
  intros Hv. eapply wp_mono; [by apply ns_packet_parse_ok|]. by intros p [Hm [Hs _]].
Qed.

Lemma packet_parse_sound_witness :
  view_ok sample_frame 71 /\
  wp (ns_packet_parse sample_frame 71 71 (Timestamp 0 0) 1 NS_LINK_ETHERNET)
     (fun p => packet_sound (view sample_frame 71) p).
Proof.
  split; [done|]. eapply wp_mono.
  - apply (packet_parse_sound sample_frame 71 71 (Timestamp 0 0) 1 NS_LINK_ETHERNET). done.
  - by intros p [_ H].
Defined.

(** A later fragment of an IPv6 datagram (offset 185 * 8) has no transport header, but the
    continuation of its payload is decoded as one, unlike a later fragment of IPv4. *)
Example ipv6_late_fragment_misread :
  let eth := EthInfo (replicate 6 xff) (replicate 6 xaa) NS_ETHERTYPE_IPV6 false 0 in
  let ipv6 := Ipv6Info 6 0 0 16 44 64 (replicate 16 x01) (replicate 16 x02) 40 in
  let fragment := [x11; x00; x05; xc8; x00; x00; x00; x01] in
  let frame := encode_eth eth ++ encode_ipv6 ipv6 ++ fragment ++ txt "payload!" in
  wp (ns_packet_parse frame (zlen frame) (zlen frame) (Timestamp 0 0) 1 NS_LINK_ETHERNET)
    (fun p => pkt_transport_proto p = NS_PROTO_UDP /\
              pkt_transport p = TransportUdp (UdpInfo 0x7061 0x796c 0x6f61 0x6421)).
Proof. by vm_compute. Qed.


(** A complete ARP request. *)
Definition sample_arp : ns_arp_info_t := ArpInfo 1 (replicate 6 xaa) 0x0100000a (replicate 6 x00) 0x0200000a.


(** C14. Parsing looks at nothing but the captured bytes: two buffers that agree on them give
    the same packet, up to the buffer the packet points at. *)
Theorem packet_parse_local (data data' : list byte) (captured original : Z) (ts : ns_timestamp_t)
    (number : Z) (link : ns_link_type_t) :
  view_ok data captured -> view_ok data' captured -> view data captured = view data' captured ->
  ns_packet_parse data captured original ts number link
  = (p ← ns_packet_parse data' captured original ts number link; Done (with_raw data p)).
Proof.
  intros Hv Hv' He. rewrite (ns_packet_parse_local data), (ns_packet_parse_local data') by done.
  rewrite He. destruct (ns_packet_parse _ _ _ _ _ _) as [p|]; [|done]. mred. by destruct p.
Qed.

Lemma packet_parse_local_witness :
  ns_packet_parse (sample_frame ++ [x01]) 71 71 (Timestamp 0 0) 1 NS_LINK_ETHERNET
  = (p ← ns_packet_parse (sample_frame ++ [x02]) 71 71 (Timestamp 0 0) 1 NS_LINK_ETHERNET;
     Done (with_raw (sample_frame ++ [x01]) p)).
Proof.
  apply (packet_parse_local (sample_frame ++ [x01]) (sample_frame ++ [x02]) 71 71 (Timestamp 0 0) 1
    NS_LINK_ETHERNET); done.
Defined.

(** *** Whole frames *)

Lemma drop_prefix {A} (l1 l2 : list A) : drop (Z.to_nat (zlen l1)) (l1 ++ l2) = l2.
Proof. unfold zlen. rewrite Nat2Z.id. apply drop_app_length. Qed.

(** Below, [pre] has been decoded and [rest] is left of the frame. *)
Section frames.
Context (frame pre rest : list byte) (Hframe : frame = pre ++ rest) (Hlen : zlen frame < 2 ^ 64).

#[local] Lemma pre_bounds : view_ok frame (zlen frame) /\ 0 <= zlen pre <= zlen frame.
Proof.
  split; [by apply view_ok_all|]. rewrite Hframe, zlen_app.
  pose proof (zlen_nonneg pre). pose proof (zlen_nonneg rest). lia.
Qed.

(** What a parser with a functional specification answers on the rest. *)
Lemma parse_rest {R} (parse : list byte -> Z -> M R) spec :
  (forall d l, view_ok d l -> parse d l = Done (spec (view d l))) ->
  ptr_add frame (zlen pre) = Done rest /\
  parse rest (szsub (zlen frame) (zlen pre)) = Done (spec rest).
Proof.
  intros Hspec. destruct pre_bounds as [Hv Ho]. destruct (subview _ _ _ Hv Ho) as (Hp & Hs & Hv' & Hvw).
  rewrite view_all in Hvw. assert (Hd : drop (Z.to_nat (zlen pre)) frame = rest) by (rewrite Hframe; apply drop_prefix).
  rewrite Hd in *. split; [done|]. rewrite Hs, Hspec by done. by rewrite Hvw.
Qed.

Lemma payload_rest p at_ :
  at_ = zlen pre ->
  ns_packet_set_payload p frame (zlen frame) at_ = Done (set_payload p (Some (zlen pre)) (zlen rest)).
Proof.
  intros ->. destruct pre_bounds as [Hv Ho]. rewrite set_payload_done by done. do 2 f_equal.
  rewrite Hframe, zlen_app. lia.
Qed.
End frames.

Lemma ipv4_frame frame pre ipv4 options rest p :
  frame = pre ++ encode_ipv4 ipv4 options ++ rest -> zlen frame < 2 ^ 64 -> pkt_net p = NetZero ->
  valid_ipv4 ipv4 options -> ipv4_fragment_offset ipv4 = 0 ->
  ns_packet_parse_ipv4 p frame (zlen frame) (zlen pre)
  = ns_packet_parse_transport
      (set_payload (set_network_proto (set_net p (NetIpv4 ipv4)) NS_PROTO_IPV4)
         (Some (zlen (pre ++ encode_ipv4 ipv4 options))) (zlen rest))
      frame (zlen frame) (zlen (pre ++ encode_ipv4 ipv4 options)) (ipv4_protocol ipv4).
Proof.
  intros Hf Hlen Hn Hi Hfo. unfold ns_packet_parse_ipv4. rewrite Hn. cbn [net_ipv4].
  destruct (parse_rest frame pre _ Hf Hlen (fun d l => ns_parse_ipv4 d l zero_ipv4) (ipv4_spec zero_ipv4)) as [-> E].
  { intros. by apply ns_parse_ipv4_spec. }
  mred. rewrite E. mred. destruct (ipv4_spec_encode ipv4 zero_ipv4 options rest Hi) as [-> _].
  pose proof (zlen_encode_ipv4 ipv4 options Hi) as Hz. cbn [use_init]. mred.
  rewrite <- Hz. rewrite szadd_small.
  - rewrite <- zlen_app, (payload_rest frame (pre ++ encode_ipv4 ipv4 options) rest)
      by (done || by rewrite <- app_assoc). mred.
    destruct Hi as (_ & _ & _ & _ & _ & _ & _ & _ & _ & _ & _ & _ & _ & _ & Hfr & Hin).
    rewrite Hfr, Hin, Hfo. by destruct (ipv4_flag_mf ipv4).
  - rewrite Hf, !zlen_app in Hlen. pose proof (zlen_nonneg pre). pose proof (zlen_nonneg rest).
    pose proof (zlen_nonneg (encode_ipv4 ipv4 options)). lia.
Qed.

Lemma udp_frame frame pre udp body p :
  frame = pre ++ encode_udp udp ++ body -> zlen frame < 2 ^ 64 -> pkt_transport p = TransportZero ->
  valid_udp udp -> udp_source_port udp <> 53 -> udp_destination_port udp <> 53 ->
  ns_packet_parse_transport p frame (zlen frame) (zlen pre) 17
  = Done (set_payload (set_transport_proto (set_transport p (TransportUdp udp)) NS_PROTO_UDP)
            (Some (zlen frame - zlen body)) (zlen body)).
Proof.
  intros Hf Hlen Ht Hu Hs Hd. unfold ns_packet_parse_transport. rewrite Ht. cbn [transport_udp Z.eqb].
  destruct (parse_rest frame pre _ Hf Hlen (fun d l => ns_parse_udp d l zero_udp) (udp_spec zero_udp)) as [-> E].
  { intros. by apply ns_parse_udp_spec. }
  change (17 =? NS_IP_PROTO_TCP) with false. change (17 =? NS_IP_PROTO_UDP) with true. cbn iota.
  mred. rewrite E. mred. rewrite udp_spec_encode by done.
  assert (Hz : zlen (encode_udp udp) = 8) by (unfold encode_udp; by rewrite !zlen_app, !zlen_to_be).
  assert (Hfz : zlen frame = zlen pre + 8 + zlen body) by (rewrite Hf, !zlen_app, Hz; lia).
  pose proof (zlen_nonneg pre). pose proof (zlen_nonneg body). rewrite szadd_small by lia.
  rewrite (payload_rest frame (pre ++ encode_udp udp) body)
    by (done || (by rewrite <- app_assoc) || by rewrite zlen_app, Hz). mred.
  unfold ns_packet_parse_dns_if_applicable. rewrite !(proj2 (Z.eqb_neq _ 53)) by done. cbn [negb andb].
  do 3 f_equal. rewrite zlen_app, Hz. lia.
Qed.

(** C15. A UDP datagram over IPv4: the frame built from any valid Ethernet header (tagged or not)
    that announces IPv4, any valid IPv4 header, with or without options, that announces UDP and
    has fragment offset 0 (a later fragment has no UDP header), and any valid UDP header neither
    port of which is 53 (the payload of those is tried as DNS), followed by any bytes, is decoded
    to exactly those headers, with the payload at the right place and nothing flagged. *)
Theorem udp_frame_roundtrip (eth : ns_eth_info_t) (ipv4 : ns_ipv4_info_t) (options : list byte)
    (udp : ns_udp_info_t) (body : list byte) (original : Z) (ts : ns_timestamp_t) (number : Z) :
  valid_eth eth -> eth_ethertype eth = NS_ETHERTYPE_IPV4 ->
  valid_ipv4 ipv4 options -> ipv4_protocol ipv4 = 17 -> ipv4_fragment_offset ipv4 = 0 ->
  valid_udp udp -> udp_source_port udp <> 53 -> udp_destination_port udp <> 53 ->
  let frame := encode_eth eth ++ encode_ipv4 ipv4 options ++ encode_udp udp ++ body in
  zlen frame < 2 ^ 64 ->
  ns_packet_parse frame (zlen frame) original ts number NS_LINK_ETHERNET
  = Done (Packet number ts (zlen frame) original frame NS_LINK_ETHERNET true eth
            NS_PROTO_IPV4 (NetIpv4 ipv4) NS_PROTO_UDP (TransportUdp udp) false zero_dns
            (Some (zlen frame - zlen body)) (zlen body) false None).
Proof.
  intros He Het Hi Hp Hfo Hu Hs Hd frame Hlen. unfold ns_packet_parse. cbn [pkt_eth].
  rewrite ns_parse_ethernet_spec, view_all by (by apply view_ok_all).
  assert (E : eth_spec zero_eth frame = (NS_PARSE_OK, eth, Some (zlen (encode_eth eth)))) by (by apply eth_spec_encode).
  rewrite E. mred. cbn [use_init]. mred.
  rewrite (payload_rest frame (encode_eth eth) (encode_ipv4 ipv4 options ++ encode_udp udp ++ body)) by done.
  mred. rewrite Het. cbn [Z.eqb NS_ETHERTYPE_IPV4 Pos.eqb].
  rewrite (ipv4_frame frame (encode_eth eth) ipv4 options (encode_udp udp ++ body)) by done. rewrite Hp.
  rewrite (udp_frame frame (encode_eth eth ++ encode_ipv4 ipv4 options) udp body)
    by (done || by unfold frame; rewrite <- !app_assoc). done.
Qed.

Lemma udp_frame_roundtrip_witness :
  let eth := EthInfo (replicate 6 xff) (replicate 6 xaa) NS_ETHERTYPE_IPV4 true 7 in
  let ipv4 := Ipv4Info 4 6 0 0 36 1 true false 0 64 17 0 0x0101a8c0 0x08080808 24 false false in
  let udp := UdpInfo 4000 123 12 0 in
  let frame := encode_eth eth ++ encode_ipv4 ipv4 (txt "opts") ++ encode_udp udp ++ txt "body" in
  ns_packet_parse frame (zlen frame) 60 (Timestamp 1 2) 3 NS_LINK_ETHERNET
  = Done (Packet 3 (Timestamp 1 2) (zlen frame) 60 frame NS_LINK_ETHERNET true eth
            NS_PROTO_IPV4 (NetIpv4 ipv4) NS_PROTO_UDP (TransportUdp udp) false zero_dns
            (Some 50) 4 false None).
Proof.
  intros eth ipv4 udp frame.
  apply (udp_frame_roundtrip eth ipv4 (txt "opts") udp (txt "body") 60 (Timestamp 1 2) 3);
    (by repeat split) || done.
Defined.

(** The sample query is decoded down to DNS. *)
Example sample_frame_parsed :
  (p ← ns_packet_parse sample_frame 71 71 (Timestamp 0 0) 1 NS_LINK_ETHERNET;
   q ← slot_get (dns_questions (pkt_dns p)) 0; name ← cstring (question_name q);
   Done (pkt_network_proto p, pkt_transport_proto p, pkt_has_dns p, pkt_payload p, pkt_malformed p, name))
  = Done (NS_PROTO_IPV4, NS_PROTO_UDP, true, Some 42, false, txt "example.org").
Proof. vm_compute. done. Qed.
