(* ===== verification/FlowTable.v ===== *)
(** * The flow table: [extract_endpoints], [hash_flow] and [record_flow] of [src/stats.c]

    An open-addressing hash table of 1024 slots without deletion, refined to a finite map from
    conversations to packet and byte counts. *)

From stdpp Require Import gmap.
From S2P Require Import Prelude CMem Util Link Network Transport Dns Packet.

Definition NS_MAX_FLOWS := 1024.

(** A slot.  The two address buffers are the C strings they hold. *)
Record ns_flow_t := Flow {
  flow_in_use : bool;
  flow_protocol : ns_proto_t;
  flow_addr_a : list byte;
  flow_addr_b : list byte;
  flow_port_a : Z;
  flow_port_b : Z;
  flow_packets : Z;
  flow_bytes : Z
}.

Definition zero_flow : ns_flow_t := Flow false NS_PROTO_UNKNOWN [] [] 0 0 0 0.

(** The fields [flows] and [flow_count] of [ns_stats_t]. *)
Record flow_table := FlowTable {
  table_flows : list ns_flow_t;
  table_flow_count : Z
}.

Definition empty_table : flow_table := FlowTable (replicate (Z.to_nat NS_MAX_FLOWS) zero_flow) 0.

(** The value of the enumeration constants. *)
Definition proto_code (p : ns_proto_t) : Z :=
  match p with
  | NS_PROTO_UNKNOWN => 0 | NS_PROTO_ARP => 1 | NS_PROTO_IPV4 => 2 | NS_PROTO_IPV6 => 3
  | NS_PROTO_TCP => 4 | NS_PROTO_UDP => 5 | NS_PROTO_ICMP => 6 | NS_PROTO_ICMPV6 => 7
  | NS_PROTO_DNS => 8
  end.

(** ** The operations *)

(** A conversation: protocol, first and second endpoint. *)
Record endpoints := Endpoints {
  ep_proto : ns_proto_t;
  ep_addr_a : list byte;
  ep_port_a : Z;
  ep_addr_b : list byte;
  ep_port_b : Z
}.

(** [None] when the function returns [false].  Both address buffers are 46 bytes. *)
Definition extract_endpoints (pkt : ns_packet_t) : M (option endpoints) :=
  match pkt_network_proto pkt with
  | NS_PROTO_ARP =>
      arp ← net_arp (pkt_net pkt);
      addr_a ← ns_format_ipv4 (arp_sender_ip arp) 46;
      addr_b ← ns_format_ipv4 (arp_target_ip arp) 46;
      Done (Some (Endpoints NS_PROTO_ARP addr_a 0 addr_b 0))
  | NS_PROTO_IPV4 | NS_PROTO_IPV6 =>
      '(addr_a, addr_b) ←
        match pkt_network_proto pkt with
        | NS_PROTO_IPV4 =>
            ipv4 ← net_ipv4 (pkt_net pkt);
            addr_a ← ns_format_ipv4 (ipv4_source ipv4) 46;
            addr_b ← ns_format_ipv4 (ipv4_destination ipv4) 46; Done (addr_a, addr_b)
        | _ =>
            ipv6 ← net_ipv6 (pkt_net pkt);
            addr_a ← ns_format_ipv6 (ipv6_source ipv6) 46;
            addr_b ← ns_format_ipv6 (ipv6_destination ipv6) 46; Done (addr_a, addr_b)
        end;
      match pkt_transport_proto pkt with
      | NS_PROTO_TCP =>
          tcp ← transport_tcp (pkt_transport pkt);
          Done (Some (Endpoints NS_PROTO_TCP addr_a (tcp_source_port tcp) addr_b (tcp_destination_port tcp)))
      | NS_PROTO_UDP =>
          udp ← transport_udp (pkt_transport pkt);
          Done (Some (Endpoints NS_PROTO_UDP addr_a (udp_source_port udp) addr_b (udp_destination_port udp)))
      | NS_PROTO_ICMP => Done (Some (Endpoints NS_PROTO_ICMP addr_a 0 addr_b 0))
      | NS_PROTO_ICMPV6 => Done (Some (Endpoints NS_PROTO_ICMPV6 addr_a 0 addr_b 0))
      | _ => Done None
      end
  | _ => Done None
  end.

(** One FNV-1a step, and a run of it over bytes. *)
Definition fnv_step (h b : Z) : Z := u32c (Z.lxor h b * 16777619).
Definition fnv_bytes (h : Z) (bs : list byte) : Z := fold_left (fun h b => fnv_step h (bv b)) bs h.

Definition hash_flow (proto : ns_proto_t) (addr_a : list byte) (port_a : Z) (addr_b : list byte)
    (port_b : Z) : Z :=
  let h := 2166136261 in
  let h := fnv_bytes h (to_le 4 (proto_code proto)) in
  let h := fnv_bytes h addr_a in
  let h := fnv_bytes h addr_b in
  let h := fnv_step h (u8c (Z.land port_a 0xff)) in
  let h := fnv_step h (u8c (Z.shiftr port_a 8)) in
  let h := fnv_step h (u8c (Z.land port_b 0xff)) in
  fnv_step h (u8c (Z.shiftr port_b 8)).

(** The [for] loop from turn [i], [n] turns being left. *)
Fixpoint record_loop (n : nat) (t : flow_table) (k : endpoints) (bytes start i : Z) : M flow_table :=
  match n with
  | O => Done t
  | S n =>
      let idx := u32c (start + i) mod NS_MAX_FLOWS in
      slot ← slot_get (table_flows t) idx;
      if flow_in_use slot && bool_decide (flow_protocol slot = ep_proto k)
         && (strcmp (flow_addr_a slot) (ep_addr_a k) =? 0) && (strcmp (flow_addr_b slot) (ep_addr_b k) =? 0)
         && (flow_port_a slot =? ep_port_a k) && (flow_port_b slot =? ep_port_b k)
      then
        Done (FlowTable (<[Z.to_nat idx := Flow true (flow_protocol slot) (flow_addr_a slot) (flow_addr_b slot)
                             (flow_port_a slot) (flow_port_b slot)
                             (u64c (flow_packets slot + 1)) (u64c (flow_bytes slot + bytes))]>
                (table_flows t)) (table_flow_count t))
      else if negb (flow_in_use slot) then
        Done (FlowTable (<[Z.to_nat idx := Flow true (ep_proto k) (sn 46 (ep_addr_a k)) (sn 46 (ep_addr_b k))
                             (ep_port_a k) (ep_port_b k) 1 bytes]> (table_flows t))
                (szadd (table_flow_count t) 1))
      else record_loop n t k bytes start (i + 1)
  end.

(** The direction a conversation is stored in. *)
Definition canonical (k : endpoints) : endpoints :=
  if (strcmp (ep_addr_a k) (ep_addr_b k) >? 0)
     || ((strcmp (ep_addr_a k) (ep_addr_b k) =? 0) && (ep_port_a k >? ep_port_b k))
  then Endpoints (ep_proto k) (ep_addr_b k) (ep_port_b k) (ep_addr_a k) (ep_port_a k)
  else k.

Definition record_flow (t : flow_table) (k : endpoints) (bytes : Z) : M flow_table :=
  let k := canonical k in
  let start := hash_flow (ep_proto k) (ep_addr_a k) (ep_port_a k) (ep_addr_b k) (ep_port_b k) mod NS_MAX_FLOWS in
  record_loop (Z.to_nat NS_MAX_FLOWS) t k bytes start 0.

(** ** Conversations as map keys *)

#[global] Instance byte_countable : Countable byte := inj_countable' bv zb zb_bv.

Definition proto_of_code (z : Z) : ns_proto_t :=
  match z with
  | 1 => NS_PROTO_ARP | 2 => NS_PROTO_IPV4 | 3 => NS_PROTO_IPV6 | 4 => NS_PROTO_TCP
  | 5 => NS_PROTO_UDP | 6 => NS_PROTO_ICMP | 7 => NS_PROTO_ICMPV6 | 8 => NS_PROTO_DNS
  | _ => NS_PROTO_UNKNOWN
  end.

#[global] Instance proto_countable : Countable ns_proto_t.
Proof. apply (inj_countable' proto_code proto_of_code). by intros []. Defined.

#[global] Instance endpoints_eq_dec : EqDecision endpoints.
Proof. solve_decision. Defined.

#[global] Instance endpoints_countable : Countable endpoints.
Proof.
  apply (inj_countable' (fun k => (ep_proto k, ep_addr_a k, ep_port_a k, ep_addr_b k, ep_port_b k))
    (fun '(p, a, pa, b, pb) => Endpoints p a pa b pb)). by intros [].
Defined.

Definition flow_key (f : ns_flow_t) : endpoints :=
  Endpoints (flow_protocol f) (flow_addr_a f) (flow_port_a f) (flow_addr_b f) (flow_port_b f).
Definition flow_value (f : ns_flow_t) : Z * Z := (flow_packets f, flow_bytes f).

(** The finite map a table stands for. *)
Definition flows_map (flows : list ns_flow_t) : gmap endpoints (Z * Z) :=
  list_to_map ((fun f => (flow_key f, flow_value f)) <$> filter (fun f => flow_in_use f = true) flows).

Definition table_map (t : flow_table) : gmap endpoints (Z * Z) := flows_map (table_flows t).

(** What recording a packet of a conversation does to the map: count it, or start counting if
    there is room. *)
Definition record_spec (m : gmap endpoints (Z * Z)) (k : endpoints) (bytes : Z) : gmap endpoints (Z * Z) :=
  match m !! k with
  | Some (packets, total) => <[k := (u64c (packets + 1), u64c (total + bytes))]> m
  | None => if Z.of_nat (size m) <? NS_MAX_FLOWS then <[k := (1, bytes)]> m else m
  end.

(** ** The invariant *)

#[local] Notation cap := 1024%nat.

Definition home (k : endpoints) : nat :=
  Z.to_nat (hash_flow (ep_proto k) (ep_addr_a k) (ep_port_a k) (ep_addr_b k) (ep_port_b k) mod NS_MAX_FLOWS).

(** The slot looked at in turn [d] of a search for [k]. *)
Definition probe (k : endpoints) (d : nat) : nat := ((home k + d) mod cap)%nat.

Definition used_at (flows : list ns_flow_t) (i : nat) (f : ns_flow_t) : Prop :=
  flows !! i = Some f /\ flow_in_use f = true.

Definition keys_unique (flows : list ns_flow_t) : Prop :=
  forall i j f g, used_at flows i f -> used_at flows j g -> flow_key f = flow_key g -> i = j.

(** Every entry is reached from its home slot through occupied slots. *)
Definition chained (flows : list ns_flow_t) : Prop :=
  forall i f, used_at flows i f ->
    exists d, (d < cap)%nat /\ i = probe (flow_key f) d /\
      forall j, (j < d)%nat -> exists g, used_at flows (probe (flow_key f) j) g.

Definition table_ok (t : flow_table) : Prop :=
  length (table_flows t) = cap /\
  table_flow_count t = Z.of_nat (length (filter (fun f => flow_in_use f = true) (table_flows t))) /\
  keys_unique (table_flows t) /\ chained (table_flows t).

(** ** The map of a table with unique keys *)

Lemma keys_unique_cons f flows :
  keys_unique (f :: flows) ->
  keys_unique flows /\ (flow_in_use f = true -> forall i g, used_at flows i g -> flow_key g <> flow_key f).
Proof.
  intros Hu. split.
  - intros i j g h [Hi ?] [Hj ?] Hk. assert (S i = S j) as [=]; [|done].
    by apply (Hu (S i) (S j) g h).
  - intros Hf i g [Hi Hg] Hk. assert (0%nat = S i) as [=]. by apply (Hu 0%nat (S i) f g).
Qed.

Lemma elem_of_used (flows : list ns_flow_t) f :
  f ∈ filter (fun f => flow_in_use f = true) flows <-> exists i, used_at flows i f.
Proof.
  rewrite list_elem_of_filter, list_elem_of_lookup. unfold used_at. firstorder.
Qed.

Lemma keys_unique_NoDup flows :
  keys_unique flows -> NoDup (flow_key <$> filter (fun f => flow_in_use f = true) flows).
Proof.
  induction flows as [|f flows IH]; [constructor|]. intros [Hu Hf]%keys_unique_cons. rewrite filter_cons.
  case_decide as Hin; [|auto]. rewrite fmap_cons. constructor; [|auto].
  rewrite list_elem_of_fmap. intros (g & Hk & Hg%elem_of_used). destruct Hg as [i Hi].
  by apply (Hf Hin i g).
Qed.

Lemma flows_map_keys flows :
  ((fun f => (flow_key f, flow_value f)) <$> filter (fun f => flow_in_use f = true) flows).*1
  = flow_key <$> filter (fun f => flow_in_use f = true) flows.
Proof. by rewrite <- list_fmap_compose. Qed.

Lemma flows_map_lookup flows k v :
  keys_unique flows ->
  flows_map flows !! k = Some v <-> exists i f, used_at flows i f /\ flow_key f = k /\ flow_value f = v.
Proof.
  intros Hu. unfold flows_map. rewrite <- elem_of_list_to_map
    by (rewrite flows_map_keys; by apply keys_unique_NoDup).
  rewrite list_elem_of_fmap. split.
  - intros (f & [= -> ->] & [i Hi]%elem_of_used). by exists i, f.
  - intros (i & f & Hi & <- & <-). exists f. split; [done|]. apply elem_of_used. by exists i.
Qed.

Lemma flows_map_size flows :
  keys_unique flows -> size (flows_map flows) = length (filter (fun f => flow_in_use f = true) flows).
Proof.
  intros Hu. unfold flows_map. rewrite map_size_list_to_map
    by (rewrite flows_map_keys; by apply keys_unique_NoDup). by rewrite length_fmap.
Qed.

(** Storing an entry in a slot that was free or held the same conversation. *)
Lemma flows_map_insert flows i f f' :
  keys_unique flows -> keys_unique (<[i := f']> flows) -> flows !! i = Some f -> flow_in_use f' = true ->
  (flow_in_use f = true -> flow_key f = flow_key f') ->
  flows_map (<[i := f']> flows) = <[flow_key f' := flow_value f']> (flows_map flows).
Proof.
  intros Hu Hu' Hi Hf' Hsame. apply map_eq. intros k. apply option_eq. intros v.
  assert (Hnew : used_at (<[i := f']> flows) i f').
  { split; [|done]. apply list_lookup_insert_eq. by eapply lookup_lt_Some. }
  rewrite flows_map_lookup by done. rewrite lookup_insert_Some, flows_map_lookup by done. split.
  - intros (j & g & Hj & <- & <-). destruct (decide (i = j)) as [->|Hne].
    + left. destruct Hj as [Hj _], Hnew as [Hn _]. rewrite Hn in Hj. by injection Hj as ->.
    + right. split.
      * intros E. apply Hne. by apply (Hu' i j f' g).
      * destruct Hj as [Hj Hg]. rewrite list_lookup_insert_ne in Hj by done. by exists j, g.
  - intros [[<- <-] | [Hne (j & g & Hj & <- & <-)]]; [by exists i, f'|].
    exists j, g. split; [|done]. destruct Hj as [Hj Hg]. split; [|done].
    rewrite list_lookup_insert_ne; [done|]. intros ->. rewrite Hi in Hj. injection Hj as ->.
    apply Hne. symmetry. by apply Hsame.
Qed.

(** ** Storing preserves the invariant *)

(** Occupancy only grows. *)
Lemma used_at_insert flows i f' j :
  flow_in_use f' = true -> (exists g, used_at flows j g) -> exists g, used_at (<[i := f']> flows) j g.
Proof.
  intros Hf' (g & Hj & Hg). destruct (decide (i = j)) as [->|Hne].
  - exists f'. split; [|done]. apply list_lookup_insert_eq. by eapply lookup_lt_Some.
  - exists g. split; [|done]. by rewrite list_lookup_insert_ne.
Qed.

Lemma used_at_insert_inv flows i f' j g :
  used_at (<[i := f']> flows) j g -> (i = j /\ g = f') \/ (i <> j /\ used_at flows j g).
Proof.
  intros [Hj Hg]. destruct (decide (i = j)) as [->|Hne].
  - left. split; [done|]. rewrite list_lookup_insert_eq in Hj; [by injection Hj|].
    apply lookup_lt_Some in Hj. by rewrite length_insert in Hj.
  - right. split; [done|]. by rewrite list_lookup_insert_ne in Hj.
Qed.

Lemma keys_unique_insert flows i f' :
  keys_unique flows -> (forall j g, used_at flows j g -> flow_key g = flow_key f' -> j = i) ->
  keys_unique (<[i := f']> flows).
Proof.
  intros Hu Hi j1 j2 g1 g2 H1 H2 Hk.
  apply used_at_insert_inv in H1 as [[<- ->]|[Hn1 H1]], H2 as [[<- ->]|[Hn2 H2]]; [done| | |by eapply Hu].
  - symmetry. eapply Hi; [done|]. by symmetry.
  - eapply Hi; done.
Qed.

Lemma chained_insert flows i f' :
  chained flows -> flow_in_use f' = true ->
  (exists d, (d < cap)%nat /\ i = probe (flow_key f') d /\
     forall j, (j < d)%nat -> exists g, used_at flows (probe (flow_key f') j) g) ->
  chained (<[i := f']> flows).
Proof.
  intros Hc Hf' Hnew j g Hj.
  assert (Hg : exists d, (d < cap)%nat /\ j = probe (flow_key g) d /\
    forall j0, (j0 < d)%nat -> exists h, used_at flows (probe (flow_key g) j0) h).
  { apply used_at_insert_inv in Hj as [[<- ->]|[_ Hj]]; [done|by apply Hc]. }
  destruct Hg as (d & Hd & -> & Hall). exists d. split; [done|]. split; [done|].
  intros j0 Hj0. by apply used_at_insert, Hall.
Qed.

Lemma count_used_insert flows i f f' :
  flows !! i = Some f -> flow_in_use f' = true ->
  length (filter (fun f => flow_in_use f = true) (<[i := f']> flows))
  = (length (filter (fun f => flow_in_use f = true) flows) + if flow_in_use f then 0 else 1)%nat.
Proof.
  intros Hi Hf'. pose proof (take_drop_middle _ _ _ Hi) as E. rewrite <- E at 2.
  rewrite insert_take_drop by (by eapply lookup_lt_Some). rewrite !list.filter_app, !length_app.
  rewrite filter_cons_True by done. destruct (flow_in_use f) eqn:Hu.
  - rewrite filter_cons_True by done. cbn. lia.
  - rewrite filter_cons_False by congruence. cbn. lia.
Qed.

(** ** The search *)

(** The match test compares the conversation. *)
Lemma match_key slot k :
  flow_in_use slot && bool_decide (flow_protocol slot = ep_proto k)
    && (strcmp (flow_addr_a slot) (ep_addr_a k) =? 0) && (strcmp (flow_addr_b slot) (ep_addr_b k) =? 0)
    && (flow_port_a slot =? ep_port_a k) && (flow_port_b slot =? ep_port_b k)
  = bool_decide (flow_in_use slot = true /\ flow_key slot = k).
Proof.
  apply eq_true_iff_eq. rewrite bool_decide_eq_true, !andb_true_iff, bool_decide_eq_true, !Z.eqb_eq, !strcmp_eq.
  destruct slot as [u p a b pa pb n m], k as [kp ka kpa kb kpb]. cbn. split.
  - intros (((((-> & ->) & ->) & ->) & ->) & ->). done.
  - by intros [-> [= -> -> -> -> ->]].
Qed.

(** The slot after storing a packet of [k] in it. *)
Definition store (slot : ns_flow_t) (k : endpoints) (bytes : Z) : ns_flow_t :=
  if flow_in_use slot
  then Flow true (flow_protocol slot) (flow_addr_a slot) (flow_addr_b slot) (flow_port_a slot)
         (flow_port_b slot) (u64c (flow_packets slot + 1)) (u64c (flow_bytes slot + bytes))
  else Flow true (ep_proto k) (sn 46 (ep_addr_a k)) (sn 46 (ep_addr_b k)) (ep_port_a k) (ep_port_b k) 1 bytes.

(** Turns [0, d) of a search for [k] pass over other conversations. *)
Definition passed (flows : list ns_flow_t) (k : endpoints) (d : nat) : Prop :=
  forall j, (j < d)%nat -> exists g, used_at flows (probe k j) g /\ flow_key g <> k.

Lemma home_range k : (home k < cap)%nat.
Proof.
  unfold home. pose proof (Z.mod_pos_bound (hash_flow (ep_proto k) (ep_addr_a k) (ep_port_a k)
    (ep_addr_b k) (ep_port_b k)) NS_MAX_FLOWS). unfold NS_MAX_FLOWS in *. lia.
Qed.

Lemma probe_index k i :
  (i < cap)%nat -> Z.to_nat (u32c (Z.of_nat (home k) + Z.of_nat i) mod NS_MAX_FLOWS) = probe k i.
Proof.
  intros Hi. pose proof (home_range k). rewrite u32c_small by lia. unfold probe, NS_MAX_FLOWS.
  rewrite <- Nat2Z.inj_add. change 1024 with (Z.of_nat 1024). by rewrite <- Nat2Z.inj_mod, Nat2Z.id.
Qed.

Lemma record_loop_search n t k bytes i :
  length (table_flows t) = cap -> (i + n = cap)%nat -> passed (table_flows t) k i ->
  (exists d f, (d < cap)%nat /\ passed (table_flows t) k d /\ table_flows t !! probe k d = Some f /\
     (flow_in_use f = true -> flow_key f = k) /\
     record_loop n t k bytes (Z.of_nat (home k)) (Z.of_nat i)
     = Done (FlowTable (<[probe k d := store f k bytes]> (table_flows t))
               (if flow_in_use f then table_flow_count t else szadd (table_flow_count t) 1)))
  \/ (passed (table_flows t) k cap /\ record_loop n t k bytes (Z.of_nat (home k)) (Z.of_nat i) = Done t).
Proof.
  intros Hl. revert i. induction n as [|n IH]; intros i Hn Hp.
  { right. by replace i with cap in Hp by lia. }
  cbn [record_loop]. unfold slot_get. rewrite probe_index by lia.
  destruct (table_flows t !! probe k i) as [slot|] eqn:Hslot; cycle 1.
  { apply lookup_ge_None in Hslot. pose proof (Nat.mod_upper_bound (home k + i) cap). unfold probe in *. lia. }
  mred. rewrite match_key. case_bool_decide as Hm.
  { left. exists i, slot. split; [lia|]. destruct Hm as [Hu Hk]. repeat (split; [done|]).
    unfold store. rewrite Hu. done. }
  destruct (flow_in_use slot) eqn:Hu; cbn [negb].
  - replace (Z.of_nat i + 1) with (Z.of_nat (S i)) by lia. apply IH; [lia|].
    intros j Hj. destruct (decide (j = i)) as [->|]; [|apply Hp; lia]. exists slot. split; [done|]. tauto.
  - left. exists i, slot. split; [lia|]. repeat (split; [done|]). unfold store. rewrite Hu. done.
Qed.

(** Every slot is looked at. *)
Lemma probe_surj k i : (i < cap)%nat -> exists d, (d < cap)%nat /\ probe k d = i.
Proof.
  intros Hi. pose proof (home_range k). exists ((i + (cap - home k)) mod cap)%nat.
  split; [apply Nat.mod_upper_bound; lia|]. unfold probe. rewrite Nat.Div0.add_mod_idemp_r.
  replace (home k + (i + (cap - home k)))%nat with (i + 1 * cap)%nat by lia.
  rewrite Nat.Div0.mod_add. by apply Nat.mod_small.
Qed.

(** ** Refinement *)

Definition key_ok (k : endpoints) : Prop := zlen (ep_addr_a k) <= 45 /\ zlen (ep_addr_b k) <= 45.

Lemma key_ok_canonical k : key_ok k -> key_ok (canonical k).
Proof. unfold key_ok, canonical. destruct (_ || _); cbn; tauto. Qed.

Lemma store_facts f k bytes :
  key_ok k -> (flow_in_use f = true -> flow_key f = k) ->
  flow_in_use (store f k bytes) = true /\ flow_key (store f k bytes) = k /\
  flow_value (store f k bytes)
  = (if flow_in_use f then (u64c (flow_packets f + 1), u64c (flow_bytes f + bytes)) else (1, bytes)).
Proof.
  intros [Ha Hb] Hk. unfold store. destruct (flow_in_use f); [by rewrite <- Hk|].
  split; [done|]. split; [|done]. unfold flow_key. cbn. rewrite !sn_fits by lia. by destruct k.
Qed.

(** A conversation that is stored is found before any free slot. *)
Lemma passed_absent flows k d f i g :
  chained flows -> passed flows k d -> flows !! probe k d = Some f -> flow_in_use f = false ->
  used_at flows i g -> flow_key g <> k.
Proof.
  intros Hc Hp Hd Hf Hi Hk. destruct (Hc i g Hi) as (d' & Hd' & -> & Hall). rewrite Hk in *.
  destruct (lt_eq_lt_dec d d') as [[Hlt| ->]|Hgt].
  - destruct (Hall d Hlt) as (h & Hh & Hu). congruence.
  - destruct Hi as [Hi Hu]. congruence.
  - destruct (Hp d' Hgt) as (h & [Hh _] & Hne). destruct Hi as [Hi _]. rewrite Hh in Hi. by injection Hi as ->.
Qed.

(** A table every slot of which was passed is full and does not have the conversation. *)
Lemma passed_all flows k :
  length flows = cap -> passed flows k cap ->
  (forall i g, used_at flows i g -> flow_key g <> k) /\
  length (filter (fun f => flow_in_use f = true) flows) = cap.
Proof.
  intros Hl Hp. assert (Hall : forall i g, flows !! i = Some g -> flow_in_use g = true /\ flow_key g <> k).
  { intros i g Hi. destruct (probe_surj k i) as (d & Hd & <-); [rewrite <- Hl; by eapply lookup_lt_Some|].
    destruct (Hp d Hd) as (h & [Hh Hu] & Hne). rewrite Hh in Hi. by injection Hi as <-. }
  split; [intros i g [Hi _]; by eapply Hall|]. rewrite <- Hl. f_equal.
  clear Hl Hp. induction flows as [|f flows IH]; [done|]. rewrite filter_cons_True by (by apply (Hall 0%nat)).
  f_equal. apply IH. intros i g Hi. by apply (Hall (S i)).
Qed.

Lemma store_preserves t k bytes d f :
  table_ok t -> key_ok k -> (d < cap)%nat -> passed (table_flows t) k d ->
  table_flows t !! probe k d = Some f -> (flow_in_use f = true -> flow_key f = k) ->
  let t' := FlowTable (<[probe k d := store f k bytes]> (table_flows t))
              (if flow_in_use f then table_flow_count t else szadd (table_flow_count t) 1) in
  table_ok t' /\ table_map t' = <[k := flow_value (store f k bytes)]> (table_map t).
Proof.
  intros (Hl & Hn & Hu & Hc) Hk Hd Hp Hf Hsame t'. destruct (store_facts f k bytes Hk Hsame) as (Su & Sk & _).
  assert (Hu' : keys_unique (table_flows t')).
  { apply keys_unique_insert; [done|]. rewrite Sk. intros j g Hj Hg. destruct (flow_in_use f) eqn:E.
    - apply (Hu j (probe k d) g f); [done|done|]. by rewrite Hsame.
    - by destruct (passed_absent _ _ _ _ _ _ Hc Hp Hf E Hj). }
  split; [split; [|split; [|split]]|].
  - cbn. by rewrite length_insert.
  - cbn. rewrite (count_used_insert _ _ f) by done. destruct (flow_in_use f); [rewrite Hn; f_equal; lia|].
    pose proof (length_filter (fun f => flow_in_use f = true) (table_flows t)).
    rewrite Hn, szadd_small by lia. lia.
  - done.
  - apply chained_insert; [done|done|]. rewrite Sk. exists d. split; [done|]. split; [done|].
    intros j Hj. destruct (Hp j Hj) as (g & Hg & _). by exists g.
  - unfold table_map, t'. cbn [table_flows]. rewrite (flows_map_insert _ _ f) by (done || rewrite Sk; done). by rewrite Sk.
Qed.

Lemma record_flow_refines t k bytes :
  table_ok t -> key_ok k ->
  exists t', record_flow t k bytes = Done t' /\ table_ok t' /\
    table_map t' = record_spec (table_map t) (canonical k) bytes.
Proof.
  intros Hok Hk%key_ok_canonical. unfold record_flow. set (c := canonical k) in *.
  pose proof Hok as (Hl & Hn & Hu & Hc). pose proof (home_range c) as Hh.
  replace (hash_flow _ _ _ _ _ mod NS_MAX_FLOWS) with (Z.of_nat (home c))
    by (unfold home; rewrite Z2Nat.id by (apply Z.mod_pos_bound; done); done).
  change 0 with (Z.of_nat 0). unfold record_spec.
  destruct (record_loop_search (Z.to_nat NS_MAX_FLOWS) t c bytes 0) as
    [(d & f & Hd & Hp & Hf & Hsame & ->) | [Hp ->]]; [done|done|by intros j Hj; lia| |].
  - destruct (store_preserves t c bytes d f Hok Hk Hd Hp Hf Hsame) as [Hok' Hmap].
    destruct (store_facts f c bytes Hk Hsame) as (_ & _ & Hval).
    eexists. split; [done|]. split; [done|]. rewrite Hmap, Hval. destruct (flow_in_use f) eqn:E.
    + assert (Hlk : table_map t !! c = Some (flow_value f)).
      { apply flows_map_lookup; [done|]. exists (probe c d), f. split; [by split|]. split; [by apply Hsame|done]. }
      rewrite Hlk. done.
    + assert (Hlk : table_map t !! c = None).
      { apply eq_None_not_Some. intros [v Hv]. apply flows_map_lookup in Hv as (i & g & Hi & Hg & _); [|done].
        by destruct (passed_absent _ _ _ _ _ _ Hc Hp Hf E Hi). }
      rewrite Hlk. unfold table_map. rewrite flows_map_size by done.
      assert (length (filter (fun f => flow_in_use f = true) (table_flows t)) < cap)%nat.
      { rewrite <- Hl. apply (length_filter_lt _ _ f); [by eapply list_elem_of_lookup_2|congruence]. }
      unfold NS_MAX_FLOWS. by destruct (Z.ltb_spec (Z.of_nat (length (filter (fun f => flow_in_use f = true) (table_flows t)))) 1024); [|lia].
  - destruct (passed_all _ _ Hl Hp) as [Habs Hfull]. exists t. split; [done|]. split; [done|].
    assert (Hlk : table_map t !! c = None).
    { apply eq_None_not_Some. intros [v Hv]. apply flows_map_lookup in Hv as (i & g & Hi & Hg & _); [|done].
      by eapply Habs. }
    rewrite Hlk. unfold table_map. by rewrite flows_map_size, Hfull by done.
Qed.

Lemma no_used_flows n : filter (fun f => flow_in_use f = true) (replicate n zero_flow) = [].
Proof. induction n as [|n IH]; [done|]. cbn [replicate]. by rewrite filter_cons_False. Qed.

Lemma empty_table_ok : table_ok empty_table /\ table_map empty_table = ∅.
Proof.
  assert (Hno : forall i f, ~ used_at (table_flows empty_table) i f).
  { intros i f [Hi Hu]. apply lookup_replicate in Hi as [-> _]. done. }
  unfold table_map, flows_map, empty_table in *. cbn [table_flows] in *. split; [|by rewrite no_used_flows].
  split; [cbn [table_flows]; by rewrite length_replicate|]. split; [cbn [table_flows]; by rewrite no_used_flows|]. split.
  - intros i j f g Hi. by destruct (Hno i f).
  - intros i f Hi. by destruct (Hno i f).
Qed.

(** ** Properties *)

Definition swap (k : endpoints) : endpoints :=
  Endpoints (ep_proto k) (ep_addr_b k) (ep_port_b k) (ep_addr_a k) (ep_port_a k).

Lemma canonical_swap k : canonical (swap k) = canonical k.
Proof.
  destruct k as [p a pa b pb]. unfold canonical, swap. cbn. rewrite (strcmp_antisym a b).
  destruct (Z.lt_trichotomy (strcmp a b) 0) as [H|[H|H]].
  - rewrite !Z.gtb_ltb. by zcases.
  - pose proof (proj1 (strcmp_eq a b) H) as ->. rewrite H. cbn [Z.opp Z.eqb Z.gtb Z.compare orb andb].
    rewrite !Z.gtb_ltb. zcases; try done. by replace pa with pb by lia.
  - rewrite !Z.gtb_ltb. by zcases.
Qed.

(** Recording one packet after the other. *)
Fixpoint record_all (t : flow_table) (events : list (endpoints * Z)) : M flow_table :=
  match events with
  | [] => Done t
  | (k, bytes) :: events => t ← record_flow t k bytes; record_all t events
  end.

Definition record_all_spec (m : gmap endpoints (Z * Z)) (events : list (endpoints * Z)) : gmap endpoints (Z * Z) :=
  fold_left (fun m '(k, bytes) => record_spec m (canonical k) bytes) events m.

Lemma record_all_refines t events :
  table_ok t -> Forall (fun e => key_ok e.1) events ->
  exists t', record_all t events = Done t' /\ table_ok t' /\
    table_map t' = record_all_spec (table_map t) events.
Proof.
  intros Hok He. revert t Hok. induction He as [|[k bytes] events Hk He IH]; intros t Hok; [by exists t|].
  cbn [record_all]. destruct (record_flow_refines t k bytes Hok Hk) as (t1 & -> & Hok1 & Hm1). mred.
  destruct (IH t1 Hok1) as (t2 & -> & Hok2 & Hm2). exists t2. split; [done|]. split; [done|].
  by rewrite Hm2, Hm1.
Qed.

(** C6. The flow table implements a finite map: whatever packets are recorded in whatever
    order, starting from the empty table, no access leaves the array and the table stands for
    the map obtained by counting each conversation, in its canonical direction, as long as at
    most 1024 distinct ones have been seen; beyond that, known conversations keep counting and
    new ones are dropped. The count of flows is the number of conversations in the map. *)
Theorem flow_table_refines (events : list (endpoints * Z)) :
  Forall (fun e => key_ok e.1) events ->
  exists t, record_all empty_table events = Done t /\
    table_map t = record_all_spec ∅ events /\
    table_flow_count t = Z.of_nat (size (record_all_spec ∅ events)) /\
    table_flow_count t <= NS_MAX_FLOWS.
Proof.
  intros He. destruct empty_table_ok as [Hok Hm].
  destruct (record_all_refines empty_table events Hok He) as (t & Hr & (Hl & Hn & Hu & Hc) & Hmap).
  rewrite Hm in Hmap. exists t. split; [done|]. split; [done|]. rewrite <- Hmap. unfold table_map.
  rewrite flows_map_size by done. split; [done|]. rewrite Hn.
  pose proof (length_filter (fun f => flow_in_use f = true) (table_flows t)). unfold NS_MAX_FLOWS. lia.
Qed.

Lemma flow_table_refines_witness :
  let k := Endpoints NS_PROTO_TCP (txt "10.0.0.1") 4000 (txt "10.0.0.2") 80 in
  exists t, record_all empty_table [(k, 60); (swap k, 1500)] = Done t /\
    table_map t = record_all_spec ∅ [(k, 60); (swap k, 1500)] /\
    table_flow_count t = Z.of_nat (size (record_all_spec ∅ [(k, 60); (swap k, 1500)])) /\
    table_flow_count t <= NS_MAX_FLOWS.
Proof.
  intros k. apply (flow_table_refines [(k, 60); (swap k, 1500)]). by repeat constructor.
Defined.

(** Recording one packet of a conversation in a well-formed table keeps the table
    well-formed (1024 slots, the count of used ones right, no conversation stored twice, every
    entry reachable from its home slot), and does to the map exactly what it should: add the
    packet and its bytes at 64-bit width, or start counting if there is room. *)
Theorem record_flow_step (t : flow_table) (k : endpoints) (bytes : Z) :
  table_ok t -> key_ok k ->
  wp (record_flow t k bytes) (fun t' =>
    table_ok t' /\ table_map t' = record_spec (table_map t) (canonical k) bytes).
Proof. intros Hok Hk. destruct (record_flow_refines t k bytes Hok Hk) as (t' & -> & H). done. Qed.

Lemma record_flow_step_witness :
  let k := Endpoints NS_PROTO_UDP (txt "::1") 53 (txt "::2") 4000 in
  table_ok empty_table /\
  wp (record_flow empty_table k 90) (fun t' =>
    table_ok t' /\ table_map t' = record_spec (table_map empty_table) (canonical k) 90).
Proof.
  intros k. split; [apply empty_table_ok|].
  apply (record_flow_step empty_table k 90); [apply empty_table_ok|done].
Defined.

(** C23. The two directions of a conversation share one entry: a packet from A to B and its
    reply from B to A act on the table in the same way. *)
Theorem flow_direction_symmetric (t : flow_table) (k : endpoints) (bytes : Z) :
  record_flow t (swap k) bytes = record_flow t k bytes.
Proof. unfold record_flow. by rewrite canonical_swap. Qed.

(** A conversation counted in both directions. *)
Example both_directions_counted :
  let k := Endpoints NS_PROTO_TCP (txt "10.0.0.2") 80 (txt "10.0.0.1") 4000 in
  (t ← record_all empty_table [(k, 60); (swap k, 1500); (k, 40)];
   Done (table_flow_count t, flow_value <$> filter (fun f => flow_in_use f = true) (table_flows t)))
  = Done (1, [(3, 1600)]).
Proof. vm_compute. done. Qed.
