(* ===== verification/Stats.v ===== *)
(** * Capture statistics: [src/stats.c]

    The counters of [ns_stats_t], [ns_stats_init] and [ns_stats_update].  The flow table is in
    [FlowTable]. *)

From stdpp Require Import gmap.
From S2P Require Import Prelude CMem Util Ipv6Text Link Network Transport Dns Packet FlowTable.

Record ns_stats_t := Stats {
  total_packets : Z;
  total_captured_bytes : Z;
  total_wire_bytes : Z;
  ipv4_packets : Z;
  ipv6_packets : Z;
  arp_packets : Z;
  tcp_packets : Z;
  udp_packets : Z;
  icmp_packets : Z;
  icmpv6_packets : Z;
  dns_packets : Z;
  malformed_packets : Z;
  unsupported_packets : Z;
  stats_flows : flow_table
}.

Definition ns_stats_init : ns_stats_t := Stats 0 0 0 0 0 0 0 0 0 0 0 0 0 empty_table.

(** [counter++] and [counter += n] on [uint64_t] *)
Definition u64inc (c : Z) : Z := u64c (c + 1).
Definition inc_if (b : bool) (c : Z) : Z := if b then u64inc c else c.

(** The byte counters, the malformed counter and the two [switch] statements. *)
Definition count_packet (s : ns_stats_t) (pkt : ns_packet_t) : ns_stats_t :=
  let is_net p := bool_decide (pkt_network_proto pkt = p) in
  let is_transport p := bool_decide (pkt_transport_proto pkt = p) in
  let unsupported := match pkt_network_proto pkt with
                     | NS_PROTO_IPV4 | NS_PROTO_IPV6 | NS_PROTO_ARP => false
                     | _ => pkt_has_eth pkt && negb (pkt_malformed pkt)
                     end in
  {| total_packets := u64inc (total_packets s);
     total_captured_bytes := u64c (total_captured_bytes s + pkt_captured_length pkt);
     total_wire_bytes := u64c (total_wire_bytes s + pkt_original_length pkt);
     ipv4_packets := inc_if (is_net NS_PROTO_IPV4) (ipv4_packets s);
     ipv6_packets := inc_if (is_net NS_PROTO_IPV6) (ipv6_packets s);
     arp_packets := inc_if (is_net NS_PROTO_ARP) (arp_packets s);
     tcp_packets := inc_if (is_transport NS_PROTO_TCP) (tcp_packets s);
     udp_packets := inc_if (is_transport NS_PROTO_UDP) (udp_packets s);
     icmp_packets := inc_if (is_transport NS_PROTO_ICMP) (icmp_packets s);
     icmpv6_packets := inc_if (is_transport NS_PROTO_ICMPV6) (icmpv6_packets s);
     dns_packets := inc_if (pkt_has_dns pkt) (dns_packets s);
     malformed_packets := inc_if (pkt_malformed pkt) (malformed_packets s);
     unsupported_packets := inc_if unsupported (unsupported_packets s);
     stats_flows := stats_flows s |}.

Definition set_flows (s : ns_stats_t) (t : flow_table) : ns_stats_t :=
  let '(Stats tp cb wb i4 i6 ar tc ud ic i6c dn ma un _) := s in Stats tp cb wb i4 i6 ar tc ud ic i6c dn ma un t.

Definition ns_stats_update (s : ns_stats_t) (pkt : ns_packet_t) : M ns_stats_t :=
  let s := count_packet s pkt in
  ep ← extract_endpoints pkt;
  match ep with
  | None => Done s
  | Some k => t ← record_flow (stats_flows s) k (pkt_captured_length pkt); Done (set_flows s t)
  end.

(** The count of packets that are none of the listed protocols, as [ns_stats_print] computes it. *)
Definition other_packets (s : ns_stats_t) : Z :=
  szsub (szsub (szsub (szsub (szsub (total_packets s) (tcp_packets s)) (udp_packets s)) (icmp_packets s))
    (icmpv6_packets s)) (arp_packets s).

(** ** The conversation of a decoded packet *)

(** What the packet's addresses and ports are, when it has both. *)
Definition conversation (pkt : ns_packet_t) : option endpoints :=
  match pkt_network_proto pkt, pkt_net pkt with
  | NS_PROTO_ARP, NetArp arp =>
      Some (Endpoints NS_PROTO_ARP (ipv4_text (to_le 4 (arp_sender_ip arp))) 0
              (ipv4_text (to_le 4 (arp_target_ip arp))) 0)
  | NS_PROTO_IPV4, NetIpv4 ipv4 =>
      (fun '(p, pa, pb) => Endpoints p (ipv4_text (to_le 4 (ipv4_source ipv4))) pa
                                   (ipv4_text (to_le 4 (ipv4_destination ipv4))) pb)
      <$> match pkt_transport_proto pkt, pkt_transport pkt with
          | NS_PROTO_TCP, TransportTcp t => Some (NS_PROTO_TCP, tcp_source_port t, tcp_destination_port t)
          | NS_PROTO_UDP, TransportUdp u => Some (NS_PROTO_UDP, udp_source_port u, udp_destination_port u)
          | NS_PROTO_ICMP, _ => Some (NS_PROTO_ICMP, 0, 0)
          | NS_PROTO_ICMPV6, _ => Some (NS_PROTO_ICMPV6, 0, 0)
          | _, _ => None
          end
  | NS_PROTO_IPV6, NetIpv6 ipv6 =>
      (fun '(p, pa, pb) => Endpoints p (ipv6_text (ipv6_source ipv6)) pa (ipv6_text (ipv6_destination ipv6)) pb)
      <$> match pkt_transport_proto pkt, pkt_transport pkt with
          | NS_PROTO_TCP, TransportTcp t => Some (NS_PROTO_TCP, tcp_source_port t, tcp_destination_port t)
          | NS_PROTO_UDP, TransportUdp u => Some (NS_PROTO_UDP, udp_source_port u, udp_destination_port u)
          | NS_PROTO_ICMP, _ => Some (NS_PROTO_ICMP, 0, 0)
          | NS_PROTO_ICMPV6, _ => Some (NS_PROTO_ICMPV6, 0, 0)
          | _, _ => None
          end
  | _, _ => None
  end.

(** The shape of a packet the parser produces: the unions hold what the tags say, the addresses
    have their size, and there is an upper layer only above IP. *)
Definition packet_shape (p : ns_packet_t) : Prop :=
  match pkt_network_proto p with
  | NS_PROTO_UNKNOWN => pkt_transport_proto p = NS_PROTO_UNKNOWN
  | NS_PROTO_ARP => pkt_transport_proto p = NS_PROTO_UNKNOWN /\ exists a, pkt_net p = NetArp a
  | NS_PROTO_IPV4 => exists i, pkt_net p = NetIpv4 i
  | NS_PROTO_IPV6 => exists i, pkt_net p = NetIpv6 i /\ length (ipv6_source i) = 16%nat /\
                               length (ipv6_destination i) = 16%nat
  | _ => False
  end /\
  match pkt_transport_proto p with
  | NS_PROTO_UNKNOWN => True
  | NS_PROTO_TCP => exists t, pkt_transport p = TransportTcp t
  | NS_PROTO_UDP => exists u, pkt_transport p = TransportUdp u
  | NS_PROTO_ICMP => exists i, pkt_transport p = TransportIcmp i
  | NS_PROTO_ICMPV6 => exists i, pkt_transport p = TransportIcmpv6 i
  | _ => False
  end.

Lemma sound_shape bs p : packet_sound bs p -> packet_shape p.
Proof.
  intros (_ & _ & _ & Hn & Ht & _). split.
  - destruct (decide (pkt_network_proto p = NS_PROTO_UNKNOWN)) as [E|E].
    + rewrite E. destruct (decide (pkt_transport_proto p = NS_PROTO_UNKNOWN)) as [|Ht']; [done|].
      destruct (Ht Ht') as (off & at_ & proto & _ & _ & Hu & _). unfold upper_layer in Hu. by rewrite E in Hu.
    + destruct (Hn E) as (off & _ & Hl). unfold network_layer in Hl. destruct (pkt_network_proto p) eqn:En; try done.
      * destruct Hl as (_ & arp & Ha & _). split; [|by exists arp].
        destruct (decide (pkt_transport_proto p = NS_PROTO_UNKNOWN)) as [|Ht']; [done|].
        destruct (Ht Ht') as (? & ? & ? & _ & _ & Hu & _). unfold upper_layer in Hu. by rewrite En in Hu.
      * destruct Hl as (_ & i & Hi & _). by exists i.
      * destruct Hl as (_ & i & Hi & Hs). exists i. split; [done|]. revert Hs. unfold ipv6_spec.
        destruct (Z.ltb_spec (zlen (drop (Z.to_nat off) bs)) 40); [done|]. destruct (negb _); [done|].
        intros [= <-]. cbn.
        pose proof (zlen_slice (drop (Z.to_nat off) bs) 8 16) as H8.
        pose proof (zlen_slice (drop (Z.to_nat off) bs) 24 16) as H24. unfold zlen in *. lia.
  - destruct (decide (pkt_transport_proto p = NS_PROTO_UNKNOWN)) as [->|E]; [done|].
    destruct (Ht E) as (off & at_ & proto & _ & _ & _ & Hl). unfold transport_layer in Hl.
    destruct (pkt_transport_proto p); try done.
    + destruct Hl as (_ & t & h & Hp & _). by exists t.
    + destruct Hl as (_ & t & Hp & _). by exists t.
    + destruct Hl as (_ & t & Hp & _). by exists t.
    + destruct Hl as (_ & t & Hp & _). by exists t.
Qed.

Lemma ns_format_ipv4_text z : ns_format_ipv4 z 46 = Done (ipv4_text (to_le 4 z)) /\ zlen (ipv4_text (to_le 4 z)) <= 15.
Proof.
  assert (Hl : length (to_le 4 z) = 4%nat) by apply length_to_le.
  pose proof (zlen_ipv4_text _ Hl) as Hz. split; [|done].
  pose proof (ns_format_ipv4_eq (to_le 4 z) 46 Hl) as E. unfold ns_format_ipv4 in *.
  pose proof (to_le_le (to_le 4 z)) as E2. rewrite Hl in E2. rewrite E2, sn_fits in E by lia. exact E.
Qed.

Lemma ns_format_ipv6_text bs :
  length bs = 16%nat -> ns_format_ipv6 bs 46 = Done (ipv6_text bs) /\ zlen (ipv6_text bs) <= 40.
Proof. intros Hl. destruct (ipv6_text_facts bs Hl) as (_ & Hz & ->). by rewrite sn_fits by lia. Qed.

Lemma extract_endpoints_spec p :
  packet_shape p ->
  extract_endpoints p = Done (conversation p) /\ forall k, conversation p = Some k -> key_ok k.
Proof.
  intros [Hn Ht]. unfold extract_endpoints, conversation. destruct (pkt_network_proto p); try done.
  - destruct Hn as (_ & arp & ->). cbn [net_arp]. mred.
    destruct (ns_format_ipv4_text (arp_sender_ip arp)) as [-> ?], (ns_format_ipv4_text (arp_target_ip arp)) as [-> ?].
    mred. split; [done|]. intros k E. apply (inj Some) in E as <-. split; cbn [ep_addr_a ep_addr_b]; lia.
  - destruct Hn as (i & ->). cbn [net_ipv4]. mred.
    destruct (ns_format_ipv4_text (ipv4_source i)) as [-> ?], (ns_format_ipv4_text (ipv4_destination i)) as [-> ?].
    mred. destruct (pkt_transport_proto p); try done; destruct Ht as [t Ht]; rewrite ?Ht; (split; [done|]);
      intros k E; apply (inj Some) in E as <-; split; cbn [ep_addr_a ep_addr_b]; lia.
  - destruct Hn as (i & -> & H1 & H2). cbn [net_ipv6]. mred.
    destruct (ns_format_ipv6_text _ H1) as [-> ?], (ns_format_ipv6_text _ H2) as [-> ?].
    mred. destruct (pkt_transport_proto p); try done; destruct Ht as [t Ht]; rewrite ?Ht; (split; [done|]);
      intros k E; apply (inj Some) in E as <-; split; cbn [ep_addr_a ep_addr_b]; lia.
Qed.

(** ** Updating *)

(** The effect on the flow map. *)
Definition count_flow (m : gmap endpoints (Z * Z)) (p : ns_packet_t) : gmap endpoints (Z * Z) :=
  match conversation p with
  | None => m
  | Some k => record_spec m (canonical k) (pkt_captured_length p)
  end.

Lemma ns_stats_update_spec s p :
  table_ok (stats_flows s) -> packet_shape p ->
  exists t, ns_stats_update s p = Done (set_flows (count_packet s p) t) /\ table_ok t /\
    table_map t = count_flow (table_map (stats_flows s)) p.
Proof.
  intros Hok Hp. destruct (extract_endpoints_spec p Hp) as [He Hk]. unfold ns_stats_update, count_flow.
  rewrite He. mred. destruct (conversation p) as [k|].
  - destruct (record_flow_refines (stats_flows s) k (pkt_captured_length p) Hok (Hk k eq_refl)) as (t & Hr & Hok' & Hm).
    exists t. cbn [stats_flows count_packet]. rewrite Hr. mred. done.
  - exists (stats_flows s). split; [by destruct s|]. done.
Qed.

(** A capture: one update per packet. *)
Fixpoint ns_stats_run (s : ns_stats_t) (pkts : list ns_packet_t) : M ns_stats_t :=
  match pkts with
  | [] => Done s
  | p :: pkts => s ← ns_stats_update s p; ns_stats_run s pkts
  end.

Definition count_if (P : ns_packet_t -> bool) (pkts : list ns_packet_t) : Z :=
  Z.of_nat (length (filter (fun p => P p = true) pkts)).

Lemma count_if_cons P p pkts : count_if P (p :: pkts) = (if P p then 1 else 0) + count_if P pkts.
Proof.
  unfold count_if. destruct (P p) eqn:E.
  - rewrite filter_cons_True by done. cbn [length]. lia.
  - rewrite filter_cons_False by congruence. lia.
Qed.

Lemma count_if_le P pkts : 0 <= count_if P pkts <= zlen pkts.
Proof. unfold count_if, zlen. pose proof (length_filter (fun p => P p = true) pkts). lia. Qed.

Lemma count_if_true pkts : count_if (fun _ => true) pkts = zlen pkts.
Proof. induction pkts as [|p pkts IH]; [done|]. by rewrite count_if_cons, zlen_cons, IH. Qed.

Definition is_net (np : ns_proto_t) (p : ns_packet_t) : bool := bool_decide (pkt_network_proto p = np).
Definition is_transport (tp : ns_proto_t) (p : ns_packet_t) : bool := bool_decide (pkt_transport_proto p = tp).

(** None of the protocols [ns_stats_print] lists. *)
Definition is_other (p : ns_packet_t) : bool :=
  negb (is_transport NS_PROTO_TCP p || is_transport NS_PROTO_UDP p || is_transport NS_PROTO_ICMP p
        || is_transport NS_PROTO_ICMPV6 p || is_net NS_PROTO_ARP p).

(** An Ethernet frame of a type that has no parser. *)
Definition is_unsupported (p : ns_packet_t) : bool :=
  match pkt_network_proto p with
  | NS_PROTO_IPV4 | NS_PROTO_IPV6 | NS_PROTO_ARP => false
  | _ => pkt_has_eth p && negb (pkt_malformed p)
  end.

(** The counters of [s], as a list, and the tests that decide them. *)
Definition counters (s : ns_stats_t) : list Z :=
  [total_packets s; ipv4_packets s; ipv6_packets s; arp_packets s; tcp_packets s; udp_packets s;
   icmp_packets s; icmpv6_packets s; dns_packets s; malformed_packets s; unsupported_packets s].

Definition tests : list (ns_packet_t -> bool) :=
  [(fun _ => true); is_net NS_PROTO_IPV4; is_net NS_PROTO_IPV6; is_net NS_PROTO_ARP;
   is_transport NS_PROTO_TCP; is_transport NS_PROTO_UDP; is_transport NS_PROTO_ICMP;
   is_transport NS_PROTO_ICMPV6; pkt_has_dns; pkt_malformed; is_unsupported].

(** The two byte totals, which are kept modulo 2^64. *)
Definition byte_totals (s : ns_stats_t) : Z * Z := (total_captured_bytes s, total_wire_bytes s).

Definition add_totals (t : Z * Z) (p : ns_packet_t) : Z * Z :=
  (u64c (t.1 + pkt_captured_length p), u64c (t.2 + pkt_original_length p)).

Definition sum_of (f : ns_packet_t -> Z) (pkts : list ns_packet_t) : Z := foldr (fun p n => f p + n) 0 pkts.

Lemma totals_run pkts a b :
  fold_left add_totals pkts (u64c a, u64c b)
  = (u64c (a + sum_of pkt_captured_length pkts), u64c (b + sum_of pkt_original_length pkts)).
Proof.
  revert a b. induction pkts as [|p pkts IH]; intros a b; cbn [fold_left sum_of foldr]; [by rewrite !Z.add_0_r|].
  assert (Hm : forall x y, u64c (u64c x + y) = u64c (x + y)) by (intros; apply Zplus_mod_idemp_l).
  unfold add_totals at 2. cbn [fst snd]. rewrite !Hm.
  rewrite IH. unfold sum_of. by rewrite !Z.add_assoc.
Qed.

Lemma count_packet_counters s p t :
  counters (set_flows (count_packet s p) t) = zip_with (fun c P => inc_if (P p) c) (counters s) tests.
Proof. done. Qed.

(** Counters do not wrap while fewer than 2^64 packets have been seen. *)
Lemma counters_run cs Ps pkts n :
  Forall (fun c => 0 <= c <= n) cs -> n + zlen pkts < 2 ^ 64 -> length cs = length Ps ->
  fold_left (fun cs p => zip_with (fun c P => inc_if (P p) c) cs Ps) pkts cs
  = zip_with (fun c P => c + count_if P pkts) cs Ps.
Proof.
  intros Hc Hn Hl. revert cs n Hc Hn Hl. induction pkts as [|p pkts IH]; intros cs n Hc Hn Hl.
  - cbn [fold_left]. clear Hc Hn. revert Ps Hl. induction cs as [|c cs IH]; intros [|P Ps] Hl; try done.
    cbn [zip_with]. rewrite <- IH by (by injection Hl). f_equal. unfold count_if. cbn. lia.
  - cbn [fold_left]. rewrite zlen_cons in Hn. pose proof (zlen_nonneg pkts) as Hz.
    rewrite (IH _ (n + 1)).
    + clear IH Hl. revert Ps. induction Hc as [|c cs Hc' Hc IH]; intros [|P Ps]; try done. cbn [zip_with].
      f_equal; [|apply IH]. rewrite count_if_cons. unfold inc_if, u64inc, u64c.
      destruct (P p); [rewrite Z.mod_small by lia|]; lia.
    + clear IH Hl. revert Ps. induction Hc as [|c cs Hc' Hc IH]; intros [|P Ps]; cbn [zip_with]; constructor; try done.
      unfold inc_if, u64inc, u64c. destruct (P p); [rewrite Z.mod_small by lia|]; lia.
    + lia.
    + rewrite length_zip_with. lia.
Qed.

Lemma ns_stats_run_spec s pkts :
  table_ok (stats_flows s) -> Forall packet_shape pkts ->
  exists s', ns_stats_run s pkts = Done s' /\ table_ok (stats_flows s') /\
    counters s' = fold_left (fun cs p => zip_with (fun c P => inc_if (P p) c) cs tests) pkts (counters s) /\
    byte_totals s' = fold_left add_totals pkts (byte_totals s) /\
    table_map (stats_flows s') = fold_left count_flow pkts (table_map (stats_flows s)).
Proof.
  intros Hok Hp. revert s Hok. induction Hp as [|p pkts Hp Hps IH]; intros s Hok; [by exists s|].
  cbn [ns_stats_run fold_left]. destruct (ns_stats_update_spec s p Hok Hp) as (t & -> & Ht & Hm). mred.
  destruct (IH (set_flows (count_packet s p) t)) as (s' & -> & Hok' & Hc & Hb & Hm'); [done|].
  exists s'. split; [done|]. split; [done|]. rewrite Hc, Hb, Hm', count_packet_counters. split; [done|]. split; [done|].
  f_equal. exact Hm.
Qed.

(** The listed protocols exclude each other, so every packet is in exactly one line. *)
Lemma other_partition pkts :
  Forall packet_shape pkts ->
  zlen pkts = count_if (is_transport NS_PROTO_TCP) pkts + count_if (is_transport NS_PROTO_UDP) pkts
              + count_if (is_transport NS_PROTO_ICMP) pkts + count_if (is_transport NS_PROTO_ICMPV6) pkts
              + count_if (is_net NS_PROTO_ARP) pkts + count_if is_other pkts.
Proof.
  induction 1 as [|p pkts [Hn Ht] _ IH]; [done|]. rewrite zlen_cons, !count_if_cons, IH.
  assert (Hex : pkt_network_proto p = NS_PROTO_ARP -> pkt_transport_proto p = NS_PROTO_UNKNOWN).
  { intros E. rewrite E in Hn. by destruct Hn. }
  clear Hn Ht IH. unfold is_other, is_transport, is_net.
  repeat case_bool_decide; cbn; first [lia | exfalso; intuition congruence].
Qed.

(** ** Properties *)

(** C22. Counting a packet: for every packet the parser produces, the update returns without a
    fault, keeps the flow table well-formed, and acts on the flow map exactly as its
    conversation (addresses as text, ports) says. *)
Theorem stats_update_packet (data : list byte) (captured original : Z) (ts : ns_timestamp_t)
    (number : Z) (link : ns_link_type_t) (s : ns_stats_t) :
  view_ok data captured -> table_ok (stats_flows s) ->
  wp (p ← ns_packet_parse data captured original ts number link;
      s' ← ns_stats_update s p; Done (p, s'))
     (fun '(p, s') =>
        s' = set_flows (count_packet s p) (stats_flows s') /\ table_ok (stats_flows s') /\
        table_map (stats_flows s') = count_flow (table_map (stats_flows s)) p).
Proof.
  intros Hv Hok. apply wp_bind. eapply wp_mono; [by apply ns_packet_parse_ok|].
  intros p [_ [Hs _]]. apply sound_shape in Hs.
  destruct (ns_stats_update_spec s p Hok Hs) as (t & -> & Ht & Hm). mred. cbn [wp].
  by destruct s.
Qed.

Lemma stats_update_packet_witness :
  view_ok sample_frame 71 /\ table_ok (stats_flows ns_stats_init) /\
  wp (p ← ns_packet_parse sample_frame 71 71 (Timestamp 0 0) 1 NS_LINK_ETHERNET;
      s' ← ns_stats_update ns_stats_init p; Done (p, s'))
     (fun '(_, s') => table_ok (stats_flows s')).
Proof.
  split; [done|]. split; [apply empty_table_ok|]. eapply wp_mono.
  - apply (stats_update_packet sample_frame 71 71 (Timestamp 0 0) 1 NS_LINK_ETHERNET ns_stats_init); [done|].
    apply empty_table_ok.
  - by intros [p s'] (_ & H & _).
Defined.

(** C8. The counters are exact: after a capture of fewer than 2^64 parsed packets, each counter
    is the number of packets of its kind, the byte totals are the sums of the captured and of the
    original lengths modulo 2^64, the flow map is the one obtained by counting each
    conversation, and the "Other" line, computed by five unsigned subtractions, does not wrap:
    it is the number of packets that are none of TCP, UDP, ICMP, ICMPv6 and ARP. *)
Theorem stats_run_exact (pkts : list ns_packet_t) :
  Forall packet_shape pkts -> zlen pkts < 2 ^ 64 ->
  exists s, ns_stats_run ns_stats_init pkts = Done s /\
    counters s = (fun P => count_if P pkts) <$> tests /\
    byte_totals s = (u64c (sum_of pkt_captured_length pkts), u64c (sum_of pkt_original_length pkts)) /\
    other_packets s = count_if is_other pkts /\
    table_map (stats_flows s) = fold_left count_flow pkts ∅.
Proof.
  intros Hp Hl. destruct empty_table_ok as [Hok Hm].
  destruct (ns_stats_run_spec ns_stats_init pkts Hok Hp) as (s & Hr & _ & Hc & Hb & Hmap).
  rewrite (counters_run _ _ _ 0) in Hc by ((by repeat constructor) || done || lia).
  change (stats_flows ns_stats_init) with empty_table in Hmap. rewrite Hm in Hmap.
  exists s. split; [done|]. split; [exact Hc|].
  split; [rewrite Hb; exact (totals_run pkts 0 0)|]. split; [|done].
  pose proof (other_partition pkts Hp) as Hsum. unfold counters, tests in Hc. cbn [zip_with] in Hc.
  injection Hc as E1 _ _ E2 E3 E4 E5 E6 _ _ _. cbn [Z.add] in *.
  pose proof (count_if_true pkts) as Htot.
  unfold other_packets. rewrite E1, E2, E3, E4, E5, E6, Htot.
  pose proof (count_if_le is_other pkts). pose proof (count_if_le (is_transport NS_PROTO_TCP) pkts).
  pose proof (count_if_le (is_transport NS_PROTO_UDP) pkts). pose proof (count_if_le (is_transport NS_PROTO_ICMP) pkts).
  pose proof (count_if_le (is_transport NS_PROTO_ICMPV6) pkts). pose proof (count_if_le (is_net NS_PROTO_ARP) pkts).
  rewrite !szsub_szsub, szsub_small by lia. lia.
Qed.

Lemma stats_run_exact_witness :
  let p := Packet 1 (Timestamp 0 0) 60 60 [] NS_LINK_ETHERNET true sample_eth NS_PROTO_IPV4
             (NetIpv4 sample_ipv4) NS_PROTO_UDP (TransportUdp sample_udp) false zero_dns (Some 42) 18 false None in
  exists s, ns_stats_run ns_stats_init [p; p] = Done s /\
    counters s = (fun P => count_if P [p; p]) <$> tests /\
    byte_totals s = (u64c (sum_of pkt_captured_length [p; p]), u64c (sum_of pkt_original_length [p; p])) /\
    other_packets s = count_if is_other [p; p] /\
    table_map (stats_flows s) = fold_left count_flow [p; p] ∅.
Proof.
  intros p. apply (stats_run_exact [p; p]); [|done].
  assert (H : packet_shape p) by (split; cbn; by eexists).
  apply Forall_cons; [exact H|]. apply Forall_cons; [exact H|]. apply Forall_nil.
Defined.
