(* ===== verification/Filter.v ===== *)
(** * The capture filter: [src/filter.c]

    [ns_filter_build_bpf] turns the command line's filter options into one BPF expression in a
    caller's buffer. *)

From S2P Require Import Prelude CMem Util.

(** A [const char *] option: [None] for [NULL], otherwise the C string. *)
Record ns_filter_spec_t := FilterSpec {
  spec_tcp : bool;
  spec_udp : bool;
  spec_icmp : bool;
  spec_port : Z;
  spec_host : option (list byte);
  spec_src : option (list byte);
  spec_dst : option (list byte);
  spec_raw : option (list byte)
}.

(** The function's value, the buffer and [*pos]. *)
Definition append (out : cbuf) (out_len pos : Z) (piece : list byte) : M (bool * cbuf * Z) :=
  let piece_len := zlen piece in
  '(ok, out, pos) ←
    (if negb (pos =? 0) then
       if szadd pos 4 >=? out_len then Done (false, out, pos)
       else out ← buf_copy out pos (txt " and "); Done (true, out, szadd pos 5)
     else Done (true, out, pos));
  if negb ok then Done (false, out, pos)
  else if szadd pos piece_len >=? out_len then Done (false, out, pos)
  else
    out ← buf_copy out pos piece;
    let pos := szadd pos piece_len in
    out ← buf_set out pos x00;
    Done (true, out, pos).

(** [if (cond && !append(...)) return false;]: [None] once the function has returned. *)
Definition append_if (cond : bool) (piece : list byte) (out_len : Z) (st : option (Z * cbuf) * cbuf)
    : M (option (Z * cbuf) * cbuf) :=
  match st.1 with
  | None => Done st
  | Some (pos, out) =>
      if cond then
        '(ok, out, pos) ← append out out_len pos piece;
        Done (if ok : bool then Some (pos, out) else None, out)
      else Done st
  end.

(** [s != NULL && s[0] != '\0'] *)
Definition present (s : option (list byte)) : bool :=
  match s with Some (_ :: _) => true | _ => false end.

(** [snprintf(piece, 128, ...)] *)
Definition piece_of (prefix : list byte) (s : option (list byte)) : list byte :=
  sn 128 (prefix ++ default [] s).

Definition ns_filter_build_bpf (spec : ns_filter_spec_t) (out : cbuf) (out_len : Z) : M (bool * cbuf) :=
  if out_len =? 0 then Done (false, out)
  else
    out ← buf_set out 0 x00;
    if present (spec_raw spec) then
      let raw := default [] (spec_raw spec) in
      if zlen raw >=? out_len then Done (false, out)
      else out ← buf_copy out 0 (raw ++ [x00]); Done (true, out)
    else
      st ← append_if (spec_tcp spec) (txt "tcp") out_len (Some (0, out), out);
      st ← append_if (spec_udp spec) (txt "udp") out_len st;
      st ← append_if (spec_icmp spec) (txt "icmp") out_len st;
      st ← append_if (spec_port spec >=? 0) (sn 128 (txt "port " ++ fmt_d (spec_port spec))) out_len st;
      st ← append_if (present (spec_host spec)) (piece_of (txt "host ") (spec_host spec)) out_len st;
      st ← append_if (present (spec_src spec)) (piece_of (txt "src host ") (spec_src spec)) out_len st;
      st ← append_if (present (spec_dst spec)) (piece_of (txt "dst host ") (spec_dst spec)) out_len st;
      Done (match st.1 with Some _ => true | None => false end, st.2).

(** ** The expression *)

(** The clauses in the order they are written, with the condition each depends on. *)
Definition clauses (spec : ns_filter_spec_t) : list (bool * list byte) :=
  [(spec_tcp spec, txt "tcp"); (spec_udp spec, txt "udp"); (spec_icmp spec, txt "icmp");
   (spec_port spec >=? 0, sn 128 (txt "port " ++ fmt_d (spec_port spec)));
   (present (spec_host spec), piece_of (txt "host ") (spec_host spec));
   (present (spec_src spec), piece_of (txt "src host ") (spec_src spec));
   (present (spec_dst spec), piece_of (txt "dst host ") (spec_dst spec))].

Definition chosen (cs : list (bool * list byte)) : list (list byte) :=
  snd <$> filter (fun c => fst c = true) cs.

Definition expression (spec : ns_filter_spec_t) : list byte :=
  if present (spec_raw spec) then default [] (spec_raw spec)
  else join (txt " and ") (chosen (clauses spec)).

(** The state after the clauses [ps] have been appended: the buffer holds their conjunction, or
    the function has returned because it does not fit. *)
Definition appended (out_len : Z) (ps : list (list byte)) (st : option (Z * cbuf) * cbuf) : Prop :=
  let text := join (txt " and ") ps in
  Forall (fun p => p <> []) ps /\ zlen st.2 = out_len /\
  match st.1 with
  | Some (pos, out) => out = st.2 /\ pos = zlen text /\ zlen text < out_len /\ holds out text
  | None => out_len <= zlen text
  end.

Lemma join_and_prefix ps qs :
  zlen (join (txt " and ") ps) <= zlen (join (txt " and ") (ps ++ qs)).
Proof.
  destruct ps as [|p ps]; [apply zlen_nonneg|]. destruct qs as [|q qs]; [by rewrite app_nil_r|].
  rewrite join_app, !zlen_app by done. pose proof (zlen_nonneg (join (txt " and ") (q :: qs))).
  change (zlen (txt " and ")) with 5. lia.
Qed.

Lemma join_and_nil ps :
  Forall (fun p => p <> []) ps -> (zlen (join (txt " and ") ps) = 0 <-> ps = []).
Proof.
  intros H. split; [|by intros ->]. destruct H as [|p ps Hp]; [done|]. intros E.
  pose proof (join_and_prefix [p] ps) as Hpre. change (join _ [p]) with p in Hpre.
  change ([p] ++ ps) with (p :: ps) in Hpre. rewrite E in Hpre. destruct p; [done|].
  rewrite zlen_cons in Hpre. pose proof (zlen_nonneg p). lia.
Qed.

(** The second half of [append]: the piece and its terminator after the text [s]. *)
Lemma write_piece s piece rest out_len :
  zlen piece < 2 ^ 63 -> out_len < 2 ^ 63 -> zlen s + zlen rest = out_len ->
  wp (if szadd (zlen s) (zlen piece) >=? out_len then Done (false, (Some <$> s) ++ rest, zlen s)
      else out ← buf_copy ((Some <$> s) ++ rest) (zlen s) piece;
           out ← buf_set out (szadd (zlen s) (zlen piece)) x00;
           Done (true, out, szadd (zlen s) (zlen piece)))
     (fun '(ok, out', pos') => zlen out' = out_len /\
        if ok : bool then pos' = zlen (s ++ piece) /\ zlen (s ++ piece) < out_len /\ holds out' (s ++ piece)
        else out_len <= zlen (s ++ piece)).
Proof.
  intros Hp Ho Hz. pose proof (zlen_nonneg s). pose proof (zlen_nonneg piece). pose proof (zlen_nonneg rest).
  rewrite !szadd_small, Z.geb_leb by lia.
  destruct (Z.leb_spec out_len (zlen s + zlen piece)).
  { split; rewrite ?zlen_app, ?zlen_fmap; lia. }
  rewrite buf_copy_append by lia. mred. rewrite <- zlen_app.
  rewrite buf_set_append by (rewrite zlen_drop; unfold zlen in *; lia). mred. cbn [wp].
  split; [rewrite !zlen_app, zlen_fmap, !zlen_app, !zlen_drop; change (zlen [x00]) with 1; unfold zlen in *; lia|].
  split; [done|]. split; [rewrite zlen_app; lia|]. eexists. rewrite fmap_app, <- app_assoc. done.
Qed.

Lemma append_spec out out_len ps piece :
  Forall (fun p => p <> []) ps -> piece <> [] -> zlen piece < 2 ^ 63 -> 0 < out_len < 2 ^ 63 -> zlen out = out_len ->
  zlen (join (txt " and ") ps) < out_len -> holds out (join (txt " and ") ps) ->
  wp (append out out_len (zlen (join (txt " and ") ps)) piece) (fun '(ok, out', pos') =>
    appended out_len (ps ++ [piece]) (if ok : bool then Some (pos', out') else None, out')).
Proof.
  intros Hps Hpc Hp63 Hol Hz Hfit [rest Hout]. unfold append, appended. pose proof (join_and_nil ps Hps) as Hnil.
  assert (Hpl : 0 < zlen piece) by (destruct piece; [done|rewrite zlen_cons; pose proof (zlen_nonneg piece); lia]).
  subst out. rewrite zlen_app, zlen_fmap in Hz. pose proof (zlen_nonneg (join (txt " and ") ps)).
  assert (Hps' : Forall (fun p => p <> []) (ps ++ [piece])) by (apply Forall_app; split; [done|by constructor]).
  destruct (decide (ps = [])) as [->|Hne].
  - cbn [join fmap list_fmap app] in *. change (zlen (@nil byte)) with 0 in *. cbn [Z.eqb negb]. mred. cbn [negb].
    eapply wp_mono; [apply (write_piece [] piece (Some x00 :: rest) out_len); [done|lia|exact Hz]|].
    intros [[[] out'] pos'] [Hz' Hm]; done.
  - rewrite (proj2 (Z.eqb_neq _ _)) by tauto. cbn [negb]. rewrite join_snoc by done.
    set (text := join (txt " and ") ps) in *. rewrite (szadd_small _ 4), Z.geb_leb by lia.
    destruct (Z.leb_spec out_len (zlen text + 4)).
    { mred. cbn [negb wp]. split; [done|]. split; [cbn [snd]; by rewrite zlen_app, zlen_fmap|]. cbn [fst]. rewrite !zlen_app.
      change (zlen (txt " and ")) with 5. lia. }
    rewrite buf_copy_append by (change (zlen (txt " and ")) with 5; lia). mred. cbn [negb].
    replace (szadd (zlen text) 5) with (zlen (text ++ txt " and "))
      by (rewrite szadd_small, zlen_app by lia; done).
    rewrite app_assoc. eapply wp_mono.
    { apply write_piece; [done|lia|]. rewrite zlen_app, zlen_drop. change (zlen (txt " and ")) with 5.
      change (Z.of_nat (length (txt " and "))) with 5. lia. }
    intros [[[] out'] pos'] [Hz' Hm]; done.
Qed.

Lemma chosen_app cs ds : chosen (cs ++ ds) = chosen cs ++ chosen ds.
Proof. unfold chosen. by rewrite list.filter_app, fmap_app. Qed.

Lemma append_if_spec out_len cs cond piece st :
  piece <> [] /\ zlen piece <= 127 -> 0 < out_len < 2 ^ 63 -> appended out_len (chosen cs) st ->
  wp (append_if cond piece out_len st) (appended out_len (chosen (cs ++ [(cond, piece)]))).
Proof.
  intros [Hpc Hp] Hol (Hps & Hz & Hm). rewrite chosen_app.
  destruct st as [[[pos out]|] out0]; unfold append_if; cbn [fst snd] in *.
  - destruct Hm as (-> & -> & Hfit & Hh). destruct cond; cbn [chosen]; cycle 1.
    { unfold chosen at 2. cbn. rewrite app_nil_r. done. }
    apply wp_bind. eapply wp_mono; [apply append_spec; done || lia|]. intros [[ok out'] pos'] H. exact H.
  - cbn [wp]. split; [|split; [done|]].
    + apply Forall_app. split; [done|]. destruct cond; [by repeat constructor|constructor].
    + cbn [fst]. pose proof (join_and_prefix (chosen cs) (chosen [(cond, piece)])). lia.
Qed.

Lemma fmt_d_zlen p : - 2 ^ 31 <= p < 2 ^ 31 -> zlen (fmt_d p) <= 11.
Proof.
  intros Hp. unfold fmt_d. destruct (Z.ltb_spec p 0).
  - rewrite zlen_app. change (zlen (txt "-")) with 1. pose proof (digits_zlen 10 (- p) 10). lia.
  - pose proof (digits_zlen 10 p 10). lia.
Qed.

Lemma piece_of_facts prefix s :
  prefix <> [] -> zlen prefix < 127 -> piece_of prefix s <> [] /\ zlen (piece_of prefix s) <= 127.
Proof.
  intros Hne Hz. unfold piece_of, sn. split; [|rewrite zlen_take; lia].
  destruct prefix; [done|]. done.
Qed.

Lemma port_piece_facts s : sn 128 (txt "port " ++ s) <> [] /\ zlen (sn 128 (txt "port " ++ s)) <= 127.
Proof. unfold sn. split; [done|]. rewrite zlen_take. lia. Qed.

Lemma ns_filter_build_bpf_spec spec out out_len :
  zlen (default [] (spec_raw spec)) < 2 ^ 63 -> 0 < out_len < 2 ^ 63 -> zlen out = out_len ->
  wp (ns_filter_build_bpf spec out out_len) (fun '(ok, out') =>
    zlen out' = out_len /\ ok = (zlen (expression spec) <? out_len) /\
    (ok = true -> holds out' (expression spec))).
Proof.
  intros Hraw Hol Hz. unfold ns_filter_build_bpf, expression. destruct (Z.eqb_spec out_len 0); [lia|].
  assert (E : buf_set out 0 x00 = Done (Some x00 :: drop 1 out)) by (apply (buf_set_append []); lia).
  rewrite E. mred. clear E. assert (Hz1 : zlen (Some x00 :: drop 1 out) = out_len) by (rewrite zlen_cons, zlen_drop; lia).
  destruct (present (spec_raw spec)).
  - set (raw := default [] (spec_raw spec)) in *. rewrite Z.geb_leb.
    destruct (Z.leb_spec out_len (zlen raw)), (Z.ltb_spec (zlen raw) out_len); try lia; [done|].
    pose proof (buf_copy_append [] (raw ++ [x00]) (Some x00 :: drop 1 out)) as E. cbn [app fmap list_fmap] in E.
    change (zlen (@nil byte)) with 0 in E. rewrite E by (rewrite zlen_app; change (zlen [x00]) with 1; lia). mred.
    cbn [wp]. split; [|split; [done|]].
    + rewrite zlen_app, zlen_fmap, zlen_app, zlen_drop, Hz1. change (zlen [x00]) with 1. unfold zlen in *.
      rewrite length_app. cbn [length]. pose proof (Nat2Z.is_nonneg (length raw)). lia.
    + intros _. eexists. rewrite fmap_app, <- app_assoc. done.
  - assert (H0 : appended out_len (chosen []) (Some (0, Some x00 :: drop 1 out), Some x00 :: drop 1 out)).
    { split; [constructor|]. split; [done|]. cbn [fst snd]. split; [done|]. split; [done|].
      change (zlen (join (txt " and ") (chosen []))) with 0. split; [lia|]. by exists (drop 1 out). }
    repeat (apply wp_bind; eapply wp_mono;
      [apply append_if_spec; [first [by apply piece_of_facts | by apply port_piece_facts | done]|done|eassumption]
      |clear H0; intros ?st H0; cbn beta]).
    cbn [app wp] in *. match type of H0 with appended _ _ ?s => destruct s as [[[pos o]|] o'] end;
      destruct H0 as (_ & Hz2 & Hm); cbn [fst snd] in *.
    + destruct Hm as (-> & -> & Hfit & Hh). split; [done|]. split; [|done]. symmetry. by apply Z.ltb_lt.
    + split; [done|]. split; [|done]. symmetry. by apply Z.ltb_ge.
Qed.

(** ** Properties *)

(** The expression in full, as the documentation describes it: the clauses with the options
    as the user wrote them. *)
Definition full_clauses (spec : ns_filter_spec_t) : list (bool * list byte) :=
  let named prefix s := (present s, txt prefix ++ default [] s) in
  [(spec_tcp spec, txt "tcp"); (spec_udp spec, txt "udp"); (spec_icmp spec, txt "icmp");
   (spec_port spec >=? 0, txt "port " ++ fmt_d (spec_port spec));
   named "host " (spec_host spec); named "src host " (spec_src spec);
   named "dst host " (spec_dst spec)].

Definition full_expression (spec : ns_filter_spec_t) : list byte :=
  match spec_raw spec with
  | Some ((_ :: _) as raw) => raw
  | _ => join (txt " and ") (map snd (List.filter fst (full_clauses spec)))
  end.

(** Options as the command line delivers them: C strings, a port in the range of [int], and
    host names of at most 122 bytes (118 for a source or destination). *)
Definition ordinary_spec (spec : ns_filter_spec_t) : Prop :=
  let text n s := no_nul (default [] s) /\ zlen (default [] s) <= n in
  - 2 ^ 31 <= spec_port spec < 2 ^ 31 /\ text (2 ^ 63 - 1) (spec_raw spec) /\
  text 122 (spec_host spec) /\ text 118 (spec_src spec) /\ text 118 (spec_dst spec).

#[local] Instance ordinary_spec_dec spec : Decision (ordinary_spec spec).
Proof. unfold ordinary_spec. apply _. Defined.

Lemma piece_of_full prefix s :
  zlen prefix + zlen (default [] s) <= 127 -> piece_of prefix s = prefix ++ default [] s.
Proof. intros H. apply sn_fits. rewrite zlen_app. lia. Qed.

Lemma chosen_filter cs : chosen cs = map snd (List.filter fst cs).
Proof.
  induction cs as [|[b c] cs IH]; [done|]. change ((b, c) :: cs) with ([(b, c)] ++ cs).
  rewrite chosen_app, IH. by destruct b.
Qed.

Lemma expression_full spec : ordinary_spec spec -> expression spec = full_expression spec.
Proof.
  intros (Hp & _ & [_ Hh] & [_ Hs] & [_ Hd]). unfold expression, full_expression.
  assert (clauses spec = full_clauses spec) as ->.
  { pose proof (fmt_d_zlen _ Hp). unfold clauses, full_clauses.
    rewrite (sn_fits 128) by (rewrite zlen_app; change (zlen (txt "port ")) with 5; lia).
    rewrite (piece_of_full (txt "host ")) by (change (zlen (txt "host ")) with 5; lia).
    rewrite (piece_of_full (txt "src host ")) by (change (zlen (txt "src host ")) with 9; lia).
    by rewrite (piece_of_full (txt "dst host ")) by (change (zlen (txt "dst host ")) with 9; lia). }
  rewrite chosen_filter. by destruct (spec_raw spec) as [[|c raw]|].
Qed.

Lemma no_nul_fmt_d p : no_nul (fmt_d p).
Proof.
  unfold fmt_d. destruct (Z.ltb_spec p 0).
  - apply not_elem_of_app. split; [by apply (bool_decide_unpack _)|].
    apply no_nul_digits. apply digits_is_digit; lia.
  - apply no_nul_digits. apply digits_is_digit; lia.
Qed.

Lemma no_nul_full_expression spec : ordinary_spec spec -> no_nul (full_expression spec).
Proof.
  intros (_ & [Hr _] & [Hh _] & [Hs _] & [Hd _]). unfold full_expression.
  assert (Happ : forall p s, no_nul p -> no_nul s -> no_nul (p ++ s))
    by (intros ? ? ? ?; by apply not_elem_of_app).
  assert (Hall : Forall (fun c => no_nul (snd c)) (full_clauses spec)).
  { repeat (apply List.Forall_cons); [..|apply List.Forall_nil]; cbn [snd];
      first [by apply (bool_decide_unpack _)
            | apply Happ; [by apply (bool_decide_unpack _)|first [done | apply no_nul_fmt_d]]]. }
  assert (Hj : no_nul (join (txt " and ") (map snd (List.filter fst (full_clauses spec))))).
  { apply no_nul_join; [by apply (bool_decide_unpack _)|]. apply List.Forall_map.
    revert Hall. generalize (full_clauses spec). induction 1 as [|[[] c] cs Hc _ IH]; [constructor|by constructor|done]. }
  by destruct (spec_raw spec) as [[|c raw]|].
Qed.



(** The room a list of clauses takes at most. *)
Definition room (cs : list (bool * list byte)) : Z := foldr (fun c n => zlen c.2 + 5 + n) 0 cs.

Lemma join_room cs : zlen (join (txt " and ") (chosen cs)) <= room cs.
Proof.
  induction cs as [|[b c] cs IH]; [done|]. change ((b, c) :: cs) with ([(b, c)] ++ cs). rewrite chosen_app.
  cbn [room foldr snd app]. fold (room cs). pose proof (zlen_nonneg c). destruct b; cycle 1.
  { change (chosen [(false, c)]) with (@nil (list byte)). cbn [app]. lia. }
  change (chosen [(true, c)]) with [c]. cbn [app].
  destruct (chosen cs) as [|d ds] eqn:E.
  - change (join (txt " and ") [c]) with c. assert (0 <= room cs); [|lia].
    clear -cs. induction cs as [|[? ?] ? IHr]; cbn; [lia|]. pose proof (zlen_nonneg l). unfold room in IHr. lia.
  - rewrite join_cons, !zlen_app by done. change (zlen (txt " and ")) with 5. lia.
Qed.

Lemma filter_fits (spec : ns_filter_spec_t) (out : cbuf) :
  - 2 ^ 31 <= spec_port spec < 2 ^ 31 -> zlen (default [] (spec_raw spec)) <= 255 -> zlen out = 512 ->
  wp (ns_filter_build_bpf spec out 512) (fun '(ok, out') =>
    ok = true /\ cstring out' = Done (until_nul (expression spec))).
Proof.
  intros Hport Hraw Hz. eapply wp_mono; [apply ns_filter_build_bpf_spec; done || lia|].
  assert (Hfit : zlen (expression spec) < 512).
  { unfold expression. destruct (present (spec_raw spec)); [lia|].
    pose proof (join_room (clauses spec)) as Hr. unfold clauses, room in *. cbn [foldr snd] in Hr.
    pose proof (fmt_d_zlen _ Hport) as Hd.
    destruct (piece_of_facts (txt "host ") (spec_host spec)) as [_ H1]; [done..|].
    destruct (piece_of_facts (txt "src host ") (spec_src spec)) as [_ H2]; [done..|].
    destruct (piece_of_facts (txt "dst host ") (spec_dst spec)) as [_ H3]; [done..|].
    set (joined := zlen (join _ _)) in *. clearbody joined.
    rewrite (sn_fits 128 (txt "port " ++ _)), zlen_app in Hr
      by (rewrite zlen_app; change (zlen (txt "port ")) with 5; lia).
    change (zlen (txt "tcp")) with 3 in Hr. change (zlen (txt "udp")) with 3 in Hr.
    change (zlen (txt "icmp")) with 4 in Hr. change (zlen (txt "port ")) with 5 in Hr. lia. }
  intros [ok out'] (_ & -> & Hh). rewrite Z.ltb_lt in *. split; [done|]. by apply cstring_holds, Hh.
Qed.

(** C34. The command line's limits are enough: with the 512-byte buffer [main] uses, a port in
    the range of [int] and a raw expression of at most 255 bytes, building the filter always
    succeeds, however long the host options are; the "too long" error cannot be reached. *)
Theorem filter_always_fits (spec : ns_filter_spec_t) (out : cbuf) :
  - 2 ^ 31 <= spec_port spec < 2 ^ 31 -> zlen (default [] (spec_raw spec)) <= 255 -> zlen out = 512 ->
  wp (ns_filter_build_bpf spec out 512) (fun '(ok, out') =>
    ok = true /\ cstring out' = Done (until_nul (expression spec))).
Proof. apply filter_fits. Qed.

Lemma filter_always_fits_witness :
  let spec := FilterSpec true true true 65535 (Some (replicate 255 x61)) (Some (replicate 255 x62))
                (Some (replicate 255 x63)) None in
  wp (ns_filter_build_bpf spec (uninit_buf 512) 512) (fun '(ok, out') =>
    ok = true /\ cstring out' = Done (until_nul (expression spec))).
Proof. intros spec. apply (filter_always_fits spec (uninit_buf 512)); done. Defined.

(** A host longer than 122 bytes is silently cut: the filter of a 200-byte name is the same
    as the filter of its first 122 bytes, which name another host. *)
Lemma filter_cuts_long_host (rest : list byte) (out : cbuf) (out_len : Z) :
  let spec h := FilterSpec false false false (-1) (Some h) None None None in
  ns_filter_build_bpf (spec (replicate 122 x61 ++ rest)) out out_len
  = ns_filter_build_bpf (spec (replicate 122 x61)) out out_len.
Proof. done. Qed.

(** [--icmp] selects IPv4's ICMP only. *)
Example icmp_clause :
  expression (FilterSpec false false true (-1) None None None None) = txt "icmp".
Proof. done. Qed.
