(* ===== verification/Json.v ===== *)
(** * JSON documents: the reference for [--format json]

    The documents, a reader for their text (RFC 8259 without insignificant white space, and with
    natural numbers only), the canonical text of a document, and the proof that the reader reads
    it back.  [Output] proves that the program prints the canonical text of the document of a
    packet. *)

From S2P Require Import Prelude CMem.

(** Strings are sequences of code points. *)
Inductive json :=
  | JNum (n : Z)
  | JBool (b : bool)
  | JStr (s : list Z)
  | JArr (vs : list json)
  | JObj (ms : list (list Z * json)).

(** ** Reading *)

Definition hex_val (c : byte) : option Z :=
  if (48 <=? bv c) && (bv c <=? 57) then Some (bv c - 48)
  else if (97 <=? bv c) && (bv c <=? 102) then Some (bv c - 87)
  else if (65 <=? bv c) && (bv c <=? 70) then Some (bv c - 55)
  else None.

Definition hex4 (a b c d : byte) : option Z :=
  a ← hex_val a; b ← hex_val b; c ← hex_val c; d ← hex_val d; Some (((a * 16 + b) * 16 + c) * 16 + d).

(** The code point of a two-character escape. *)
Definition simple_escape (c : byte) : option Z :=
  if decide (c = x22) then Some 34
  else if decide (c = x5c) then Some 92
  else if decide (c = x2f) then Some 47
  else if decide (c = x62) then Some 8
  else if decide (c = x66) then Some 12
  else if decide (c = x6e) then Some 10
  else if decide (c = x72) then Some 13
  else if decide (c = x74) then Some 9
  else None.

(** The rest of a string after its opening quote.  Control characters must be escaped; bytes
    outside ASCII are refused. *)
Fixpoint read_string (s : list byte) : option (list Z * list byte) :=
  match s with
  | [] => None
  | c :: s =>
      if decide (c = x22) then Some ([], s)
      else if decide (c = x5c) then
        match s with
        | [] => None
        | e :: s =>
            if decide (e = x75) then
              match s with
              | h1 :: h2 :: h3 :: h4 :: s =>
                  cp ← hex4 h1 h2 h3 h4; '(cps, r) ← read_string s; Some (cp :: cps, r)
              | _ => None
              end
            else cp ← simple_escape e; '(cps, r) ← read_string s; Some (cp :: cps, r)
        end
      else if (32 <=? bv c) && (bv c <? 128)
      then '(cps, r) ← read_string s; Some (bv c :: cps, r)
      else None
  end.

(** A natural number without leading zeros. *)
Definition read_number (s : list byte) : option (Z * list byte) :=
  let '(ds, r) := span_decimal s in
  match ds with
  | [] => None
  | d :: ds' => if decide (d = x30 /\ ds' <> []) then None else Some (undigits 10 ds, r)
  end.

(** [expect p s]: [s] after the prefix [p]. *)
Definition expect (p s : list byte) : option (list byte) :=
  if decide (take (length p) s = p) then Some (drop (length p) s) else None.

(** Values; the fuel bounds the number of calls, each of which consumes text. *)
Fixpoint read_value (n : nat) (s : list byte) : option (json * list byte) :=
  match n, s with
  | O, _ | _, [] => None
  | S n, c :: s' =>
      if decide (c = x22) then '(cps, r) ← read_string s'; Some (JStr cps, r)
      else if decide (c = x7b) then
        match s' with
        | [] => None
        | c' :: r => if decide (c' = x7d) then Some (JObj [], r)
                     else '(ms, r) ← read_members n s'; Some (JObj ms, r)
        end
      else if decide (c = x5b) then
        match s' with
        | [] => None
        | c' :: r => if decide (c' = x5d) then Some (JArr [], r)
                     else '(vs, r) ← read_elements n s'; Some (JArr vs, r)
        end
      else if decide (c = x74) then r ← expect (txt "true") s; Some (JBool true, r)
      else if decide (c = x66) then r ← expect (txt "false") s; Some (JBool false, r)
      else '(v, r) ← read_number s; Some (JNum v, r)
  end
with read_members (n : nat) (s : list byte) : option (list (list Z * json) * list byte) :=
  match n, s with
  | S n, c :: s =>
      if decide (c = x22) then
        '(key, s) ← read_string s; s ← expect (txt ":") s; '(v, s) ← read_value n s;
        match s with
        | [] => None
        | c :: s => if decide (c = x7d) then Some ([(key, v)], s)
                    else if decide (c = x2c) then '(ms, s) ← read_members n s; Some ((key, v) :: ms, s)
                    else None
        end
      else None
  | _, _ => None
  end
with read_elements (n : nat) (s : list byte) : option (list json * list byte) :=
  match n with
  | O => None
  | S n =>
      '(v, s) ← read_value n s;
      match s with
      | [] => None
      | c :: s => if decide (c = x5d) then Some ([v], s)
                  else if decide (c = x2c) then '(vs, s) ← read_elements n s; Some (v :: vs, s)
                  else None
      end
  end.

(** A whole text. *)
Definition read_json (s : list byte) : option json :=
  '(v, r) ← read_value (S (length s)) s; if decide (r = []) then Some v else None.

(** ** Writing *)

(** The canonical escape of a code point below 256. *)
Definition escape (cp : Z) : list byte :=
  if cp =? 34 then [x5c; x22]
  else if cp =? 92 then [x5c; x5c]
  else if cp =? 10 then [x5c; x6e]
  else if cp =? 13 then [x5c; x72]
  else if cp =? 9 then [x5c; x74]
  else if (cp <? 32) || (cp >=? 127) then [x5c; x75] ++ fmt_0x 4 cp
  else [zb cp].

Definition quote (s : list Z) : list byte := [x22] ++ concat (escape <$> s) ++ [x22].

Fixpoint write_json (v : json) : list byte :=
  match v with
  | JNum n => fmt_u n
  | JBool b => if b then txt "true" else txt "false"
  | JStr s => quote s
  | JArr vs => [x5b] ++ join [x2c] (write_json <$> vs) ++ [x5d]
  | JObj ms => [x7b] ++ join [x2c] ((fun m => quote (fst m) ++ [x3a] ++ write_json (snd m)) <$> ms) ++ [x7d]
  end.

(** ** Reading back what is written *)

Definition code_point (cp : Z) : Prop := 0 <= cp < 256.

Fixpoint json_ok (v : json) : Prop :=
  match v with
  | JNum n => 0 <= n
  | JBool _ => True
  | JStr s => Forall code_point s
  | JArr vs => foldr (fun v P => json_ok v /\ P) True vs
  | JObj ms => foldr (fun m P => Forall code_point (fst m) /\ json_ok (snd m) /\ P) True ms
  end.

(** The text that follows does not continue a number. *)
Definition ends_number (r : list byte) : Prop := match r with c :: _ => is_decimal c = false | [] => True end.

Lemma read_escape b t :
  read_string (escape (bv b) ++ t) = ('(cps, r) ← read_string t; Some (bv b :: cps, r)).
Proof. destruct b; reflexivity. Qed.

Lemma read_string_escape s r :
  Forall code_point s -> read_string (concat (escape <$> s) ++ x22 :: r) = Some (s, r).
Proof.
  induction 1 as [|cp s Hcp Hs IH]; [done|]. rewrite fmap_cons. cbn [concat]. rewrite <- app_assoc.
  replace cp with (bv (zb cp)) by (apply bv_zb_small; exact Hcp). by rewrite read_escape, IH.
Qed.

Lemma read_quote s r :
  Forall code_point s -> exists t, quote s ++ r = x22 :: t /\ read_string t = Some (s, r).
Proof.
  intros Hs. exists (concat (escape <$> s) ++ x22 :: r). split; [|by apply read_string_escape].
  unfold quote. rewrite <- !app_assoc. done.
Qed.

Lemma expect_app p r : expect p (p ++ r) = Some r.
Proof. unfold expect. by rewrite take_app_length, decide_True, drop_app_length. Qed.

Lemma read_number_write n r : 0 <= n -> ends_number r -> read_number (fmt_u n ++ r) = Some (n, r).
Proof.
  intros Hn Hr. destruct (digits_decimal n Hn) as (Hf & Hne & Hz). unfold read_number, fmt_u.
  rewrite span_decimal_app by done. pose proof (undigits_digits 10 n ltac:(lia) Hn) as Hu.
  destruct (digits 10 n) as [|d ds] eqn:E; [done|]. case_decide as Hd; [|by rewrite Hu].
  destruct Hd as [-> Hds]. rewrite (Hz eq_refl) in E. by injection E as <-.
Qed.

(** The first character of a value. *)
Lemma write_json_head v :
  json_ok v -> exists c s, write_json v = c :: s /\ c <> x5d /\
    match v with JNum _ => is_decimal c = true | _ => True end.
Proof.
  destruct v as [n|[]|s|vs|ms]; intros Hok; cbn [write_json]; try (eexists _, _; split; [done|done]).
  destruct (digits_decimal n Hok) as (Hf & Hne & _). unfold fmt_u. destruct Hf as [|c s Hc Hf]; [done|].
  exists c, s. split; [done|]. split; [by intros ->|done].
Qed.

Section read_back.
Context (P : json -> Prop).

(** Induction over a document and its parts. *)
Lemma json_nested_ind :
  (forall n, P (JNum n)) -> (forall b, P (JBool b)) -> (forall s, P (JStr s)) ->
  (forall vs, Forall P vs -> P (JArr vs)) -> (forall ms, Forall (fun m => P (snd m)) ms -> P (JObj ms)) ->
  forall v, P v.
Proof.
  intros Hn Hb Hs Ha Ho. fix IH 1. intros [n|b|s|vs|ms]; [apply Hn|apply Hb|apply Hs|apply Ha|apply Ho].
  - induction vs as [|v vs IHvs]; constructor; [apply IH|exact IHvs].
  - induction ms as [|m ms IHms]; constructor; [apply IH|exact IHms].
Qed.
End read_back.

(** The reader returns [v] on its text followed by anything that ends a number. *)
Definition reads_back (v : json) : Prop :=
  json_ok v -> forall n r, (length (write_json v) <= n)%nat -> ends_number r ->
  read_value n (write_json v ++ r) = Some (v, r).

Lemma read_elements_write vs n r :
  vs <> [] -> Forall reads_back vs -> foldr (fun v P => json_ok v /\ P) True vs ->
  (length (join [x2c] (write_json <$> vs)) < n)%nat ->
  read_elements n (join [x2c] (write_json <$> vs) ++ x5d :: r) = Some (vs, r).
Proof.
  intros Hne Hf. revert n. induction Hf as [|v vs Hv Hf IH]; intros n Hok Hn; [done|].
  destruct Hok as [Hv' Hok], n as [|n]; [lia|]. cbn [read_elements]. destruct vs as [|v' vs].
  - cbn [fmap list_fmap join] in *. rewrite (Hv Hv' n) by (done || lia). done.
  - change (write_json <$> v :: v' :: vs) with (write_json v :: (write_json <$> v' :: vs)) in *.
    rewrite join_cons in Hn |- * by done. rewrite !length_app in Hn. cbn [length] in Hn.
    rewrite <- !app_assoc. rewrite (Hv Hv' n) by (done || lia). cbn [mbind option_bind app].
    rewrite decide_False, decide_True by done. rewrite IH by (done || lia). done.
Qed.

Definition member_text (m : list Z * json) : list byte := quote (fst m) ++ [x3a] ++ write_json (snd m).

Lemma read_members_write ms n r :
  ms <> [] -> Forall (fun m => reads_back (snd m)) ms ->
  foldr (fun m P => Forall code_point (fst m) /\ json_ok (snd m) /\ P) True ms ->
  (length (join [x2c] (member_text <$> ms)) <= n)%nat ->
  read_members n (join [x2c] (member_text <$> ms) ++ x7d :: r) = Some (ms, r).
Proof.
  intros Hne Hf. revert n. induction Hf as [|[key v] ms Hv Hf IH]; intros n Hok Hn; [done|].
  destruct Hok as (Hkey & Hv' & Hok). cbn [fst snd] in *.
  assert (Hlen : (2 + length (write_json v) <= length (member_text (key, v)))%nat).
  { unfold member_text, quote. cbn [fst snd]. rewrite !length_app. cbn [length]. lia. }
  destruct ms as [|m ms].
  - cbn [fmap list_fmap join] in *. destruct n as [|n]; [lia|].
    destruct (read_quote key ([x3a] ++ write_json v ++ x7d :: r) Hkey) as (t & Et & Er).
    unfold member_text. cbn [fst snd]. rewrite <- !app_assoc, Et. cbn [read_members]. rewrite decide_True, Er by done.
    cbn [mbind option_bind]. change (txt ":") with [x3a]. rewrite expect_app. cbn [mbind option_bind].
    rewrite (Hv Hv' n) by (done || lia). done.
  - change (member_text <$> (key, v) :: m :: ms) with (member_text (key, v) :: (member_text <$> m :: ms)) in *.
    rewrite join_cons in Hn |- * by done. rewrite !length_app in Hn. cbn [length] in Hn.
    destruct n as [|n]; [lia|]. rewrite <- !app_assoc.
    destruct (read_quote key ([x3a] ++ write_json v ++ [x2c] ++ join [x2c] (member_text <$> m :: ms) ++ x7d :: r) Hkey)
      as (t & Et & Er).
    unfold member_text at 1. cbn [fst snd]. rewrite <- !app_assoc, Et. cbn [read_members]. rewrite decide_True, Er by done.
    cbn [mbind option_bind]. change (txt ":") with [x3a]. rewrite expect_app. cbn [mbind option_bind].
    rewrite (Hv Hv' n) by (done || lia). cbn [mbind option_bind app].
    rewrite decide_False, decide_True by done. rewrite IH by (done || lia). done.
Qed.

(** Every document (numbers natural, strings of code points below 256) is read back. *)
Lemma read_write_json v : reads_back v.
Proof.
  induction v as [n|b|s|vs IH|ms IH] using json_nested_ind; intros Hok k r Hk Hr.
  - destruct (write_json_head (JNum n) Hok) as (c & t & E & _ & Hc). pose proof (read_number_write n r Hok Hr) as Hread.
    cbn [write_json] in *. rewrite E in *. destruct k as [|k]; [cbn [length] in Hk; lia|]. cbn [app read_value] in *.
    repeat (rewrite decide_False by (by intros ->)). by rewrite Hread.
  - destruct k as [|k]; [destruct b; cbn in Hk; lia|]. by destruct b.
  - destruct k as [|k]; [cbn in Hk; lia|]. destruct (read_quote s r Hok) as (t & Et & Er). cbn [write_json].
    rewrite Et. cbn [read_value]. by rewrite decide_True, Er by done.
  - cbn [write_json] in *. rewrite !length_app in Hk. cbn [length] in Hk. destruct k as [|k]; [lia|].
    rewrite <- !app_assoc. cbn [app read_value]. do 2 rewrite decide_False by done. rewrite decide_True by done.
    destruct vs as [|v vs]; [done|]. cbn [json_ok] in Hok.
    pose proof (read_elements_write (v :: vs) k r ltac:(done) IH Hok ltac:(lia)) as Hread.
    destruct Hok as [Hv _]. destruct (write_json_head v Hv) as (c & t & E & Hc & _).
    destruct (join [x2c] (write_json <$> v :: vs) ++ x5d :: r) as [|c' t'] eqn:Ej;
      [by apply app_eq_nil in Ej as [_ Ej]|].
    assert (c' = c) as ->.
    { rewrite fmap_cons, E in Ej. destruct (write_json <$> vs); cbn in Ej; congruence. }
    rewrite decide_False by done. by rewrite Hread.
  - cbn [write_json] in *.
    change (fun m : list Z * json => quote m.1 ++ [x3a] ++ write_json m.2) with member_text in *.
    rewrite !length_app in Hk. cbn [length] in Hk. destruct k as [|k]; [lia|].
    rewrite <- !app_assoc. cbn [app read_value]. rewrite decide_False, decide_True by done.
    destruct ms as [|m ms]; [done|]. cbn [json_ok] in Hok.
    pose proof (read_members_write (m :: ms) k r ltac:(done) IH Hok ltac:(lia)) as Hread.
    destruct (join [x2c] (member_text <$> m :: ms) ++ x7d :: r) as [|c' t'] eqn:Ej;
      [by apply app_eq_nil in Ej as [_ Ej]|].
    assert (c' = x22) as -> by (rewrite fmap_cons in Ej; destruct (member_text <$> ms); cbn in Ej; congruence).
    rewrite decide_False by done. by rewrite Hread.
Qed.

Lemma read_json_write v : json_ok v -> read_json (write_json v) = Some v.
Proof.
  intros Hok. unfold read_json. pose proof (read_write_json v Hok (S (length (write_json v))) []) as H.
  rewrite app_nil_r in H. rewrite H by (done || lia). done.
Qed.

(** The canonical text is printable ASCII on one line. *)
Lemma plain_join sep fs : plain sep -> Forall plain fs -> plain (join sep fs).
Proof.
  intros Hs. induction 1 as [|f fs Hf Hfs IH]; [constructor|]. destruct fs as [|g fs]; [done|].
  rewrite join_cons by done. by repeat apply plain_app.
Qed.

Lemma plain_escape cp : code_point cp -> plain (escape cp).
Proof.
  intros Hcp. unfold escape, code_point in *. do 5 (destruct (_ =? _); [by apply (bool_decide_unpack _)|]).
  destruct ((cp <? 32) || (cp >=? 127)) eqn:E.
  - apply plain_app; [by apply (bool_decide_unpack _)|]. apply plain_app.
    + apply Forall_replicate. change (bv x30) with 48. lia.
    + pose proof (digits_is_digit 16 cp ltac:(lia) ltac:(lia)) as H. revert H. apply Forall_impl.
      intros b. unfold is_digit. lia.
  - rewrite orb_false_iff, Z.geb_leb in E. destruct E as [E1%Z.ltb_ge E2%Z.leb_gt].
    repeat constructor; rewrite bv_zb_small; lia.
Qed.

Lemma plain_quote s : Forall code_point s -> plain (quote s).
Proof.
  intros Hs. unfold quote. apply plain_app; [by apply (bool_decide_unpack _)|].
  apply plain_app; [|by apply (bool_decide_unpack _)].
  induction Hs as [|cp s Hcp Hs IH]; [constructor|]. rewrite fmap_cons. cbn [concat]. apply plain_app; [|done].
  by apply plain_escape.
Qed.

Lemma plain_write_json v : json_ok v -> plain (write_json v).
Proof.
  assert (Hc : forall c, bool_decide (plain [c]) = true -> forall s, plain s -> forall c',
    bool_decide (plain [c']) = true -> plain ([c] ++ s ++ [c'])).
  { intros c Hc%bool_decide_eq_true s Hs c' Hc'%bool_decide_eq_true. by repeat apply plain_app. }
  induction v as [n|[]|s|vs IH|ms IH] using json_nested_ind; cbn [write_json json_ok]; intros Hok.
  - by apply plain_digits.
  - by apply (bool_decide_unpack _).
  - by apply (bool_decide_unpack _).
  - by apply plain_quote.
  - apply Hc; [done| |done]. apply plain_join; [by apply (bool_decide_unpack _)|].
    induction IH as [|v vs Hv IH' IH2]; [constructor|]. destruct Hok. constructor; auto.
  - apply Hc; [done| |done]. apply plain_join; [by apply (bool_decide_unpack _)|].
    induction IH as [|m ms Hm IH' IH2]; [constructor|]. destruct Hok as (Hk & Hv & Hok). constructor; [|auto].
    apply plain_app; [by apply plain_quote|]. apply plain_app; [by apply (bool_decide_unpack _)|auto].
Qed.
