(* ===== verification/Config.v ===== *)
(** * The command line: [src/config.c]

    [ns_config_parse] turns the options [getopt_long] reports into an [ns_config_t] and checks
    their combination.  [getopt_long] itself is a library function that is not part of the
    program: it is the class [GetoptLong], a function from the argument vector to the results of
    its successive calls, with the documented behaviour the code relies on as [GetoptLaws];
    [simple_getopt] is an instance. *)

From S2P Require Import Prelude CMem.

(** ** The configuration *)

Inductive ns_input_mode_t := NS_INPUT_NONE | NS_INPUT_LIVE | NS_INPUT_FILE.
Inductive ns_output_format_t := NS_FORMAT_TEXT | NS_FORMAT_JSON.

#[global] Instance ns_input_mode_eq_decision : EqDecision ns_input_mode_t.
Proof. solve_decision. Defined.
#[global] Instance ns_output_format_eq_decision : EqDecision ns_output_format_t.
Proof. solve_decision. Defined.

(** Log levels are compared and incremented, so the enumeration is kept as its values. *)
Definition NS_LOG_ERROR := 0.
Definition NS_LOG_WARN := 1.
Definition NS_LOG_INFO := 2.
Definition NS_LOG_DEBUG := 3.

Definition NS_CONFIG_STR_LEN := 256.

(** The [char] arrays of the structure are the C strings they hold. *)
Record ns_config_t := Config {
  cfg_input_mode : ns_input_mode_t;
  cfg_interface : list byte;
  cfg_read_file : list byte;
  cfg_write_file : list byte;
  cfg_output_file : list byte;
  cfg_filter_tcp : bool;
  cfg_filter_udp : bool;
  cfg_filter_icmp : bool;
  cfg_filter_port : Z;
  cfg_filter_host : list byte;
  cfg_filter_src : list byte;
  cfg_filter_dst : list byte;
  cfg_raw_filter : list byte;
  cfg_has_raw_filter : bool;
  cfg_no_color : bool;
  cfg_verbose_output : bool;
  cfg_quiet : bool;
  cfg_show_stats : bool;
  cfg_hex_dump : bool;
  cfg_format : ns_output_format_t;
  cfg_log_level : Z;
  cfg_list_interfaces : bool;
  cfg_show_help : bool;
  cfg_show_version : bool
}.

(** One assignment per member. *)

Definition set_input_mode (v : ns_input_mode_t) (c : ns_config_t) : ns_config_t :=
  let '(Config _ a1 a2 a3 a4 a5 a6 a7 a8 a9 a10 a11 a12 a13 a14 a15 a16 a17 a18 a19 a20 a21 a22 a23) := c in
  Config v a1 a2 a3 a4 a5 a6 a7 a8 a9 a10 a11 a12 a13 a14 a15 a16 a17 a18 a19 a20 a21 a22 a23.

Definition set_interface (v : list byte) (c : ns_config_t) : ns_config_t :=
  let '(Config a0 _ a2 a3 a4 a5 a6 a7 a8 a9 a10 a11 a12 a13 a14 a15 a16 a17 a18 a19 a20 a21 a22 a23) := c in
  Config a0 v a2 a3 a4 a5 a6 a7 a8 a9 a10 a11 a12 a13 a14 a15 a16 a17 a18 a19 a20 a21 a22 a23.

Definition set_read_file (v : list byte) (c : ns_config_t) : ns_config_t :=
  let '(Config a0 a1 _ a3 a4 a5 a6 a7 a8 a9 a10 a11 a12 a13 a14 a15 a16 a17 a18 a19 a20 a21 a22 a23) := c in
  Config a0 a1 v a3 a4 a5 a6 a7 a8 a9 a10 a11 a12 a13 a14 a15 a16 a17 a18 a19 a20 a21 a22 a23.

Definition set_write_file (v : list byte) (c : ns_config_t) : ns_config_t :=
  let '(Config a0 a1 a2 _ a4 a5 a6 a7 a8 a9 a10 a11 a12 a13 a14 a15 a16 a17 a18 a19 a20 a21 a22 a23) := c in
  Config a0 a1 a2 v a4 a5 a6 a7 a8 a9 a10 a11 a12 a13 a14 a15 a16 a17 a18 a19 a20 a21 a22 a23.

Definition set_output_file (v : list byte) (c : ns_config_t) : ns_config_t :=
  let '(Config a0 a1 a2 a3 _ a5 a6 a7 a8 a9 a10 a11 a12 a13 a14 a15 a16 a17 a18 a19 a20 a21 a22 a23) := c in
  Config a0 a1 a2 a3 v a5 a6 a7 a8 a9 a10 a11 a12 a13 a14 a15 a16 a17 a18 a19 a20 a21 a22 a23.

Definition set_filter_tcp (v : bool) (c : ns_config_t) : ns_config_t :=
  let '(Config a0 a1 a2 a3 a4 _ a6 a7 a8 a9 a10 a11 a12 a13 a14 a15 a16 a17 a18 a19 a20 a21 a22 a23) := c in
  Config a0 a1 a2 a3 a4 v a6 a7 a8 a9 a10 a11 a12 a13 a14 a15 a16 a17 a18 a19 a20 a21 a22 a23.

Definition set_filter_udp (v : bool) (c : ns_config_t) : ns_config_t :=
  let '(Config a0 a1 a2 a3 a4 a5 _ a7 a8 a9 a10 a11 a12 a13 a14 a15 a16 a17 a18 a19 a20 a21 a22 a23) := c in
  Config a0 a1 a2 a3 a4 a5 v a7 a8 a9 a10 a11 a12 a13 a14 a15 a16 a17 a18 a19 a20 a21 a22 a23.

Definition set_filter_icmp (v : bool) (c : ns_config_t) : ns_config_t :=
  let '(Config a0 a1 a2 a3 a4 a5 a6 _ a8 a9 a10 a11 a12 a13 a14 a15 a16 a17 a18 a19 a20 a21 a22 a23) := c in
  Config a0 a1 a2 a3 a4 a5 a6 v a8 a9 a10 a11 a12 a13 a14 a15 a16 a17 a18 a19 a20 a21 a22 a23.

Definition set_filter_port (v : Z) (c : ns_config_t) : ns_config_t :=
  let '(Config a0 a1 a2 a3 a4 a5 a6 a7 _ a9 a10 a11 a12 a13 a14 a15 a16 a17 a18 a19 a20 a21 a22 a23) := c in
  Config a0 a1 a2 a3 a4 a5 a6 a7 v a9 a10 a11 a12 a13 a14 a15 a16 a17 a18 a19 a20 a21 a22 a23.

Definition set_filter_host (v : list byte) (c : ns_config_t) : ns_config_t :=
  let '(Config a0 a1 a2 a3 a4 a5 a6 a7 a8 _ a10 a11 a12 a13 a14 a15 a16 a17 a18 a19 a20 a21 a22 a23) := c in
  Config a0 a1 a2 a3 a4 a5 a6 a7 a8 v a10 a11 a12 a13 a14 a15 a16 a17 a18 a19 a20 a21 a22 a23.

Definition set_filter_src (v : list byte) (c : ns_config_t) : ns_config_t :=
  let '(Config a0 a1 a2 a3 a4 a5 a6 a7 a8 a9 _ a11 a12 a13 a14 a15 a16 a17 a18 a19 a20 a21 a22 a23) := c in
  Config a0 a1 a2 a3 a4 a5 a6 a7 a8 a9 v a11 a12 a13 a14 a15 a16 a17 a18 a19 a20 a21 a22 a23.

Definition set_filter_dst (v : list byte) (c : ns_config_t) : ns_config_t :=
  let '(Config a0 a1 a2 a3 a4 a5 a6 a7 a8 a9 a10 _ a12 a13 a14 a15 a16 a17 a18 a19 a20 a21 a22 a23) := c in
  Config a0 a1 a2 a3 a4 a5 a6 a7 a8 a9 a10 v a12 a13 a14 a15 a16 a17 a18 a19 a20 a21 a22 a23.

Definition set_raw_filter (v : list byte) (c : ns_config_t) : ns_config_t :=
  let '(Config a0 a1 a2 a3 a4 a5 a6 a7 a8 a9 a10 a11 _ a13 a14 a15 a16 a17 a18 a19 a20 a21 a22 a23) := c in
  Config a0 a1 a2 a3 a4 a5 a6 a7 a8 a9 a10 a11 v a13 a14 a15 a16 a17 a18 a19 a20 a21 a22 a23.

Definition set_has_raw_filter (v : bool) (c : ns_config_t) : ns_config_t :=
  let '(Config a0 a1 a2 a3 a4 a5 a6 a7 a8 a9 a10 a11 a12 _ a14 a15 a16 a17 a18 a19 a20 a21 a22 a23) := c in
  Config a0 a1 a2 a3 a4 a5 a6 a7 a8 a9 a10 a11 a12 v a14 a15 a16 a17 a18 a19 a20 a21 a22 a23.

Definition set_no_color (v : bool) (c : ns_config_t) : ns_config_t :=
  let '(Config a0 a1 a2 a3 a4 a5 a6 a7 a8 a9 a10 a11 a12 a13 _ a15 a16 a17 a18 a19 a20 a21 a22 a23) := c in
  Config a0 a1 a2 a3 a4 a5 a6 a7 a8 a9 a10 a11 a12 a13 v a15 a16 a17 a18 a19 a20 a21 a22 a23.

Definition set_verbose_output (v : bool) (c : ns_config_t) : ns_config_t :=
  let '(Config a0 a1 a2 a3 a4 a5 a6 a7 a8 a9 a10 a11 a12 a13 a14 _ a16 a17 a18 a19 a20 a21 a22 a23) := c in
  Config a0 a1 a2 a3 a4 a5 a6 a7 a8 a9 a10 a11 a12 a13 a14 v a16 a17 a18 a19 a20 a21 a22 a23.

Definition set_quiet (v : bool) (c : ns_config_t) : ns_config_t :=
  let '(Config a0 a1 a2 a3 a4 a5 a6 a7 a8 a9 a10 a11 a12 a13 a14 a15 _ a17 a18 a19 a20 a21 a22 a23) := c in
  Config a0 a1 a2 a3 a4 a5 a6 a7 a8 a9 a10 a11 a12 a13 a14 a15 v a17 a18 a19 a20 a21 a22 a23.

Definition set_show_stats (v : bool) (c : ns_config_t) : ns_config_t :=
  let '(Config a0 a1 a2 a3 a4 a5 a6 a7 a8 a9 a10 a11 a12 a13 a14 a15 a16 _ a18 a19 a20 a21 a22 a23) := c in
  Config a0 a1 a2 a3 a4 a5 a6 a7 a8 a9 a10 a11 a12 a13 a14 a15 a16 v a18 a19 a20 a21 a22 a23.

Definition set_hex_dump (v : bool) (c : ns_config_t) : ns_config_t :=
  let '(Config a0 a1 a2 a3 a4 a5 a6 a7 a8 a9 a10 a11 a12 a13 a14 a15 a16 a17 _ a19 a20 a21 a22 a23) := c in
  Config a0 a1 a2 a3 a4 a5 a6 a7 a8 a9 a10 a11 a12 a13 a14 a15 a16 a17 v a19 a20 a21 a22 a23.

Definition set_format (v : ns_output_format_t) (c : ns_config_t) : ns_config_t :=
  let '(Config a0 a1 a2 a3 a4 a5 a6 a7 a8 a9 a10 a11 a12 a13 a14 a15 a16 a17 a18 _ a20 a21 a22 a23) := c in
  Config a0 a1 a2 a3 a4 a5 a6 a7 a8 a9 a10 a11 a12 a13 a14 a15 a16 a17 a18 v a20 a21 a22 a23.

Definition set_log_level (v : Z) (c : ns_config_t) : ns_config_t :=
  let '(Config a0 a1 a2 a3 a4 a5 a6 a7 a8 a9 a10 a11 a12 a13 a14 a15 a16 a17 a18 a19 _ a21 a22 a23) := c in
  Config a0 a1 a2 a3 a4 a5 a6 a7 a8 a9 a10 a11 a12 a13 a14 a15 a16 a17 a18 a19 v a21 a22 a23.

Definition set_list_interfaces (v : bool) (c : ns_config_t) : ns_config_t :=
  let '(Config a0 a1 a2 a3 a4 a5 a6 a7 a8 a9 a10 a11 a12 a13 a14 a15 a16 a17 a18 a19 a20 _ a22 a23) := c in
  Config a0 a1 a2 a3 a4 a5 a6 a7 a8 a9 a10 a11 a12 a13 a14 a15 a16 a17 a18 a19 a20 v a22 a23.

Definition set_show_help (v : bool) (c : ns_config_t) : ns_config_t :=
  let '(Config a0 a1 a2 a3 a4 a5 a6 a7 a8 a9 a10 a11 a12 a13 a14 a15 a16 a17 a18 a19 a20 a21 _ a23) := c in
  Config a0 a1 a2 a3 a4 a5 a6 a7 a8 a9 a10 a11 a12 a13 a14 a15 a16 a17 a18 a19 a20 a21 v a23.

Definition set_show_version (v : bool) (c : ns_config_t) : ns_config_t :=
  let '(Config a0 a1 a2 a3 a4 a5 a6 a7 a8 a9 a10 a11 a12 a13 a14 a15 a16 a17 a18 a19 a20 a21 a22 _) := c in
  Config a0 a1 a2 a3 a4 a5 a6 a7 a8 a9 a10 a11 a12 a13 a14 a15 a16 a17 a18 a19 a20 a21 a22 v.

(** [memset(out, 0, sizeof( *out))] *)
Definition zero_config : ns_config_t :=
  Config NS_INPUT_NONE [] [] [] [] false false false 0 [] [] [] [] false
    false false false false false NS_FORMAT_TEXT NS_LOG_ERROR false false false.

(** [snprintf(dst, dst_len, "%s", src)] *)
Definition copy_str (dst_len : Z) (src : list byte) : list byte := sn dst_len src.

(** ** [strtol], base 10, 64-bit [long] *)

Definition is_space (b : byte) : bool := (bv b =? 32) || ((9 <=? bv b) && (bv b <=? 13)).

Fixpoint skip_spaces (s : list byte) : list byte :=
  match s with
  | c :: s' => if is_space c then skip_spaces s' else s
  | [] => []
  end.

Definition sign_of (s : list byte) : bool * list byte :=
  match s with
  | x2d :: s' => (true, s')
  | x2b :: s' => (false, s')
  | _ => (false, s)
  end.

Record strtol_result := Strtol {
  strtol_value : Z;
  strtol_end : list byte;        (** the text at [end] *)
  strtol_no_conversion : bool;   (** [end == text] *)
  strtol_erange : bool           (** [errno == ERANGE] *)
}.

Definition strtol10 (text : list byte) : strtol_result :=
  let '(neg, s) := sign_of (skip_spaces text) in
  let '(ds, rest) := span_decimal s in
  match ds with
  | [] => Strtol 0 text true false
  | _ =>
      let n := undigits 10 ds in
      let v := if neg : bool then - n else n in
      if v >? 2 ^ 63 - 1 then Strtol (2 ^ 63 - 1) rest false true
      else if v <? - 2 ^ 63 then Strtol (- 2 ^ 63) rest false true
      else Strtol v rest false false
  end.

(** [inl port], or [inr] with the message left in [err_buf]. *)
Definition parse_port (text : list byte) (err_buf_len : Z) : Z + list byte :=
  let r := strtol10 text in
  if strtol_no_conversion r || negb (bool_decide (strtol_end r = [])) || strtol_erange r
     || (strtol_value r <? 0) || (strtol_value r >? 65535)
  then inr (sn err_buf_len (txt "invalid port '" ++ text ++ txt "' (expected 0-65535)"))
  else inl (strtol_value r).

(** ** Options *)

Definition OPT_VERSION := 1000.
Definition OPT_LIST_INTERFACES := 1001.
Definition OPT_TCP := 1002.
Definition OPT_UDP := 1003.
Definition OPT_ICMP := 1004.
Definition OPT_PORT := 1005.
Definition OPT_HOST := 1006.
Definition OPT_SRC := 1007.
Definition OPT_DST := 1008.
Definition OPT_FILTER := 1009.
Definition OPT_NO_COLOR := 1010.
Definition OPT_VERBOSE := 1011.
Definition OPT_QUIET := 1012.
Definition OPT_STATS := 1013.
Definition OPT_HEX := 1014.
Definition OPT_WRITE := 1015.
Definition OPT_FORMAT := 1016.
Definition OPT_OUTPUT := 1017.
Definition OPT_DEBUG := 1018.

(** The characters ['i'], ['r'], ['h'] and ['v']. *)
Definition CH_i := 105.
Definition CH_r := 114.
Definition CH_h := 104.
Definition CH_v := 118.

Inductive has_arg_t := no_argument | required_argument.

Record long_option := LongOption { lo_name : list byte; lo_has_arg : has_arg_t; lo_val : Z }.

Definition kLongOptions : list long_option :=
  [LongOption (txt "help") no_argument CH_h;
   LongOption (txt "version") no_argument OPT_VERSION;
   LongOption (txt "list-interfaces") no_argument OPT_LIST_INTERFACES;
   LongOption (txt "interface") required_argument CH_i;
   LongOption (txt "read") required_argument CH_r;
   LongOption (txt "tcp") no_argument OPT_TCP;
   LongOption (txt "udp") no_argument OPT_UDP;
   LongOption (txt "icmp") no_argument OPT_ICMP;
   LongOption (txt "port") required_argument OPT_PORT;
   LongOption (txt "host") required_argument OPT_HOST;
   LongOption (txt "src") required_argument OPT_SRC;
   LongOption (txt "dst") required_argument OPT_DST;
   LongOption (txt "filter") required_argument OPT_FILTER;
   LongOption (txt "no-color") no_argument OPT_NO_COLOR;
   LongOption (txt "verbose") no_argument OPT_VERBOSE;
   LongOption (txt "quiet") no_argument OPT_QUIET;
   LongOption (txt "stats") no_argument OPT_STATS;
   LongOption (txt "hex") no_argument OPT_HEX;
   LongOption (txt "write") required_argument OPT_WRITE;
   LongOption (txt "format") required_argument OPT_FORMAT;
   LongOption (txt "output") required_argument OPT_OUTPUT;
   LongOption (txt "debug") no_argument OPT_DEBUG].

Definition optstring : list byte := txt "i:r:hv".

(** ** [getopt_long]

    The result of one call: the returned character, [optarg], [optopt], [optind] and the
    argument vector, which the library may permute.  A run is the results of the calls before
    the one that returns -1, and [optind] and the vector after that one. *)

Record getopt_call := GetoptCall {
  go_c : Z;
  go_optarg : option (list byte);
  go_optopt : Z;
  go_optind : Z;
  go_argv : list (list byte)
}.

Record getopt_run := GetoptRun {
  run_calls : list getopt_call;
  run_optind : Z;
  run_argv : list (list byte)
}.

Class GetoptLong := getopt_long : list (list byte) -> list byte -> list long_option -> getopt_run.

(** Short options followed by a colon take an argument. *)
Fixpoint short_takes_argument (shorts : list byte) (c : Z) : bool :=
  match shorts with
  | x :: rest => (match rest with x3a :: _ => bv x =? c | _ => false end) || short_takes_argument rest c
  | [] => false
  end.

Definition takes_argument (shorts : list byte) (longs : list long_option) (c : Z) : bool :=
  short_takes_argument shorts c
  || existsb (fun o => (lo_val o =? c) && match lo_has_arg o with required_argument => true | _ => false end) longs.

(** Documented behaviour, for the program's tables: an option that requires an argument is
    reported with one, [optind] stays in the vector, and permutation keeps its length. *)
Class GetoptLaws `{GetoptLong} := {
  getopt_optarg argv e :
    e ∈ run_calls (getopt_long argv optstring kLongOptions) ->
    takes_argument optstring kLongOptions (go_c e) = true -> is_Some (go_optarg e);
  getopt_optind argv e :
    argv <> [] -> e ∈ run_calls (getopt_long argv optstring kLongOptions) ->
    1 <= go_optind e <= zlen argv /\ zlen (go_argv e) = zlen argv;
  getopt_end argv :
    argv <> [] -> 1 <= run_optind (getopt_long argv optstring kLongOptions) /\
    zlen (run_argv (getopt_long argv optstring kLongOptions)) = zlen argv
}.

(** ** [ns_config_parse] *)

Record parse_state := ParseState {
  ps_out : ns_config_t;
  have_interface : bool;
  have_read_file : bool;
  any_simple_filter : bool
}.

Definition with_out (f : ns_config_t -> ns_config_t) (st : parse_state) : parse_state :=
  ParseState (f (ps_out st)) (have_interface st) (have_read_file st) (any_simple_filter st).

(** ... and [any_simple_filter = true] *)
Definition with_filter (f : ns_config_t -> ns_config_t) (st : parse_state) : parse_state :=
  ParseState (f (ps_out st)) (have_interface st) (have_read_file st) true.

Definition deref {A} (p : option A) : M A :=
  match p with
  | Some a => Done a
  | None => Fault NullPointer
  end.

(** [argv[i]] *)
Definition arg_at (argv : list (list byte)) (i : Z) : M (list byte) :=
  if 0 <=? i then match argv !! Z.to_nat i with Some s => Done s | None => Fault OutOfBounds end
  else Fault OutOfBounds.

(** The body of the [switch]: the state after the option, or the message it fails with. *)
Definition config_option (st : parse_state) (e : getopt_call) (err_buf_len : Z) : M (parse_state + list byte) :=
  let c := go_c e in
  let str set := optarg ← deref (go_optarg e); Done (inl (set (copy_str NS_CONFIG_STR_LEN optarg))) in
  if c =? CH_i then str (fun s => ParseState (set_interface s (ps_out st)) true (have_read_file st) (any_simple_filter st))
  else if c =? CH_r then str (fun s => ParseState (set_read_file s (ps_out st)) (have_interface st) true (any_simple_filter st))
  else if c =? CH_h then Done (inl (with_out (set_show_help true) st))
  else if c =? CH_v then
    Done (inl (if cfg_log_level (ps_out st) <? NS_LOG_DEBUG
               then with_out (set_log_level (cfg_log_level (ps_out st) + 1)) st else st))
  else if c =? OPT_VERSION then Done (inl (with_out (set_show_version true) st))
  else if c =? OPT_LIST_INTERFACES then Done (inl (with_out (set_list_interfaces true) st))
  else if c =? OPT_TCP then Done (inl (with_filter (set_filter_tcp true) st))
  else if c =? OPT_UDP then Done (inl (with_filter (set_filter_udp true) st))
  else if c =? OPT_ICMP then Done (inl (with_filter (set_filter_icmp true) st))
  else if c =? OPT_PORT then
    optarg ← deref (go_optarg e);
    Done (match parse_port optarg err_buf_len with
          | inl port => inl (with_filter (set_filter_port port) st)
          | inr err => inr err
          end)
  else if c =? OPT_HOST then str (fun s => with_filter (set_filter_host s) st)
  else if c =? OPT_SRC then str (fun s => with_filter (set_filter_src s) st)
  else if c =? OPT_DST then str (fun s => with_filter (set_filter_dst s) st)
  else if c =? OPT_FILTER then str (fun s => with_out (fun o => set_has_raw_filter true (set_raw_filter s o)) st)
  else if c =? OPT_NO_COLOR then Done (inl (with_out (set_no_color true) st))
  else if c =? OPT_VERBOSE then Done (inl (with_out (set_verbose_output true) st))
  else if c =? OPT_QUIET then Done (inl (with_out (set_quiet true) st))
  else if c =? OPT_STATS then Done (inl (with_out (set_show_stats true) st))
  else if c =? OPT_HEX then Done (inl (with_out (set_hex_dump true) st))
  else if c =? OPT_WRITE then str (fun s => with_out (set_write_file s) st)
  else if c =? OPT_FORMAT then
    optarg ← deref (go_optarg e);
    Done (if strcmp optarg (txt "json") =? 0 then inl (with_out (set_format NS_FORMAT_JSON) st)
          else if strcmp optarg (txt "text") =? 0 then inl (with_out (set_format NS_FORMAT_TEXT) st)
          else inr (sn err_buf_len (txt "unknown --format value '" ++ optarg ++ txt "' (expected 'text' or 'json')")))
  else if c =? OPT_OUTPUT then str (fun s => with_out (set_output_file s) st)
  else if c =? OPT_DEBUG then Done (inl (with_out (set_log_level NS_LOG_DEBUG) st))
  else if negb (go_optopt e =? 0) then
    Done (inr (sn err_buf_len (txt "unrecognized option or missing argument: '-" ++ [zb (go_optopt e)] ++ txt "'")))
  else if go_optind e >? 1 then
    arg ← arg_at (go_argv e) (go_optind e - 1);
    Done (inr (sn err_buf_len (txt "unrecognized option '" ++ arg ++ txt "'")))
  else Done (inr (sn err_buf_len (txt "unrecognized option"))).

(** The [while] loop: [inr] with the last state once the function has returned false. *)
Fixpoint config_loop (st : parse_state) (calls : list getopt_call) (err_buf_len : Z)
    : M (parse_state + ns_config_t * list byte) :=
  match calls with
  | [] => Done (inl st)
  | e :: calls =>
      r ← config_option st e err_buf_len;
      match r with
      | inl st => config_loop st calls err_buf_len
      | inr err => Done (inr (ps_out st, err))
      end
  end.

(** The value, [*out], and the text of [err_buf] when it is written. *)
Definition ns_config_parse `{GetoptLong} (argv : list (list byte)) (err_buf_len : Z)
    : M (bool * ns_config_t * option (list byte)) :=
  let out := set_log_level NS_LOG_WARN (set_format NS_FORMAT_TEXT (set_filter_port (-1) zero_config)) in
  let run := getopt_long argv optstring kLongOptions in
  r ← config_loop (ParseState out false false false) (run_calls run) err_buf_len;
  match r with
  | inr (out, err) => Done (false, out, Some err)
  | inl st =>
      let out := ps_out st in
      let fail msg := Done (false, out, Some (sn err_buf_len msg)) in
      if run_optind run <? zlen argv then
        arg ← arg_at (run_argv run) (run_optind run);
        fail (txt "unexpected argument '" ++ arg ++ txt "'")
      else if cfg_show_help out || cfg_show_version out then Done (true, out, None)
      else if have_interface st && have_read_file st then
        fail (txt "-i and -r cannot be used simultaneously")
      else if cfg_has_raw_filter out && any_simple_filter st then
        fail (txt "--filter cannot be combined with --tcp/--udp/--icmp/--port/--host/--src/--dst")
      else if negb (bool_decide (cfg_output_file out = [])) && negb (bool_decide (cfg_format out = NS_FORMAT_JSON)) then
        fail (txt "--output requires --format json")
      else if cfg_list_interfaces out then Done (true, out, None)
      else if have_interface st then Done (true, set_input_mode NS_INPUT_LIVE out, None)
      else if have_read_file st then Done (true, set_input_mode NS_INPUT_FILE out, None)
      else fail (txt "either -i <interface> or -r <file> is required")
  end.

(** ** Help and version *)

Definition NS_NAME : list byte := txt "NetScope".
Definition NS_VERSION_STRING : list byte := txt "0.1.0".

(** Lines of text, each ended by a newline. *)
Definition text_lines (ls : list (list byte)) : list byte := concat ((fun l => l ++ [x0a]) <$> ls).

Definition ns_config_print_help (program_name : list byte) : list byte := text_lines [
  NS_NAME ++ txt " " ++ NS_VERSION_STRING ++ txt " -- capture and analyze network traffic";
  [];
  txt "Usage:";
  txt "  " ++ program_name ++ txt " -i <interface> [options]";
  txt "  " ++ program_name ++ txt " -r <capture.pcap> [options]";
  txt "  " ++ program_name ++ txt " --list-interfaces";
  [];
  txt "Input:";
  txt "  -i, --interface <name>   capture live from a network interface";
  txt "  -r, --read <file>        read packets from a pcap file";
  txt "      --list-interfaces    list available capture interfaces and exit";
  [];
  txt "Filtering (simplified; translated to a BPF expression):";
  txt "      --tcp                only TCP packets";
  txt "      --udp                only UDP packets";
  txt "      --icmp               only ICMP/ICMPv6 packets";
  txt "      --port <n>           only packets on port n";
  txt "      --host <addr>        only packets to/from addr";
  txt "      --src <addr>         only packets from addr";
  txt "      --dst <addr>         only packets to addr";
  txt "      --filter <bpf>       raw BPF expression (mutually exclusive with the above)";
  [];
  txt "Output:";
  txt "      --no-color           disable ANSI colors";
  txt "      --verbose            print a detailed field-by-field block per packet";
  txt "      --quiet              suppress per-packet output";
  txt "      --stats              print traffic statistics when capture ends";
  txt "      --hex                print a hex dump of each packet";
  txt "      --format <text|json> output format (default: text)";
  txt "      --output <file>      write --format json output to file instead of stdout";
  txt "      --write <file>       save captured packets to a pcap file";
  [];
  txt "Diagnostics:";
  txt "  -v, -vv                  increase internal log verbosity (INFO, DEBUG)";
  txt "      --debug              shorthand for -vv";
  [];
  txt "  -h, --help               show this help and exit";
  txt "      --version            show version information and exit"].

Definition ns_config_print_version : list byte := text_lines [NS_NAME ++ txt " " ++ NS_VERSION_STRING].

Fixpoint contains (needle hay : list byte) : bool :=
  bool_decide (take (length needle) hay = needle)
  || match hay with [] => false | _ :: hay => contains needle hay end.

(** The help text names every long option with its argument marker, and every short one. *)
Lemma help_lists_every_option :
  Forall (fun o => contains (txt "--" ++ lo_name o ++ match lo_has_arg o with
                                                   | required_argument => txt " <"
                                                   | no_argument => txt " "
                                                   end) (ns_config_print_help (txt "netscope")) = true) kLongOptions
  /\ Forall (fun c => contains (txt "  -" ++ [c] ++ txt ",") (ns_config_print_help (txt "netscope")) = true)
       (txt "irhv").
Proof. split; repeat constructor. Qed.

(** ** The configuration a sequence of options asks for *)

(** Whether an option was given, how often, and the last argument it was given. *)
Definition seen (c : Z) (evs : list getopt_call) : bool := existsb (fun e => go_c e =? c) evs.
Definition times (c : Z) (evs : list getopt_call) : Z := zlen (filter (fun e => go_c e = c) evs).
Definition last_arg (c : Z) (evs : list getopt_call) : option (list byte) :=
  list.last (omap (fun e => if go_c e =? c then go_optarg e else None) evs).

Definition string_arg (c : Z) (evs : list getopt_call) : list byte := sn 256 (default [] (last_arg c evs)).

Definition simple_filter (evs : list getopt_call) : bool :=
  existsb (fun c => seen c evs) [OPT_TCP; OPT_UDP; OPT_ICMP; OPT_PORT; OPT_HOST; OPT_SRC; OPT_DST].

Definition format_arg (evs : list getopt_call) : ns_output_format_t :=
  if decide (last_arg OPT_FORMAT evs = Some (txt "json")) then NS_FORMAT_JSON else NS_FORMAT_TEXT.

Definition port_arg (evs : list getopt_call) : Z :=
  match last_arg OPT_PORT evs with
  | Some s => strtol_value (strtol10 s)
  | None => -1
  end.

Definition log_arg (evs : list getopt_call) : Z :=
  if seen OPT_DEBUG evs then 3 else Z.min 3 (1 + times CH_v evs).

Definition config_with (mode : ns_input_mode_t) (evs : list getopt_call) : ns_config_t := {|
  cfg_input_mode := mode;
  cfg_interface := string_arg CH_i evs; cfg_read_file := string_arg CH_r evs;
  cfg_write_file := string_arg OPT_WRITE evs; cfg_output_file := string_arg OPT_OUTPUT evs;
  cfg_filter_tcp := seen OPT_TCP evs; cfg_filter_udp := seen OPT_UDP evs; cfg_filter_icmp := seen OPT_ICMP evs;
  cfg_filter_port := port_arg evs;
  cfg_filter_host := string_arg OPT_HOST evs; cfg_filter_src := string_arg OPT_SRC evs;
  cfg_filter_dst := string_arg OPT_DST evs; cfg_raw_filter := string_arg OPT_FILTER evs;
  cfg_has_raw_filter := seen OPT_FILTER evs;
  cfg_no_color := seen OPT_NO_COLOR evs; cfg_verbose_output := seen OPT_VERBOSE evs;
  cfg_quiet := seen OPT_QUIET evs; cfg_show_stats := seen OPT_STATS evs; cfg_hex_dump := seen OPT_HEX evs;
  cfg_format := format_arg evs; cfg_log_level := log_arg evs;
  cfg_list_interfaces := seen OPT_LIST_INTERFACES evs;
  cfg_show_help := seen CH_h evs; cfg_show_version := seen OPT_VERSION evs |}.

(** Help, version and the interface list need no input. *)
Definition mode_arg (evs : list getopt_call) : ns_input_mode_t :=
  if seen CH_h evs || seen OPT_VERSION evs || seen OPT_LIST_INTERFACES evs then NS_INPUT_NONE
  else if seen CH_i evs then NS_INPUT_LIVE else NS_INPUT_FILE.

Definition config_of (evs : list getopt_call) : ns_config_t := config_with (mode_arg evs) evs.

(** ** Which command lines are accepted *)

Definition option_values : list Z := CH_v :: (lo_val <$> kLongOptions).

Definition port_ok (s : list byte) : bool := match parse_port s 0 with inl _ => true | inr _ => false end.
Definition format_ok (s : list byte) : bool := bool_decide (s = txt "json") || bool_decide (s = txt "text").

Definition event_ok (e : getopt_call) : bool :=
  bool_decide (go_c e ∈ option_values)
  && (if go_c e =? OPT_PORT then port_ok (default [] (go_optarg e)) else true)
  && (if go_c e =? OPT_FORMAT then format_ok (default [] (go_optarg e)) else true).

Definition combination_ok (evs : list getopt_call) : bool :=
  seen CH_h evs || seen OPT_VERSION evs
  || (negb (seen CH_i evs && seen CH_r evs)
      && negb (seen OPT_FILTER evs && simple_filter evs)
      && (bool_decide (string_arg OPT_OUTPUT evs = []) || bool_decide (format_arg evs = NS_FORMAT_JSON))
      && (seen OPT_LIST_INTERFACES evs || seen CH_i evs || seen CH_r evs)).

Definition accepted (run : getopt_run) (argc : Z) : bool :=
  forallb event_ok (run_calls run) && (argc <=? run_optind run) && combination_ok (run_calls run).

(** ** The loop computes the configuration *)

Lemma seen_snoc c evs e : seen c (evs ++ [e]) = seen c evs || (go_c e =? c).
Proof. unfold seen. rewrite existsb_app. cbn. by rewrite orb_false_r. Qed.

Lemma times_snoc c evs e : times c (evs ++ [e]) = times c evs + (if go_c e =? c then 1 else 0).
Proof.
  unfold times. rewrite list.filter_app, zlen_app. destruct (Z.eqb_spec (go_c e) c).
  - by rewrite filter_cons_True.
  - by rewrite filter_cons_False.
Qed.

Lemma last_arg_snoc c evs e :
  last_arg c (evs ++ [e])
  = if go_c e =? c then match go_optarg e with Some s => Some s | None => last_arg c evs end
    else last_arg c evs.
Proof.
  unfold last_arg. rewrite omap_app. cbn. destruct (go_c e =? c); [|by rewrite app_nil_r].
  destruct (go_optarg e); [by rewrite last_snoc|by rewrite app_nil_r].
Qed.

(** The state after the options [evs]. *)
Definition state_of (evs : list getopt_call) : parse_state :=
  ParseState (config_with NS_INPUT_NONE evs) (seen CH_i evs) (seen CH_r evs) (simple_filter evs).

Lemma parse_port_value s n : port_ok s = true -> parse_port s n = inl (strtol_value (strtol10 s)).
Proof. unfold port_ok, parse_port. by destruct (_ || _). Qed.

Lemma log_step pre :
  (if log_arg pre <? NS_LOG_DEBUG then log_arg pre + 1 else log_arg pre)
  = if seen OPT_DEBUG pre then 3 else Z.min 3 (1 + (times CH_v pre + 1)).
Proof.
  unfold log_arg, NS_LOG_DEBUG, times. destruct (seen OPT_DEBUG pre); [done|].
  pose proof (zlen_nonneg (filter (fun e => go_c e = CH_v) pre)). zcases.
Qed.

(** Evaluates the comparisons of a known option with every option. *)
Ltac option_cases :=
  cbv [Z.eqb Pos.eqb OPT_VERSION OPT_LIST_INTERFACES OPT_TCP OPT_UDP OPT_ICMP OPT_PORT OPT_HOST OPT_SRC OPT_DST
       OPT_FILTER OPT_NO_COLOR OPT_VERBOSE OPT_QUIET OPT_STATS OPT_HEX OPT_WRITE OPT_FORMAT OPT_OUTPUT OPT_DEBUG
       CH_i CH_r CH_h CH_v] in *.

Lemma config_option_ok pre e n :
  event_ok e = true -> (takes_argument optstring kLongOptions (go_c e) = true -> is_Some (go_optarg e)) ->
  config_option (state_of pre) e n = Done (inl (state_of (pre ++ [e]))).
Proof.
  unfold event_ok. rewrite !andb_true_iff, bool_decide_eq_true. intros [[Hin Hport] Hformat] Harg.
  destruct e as [c arg opt ind av]. cbn [go_c go_optarg] in *.
  assert (Hlog := log_step pre).
  unfold config_option, state_of, config_with, string_arg, simple_filter, format_arg, port_arg, log_arg in *.
  cbn [existsb] in *. rewrite !seen_snoc, !times_snoc, !last_arg_snoc. cbn [go_c go_optarg go_optopt] in *.
  unfold option_values, kLongOptions in Hin. cbn [fmap list_fmap lo_val] in Hin.
  repeat (apply elem_of_cons in Hin as [->|Hin]); [..|by apply elem_of_nil in Hin].
  all: option_cases.
  all: try destruct (Harg eq_refl) as [s ->].
  all: cbn [orb mbind M_bind deref default]; rewrite ?orb_false_r, ?Z.add_0_r; rewrite ?orb_true_r; cbn [orb];
       rewrite ?orb_true_r.
  all: try reflexivity.
  - revert Hlog. cbn [cfg_log_level ps_out]. destruct (_ <? NS_LOG_DEBUG); intros <-; reflexivity.
  - by rewrite (parse_port_value s n) by exact Hport.
  - change (format_ok s = true) in Hformat. unfold format_ok in Hformat. rewrite orb_true_iff, !bool_decide_eq_true in Hformat.
    destruct Hformat as [->| ->]; reflexivity.
Qed.

Lemma config_option_bad st e n :
  event_ok e = false -> (takes_argument optstring kLongOptions (go_c e) = true -> is_Some (go_optarg e)) ->
  1 <= go_optind e <= zlen (go_argv e) ->
  wp (config_option st e n) (fun r => exists err, r = inr err).
Proof.
  intros Hbad Harg Hind. destruct e as [c arg opt ind av]. unfold event_ok in Hbad. cbn [go_c go_optarg go_optind go_argv] in *.
  unfold config_option. cbn [go_c go_optarg go_optind go_argv go_optopt].
  destruct (decide (c ∈ option_values)) as [Hin|Hout].
  - rewrite bool_decide_true in Hbad by done. cbn [andb] in Hbad. unfold option_values, kLongOptions in Hin.
    cbn [fmap list_fmap lo_val] in Hin.
    repeat (apply elem_of_cons in Hin as [->|Hin]); [..|by apply elem_of_nil in Hin]; try discriminate Hbad.
    + destruct (Harg eq_refl) as [s ->]. cbn [default andb] in Hbad. rewrite andb_true_r in Hbad.
      change (port_ok s = false) in Hbad. cbn. revert Hbad. unfold port_ok, parse_port. destruct (_ || _); [eauto|done].
    + destruct (Harg eq_refl) as [s ->]. change (format_ok s = false) in Hbad. unfold format_ok in Hbad.
      rewrite orb_false_iff, !bool_decide_eq_false, <- !strcmp_eq in Hbad. destruct Hbad as [H1 H2].
      option_cases. cbn [deref mbind M_bind].
      destruct (strcmp s (txt "json")), (strcmp s (txt "text")); done || (cbn [wp]; eauto).
  - assert (Hne : forall x, x ∈ option_values -> (c =? x) = false).
    { intros x Hx. apply Z.eqb_neq. by intros ->. }
    repeat (rewrite Hne by (apply (bool_decide_unpack _); vm_compute; exact I)).
    destruct (negb _); [cbn; eauto|]. destruct (Z.gtb_spec ind 1); [|cbn; eauto].
    unfold arg_at. destruct (Z.leb_spec 0 (ind - 1)); [|lia].
    destruct (lookup_lt_is_Some_2 av (Z.to_nat (ind - 1))) as [a ->]; [unfold zlen in *; lia|]. cbn. eauto.
Qed.

Lemma config_loop_spec pre evs n :
  (forall e, e ∈ evs -> takes_argument optstring kLongOptions (go_c e) = true -> is_Some (go_optarg e)) ->
  (forall e, e ∈ evs -> 1 <= go_optind e <= zlen (go_argv e)) ->
  wp (config_loop (state_of pre) evs n) (fun r =>
    if forallb event_ok evs then r = inl (state_of (pre ++ evs)) else exists out err, r = inr (out, err)).
Proof.
  revert pre. induction evs as [|e evs IH]; intros pre Harg Hind; [by rewrite app_nil_r|].
  cbn [config_loop forallb]. destruct (event_ok e) eqn:He; cbn [andb].
  - rewrite config_option_ok by (done || (apply Harg; by left)). mred.
    eapply wp_mono; [apply IH; intros; [apply Harg|apply Hind]; by try right|]. by rewrite <- app_assoc.
  - apply wp_bind. eapply wp_mono; [apply config_option_bad; [done|apply Harg|apply Hind]; by left|].
    intros r [err ->]. cbn. eauto.
Qed.

(** ** An instance of [getopt_long]

    Exact long names with [=value] or a separate argument, clusters of short options, ["--"],
    and, as with [POSIXLY_CORRECT], the first operand ends the options. *)

Definition CH_question := 63.

Inductive argument_kind :=
  | EndOfOptions
  | LongArgument (text : list byte)
  | ShortArguments (cs : list byte)
  | Operand.

Definition classify (a : list byte) : argument_kind :=
  match a with
  | [x2d; x2d] => EndOfOptions
  | x2d :: x2d :: text => LongArgument text
  | x2d :: (_ :: _) as cs => ShortArguments cs
  | _ => Operand
  end.

Section simple_getopt.
Context (shorts : list byte) (longs : list long_option) (argv : list (list byte)).

(** The short options of one argument, the [i]-th; the flag says that the next argument was taken. *)
Fixpoint short_cluster (i : Z) (next : option (list byte)) (cs : list byte) : list getopt_call * bool :=
  match cs with
  | [] => ([], false)
  | x :: cs =>
      let ind := if decide (cs = []) then i + 1 else i in
      if decide (x ∉ shorts \/ x = x3a) then
        let '(calls, taken) := short_cluster i next cs in
        (GetoptCall CH_question None (bv x) ind argv :: calls, taken)
      else if short_takes_argument shorts (bv x) then
        match cs, next with
        | _ :: _, _ => ([GetoptCall (bv x) (Some cs) 0 (i + 1) argv], false)
        | [], Some arg => ([GetoptCall (bv x) (Some arg) 0 (i + 2) argv], true)
        | [], None => ([GetoptCall CH_question None (bv x) (i + 1) argv], false)
        end
      else
        let '(calls, taken) := short_cluster i next cs in
        (GetoptCall (bv x) None 0 ind argv :: calls, taken)
  end.

(** A long option [name] or [name=value]. *)
Definition long_call (i : Z) (next : option (list byte)) (text : list byte) : getopt_call * bool :=
  let '(name, value) := match split_on x3d text with
                        | name :: (_ :: _) as parts => (name, Some (join [x3d] parts))
                        | _ => (text, None)
                        end in
  match find (fun o => bool_decide (lo_name o = name)) longs with
  | None => (GetoptCall CH_question None 0 (i + 1) argv, false)
  | Some o =>
      match lo_has_arg o, value, next with
      | no_argument, None, _ => (GetoptCall (lo_val o) None 0 (i + 1) argv, false)
      | no_argument, Some _, _ => (GetoptCall CH_question None (lo_val o) (i + 1) argv, false)
      | required_argument, Some v, _ => (GetoptCall (lo_val o) (Some v) 0 (i + 1) argv, false)
      | required_argument, None, Some arg => (GetoptCall (lo_val o) (Some arg) 0 (i + 2) argv, true)
      | required_argument, None, None => (GetoptCall CH_question None (lo_val o) (i + 1) argv, false)
      end
  end.

(** The arguments from the [i]-th on; [skip] when the previous option took this one. *)
Fixpoint simple_scan (i : Z) (skip : bool) (args : list (list byte)) : list getopt_call * Z :=
  match args with
  | [] => ([], i)
  | a :: args =>
      if skip then simple_scan (i + 1) false args
      else match classify a with
           | EndOfOptions => ([], i + 1)
           | LongArgument text =>
               let '(call, taken) := long_call i (head args) text in
               let '(calls, optind) := simple_scan (i + 1) taken args in
               (call :: calls, optind)
           | ShortArguments cs =>
               let '(calls, taken) := short_cluster i (head args) cs in
               let '(calls', optind) := simple_scan (i + 1) taken args in
               (calls ++ calls', optind)
           | Operand => ([], i)
           end
  end.
End simple_getopt.

Definition simple_getopt : GetoptLong := fun argv shorts longs =>
  let '(calls, optind) := simple_scan shorts longs argv 1 false (tail argv) in
  GetoptRun calls optind argv.

(** What is reported by every call of the instance. *)
Definition call_ok (argv : list (list byte)) (e : getopt_call) : Prop :=
  (takes_argument optstring kLongOptions (go_c e) = true -> is_Some (go_optarg e)) /\
  1 <= go_optind e <= zlen argv /\ go_argv e = argv.

Lemma short_takes x : takes_argument optstring kLongOptions (bv x) = short_takes_argument optstring (bv x).
Proof. by destruct x. Qed.

Lemma long_takes o :
  o ∈ kLongOptions -> takes_argument optstring kLongOptions (lo_val o) = true -> lo_has_arg o = required_argument.
Proof.
  intros Ho. unfold kLongOptions in Ho.
  repeat (apply elem_of_cons in Ho as [->|Ho]; [done|]). by apply elem_of_nil in Ho.
Qed.

Lemma short_cluster_ok argv i (next : option (list byte)) cs :
  1 <= i -> i + (if next then 2 else 1) <= zlen argv ->
  Forall (call_ok argv) (short_cluster optstring argv i next cs).1.
Proof.
  intros Hi Hn. induction cs as [|x cs IH]; cbn [short_cluster]; [constructor|].
  assert (Hind : 1 <= (if decide (cs = []) then i + 1 else i) <= zlen argv) by (case_decide; destruct next; lia).
  destruct (decide (x ∉ optstring \/ x = x3a)).
  - destruct (short_cluster _ _ _ _ cs) as [calls taken]. constructor; [|done]. split; [done|]. done.
  - destruct (short_takes_argument optstring (bv x)) eqn:Ht.
    + destruct cs as [|y cs], next as [arg|]; cbn [fst]; (constructor; [|constructor]);
        (split; [by eauto|split; [cbn [go_optind]; lia|done]]).
    + destruct (short_cluster _ _ _ _ cs) as [calls taken]. constructor; [|done].
      split; [|done]. cbn [go_c]. rewrite short_takes. congruence.
Qed.

Lemma long_call_ok argv i (next : option (list byte)) text :
  1 <= i -> i + (if next then 2 else 1) <= zlen argv -> call_ok argv (long_call kLongOptions argv i next text).1.
Proof.
  intros Hi Hn. unfold long_call. destruct (match split_on _ _ with [] => _ | _ => _ end) as [name value].
  destruct (find _ kLongOptions) as [o|] eqn:Ef; cycle 1.
  { split; [done|]. split; [cbn; destruct next; lia|done]. }
  apply find_some in Ef as [Ho%list_elem_of_In _]. pose proof (long_takes o Ho) as Ht.
  destruct (lo_has_arg o), value, next; (split; [|split; [cbn [fst go_optind]; lia|done]]); cbn [fst go_c go_optarg];
    done || (intros E; specialize (Ht E); done).
Qed.

Lemma simple_scan_ok argv i skip args :
  1 <= i -> i + zlen args = zlen argv ->
  Forall (call_ok argv) (simple_scan optstring kLongOptions argv i skip args).1 /\
  1 <= (simple_scan optstring kLongOptions argv i skip args).2.
Proof.
  revert i skip. induction args as [|a args IH]; intros i skip Hi Hz; [by split; [constructor|]|].
  rewrite zlen_cons in Hz. pose proof (zlen_nonneg args).
  assert (Hnext : i + (if head args then 2 else 1) <= zlen argv)
    by (destruct args as [|y args']; cbn [head]; [lia|rewrite zlen_cons in Hz; pose proof (zlen_nonneg args'); lia]).
  cbn [simple_scan]. destruct skip; [apply IH; lia|].
  assert (Hend : forall j, 1 <= j -> Forall (call_ok argv) (@nil getopt_call) /\ 1 <= j) by (by split; [constructor|]).
  destruct (classify a) as [|text|cs|]; [apply Hend; cbn [snd]; lia| | |apply Hend; cbn [snd]; lia].
  - pose proof (long_call_ok argv i (head args) text Hi Hnext) as Hc. destruct (long_call _ _ _ _ _) as [call taken].
    specialize (IH (i + 1) taken ltac:(lia) ltac:(lia)). destruct (simple_scan _ _ _ _ _ args) as [calls ind].
    destruct IH. split; [by constructor|done].
  - pose proof (short_cluster_ok argv i (head args) cs Hi Hnext) as Hc. destruct (short_cluster _ _ _ _ _) as [calls taken].
    specialize (IH (i + 1) taken ltac:(lia) ltac:(lia)). destruct (simple_scan _ _ _ _ _ args) as [calls' ind].
    destruct IH. split; [by apply Forall_app|done].
Qed.

#[global] Instance simple_getopt_laws : @GetoptLaws simple_getopt.
Proof.
  assert (Hs : forall argv, argv <> [] ->
    Forall (call_ok argv) (run_calls (simple_getopt argv optstring kLongOptions)) /\
    1 <= run_optind (simple_getopt argv optstring kLongOptions) /\
    run_argv (simple_getopt argv optstring kLongOptions) = argv).
  { intros argv Hne. unfold simple_getopt. pose proof (simple_scan_ok argv 1 false (tail argv)) as H.
    destruct (simple_scan _ _ _ _ _ _) as [calls ind]. destruct H; [lia| |done].
    destruct argv as [|a argv]; [done|]. change (1 + zlen argv = zlen (a :: argv)). by rewrite zlen_cons. }
  split.
  - intros argv e He. destruct argv as [|a argv]; [by apply elem_of_nil in He|].
    destruct (Hs (a :: argv) ltac:(done)) as [Hf _]. rewrite list.Forall_forall in Hf. apply (Hf e He).
  - intros argv e Hne He. destruct (Hs argv Hne) as [Hf _]. rewrite list.Forall_forall in Hf.
    destruct (Hf e He) as (_ & ? & ->). done.
  - intros argv Hne. destruct (Hs argv Hne) as (_ & ? & H). unfold getopt_long. by rewrite H.
Qed.

(** Closes the goals of a decided branch. *)
Ltac config_answer :=
  cbn; split; [done|]; split; [done|]; split; [by eauto|by intros [? ?] || done].

Lemma ns_config_parse_spec `{GetoptLaws} (argv : list (list byte)) (err_buf_len : Z) :
  argv <> [] ->
  let run := getopt_long argv optstring kLongOptions in
  wp (ns_config_parse argv err_buf_len) (fun '(ok, out, err) =>
    ok = accepted run (zlen argv) /\ (ok = true -> out = config_of (run_calls run)) /\
    (ok = false <-> is_Some err)).
Proof.
  intros Hne run. unfold ns_config_parse. fold run. destruct (getopt_end argv Hne) as [Hei Hea].
  change (ParseState _ _ _ _) with (state_of []). apply wp_bind. eapply wp_mono.
  { apply config_loop_spec; [apply getopt_optarg|]. intros e He.
    destruct (getopt_optind argv e Hne He) as [? ->]. done. }
  fold run in Hei, Hea. unfold accepted. destruct (forallb event_ok (run_calls run)); cbn [andb]; cycle 1.
  { intros r (out & err & ->). config_answer. }
  intros r ->. cbn [app]. set (evs := run_calls run). rewrite Z.leb_antisym.
  destruct (Z.ltb_spec (run_optind run) (zlen argv)); cbn [negb andb].
  { unfold arg_at. destruct (Z.leb_spec 0 (run_optind run)); [|lia].
    destruct (lookup_lt_is_Some_2 (run_argv run) (Z.to_nat (run_optind run))) as [a ->]; [unfold zlen in *; lia|].
    config_answer. }
  unfold combination_ok, config_of, mode_arg.
  cbn [ps_out state_of config_with cfg_show_help cfg_show_version cfg_has_raw_filter cfg_output_file cfg_format
       cfg_list_interfaces have_interface have_read_file any_simple_filter].
  destruct (seen CH_h evs), (seen OPT_VERSION evs); cbn [orb]; try config_answer.
  destruct (seen CH_i evs && seen CH_r evs) eqn:Eir; cbn [andb negb]; [config_answer|].
  destruct (seen OPT_FILTER evs && simple_filter evs); cbn [andb negb]; [config_answer|].
  destruct (bool_decide (string_arg OPT_OUTPUT evs = [])), (bool_decide (format_arg evs = NS_FORMAT_JSON));
    cbn [andb orb negb]; try config_answer.
  all: destruct (seen OPT_LIST_INTERFACES evs), (seen CH_i evs), (seen CH_r evs);
    discriminate Eir || config_answer.
Qed.

(** ** Well-formed configurations *)

Definition config_ok (c : ns_config_t) : Prop :=
  Forall (fun s => zlen s <= 255)
    [cfg_interface c; cfg_read_file c; cfg_write_file c; cfg_output_file c; cfg_filter_host c; cfg_filter_src c;
     cfg_filter_dst c; cfg_raw_filter c] /\
  -1 <= cfg_filter_port c <= 65535 /\
  NS_LOG_WARN <= cfg_log_level c <= NS_LOG_DEBUG /\
  (cfg_show_help c = false -> cfg_show_version c = false ->
    (cfg_has_raw_filter c = true ->
      cfg_filter_tcp c = false /\ cfg_filter_udp c = false /\ cfg_filter_icmp c = false /\ cfg_filter_port c = -1 /\
      cfg_filter_host c = [] /\ cfg_filter_src c = [] /\ cfg_filter_dst c = []) /\
    (cfg_output_file c <> [] -> cfg_format c = NS_FORMAT_JSON) /\
    (cfg_input_mode c = NS_INPUT_NONE <-> cfg_list_interfaces c = true)).

Lemma last_arg_unseen c evs : seen c evs = false -> last_arg c evs = None.
Proof.
  unfold seen, last_arg. intros Hs. induction evs as [|e evs IH]; [done|]. cbn in *.
  apply orb_false_iff in Hs as [-> Hs]. by apply IH.
Qed.

Lemma last_arg_in c evs s :
  last_arg c evs = Some s -> exists e, e ∈ evs /\ go_c e = c /\ go_optarg e = Some s.
Proof.
  unfold last_arg. intros Hl%last_Some_elem_of. apply list_elem_of_omap in Hl as (e & He & Hm).
  exists e. destruct (Z.eqb_spec (go_c e) c); done.
Qed.

Lemma string_arg_zlen c evs : zlen (string_arg c evs) <= 255.
Proof. unfold string_arg, sn, zlen. rewrite length_take. lia. Qed.

Lemma port_arg_range evs : forallb event_ok evs = true -> -1 <= port_arg evs <= 65535.
Proof.
  intros Hok. unfold port_arg. destruct (last_arg OPT_PORT evs) as [s|] eqn:E; [|lia].
  apply last_arg_in in E as (e & He & Hc & Ho). rewrite forallb_forall in Hok.
  specialize (Hok e (proj1 (list_elem_of_In _ _) He)). unfold event_ok in Hok. rewrite Hc, Ho in Hok. cbn in Hok.
  rewrite !andb_true_iff in Hok. destruct Hok as [[_ Hp] _]. revert Hp. unfold port_ok, parse_port.
  repeat case_match; try done. cbn [default]. lia.
Qed.

Lemma config_of_ok run argc : accepted run argc = true -> config_ok (config_of (run_calls run)).
Proof.
  unfold accepted. rewrite !andb_true_iff. intros [[Hev _] Hc]. set (evs := run_calls run) in *.
  split; [unfold config_of; cbn; repeat constructor; apply string_arg_zlen|].
  split; [by apply port_arg_range|]. split.
  { unfold config_of, NS_LOG_WARN, NS_LOG_DEBUG. cbn [cfg_log_level config_with]. unfold log_arg, times.
    destruct (seen _ _); [lia|]. unfold zlen. lia. }
  unfold combination_ok, config_of, mode_arg in *.
  cbn [config_with cfg_show_help cfg_show_version cfg_has_raw_filter cfg_filter_tcp cfg_filter_udp cfg_filter_icmp
       cfg_filter_port cfg_filter_host cfg_filter_src cfg_filter_dst cfg_output_file cfg_format cfg_input_mode
       cfg_list_interfaces].
  intros Hh Hv. rewrite Hh, Hv in *. cbn [orb] in *. rewrite !andb_true_iff, negb_true_iff in Hc.
  destruct Hc as [[[_ Hraw] Hout] Hin]. split; [|split].
  - intros Hf. rewrite Hf in Hraw. cbn [andb] in Hraw. apply negb_true_iff in Hraw. unfold simple_filter in Hraw.
    cbn [existsb] in Hraw. rewrite !orb_false_iff in Hraw. destruct Hraw as (? & ? & ? & Hp & Hho & Hsr & Hds & _).
    unfold port_arg, string_arg. by rewrite !last_arg_unseen.
  - intros Hne. apply orb_true_iff in Hout as [Ho|Ho]; by apply bool_decide_eq_true in Ho.
  - destruct (seen OPT_LIST_INTERFACES evs), (seen CH_i evs); done.
Qed.

(** ** Properties *)


Definition sample_argv : list (list byte) :=
  [txt "netscope"; txt "-vvieth0"; txt "--port=53"; txt "--host"; txt "10.0.0.1"; txt "--format"; txt "json"].


(** C39. The type invariant of the configuration: whatever the command line, an accepted
    configuration is well-formed.  Its strings fit their buffers, the port is one or absent, the
    log level is a level between WARN and DEBUG, a raw filter excludes every filter option, an
    output file implies JSON, and there is no input exactly when only the interfaces are listed. *)
Theorem config_well_formed `{GetoptLaws} (argv : list (list byte)) (err_buf_len : Z) :
  argv <> [] ->
  wp (ns_config_parse argv err_buf_len) (fun '(ok, out, err) => ok = true -> config_ok out).
Proof.
  intros Hne. eapply wp_mono; [by apply ns_config_parse_spec|]. cbn beta. intros [[ok out] err] (Ha & Hout & _) Hok.
  rewrite (Hout Hok). eapply config_of_ok. by rewrite <- Ha.
Qed.

Lemma config_well_formed_witness :
  wp (@ns_config_parse simple_getopt sample_argv 512) (fun '(ok, out, err) => ok = true -> config_ok out).
Proof. apply (@config_well_formed simple_getopt simple_getopt_laws sample_argv 512). done. Defined.

(** ** Ports *)

Lemma skip_spaces_spec s :
  exists ws, s = ws ++ skip_spaces s /\ Forall (fun b => is_space b = true) ws /\
    match skip_spaces s with c :: _ => is_space c = false | [] => True end.
Proof.
  induction s as [|c s IH]; [by exists []|]. cbn [skip_spaces]. destruct (is_space c) eqn:E.
  - destruct IH as (ws & Hs & Hf & Hc). exists (c :: ws). cbn [app]. rewrite <- Hs. split; [done|].
    split; [by constructor|done].
  - exists []. done.
Qed.

Lemma skip_spaces_app ws s :
  Forall (fun b => is_space b = true) ws -> match s with c :: _ => is_space c = false | [] => True end ->
  skip_spaces (ws ++ s) = s.
Proof.
  intros Hf Hs. induction Hf as [|c ws Hc Hf IH]; cbn [app skip_spaces].
  - destruct s as [|c s]; [done|]. cbn [skip_spaces]. by rewrite Hs.
  - by rewrite Hc.
Qed.

Lemma span_decimal_spec s ds :
  span_decimal s = (ds, []) <-> s = ds /\ Forall (fun b => is_decimal b = true) ds.
Proof.
  revert ds. induction s as [|c s IH]; intros ds; cbn [span_decimal].
  - split; [intros [= <-]; by split|]. by intros [<- _].
  - destruct (is_decimal c) eqn:E.
    + destruct (span_decimal s) as [ds' r] eqn:Es. split.
      * intros [= <- ->]. destruct (proj1 (IH ds') eq_refl) as [-> ?]. split; [done|by constructor].
      * intros [<- Hf]. inversion Hf; subst. assert (E' : (ds', r) = (s, [])) by (by apply IH).
        by injection E' as -> ->.
    + split; [done|]. intros [<- Hf]. inversion Hf; congruence.
Qed.

(** The signs [strtol] accepts, with their effect. *)
Definition port_sign (sg : list byte) (n : Z) : option Z :=
  match sg with
  | [] => Some n
  | [x2b] => Some n
  | [x2d] => Some (- n)
  | _ => None
  end.

Lemma sign_of_spec s neg s' :
  sign_of s = (neg, s') ->
  exists sg, s = sg ++ s' /\ forall n, port_sign sg n = Some (if neg then - n else n).
Proof.
  unfold sign_of. intros H. destruct s as [|c s]; [injection H as <- <-; by exists []|].
  destruct c; injection H as <- <-; first [by exists [] | by exists [x2b] | by exists [x2d]].
Qed.

(** Decimal digits are neither spaces nor signs. *)
Lemma decimal_first ds :
  ds <> [] -> Forall (fun b => is_decimal b = true) ds ->
  sign_of ds = (false, ds) /\ match ds with c :: _ => is_space c = false | [] => True end.
Proof. intros Hne Hf. destruct Hf as [|d ds Hd Hf]; [done|]. by destruct d. Qed.

Lemma sign_of_app sg ds n p :
  ds <> [] -> Forall (fun b => is_decimal b = true) ds -> port_sign sg n = Some p ->
  exists neg : bool, sign_of (sg ++ ds) = (neg, ds) /\ p = (if neg then - n else n) /\
    match sg ++ ds with c :: _ => is_space c = false | [] => True end.
Proof.
  intros Hne Hf Hp. destruct (decimal_first ds Hne Hf) as [Hs Hc].
  destruct sg as [|c [|c' sg]]; cbn [port_sign] in Hp.
  - injection Hp as <-. by exists false.
  - destruct c; try discriminate Hp; injection Hp as <-; [by exists false|by exists true].
  - by destruct c.
Qed.

(** All the texts [strtol] makes a port of. *)
Lemma parse_port_accepts (text : list byte) (err_buf_len p : Z) :
  parse_port text err_buf_len = inl p <->
  0 <= p <= 65535 /\
  exists ws sg ds, text = ws ++ sg ++ ds /\ Forall (fun b => is_space b = true) ws /\
    ds <> [] /\ Forall (fun b => is_decimal b = true) ds /\ port_sign sg (undigits 10 ds) = Some p.
Proof.
  unfold parse_port, strtol10. split.
  - destruct (skip_spaces_spec text) as (ws & Ht & Hws & _). destruct (sign_of (skip_spaces text)) as [neg s] eqn:Es.
    destruct (sign_of_spec _ _ _ Es) as (sg & Hsg & Hp). destruct (span_decimal s) as [ds rest] eqn:Ed.
    destruct ds as [|d ds]; [done|]. destruct (_ >? _); [by cbn; rewrite ?orb_true_r|].
    destruct (_ <? - _); [by cbn; rewrite ?orb_true_r|]. cbn [strtol_no_conversion strtol_end strtol_erange strtol_value orb].
    destruct (decide (rest = [])) as [->|]; [|by rewrite bool_decide_false].
    rewrite bool_decide_true by done. cbn [negb orb]. rewrite Z.gtb_ltb.
    destruct (Z.ltb_spec (if neg then - undigits 10 (d :: ds) else undigits 10 (d :: ds)) 0); [done|].
    destruct (Z.ltb_spec 65535 (if neg then - undigits 10 (d :: ds) else undigits 10 (d :: ds))); [done|].
    cbn [orb]. intros E. apply (inj inl) in E as <-. split; [lia|]. apply span_decimal_spec in Ed as [-> Hf].
    exists ws, sg, (d :: ds). rewrite <- Hsg. done.
  - intros (Hr & ws & sg & ds & -> & Hws & Hne & Hf & Hp).
    destruct (sign_of_app _ _ _ _ Hne Hf Hp) as (neg & Hs & -> & Hc). rewrite skip_spaces_app, Hs by done.
    rewrite (proj2 (span_decimal_spec ds ds)) by done. destruct ds as [|d ds]; [done|].
    rewrite Z.gtb_ltb. destruct (Z.ltb_spec (2 ^ 63 - 1) (if neg then - undigits 10 (d :: ds) else undigits 10 (d :: ds))); [lia|].
    destruct (Z.ltb_spec (if neg then - undigits 10 (d :: ds) else undigits 10 (d :: ds)) (- 2 ^ 63)); [lia|].
    cbn [strtol_no_conversion strtol_end strtol_erange strtol_value orb]. rewrite bool_decide_true by done.
    cbn [negb orb]. rewrite Z.gtb_ltb.
    rewrite (proj2 (Z.ltb_ge _ 0)), (proj2 (Z.ltb_ge 65535 _)) by lia. done.
Qed.

(** A clean integer between 0 and 65535. *)
Definition clean_port (text : list byte) : bool :=
  negb (bool_decide (text = [])) && bool_decide (Forall (fun b => is_decimal b = true) text)
  && (undigits 10 text <=? 65535).

(** Text that starts with neither white space nor a sign. *)
Definition starts_clean (text : list byte) : bool :=
  match text with
  | c :: _ => negb (is_space c) && negb (bool_decide (c = x2b)) && negb (bool_decide (c = x2d))
  | [] => true
  end.

Lemma starts_clean_split ws sg ds m p :
  starts_clean (ws ++ sg ++ ds) = true -> Forall (fun b => is_space b = true) ws ->
  port_sign sg m = Some p -> ws = [] /\ sg = [] /\ p = m.
Proof.
  intros Hc Hws Hs. destruct Hws as [|w ws Hw _]; cycle 1.
  { cbn [app starts_clean] in Hc. by rewrite Hw in Hc. }
  destruct sg as [|c [|c' sg]]; [by injection Hs as <-| |by destruct c].
  by destruct c.
Qed.

Lemma undigits_nonneg s : Forall (fun b => is_decimal b = true) s -> 0 <= undigits 10 s.
Proof.
  induction s as [|b s IH] using rev_ind; [done|]. rewrite Forall_app. intros [Hs Hb].
  rewrite undigits_snoc. specialize (IH Hs). apply list.Forall_cons in Hb as [Hb _].
  assert (0 <= digit_val b); [|lia]. revert Hb. by destruct b.
Qed.

(** C36. Ports: a [--port] argument that starts with neither white space nor a sign is accepted
    exactly when it is a decimal number, of any length, whose value is between 0 and 65535;
    its value is then the port. Anything else of that form (empty text, trailing characters,
    values above 65535, values that overflow [long]) is rejected with the message that quotes
    it. Leading white space and signs are left out: see [port_with_sign_and_space]. *)
Theorem port_exact (text : list byte) (err_buf_len : Z) :
  starts_clean text = true ->
  parse_port text err_buf_len
  = if clean_port text then inl (undigits 10 text)
    else inr (sn err_buf_len (txt "invalid port '" ++ text ++ txt "' (expected 0-65535)")).
Proof.
  intros Hs. unfold clean_port. destruct (parse_port text err_buf_len) as [p|msg] eqn:E.
  - apply parse_port_accepts in E as (Hp & ws & sg & ds & -> & Hws & Hne & Hf & Hsg).
    destruct (starts_clean_split _ _ _ _ _ Hs Hws Hsg) as (-> & -> & ->). cbn [app].
    rewrite bool_decide_false, bool_decide_true by done. cbn [negb andb].
    by destruct (Z.leb_spec (undigits 10 ds) 65535); [|lia].
  - destruct (negb _ && _ && _) eqn:Ec.
    + apply andb_true_iff in Ec as [[Hne Hf]%andb_true_iff Hle]. rewrite Z.leb_le in Hle.
      apply negb_true_iff, bool_decide_eq_false in Hne. apply bool_decide_eq_true in Hf.
      assert (Hn : 0 <= undigits 10 text) by (by apply undigits_nonneg).
      rewrite (proj2 (parse_port_accepts text err_buf_len (undigits 10 text))) in E; [done|].
      split; [lia|]. by exists [], [], text.
    + revert E. unfold parse_port. case_match; [|done]. by intros [= <-].
Qed.

Lemma port_exact_witness :
  parse_port (txt "00443") 512 = inl 443 /\
  parse_port (txt "65536") 512 = inr (txt "invalid port '65536' (expected 0-65535)") /\
  parse_port (txt "80x") 512 = inr (txt "invalid port '80x' (expected 0-65535)") /\
  parse_port (txt "18446744073709551696") 512
  = inr (txt "invalid port '18446744073709551696' (expected 0-65535)").
Proof.
  split; [by rewrite (port_exact (txt "00443"))|]. split; [by rewrite (port_exact (txt "65536"))|].
  split; [by rewrite (port_exact (txt "80x"))|]. by rewrite (port_exact (txt "18446744073709551696")).
Defined.

(** Not only clean integers pass. *)
Example port_with_sign_and_space : parse_port (txt " +80") 512 = inl 80 /\ parse_port (txt "-0") 512 = inl 0.
Proof. done. Qed.
