(* ===== verification/Clock.v ===== *)
(** * Calendar time

    The part of [<time.h>] the output uses: broken-down time, [gmtime_r] and the conversions of
    [strftime].  [localtime_r] depends on the time zone of the environment and is the class
    [LocalTime]; UTC is an instance. *)

From S2P Require Import Prelude CMem.

(** [tm_year] counts from 1900 and [tm_mon] from 0, as in C. *)
Record tm := Tm { tm_sec : Z; tm_min : Z; tm_hour : Z; tm_mday : Z; tm_mon : Z; tm_year : Z }.

(** The civil date of a day counted from 1970-01-01: (year, month 1-12, day). Years are taken
    to start in March, in eras of 400 years. *)
Definition civil_of_days (days : Z) : Z * Z * Z :=
  let z := days + 719468 in
  let era := z / 146097 in
  let doe := z mod 146097 in
  let yoe := (doe - doe / 1460 + doe / 36524 - doe / 146096) / 365 in
  let doy := doe - (365 * yoe + yoe / 4 - yoe / 100) in
  let mp := (5 * doy + 2) / 153 in
  let d := doy - (153 * mp + 2) / 5 + 1 in
  let m := if mp <? 10 then mp + 3 else mp - 9 in
  let y := yoe + era * 400 + (if m <=? 2 then 1 else 0) in
  (y, m, d).

(** [None] when the year does not fit an [int]. *)
Definition gmtime_r (t : Z) : option tm :=
  let '(y, m, d) := civil_of_days (t / 86400) in
  let s := t mod 86400 in
  if (- 2 ^ 31 <=? y - 1900) && (y - 1900 <? 2 ^ 31)
  then Some (Tm (s mod 60) (s / 60 mod 60) (s / 3600) d (m - 1) (y - 1900))
  else None.

(** [%0wd]: the sign counts towards the width. *)
Definition fmt_0d (w : nat) (n : Z) : list byte :=
  if n <? 0 then txt "-" ++ pad_left x30 (w - 1) (digits 10 (- n)) else pad_left x30 w (digits 10 n).

(** [strftime] with ["%H:%M:%S"] and with ["%Y-%m-%dT%H:%M:%S"], before the size limit. *)
Definition strftime_HMS (t : tm) : list byte :=
  fmt_0d 2 (tm_hour t) ++ txt ":" ++ fmt_0d 2 (tm_min t) ++ txt ":" ++ fmt_0d 2 (tm_sec t).
Definition strftime_iso (t : tm) : list byte :=
  fmt_d (tm_year t + 1900) ++ txt "-" ++ fmt_0d 2 (tm_mon t + 1) ++ txt "-" ++ fmt_0d 2 (tm_mday t) ++
  txt "T" ++ strftime_HMS t.

(** [strftime(buf, n, ...)] with the formatted [text]: the value is its length, or 0 when it does
    not fit and the contents of [buf] are indeterminate. *)
Definition buf_strftime (buf : cbuf) (n : Z) (text : list byte) : M (cbuf * Z) :=
  if zlen text <? n then buf ← buf_copy buf 0 (text ++ [x00]); Done (buf, zlen text)
  else Done (uninit_buf (zlen buf), 0).

Class LocalTime := localtime_r : Z -> option tm.

(** The fields are in range for every time in a range of timestamps that contains those of
    capture files. *)
Definition time_range (t : Z) : Prop := 0 <= t < 2 ^ 55.
Definition tm_ok (t : tm) : Prop :=
  0 <= tm_hour t < 24 /\ 0 <= tm_min t < 60 /\ 0 <= tm_sec t <= 60 /\ 1 <= tm_mday t <= 31 /\ 0 <= tm_mon t < 12.

Class LocalTimeLaws `{LocalTime} :=
  localtime_ok t : time_range t -> exists b, localtime_r t = Some b /\ tm_ok b.

(** ** UTC *)

Lemma year_of_era doe :
  0 <= doe < 146097 -> 0 <= (doe - doe / 1460 + doe / 36524 - doe / 146096) / 365 <= 400.
Proof.
  intros Hd. pose proof (Z.div_mod doe 1460). pose proof (Z.mod_pos_bound doe 1460).
  pose proof (Z.div_mod doe 36524). pose proof (Z.mod_pos_bound doe 36524).
  pose proof (Z.div_mod doe 146096). pose proof (Z.mod_pos_bound doe 146096).
  split; [apply Z.div_pos; lia|]. apply Z.lt_succ_r, Z.div_lt_upper_bound; lia.
Qed.

Lemma day_of_year doe :
  0 <= doe < 146097 ->
  let yoe := (doe - doe / 1460 + doe / 36524 - doe / 146096) / 365 in
  0 <= doe - (365 * yoe + yoe / 4 - yoe / 100) <= 365.
Proof.
  intros H yoe.
  assert (Hb : doe / 36524 = 0 \/ doe / 36524 = 1 \/ doe / 36524 = 2 \/ doe / 36524 = 3 \/ doe / 36524 = 4)
    by (Z.div_mod_to_equations; lia).
  assert (Hc : doe / 146096 = 0 \/ doe / 146096 = 1) by (Z.div_mod_to_equations; lia).
  assert (He : yoe / 100 = 0 \/ yoe / 100 = 1 \/ yoe / 100 = 2 \/ yoe / 100 = 3 \/ yoe / 100 = 4)
    by (subst yoe; Z.div_mod_to_equations; lia).
  subst yoe. destruct Hc as [Hc|Hc], Hb as [Hb|[Hb|[Hb|[Hb|Hb]]]]; rewrite Hb, Hc in *;
    destruct He as [He|[He|[He|[He|He]]]]; rewrite He in *; Z.div_mod_to_equations; lia.
Qed.

(** The fields of a civil date. *)
Lemma civil_ok days :
  0 <= days < 2 ^ 39 - 719468 ->
  let '(y, m, d) := civil_of_days days in 1600 <= y < 2 ^ 31 - 3000 /\ 1 <= m <= 12 /\ 1 <= d <= 31.
Proof.
  intros Hdays. unfold civil_of_days. cbv zeta. set (z := days + 719468).
  assert (Hz : 719468 <= z < 2 ^ 39) by (unfold z; lia). clearbody z.
  pose proof (Z.div_lt_upper_bound z 146097 3763000 ltac:(lia) ltac:(lia)).
  pose proof (Z.div_le_lower_bound z 146097 4 ltac:(lia) ltac:(lia)).
  pose proof (Z.mod_pos_bound z 146097 ltac:(lia)) as Hdoe. set (doe := z mod 146097) in *.
  pose proof (year_of_era doe Hdoe) as Hy. pose proof (day_of_year doe Hdoe) as Hd. cbv zeta in Hd.
  set (yoe := (doe - _ + _ - _) / 365) in *. set (doy := doe - (365 * yoe + yoe / 4 - yoe / 100)) in *. clearbody doy yoe doe.
  assert (Hmp : 0 <= (5 * doy + 2) / 153 <= 11) by (Z.div_mod_to_equations; lia).
  assert (Hday : 1 <= doy - (153 * ((5 * doy + 2) / 153) + 2) / 5 + 1 <= 31) by (Z.div_mod_to_equations; lia).
  set (mp := (5 * doy + 2) / 153) in *. clearbody mp.
  destruct (Z.ltb_spec mp 10); case_match; lia.
Qed.

Lemma gmtime_ok t :
  time_range t -> exists b, gmtime_r t = Some b /\ tm_ok b /\ 1600 <= tm_year b + 1900 < 2 ^ 31.
Proof.
  unfold time_range. intros Ht. unfold gmtime_r. pose proof (Z.div_pos t 86400 ltac:(lia) ltac:(lia)).
  pose proof (Z.div_lt_upper_bound t 86400 (2 ^ 39 - 719468) ltac:(lia) ltac:(lia)).
  pose proof (civil_ok (t / 86400) ltac:(lia)) as Hc. destruct (civil_of_days (t / 86400)) as [[y m] d].
  pose proof (Z.mod_pos_bound t 86400 ltac:(lia)) as Hs. set (s := t mod 86400) in *. clearbody s.
  destruct (Z.leb_spec (- 2 ^ 31) (y - 1900)); [|lia]. destruct (Z.ltb_spec (y - 1900) (2 ^ 31)); [|lia].
  cbn [andb]. eexists. split; [done|]. unfold tm_ok. cbn [tm_hour tm_min tm_sec tm_year tm_mon tm_mday].
  pose proof (Z.mod_pos_bound s 60). pose proof (Z.mod_pos_bound (s / 60) 60). pose proof (Z.div_pos s 3600).
  pose proof (Z.div_lt_upper_bound s 3600 24). lia.
Qed.

Definition utc : LocalTime := gmtime_r.

#[global] Instance utc_laws : @LocalTimeLaws utc.
Proof. intros t Ht. destruct (gmtime_ok t Ht) as (b & ? & ? & _). by exists b. Qed.

Example epoch : strftime_iso <$> gmtime_r 0 = Some (txt "1970-01-01T00:00:00").
Proof. done. Qed.
Example leap_day : strftime_iso <$> gmtime_r 951782400 = Some (txt "2000-02-29T00:00:00").
Proof. done. Qed.
Example last_32_bit_second : strftime_iso <$> gmtime_r (2 ^ 32 - 1) = Some (txt "2106-02-07T06:28:15").
Proof. done. Qed.
