(* ===== verification/Binary64.v ===== *)
(** * Binary64 arithmetic and [%.2f]

    The operations of [double] the report uses.  IEEE 754 defines them as the exact result
    rounded to the nearest value with a 53-bit significand, ties to even; that rounding is
    [b64_of_ratio], on exact rationals.  All values of the program are between 2^-30 and 2^64
    (or zero), so neither overflow nor subnormal numbers occur and the exponent range is left
    out. *)

From S2P Require Import Prelude CMem Clock.

(** The integer nearest to [n / d], ties to even. *)
Definition rne (n d : Z) : Z :=
  let q := n / d in
  let r := n mod d in
  if 2 * r <? d then q else if d <? 2 * r then q + 1 else if Z.even q then q else q + 1.

(** A double as the fraction [num / den]. *)
Record b64 := B64 { num : Z; den : Z }.

(** The exponent [e] with [2^52 <= |n| / d / 2^e < 2^53], for [n <> 0] and [d > 0]. *)
Definition b64_exponent (n d : Z) : Z :=
  let e := Z.log2 (Z.abs n) - Z.log2 d - 52 in
  if (if e >=? 0 then Z.abs n <? 2 ^ 52 * (d * 2 ^ e) else Z.abs n * 2 ^ (- e) <? 2 ^ 52 * d) then e - 1 else e.

(** [n / d] rounded. *)
Definition b64_of_ratio (n d : Z) : b64 :=
  if n =? 0 then B64 0 1
  else
    let e := b64_exponent n d in
    if e >=? 0 then B64 (rne n (d * 2 ^ e) * 2 ^ e) 1 else B64 (rne (n * 2 ^ (- e)) d) (2 ^ (- e)).

(** [(double) n] for an integer *)
Definition b64_of_Z (n : Z) : b64 := b64_of_ratio n 1.

Definition b64_mul (x y : b64) : b64 := b64_of_ratio (num x * num y) (den x * den y).

(** [x / y] for [y > 0] *)
Definition b64_div (x y : b64) : b64 := b64_of_ratio (num x * den y) (den x * num y).
Definition b64_add (x y : b64) : b64 := b64_of_ratio (num x * den y + num y * den x) (den x * den y).
Definition b64_sub (x y : b64) : b64 := b64_of_ratio (num x * den y - num y * den x) (den x * den y).

(** [x >= n] for an integer constant *)
Definition b64_ge (x : b64) (n : Z) : bool := num x >=? n * den x.

(** Hundredths as [%.2f] prints them *)
Definition fmt_hundredths (c : Z) : list byte :=
  (if c <? 0 then txt "-" else []) ++ digits 10 (Z.abs c / 100) ++ txt "." ++ fmt_0d 2 (Z.abs c mod 100).

Definition fmt_f2 (x : b64) : list byte := fmt_hundredths (rne (num x * 100) (den x)).

Definition b64_ok (x : b64) : Prop := 0 <= num x /\ 0 < den x.

(** ** Rounding *)

Lemma rne_exact q d : 0 < d -> rne (q * d) d = q.
Proof.
  intros Hd. unfold rne. rewrite Z.div_mul, Z.mod_mul by lia. destruct (Z.ltb_spec (2 * 0) d); lia.
Qed.

Lemma rne_bounds n d : 0 < d -> 2 * (rne n d * d - n) <= d /\ 2 * (n - rne n d * d) <= d.
Proof.
  intros Hd. unfold rne. pose proof (Z.div_mod n d ltac:(lia)). pose proof (Z.mod_pos_bound n d Hd).
  destruct (Z.ltb_spec (2 * (n mod d)) d), (Z.ltb_spec d (2 * (n mod d))), (Z.even (n / d)); lia.
Qed.

Lemma rne_le n d k : 0 < d -> n <= k * d -> rne n d <= k.
Proof.
  intros Hd Hn. destruct (rne_bounds n d Hd) as [H _]. nia.
Qed.

Lemma rne_nonneg n d : 0 < d -> 0 <= n -> 0 <= rne n d.
Proof. intros Hd Hn. destruct (rne_bounds n d Hd) as [_ H]. nia. Qed.

(** The fraction [n / d / 2^e] with an integer numerator and denominator. *)
Definition scaled_num (n e : Z) : Z := n * 2 ^ Z.max 0 (- e).
Definition scaled_den (d e : Z) : Z := d * 2 ^ Z.max 0 e.

Lemma pow_split x y z : 0 <= x -> 0 <= y -> z = x + y -> 2 ^ z = 2 ^ x * 2 ^ y.
Proof. intros ? ? ->. by apply Z.pow_add_r. Qed.

(** The first guess is off by at most one. *)
Lemma exponent_guess n d :
  0 < n -> 0 < d ->
  let e := Z.log2 n - Z.log2 d - 52 in
  2 ^ 51 * scaled_den d e < scaled_num n e < 2 ^ 53 * scaled_den d e.
Proof.
  intros Hn Hd. cbv zeta. pose proof (Z.log2_spec n Hn) as Ln. pose proof (Z.log2_spec d Hd) as Ld.
  pose proof (Z.log2_nonneg n). pose proof (Z.log2_nonneg d). unfold scaled_num, scaled_den.
  set (a := Z.log2 n) in *. set (b := Z.log2 d) in *. clearbody a b. rewrite !Z.pow_succ_r in * by lia.
  destruct (Z.le_gt_cases 0 (a - b - 52)) as [He|He].
  - rewrite (Z.max_l 0 (- _)), (Z.max_r 0 (a - b - 52)), Z.pow_0_r by lia.
    pose proof (pow_split (52 + b) (a - b - 52) a ltac:(lia) He ltac:(lia)) as E.
    pose proof (pow_split 52 b (52 + b) ltac:(lia) ltac:(lia) ltac:(lia)) as E2.
    pose proof (Z.pow_pos_nonneg 2 (a - b - 52) ltac:(lia) He).
    set (k := 2 ^ (a - b - 52)) in *. set (A := 2 ^ a) in *. set (B := 2 ^ b) in *.
    change (2 ^ 52) with (2 * 2 ^ 51) in *. change (2 ^ 53) with (4 * 2 ^ 51) in *. nia.
  - rewrite (Z.max_r 0 (- _)), (Z.max_l 0 (a - b - 52)), Z.pow_0_r by lia.
    pose proof (pow_split a (- (a - b - 52)) (52 + b) ltac:(lia) ltac:(lia) ltac:(lia)) as E.
    pose proof (pow_split 52 b (52 + b) ltac:(lia) ltac:(lia) ltac:(lia)) as E2.
    pose proof (Z.pow_pos_nonneg 2 (- (a - b - 52)) ltac:(lia) ltac:(lia)).
    set (k := 2 ^ (- (a - b - 52))) in *. set (A := 2 ^ a) in *. set (B := 2 ^ b) in *.
    change (2 ^ 52) with (2 * 2 ^ 51) in *. change (2 ^ 53) with (4 * 2 ^ 51) in *. nia.
Qed.

(** Moving the exponent down by one doubles the significand. *)
Lemma scaled_pred n d e :
  (scaled_num n (e - 1) = 2 * scaled_num n e /\ scaled_den d (e - 1) = scaled_den d e) \/
  (scaled_num n (e - 1) = scaled_num n e /\ 2 * scaled_den d (e - 1) = scaled_den d e).
Proof.
  unfold scaled_num, scaled_den. destruct (Z.le_gt_cases 1 e) as [He|He].
  - right. rewrite !(Z.max_l 0 (- _)), !(Z.max_r 0 (_ - _)), (Z.max_r 0 e) by lia. split; [done|].
    rewrite (pow_split 1 (e - 1) e) by lia. lia.
  - left. rewrite !(Z.max_r 0 (- _)), !(Z.max_l 0 (_ - _)), (Z.max_l 0 e) by lia. split; [|done].
    rewrite (pow_split 1 (- e) (- (e - 1))) by lia. lia.
Qed.

(** The significand has 53 bits. *)
Lemma b64_exponent_spec n d :
  0 < n -> 0 < d ->
  let e := b64_exponent n d in 2 ^ 52 * scaled_den d e <= scaled_num n e < 2 ^ 53 * scaled_den d e.
Proof.
  intros Hn Hd. cbv zeta. unfold b64_exponent. rewrite (Z.abs_eq n) by lia.
  pose proof (exponent_guess n d Hn Hd) as Hg. cbv zeta in Hg. set (e := Z.log2 n - Z.log2 d - 52) in *.
  clearbody e.
  replace (if e >=? 0 then n <? 2 ^ 52 * (d * 2 ^ e) else n * 2 ^ (- e) <? 2 ^ 52 * d)
    with (scaled_num n e <? 2 ^ 52 * scaled_den d e); cycle 1.
  { unfold scaled_num, scaled_den. rewrite Z.geb_leb. destruct (Z.leb_spec 0 e).
    - by rewrite (Z.max_l 0 (- e)), (Z.max_r 0 e), Z.pow_0_r, Z.mul_1_r by lia.
    - by rewrite (Z.max_r 0 (- e)), (Z.max_l 0 e), Z.pow_0_r, Z.mul_1_r by lia. }
  destruct (Z.ltb_spec (scaled_num n e) (2 ^ 52 * scaled_den d e)); [|lia].
  destruct (scaled_pred n d e) as [[E1 E2]|[E1 E2]]; lia.
Qed.

Lemma b64_of_ratio_eq n d :
  n <> 0 ->
  let e := b64_exponent n d in
  b64_of_ratio n d = B64 (rne (scaled_num n e) (scaled_den d e) * 2 ^ Z.max 0 e) (2 ^ Z.max 0 (- e)).
Proof.
  intros Hn. cbv zeta. unfold b64_of_ratio, scaled_num, scaled_den. rewrite (proj2 (Z.eqb_neq n 0)) by done.
  rewrite Z.geb_leb. set (e := b64_exponent n d). destruct (Z.leb_spec 0 e).
  - by rewrite (Z.max_l 0 (- e)), (Z.max_r 0 e), Z.pow_0_r, Z.mul_1_r by lia.
  - by rewrite (Z.max_r 0 (- e)), (Z.max_l 0 e), Z.pow_0_r, !Z.mul_1_r by lia.
Qed.

Lemma scaled_den_pos d e : 0 < d -> 0 < scaled_den d e.
Proof. intros Hd. unfold scaled_den. pose proof (Z.pow_pos_nonneg 2 (Z.max 0 e) ltac:(lia) ltac:(lia)). nia. Qed.

Lemma b64_of_ratio_ok n d : 0 <= n -> 0 < d -> b64_ok (b64_of_ratio n d).
Proof.
  intros Hn Hd. destruct (decide (n = 0)) as [->|Hne]; [done|]. rewrite b64_of_ratio_eq by done.
  set (e := b64_exponent n d). pose proof (Z.pow_pos_nonneg 2 (Z.max 0 e) ltac:(lia) ltac:(lia)).
  pose proof (Z.pow_pos_nonneg 2 (Z.max 0 (- e)) ltac:(lia) ltac:(lia)). split; cbn [num den]; [|lia].
  pose proof (rne_nonneg (scaled_num n e) (scaled_den d e) (scaled_den_pos d e Hd)) as Hr.
  unfold scaled_num in *. nia.
Qed.

(** A fraction with a 53-bit numerator and a power of two as denominator is not changed. *)
Lemma b64_of_ratio_exact n d m s :
  0 < d -> 0 <= m < 2 ^ 53 -> 0 <= s -> n * 2 ^ s = m * d ->
  num (b64_of_ratio n d) * d = n * den (b64_of_ratio n d).
Proof.
  intros Hd Hm Hs E. destruct (decide (n = 0)) as [->|Hne]; [done|].
  pose proof (Z.pow_pos_nonneg 2 s ltac:(lia) Hs) as Hp. assert (Hn : 0 < n) by nia.
  pose proof (b64_exponent_spec n d Hn Hd) as Hx. cbv zeta in Hx. rewrite b64_of_ratio_eq by done.
  set (e := b64_exponent n d) in *. clearbody e. cbn [num den]. unfold scaled_num, scaled_den in *.
  destruct (Z.le_gt_cases 0 e) as [He|He].
  - rewrite (Z.max_l 0 (- e)), (Z.max_r 0 e), Z.pow_0_r, !Z.mul_1_r in * by lia.
    pose proof (Z.pow_pos_nonneg 2 e ltac:(lia) He) as Hpe.
    assert (2 ^ e = 1 /\ 2 ^ s = 1) as [Ee Es].
    { destruct (decide (e = 0)) as [->|]; destruct (decide (s = 0)) as [->|]; [done|exfalso..].
      - pose proof (pow_split 1 (s - 1) s). nia.
      - pose proof (pow_split 1 (e - 1) e). pose proof (Z.pow_pos_nonneg 2 (e - 1)). nia.
      - pose proof (pow_split 1 (e - 1) e). pose proof (Z.pow_pos_nonneg 2 (e - 1)). nia. }
    rewrite Ee, Es, !Z.mul_1_r in *. rewrite E, rne_exact by lia. lia.
  - rewrite (Z.max_r 0 (- e)), (Z.max_l 0 e), Z.pow_0_r, !Z.mul_1_r in * by lia.
    destruct (Z.le_gt_cases s (- e)) as [Hse|Hse].
    + pose proof (pow_split s (- e - s) (- e) ltac:(lia) ltac:(lia) ltac:(lia)) as Ef.
      rewrite Ef. replace (n * (2 ^ s * 2 ^ (- e - s))) with (m * 2 ^ (- e - s) * d) by nia. rewrite rne_exact by lia. nia.
    + exfalso. pose proof (pow_split (- e) (s + e) s ltac:(lia) ltac:(lia) ltac:(lia)) as Ef.
      pose proof (pow_split 1 (s + e - 1) (s + e) ltac:(lia) ltac:(lia) ltac:(lia)) as Eg.
      pose proof (Z.pow_pos_nonneg 2 (s + e - 1) ltac:(lia) ltac:(lia)). nia.
Qed.

(** Rounding does not cross a small integer. *)
Lemma b64_of_ratio_le n d k :
  0 <= n -> 0 < d -> 0 < k < 2 ^ 52 -> n <= k * d -> num (b64_of_ratio n d) <= k * den (b64_of_ratio n d).
Proof.
  intros Hn Hd Hk Hle. destruct (decide (n = 0)) as [->|Hne]; [cbn; lia|].
  pose proof (b64_exponent_spec n d ltac:(lia) Hd) as Hx. cbv zeta in Hx. rewrite b64_of_ratio_eq by done.
  set (e := b64_exponent n d) in *. clearbody e. cbn [num den]. unfold scaled_num, scaled_den in *.
  destruct (Z.le_gt_cases 0 e) as [He|He].
  - rewrite (Z.max_l 0 (- e)), (Z.max_r 0 e), Z.pow_0_r, !Z.mul_1_r in * by lia.
    pose proof (Z.pow_pos_nonneg 2 e ltac:(lia) He). nia.
  - rewrite (Z.max_r 0 (- e)), (Z.max_l 0 e), Z.pow_0_r, !Z.mul_1_r in * by lia. apply rne_le; [done|].
    pose proof (Z.pow_pos_nonneg 2 (- e) ltac:(lia) ltac:(lia)). nia.
Qed.

(** The relative error of a rounding is at most 2^-53. *)
Lemma b64_of_ratio_error n d :
  0 <= n -> 0 < d ->
  Z.abs (num (b64_of_ratio n d) * d - n * den (b64_of_ratio n d)) * 2 ^ 53 <= n * den (b64_of_ratio n d).
Proof.
  intros Hn Hd. destruct (decide (n = 0)) as [->|Hne]; [cbn; lia|].
  pose proof (b64_exponent_spec n d ltac:(lia) Hd) as Hx. cbv zeta in Hx. rewrite b64_of_ratio_eq by done.
  set (e := b64_exponent n d) in *. clearbody e. cbn [num den].
  pose proof (rne_bounds (scaled_num n e) (scaled_den d e) (scaled_den_pos d e Hd)) as [H1 H2].
  fold (scaled_num n e). replace (rne _ _ * 2 ^ Z.max 0 e * d) with (rne (scaled_num n e) (scaled_den d e) * scaled_den d e)
    by (unfold scaled_den; ring). lia.
Qed.

(** A quotient of two doubles, seen as a rounded fraction of what they stand for. *)
Lemma b64_div_error x y a b :
  b64_ok x -> b64_ok y -> 0 <= a -> 0 < b -> 0 < num y -> num x * den y * b = a * (den x * num y) ->
  b64_ok (b64_div x y) /\
  Z.abs (num (b64_div x y) * b - a * den (b64_div x y)) * 2 ^ 53 <= a * den (b64_div x y).
Proof.
  intros [Hx Hdx] [_ Hdy] Ha Hb Hy E. unfold b64_div.
  pose proof (b64_of_ratio_error (num x * den y) (den x * num y) ltac:(nia) ltac:(nia)) as He.
  pose proof (b64_of_ratio_ok (num x * den y) (den x * num y) ltac:(nia) ltac:(nia)) as Hok.
  set (r := b64_of_ratio _ _) in *. clearbody r. split; [done|]. destruct Hok as [Hr Hdr].
  set (n := num x * den y) in *. set (d := den x * num y) in *. assert (Hd : 0 < d) by (unfold d; nia).
  clearbody n d. apply (Z.mul_le_mono_pos_l _ _ d Hd).
  assert (HW : Z.abs (num r * b - a * den r) * d = Z.abs (num r * d - n * den r) * b).
  { rewrite <- (Z.abs_eq d) at 1 by lia. rewrite <- (Z.abs_eq b) at 2 by lia. rewrite <- !Z.abs_mul. f_equal.
    rewrite !Z.mul_sub_distr_r. f_equal; [ring|]. transitivity (n * b * den r); [rewrite E|]; ring. }
  assert (HV : a * den r * d = n * den r * b) by (transitivity (n * b * den r); [rewrite E|]; ring).
  set (W := Z.abs (num r * b - a * den r)) in *. set (X := Z.abs (num r * d - n * den r)) in *. nia.
Qed.
