(* ===== verification/Report.v ===== *)
(** * The capture report: [ns_stats_print] of [src/stats.c] and [ns_format_bytes] of [src/util.c]

    [qsort] leaves the order of equal elements open and is the class [Qsort]; merge sort is an
    instance. *)

From stdpp Require Import gmap sorting.
From S2P Require Import Prelude CMem Util Dns Packet FlowTable Stats Clock Config Binary64.

(** ** [ns_format_bytes] *)

Definition units : list (list byte) := [txt "B"; txt "KB"; txt "MB"; txt "GB"; txt "TB"].

Fixpoint format_bytes_loop (fuel : nat) (value : b64) (unit : Z) : M (b64 * Z) :=
  match fuel with
  | O => Fault OutOfFuel
  | S fuel =>
      if b64_ge value 1024 && (unit <? 5 - 1)
      then format_bytes_loop fuel (b64_div value (b64_of_Z 1024)) (unit + 1)
      else Done (value, unit)
  end.

(** The string left in a [buf_len]-byte buffer.  There are four units above the first, so the
    loop makes at most four turns and one last test. *)
Definition ns_format_bytes (bytes buf_len : Z) : M (list byte) :=
  '(value, unit) ← format_bytes_loop 5 (b64_of_Z bytes) 0;
  name ← slot_get units unit;
  Done (sn buf_len (if unit =? 0 then fmt_u bytes ++ txt " " ++ name else fmt_f2 value ++ txt " " ++ name)).

(** ** [qsort] *)

Class Qsort := qsort : forall A : Type, (A -> A -> Z) -> list A -> list A.
Arguments qsort {_ A} compar base.

(** The order a comparison function stands for. *)
Definition cmp_le {A} (compar : A -> A -> Z) (x y : A) : Prop := compar x y <= 0.

#[global] Instance cmp_le_dec {A} (compar : A -> A -> Z) x y : Decision (cmp_le compar x y) := decide (compar x y <= 0).

(** Documented behaviour: with a comparison that is a total preorder, the array is permuted into
    ascending order. *)
Class QsortLaws `{Qsort} := qsort_sorts A (compar : A -> A -> Z) base :
  (forall x y, compar x y <= 0 \/ compar y x <= 0) ->
  (forall x y z, compar x y <= 0 -> compar y z <= 0 -> compar x z <= 0) ->
  Permutation (qsort compar base) base /\ StronglySorted (cmp_le compar) (qsort compar base).

Definition merge_qsort : Qsort := fun A compar base => merge_sort (cmp_le compar) base.

#[global] Instance merge_qsort_laws : @QsortLaws merge_qsort.
Proof.
  intros A compar base Htot Htrans. split; [apply merge_sort_Permutation|].
  apply StronglySorted_merge_sort; [intros x y z; apply Htrans|intros x y; apply Htot].
Qed.

(** ** The report *)

Definition compare_flow_ptrs_desc (fa fb : ns_flow_t) : Z :=
  if flow_bytes fa >? flow_bytes fb then -1 else if flow_bytes fa <? flow_bytes fb then 1 else 0.

(** [%8lu] and [%5.2f] *)
Definition fmt_8u (n : Z) : list byte := pad_left x20 8 (fmt_u n).
Definition fmt_5f2 (x : b64) : list byte := pad_left x20 5 (fmt_f2 x).

Definition percentage (count total_packets : Z) : b64 :=
  if total_packets >? 0 then b64_div (b64_mul (b64_of_Z 100) (b64_of_Z count)) (b64_of_Z total_packets)
  else b64_of_Z 0.

Definition print_protocol_line (name : list byte) (count total_packets : Z) : list byte :=
  if count =? 0 then []
  else txt "  " ++ pad_right x20 10 name ++ txt " " ++ fmt_8u count ++ txt "   " ++
       fmt_5f2 (percentage count total_packets) ++ txt "%" ++ [x0a].

(** 38 times U+2500 *)
Definition rule : list byte := concat (replicate 38 [xe2; x94; x80]).

Definition print_conversation (i : Z) (f : ns_flow_t) : M (list byte) :=
  bytes_str ← ns_format_bytes (flow_bytes f) 32;
  Done (text_lines [
    fmt_u (i + 1) ++ txt ". " ++
      (if negb (flow_port_a f =? 0) || negb (flow_port_b f =? 0)
       then flow_addr_a f ++ txt ":" ++ fmt_u (flow_port_a f) ++ txt " <-> " ++
            flow_addr_b f ++ txt ":" ++ fmt_u (flow_port_b f)
       else flow_addr_a f ++ txt " <-> " ++ flow_addr_b f);
    txt "   " ++ ns_proto_name (flow_protocol f);
    txt "   packets: " ++ fmt_u (flow_packets f);
    txt "   traffic: " ++ bytes_str; []]).

Fixpoint print_conversations (i : Z) (sorted : list ns_flow_t) : M (list byte) :=
  match sorted with
  | [] => Done []
  | f :: sorted => s ← print_conversation i f; t ← print_conversations (i + 1) sorted; Done (s ++ t)
  end.

(** [sorted[n++] = &stats->flows[i]] for the slots in use: [n <= i], so the array is large enough. *)
Definition flows_in_use (flows : list ns_flow_t) : list ns_flow_t := filter (fun f => flow_in_use f = true) flows.

Definition ns_stats_print `{Qsort} (s : ns_stats_t) (duration_seconds : b64) : M (list byte) :=
  captured_str ← ns_format_bytes (total_captured_bytes s) 32;
  wire_str ← ns_format_bytes (total_wire_bytes s) 32;
  let total := total_packets s in
  let head :=
    text_lines [rule; txt "NetScope Capture Statistics"; rule; [];
      txt "Duration:              " ++ fmt_f2 duration_seconds ++ txt " s"; [];
      txt "Packets:               " ++ fmt_u total;
      txt "Captured traffic:      " ++ captured_str;
      txt "Wire traffic:          " ++ wire_str; [];
      txt "Protocols"] ++
    print_protocol_line (txt "TCP") (tcp_packets s) total ++
    print_protocol_line (txt "UDP") (udp_packets s) total ++
    print_protocol_line (txt "ICMP") (icmp_packets s) total ++
    print_protocol_line (txt "ICMPv6") (icmpv6_packets s) total ++
    print_protocol_line (txt "ARP") (arp_packets s) total ++
    print_protocol_line (txt "Other") (other_packets s) total ++
    text_lines [[]; txt "Application"; txt "  DNS        " ++ fmt_8u (dns_packets s); [];
      txt "Malformed              " ++ fmt_u (malformed_packets s); rule] in
  if table_flow_count (stats_flows s) =? 0 then Done head
  else
    let sorted := qsort compare_flow_ptrs_desc (flows_in_use (table_flows (stats_flows s))) in
    top ← print_conversations 0 (take 10 sorted);
    Done (head ++ text_lines [[]; txt "Top conversations:"; []] ++ top).

(** ** Byte counts *)

(** The largest unit that is not larger than the count, up to TB. *)
Definition unit_of (b : Z) : Z :=
  if b <? 1024 then 0 else if b <? 1024 ^ 2 then 1 else if b <? 1024 ^ 3 then 2 else if b <? 1024 ^ 4 then 3 else 4.

(** The count in that unit, to the nearest hundredth. *)
Definition bytes_text (b : Z) : list byte :=
  if b <? 1024 then fmt_u b ++ txt " B"
  else fmt_hundredths (rne (b * 100) (1024 ^ unit_of b)) ++ txt " " ++ default [] (units !! Z.to_nat (unit_of b)).

(** [value] is exactly [b / 1024^u]. *)
Definition scaled (b : Z) (value : b64) (u : Z) : Prop :=
  b64_ok value /\ num value * 1024 ^ u = b * den value.

Lemma rne_ratio n d n' d' : 0 < d -> 0 < d' -> n * d' = n' * d -> rne n d = rne n' d'.
Proof.
  assert (Hc : forall n d c, 0 < d -> 0 < c -> rne (n * c) (d * c) = rne n d).
  { clear. intros n d c Hd Hc. unfold rne. rewrite Z.div_mul_cancel_r, Zmult_mod_distr_r by lia.
    assert (Hlt : forall x y, (x * c <? y * c) = (x <? y)) by (intros; apply eq_true_iff_eq; rewrite !Z.ltb_lt; nia).
    rewrite !Z.mul_assoc, !Hlt. done. }
  intros Hd Hd' E. rewrite <- (Hc n d d'), <- (Hc n' d' d) by done. by rewrite E, (Z.mul_comm d d').
Qed.

Lemma scaled_start b : 0 <= b < 2 ^ 53 -> scaled b (b64_of_Z b) 0.
Proof.
  intros Hb. split; [by apply b64_of_ratio_ok; lia|]. unfold b64_of_Z.
  pose proof (b64_of_ratio_exact b 1 b 0). lia.
Qed.

Lemma scaled_step b value u :
  0 <= b < 2 ^ 53 -> 0 <= u -> scaled b value u -> scaled b (b64_div value (b64_of_Z 1024)) (u + 1).
Proof.
  intros Hb Hu [[Hn Hd] E]. unfold b64_div. set (k := b64_of_Z 1024).
  assert (Hk : num k = 1024 * den k /\ 0 < den k) by (by vm_compute). destruct Hk as [-> Hk]. clearbody k.
  set (D := den value * (1024 * den k)). assert (HD : 0 < D) by (unfold D; nia).
  split; [apply b64_of_ratio_ok; nia|].
  assert (Hp : 1024 ^ (u + 1) = 2 ^ (10 * (u + 1))) by (change 1024 with (2 ^ 10); by rewrite <- Z.pow_mul_r by lia).
  pose proof (Z.pow_add_r 1024 u 1 ltac:(lia) ltac:(lia)) as Hp1. rewrite Z.pow_1_r in Hp1.
  pose proof (Z.pow_pos_nonneg 1024 u ltac:(lia) Hu).
  assert (Hx : num value * den k * 1024 ^ (u + 1) = b * D) by (unfold D; rewrite Hp1; nia).
  pose proof (b64_of_ratio_exact (num value * den k) D b (10 * (u + 1)) HD Hb ltac:(lia)) as Ee.
  rewrite <- Hp in Ee. specialize (Ee Hx).
  set (r := b64_of_ratio _ _) in *. clearbody r.
  apply (Z.mul_reg_l _ _ D); [lia|]. transitivity (num value * den k * den r * 1024 ^ (u + 1)).
  - rewrite <- Ee. ring.
  - transitivity (b * D * den r); [rewrite <- Hx; ring|ring].
Qed.

Lemma scaled_ge b value u : 0 <= u -> scaled b value u -> b64_ge value 1024 = (1024 ^ (u + 1) <=? b).
Proof.
  intros Hu [[Hn Hd] E]. unfold b64_ge. rewrite Z.geb_leb. rewrite Z.pow_add_r, Z.pow_1_r by lia.
  pose proof (Z.pow_pos_nonneg 1024 u ltac:(lia) Hu). apply eq_true_iff_eq. rewrite !Z.leb_le. split; intros; nia.
Qed.

Lemma format_bytes_loop_spec b fuel value u :
  0 <= b < 2 ^ 53 -> 0 <= u <= 4 -> (Z.to_nat (4 - u) < fuel)%nat -> scaled b value u -> u <= unit_of b ->
  exists value', format_bytes_loop fuel value u = Done (value', unit_of b) /\ scaled b value' (unit_of b).
Proof.
  intros Hb. revert value u. induction fuel as [|fuel IH]; intros value u Hu Hf Hs Hle; [lia|].
  cbn [format_bytes_loop]. rewrite (scaled_ge b value u) by (done || lia). change (5 - 1) with 4.
  assert (Hnext : (1024 ^ (u + 1) <=? b) && (u <? 4) = (u <? unit_of b)).
  { revert Hle. unfold unit_of. assert (u = 0 \/ u = 1 \/ u = 2 \/ u = 3 \/ u = 4) as Hc by lia.
    destruct Hc as [->|[->|[->|[->| ->]]]]; cbn [Z.add Pos.add Z.ltb Z.compare andb]; zcases. }
  rewrite Hnext. destruct (Z.ltb_spec u (unit_of b)).
  - assert (unit_of b <= 4) by (unfold unit_of; zcases). apply IH; [lia..|apply scaled_step; done || lia|lia].
  - assert (u = unit_of b) as -> by lia. eauto.
Qed.

Lemma fmt_hundredths_zlen c k : 0 <= c < 100 * 10 ^ Z.of_nat k -> (0 < k)%nat -> zlen (fmt_hundredths c) <= Z.of_nat k + 3.
Proof.
  intros Hc Hk. unfold fmt_hundredths. destruct (Z.ltb_spec c 0); [lia|]. rewrite Z.abs_eq by lia.
  pose proof (Z.div_lt_upper_bound c 100 (10 ^ Z.of_nat k) ltac:(lia) ltac:(lia)). pose proof (Z.div_pos c 100).
  pose proof (digits_zlen 10 (c / 100) k ltac:(lia) ltac:(lia) Hk). pose proof (Z.mod_pos_bound c 100 ltac:(lia)).
  rewrite !zlen_app. change (zlen (@nil byte)) with 0. change (zlen (txt ".")) with 1.
  unfold fmt_0d. destruct (Z.ltb_spec (c mod 100) 0); [lia|]. unfold pad_left. rewrite zlen_app.
  pose proof (digits_zlen 10 (c mod 100) 2 ltac:(lia) ltac:(lia) ltac:(lia)). unfold zlen in *.
  rewrite length_replicate. lia.
Qed.

Lemma ns_format_bytes_spec bytes : 0 <= bytes < 2 ^ 53 -> ns_format_bytes bytes 32 = Done (bytes_text bytes).
Proof.
  intros Hb. unfold ns_format_bytes, bytes_text.
  assert (Hu : 0 <= unit_of bytes <= 4) by (unfold unit_of; zcases).
  destruct (format_bytes_loop_spec bytes 5 (b64_of_Z bytes) 0) as (value & -> & [Hok Hs]);
    [done|lia|cbn; lia|by apply scaled_start|lia|]. mred.
  assert (Hz : (unit_of bytes =? 0) = (bytes <? 1024)) by (unfold unit_of; zcases). rewrite Hz.
  destruct (units !! Z.to_nat (unit_of bytes)) as [name|] eqn:En; cycle 1.
  { apply lookup_ge_None in En. cbn in En. lia. }
  unfold slot_get. rewrite En. mred. destruct (Z.ltb_spec bytes 1024).
  - rewrite (proj1 (Z.eqb_eq _ _) Hz) in En. injection En as <-. rewrite sn_fits; [done|]. rewrite !zlen_app.
    pose proof (digits_zlen 10 bytes 4). unfold fmt_u. change (zlen (txt " ")) with 1. change (zlen (txt "B")) with 1. lia.
  - destruct Hok as [Hn Hd]. unfold fmt_f2.
    pose proof (Z.pow_pos_nonneg 1024 (unit_of bytes) ltac:(lia) ltac:(lia)) as Hp.
    rewrite (rne_ratio _ _ (bytes * 100) (1024 ^ unit_of bytes)) by (done || nia). cbn [default]. rewrite sn_fits; [done|].
    set (c := rne _ _). assert (Hc : 0 <= c < 100 * 10 ^ Z.of_nat 16).
    { split; [apply rne_nonneg; lia|]. apply Z.le_lt_trans with (2 ^ 53 * 100); [|lia]. apply rne_le; [done|]. nia. }
    pose proof (fmt_hundredths_zlen c 16 Hc ltac:(lia)). rewrite !zlen_app. change (zlen (txt " ")) with 1.
    assert (zlen name <= 2); [|lia]. revert En.
    assert (unit_of bytes = 0 \/ unit_of bytes = 1 \/ unit_of bytes = 2 \/ unit_of bytes = 3 \/ unit_of bytes = 4) as Hc5 by lia.
    destruct Hc5 as [->|[->|[->|[->| ->]]]]; intros [= <-]; by vm_compute.
Qed.



(** ** Percentages *)

Lemma b64_of_Z_exact n : 0 <= n < 2 ^ 53 -> b64_ok (b64_of_Z n) /\ num (b64_of_Z n) = n * den (b64_of_Z n).
Proof. intros Hn. destruct (scaled_start n Hn) as [Hok E]. split; [done|lia]. Qed.

Lemma b64_mul_exact x y m n :
  b64_ok x -> b64_ok y -> 0 <= m -> 0 <= n -> m * n < 2 ^ 53 -> num x = m * den x -> num y = n * den y ->
  b64_ok (b64_mul x y) /\ num (b64_mul x y) = m * n * den (b64_mul x y).
Proof.
  intros [Hx Hdx] [Hy Hdy] Hm Hn Hmn Ex Ey. unfold b64_mul.
  pose proof (b64_of_ratio_exact (num x * num y) (den x * den y) (m * n) 0 ltac:(nia) ltac:(nia) ltac:(lia)) as E.
  rewrite Z.pow_0_r, Z.mul_1_r, Ex, Ey in E. specialize (E ltac:(ring)).
  pose proof (b64_of_ratio_ok (num x * num y) (den x * den y) ltac:(nia) ltac:(nia)) as Hok. split; [done|].
  rewrite Ex, Ey in *. set (r := b64_of_ratio _ _) in *. clearbody r.
  apply (Z.mul_reg_r _ _ (den x * den y)); [nia|]. rewrite E. ring.
Qed.

(** From the error of the double to the error of the printed hundredths. *)
Lemma hundredths_nearest x c t :
  b64_ok x -> 0 <= c -> 0 < t -> 20000 * c < 2 ^ 53 ->
  Z.abs (num x * t - 100 * c * den x) * 2 ^ 53 <= 100 * c * den x ->
  2 * Z.abs (rne (num x * 100) (den x) * t - 10000 * c) <= t.
Proof.
  intros [Hn Hd] Hc Ht Hbig He. pose proof (rne_bounds (num x * 100) (den x) Hd) as Hr.
  set (h := rne _ _) in *. clearbody h. set (K := 2 ^ 53) in *. assert (HK : 0 < K) by done. clearbody K.
  set (N := num x) in *. set (D := den x) in *. clearbody N D.
  assert (H1 : 2 * Z.abs (h * D - N * 100) <= D) by lia.
  assert (H2 : 2 * Z.abs (h * D - N * 100) * t <= D * t) by nia.
  assert (H3 : 2 * Z.abs (h * t - 10000 * c) * D
    <= 2 * Z.abs (h * D - N * 100) * t + 200 * Z.abs (N * t - 100 * c * D)).
  { rewrite <- (Z.abs_eq D) at 1 by lia. rewrite <- (Z.abs_eq t) at 2 by lia. rewrite <- !Z.mul_assoc, <- !Z.abs_mul.
    replace ((h * t - 10000 * c) * D) with ((h * D - N * 100) * t + 100 * (N * t - 100 * (c * D))) by ring.
    pose proof (Z.abs_triangle ((h * D - N * 100) * t) (100 * (N * t - 100 * (c * D)))) as Htri.
    rewrite (Z.abs_mul 100), (Z.abs_eq 100) in Htri by lia. lia. }
  assert (H4 : 200 * Z.abs (N * t - 100 * c * D) < D) by nia.
  assert (H5 : 2 * Z.abs (h * t - 10000 * c) * D < (t + 1) * D) by lia. nia.
Qed.

(** The line of a protocol, as a C programmer reads the format ["  %-10s %8lu   %5.2f%%"]:
    nothing for a protocol without packets, otherwise its name, the count and its share of all
    packets in per cent, to the nearest hundredth. *)
Definition protocol_line (name : list byte) (count total : Z) (line : list byte) : Prop :=
  if count =? 0 then line = []
  else exists h, 2 * Z.abs (h * total - 10000 * count) <= total /\ 0 <= h <= 10000 /\
    line = txt "  " ++ pad_right x20 10 name ++ txt " " ++ pad_left x20 8 (fmt_u count) ++
           txt "   " ++ pad_left x20 5 (fmt_hundredths h) ++ txt "%" ++ [x0a].

Lemma percentage_nearest count total :
  0 <= count <= total -> 0 < total < 2 ^ 38 ->
  exists h, fmt_f2 (percentage count total) = fmt_hundredths h /\
    2 * Z.abs (h * total - 10000 * count) <= total /\ 0 <= h <= 10000.
Proof.
  intros Hc Ht. unfold percentage, fmt_f2. rewrite Z.gtb_ltb. destruct (Z.ltb_spec 0 total); [|lia].
  destruct (b64_of_Z_exact count) as [Hok1 E1]; [lia|]. destruct (b64_of_Z_exact total) as [Hok2 E2]; [lia|].
  destruct (b64_of_Z_exact 100) as [Hok3 E3]; [lia|].
  destruct (b64_mul_exact _ _ 100 count Hok3 Hok1) as [Hok4 E4]; [lia..|done|done|].
  set (x := b64_mul _ _) in *. set (y := b64_of_Z total) in *. clearbody x y. pose proof Hok2 as [_ Hdy].
  destruct (b64_div_error x y (100 * count) total Hok4 Hok2) as [Hok He];
    [lia|lia|nia|rewrite E4, E2; ring|]. exists (rne (num (b64_div x y) * 100) (den (b64_div x y))). split; [done|].
  pose proof (hundredths_nearest _ count total Hok ltac:(lia) ltac:(lia) ltac:(lia) He) as Hh. split; [done|].
  set (h := rne _ _) in *. clearbody h. nia.
Qed.

Lemma print_protocol_line_spec name count total :
  0 <= count <= total -> total < 2 ^ 38 ->
  protocol_line name count total (print_protocol_line name count total).
Proof.
  intros Hc Ht. unfold protocol_line, print_protocol_line. destruct (Z.eqb_spec count 0); [done|].
  destruct (percentage_nearest count total) as (h & E & Hh & Hr); [lia..|].
  exists h. split; [done|]. split; [done|]. unfold fmt_5f2. by rewrite E.
Qed.

(** C38. Protocol lines: for totals below 2^38 packets, [print_protocol_line] prints nothing for
    a protocol without packets, and otherwise one line with the protocol's name, its count and
    the share 100 * count / total, correctly rounded to the nearest hundredth in spite of the
    three roundings of [double] arithmetic on the way, between 0.00 and 100.00. *)
Theorem percentage_exact (name : list byte) (count total : Z) :
  0 <= count <= total -> total < 2 ^ 38 ->
  protocol_line name count total (print_protocol_line name count total).
Proof. apply print_protocol_line_spec. Qed.

Lemma percentage_exact_witness :
  print_protocol_line (txt "TCP") 2 3 = txt "  TCP               2   66.67%" ++ [x0a] /\
  protocol_line (txt "TCP") 2 3 (print_protocol_line (txt "TCP") 2 3).
Proof. split; [by vm_compute|]. apply (percentage_exact (txt "TCP") 2 3); done. Defined.

Example one_third : fmt_5f2 (percentage 1 3) = txt "33.33" /\ fmt_5f2 (percentage 2 3) = txt "66.67".
Proof. done. Qed.

(** ** The report as a function of the statistics *)

(** The name of a protocol in the list of conversations. *)
Definition protocol_label (proto : ns_proto_t) : list byte :=
  match proto with
  | NS_PROTO_TCP => txt "TCP"
  | NS_PROTO_UDP => txt "UDP"
  | NS_PROTO_ICMP => txt "ICMP"
  | NS_PROTO_ICMPV6 => txt "ICMPv6"
  | NS_PROTO_ARP => txt "ARP"
  | NS_PROTO_IPV4 => txt "IPv4"
  | NS_PROTO_IPV6 => txt "IPv6"
  | NS_PROTO_DNS => txt "DNS"
  | NS_PROTO_UNKNOWN => txt "Unknown"
  end.

Definition conversation_text (i : nat) (f : ns_flow_t) : list byte :=
  let endpoint addr port := if (flow_port_a f =? 0) && (flow_port_b f =? 0) then addr else addr ++ txt ":" ++ fmt_u port in
  text_lines [
    fmt_u (Z.of_nat i + 1) ++ txt ". " ++ endpoint (flow_addr_a f) (flow_port_a f) ++ txt " <-> " ++
      endpoint (flow_addr_b f) (flow_port_b f);
    txt "   " ++ protocol_label (flow_protocol f);
    txt "   packets: " ++ fmt_u (flow_packets f);
    txt "   traffic: " ++ bytes_text (flow_bytes f); []].

(** The packets that are of none of the protocols listed by name. *)
Definition unlisted_packets (s : ns_stats_t) : Z :=
  total_packets s - (tcp_packets s + udp_packets s + icmp_packets s + icmpv6_packets s + arp_packets s).

(** Each listed packet is counted once, and there are fewer than 2^38 packets. *)
Definition counts_ok (s : ns_stats_t) : Prop :=
  0 <= tcp_packets s /\ 0 <= udp_packets s /\ 0 <= icmp_packets s /\ 0 <= icmpv6_packets s /\
  0 <= arp_packets s /\ 0 <= unlisted_packets s /\ total_packets s < 2 ^ 38.

Definition protocol_counts (s : ns_stats_t) : list (list byte * Z) :=
  [(txt "TCP", tcp_packets s); (txt "UDP", udp_packets s); (txt "ICMP", icmp_packets s);
   (txt "ICMPv6", icmpv6_packets s); (txt "ARP", arp_packets s); (txt "Other", unlisted_packets s)].

(** The totals, the lines of the protocols and the counters below them. *)
Definition report_head (s : ns_stats_t) (duration_seconds : b64) (lines : list (list byte)) : list byte :=
  text_lines [rule; txt "NetScope Capture Statistics"; rule; [];
    txt "Duration:              " ++ fmt_f2 duration_seconds ++ txt " s"; [];
    txt "Packets:               " ++ fmt_u (total_packets s);
    txt "Captured traffic:      " ++ bytes_text (total_captured_bytes s);
    txt "Wire traffic:          " ++ bytes_text (total_wire_bytes s); [];
    txt "Protocols"] ++
  concat lines ++
  text_lines [[]; txt "Application"; txt "  DNS        " ++ pad_left x20 8 (fmt_u (dns_packets s)); [];
    txt "Malformed              " ++ fmt_u (malformed_packets s); rule].

(** The heading and the first ten conversations, when there is one. *)
Definition report_tail (sorted : list ns_flow_t) : list byte :=
  match sorted with
  | [] => []
  | _ :: _ => text_lines [[]; txt "Top conversations:"; []] ++ concat (imap conversation_text (take 10 sorted))
  end.

(** Byte counts that a [double] holds exactly. *)
Definition exact_count (n : Z) : Prop := 0 <= n < 2 ^ 53.

Lemma print_conversation_spec i f :
  exact_count (flow_bytes f) -> print_conversation (Z.of_nat i) f = Done (conversation_text i f).
Proof.
  intros Hf. unfold print_conversation, conversation_text. rewrite ns_format_bytes_spec by done. mred.
  replace (protocol_label (flow_protocol f)) with (ns_proto_name (flow_protocol f)) by (by destruct (flow_protocol f)).
  destruct (flow_port_a f =? 0), (flow_port_b f =? 0); cbn [negb orb andb]; by rewrite <- ?(assoc_L (++)).
Qed.

Lemma print_conversations_spec k sorted :
  Forall (fun f => exact_count (flow_bytes f)) sorted ->
  print_conversations (Z.of_nat k) sorted = Done (concat (imap (fun i => conversation_text (k + i)) sorted)).
Proof.
  intros Hs. revert k. induction Hs as [|f sorted Hf _ IH]; intros k; [done|]. cbn [print_conversations imap concat].
  rewrite print_conversation_spec by done. mred. replace (Z.of_nat k + 1) with (Z.of_nat (S k)) by lia.
  rewrite IH. mred. rewrite Nat.add_0_r. do 2 f_equal. f_equal. apply imap_ext. intros i x _. cbn. by rewrite Nat.add_succ_r.
Qed.

Lemma compare_flow_desc f g : compare_flow_ptrs_desc f g <= 0 <-> flow_bytes g <= flow_bytes f.
Proof. unfold compare_flow_ptrs_desc. rewrite Z.gtb_ltb. zcases. Qed.

Lemma qsort_flows `{QsortLaws} flows :
  Permutation (qsort compare_flow_ptrs_desc flows) flows /\
  StronglySorted (fun f g => flow_bytes g <= flow_bytes f) (qsort compare_flow_ptrs_desc flows).
Proof.
  destruct (qsort_sorts ns_flow_t compare_flow_ptrs_desc flows) as [Hp Hs].
  - intros x y. rewrite !compare_flow_desc. lia.
  - intros x y z. rewrite !compare_flow_desc. lia.
  - split; [done|]. clear Hp. induction Hs as [|f sorted _ IH Hall]; [constructor|]. constructor; [done|].
    eapply list.Forall_impl; [exact Hall|]. intros g. apply compare_flow_desc.
Qed.

Lemma other_packets_unlisted s : counts_ok s -> other_packets s = unlisted_packets s.
Proof.
  unfold counts_ok, other_packets, unlisted_packets. intros (? & ? & ? & ? & ? & ? & ?).
  rewrite !szsub_szsub, szsub_small by lia. lia.
Qed.

(** The protocol lines the program prints. *)
Definition printed_lines (s : ns_stats_t) : list (list byte) :=
  (fun '(name, count) => print_protocol_line name count (total_packets s)) <$> protocol_counts s.

Lemma printed_lines_ok s :
  counts_ok s ->
  Forall2 (fun '(name, count) => protocol_line name count (total_packets s)) (protocol_counts s) (printed_lines s).
Proof.
  unfold counts_ok, unlisted_packets. intros (? & ? & ? & ? & ? & ? & ?). unfold printed_lines, protocol_counts.
  cbn [fmap list_fmap]. unfold unlisted_packets. repeat constructor; apply print_protocol_line_spec; lia.
Qed.

(** C17. The report: with any conforming [qsort], [ns_stats_print] terminates without a fault and
    prints the duration, the totals, a line for each listed protocol with packets (its name,
    count and share to the nearest hundredth of a per cent) and for the rest, and the counters
    of DNS and malformed packets; then the conversations of the flow map (none, and no
    heading, when the map is empty): at most ten, the ones with the most bytes first. The side
    conditions are bounds within which [double] arithmetic is exact: fewer than 2^38 packets,
    of which the listed protocols are disjoint parts, and byte counts below 2^53, in total and
    for each conversation. *)
Theorem stats_report_exact `{QsortLaws} (s : ns_stats_t) (duration_seconds : b64) :
  table_ok (stats_flows s) -> counts_ok s ->
  exact_count (total_captured_bytes s) -> exact_count (total_wire_bytes s) ->
  map_Forall (fun _ v => exact_count (snd v)) (table_map (stats_flows s)) ->
  exists lines sorted,
    ns_stats_print s duration_seconds = Done (report_head s duration_seconds lines ++ report_tail sorted) /\
    Forall2 (fun '(name, count) => protocol_line name count (total_packets s)) (protocol_counts s) lines /\
    Permutation ((fun f => (flow_key f, flow_value f)) <$> sorted) (map_to_list (table_map (stats_flows s))) /\
    StronglySorted (fun f g => flow_bytes g <= flow_bytes f) sorted.
Proof.
  intros (_ & Hn & Hu & _) Hcounts Hc Hw Hm.
  set (used := flows_in_use (table_flows (stats_flows s))) in *.
  destruct (qsort_flows used) as [Hp Hs]. exists (printed_lines s), (qsort compare_flow_ptrs_desc used).
  set (sorted := qsort compare_flow_ptrs_desc used) in *.
  assert (Hmap : Permutation ((fun f => (flow_key f, flow_value f)) <$> used) (map_to_list (table_map (stats_flows s)))).
  { symmetry. apply map_to_list_to_map. rewrite <- list_fmap_compose. by apply keys_unique_NoDup. }
  split; [|split; [by apply printed_lines_ok|split; [by rewrite Hp|done]]].
  assert (Hconv : print_conversations 0 (take 10 sorted) = Done (concat (imap conversation_text (take 10 sorted)))).
  { change 0 with (Z.of_nat 0). apply (print_conversations_spec 0). apply Forall_take. apply list.Forall_forall.
    intros g Hg. rewrite Hp in Hg. apply (Hm (flow_key g) (flow_value g)). apply elem_of_map_to_list.
    rewrite <- Hmap. apply list_elem_of_fmap. by exists g. }
  assert (Hlen : table_flow_count (stats_flows s) = zlen sorted) by (unfold zlen; rewrite Hp; exact Hn).
  unfold ns_stats_print. rewrite !ns_format_bytes_spec by done. mred. rewrite Hlen.
  fold used. fold sorted. clearbody sorted. rewrite (other_packets_unlisted s Hcounts).
  unfold report_head, printed_lines, protocol_counts. cbn [fmap list_fmap concat].
  destruct sorted as [|f sorted]; cbn [report_tail].
  - by rewrite ?app_nil_r, <- ?(assoc_L (++)).
  - destruct (Z.eqb_spec (zlen (f :: sorted)) 0) as [E|_]; [done|].
    rewrite Hconv. mred. by rewrite ?app_nil_r, <- ?(assoc_L (++)).
Qed.

(** A conversation never has more bytes than were recorded in all. *)
Definition sum_bytes (events : list (endpoints * Z)) : Z := foldr (fun e n => e.2 + n) 0 events.

Definition bytes_below (B : Z) (m : gmap endpoints (Z * Z)) : Prop := map_Forall (fun _ v => 0 <= snd v <= B) m.

Lemma bytes_below_mono B B' m : B <= B' -> bytes_below B m -> bytes_below B' m.
Proof. intros HB Hm. eapply map_Forall_impl; [exact Hm|]. cbn. intros. lia. Qed.

Lemma record_spec_bytes m k bytes B :
  bytes_below B m -> 0 <= bytes -> 0 <= B -> bytes_below (B + bytes) (record_spec m k bytes).
Proof.
  intros Hm Hb HB. assert (Hw : bytes_below (B + bytes) m) by (by apply (bytes_below_mono B); [lia|]).
  unfold record_spec. destruct (m !! k) as [[packets total]|] eqn:E.
  - apply map_Forall_insert_2; [|done]. specialize (Hm _ _ E). cbn [snd] in *. unfold u64c.
    pose proof (Z.mod_pos_bound (total + bytes) (2 ^ 64) ltac:(lia)).
    pose proof (Z.mod_le (total + bytes) (2 ^ 64) ltac:(lia) ltac:(lia)). lia.
  - destruct (_ <? _); [|done]. apply map_Forall_insert_2; [cbn; lia|done].
Qed.

Lemma record_all_spec_bytes m events B :
  bytes_below B m -> 0 <= B -> Forall (fun e => 0 <= e.2) events ->
  bytes_below (B + sum_bytes events) (record_all_spec m events).
Proof.
  intros Hm HB He. revert m B Hm HB. induction He as [|[k bytes] events Hb _ IH]; intros m B Hm HB; cbn in *.
  - by rewrite Z.add_0_r.
  - rewrite Z.add_assoc. apply IH; [|lia]. by apply record_spec_bytes.
Qed.

Lemma count_flow_bytes m pkts B :
  bytes_below B m -> 0 <= B -> Forall (fun p => 0 <= pkt_captured_length p) pkts ->
  bytes_below (B + sum_of pkt_captured_length pkts) (fold_left count_flow pkts m).
Proof.
  intros Hm HB He. revert m B Hm HB. induction He as [|p pkts Hb Hall IH]; intros m B Hm HB; cbn in *.
  - by rewrite Z.add_0_r.
  - rewrite Z.add_assoc. apply IH; [|lia]. unfold count_flow.
    destruct (conversation p); [by apply record_spec_bytes|]. apply (bytes_below_mono B); [lia|done].
Qed.

(** The report is always printed, also when counts are too large for exact conversion. *)
Lemma format_bytes_loop_total fuel value u :
  0 <= u <= 4 -> (Z.to_nat (4 - u) < fuel)%nat ->
  exists value' u', format_bytes_loop fuel value u = Done (value', u') /\ 0 <= u' <= 4.
Proof.
  revert value u. induction fuel as [|fuel IH]; intros value u Hu Hf; [lia|]. cbn [format_bytes_loop].
  destruct (b64_ge value 1024); cbn [andb]; [|by eauto]. change (5 - 1) with 4.
  destruct (Z.ltb_spec u 4); [apply IH; lia|by eauto].
Qed.

Lemma ns_format_bytes_total bytes buf_len : exists s, ns_format_bytes bytes buf_len = Done s.
Proof.
  unfold ns_format_bytes. destruct (format_bytes_loop_total 5 (b64_of_Z bytes) 0) as (value & u & -> & Hu); [lia|cbn; lia|].
  mred. unfold slot_get. destruct (lookup_lt_is_Some_2 units (Z.to_nat u)) as [name ->]; [cbn; lia|].
  destruct (Z.leb_spec 0 u); [|lia]. mred. by eauto.
Qed.

Lemma ns_stats_print_total `{Qsort} s d : exists text, ns_stats_print s d = Done text.
Proof.
  unfold ns_stats_print. destruct (ns_format_bytes_total (total_captured_bytes s) 32) as [c ->].
  destruct (ns_format_bytes_total (total_wire_bytes s) 32) as [w ->]. mred. destruct (_ =? 0); [by eauto|].
  assert (Hc : forall l i, exists t, print_conversations i l = Done t).
  { induction l as [|f l IH]; intros i; cbn [print_conversations]; [by eauto|]. unfold print_conversation.
    destruct (ns_format_bytes_total (flow_bytes f) 32) as [b ->]. mred. destruct (IH (i + 1)) as [t ->]. mred. by eauto. }
  set (l := take 10 _). clearbody l. destruct (Hc l 0) as [t ->]. mred. by eauto.
Qed.

Definition sample_conversation (port : Z) : endpoints :=
  Endpoints NS_PROTO_UDP (txt "10.0.0.2") port (txt "10.0.0.1") 53.

(** Two conversations, the second with more bytes. *)
Definition sample_report (t : flow_table) : ns_stats_t := Stats 3 2108 2108 3 0 0 0 3 0 0 0 0 0 t.
Definition sample_events : list (endpoints * Z) :=
  [(sample_conversation 1111, 60); (sample_conversation 2222, 1024); (sample_conversation 2222, 1024)].

Lemma stats_report_exact_witness :
  exists t, record_all empty_table sample_events = Done t /\
  exists lines sorted,
    @ns_stats_print merge_qsort (sample_report t) (b64_of_Z 2)
    = Done (report_head (sample_report t) (b64_of_Z 2) lines ++ report_tail sorted) /\
    Forall2 (fun '(name, count) => protocol_line name count 3) (protocol_counts (sample_report t)) lines /\
    Permutation ((fun f => (flow_key f, flow_value f)) <$> sorted) (map_to_list (table_map t)) /\
    StronglySorted (fun f g => flow_bytes g <= flow_bytes f) sorted.
Proof.
  destruct empty_table_ok as [Hok Hm].
  destruct (record_all_refines empty_table sample_events Hok) as (t & Hr & Ht & Hmap); [by repeat constructor|].
  exists t. split; [exact Hr|].
  assert (Hc : map_Forall (fun _ v => exact_count (snd v)) (table_map t)).
  { rewrite Hmap, Hm. eapply map_Forall_impl; [apply (record_all_spec_bytes _ _ 0)|].
    - apply map_Forall_empty.
    - done.
    - by repeat constructor.
    - intros k v [? Hv]. change (0 + sum_bytes sample_events) with 2108 in Hv. split; [done|]. cbn. lia. }
  clear Hr Hmap. unfold sample_report.
  apply (@stats_report_exact merge_qsort merge_qsort_laws (Stats 3 2108 2108 3 0 0 0 3 0 0 0 0 0 t) (b64_of_Z 2));
    [exact Ht|by repeat split|by split|by split|exact Hc].
Defined.

(** The heaviest conversation comes first. *)
Example sample_report_text :
  wp (t ← record_all empty_table sample_events; @ns_stats_print merge_qsort (sample_report t) (b64_of_Z 2))
    (fun text => drop (length text - 147) text = text_lines [
       txt "1. 10.0.0.1:53 <-> 10.0.0.2:2222"; txt "   UDP"; txt "   packets: 2"; txt "   traffic: 2.00 KB"; [];
       txt "2. 10.0.0.1:53 <-> 10.0.0.2:1111"; txt "   UDP"; txt "   packets: 1"; txt "   traffic: 60 B"; []]).
Proof. by vm_compute. Qed.
