(* ===== verification/Output.v ===== *)
(** * Packet output: [src/output.c]

    The text line, the verbose block and the JSON line of a packet.  A print function is the
    bytes it hands to the stream: the sources ignore the results of their writes.  Local buffers
    are modelled where their contents depend on more than one call; otherwise [sn] is the
    string [snprintf] leaves in a buffer of the given size. *)

From S2P Require Import Prelude CMem Util Ipv6Text HexDump Proto Link Network Transport DnsName Dns Packet.
From S2P Require Import Stats Json Config Clock.

Record ns_output_options_t := OutputOptions {
  opt_color : bool;
  opt_verbose : bool;
  opt_quiet : bool;
  opt_hex : bool;
  opt_format : ns_output_format_t
}.

(** [isatty] is the environment's answer for the stream. *)
Definition ns_output_should_use_color (no_color_flag isatty : bool) : bool :=
  if no_color_flag then false else isatty.

Definition top_protocol (pkt : ns_packet_t) : ns_proto_t :=
  if pkt_has_dns pkt then NS_PROTO_DNS
  else if negb (bool_decide (pkt_transport_proto pkt = NS_PROTO_UNKNOWN)) then pkt_transport_proto pkt
  else pkt_network_proto pkt.

(** [ESC [ n m] *)
Definition ansi (n : string) : list byte := [x1b] ++ txt "[" ++ txt n ++ txt "m".

Definition NS_COLOR_TCP := ansi "36".
Definition NS_COLOR_UDP := ansi "32".
Definition NS_COLOR_ICMP := ansi "33".
Definition NS_COLOR_DNS := ansi "35".
Definition NS_COLOR_ARP := ansi "36".
Definition NS_COLOR_ERROR := ansi "31".
Definition NS_COLOR_RESET := ansi "0".

Definition protocol_color (proto : ns_proto_t) : list byte :=
  match proto with
  | NS_PROTO_TCP => NS_COLOR_TCP
  | NS_PROTO_UDP => NS_COLOR_UDP
  | NS_PROTO_ICMP | NS_PROTO_ICMPV6 => NS_COLOR_ICMP
  | NS_PROTO_DNS => NS_COLOR_DNS
  | NS_PROTO_ARP => NS_COLOR_ARP
  | _ => []
  end.

(** The string left in a [buf_len]-byte buffer. *)
Definition format_timestamp `{LocalTime} (ts : ns_timestamp_t) (buf_len : Z) : M (list byte) :=
  tm_buf ← use_init (localtime_r (ts_seconds ts));
  let ms := Z.quot (ts_microseconds ts) 1000 in
  '(buf, pos) ← buf_strftime (uninit_buf buf_len) buf_len (strftime_HMS tm_buf);
  '(buf, _) ← buf_snprintf buf pos (szsub buf_len pos) (txt "." ++ fmt_0d 3 ms);
  cstring buf.

Definition format_network_addrs (pkt : ns_packet_t) (src_len dst_len : Z) : M (list byte * list byte) :=
  match pkt_network_proto pkt with
  | NS_PROTO_IPV4 =>
      ipv4 ← net_ipv4 (pkt_net pkt);
      src ← ns_format_ipv4 (ipv4_source ipv4) src_len;
      dst ← ns_format_ipv4 (ipv4_destination ipv4) dst_len;
      Done (src, dst)
  | NS_PROTO_IPV6 =>
      ipv6 ← net_ipv6 (pkt_net pkt);
      src ← ns_format_ipv6 (ipv6_source ipv6) src_len;
      dst ← ns_format_ipv6 (ipv6_destination ipv6) dst_len;
      Done (src, dst)
  | _ => Done (sn src_len (txt "?"), sn dst_len (txt "?"))
  end.

Definition print_arp_line (pkt : ns_packet_t) (color reset : list byte) : M (list byte) :=
  arp ← net_arp (pkt_net pkt);
  sender ← ns_format_ipv4 (arp_sender_ip arp) 16;
  target ← ns_format_ipv4 (arp_target_ip arp) 16;
  sender_mac ← ns_format_mac (arp_sender_mac arp) 18;
  Done (color ++ txt "ARP" ++ reset ++ txt "   " ++
        (if arp_operation arp =? NS_ARP_OP_REQUEST then
           sender ++ txt " -> " ++ target ++ txt "   Who has " ++ target ++ txt "?"
         else if arp_operation arp =? NS_ARP_OP_REPLY then
           sender ++ txt " is at " ++ sender_mac
         else sender ++ txt " -> " ++ target ++ txt "   operation=" ++ fmt_u (arp_operation arp)) ++ [x0a]).

(** [proto_name], [src_ep], [dst_ep] and [extra] as the [switch] of [print_text_line] sets them *)
Definition endpoint_texts (pkt : ns_packet_t) (src dst : list byte)
    : M (list byte * list byte * list byte * list byte) :=
  match pkt_transport_proto pkt with
  | NS_PROTO_TCP =>
      tcp ← transport_tcp (pkt_transport pkt);
      flags ← ns_tcp_flags_to_string (tcp_flags tcp) (uninit_buf 32) 32;
      flags ← cstring flags;
      Done (txt "TCP", sn 64 (src ++ txt ":" ++ fmt_u (tcp_source_port tcp)),
            sn 64 (dst ++ txt ":" ++ fmt_u (tcp_destination_port tcp)), sn 128 (txt "[" ++ flags ++ txt "]"))
  | NS_PROTO_UDP =>
      udp ← transport_udp (pkt_transport pkt);
      Done (txt "UDP", sn 64 (src ++ txt ":" ++ fmt_u (udp_source_port udp)),
            sn 64 (dst ++ txt ":" ++ fmt_u (udp_destination_port udp)),
            if pkt_has_dns pkt then sn 128 (txt "DNS") else [])
  | NS_PROTO_ICMP =>
      icmp ← transport_icmp (pkt_transport pkt);
      Done (txt "ICMP", sn 64 src, sn 64 dst,
            if (icmp_type icmp =? NS_ICMP_TYPE_ECHO_REQUEST) || (icmp_type icmp =? NS_ICMP_TYPE_ECHO_REPLY)
            then sn 128 (ns_icmp_type_name (icmp_type icmp) ++ txt " id=" ++ fmt_u (icmp_identifier icmp) ++
                         txt " seq=" ++ fmt_u (icmp_sequence icmp))
            else sn 128 (ns_icmp_type_name (icmp_type icmp)))
  | NS_PROTO_ICMPV6 =>
      icmpv6 ← transport_icmpv6 (pkt_transport pkt);
      Done (txt "ICMPv6", sn 64 src, sn 64 dst, sn 128 (ns_icmpv6_type_name (icmpv6_type icmpv6)))
  | _ => Done (ns_proto_name (pkt_network_proto pkt), sn 64 src, sn 64 dst, [])
  end.

(** The line about the first answer or question. *)
Definition print_dns_line (pkt : ns_packet_t) : M (list byte) :=
  let dns := pkt_dns pkt in
  if negb (pkt_has_dns pkt) then Done []
  else if dns_is_response dns && (dns_decoded_answer_count dns >? 0) then
    a ← slot_get (dns_answers dns) 0;
    name ← cstring (record_name a); rdata_text ← cstring (record_rdata_text a);
    Done (txt "    Response: " ++ name ++ txt " " ++ ns_dns_type_name (record_type a) 16 ++ txt " " ++
          rdata_text ++ [x0a])
  else if negb (dns_is_response dns) && (dns_decoded_question_count dns >? 0) then
    q ← slot_get (dns_questions dns) 0;
    name ← cstring (question_name q);
    Done (txt "    Query: " ++ name ++ txt " " ++ ns_dns_type_name (question_type q) 16 ++ [x0a])
  else Done [].

Definition print_text_line `{LocalTime} (pkt : ns_packet_t) (opts : ns_output_options_t) : M (list byte) :=
  let color := if opt_color opts then protocol_color (top_protocol pkt) else [] in
  let reset := if opt_color opts then NS_COLOR_RESET else [] in
  if pkt_malformed pkt then
    let err_color := if opt_color opts then NS_COLOR_ERROR else [] in
    ts ← format_timestamp (pkt_timestamp pkt) 16;
    Done (txt "[" ++ ts ++ txt "] " ++ err_color ++ txt "MALFORMED" ++ reset ++ txt " " ++
          default (txt "unknown reason") (pkt_malformed_reason pkt) ++
          txt " (" ++ fmt_u (pkt_captured_length pkt) ++ txt " bytes captured)" ++ [x0a])
  else if bool_decide (pkt_network_proto pkt = NS_PROTO_ARP) then
    ts ← format_timestamp (pkt_timestamp pkt) 16;
    line ← print_arp_line pkt color reset;
    Done (txt "[" ++ ts ++ txt "] " ++ line)
  else
    ts ← format_timestamp (pkt_timestamp pkt) 16;
    '(src, dst) ← format_network_addrs pkt 46 46;
    '(proto_name, src_ep, dst_ep, extra) ← endpoint_texts pkt src dst;
    dns_line ← print_dns_line pkt;
    Done (txt "[" ++ ts ++ txt "] " ++ color ++ pad_right x20 6 proto_name ++ reset ++ txt " " ++ src_ep ++
          txt " -> " ++ dst_ep ++ txt "   " ++ extra ++ txt " " ++ fmt_u (pkt_captured_length pkt) ++ txt " B" ++
          [x0a] ++ dns_line).

(** ** The verbose block *)

Definition line (parts : list (list byte)) : list byte := concat parts ++ [x0a].

Definition verbose_ethernet (pkt : ns_packet_t) : M (list byte) :=
  if negb (pkt_has_eth pkt) then Done []
  else
    let eth := pkt_eth pkt in
    dst_mac ← ns_format_mac (eth_destination eth) 18;
    src_mac ← ns_format_mac (eth_source eth) 18;
    Done (line [txt "Ethernet"] ++ line [txt "  Source:      "; src_mac] ++
          line [txt "  Destination: "; dst_mac] ++ line [txt "  Type:        0x"; fmt_0x 4 (eth_ethertype eth)] ++
          (if eth_has_vlan eth then line [txt "  VLAN:        "; fmt_u (eth_vlan_id eth)] else []) ++ [x0a]).

Definition verbose_network (pkt : ns_packet_t) : M (list byte) :=
  match pkt_network_proto pkt with
  | NS_PROTO_IPV4 =>
      ipv4 ← net_ipv4 (pkt_net pkt);
      src ← ns_format_ipv4 (ipv4_source ipv4) 16;
      dst ← ns_format_ipv4 (ipv4_destination ipv4) 16;
      Done (line [txt "IPv4"] ++ line [txt "  Source:      "; src] ++ line [txt "  Destination: "; dst] ++
            line [txt "  TTL:         "; fmt_u (ipv4_ttl ipv4)] ++
            line [txt "  Protocol:    "; fmt_u (ipv4_protocol ipv4)] ++ [x0a])
  | NS_PROTO_IPV6 =>
      ipv6 ← net_ipv6 (pkt_net pkt);
      src ← ns_format_ipv6 (ipv6_source ipv6) 46;
      dst ← ns_format_ipv6 (ipv6_destination ipv6) 46;
      Done (line [txt "IPv6"] ++ line [txt "  Source:      "; src] ++ line [txt "  Destination: "; dst] ++
            line [txt "  Hop limit:   "; fmt_u (ipv6_hop_limit ipv6)] ++
            line [txt "  Next header: "; fmt_u (ipv6_next_header ipv6)] ++ [x0a])
  | _ => Done []
  end.

Definition verbose_transport (pkt : ns_packet_t) : M (list byte) :=
  match pkt_transport_proto pkt with
  | NS_PROTO_TCP =>
      tcp ← transport_tcp (pkt_transport pkt);
      flags ← ns_tcp_flags_to_string (tcp_flags tcp) (uninit_buf 32) 32;
      flags ← cstring flags;
      Done (line [txt "TCP"] ++ line [txt "  Source port:      "; fmt_u (tcp_source_port tcp)] ++
            line [txt "  Destination port: "; fmt_u (tcp_destination_port tcp)] ++
            line [txt "  Sequence:         "; fmt_u (tcp_sequence_number tcp)] ++
            line [txt "  Ack:              "; fmt_u (tcp_ack_number tcp)] ++
            line [txt "  Flags:            "; flags] ++
            line [txt "  Window:           "; fmt_u (tcp_window_size tcp)] ++ [x0a])
  | NS_PROTO_UDP =>
      udp ← transport_udp (pkt_transport pkt);
      Done (line [txt "UDP"] ++ line [txt "  Source port:      "; fmt_u (udp_source_port udp)] ++
            line [txt "  Destination port: "; fmt_u (udp_destination_port udp)] ++
            line [txt "  Length:           "; fmt_u (udp_length udp)] ++ [x0a])
  | _ => Done []
  end.

Definition print_verbose_block `{LocalTime} (pkt : ns_packet_t) : M (list byte) :=
  ts ← format_timestamp (pkt_timestamp pkt) 16;
  eth ← verbose_ethernet pkt;
  net ← verbose_network pkt;
  transport ← verbose_transport pkt;
  Done ([x0a] ++ line [txt "Packet #"; fmt_u (pkt_number pkt)] ++
        line [txt "Timestamp: "; ts; txt "."; fmt_0d 6 (Z.rem (ts_microseconds (pkt_timestamp pkt)) 1000000)] ++
        line [txt "Captured length: "; fmt_u (pkt_captured_length pkt); txt " bytes"] ++ [x0a] ++
        eth ++ net ++ transport ++
        line [txt "Payload: "; fmt_u (pkt_payload_length pkt); txt " bytes"]).

(** ** The JSON line *)

(** The [switch] on one character. *)
Definition json_escape_char (c : byte) : list byte :=
  if bv c =? 34 then [x5c; x22]
  else if bv c =? 92 then [x5c; x5c]
  else if bv c =? 10 then [x5c; x6e]
  else if bv c =? 13 then [x5c; x72]
  else if bv c =? 9 then [x5c; x74]
  else if (bv c <? 0x20) || (bv c >=? 0x7f) then [x5c; x75] ++ fmt_0x 4 (bv c)
  else [c].

Fixpoint json_escape_loop (s : list byte) : list byte :=
  match s with
  | [] => []
  | c :: s => json_escape_char c ++ json_escape_loop s
  end.

Definition json_write_escaped (s : list byte) : list byte := [x22] ++ json_escape_loop s ++ [x22].

(** A member name with its quotes and colon, as the format strings spell it. *)
Definition key (k : string) : list byte := [x22] ++ txt k ++ [x22; x3a].

Definition json_timestamp (ts : ns_timestamp_t) : M (list byte) :=
  tm_buf ← use_init (gmtime_r (ts_seconds ts));
  '(buf, pos) ← buf_strftime (uninit_buf 32) 32 (strftime_iso tm_buf);
  '(buf, _) ← buf_snprintf buf pos (szsub 32 pos) (txt "." ++ fmt_0d 3 (Z.quot (ts_microseconds ts) 1000) ++ txt "Z");
  cstring buf.

(** [,"port":n] for TCP and UDP *)
Definition json_port (pkt : ns_packet_t) (of_tcp : ns_tcp_info_t -> Z) (of_udp : ns_udp_info_t -> Z) : M (list byte) :=
  match pkt_transport_proto pkt with
  | NS_PROTO_TCP => tcp ← transport_tcp (pkt_transport pkt); Done (txt "," ++ key "port" ++ fmt_u (of_tcp tcp))
  | NS_PROTO_UDP => udp ← transport_udp (pkt_transport pkt); Done (txt "," ++ key "port" ++ fmt_u (of_udp udp))
  | _ => Done []
  end.

Definition json_addresses (pkt : ns_packet_t) : M (list byte) :=
  match pkt_network_proto pkt with
  | NS_PROTO_IPV4 | NS_PROTO_IPV6 =>
      '(src, dst) ← format_network_addrs pkt 46 46;
      src_port ← json_port pkt tcp_source_port udp_source_port;
      dst_port ← json_port pkt tcp_destination_port udp_destination_port;
      Done (txt "," ++ key "source" ++ txt "{" ++ key "ip" ++ json_write_escaped src ++ src_port ++ txt "}" ++
            txt "," ++ key "destination" ++ txt "{" ++ key "ip" ++ json_write_escaped dst ++ dst_port ++ txt "}")
  | _ => Done []
  end.

Fixpoint json_flags_loop (table : list (Z * list byte)) (flags : Z) (first : bool) : list byte :=
  match table with
  | [] => []
  | (bit, name) :: table =>
      if Z.land flags bit =? 0 then json_flags_loop table flags first
      else (if first then [] else txt ",") ++ json_write_escaped name ++ json_flags_loop table flags false
  end.

Definition json_tcp (pkt : ns_packet_t) : M (list byte) :=
  match pkt_transport_proto pkt with
  | NS_PROTO_TCP =>
      tcp ← transport_tcp (pkt_transport pkt);
      Done (txt "," ++ key "tcp" ++ txt "{" ++ key "flags" ++ txt "[" ++
            json_flags_loop kFlags (tcp_flags tcp) true ++ txt "]}")
  | _ => Done []
  end.

Definition json_dns (pkt : ns_packet_t) : M (list byte) :=
  if pkt_has_dns pkt && (dns_decoded_question_count (pkt_dns pkt) >? 0) then
    q ← slot_get (dns_questions (pkt_dns pkt)) 0;
    name ← cstring (question_name q);
    Done (txt "," ++ key "dns" ++ txt "{" ++ key "question" ++ json_write_escaped name ++ txt "," ++ key "type" ++
          json_write_escaped (ns_dns_type_name (question_type q) 16) ++ txt "}")
  else Done [].

Definition print_json_line (pkt : ns_packet_t) : M (list byte) :=
  ts_iso ← json_timestamp (pkt_timestamp pkt);
  addresses ← json_addresses pkt;
  tcp ← json_tcp pkt;
  dns ← json_dns pkt;
  Done (txt "{" ++ key "timestamp" ++ json_write_escaped ts_iso ++
        txt "," ++ key "captured_length" ++ fmt_u (pkt_captured_length pkt) ++
        txt "," ++ key "malformed" ++ (if pkt_malformed pkt then txt "true" else txt "false") ++
        txt "," ++ key "protocol" ++ json_write_escaped (ns_proto_name (top_protocol pkt)) ++
        addresses ++ tcp ++ dns ++ txt "}" ++ [x0a]).

(** ** A packet *)

(** [fputs] on a stream that accepts everything, given as the bytes written so far. *)
Definition stream_fputs (s out : list byte) : Z * list byte := (0, out ++ s).

Definition ns_output_packet `{LocalTime} (pkt : ns_packet_t) (opts : ns_output_options_t) (out : list byte)
    : M (list byte) :=
  match opt_format opts with
  | NS_FORMAT_JSON => s ← print_json_line pkt; Done (out ++ s)
  | NS_FORMAT_TEXT =>
      if opt_quiet opts then Done out
      else
        s ← print_text_line pkt opts;
        let out := out ++ s in
        out ← (if opt_verbose opts then s ← print_verbose_block pkt; Done (out ++ s) else Done out);
        if opt_hex opts
        then ns_hex_dump_file stream_fputs (pkt_raw_data pkt) (pkt_captured_length pkt) out
        else Done out
  end.

Definition sample_output (format : ns_output_format_t) : M (list byte) :=
  p ← ns_packet_parse sample_frame 71 71 (Timestamp 1700000000 123456) 7 NS_LINK_ETHERNET;
  @ns_output_packet utc p (OutputOptions false true false true format) [].
