(* ===== verification/OutputText.v ===== *)
(** * What [src/output.c] prints as text

    For the packets the parser produces, every local buffer of the print functions is large
    enough: the text is the one the buffers would hold if they had no size, and nothing is read
    that was not written. *)

From S2P Require Import Prelude CMem Util Ipv6Text HexDump Proto Link Network Transport DnsName Dns Packet.
From S2P Require Import Stats Config Clock Output.

(** ** What the printers rely on *)

Definition u16 (z : Z) : Prop := 0 <= z < 65536.

Definition eth_printable (e : ns_eth_info_t) : Prop :=
  length (eth_destination e) = 6%nat /\ length (eth_source e) = 6%nat.
Definition arp_printable (a : ns_arp_info_t) : Prop := length (arp_sender_mac a) = 6%nat.
Definition tcp_printable (t : ns_tcp_info_t) : Prop :=
  u16 (tcp_source_port t) /\ u16 (tcp_destination_port t) /\ 0 <= tcp_flags t < 256.
Definition udp_printable (u : ns_udp_info_t) : Prop := u16 (udp_source_port u) /\ u16 (udp_destination_port u).
Definition icmp_printable (i : ns_icmp_info_t) : Prop := u16 (icmp_identifier i) /\ u16 (icmp_sequence i).

(** The first question and the first answer, when they are counted, hold terminated strings. *)
Definition dns_printable (d : ns_dns_info_t) : Prop :=
  (0 < dns_decoded_question_count d ->
     exists q name, slot_get (dns_questions d) 0 = Done q /\ cstring (question_name q) = Done name) /\
  (0 < dns_decoded_answer_count d ->
     exists a name text, slot_get (dns_answers d) 0 = Done a /\ cstring (record_name a) = Done name /\
       cstring (record_rdata_text a) = Done text).

Definition printable (p : ns_packet_t) : Prop :=
  packet_shape p /\
  (pkt_has_eth p = true -> eth_printable (pkt_eth p)) /\
  (pkt_network_proto p = NS_PROTO_ARP -> forall a, pkt_net p = NetArp a -> arp_printable a) /\
  (pkt_transport_proto p = NS_PROTO_TCP -> forall t, pkt_transport p = TransportTcp t -> tcp_printable t) /\
  (pkt_transport_proto p = NS_PROTO_UDP -> forall u, pkt_transport p = TransportUdp u -> udp_printable u) /\
  (pkt_transport_proto p = NS_PROTO_ICMP -> forall i, pkt_transport p = TransportIcmp i -> icmp_printable i) /\
  (pkt_has_dns p = true -> dns_printable (pkt_dns p)).

Lemma slice_length {A} (l : list A) off n :
  0 <= off -> 0 <= n -> off + n <= zlen l -> length (slice l off n) = Z.to_nat n.
Proof. intros. pose proof (zlen_slice l off n). unfold zlen in *. lia. Qed.

Lemma eth_spec_printable bs e off : eth_spec zero_eth bs = (NS_PARSE_OK, e, Some off) -> eth_printable e.
Proof.
  unfold eth_spec. destruct (Z.leb_spec 14 (zlen bs)); [|done]. cbn [negb].
  destruct (negb _); [|destruct (negb _); [done|]]; intros [= <- _];
    split; cbn [eth_destination eth_source]; rewrite slice_length; done || lia.
Qed.

Lemma arp_spec_printable bs a : arp_spec zero_arp bs = (NS_PARSE_OK, a) -> arp_printable a.
Proof.
  unfold arp_spec. destruct (negb _); [done|]. destruct (negb _); [done|]. destruct (Z.leb_spec 28 (zlen bs)); [|done].
  cbn [negb]. intros [= <-]. unfold arp_printable. cbn [arp_sender_mac]. rewrite slice_length; done || lia.
Qed.

Lemma tcp_spec_printable bs t h : tcp_spec zero_tcp bs = (NS_PARSE_OK, t, Some h) -> tcp_printable t.
Proof.
  unfold tcp_spec. do 3 (destruct (_ <? _); [done|]). intros [= <- _].
  unfold tcp_printable, tcp_fields, u16. cbn [tcp_source_port tcp_destination_port tcp_flags].
  pose proof (u16_at_range bs 0). pose proof (u16_at_range bs 2). pose proof (u8_at_range bs 13). done.
Qed.

Lemma udp_spec_printable bs u : udp_spec zero_udp bs = (NS_PARSE_OK, u) -> udp_printable u.
Proof.
  unfold udp_spec. do 2 (destruct (_ <? _); [done|]). intros [= <-]. unfold udp_printable, u16. cbn.
  pose proof (u16_at_range bs 0). pose proof (u16_at_range bs 2). done.
Qed.

Lemma icmp_spec_printable bs i : icmp_spec zero_icmp bs = (NS_PARSE_OK, i) -> icmp_printable i.
Proof.
  unfold icmp_spec, echo_spec. destruct (_ <? _); [done|]. unfold icmp_printable, u16.
  destruct (negb _); [by intros [= <-]|]. destruct (_ <? _); [done|]. intros [= <-]. cbn.
  pose proof (u16_at_range bs 4). pose proof (u16_at_range bs 6). done.
Qed.

(** The first of the slots in use. *)
Lemma filled_slots_first {A S} (shows : A -> S -> Prop) ok cap n slots items :
  filled_slots shows ok cap n slots items -> 0 < n -> exists i s, slot_get slots 0 = Done s /\ shows i s.
Proof.
  intros (-> & _ & _ & Hf) Hn. rewrite Nat2Z.id in Hf.
  destruct (length items `min` cap)%nat as [|k] eqn:Ek; [lia|]. destruct slots as [|s slots].
  - apply Forall2_length in Hf. rewrite length_take in Hf. cbn in Hf. lia.
  - cbn [take] in Hf. inversion Hf; subst. eexists _, s. split; [done|eassumption].
Qed.

Lemma dns_info_printable bs d qs rs : dns_info_ok bs d qs rs -> dns_printable d.
Proof.
  intros (_ & Hq & Ha). split; intros Hn.
  - destruct (filled_slots_first _ _ _ _ _ _ Hq Hn) as ([[[labels ty] cl] o] & q & Hg & (_ & Hh & _)).
    exists q, (until_nul (name_text labels)). split; [done|by apply cstring_holds].
  - destruct (filled_slots_first _ _ _ _ _ _ Ha Hn) as ([[[[[labels ty] cl] ttl] rl] o] & a & Hg & Hs).
    destruct Hs as (_ & Hh & _ & _ & _ & _ & _ & text & _ & Ht).
    exists a, (until_nul (name_text labels)), (until_nul text). split; [done|].
    split; by apply cstring_holds.
Qed.

Lemma sound_printable bs p : packet_sound bs p -> printable p.
Proof.
  intros Hs. split; [by eapply sound_shape|]. destruct Hs as (_ & _ & He & Hn & Ht & Hd).
  assert (Hup : forall q, pkt_transport_proto p = q -> q <> NS_PROTO_UNKNOWN ->
    exists at_ proto, transport_layer bs p at_ proto).
  { intros q Eq Hq. destruct Ht as (? & at_ & proto & _ & _ & _ & Hl); [congruence|]. eauto. }
  split; [intros E; destruct (He E) as [off [_ Hl]]; by eapply eth_spec_printable|].
  split.
  { intros E a Ea. destruct Hn as (off & _ & Hl); [by rewrite E|]. unfold network_layer in Hl. rewrite E in Hl.
    destruct Hl as (_ & a' & Ea' & Hsp). rewrite Ea in Ea'. injection Ea' as <-. by eapply arp_spec_printable. }
  split; [|split; [|split]]; intros E;
    [..|by destruct (Hd E) as (_ & o & qs & rs & _ & _ & Hi); eapply dns_info_printable].
  all: destruct (Hup _ E) as (at_ & proto & Hl); [done|]; unfold transport_layer in Hl; rewrite E in Hl.
  - intros t Et. destruct Hl as (_ & t' & h & Et' & Hsp & _). rewrite Et in Et'. injection Et' as <-.
    by eapply tcp_spec_printable.
  - intros t Et. destruct Hl as (_ & t' & Et' & Hsp & _). rewrite Et in Et'. injection Et' as <-.
    by eapply udp_spec_printable.
  - intros t Et. destruct Hl as (_ & t' & Et' & Hsp & _). rewrite Et in Et'. injection Et' as <-.
    by eapply icmp_spec_printable.
Qed.

(** ** Characters and lengths of formatted fields *)

Lemma fmt_0d_facts w n :
  0 <= n < 10 ^ Z.of_nat w -> (0 < w)%nat -> zlen (fmt_0d w n) = Z.of_nat w /\ plain (fmt_0d w n).
Proof.
  intros Hn Hw. unfold fmt_0d, pad_left. destruct (Z.ltb_spec n 0); [lia|].
  pose proof (digits_zlen 10 n w ltac:(lia) ltac:(lia) Hw) as Hz. split.
  - rewrite zlen_app. unfold zlen in *. rewrite length_replicate. lia.
  - apply plain_app; [|apply plain_digits; lia]. apply Forall_replicate. change (bv x30) with 48. lia.
Qed.

Lemma strftime_HMS_facts b : tm_ok b -> zlen (strftime_HMS b) = 8 /\ plain (strftime_HMS b).
Proof.
  intros (Hh & Hm & Hs & _). unfold strftime_HMS.
  destruct (fmt_0d_facts 2 (tm_hour b)) as [? ?]; [lia..|]. destruct (fmt_0d_facts 2 (tm_min b)) as [? ?]; [lia..|].
  destruct (fmt_0d_facts 2 (tm_sec b)) as [? ?]; [lia..|]. rewrite !zlen_app.
  change (zlen (txt ":")) with 1. split; [lia|]. plain_text.
Qed.

(** [strftime] and then [snprintf] behind it, both fitting. *)
Lemma strftime_then_snprintf n s t :
  plain s -> plain t -> zlen s + zlen t < n -> n < 2 ^ 63 ->
  ('(buf, pos) ← buf_strftime (uninit_buf n) n s;
   '(buf, _) ← buf_snprintf buf pos (szsub n pos) t;
   cstring buf) = Done (s ++ t).
Proof.
  intros Hs Ht Hn Hb. pose proof (zlen_nonneg s). pose proof (zlen_nonneg t). unfold buf_strftime.
  destruct (Z.ltb_spec (zlen s) n); [|lia].
  assert (Hu : zlen (uninit_buf n) = n) by (unfold uninit_buf, zlen; rewrite length_replicate; lia).
  pose proof (buf_copy_append [] (s ++ [x00]) (uninit_buf n)) as E. cbn [fmap list_fmap app] in E.
  change (zlen (@nil byte)) with 0 in E. rewrite E by (rewrite zlen_app, Hu; change (zlen [x00]) with 1; lia). mred.
  rewrite fmap_app, <- app_assoc, szsub_small by lia. rewrite buf_snprintf_append.
  - mred. rewrite cstring_prefix, until_nul_no_nul; [done|]. by apply plain_no_nul, plain_app.
  - lia.
  - rewrite zlen_app, zlen_drop, Hu. rewrite length_app. unfold zlen in *. cbn. lia.
Qed.

(** ** Timestamps *)

Definition ts_ok (ts : ns_timestamp_t) : Prop := time_range (ts_seconds ts) /\ 0 <= ts_microseconds ts < 1000000.

Definition clock_text `{LocalTime} (ts : ns_timestamp_t) : list byte :=
  match localtime_r (ts_seconds ts) with
  | Some b => strftime_HMS b ++ txt "." ++ fmt_0d 3 (ts_microseconds ts / 1000)
  | None => []
  end.

Lemma millis us : 0 <= us < 1000000 -> Z.quot us 1000 = us / 1000 /\ 0 <= us / 1000 < 10 ^ 3.
Proof.
  intros Hu. rewrite Z.quot_div_nonneg by lia. split; [done|]. split; [apply Z.div_pos; lia|].
  apply Z.div_lt_upper_bound; lia.
Qed.

Lemma format_timestamp_spec `{LocalTimeLaws} ts : ts_ok ts -> format_timestamp ts 16 = Done (clock_text ts).
Proof.
  intros [Hr Hu]. unfold format_timestamp, clock_text. destruct (localtime_ok _ Hr) as (b & -> & Hb).
  cbn [use_init]. mred. destruct (millis _ Hu) as [-> Hms]. destruct (strftime_HMS_facts b Hb) as [Hz Hp].
  destruct (fmt_0d_facts 3 (ts_microseconds ts / 1000)) as [Hz3 Hp3]; [done|lia|].
  apply strftime_then_snprintf; [done|plain_text| |done].
  rewrite zlen_app. change (zlen (txt ".")) with 1. lia.
Qed.

(** ** The texts, without buffers *)

Definition addr_texts (p : ns_packet_t) : list byte * list byte :=
  match pkt_network_proto p, pkt_net p with
  | NS_PROTO_IPV4, NetIpv4 i => (ipv4_text (to_le 4 (ipv4_source i)), ipv4_text (to_le 4 (ipv4_destination i)))
  | NS_PROTO_IPV6, NetIpv6 i => (ipv6_text (ipv6_source i), ipv6_text (ipv6_destination i))
  | _, _ => (txt "?", txt "?")
  end.

Definition with_port (addr : list byte) (port : Z) : list byte := addr ++ txt ":" ++ fmt_u port.

Definition icmp_text (i : ns_icmp_info_t) : list byte :=
  ns_icmp_type_name (icmp_type i) ++
  (if is_icmp_echo (icmp_type i)
   then txt " id=" ++ fmt_u (icmp_identifier i) ++ txt " seq=" ++ fmt_u (icmp_sequence i) else []).

(** Protocol name, endpoints and details of a packet between [src] and [dst]. *)
Definition endpoints_line (p : ns_packet_t) (src dst : list byte)
    : list byte * list byte * list byte * list byte :=
  match pkt_transport_proto p, pkt_transport p with
  | NS_PROTO_TCP, TransportTcp t =>
      (txt "TCP", with_port src (tcp_source_port t), with_port dst (tcp_destination_port t),
       txt "[" ++ flags_text (tcp_flags t) ++ txt "]")
  | NS_PROTO_UDP, TransportUdp u =>
      (txt "UDP", with_port src (udp_source_port u), with_port dst (udp_destination_port u),
       if pkt_has_dns p then txt "DNS" else [])
  | NS_PROTO_ICMP, TransportIcmp i => (txt "ICMP", src, dst, icmp_text i)
  | NS_PROTO_ICMPV6, TransportIcmpv6 i => (txt "ICMPv6", src, dst, ns_icmpv6_type_name (icmpv6_type i))
  | _, _ => (ns_proto_name (pkt_network_proto p), src, dst, [])
  end.

(** The string of a buffer that holds one. *)
Definition string_in (buf : cbuf) : list byte := match cstring buf with Done s => s | Fault _ => [] end.

Definition dns_line (p : ns_packet_t) : list byte :=
  let d := pkt_dns p in
  match pkt_has_dns p, dns_is_response d, dns_questions d, dns_answers d with
  | true, true, _, a :: _ =>
      if 0 <? dns_decoded_answer_count d
      then line [txt "    Response: "; string_in (record_name a); txt " "; ns_dns_type_name (record_type a) 16;
                 txt " "; string_in (record_rdata_text a)]
      else []
  | true, false, q :: _, _ =>
      if 0 <? dns_decoded_question_count d
      then line [txt "    Query: "; string_in (question_name q); txt " "; ns_dns_type_name (question_type q) 16]
      else []
  | _, _, _, _ => []
  end.

Definition arp_line (a : ns_arp_info_t) : list byte :=
  let sender := ipv4_text (to_le 4 (arp_sender_ip a)) in
  let target := ipv4_text (to_le 4 (arp_target_ip a)) in
  if arp_operation a =? 1 then sender ++ txt " -> " ++ target ++ txt "   Who has " ++ target ++ txt "?"
  else if arp_operation a =? 2 then sender ++ txt " is at " ++ mac_text (arp_sender_mac a)
  else sender ++ txt " -> " ++ target ++ txt "   operation=" ++ fmt_u (arp_operation a).

Definition arp_of (p : ns_packet_t) : option ns_arp_info_t :=
  match pkt_network_proto p, pkt_net p with
  | NS_PROTO_ARP, NetArp a => Some a
  | _, _ => None
  end.

Definition text_line `{LocalTime} (p : ns_packet_t) (opts : ns_output_options_t) : list byte :=
  let paint c s := if opt_color opts then c ++ s ++ NS_COLOR_RESET else s in
  let color := protocol_color (top_protocol p) in
  txt "[" ++ clock_text (pkt_timestamp p) ++ txt "] " ++
  if pkt_malformed p then
    line [paint NS_COLOR_ERROR (txt "MALFORMED"); txt " "; default (txt "unknown reason") (pkt_malformed_reason p);
          txt " ("; fmt_u (pkt_captured_length p); txt " bytes captured)"]
  else match arp_of p with
       | Some a => line [paint color (txt "ARP"); txt "   "; arp_line a]
       | None =>
           let '(src, dst) := addr_texts p in
           let '(name, src_ep, dst_ep, extra) := endpoints_line p src dst in
           line [paint color (pad_right x20 6 name); txt " "; src_ep; txt " -> "; dst_ep; txt "   "; extra; txt " ";
                 fmt_u (pkt_captured_length p); txt " B"] ++ dns_line p
       end.

(** ** The buffers are large enough *)

Lemma ns_format_ipv4_fits z n : 16 <= n -> ns_format_ipv4 z n = Done (ipv4_text (to_le 4 z)).
Proof.
  intros Hn. assert (Hl : length (to_le 4 z) = 4%nat) by apply length_to_le.
  pose proof (zlen_ipv4_text _ Hl). pose proof (ns_format_ipv4_eq (to_le 4 z) n Hl) as E.
  pose proof (to_le_le (to_le 4 z)) as E2. rewrite Hl in E2. unfold ns_format_ipv4 in *.
  rewrite E2, sn_fits in E by lia. exact E.
Qed.

Lemma ns_format_mac_fits bs : length bs = 6%nat -> ns_format_mac bs 18 = Done (mac_text bs).
Proof.
  intros Hl. pose proof (zlen_mac_text bs Hl). by rewrite ns_format_mac_eq, sn_fits by (done || lia).
Qed.

Lemma ns_format_ipv6_fits bs n : length bs = 16%nat -> 41 <= n -> ns_format_ipv6 bs n = Done (ipv6_text bs).
Proof. intros Hl Hn. destruct (ipv6_text_facts bs Hl) as (_ & Hz & ->). by rewrite sn_fits by lia. Qed.

Lemma format_network_addrs_spec p :
  packet_shape p -> format_network_addrs p 46 46 = Done (addr_texts p) /\
  zlen (addr_texts p).1 <= 40 /\ zlen (addr_texts p).2 <= 40.
Proof.
  intros [Hn _]. unfold format_network_addrs, addr_texts.
  assert (H4 : forall z, zlen (ipv4_text (to_le 4 z)) <= 15) by (intros; apply zlen_ipv4_text, length_to_le).
  destruct (pkt_network_proto p); try done.
  - destruct Hn as [i ->]. cbn [net_ipv4]. mred. rewrite !ns_format_ipv4_fits by lia. mred. split; [done|]. cbn [fst snd].
    pose proof (H4 (ipv4_source i)). pose proof (H4 (ipv4_destination i)). lia.
  - destruct Hn as (i & -> & H1 & H2). cbn [net_ipv6]. mred. rewrite !ns_format_ipv6_fits by (done || lia). mred.
    split; [done|]. cbn [fst snd]. split; by apply ipv6_text_facts.
Qed.

Lemma with_port_fits addr port : zlen addr <= 40 -> u16 port -> sn 64 (addr ++ txt ":" ++ fmt_u port) = with_port addr port.
Proof.
  intros Ha [? ?]. rewrite sn_fits; [done|]. unfold fmt_u. rewrite !zlen_app. change (zlen (txt ":")) with 1.
  pose proof (digits_zlen 10 port 5). lia.
Qed.

Lemma flags_string flags :
  0 <= flags < 256 ->
  (f ← ns_tcp_flags_to_string flags (uninit_buf 32) 32; cstring f) = Done (flags_text flags) /\
  zlen (flags_text flags) <= 31.
Proof.
  intros Hf. pose proof (ns_tcp_flags_to_string_spec flags (uninit_buf 32) 32 Hf) as H.
  specialize (H ltac:(done) ltac:(done)). apply wp_done in H as (f & -> & Hh). mred.
  rewrite (cstring_holds _ _ Hh), until_nul_no_nul by (by apply flags_text_facts). split; [done|].
  assert (Hin : In flags (seqZ 0 256)) by (apply list_elem_of_In, elem_of_seqZ; lia).
  clear - Hin. revert flags Hin. apply (proj1 (Forall_forall _ _)). apply (bool_decide_unpack _). by vm_compute.
Qed.

Lemma icmp_text_fits i :
  icmp_printable i ->
  (if (icmp_type i =? NS_ICMP_TYPE_ECHO_REQUEST) || (icmp_type i =? NS_ICMP_TYPE_ECHO_REPLY)
   then sn 128 (ns_icmp_type_name (icmp_type i) ++ txt " id=" ++ fmt_u (icmp_identifier i) ++
                txt " seq=" ++ fmt_u (icmp_sequence i))
   else sn 128 (ns_icmp_type_name (icmp_type i))) = icmp_text i.
Proof.
  intros [H1 H2]. unfold icmp_text, is_icmp_echo, NS_ICMP_TYPE_ECHO_REQUEST, NS_ICMP_TYPE_ECHO_REPLY, u16 in *.
  assert (Hn : zlen (ns_icmp_type_name (icmp_type i)) <= 30).
  { unfold ns_icmp_type_name. repeat (destruct (_ =? _); [done|]). done. }
  destruct (_ || _); rewrite sn_fits, ?app_nil_r; try done; [|lia]. rewrite !zlen_app. unfold fmt_u.
  pose proof (digits_zlen 10 (icmp_identifier i) 5). pose proof (digits_zlen 10 (icmp_sequence i) 5).
  change (zlen (txt " id=")) with 4. change (zlen (txt " seq=")) with 5. lia.
Qed.

Lemma endpoint_texts_spec p src dst :
  printable p -> zlen src <= 40 -> zlen dst <= 40 ->
  endpoint_texts p src dst = Done (endpoints_line p src dst).
Proof.
  intros ([_ Ht] & _ & _ & Htcp & Hudp & Hicmp & _) Hs Hd. unfold endpoint_texts, endpoints_line.
  destruct (pkt_transport_proto p); try done; try (by rewrite !sn_fits by lia).
  - destruct Ht as [t Et]. destruct (Htcp eq_refl t Et) as (H1 & H2 & H3). rewrite Et. cbn [transport_tcp]. mred.
    destruct (flags_string _ H3) as [Hf Hz]. destruct (ns_tcp_flags_to_string _ _ _) as [f|]; [|done].
    cbn [mbind M_bind] in *. rewrite Hf. mred. rewrite (with_port_fits src), (with_port_fits dst), sn_fits; try done.
    rewrite !zlen_app. change (zlen (txt "[")) with 1. change (zlen (txt "]")) with 1. lia.
  - destruct Ht as [u Eu]. destruct (Hudp eq_refl u Eu) as [H1 H2]. rewrite Eu. cbn [transport_udp]. mred.
    rewrite (with_port_fits src), (with_port_fits dst) by done. by destruct (pkt_has_dns p).
  - destruct Ht as [i Ei]. rewrite Ei. cbn [transport_icmp]. mred. rewrite icmp_text_fits by (by apply (Hicmp eq_refl)).
    by rewrite !sn_fits by lia.
  - destruct Ht as [i Ei]. rewrite Ei. cbn [transport_icmpv6]. mred. rewrite !sn_fits; [done| |lia..].
    unfold ns_icmpv6_type_name. repeat (destruct (_ =? _); [done|]). done.
Qed.

Lemma slot_get_first {A} (l : list A) a : slot_get l 0 = Done a -> exists l', l = a :: l'.
Proof. unfold slot_get. destruct l as [|x l]; [done|]. cbn. intros [= <-]. by exists l. Qed.

Lemma print_dns_line_spec p : printable p -> print_dns_line p = Done (dns_line p).
Proof.
  intros (_ & _ & _ & _ & _ & _ & Hd). unfold print_dns_line, dns_line, line.
  destruct (pkt_has_dns p); [|done]. destruct (Hd eq_refl) as [Hq Ha]. cbn [negb]. rewrite !Z.gtb_ltb.
  destruct (dns_is_response (pkt_dns p)); cbn [andb negb].
  - destruct (Z.ltb_spec 0 (dns_decoded_answer_count (pkt_dns p))) as [H|H]; [|by destruct (dns_answers _)].
    destruct (Ha H) as (a & name & text & Hg & Hn & Ht). rewrite Hg. destruct (slot_get_first _ _ Hg) as [l ->].
    unfold string_in. mred. rewrite Hn, Ht. mred. cbn [concat]. by rewrite <- !app_assoc, app_nil_l.
  - destruct (Z.ltb_spec 0 (dns_decoded_question_count (pkt_dns p))) as [H|H]; [|by destruct (dns_questions _)].
    destruct (Hq H) as (q & name & Hg & Hn). rewrite Hg. destruct (slot_get_first _ _ Hg) as [l ->].
    unfold string_in. mred. rewrite Hn. mred. cbn [concat]. by rewrite <- !app_assoc, app_nil_l.
Qed.

Lemma print_arp_line_spec p a color reset :
  pkt_net p = NetArp a -> arp_printable a ->
  print_arp_line p color reset = Done (color ++ txt "ARP" ++ reset ++ txt "   " ++ arp_line a ++ [x0a]).
Proof.
  intros E Ha. unfold print_arp_line, arp_line. rewrite E. cbn [net_arp]. mred.
  rewrite !ns_format_ipv4_fits, ns_format_mac_fits by (done || lia). mred.
  unfold NS_ARP_OP_REQUEST, NS_ARP_OP_REPLY. by destruct (arp_operation a =? 1), (arp_operation a =? 2).
Qed.

Lemma print_text_line_spec `{LocalTimeLaws} p opts :
  printable p -> ts_ok (pkt_timestamp p) -> print_text_line p opts = Done (text_line p opts).
Proof.
  intros Hp Hts. pose proof Hp as (Hshape & _ & Harp & _). unfold print_text_line, text_line, line.
  rewrite !(format_timestamp_spec _ Hts). destruct (pkt_malformed p); mred.
  { f_equal. do 3 f_equal. cbn [concat]. destruct (opt_color opts); by rewrite <- ?app_assoc, ?app_nil_r. }
  destruct (format_network_addrs_spec p Hshape) as (Ea & Hs & Hd). pose proof Hshape as [Hn _].
  case_bool_decide as Earp.
  - rewrite Earp in Hn. destruct Hn as (_ & a & Ea'). unfold arp_of. rewrite Earp, Ea'.
    rewrite (print_arp_line_spec p a) by (done || by apply Harp). mred. do 3 f_equal. cbn [concat].
    destruct (opt_color opts); by rewrite <- ?app_assoc, ?app_nil_r.
  - rewrite Ea. mred. destruct (addr_texts p) as [src dst]. cbn [fst snd] in *.
    rewrite endpoint_texts_spec by done. mred. destruct (endpoints_line p src dst) as [[[name src_ep] dst_ep] extra].
    rewrite print_dns_line_spec by done. mred. unfold arp_of.
    replace (match pkt_network_proto p with NS_PROTO_ARP => _ | _ => None end) with (@None ns_arp_info_t)
      by (by destruct (pkt_network_proto p)).
    do 3 f_equal. cbn [concat]. destruct (opt_color opts); by rewrite <- ?app_assoc, ?app_nil_r.
Qed.

(** ** The verbose block *)

Definition ethernet_block (e : ns_eth_info_t) : list byte :=
  text_lines ([txt "Ethernet"; txt "  Source:      " ++ mac_text (eth_source e);
               txt "  Destination: " ++ mac_text (eth_destination e);
               txt "  Type:        0x" ++ fmt_0x 4 (eth_ethertype e)] ++
              (if eth_has_vlan e then [txt "  VLAN:        " ++ fmt_u (eth_vlan_id e)] else []) ++ [[]]).

Definition network_block (p : ns_packet_t) : list byte :=
  let block name ttl proto :=
    text_lines ([name; txt "  Source:      " ++ (addr_texts p).1; txt "  Destination: " ++ (addr_texts p).2;
                 ttl; proto; []]) in
  match pkt_network_proto p, pkt_net p with
  | NS_PROTO_IPV4, NetIpv4 i =>
      block (txt "IPv4") (txt "  TTL:         " ++ fmt_u (ipv4_ttl i)) (txt "  Protocol:    " ++ fmt_u (ipv4_protocol i))
  | NS_PROTO_IPV6, NetIpv6 i =>
      block (txt "IPv6") (txt "  Hop limit:   " ++ fmt_u (ipv6_hop_limit i))
        (txt "  Next header: " ++ fmt_u (ipv6_next_header i))
  | _, _ => []
  end.

Definition transport_block (p : ns_packet_t) : list byte :=
  match pkt_transport_proto p, pkt_transport p with
  | NS_PROTO_TCP, TransportTcp t =>
      text_lines [txt "TCP"; txt "  Source port:      " ++ fmt_u (tcp_source_port t);
                  txt "  Destination port: " ++ fmt_u (tcp_destination_port t);
                  txt "  Sequence:         " ++ fmt_u (tcp_sequence_number t);
                  txt "  Ack:              " ++ fmt_u (tcp_ack_number t);
                  txt "  Flags:            " ++ flags_text (tcp_flags t);
                  txt "  Window:           " ++ fmt_u (tcp_window_size t); []]
  | NS_PROTO_UDP, TransportUdp u =>
      text_lines [txt "UDP"; txt "  Source port:      " ++ fmt_u (udp_source_port u);
                  txt "  Destination port: " ++ fmt_u (udp_destination_port u);
                  txt "  Length:           " ++ fmt_u (udp_length u); []]
  | _, _ => []
  end.

(** The fraction of the second is printed twice: in milliseconds and again in microseconds. *)
Definition verbose_block `{LocalTime} (p : ns_packet_t) : list byte :=
  text_lines [[]; txt "Packet #" ++ fmt_u (pkt_number p);
              txt "Timestamp: " ++ clock_text (pkt_timestamp p) ++ txt "." ++
                fmt_0d 6 (ts_microseconds (pkt_timestamp p));
              txt "Captured length: " ++ fmt_u (pkt_captured_length p) ++ txt " bytes"; []] ++
  (if pkt_has_eth p then ethernet_block (pkt_eth p) else []) ++ network_block p ++ transport_block p ++
  text_lines [txt "Payload: " ++ fmt_u (pkt_payload_length p) ++ txt " bytes"].

Ltac text_eq := unfold text_lines, line; cbn [fmap list_fmap concat app]; rewrite <- ?app_assoc, ?app_nil_r; cbn [app]; done.

Lemma verbose_ethernet_spec p :
  printable p -> verbose_ethernet p = Done (if pkt_has_eth p then ethernet_block (pkt_eth p) else []).
Proof.
  intros (_ & He & _). unfold verbose_ethernet, ethernet_block. destruct (pkt_has_eth p); [|done].
  destruct (He eq_refl) as [H1 H2]. cbn [negb]. rewrite !ns_format_mac_fits by done. mred. f_equal.
  destruct (eth_has_vlan (pkt_eth p)); text_eq.
Qed.

Lemma verbose_network_spec p : printable p -> verbose_network p = Done (network_block p).
Proof.
  intros ([Hn _] & _). unfold verbose_network, network_block, addr_texts. destruct (pkt_network_proto p); try done.
  - destruct Hn as [i ->]. cbn [net_ipv4]. mred. rewrite !ns_format_ipv4_fits by lia. mred. f_equal. text_eq.
  - destruct Hn as (i & -> & H1 & H2). cbn [net_ipv6]. mred. rewrite !ns_format_ipv6_fits by (done || lia). mred.
    f_equal. text_eq.
Qed.

Lemma verbose_transport_spec p : printable p -> verbose_transport p = Done (transport_block p).
Proof.
  intros ([_ Ht] & _ & _ & Htcp & _). unfold verbose_transport, transport_block.
  destruct (pkt_transport_proto p); try done.
  - destruct Ht as [t Et]. destruct (Htcp eq_refl t Et) as (_ & _ & H3). rewrite Et. cbn [transport_tcp]. mred.
    destruct (flags_string _ H3) as [Hf _]. destruct (ns_tcp_flags_to_string _ _ _) as [f|]; [|done].
    cbn [mbind M_bind] in *. rewrite Hf. mred. f_equal. text_eq.
  - destruct Ht as [u Eu]. rewrite Eu. cbn [transport_udp]. mred. f_equal. text_eq.
Qed.

Lemma print_verbose_block_spec `{LocalTimeLaws} p :
  printable p -> ts_ok (pkt_timestamp p) -> print_verbose_block p = Done (verbose_block p).
Proof.
  intros Hp Hts. unfold print_verbose_block, verbose_block. rewrite (format_timestamp_spec _ Hts). mred.
  rewrite verbose_ethernet_spec, verbose_network_spec, verbose_transport_spec by done. mred.
  rewrite Z.rem_mod_nonneg, Z.mod_small by (destruct Hts; lia). f_equal. text_eq.
Qed.
