(* ===== verification/OutputJson.v ===== *)
(** * What [src/output.c] prints as JSON, and the output of a packet

    The JSON line of a packet is the canonical text of a document ([Json]) with the fields of
    the packet, so the reference reader reads the document back from it. *)

From S2P Require Import Prelude CMem Util Ipv6Text HexDump Proto Link Network Transport DnsName Dns Packet.
From S2P Require Import Stats Json Config Clock Output OutputText.

(** ** The document of a packet *)

(** Bytes as code points. *)
Definition cps (s : list byte) : list Z := bv <$> s.
Definition str (s : string) : list Z := cps (txt s).

Definition iso_text (ts : ns_timestamp_t) : list byte :=
  match gmtime_r (ts_seconds ts) with
  | Some b => strftime_iso b ++ txt "." ++ fmt_0d 3 (ts_microseconds ts / 1000) ++ txt "Z"
  | None => []
  end.

Definition ports (p : ns_packet_t) : option (Z * Z) :=
  match pkt_transport_proto p, pkt_transport p with
  | NS_PROTO_TCP, TransportTcp t => Some (tcp_source_port t, tcp_destination_port t)
  | NS_PROTO_UDP, TransportUdp u => Some (udp_source_port u, udp_destination_port u)
  | _, _ => None
  end.

Definition endpoint_doc (addr : list byte) (port : option Z) : json :=
  JObj ((str "ip", JStr (cps addr)) :: match port with Some n => [(str "port", JNum n)] | None => [] end).

Definition addresses_doc (p : ns_packet_t) : list (list Z * json) :=
  match pkt_network_proto p with
  | NS_PROTO_IPV4 | NS_PROTO_IPV6 =>
      [(str "source", endpoint_doc (addr_texts p).1 (fst <$> ports p));
       (str "destination", endpoint_doc (addr_texts p).2 (snd <$> ports p))]
  | _ => []
  end.

Definition tcp_doc (p : ns_packet_t) : list (list Z * json) :=
  match pkt_transport_proto p, pkt_transport p with
  | NS_PROTO_TCP, TransportTcp t =>
      [(str "tcp", JObj [(str "flags", JArr ((fun n => JStr (cps n)) <$> flag_names kFlags (tcp_flags t)))])]
  | _, _ => []
  end.

Definition dns_doc (p : ns_packet_t) : list (list Z * json) :=
  match dns_questions (pkt_dns p) with
  | q :: _ =>
      if pkt_has_dns p && (0 <? dns_decoded_question_count (pkt_dns p))
      then [(str "dns", JObj [(str "question", JStr (cps (string_in (question_name q))));
                              (str "type", JStr (cps (ns_dns_type_name (question_type q) 16)))])]
      else []
  | [] => []
  end.

Definition packet_doc (p : ns_packet_t) : json :=
  JObj ((str "timestamp", JStr (cps (iso_text (pkt_timestamp p)))) ::
        [(str "captured_length", JNum (pkt_captured_length p)); (str "malformed", JBool (pkt_malformed p));
         (str "protocol", JStr (cps (ns_proto_name (top_protocol p))))] ++
        addresses_doc p ++ tcp_doc p ++ dns_doc p).

(** ** The code prints canonical text *)

Lemma json_escape_char_eq c : json_escape_char c = escape (bv c).
Proof. unfold json_escape_char, escape. by rewrite zb_bv. Qed.

Lemma json_write_escaped_eq s : json_write_escaped s = quote (cps s).
Proof.
  unfold json_write_escaped, quote. do 2 f_equal.
  induction s as [|c s IH]; [done|]. cbn [json_escape_loop cps fmap list_fmap concat].
  by rewrite json_escape_char_eq, IH.
Qed.

(** Members after the first one, each behind a comma. *)
Definition more (ms : list (list Z * json)) : list byte := concat ((fun m => [x2c] ++ member_text m) <$> ms).

Lemma more_app ms ms' : more (ms ++ ms') = more ms ++ more ms'.
Proof. unfold more. by rewrite fmap_app, concat_app. Qed.

Lemma join_members m ms : join [x2c] (member_text <$> m :: ms) = member_text m ++ more ms.
Proof.
  unfold more. revert m. induction ms as [|m' ms IH]; intros m; [by rewrite app_nil_r|].
  change (member_text <$> m :: m' :: ms) with (member_text m :: (member_text <$> m' :: ms)).
  rewrite join_cons, IH by done. done.
Qed.

Lemma write_obj m ms : write_json (JObj (m :: ms)) = [x7b] ++ member_text m ++ more ms ++ [x7d].
Proof.
  cbn [write_json]. change (fun m0 => quote m0.1 ++ [x3a] ++ write_json m0.2) with member_text.
  by rewrite join_members, <- app_assoc.
Qed.

(** A member of the document, as the format strings spell it. *)
Ltac spell := unfold more, member_text; cbn [fmap list_fmap concat fst snd write_json join];
  rewrite ?json_write_escaped_eq, <- ?app_assoc, ?app_nil_r; reflexivity.

Lemma endpoint_doc_eq addr port :
  write_json (endpoint_doc addr port)
  = txt "{" ++ key "ip" ++ json_write_escaped addr ++
    match port with Some n => txt "," ++ key "port" ++ fmt_u n | None => [] end ++ txt "}".
Proof. unfold endpoint_doc. rewrite write_obj. destruct port; spell. Qed.

Lemma json_port_spec p of_tcp of_udp :
  printable p ->
  json_port p of_tcp of_udp
  = Done (match pkt_transport_proto p, pkt_transport p with
          | NS_PROTO_TCP, TransportTcp t => txt "," ++ key "port" ++ fmt_u (of_tcp t)
          | NS_PROTO_UDP, TransportUdp u => txt "," ++ key "port" ++ fmt_u (of_udp u)
          | _, _ => []
          end).
Proof.
  intros ([_ Ht] & _). unfold json_port. destruct (pkt_transport_proto p); try done; by destruct Ht as [t ->].
Qed.

Lemma json_addresses_spec p : printable p -> json_addresses p = Done (more (addresses_doc p)).
Proof.
  intros Hp. pose proof Hp as (Hs & _). destruct (format_network_addrs_spec p Hs) as [Ea _].
  pose proof Hs as [_ Ht]. unfold json_addresses, addresses_doc.
  assert (Hmain : ('(src, dst) ← format_network_addrs p 46 46;
      src_port ← json_port p tcp_source_port udp_source_port;
      dst_port ← json_port p tcp_destination_port udp_destination_port;
      Done (txt "," ++ key "source" ++ txt "{" ++ key "ip" ++ json_write_escaped src ++ src_port ++ txt "}" ++
            txt "," ++ key "destination" ++ txt "{" ++ key "ip" ++ json_write_escaped dst ++ dst_port ++ txt "}"))
    = Done (more [(str "source", endpoint_doc (addr_texts p).1 (fst <$> ports p));
                  (str "destination", endpoint_doc (addr_texts p).2 (snd <$> ports p))])).
  { rewrite Ea. mred. destruct (addr_texts p) as [src dst]. rewrite !json_port_spec by done. mred. cbn [fst snd]. f_equal.
    unfold more, member_text. cbn [fmap list_fmap concat fst snd]. rewrite !endpoint_doc_eq. unfold ports.
    destruct (pkt_transport_proto p); try (destruct Ht as [t ->]); cbn [fmap option_fmap option_map fst snd];
      rewrite <- ?app_assoc, ?app_nil_r; reflexivity. }
  by destruct (pkt_network_proto p).
Qed.

Lemma json_flags_loop_eq table flags first :
  json_flags_loop table flags first
  = (if first then [] else match flag_names table flags with [] => [] | _ => txt "," end) ++
    join [x2c] (write_json <$> ((fun n => JStr (cps n)) <$> flag_names table flags)).
Proof.
  revert first. induction table as [|[bit name] table IH]; intros first; [by destruct first|].
  cbn [json_flags_loop]. unfold flag_names in *. destruct (Z.eqb_spec (Z.land flags bit) 0) as [E|E].
  - rewrite filter_cons_False by (intros H; by apply H). apply IH.
  - rewrite filter_cons_True by done. rewrite !fmap_cons, IH, json_write_escaped_eq. cbn [snd write_json].
    set (names := snd <$> _). destruct first; cbn [app]; destruct names as [|n names]; cbn [fmap list_fmap join app];
      rewrite ?app_nil_r; reflexivity.
Qed.

Lemma json_tcp_spec p : printable p -> json_tcp p = Done (more (tcp_doc p)).
Proof.
  intros ([_ Ht] & _). unfold json_tcp, tcp_doc. destruct (pkt_transport_proto p); try done.
  destruct Ht as [t ->]. cbn [transport_tcp]. mred. rewrite json_flags_loop_eq. f_equal. spell.
Qed.

Lemma json_dns_spec p : printable p -> json_dns p = Done (more (dns_doc p)).
Proof.
  intros (_ & _ & _ & _ & _ & _ & Hd). unfold json_dns, dns_doc. rewrite Z.gtb_ltb.
  destruct (pkt_has_dns p); cbn [andb]; [|by destruct (dns_questions _)]. destruct (Hd eq_refl) as [Hq _].
  destruct (Z.ltb_spec 0 (dns_decoded_question_count (pkt_dns p))) as [H|H]; [|by destruct (dns_questions _)].
  destruct (Hq H) as (q & name & Hg & Hn). rewrite Hg. destruct (slot_get_first _ _ Hg) as [l ->].
  unfold string_in. mred. rewrite Hn. mred. f_equal. spell.
Qed.

Lemma strftime_iso_facts t b :
  gmtime_r t = Some b -> time_range t -> zlen (strftime_iso b) <= 25 /\ plain (strftime_iso b).
Proof.
  intros Hb Ht. destruct (gmtime_ok t Ht) as (b' & Hb' & Hok & Hy). rewrite Hb in Hb'. injection Hb' as <-.
  destruct (strftime_HMS_facts b Hok) as [Hz Hp]. destruct Hok as (_ & _ & _ & Hd & Hm). unfold strftime_iso.
  destruct (fmt_0d_facts 2 (tm_mon b + 1)) as [? ?]; [lia..|]. destruct (fmt_0d_facts 2 (tm_mday b)) as [? ?]; [lia..|].
  unfold fmt_d. destruct (Z.ltb_spec (tm_year b + 1900) 0); [lia|].
  pose proof (digits_zlen 10 (tm_year b + 1900) 10 ltac:(lia) ltac:(lia) ltac:(lia)). rewrite !zlen_app.
  change (zlen (txt "-")) with 1. change (zlen (txt "T")) with 1. split; [lia|].
  plain_text.
Qed.

Lemma json_timestamp_spec ts : ts_ok ts -> json_timestamp ts = Done (iso_text ts).
Proof.
  intros [Hr Hu]. unfold json_timestamp, iso_text. destruct (gmtime_ok _ Hr) as (b & Hb & _). rewrite Hb.
  cbn [use_init]. mred. destruct (strftime_iso_facts _ b Hb Hr) as [Hz Hp]. destruct (millis _ Hu) as [-> Hms].
  destruct (fmt_0d_facts 3 (ts_microseconds ts / 1000)) as [Hz3 Hp3]; [done|lia|].
  apply strftime_then_snprintf; [done|plain_text| |done].
  rewrite !zlen_app. change (zlen (txt ".")) with 1. change (zlen (txt "Z")) with 1. lia.
Qed.

Lemma print_json_line_spec p :
  printable p -> ts_ok (pkt_timestamp p) -> print_json_line p = Done (write_json (packet_doc p) ++ [x0a]).
Proof.
  intros Hp Hts. unfold print_json_line, packet_doc. rewrite json_timestamp_spec by done. mred.
  rewrite json_addresses_spec, json_tcp_spec, json_dns_spec by done. mred. f_equal.
  rewrite write_obj, !more_app. generalize (more (addresses_doc p)) (more (tcp_doc p)) (more (dns_doc p)).
  intros A T D. destruct (pkt_malformed p); spell.
Qed.

Lemma cps_ok s : Forall code_point (cps s).
Proof. apply Forall_fmap, Forall_true. intros b. apply bv_range. Qed.

Lemma members_ok ms ms' :
  foldr (fun m P => Forall code_point (fst m) /\ json_ok (snd m) /\ P) True (ms ++ ms') <->
  foldr (fun m P => Forall code_point (fst m) /\ json_ok (snd m) /\ P) True ms /\
  foldr (fun m P => Forall code_point (fst m) /\ json_ok (snd m) /\ P) True ms'.
Proof. induction ms as [|m ms IH]; cbn [app foldr]; [tauto|]. rewrite IH. tauto. Qed.

Lemma ports_ok p : printable p -> forall a b, ports p = Some (a, b) -> 0 <= a /\ 0 <= b.
Proof.
  intros (_ & _ & _ & Htcp & Hudp & _) a b. unfold ports.
  destruct (pkt_transport_proto p); try done; destruct (pkt_transport p) as [|t|u| |] eqn:E; try done.
  - destruct (Htcp eq_refl t eq_refl) as ([? _] & [? _] & _). intros [= <- <-]. done.
  - destruct (Hudp eq_refl u eq_refl) as ([? _] & [? _]). intros [= <- <-]. done.
Qed.

Lemma packet_doc_ok p : printable p -> 0 <= pkt_captured_length p -> json_ok (packet_doc p).
Proof.
  intros Hp Hc. pose proof (ports_ok p Hp) as Hports. cbn [packet_doc json_ok foldr app fst snd].
  repeat (split; [first [apply cps_ok | done]|]). rewrite !members_ok. split; [|split].
  - assert (He : forall a o, (forall n, o = Some n -> 0 <= n) -> json_ok (endpoint_doc a o)).
    { intros a o Ho. cbn [endpoint_doc json_ok foldr fst snd]. do 2 (split; [apply cps_ok|]).
      destruct o as [n|]; [|done]. cbn [foldr fst snd json_ok]. split; [apply cps_ok|]. split; [by apply Ho|done]. }
    unfold addresses_doc. destruct (pkt_network_proto p); try done; cbn [foldr fst snd];
      (split; [apply cps_ok|]; split; [apply He|split; [apply cps_ok|split; [apply He|done]]]);
      intros n; destruct (ports p) as [[sp dp]|]; cbn; try done; intros [= <-]; by destruct (Hports sp dp eq_refl).
  - unfold tcp_doc. destruct (pkt_transport_proto p); try done. destruct (pkt_transport p) as [|t| | |]; try done.
    cbn [foldr fst snd json_ok]. split; [apply cps_ok|]. split; [|done]. split; [apply cps_ok|]. split; [|done].
    induction (flag_names kFlags (tcp_flags t)); [done|]. cbn. split; [apply cps_ok|done].
  - unfold dns_doc. destruct (dns_questions _); [done|]. destruct (_ && _); [|done]. cbn [foldr fst snd json_ok].
    split; [apply cps_ok|]. split; [|done]. repeat (split; [apply cps_ok|]). done.
Qed.

(** ** The output of a packet *)

(** What is written for a packet in each mode. *)
Definition packet_output `{LocalTime} (p : ns_packet_t) (opts : ns_output_options_t) : list byte :=
  match opt_format opts with
  | NS_FORMAT_JSON => write_json (packet_doc p) ++ [x0a]
  | NS_FORMAT_TEXT =>
      if opt_quiet opts then []
      else text_line p opts ++ (if opt_verbose opts then verbose_block p else []) ++
           (if opt_hex opts then concat (hex_dump_rows (view (pkt_raw_data p) (pkt_captured_length p))) else [])
  end.

Lemma write_all_stream rows out :
  write_all (ns_hex_dump_file_write stream_fputs) rows out = (true, out ++ concat rows).
Proof.
  revert out. induction rows as [|row rows IH]; intros out; cbn [write_all concat]; [by rewrite app_nil_r|].
  unfold ns_hex_dump_file_write, stream_fputs in *. cbn [Z.geb Z.compare]. by rewrite IH, app_assoc.
Qed.

Lemma ns_output_packet_spec `{LocalTimeLaws} p opts out :
  printable p -> ts_ok (pkt_timestamp p) -> view_ok (pkt_raw_data p) (pkt_captured_length p) ->
  pkt_captured_length p <= 2 ^ 63 ->
  ns_output_packet p opts out = Done (out ++ packet_output p opts).
Proof.
  intros Hp Hts Hv Hb. unfold ns_output_packet, packet_output. destruct (opt_format opts); cycle 1.
  { by rewrite print_json_line_spec. }
  destruct (opt_quiet opts); [by rewrite app_nil_r|]. rewrite print_text_line_spec by done. mred.
  assert (Hhex : forall o, ns_hex_dump_file stream_fputs (pkt_raw_data p) (pkt_captured_length p) o
    = Done (o ++ concat (hex_dump_rows (view (pkt_raw_data p) (pkt_captured_length p))))).
  { intros o. unfold ns_hex_dump_file. rewrite ns_hex_dump_rows, write_all_stream by done. done. }
  destruct (opt_verbose opts); [rewrite print_verbose_block_spec by done|]; mred;
    (destruct (opt_hex opts); [rewrite Hhex|]); by rewrite ?app_nil_r, <- ?app_assoc.
Qed.

(** What the parser guarantees about a packet it is about to be printed. *)
Lemma parsed_printable data captured original ts number link :
  view_ok data captured ->
  wp (ns_packet_parse data captured original ts number link) (fun p =>
    printable p /\ pkt_timestamp p = ts /\ pkt_captured_length p = captured /\ pkt_raw_data p = data).
Proof.
  intros Hv. eapply wp_mono; [by apply ns_packet_parse_ok|]. intros p [Hm [Hs _]].
  split; [by eapply sound_printable|]. unfold lower_meta in Hm. by simplify_eq.
Qed.

(** ** Properties *)

(** C11. The JSON line is always valid JSON: for every captured frame, whatever bytes its names
    contain, and every timestamp in range, printing the parsed packet as JSON returns without a
    fault one line of printable ASCII, and the reference reader reads from it the document with
    the packet's fields (time, length, protocol, addresses and ports, TCP flags, DNS question). *)
Theorem json_line_valid (data : list byte) (captured original : Z) (ts : ns_timestamp_t)
    (number : Z) (link : ns_link_type_t) :
  view_ok data captured -> ts_ok ts ->
  wp (p ← ns_packet_parse data captured original ts number link; s ← print_json_line p; Done (p, s))
     (fun '(p, s) => exists text, s = text ++ [x0a] /\ plain text /\ read_json text = Some (packet_doc p)).
Proof.
  intros Hv Hts. apply wp_bind. eapply wp_mono; [by apply parsed_printable|].
  intros p (Hp & Et & Ec & _). rewrite print_json_line_spec by (rewrite ?Et; done). mred. cbn [wp].
  assert (Hok : json_ok (packet_doc p)) by (apply packet_doc_ok; [done|]; rewrite Ec; by destruct Hv as [[? _] _]).
  exists (write_json (packet_doc p)). split; [done|]. split; [by apply plain_write_json|by apply read_json_write].
Qed.

Lemma json_line_valid_witness :
  view_ok sample_frame 71 /\ ts_ok (Timestamp 1700000000 123456) /\
  wp (p ← ns_packet_parse sample_frame 71 71 (Timestamp 1700000000 123456) 1 NS_LINK_ETHERNET;
      s ← print_json_line p; Done (p, s))
     (fun '(p, s) => exists text, s = text ++ [x0a] /\ plain text /\ read_json text = Some (packet_doc p)).
Proof.
  split; [done|]. split; [done|].
  apply (json_line_valid sample_frame 71 71 (Timestamp 1700000000 123456) 1 NS_LINK_ETHERNET); done.
Defined.

(** The packet options whose effect is documented: [--quiet], [--verbose] and [--hex] are not
    combined with JSON, which ignores them. *)
Definition json_alone (opts : ns_output_options_t) : Prop :=
  opt_format opts = NS_FORMAT_JSON ->
  opt_quiet opts = false /\ opt_verbose opts = false /\ opt_hex opts = false.

(** C10. The output of a packet is exact: for every captured frame, any time zone and every
    timestamp in range, and all options but [--quiet], [--verbose] or [--hex] together with
    JSON (see [json_ignores_quiet]), [ns_output_packet] returns without a fault and appends to
    the stream exactly the JSON line; or, for text, nothing in quiet mode and otherwise the
    text line followed by the verbose block and the rows of the hex dump that were asked for;
    no address, endpoint, flag list or timestamp is cut by its buffer. *)
Theorem output_packet_exact `{LocalTimeLaws} (data : list byte) (captured original : Z) (ts : ns_timestamp_t)
    (number : Z) (link : ns_link_type_t) (opts : ns_output_options_t) (out : list byte) :
  view_ok data captured -> captured <= 2 ^ 63 -> ts_ok ts -> json_alone opts ->
  wp (p ← ns_packet_parse data captured original ts number link; out' ← ns_output_packet p opts out; Done (p, out'))
     (fun '(p, out') => out' = out ++ packet_output p opts).
Proof.
  intros Hv Hb Hts _. apply wp_bind. eapply wp_mono; [by apply parsed_printable|].
  intros p (Hp & Et & Ec & Er). rewrite ns_output_packet_spec; [done|done|by rewrite Et|by rewrite Er, Ec|by rewrite Ec].
Qed.

Lemma output_packet_exact_witness :
  let opts := OutputOptions true true false true NS_FORMAT_TEXT in
  wp (p ← ns_packet_parse sample_frame 71 71 (Timestamp 1700000000 123456) 1 NS_LINK_ETHERNET;
      out' ← @ns_output_packet utc p opts (txt "before"); Done (p, out'))
     (fun '(p, out') => out' = txt "before" ++ @packet_output utc p opts).
Proof.
  intros opts.
  apply (@output_packet_exact utc utc_laws sample_frame 71 71 (Timestamp 1700000000 123456) 1 NS_LINK_ETHERNET opts
    (txt "before")); done.
Defined.

(** [--quiet] does not suppress the JSON lines. *)
Example json_ignores_quiet :
  wp (p ← ns_packet_parse sample_frame 71 71 (Timestamp 1700000000 123456) 1 NS_LINK_ETHERNET;
      @ns_output_packet utc p (OutputOptions false false true false NS_FORMAT_JSON) [])
     (fun out => take 13 out = txt "{" ++ key "timestamp").
Proof. by vm_compute. Qed.
