(* ===== verification/System.v ===== *)
(** * The program and its environment

    What [src/capture.c], [src/log.c], [src/signal_handler.c] and [src/main.c] see of libpcap and
    of the operating system.  Neither is part of the repository: every call is an event in the
    trace of the run, and its answer is a parameter, a function of the trace so far (class
    [System]).  Signals arrive between two calls, when the environment says so; the handler of
    [src/signal_handler.c] then runs to its end.  This file also holds [src/log.c] and
    [src/signal_handler.c]. *)

From S2P Require Import Prelude CMem Config Packet.

(** ** Calls *)

(** Opaque pointers other than [NULL]. *)
Definition pcap_t : Type := Z.
Definition pcap_dumper_t : Type := Z.

Record pcap_pkthdr := PktHdr { hdr_tv_sec : Z; hdr_tv_usec : Z; hdr_caplen : Z; hdr_len : Z }.

Record sockaddr := SockAddr { sa_family : Z; sa_address : list byte }.

(** A device of [pcap_findalldevs]; the linked lists are lists. *)
Record pcap_if_t := PcapIf {
  dev_name : list byte;
  dev_description : option (list byte);
  dev_addresses : list (option sockaddr)
}.

Inductive stream := Stdout | Stderr | OutFile.

#[global] Instance stream_eq_decision : EqDecision stream.
Proof. solve_decision. Defined.

Inductive event :=
  | FindAllDevs (devices : list pcap_if_t + list byte)
  | FreeAllDevs (devices : list pcap_if_t)
  | Create (interface : list byte) (handle : pcap_t + list byte)
  | SetSnaplen (handle : pcap_t) (snaplen : Z)
  | SetPromisc (handle : pcap_t) (promisc : Z)
  | SetTimeout (handle : pcap_t) (timeout_ms : Z)
  | Activate (handle : pcap_t) (result : Z)
  | OpenOffline (path : list byte) (handle : pcap_t + list byte)
  | DataLink (handle : pcap_t) (dlt : Z)
  | Compile (handle : pcap_t) (filter : list byte) (result : Z)
  | SetFilter (handle : pcap_t) (result : Z)
  | FreeCode
  | GetErr (handle : pcap_t) (message : list byte)
  | DumpOpen (handle : pcap_t) (path : list byte) (dumper : option pcap_dumper_t)
  | Dump (dumper : pcap_dumper_t) (header : pcap_pkthdr) (data : list byte)
  | DumpClose (dumper : pcap_dumper_t)
  | LoopStart (handle : pcap_t)
  | LoopPacket (handle : pcap_t) (header : pcap_pkthdr) (data : list byte)
  | LoopEnd (handle : pcap_t) (result : Z)
  | BreakLoop (handle : pcap_t)
  | Close (handle : pcap_t)
  | FOpen (path : list byte) (ok : bool)
  | FClose
  | IsATty (s : stream) (answer : bool)
  | SigAction
  | ClockGetTime (now : Z * Z)
  | Signal.

(** The events so far, the newest first. *)
Definition trace : Type := list event.

(** What [pcap_loop] does next: hand a packet to the callback, or return. *)
Inductive loop_answer := Delivers (header : pcap_pkthdr) (data : list byte) | Returns (result : Z).

(** The answers.  [inr] is a failure with the message left in the error buffer. *)
Class System := {
  pcap_findalldevs : trace -> list pcap_if_t + list byte;
  pcap_create : trace -> list byte -> pcap_t + list byte;
  pcap_activate : trace -> pcap_t -> Z;
  pcap_statustostr : Z -> list byte;
  pcap_open_offline : trace -> list byte -> pcap_t + list byte;
  pcap_datalink : trace -> pcap_t -> Z;
  pcap_datalink_val_to_name : Z -> option (list byte);
  pcap_compile : trace -> pcap_t -> list byte -> Z;
  pcap_setfilter : trace -> pcap_t -> Z;
  pcap_geterr : trace -> pcap_t -> list byte;
  pcap_dump_open : trace -> pcap_t -> list byte -> option pcap_dumper_t;
  pcap_loop_next : trace -> pcap_t -> loop_answer;
  inet_ntop : Z -> list byte -> Z -> option (list byte);
  fopen_w : trace -> list byte -> bool;
  isatty : trace -> stream -> bool;
  clock_monotonic : trace -> Z * Z;
  signal_arrives : trace -> bool
}.

(** ** The state of a run *)

(** The globals of [src/log.c] and [src/signal_handler.c], whether the handlers are installed,
    what was written to the streams, and the trace. *)
Record world := World {
  g_log_level : Z;
  ns_stop_requested : Z;
  g_capture_handle : option pcap_t;
  handlers_installed : bool;
  stdout_text : list byte;
  stderr_text : list byte;
  file_text : list byte;
  events : trace
}.

Definition initial_world : world := World NS_LOG_WARN 0 None false [] [] [] [].

Definition set_events (t : trace) (w : world) : world :=
  let '(World ll sr ch hi o e f _) := w in World ll sr ch hi o e f t.
Definition set_log_level_global (level : Z) (w : world) : world :=
  let '(World _ sr ch hi o e f t) := w in World level sr ch hi o e f t.
Definition set_stop_requested (v : Z) (w : world) : world :=
  let '(World ll _ ch hi o e f t) := w in World ll v ch hi o e f t.
Definition set_capture_handle (h : option pcap_t) (w : world) : world :=
  let '(World ll sr _ hi o e f t) := w in World ll sr h hi o e f t.
Definition set_handlers (b : bool) (w : world) : world :=
  let '(World ll sr ch _ o e f t) := w in World ll sr ch b o e f t.

Definition stream_text (s : stream) (w : world) : list byte :=
  match s with Stdout => stdout_text w | Stderr => stderr_text w | OutFile => file_text w end.

Definition set_stream (s : stream) (text : list byte) (w : world) : world :=
  let '(World ll sr ch hi o e f t) := w in
  match s with
  | Stdout => World ll sr ch hi text e f t
  | Stderr => World ll sr ch hi o text f t
  | OutFile => World ll sr ch hi o e text t
  end.

Definition push (e : event) (w : world) : world := set_events (e :: events w) w.

(** ** State-passing programs *)

Definition IO (A : Type) : Type := world -> M (A * world).

#[global] Instance IO_ret : MRet IO := fun A a w => Done (a, w).
#[global] Instance IO_bind : MBind IO := fun A B k m w =>
  match m w with
  | Done (a, w') => k a w'
  | Fault f => Fault f
  end.

Definition lift {A} (m : M A) : IO A := fun w => a ← m; Done (a, w).
Definition get {A} (f : world -> A) : IO A := fun w => Done (f w, w).
Definition modify (f : world -> world) : IO unit := fun w => Done (tt, f w).

(** [fprintf(s, ...)]: the sources ignore its result. *)
Definition fprintf (s : stream) (text : list byte) : IO unit :=
  modify (fun w => set_stream s (stream_text s w ++ text) w).

(** ** Signals: [src/signal_handler.c] *)

Definition handle_signal (w : world) : world :=
  let w := set_stop_requested 1 w in
  match g_capture_handle w with
  | Some handle => push (BreakLoop handle) w
  | None => w
  end.

Definition ns_signal_set_capture_handle (handle : option pcap_t) : IO unit := modify (set_capture_handle handle).

(** A signal that arrives after the newest event runs the handler, once it is installed. *)
Definition interrupt `{System} (w : world) : world :=
  if handlers_installed w && signal_arrives (events w) then handle_signal (push Signal w) else w.

(** A call to the environment: its answer, the event, and a point where a signal may arrive. *)
Definition call `{System} {A} (answer : trace -> A) (ev : A -> event) : IO A := fun w =>
  let a := answer (events w) in Done (a, interrupt (push (ev a) w)).

(** A call without an answer. *)
Definition emit `{System} (e : event) : IO unit := call (fun _ => tt) (fun _ => e).

(** [SIGINT] and [SIGTERM]; the second [sigaction] is not told apart from the first. *)
Definition ns_install_signal_handlers `{System} : IO unit := modify (set_handlers true);; emit SigAction.

(** ** Logging: [src/log.c] *)

Definition ns_log_set_level (level : Z) : IO unit := modify (set_log_level_global level).

Definition level_name (level : Z) : list byte :=
  if level =? NS_LOG_ERROR then txt "ERROR"
  else if level =? NS_LOG_WARN then txt "WARN"
  else if level =? NS_LOG_INFO then txt "INFO"
  else if level =? NS_LOG_DEBUG then txt "DEBUG"
  else txt "?".

(** [text] is the formatted message; it is only formatted when the level is enabled. *)
Definition ns_log (level : Z) (text : M (list byte)) : IO unit :=
  enabled ← get g_log_level;
  if level >? enabled then mret tt
  else
    fprintf Stderr (txt "[" ++ level_name level ++ txt "] ");;
    s ← lift text;
    fprintf Stderr s;;
    fprintf Stderr [x0a].

Definition ns_log_debug (text : M (list byte)) : IO unit := ns_log NS_LOG_DEBUG text.
Definition ns_log_warn (text : M (list byte)) : IO unit := ns_log NS_LOG_WARN text.
