(* ===== verification/Capture.v ===== *)
(** * Capture sessions: [src/capture.c]

    A function that returns [bool] and fills [err_buf] is [None] on success and [Some message]
    on failure. *)

From S2P Require Import Prelude CMem Config Packet System.

Definition NS_CAPTURE_DEFAULT_SNAPLEN := 262144.
Definition NS_CAPTURE_TIMEOUT_MS := 1000.
Definition AF_INET := 2.
Definition AF_INET6 := 10.
Definition INET6_ADDRSTRLEN := 46.
Definition DLT_EN10MB := 1.

Record ns_capture_t := Capture {
  cap_handle : option pcap_t;
  cap_link_type : ns_link_type_t;
  cap_dumper : option pcap_dumper_t;
  cap_next_packet_number : Z
}.

(** [memset(cap, 0, sizeof( *cap))] *)
Definition zero_capture : ns_capture_t := Capture None NS_LINK_UNKNOWN None 0.

(** ** Interfaces *)

Fixpoint print_device_addresses `{System} (out : stream) (addrs : list (option sockaddr)) : IO unit :=
  match addrs with
  | [] => mret tt
  | None :: addrs => print_device_addresses out addrs
  | Some addr :: addrs =>
      (if sa_family addr =? AF_INET then
         match inet_ntop AF_INET (sa_address addr) INET6_ADDRSTRLEN with
         | Some buf => fprintf out (txt "     IPv4: " ++ buf ++ [x0a])
         | None => mret tt
         end
       else if sa_family addr =? AF_INET6 then
         match inet_ntop AF_INET6 (sa_address addr) INET6_ADDRSTRLEN with
         | Some buf => fprintf out (txt "     IPv6: " ++ buf ++ [x0a])
         | None => mret tt
         end
       else mret tt);;
      print_device_addresses out addrs
  end.

(** The [for] loop over the devices. *)
Fixpoint list_devices `{System} (out : stream) (index : Z) (devices : list pcap_if_t) : IO unit :=
  match devices with
  | [] => mret tt
  | dev :: devices =>
      fprintf out (fmt_d index ++ txt ". " ++ dev_name dev ++ [x0a]);;
      match dev_description dev with
      | Some description => fprintf out (txt "   " ++ description ++ [x0a])
      | None => mret tt
      end;;
      match dev_addresses dev with
      | [] => mret tt
      | addrs => fprintf out (txt "   addresses:" ++ [x0a]);; print_device_addresses out addrs
      end;;
      fprintf out [x0a];;
      list_devices out (index + 1) devices
  end.

Definition ns_capture_list_interfaces `{System} (out : stream) : IO (option (list byte)) :=
  found ← call pcap_findalldevs FindAllDevs;
  match found with
  | inr err => mret (Some err)
  | inl [] =>
      fprintf out (txt "No capture interfaces found." ++ [x0a]);;
      fprintf out (txt "hint: capturing usually requires elevated privileges; see README.md" ++ [x0a]);;
      mret None
  | inl devices =>
      fprintf out (txt "Available interfaces:" ++ [x0a; x0a]);;
      list_devices out 1 devices;;
      emit (FreeAllDevs devices);;
      mret None
  end.

Fixpoint find_device (name : list byte) (devices : list pcap_if_t) : bool :=
  match devices with
  | [] => false
  | dev :: devices => if strcmp (dev_name dev) name =? 0 then true else find_device name devices
  end.

Definition ns_capture_interface_exists `{System} (name : list byte) : IO bool :=
  found ← call pcap_findalldevs FindAllDevs;
  match found with
  | inr _ => mret false
  | inl devices => emit (FreeAllDevs devices);; mret (find_device name devices)
  end.

(** ** Opening *)

(** [pcap_geterr] *)
Definition geterr `{System} (handle : pcap_t) : IO (list byte) :=
  call (fun t => pcap_geterr t handle) (GetErr handle).

Definition apply_filter `{System} (handle : pcap_t) (bpf_filter : option (list byte)) (err_buf_len : Z)
    : IO (option (list byte)) :=
  match bpf_filter with
  | None | Some [] => mret None
  | Some bpf_filter =>
      compiled ← call (fun t => pcap_compile t handle bpf_filter) (Compile handle bpf_filter);
      if negb (compiled =? 0) then
        e ← geterr handle;
        mret (Some (sn err_buf_len (txt "invalid capture filter '" ++ bpf_filter ++ txt "': " ++ e)))
      else
        result ← call (fun t => pcap_setfilter t handle) (SetFilter handle);
        emit FreeCode;;
        if negb (result =? 0) then
          e ← geterr handle;
          mret (Some (sn err_buf_len (txt "failed to apply capture filter: " ++ e)))
        else mret None
  end.

(** The link type, or the message. *)
Definition resolve_link_type `{System} (handle : pcap_t) (err_buf_len : Z) : IO (ns_link_type_t + list byte) :=
  dlt ← call (fun t => pcap_datalink t handle) (DataLink handle);
  ns_log_debug (name ← deref (pcap_datalink_val_to_name dlt); Done (txt "pcap datalink: " ++ name));;
  if negb (dlt =? DLT_EN10MB) then
    mret (inr (sn err_buf_len (txt "unsupported datalink type: " ++
                               default (txt "unknown") (pcap_datalink_val_to_name dlt))))
  else mret (inl NS_LINK_ETHERNET).

Definition ns_capture_open_live `{System} (interface : list byte) (bpf_filter : option (list byte))
    (err_buf_len : Z) : IO (ns_capture_t * option (list byte)) :=
  let cap := zero_capture in
  created ← call (fun t => pcap_create t interface) (Create interface);
  match created with
  | inr errbuf =>
      mret (cap, Some (sn err_buf_len (txt "failed to open interface '" ++ interface ++ txt "': " ++ errbuf)))
  | inl handle =>
      emit (SetSnaplen handle NS_CAPTURE_DEFAULT_SNAPLEN);;
      emit (SetPromisc handle 1);;
      emit (SetTimeout handle NS_CAPTURE_TIMEOUT_MS);;
      activate_result ← call (fun t => pcap_activate t handle) (Activate handle);
      if activate_result <? 0 then
        e ← geterr handle;
        emit (Close handle);;
        mret (cap, Some (sn err_buf_len (txt "failed to activate capture on '" ++ interface ++ txt "': " ++ e)))
      else
        (if activate_result >? 0
         then ns_log_warn (Done (txt "pcap_activate warning on '" ++ interface ++ txt "': " ++
                                 pcap_statustostr activate_result))
         else mret tt);;
        link_type ← resolve_link_type handle err_buf_len;
        match link_type with
        | inr err => emit (Close handle);; mret (cap, Some err)
        | inl link_type =>
            applied ← apply_filter handle bpf_filter err_buf_len;
            match applied with
            | Some err => emit (Close handle);; mret (cap, Some err)
            | None => mret (Capture (Some handle) link_type (cap_dumper cap) (cap_next_packet_number cap), None)
            end
        end
  end.

Definition ns_capture_open_offline `{System} (path : list byte) (bpf_filter : option (list byte))
    (err_buf_len : Z) : IO (ns_capture_t * option (list byte)) :=
  let cap := zero_capture in
  opened ← call (fun t => pcap_open_offline t path) (OpenOffline path);
  match opened with
  | inr errbuf =>
      mret (cap, Some (sn err_buf_len (txt "failed to open capture file '" ++ path ++ txt "': " ++ errbuf)))
  | inl handle =>
      link_type ← resolve_link_type handle err_buf_len;
      match link_type with
      | inr err => emit (Close handle);; mret (cap, Some err)
      | inl link_type =>
          applied ← apply_filter handle bpf_filter err_buf_len;
          match applied with
          | Some err => emit (Close handle);; mret (cap, Some err)
          | None => mret (Capture (Some handle) link_type (cap_dumper cap) (cap_next_packet_number cap), None)
          end
      end
  end.

Definition ns_capture_open_dump `{System} (cap : ns_capture_t) (path : list byte) (err_buf_len : Z)
    : IO (ns_capture_t * option (list byte)) :=
  handle ← lift (deref (cap_handle cap));
  dumper ← call (fun t => pcap_dump_open t handle path) (DumpOpen handle path);
  match dumper with
  | None =>
      e ← geterr handle;
      mret (cap, Some (sn err_buf_len (txt "failed to open '" ++ path ++ txt "' for writing: " ++ e)))
  | Some dumper =>
      mret (Capture (cap_handle cap) (cap_link_type cap) (Some dumper) (cap_next_packet_number cap), None)
  end.

(** ** The loop *)

(** [(int32_t) z] *)
Definition i32c (z : Z) : Z := (z + 2 ^ 31) mod 2 ^ 32 - 2 ^ 31.

Definition pcap_packet_callback `{System} {C : Type} (on_packet : C -> ns_packet_t -> IO C)
    (loop_ctx : ns_capture_t * C) (header : pcap_pkthdr) (data : list byte) : IO (ns_capture_t * C) :=
  let '(cap, ctx) := loop_ctx in
  match cap_dumper cap with
  | Some dumper => emit (Dump dumper header data)
  | None => mret tt
  end;;
  let ts := Timestamp (hdr_tv_sec header) (i32c (hdr_tv_usec header)) in
  let number := u64c (cap_next_packet_number cap + 1) in
  let cap := Capture (cap_handle cap) (cap_link_type cap) (cap_dumper cap) number in
  pkt ← lift (ns_packet_parse data (hdr_caplen header) (hdr_len header) ts number (cap_link_type cap));
  ctx ← on_packet ctx pkt;
  mret (cap, ctx).

(** [pcap_loop(handle, -1, callback, user)]: the callback runs on each packet the environment
    delivers, until the environment returns.  A run may go on for ever; [fuel] bounds the number
    of packets. *)
Fixpoint pcap_loop `{System} {U : Type} (fuel : nat) (handle : pcap_t)
    (callback : U -> pcap_pkthdr -> list byte -> IO U) (user : U) : IO (Z * U) := fun w =>
  match fuel with
  | O => Fault OutOfFuel
  | S fuel =>
      match pcap_loop_next (events w) handle with
      | Returns result => (emit (LoopEnd handle result);; mret (result, user)) w
      | Delivers header data =>
          (emit (LoopPacket handle header data);;
           user ← callback user header data;
           pcap_loop fuel handle callback user) w
      end
  end.

Definition ns_capture_run `{System} {C : Type} (fuel : nat) (cap : ns_capture_t)
    (on_packet : C -> ns_packet_t -> IO C) (ctx : C) (err_buf_len : Z)
    : IO (ns_capture_t * C * option (list byte)) :=
  handle ← lift (deref (cap_handle cap));
  ns_signal_set_capture_handle (Some handle);;
  emit (LoopStart handle);;
  '(result, (cap, ctx)) ← pcap_loop fuel handle (pcap_packet_callback on_packet) (cap, ctx);
  ns_signal_set_capture_handle None;;
  if result =? -1 then
    e ← geterr handle;
    mret (cap, ctx, Some (sn err_buf_len (txt "capture loop failed: " ++ e)))
  else mret (cap, ctx, None).

Definition ns_capture_close `{System} (cap : ns_capture_t) : IO ns_capture_t :=
  cap ← match cap_dumper cap with
        | Some dumper =>
            emit (DumpClose dumper);;
            mret (Capture (cap_handle cap) (cap_link_type cap) None (cap_next_packet_number cap))
        | None => mret cap
        end;
  match cap_handle cap with
  | Some handle =>
      emit (Close handle);;
      mret (Capture None (cap_link_type cap) (cap_dumper cap) (cap_next_packet_number cap))
  | None => mret cap
  end.
