(* ===== verification/Main.v ===== *)
(** * The program: [src/main.c] *)

From S2P Require Import Prelude CMem Config Filter Packet Dns FlowTable Stats Clock Binary64 Report Output System Capture.

(** The statistics are the local of [main] that [ctx->stats] points to. *)
Record ns_main_ctx_t := MainCtx {
  main_stats : ns_stats_t;
  main_output_opts : ns_output_options_t;
  main_out : stream
}.

Definition handle_packet `{LocalTime} (ctx : ns_main_ctx_t) (pkt : ns_packet_t) : IO ns_main_ctx_t :=
  stats ← lift (ns_stats_update (main_stats ctx) pkt);
  written ← get (stream_text (main_out ctx));
  written ← lift (ns_output_packet pkt (main_output_opts ctx) written);
  modify (set_stream (main_out ctx) written);;
  mret (MainCtx stats (main_output_opts ctx) (main_out ctx)).

(** [(double) ts.tv_sec + (double) ts.tv_nsec / 1e9] *)
Definition monotonic_seconds `{System} : IO b64 :=
  '(tv_sec, tv_nsec) ← call clock_monotonic ClockGetTime;
  mret (b64_add (b64_of_Z tv_sec) (b64_div (b64_of_Z tv_nsec) (b64_of_Z (10 ^ 9)))).

Definition print_error (program_name message : list byte) : IO unit :=
  fprintf Stderr (program_name ++ txt ": " ++ message ++ [x0a]);;
  if contains (txt "ermission") message
  then fprintf Stderr (txt "hint: try running with elevated capture privileges " ++
                       txt "(see README.md for platform-specific guidance)" ++ [x0a])
  else mret tt.

Definition filter_spec_of (config : ns_config_t) : ns_filter_spec_t :=
  FilterSpec (cfg_filter_tcp config) (cfg_filter_udp config) (cfg_filter_icmp config) (cfg_filter_port config)
    (Some (cfg_filter_host config)) (Some (cfg_filter_src config)) (Some (cfg_filter_dst config))
    (if cfg_has_raw_filter config then Some (cfg_raw_filter config) else None).

(** From the opened session to the end of [main]: the output stream, the capture and the report. *)
Definition run_session `{System, LocalTime, Qsort} (fuel : nat) (program_name : list byte) (config : ns_config_t)
    (cap : ns_capture_t) (output_stream : stream) : IO Z :=
  tty ← (if cfg_no_color config then mret false
         else call (fun t => isatty t output_stream) (IsATty output_stream));
  let output_opts := OutputOptions (ns_output_should_use_color (cfg_no_color config) tty)
    (cfg_verbose_output config) (cfg_quiet config) (cfg_hex_dump config) (cfg_format config) in
  let live := bool_decide (cfg_input_mode config = NS_INPUT_LIVE) in
  (if live && bool_decide (cfg_format config = NS_FORMAT_TEXT) && negb (cfg_quiet config) then
     fprintf Stdout (NS_NAME ++ txt " " ++ NS_VERSION_STRING ++ [x0a]);;
     fprintf Stdout (txt "Interface: " ++ cfg_interface config ++ [x0a]);;
     fprintf Stdout (txt "Capture started. Press Ctrl+C to stop." ++ [x0a; x0a])
   else mret tt);;
  let ctx := MainCtx ns_stats_init output_opts output_stream in
  ns_install_signal_handlers;;
  start_time ← monotonic_seconds;
  '(cap, ctx, failure) ← ns_capture_run fuel cap handle_packet ctx 512;
  end_time ← monotonic_seconds;
  _ ← ns_capture_close cap;
  (if bool_decide (output_stream = Stdout) then mret tt else emit FClose);;
  match failure with
  | Some err_buf => print_error program_name err_buf;; mret 1
  | None =>
      (if cfg_show_stats config || live then
         report ← lift (ns_stats_print (main_stats ctx) (b64_sub end_time start_time));
         fprintf Stdout report
       else mret tt);;
      mret 0
  end.

(** From the filter to the output stream: opens everything the session needs. *)
Definition start_session `{System, LocalTime, Qsort} (fuel : nat) (program_name : list byte) (config : ns_config_t) : IO Z :=
  let live := bool_decide (cfg_input_mode config = NS_INPUT_LIVE) in
  '(built, bpf_expr) ← lift (ns_filter_build_bpf (filter_spec_of config) (uninit_buf 512) 512);
  if negb built then print_error program_name (txt "capture filter expression is too long");; mret 1
  else
    bpf_expr ← lift (cstring bpf_expr);
    '(cap, failure) ←
      (if live then ns_capture_open_live (cfg_interface config) (Some bpf_expr) 512
       else ns_capture_open_offline (cfg_read_file config) (Some bpf_expr) 512);
    match failure with
    | Some err_buf => print_error program_name err_buf;; mret 1
    | None =>
        '(cap, failure) ←
          (if bool_decide (cfg_write_file config = []) then mret (cap, None)
           else ns_capture_open_dump cap (cfg_write_file config) 512);
        match failure with
        | Some err_buf => print_error program_name err_buf;; ns_capture_close cap;; mret 1
        | None =>
            if bool_decide (cfg_format config = NS_FORMAT_JSON) && negb (bool_decide (cfg_output_file config = []))
            then
              ok ← call (fun t => fopen_w t (cfg_output_file config)) (FOpen (cfg_output_file config));
              if negb ok then
                print_error program_name (sn 512 (txt "failed to open '" ++ cfg_output_file config ++ txt "' for writing"));;
                ns_capture_close cap;; mret 1
              else run_session fuel program_name config cap OutFile
            else run_session fuel program_name config cap Stdout
        end
    end.

(** [main] returns its exit status. *)
Definition main `{System, GetoptLong, LocalTime, Qsort} (fuel : nat) (argv : list (list byte)) : IO Z :=
  let program_name := txt "netscope" in
  '(parsed, config, err_buf) ← lift (ns_config_parse argv 512);
  if negb parsed then
    err_buf ← lift (use_init err_buf);
    print_error program_name err_buf;;
    fprintf Stderr (txt "Try '" ++ program_name ++ txt " --help' for usage." ++ [x0a]);;
    mret 1
  else if cfg_show_help config then fprintf Stdout (ns_config_print_help program_name);; mret 0
  else if cfg_show_version config then fprintf Stdout ns_config_print_version;; mret 0
  else
    ns_log_set_level (cfg_log_level config);;
    if cfg_list_interfaces config then
      failure ← ns_capture_list_interfaces Stdout;
      match failure with
      | Some pcap_err => print_error program_name pcap_err;; mret 1
      | None => mret 0
      end
    else
      let live := bool_decide (cfg_input_mode config = NS_INPUT_LIVE) in
      exists_ ← (if live then ns_capture_interface_exists (cfg_interface config) else mret true);
      if live && negb exists_ then
        print_error program_name (sn 512 (txt "interface '" ++ cfg_interface config ++ txt "' does not exist"));;
        mret 1
      else
        start_session fuel program_name config.
