(* ===== verification/Protocol.v ===== *)
(** * The protocol of a session

    Which calls are allowed when: an automaton over traces that knows what is open and what the
    environment has answered, and the program logic the session proofs use. *)

From S2P Require Import Prelude CMem Config Packet System.

(** ** The automaton *)

(** The call that was refused, or the loop that failed. *)
Inductive refusal :=
  | CannotCreate (errbuf : list byte)
  | CannotActivate
  | CannotOpen (errbuf : list byte)
  | UnsupportedLink (dlt : Z)
  | BadFilter
  | FilterFailed
  | CannotDump
  | CannotWrite
  | LoopFailed.

(** What the environment has answered, as far as the program reports it. *)
Record answers := Answers {
  a_refusal : option refusal;        (* the last refusal *)
  a_error : list byte;               (* the last answer of pcap_geterr *)
  a_activated : option Z;            (* the answers of pcap_activate ... *)
  a_link : option Z;                 (* ... and pcap_datalink *)
  a_tty : option (stream * bool);    (* the answer of isatty *)
  a_times : list (Z * Z)             (* the answers of clock_gettime, in order *)
}.

Definition no_answers : answers := Answers None [] None None None [].

Definition refuse (r : refusal) (a : answers) : answers :=
  let '(Answers _ e ac li tty ts) := a in Answers (Some r) e ac li tty ts.
Definition note_error (e : list byte) (a : answers) : answers :=
  let '(Answers r _ ac li tty ts) := a in Answers r e ac li tty ts.
Definition note_activated (result : Z) (a : answers) : answers :=
  let '(Answers r e _ li tty ts) := a in Answers r e (Some result) li tty ts.
Definition note_link (dlt : Z) (a : answers) : answers :=
  let '(Answers r e ac _ tty ts) := a in Answers r e ac (Some dlt) tty ts.
Definition note_tty (s : stream) (b : bool) (a : answers) : answers :=
  let '(Answers r e ac li _ ts) := a in Answers r e ac li (Some (s, b)) ts.
Definition note_time (t : Z * Z) (a : answers) : answers :=
  let '(Answers r e ac li tty ts) := a in Answers r e ac li tty (ts ++ [t]).

(** What is allocated or open after a trace, and the packets delivered and saved so far. *)
Record resources := Resources {
  r_devices : bool;                  (* a device list to free *)
  r_handle : option pcap_t;          (* the open handle *)
  r_active : bool;                   (* ... and whether it is activated *)
  r_program : bool;                  (* a compiled filter to free *)
  r_dumper : option pcap_dumper_t;   (* the open dump file *)
  r_looping : bool;                  (* inside pcap_loop *)
  r_file : bool;                     (* the output file *)
  r_delivered : list (pcap_pkthdr * list byte);
  r_dumped : list (pcap_pkthdr * list byte);
  r_answers : answers
}.

(** No handle and no dump file, maybe an output file, with the packets of the past. *)
Definition closed (a : answers) (file : bool) (delivered dumped : list (pcap_pkthdr * list byte)) : resources :=
  Resources false None false false None false file delivered dumped a.

(** An activated handle, maybe a dump file and an output file. *)
Definition ready (a : answers) (h : pcap_t) (dumper : option pcap_dumper_t) (file : bool)
    (delivered dumped : list (pcap_pkthdr * list byte)) : resources :=
  Resources false (Some h) true false dumper false file delivered dumped a.

Definition looping (a : answers) (h : pcap_t) (dumper : option pcap_dumper_t) (file : bool)
    (delivered dumped : list (pcap_pkthdr * list byte)) : resources :=
  Resources false (Some h) true false dumper true file delivered dumped a.

Definition guarded {A} (b : bool) (a : A) : option A := if b then Some a else None.

Definition is_handle (r : resources) (h : pcap_t) : bool := bool_decide (r_handle r = Some h).
Definition usable (r : resources) (h : pcap_t) : bool := is_handle r h && r_active r && negb (r_looping r).

(** One call: [None] when it is not allowed in this state. *)
Definition res_step (r : resources) (e : event) : option resources :=
  let '(Resources dv hd ac pr du lo fi de dm an) := r in
  match e with
  | FindAllDevs found =>
      guarded (negb dv) (Resources (match found with inl (_ :: _) => true | _ => false end) hd ac pr du lo fi de dm an)
  | FreeAllDevs [] => Some r
  | FreeAllDevs (_ :: _) => guarded dv (Resources false hd ac pr du lo fi de dm an)
  | Create _ answer =>
      guarded (bool_decide (hd = None))
        (match answer with
         | inl h => Resources dv (Some h) false pr du lo fi de dm an
         | inr errbuf => Resources dv hd ac pr du lo fi de dm (refuse (CannotCreate errbuf) an)
         end)
  | OpenOffline _ answer =>
      guarded (bool_decide (hd = None))
        (match answer with
         | inl h => Resources dv (Some h) true pr du lo fi de dm an
         | inr errbuf => Resources dv hd ac pr du lo fi de dm (refuse (CannotOpen errbuf) an)
         end)
  | SetSnaplen h _ | SetPromisc h _ | SetTimeout h _ => guarded (is_handle r h && negb ac) r
  | Activate h result =>
      guarded (is_handle r h && negb ac)
        (Resources dv hd (0 <=? result) pr du lo fi de dm
           (note_activated result (if result <? 0 then refuse CannotActivate an else an)))
  | DataLink h dlt =>
      guarded (usable r h)
        (Resources dv hd ac pr du lo fi de dm (note_link dlt (if dlt =? 1 then an else refuse (UnsupportedLink dlt) an)))
  | Compile h _ result =>
      guarded (usable r h && negb pr)
        (Resources dv hd ac (result =? 0) du lo fi de dm (if result =? 0 then an else refuse BadFilter an))
  | SetFilter h result =>
      guarded (usable r h && pr) (Resources dv hd ac pr du lo fi de dm (if result =? 0 then an else refuse FilterFailed an))
  | FreeCode => guarded pr (Resources dv hd ac false du lo fi de dm an)
  | GetErr h message => guarded (is_handle r h) (Resources dv hd ac pr du lo fi de dm (note_error message an))
  | DumpOpen h _ answer =>
      guarded (usable r h && bool_decide (du = None))
        (Resources dv hd ac pr answer lo fi de dm (match answer with Some _ => an | None => refuse CannotDump an end))
  | Dump d header data => guarded (bool_decide (du = Some d) && lo) (Resources dv hd ac pr du lo fi de (dm ++ [(header, data)]) an)
  | DumpClose d => guarded (bool_decide (du = Some d) && negb lo) (Resources dv hd ac pr None lo fi de dm an)
  | LoopStart h => guarded (usable r h) (Resources dv hd ac pr du true fi de dm an)
  | LoopPacket h header data => guarded (is_handle r h && lo) (Resources dv hd ac pr du lo fi (de ++ [(header, data)]) dm an)
  | LoopEnd h result =>
      guarded (is_handle r h && lo)
        (Resources dv hd ac pr du false fi de dm (if result =? -1 then refuse LoopFailed an else an))
  | BreakLoop h => guarded (is_handle r h && ac) r
  | Close h => guarded (is_handle r h && bool_decide (du = None) && negb pr && negb lo) (Resources dv None false pr du lo fi de dm an)
  | FOpen _ ok => guarded (negb fi) (Resources dv hd ac pr du lo ok de dm (if ok then an else refuse CannotWrite an))
  | FClose => guarded fi (Resources dv hd ac pr du lo false de dm an)
  | IsATty s answer => Some (Resources dv hd ac pr du lo fi de dm (note_tty s answer an))
  | ClockGetTime now => Some (Resources dv hd ac pr du lo fi de dm (note_time now an))
  | SigAction | Signal => Some r
  end.

(** The state after a trace, [None] when a call in it was not allowed. *)
Definition replay (t : trace) : option resources :=
  foldr (fun e state => r ← state; res_step r e) (Some (closed no_answers false [] [])) t.

Lemma replay_cons e t : replay (e :: t) = (r ← replay t; res_step r e).
Proof. done. Qed.

#[global] Arguments replay : simpl never.

(** Packets delivered in a trace *)
Fixpoint deliveries (t : trace) : nat :=
  match t with
  | [] => 0
  | LoopPacket _ _ _ :: t => S (deliveries t)
  | _ :: t => deliveries t
  end.

(** ** What else the program state shows *)

Record visible := Visible {
  v_level : Z;
  v_slot : option pcap_t;
  v_installed : bool;
  v_out : list byte;
  v_err : list byte;
  v_file : list byte
}.

Definition visible_of (w : world) : visible :=
  Visible (g_log_level w) (g_capture_handle w) (handlers_installed w) (stdout_text w) (stderr_text w) (file_text w).

Definition v_stream (s : stream) (v : visible) : list byte :=
  match s with Stdout => v_out v | Stderr => v_err v | OutFile => v_file v end.

Definition v_write (s : stream) (text : list byte) (v : visible) : visible :=
  let '(Visible ll sl hi o e f) := v in
  match s with
  | Stdout => Visible ll sl hi (o ++ text) e f
  | Stderr => Visible ll sl hi o (e ++ text) f
  | OutFile => Visible ll sl hi o e (f ++ text)
  end.

Definition v_set_slot (h : option pcap_t) (v : visible) : visible :=
  let '(Visible ll _ hi o e f) := v in Visible ll h hi o e f.

Definition is_loop_start (e : event) : bool := match e with LoopStart _ => true | _ => false end.

(** The loop has been entered. *)
Definition loop_started (t : trace) : bool := existsb is_loop_start t.

(** The handle a signal handler may reach is open and activated, and its loop was entered. *)
Definition target_ok (r : resources) (slot : option pcap_t) (t : trace) : Prop :=
  match slot with
  | None => True
  | Some h => r_handle r = Some h /\ r_active r = true /\ loop_started t = true
  end.

(** What the user asked for: the calls that name something name this. *)
Class Requests := {
  q_interface : list byte;
  q_read_file : list byte;
  q_filter : list byte;
  q_write_file : list byte;
  q_output_file : list byte
}.

(** The event [e] after the trace [t] opens what was requested, and its answer is the one the
    environment gives; a signal is one that arrives, and only its handler breaks the loop. *)
Definition justified `{System, Requests} (e : event) (t : trace) : Prop :=
  match e with
  | FindAllDevs found => found = pcap_findalldevs t
  | Create interface answer => interface = q_interface /\ answer = pcap_create t interface
  | Activate h result => result = pcap_activate t h
  | OpenOffline path answer => path = q_read_file /\ answer = pcap_open_offline t path
  | DataLink h dlt => dlt = pcap_datalink t h
  | Compile h filter result => filter = q_filter /\ result = pcap_compile t h filter
  | SetFilter h result => result = pcap_setfilter t h
  | GetErr h message => message = pcap_geterr t h
  | DumpOpen h path answer => path = q_write_file /\ answer = pcap_dump_open t h path
  | FOpen path ok => path = q_output_file /\ ok = fopen_w t path
  | LoopPacket h header data => pcap_loop_next t h = Delivers header data
  | LoopEnd h result => pcap_loop_next t h = Returns result
  | IsATty s answer => answer = isatty t s
  | ClockGetTime now => now = clock_monotonic t
  | Signal => signal_arrives t = true
  | BreakLoop h => loop_started t = true /\ exists t', t = Signal :: t'
  | _ => True
  end.

Fixpoint faithful `{System, Requests} (t : trace) : Prop :=
  match t with
  | [] => True
  | e :: t => justified e t /\ faithful t
  end.

(** The world [w] is in the state [r] with the visible part [v], after a faithful trace. *)
Definition repr `{System, Requests} (r : resources) (v : visible) (w : world) : Prop :=
  replay (events w) = Some r /\ visible_of w = v /\ target_ok r (v_slot v) (events w) /\ faithful (events w).

(** ** Total correctness up to fuel *)

(** The run does not fault, or it runs out of fuel and [T] holds; its result satisfies [Q]. *)
Definition upto {A} (T : Prop) (m : M A) (Q : A -> Prop) : Prop :=
  match m with
  | Done a => Q a
  | Fault OutOfFuel => T
  | Fault _ => False
  end.

Definition iwp {A} (T : Prop) (m : IO A) (Q : A -> world -> Prop) (w : world) : Prop :=
  upto T (m w) (fun '(a, w') => Q a w').

Lemma iwp_ret {A} T (a : A) Q w : Q a w -> iwp T (mret a) Q w.
Proof. done. Qed.

Lemma iwp_bind {A B} T (m : IO A) (k : A -> IO B) Q w :
  iwp T m (fun a => iwp T (k a) Q) w -> iwp T (m ≫= k) Q w.
Proof. unfold iwp, mbind, IO_bind. destruct (m w) as [[a w']|[]]; done. Qed.

Lemma iwp_mono {A} T (m : IO A) (P Q : A -> world -> Prop) w :
  iwp T m P w -> (forall a w', P a w' -> Q a w') -> iwp T m Q w.
Proof. unfold iwp. destruct (m w) as [[a w']|[]]; cbn; auto. Qed.

(** A program known up to its last step *)
Lemma iwp_bind_step {A B C} T (m : IO A) (k : A -> IO B) (k' : B -> IO C) P Q w :
  iwp T (a ← m; k a) P w -> (forall b w', P b w' -> iwp T (k' b) Q w') -> iwp T (a ← m; b ← k a; k' b) Q w.
Proof.
  unfold iwp, mbind, IO_bind. destruct (m w) as [[a w']|[]]; cbn; try done.
  destruct (k a w') as [[b w'']|[]]; cbn; auto; done.
Qed.

Lemma iwp_and {A} T (m : IO A) (P R : A -> world -> Prop) w :
  iwp T m P w -> (forall a w', m w = Done (a, w') -> R a w') -> iwp T m (fun a w' => P a w' /\ R a w') w.
Proof. unfold iwp. destruct (m w) as [[a w']|[]]; cbn; auto. Qed.

(** A closed program that has been run *)
Lemma iwp_run {A} T (m : IO A) a w' Q w : m w = Done (a, w') -> Q a w' -> iwp T m Q w.
Proof. unfold iwp. by intros ->. Qed.

Lemma iwp_lift {A} T (m : M A) Q w : wp m (fun a => Q a w) -> iwp T (lift m) Q w.
Proof. unfold iwp, lift. by destruct m. Qed.

Lemma iwp_lift_done {A} T (a : A) Q w : Q a w -> iwp T (lift (Done a)) Q w.
Proof. done. Qed.

(** *** Writing *)

Section Writing.
Context `{System, Requests}.

Lemma events_set_stream s text w : events (set_stream s text w) = events w.
Proof. by destruct w, s. Qed.

Lemma iwp_fprintf T s text r v Q w :
  repr r v w -> (forall w', repr r (v_write s text v) w' -> Q tt w') -> iwp T (fprintf s text) Q w.
Proof.
  intros (Hr & <- & Ht & Hq) HQ. apply HQ. unfold repr. rewrite events_set_stream. split; [done|]. by destruct w, s.
Qed.

Lemma iwp_set_text T s text more r v Q w :
  repr r v w -> text = v_stream s v ++ more ->
  (forall w', events w' = events w -> repr r (v_write s more v) w' -> Q tt w') -> iwp T (modify (set_stream s text)) Q w.
Proof.
  intros (Hr & <- & Ht & Hq) -> HQ. apply HQ; [apply events_set_stream|].
  unfold repr. rewrite events_set_stream. split; [done|]. by destruct w, s.
Qed.

Lemma repr_stream r v w s : repr r v w -> stream_text s w = v_stream s v.
Proof. intros (_ & <- & _ & _). by destruct w, s. Qed.

Lemma iwp_get_text T s r v Q w : repr r v w -> Q (v_stream s v) w -> iwp T (get (stream_text s)) Q w.
Proof. intros Hw HQ. unfold iwp, get. cbn. by rewrite (repr_stream _ _ _ s Hw). Qed.

Lemma repr_level r v w : repr r v w -> g_log_level w = v_level v.
Proof. intros (_ & <- & _ & _). by destruct w. Qed.

Lemma iwp_clear_slot T r v Q w :
  repr r v w -> (forall w', repr r (v_set_slot None v) w' -> Q tt w') ->
  iwp T (ns_signal_set_capture_handle None) Q w.
Proof. intros (Hr & <- & Ht & Hq) HQ. apply HQ. by destruct w. Qed.

End Writing.

(** *** Calls and signals *)

Section Calls.
Context `{System, Requests}.

(** A signal changes neither what is open nor what the program sees: the handler only reaches
    an open handle. *)
Lemma target_push r r' slot e t :
  target_ok r slot t -> r_handle r' = r_handle r -> r_active r' = r_active r -> target_ok r' slot (e :: t).
Proof.
  destruct slot as [h|]; cbn; [|done]. intros (? & ? & Hl) -> ->. split; [done|]. split; [done|].
  unfold loop_started in *. cbn. by rewrite Hl, orb_true_r.
Qed.

Lemma push_repr r r' v e w :
  repr r v w -> res_step r e = Some r' -> target_ok r' (v_slot v) (e :: events w) -> justified e (events w) ->
  repr r' v (push e w).
Proof.
  intros (Hr & <- & _ & Hq) Hs Ht He. destruct w as [ll sr h hi o er f t].
  split; [|done].
  change (replay (e :: t) = Some r'). change (replay t = Some r) in Hr. by rewrite replay_cons, Hr.
Qed.

Lemma interrupt_repr r v w : repr r v w -> repr r v (interrupt w).
Proof.
  intros Hw. unfold interrupt.
  destruct (handlers_installed w); cbn [andb]; [|done].
  destruct (signal_arrives (events w)) eqn:Earr; [|done].
  assert (Hs : repr r v (push Signal w)).
  { apply (push_repr r); [done|by destruct r| |done]. destruct Hw as (_ & _ & Ht & _). by eapply target_push. }
  assert (Hstop : repr r v (set_stop_requested 1 (push Signal w))) by (destruct Hs as (? & <- & ? & ?); by destruct w).
  unfold handle_signal. destruct (g_capture_handle _) as [h|] eqn:Eh; [|done].
  pose proof Hstop as (_ & Hv & Ht & _).
  assert (Hslot : v_slot v = Some h) by (rewrite <- Hv; exact Eh). rewrite Hslot in Ht. destruct Ht as (E1 & E2 & E3).
  assert (E : events (set_stop_requested 1 (push Signal w)) = Signal :: events w) by (by destruct w). rewrite E in E3.
  apply (push_repr r); [done| | |].
  - destruct r. cbn in *. subst. unfold is_handle. cbn. by rewrite bool_decide_true.
  - rewrite Hslot, E. cbn. by repeat split.
  - rewrite E. split; [done|]. by eexists.
Qed.

Lemma iwp_call {A} T (answer : trace -> A) (ev : A -> event) r v Q w :
  repr r v w ->
  (forall a, a = answer (events w) -> exists r', res_step r (ev a) = Some r' /\ target_ok r' (v_slot v) (ev a :: events w) /\
    justified (ev a) (events w) /\ forall w', w' = interrupt (push (ev a) w) -> repr r' v w' -> Q a w') ->
  iwp T (call answer ev) Q w.
Proof.
  intros Hr HQ. destruct (HQ _ eq_refl) as (r' & Hs & Ht & He & Hk). apply Hk; [done|].
  apply interrupt_repr. by apply (push_repr r).
Qed.

Lemma iwp_emit T e r r' v Q w :
  repr r v w -> res_step r e = Some r' -> target_ok r' (v_slot v) (e :: events w) -> justified e (events w) ->
  (forall w', w' = interrupt (push e w) -> repr r' v w' -> Q tt w') -> iwp T (emit e) Q w.
Proof. intros Hr Hs Ht He HQ. apply (iwp_call _ _ _ r v); [done|]. intros [] _. by exists r'. Qed.

(** The handle is made known to the signal handler right before the loop is entered. *)
Lemma iwp_enter_loop {A} T h r r' v (k : unit -> IO A) Q w :
  repr r v w -> res_step r (LoopStart h) = Some r' -> r_handle r' = Some h -> r_active r' = true ->
  (forall w', repr r' (v_set_slot (Some h) v) w' -> iwp T (k tt) Q w') ->
  iwp T (ns_signal_set_capture_handle (Some h);; u ← emit (LoopStart h); k u) Q w.
Proof.
  intros (Hr & <- & _ & Hq) Hs Hh Ha HQ.
  apply iwp_bind. change (iwp T (u ← emit (LoopStart h); k u) Q (set_capture_handle (Some h) w)).
  apply iwp_bind. apply HQ, interrupt_repr. destruct w as [ll sr h0 hi o er f t]. split; [|done].
  change (replay (LoopStart h :: t) = Some r'). change (replay t = Some r) in Hr. by rewrite replay_cons, Hr.
Qed.

End Calls.
