(* ===== verification/SessionSteps.v ===== *)
(** * Every operation of a session obeys the protocol

    One specification per function of [src/capture.c] and [src/log.c]: what it does to the open
    resources and to the visible state.  They are in continuation style: to prove a property of
    [m], prove it from every state the specification allows after [m]. *)

From S2P Require Import Prelude CMem Config Packet System Capture Main Protocol.

Lemma v_write_nil s v : v_write s [] v = v.
Proof. destruct v, s; cbn; by rewrite app_nil_r. Qed.

Lemma v_write_app s a b v : v_write s b (v_write s a v) = v_write s (a ++ b) v.
Proof. destruct v, s; cbn; by rewrite app_assoc. Qed.

Lemma v_write_slot s a v : v_slot (v_write s a v) = v_slot v.
Proof. by destruct v, s. Qed.

Lemma v_write_installed s a v : v_installed (v_write s a v) = v_installed v.
Proof. by destruct v, s. Qed.

Lemma v_write_level s a v : v_level (v_write s a v) = v_level v.
Proof. by destruct v, s. Qed.

Lemma slot_none_ok r v t : v_slot v = None -> target_ok r (v_slot v) t.
Proof. by intros ->. Qed.

#[export] Hint Rewrite v_write_nil v_write_app v_write_slot v_write_installed v_write_level : netscope.
#[export] Hint Resolve slot_none_ok : netscope.

(** Decides a step of the automaton in a state whose fields are known. *)
Ltac res_ok :=
  cbn; unfold usable, is_handle; cbn; rewrite ?bool_decide_true by congruence; cbn; done.

(** One write, one emitted event, one call; the new world is named. *)
Ltac iwrite w' Hw' := apply iwp_bind; eapply iwp_fprintf; [eassumption|]; intros w' Hw'.
Ltac iemit w' Hw' :=
  apply iwp_bind; eapply iwp_emit; [eassumption|res_ok|by auto with netscope|done|]; intros w' _ Hw'.
Ltac icall a w' Hw' :=
  let Ea := fresh "Ea" in
  apply iwp_bind; eapply iwp_call; [eassumption|]; intros a Ea; eexists;
  split; [|split; [by auto with netscope|split; [by first [exact Ea | split; [|exact Ea]]|clear Ea; intros w' _ Hw']]].

Section Steps.
Context `{System, Requests} (T : Prop).

(** ** Errors and logging *)

Definition error_text (program_name message : list byte) : list byte :=
  program_name ++ txt ": " ++ message ++ [x0a] ++
  (if contains (txt "ermission") message
   then txt "hint: try running with elevated capture privileges " ++
        txt "(see README.md for platform-specific guidance)" ++ [x0a]
   else []).

Lemma print_error_spec program_name message r v Q w :
  repr r v w -> (forall w', repr r (v_write Stderr (error_text program_name message) v) w' -> Q tt w') ->
  iwp T (print_error program_name message) Q w.
Proof.
  intros Hw HQ. unfold print_error, error_text in *. iwrite w1 Hw1. destruct (contains _ _).
  - eapply iwp_fprintf; [exact Hw1|]. intros w2 Hw2. rewrite v_write_app, <- !app_assoc in Hw2. by apply HQ.
  - apply iwp_ret, HQ. by rewrite ?app_nil_r.
Qed.

(** A line of the log, which is written when the user's level [enabled] is high enough. *)
Definition log_line (enabled level : Z) (name text : list byte) : list byte :=
  if level <=? enabled then txt "[" ++ name ++ txt "] " ++ text ++ [x0a] else [].

Lemma ns_log_spec level text s r v Q w :
  repr r v w -> text = Done s \/ v_level v < level ->
  (forall w', repr r (v_write Stderr (log_line (v_level v) level (level_name level) s) v) w' -> Q tt w') ->
  iwp T (ns_log level text) Q w.
Proof.
  intros Hw Ht HQ. unfold ns_log. apply iwp_bind. change (iwp T (if level >? g_log_level w then mret tt else
    fprintf Stderr (txt "[" ++ level_name level ++ txt "] ");; s ← lift text; fprintf Stderr s;; fprintf Stderr [x0a]) Q w).
  unfold log_line in HQ. rewrite (repr_level _ _ _ Hw), Z.gtb_ltb.
  destruct (Z.ltb_spec (v_level v) level), (Z.leb_spec level (v_level v)); try lia.
  - apply iwp_ret, HQ. by rewrite v_write_nil.
  - destruct Ht as [->|?]; [|lia]. iwrite w1 Hw1. apply iwp_bind, iwp_lift_done. iwrite w2 Hw2.
    eapply iwp_fprintf; [exact Hw2|]. intros w3 Hw3. rewrite !v_write_app, <- !(assoc_L (++)) in Hw3. by eapply HQ.
Qed.

(** The resources [r] with other answers *)
Definition with_answers (a : answers) (r : resources) : resources :=
  let '(Resources dv hd ac pr du lo fi de dm _) := r in Resources dv hd ac pr du lo fi de dm a.

Lemma geterr_spec h r v Q w :
  repr r v w -> r_handle r = Some h -> v_slot v = None ->
  (forall e w', repr (with_answers (note_error e (r_answers r)) r) v w' -> Q e w') -> iwp T (geterr h) Q w.
Proof.
  intros Hw Hh Hs HQ. apply (iwp_call _ _ _ r v); [done|]. intros e Ee. exists (with_answers (note_error e (r_answers r)) r).
  split; [destruct r; cbn in *; unfold is_handle; cbn; by rewrite bool_decide_true|].
  split; [by auto with netscope|]. split; [exact Ee|]. intros w' _ Hw'. by eapply HQ.
Qed.

(** *** Messages

    What the user is told about a refusal, and what is logged while the capture is opened. *)

Definition refusal_text (a : answers) (r : refusal) : list byte :=
  sn 512
    match r with
    | CannotCreate errbuf => txt "failed to open interface '" ++ q_interface ++ txt "': " ++ errbuf
    | CannotActivate => txt "failed to activate capture on '" ++ q_interface ++ txt "': " ++ a_error a
    | CannotOpen errbuf => txt "failed to open capture file '" ++ q_read_file ++ txt "': " ++ errbuf
    | UnsupportedLink dlt =>
        txt "unsupported datalink type: " ++
        match pcap_datalink_val_to_name dlt with Some name => name | None => txt "unknown" end
    | BadFilter => txt "invalid capture filter '" ++ q_filter ++ txt "': " ++ a_error a
    | FilterFailed => txt "failed to apply capture filter: " ++ a_error a
    | CannotDump => txt "failed to open '" ++ q_write_file ++ txt "' for writing: " ++ a_error a
    | CannotWrite => txt "failed to open '" ++ q_output_file ++ txt "' for writing"
    | LoopFailed => txt "capture loop failed: " ++ a_error a
    end.

Definition activation_log (level : Z) (a : answers) : list byte :=
  match a_activated a with
  | Some result =>
      if 0 <? result
      then log_line level NS_LOG_WARN (txt "WARN")
             (txt "pcap_activate warning on '" ++ q_interface ++ txt "': " ++ pcap_statustostr result)
      else []
  | None => []
  end.

Definition link_log (level : Z) (a : answers) : list byte :=
  match a_link a with
  | Some dlt =>
      log_line level NS_LOG_DEBUG (txt "DEBUG") (txt "pcap datalink: " ++ default [] (pcap_datalink_val_to_name dlt))
  | None => []
  end.

Definition open_log (level : Z) (a : answers) : list byte := activation_log level a ++ link_log level a.

(** A step that answers [o] turns the answers [a] into [a']: it refused with the message [o], or
    all is well. *)
Definition outcome (a : answers) (o : option (list byte)) (a' : answers) : Prop :=
  a_activated a' = a_activated a /\ a_link a' = a_link a /\ a_tty a' = a_tty a /\ a_times a' = a_times a /\
  match o with
  | None => a_refusal a' = a_refusal a
  | Some message => exists r, a_refusal a' = Some r /\ message = refusal_text a' r
  end.

Lemma outcome_none a : outcome a None a.
Proof. done. Qed.

Lemma outcome_refused a r e message :
  message = refusal_text (note_error e (refuse r a)) r -> outcome a (Some message) (note_error e (refuse r a)).
Proof. intros ->. destruct a. repeat split. by eexists. Qed.

Lemma outcome_trans a a1 o a2 :
  a_activated a1 = a_activated a -> a_link a1 = a_link a -> a_tty a1 = a_tty a -> a_times a1 = a_times a ->
  a_refusal a1 = a_refusal a -> outcome a1 o a2 -> outcome a o a2.
Proof. intros E1 E2 E3 E4 E5 (? & ? & ? & ? & ?). repeat split; try congruence. destruct o; congruence. Qed.

Lemma outcome_log level a o a' : outcome a o a' -> open_log level a' = open_log level a.
Proof. intros (E1 & E2 & _). unfold open_log, activation_log, link_log. by rewrite E1, E2. Qed.

(** ** Opening *)

(** A handle that is open when nothing else is. *)
Notation fresh_handle a h := (ready a h None false [] []).

Lemma apply_filter_spec a h f v Q w :
  repr (fresh_handle a h) v w -> v_slot v = None -> f = Some q_filter ->
  (forall o a' w', outcome a o a' -> repr (fresh_handle a' h) v w' -> Q o w') -> iwp T (apply_filter h f 512) Q w.
Proof.
  intros Hw Hs -> HQ. unfold apply_filter. destruct q_filter as [|b f] eqn:Ef; [by eapply iwp_ret, HQ|].
  rewrite <- Ef in *. clear b f Ef.
  icall res w1 Hw1; [res_ok|]. destruct (res =? 0); cbn [negb].
  - icall res' w2 Hw2; [res_ok|]. iemit w3 Hw3. destruct (res' =? 0); cbn [negb].
    + by eapply iwp_ret, HQ.
    + apply iwp_bind. eapply geterr_spec; [exact Hw3|done|done|]. intros e w4 Hw4.
      eapply iwp_ret, HQ; [|exact Hw4]. apply outcome_refused. by destruct a.
  - apply iwp_bind. eapply geterr_spec; [exact Hw1|done|done|]. intros e w4 Hw4.
    eapply iwp_ret, HQ; [|exact Hw4]. apply outcome_refused. by destruct a.
Qed.

(** The link types of the environment have names, or debug messages are off. *)
Definition names_known (level : Z) : Prop :=
  level < NS_LOG_DEBUG \/ forall t h, is_Some (pcap_datalink_val_to_name (pcap_datalink t h)).

Lemma resolve_link_type_spec a h v Q w :
  repr (fresh_handle a h) v w -> v_slot v = None -> names_known (v_level v) ->
  (forall dlt o a' w', outcome (note_link dlt a) o a' ->
     repr (fresh_handle a' h) (v_write Stderr (link_log (v_level v) a') v) w' ->
     Q (match o with None => inl NS_LINK_ETHERNET | Some m => inr m end) w') ->
  iwp T (resolve_link_type h 512) Q w.
Proof.
  intros Hw Hs Hn HQ. unfold resolve_link_type. apply iwp_bind. eapply iwp_call; [exact Hw|]. intros dlt Ea.
  eexists. split; [res_ok|]. split; [by auto with netscope|]. split; [exact Ea|]. intros w1 _ Hw1.
  apply iwp_bind. eapply (ns_log_spec _ _ (txt "pcap datalink: " ++ default [] (pcap_datalink_val_to_name dlt))); [exact Hw1| |].
  { destruct Hn as [?|Hn]; [by right|left]. destruct (Hn (events w) h) as [name E]. rewrite <- Ea in E. by rewrite E. }
  intros w2 Hw2. unfold DLT_EN10MB. destruct a as [rf er ac li ty ts]. destruct (dlt =? 1); cbn [negb].
  - apply iwp_ret. eapply (HQ dlt None); [|exact Hw2]. done.
  - apply iwp_ret. eapply (HQ dlt (Some _)); [|exact Hw2]. repeat split. by eexists.
Qed.

(** The outcome of an open function that has logged [log], from the initial answers. *)
Definition opened (level : Z) (o : option (list byte)) (cap : ns_capture_t) (log : list byte) (r : resources) : Prop :=
  exists a, a_times a = [] /\ a_tty a = None /\ log = open_log level a /\
  match o with
  | None => a_refusal a = None /\ exists h, cap = Capture (Some h) NS_LINK_ETHERNET None 0 /\ r = fresh_handle a h
  | Some message => (exists rf, a_refusal a = Some rf /\ message = refusal_text a rf) /\ r = closed a false [] []
  end.

(** The common end of both open functions. *)
Definition finish_open (h : pcap_t) (f : option (list byte)) : IO (ns_capture_t * option (list byte)) :=
  link_type ← resolve_link_type h 512;
  match link_type with
  | inr err => emit (Close h);; mret (zero_capture, Some err)
  | inl link_type =>
      applied ← apply_filter h f 512;
      match applied with
      | Some err => emit (Close h);; mret (zero_capture, Some err)
      | None => mret (Capture (Some h) link_type (cap_dumper zero_capture) (cap_next_packet_number zero_capture), None)
      end
  end.

Lemma finish_open_spec a h f v (Q : ns_capture_t * option (list byte) -> world -> Prop) w :
  a_refusal a = None -> a_times a = [] -> a_tty a = None ->
  repr (fresh_handle a h) (v_write Stderr (activation_log (v_level v) a) v) w -> v_slot v = None -> names_known (v_level v) ->
  f = Some q_filter ->
  (forall cap o r log w', opened (v_level v) o cap log r -> repr r (v_write Stderr log v) w' -> Q (cap, o) w') ->
  iwp T (finish_open h f) Q w.
Proof.
  intros Hnone Htimes Htty Hw Hs Hn Hf HQ. apply iwp_bind.
  assert (Hkeep : forall dlt, a_times (note_link dlt a) = [] /\ a_tty (note_link dlt a) = None /\ a_refusal (note_link dlt a) = None /\
    a_activated (note_link dlt a) = a_activated a) by (by destruct a).
  assert (Hs1 : forall err, v_slot (v_write Stderr err v) = None) by (intros; by autorewrite with netscope).
  eapply resolve_link_type_spec; [exact Hw|done|by rewrite v_write_level|].
  intros dlt o a1 w1 Ho Hw1. destruct (Hkeep dlt) as (Hkt & Hky & Hkr & Hka). rewrite v_write_app, v_write_level in Hw1.
  assert (Hlog : activation_log (v_level v) a ++ link_log (v_level v) a1 = open_log (v_level v) a1).
  { unfold open_log, activation_log. destruct Ho as (-> & _). by rewrite Hka. }
  rewrite Hlog in Hw1. clear Hlog. destruct o as [m|].
  - iemit w3 Hw3. apply iwp_ret. eapply HQ; [|exact Hw3]. exists a1.
    destruct Ho as (_ & _ & Hy & Ht & Hr). split; [congruence|]. split; [congruence|]. split; [done|]. by split.
  - apply iwp_bind. eapply apply_filter_spec; [exact Hw1|done|done|]. intros o a2 w2 Ho2 Hw2.
    rewrite <- (outcome_log _ _ _ _ Ho2) in Hw2. destruct Ho as (_ & _ & Hy & Ht & Hr), Ho2 as (_ & _ & Hy2 & Ht2 & Hr2).
    assert (Ht3 : a_times a2 = []) by congruence.
    assert (Hy3 : a_tty a2 = None) by congruence. destruct o as [e|].
    + iemit w3 Hw3. apply iwp_ret. eapply HQ; [|exact Hw3]. exists a2. by repeat split.
    + apply iwp_ret. eapply HQ; [|exact Hw2]. exists a2. split; [done|]. split; [done|]. split; [done|].
      split; [congruence|]. by exists h.
Qed.

Lemma open_live_spec interface f v Q w :
  repr (closed no_answers false [] []) v w -> v_slot v = None -> names_known (v_level v) -> f = Some q_filter ->
  interface = q_interface ->
  (forall cap o r log w', opened (v_level v) o cap log r -> repr r (v_write Stderr log v) w' -> Q (cap, o) w') ->
  iwp T (ns_capture_open_live interface f 512) Q w.
Proof.
  intros Hw Hs Hn Hf Hq HQ. unfold ns_capture_open_live. icall a w1 Hw1; [res_ok|]. destruct a as [h|e]; cycle 1.
  { apply iwp_ret. eapply (HQ _ _ _ []); [|rewrite v_write_nil; exact Hw1].
    exists (refuse (CannotCreate e) no_answers). repeat split. eexists. split; [done|]. by subst. }
  cbn in Hw1. iemit w2 Hw2. iemit w3 Hw3. iemit w4 Hw4. icall res w5 Hw5; [res_ok|]. destruct (Z.ltb_spec res 0).
  { apply iwp_bind. eapply geterr_spec; [exact Hw5|done|done|]. intros e w6 Hw6. iemit w7 Hw7. apply iwp_ret.
    eapply (HQ _ _ _ []); [|rewrite v_write_nil; exact Hw7].
    exists (Answers (Some CannotActivate) e (Some res) None None []). split; [done|]. split; [done|]. split; [|split; [|done]].
    - unfold open_log, activation_log, link_log. cbn. by destruct (Z.ltb_spec 0 res); [lia|].
    - eexists. split; [done|]. by subst. }
  destruct (Z.leb_spec 0 res); [|lia]. cbn in Hw5. apply iwp_bind. fold (finish_open h f).
  set (a := Answers _ _ _ _ _ _) in *.
  assert (Hlog : forall w', repr (fresh_handle a h) (v_write Stderr (activation_log (v_level v) a) v) w' ->
    iwp T (finish_open h f) Q w') by (intros w' Hw'; by eapply (finish_open_spec a)).
  unfold activation_log in Hlog. cbn [a_activated a] in Hlog. rewrite Z.gtb_ltb. destruct (0 <? res).
  - eapply ns_log_spec; [exact Hw5|by left|]. intros w6 Hw6. apply Hlog. by subst interface.
  - apply iwp_ret, Hlog. by rewrite v_write_nil.
Qed.

Lemma open_offline_spec path f v Q w :
  repr (closed no_answers false [] []) v w -> v_slot v = None -> names_known (v_level v) -> f = Some q_filter ->
  path = q_read_file ->
  (forall cap o r log w', opened (v_level v) o cap log r -> repr r (v_write Stderr log v) w' -> Q (cap, o) w') ->
  iwp T (ns_capture_open_offline path f 512) Q w.
Proof.
  intros Hw Hs Hn Hf Hq HQ. unfold ns_capture_open_offline. icall a w1 Hw1; [res_ok|]. destruct a as [h|e].
  - fold (finish_open h f). eapply (finish_open_spec no_answers); [done|done|done|by rewrite v_write_nil|done..].
  - apply iwp_ret. eapply (HQ _ _ _ []); [|rewrite v_write_nil; exact Hw1].
    exists (refuse (CannotOpen e) no_answers). repeat split. eexists. split; [done|]. by subst.
Qed.

Lemma open_dump_spec a h lt number path v Q w :
  repr (fresh_handle a h) v w -> v_slot v = None -> path = q_write_file ->
  (forall d w', repr (ready a h (Some d) false [] []) v w' -> Q (Capture (Some h) lt (Some d) number, None) w') ->
  (forall e a' w', outcome a (Some e) a' -> repr (fresh_handle a' h) v w' -> Q (Capture (Some h) lt None number, Some e) w') ->
  iwp T (ns_capture_open_dump (Capture (Some h) lt None number) path 512) Q w.
Proof.
  intros Hw Hs Hq HQ Herr. unfold ns_capture_open_dump. apply iwp_bind, iwp_lift_done. icall d w1 Hw1; [res_ok|].
  destruct d as [d|].
  - by apply iwp_ret, HQ.
  - apply iwp_bind. eapply geterr_spec; [exact Hw1|done|done|]. intros e w2 Hw2.
    eapply iwp_ret, Herr; [|exact Hw2]. apply outcome_refused. subst path. by destruct a.
Qed.

(** ** Closing *)

Lemma close_spec a h lt du number fi de dm v Q w :
  repr (ready a h du fi de dm) v w -> v_slot v = None ->
  (forall cap w', repr (closed a fi de dm) v w' -> Q cap w') ->
  iwp T (ns_capture_close (Capture (Some h) lt du number)) Q w.
Proof.
  intros Hw Hs HQ. unfold ns_capture_close. apply iwp_bind. destruct du as [d|]; cbn [cap_dumper].
  - iemit w1 Hw1. apply iwp_ret. cbn [cap_handle]. iemit w2 Hw2. apply iwp_ret. by apply HQ.
  - apply iwp_ret. cbn [cap_handle]. iemit w2 Hw2. apply iwp_ret. by apply HQ.
Qed.

(** ** Interfaces *)

(** The lines about an address, about the [i]-th device, and about all devices. *)
Definition address_text (addr : option sockaddr) : list byte :=
  let line name af a := match inet_ntop af (sa_address a) INET6_ADDRSTRLEN with
                        | Some buf => txt name ++ buf ++ [x0a]
                        | None => []
                        end in
  match addr with
  | None => []
  | Some a =>
      if sa_family a =? AF_INET then line "     IPv4: "%string AF_INET a
      else if sa_family a =? AF_INET6 then line "     IPv6: "%string AF_INET6 a else []
  end.

Definition device_text (i : Z) (dev : pcap_if_t) : list byte :=
  text_lines [fmt_d i ++ txt ". " ++ dev_name dev] ++
  match dev_description dev with Some d => text_lines [txt "   " ++ d] | None => [] end ++
  match dev_addresses dev with
  | [] => []
  | addrs => text_lines [txt "   addresses:"] ++ concat (address_text <$> addrs)
  end ++ [x0a].

Definition listing (devices : list pcap_if_t) : list byte :=
  match devices with
  | [] => text_lines [txt "No capture interfaces found.";
                      txt "hint: capturing usually requires elevated privileges; see README.md"]
  | _ => text_lines [txt "Available interfaces:"; []] ++ concat (imap (fun i => device_text (1 + Z.of_nat i)) devices)
  end.

Lemma print_device_addresses_spec out addrs r v Q w :
  repr r v w -> (forall w', repr r (v_write out (concat (address_text <$> addrs)) v) w' -> Q tt w') ->
  iwp T (print_device_addresses out addrs) Q w.
Proof.
  intros Hw HQ. revert v w Hw HQ. induction addrs as [|addr addrs IH]; intros v w Hw HQ.
  { apply iwp_ret, HQ. by rewrite v_write_nil. }
  assert (Hline : forall w1, repr r (v_write out (address_text addr) v) w1 -> iwp T (print_device_addresses out addrs) Q w1).
  { intros w1 Hw1. eapply IH; [exact Hw1|]. intros w2 Hw2. rewrite v_write_app in Hw2. by apply HQ. }
  cbn [print_device_addresses]. destruct addr as [addr|]; [|apply Hline; cbn; by rewrite v_write_nil].
  apply iwp_bind. unfold address_text in Hline. repeat case_match;
    first [by eapply iwp_fprintf; [exact Hw|]; intros w1 Hw1; apply Hline | apply iwp_ret, Hline; by rewrite v_write_nil].
Qed.

Lemma list_devices_spec out index devices r v Q w :
  repr r v w ->
  (forall w', repr r (v_write out (concat (imap (fun i => device_text (index + Z.of_nat i)) devices)) v) w' -> Q tt w') ->
  iwp T (list_devices out index devices) Q w.
Proof.
  intros Hw HQ. revert index v w Hw HQ. induction devices as [|dev devices IH]; intros index v w Hw HQ.
  { apply iwp_ret, HQ. by rewrite v_write_nil. }
  assert (Hrest : forall w1, repr r (v_write out (device_text index dev) v) w1 -> iwp T (list_devices out (index + 1) devices) Q w1).
  { intros w1 Hw1. eapply IH; [exact Hw1|]. intros w2 Hw2. rewrite v_write_app in Hw2. apply HQ.
    cbn [imap concat]. rewrite Z.add_0_r. erewrite imap_ext; [exact Hw2|]. intros i x _. unfold compose. f_equal. lia. }
  clear IH HQ. destruct dev as [name description addrs]. unfold device_text, text_lines in Hrest.
  cbn [list_devices dev_name dev_description dev_addresses fmap list_fmap concat] in *. iwrite w1 Hw1.
  apply iwp_bind. eapply (iwp_mono _ _ (fun _ w' => exists d, d = match description with
    | Some d => concat ((fun l => l ++ [x0a]) <$> [txt "   " ++ d]) | None => [] end /\ repr r (v_write out d _) w')).
  { destruct description as [d|].
    - eapply iwp_fprintf; [exact Hw1|]. intros w2 Hw2. eexists. split; [done|]. cbn [fmap list_fmap concat].
      rewrite app_nil_r, <- (assoc_L (++)). exact Hw2.
    - apply iwp_ret. exists []. split; [done|]. rewrite v_write_nil. exact Hw1. }
  intros _ w2 (d & Ed & Hw2). cbn [fmap list_fmap concat] in Ed. rewrite <- Ed in Hrest. clear Ed.
  apply iwp_bind. eapply (iwp_mono _ _ (fun _ w' => repr r (v_write out (match addrs with
    | [] => [] | addrs => txt "   addresses:" ++ [x0a] ++ concat (address_text <$> addrs) end) _) w')).
  { destruct addrs as [|addr addrs]; [apply iwp_ret; rewrite v_write_nil; exact Hw2|]. iwrite w3 Hw3.
    eapply print_device_addresses_spec; [exact Hw3|]. intros w4 Hw4. rewrite v_write_app, <- (assoc_L (++)) in Hw4. exact Hw4. }
  intros _ w3 Hw3. iwrite w4 Hw4. apply Hrest. rewrite !v_write_app in Hw4. revert Hw4.
  destruct addrs; cbn [fmap list_fmap concat]; by rewrite ?app_nil_r, <- ?(assoc_L (++)).
Qed.

Lemma list_interfaces_spec v Q w :
  repr (closed no_answers false [] []) v w -> v_slot v = None ->
  (forall devices w', pcap_findalldevs (events w) = inl devices ->
    repr (closed no_answers false [] []) (v_write Stdout (listing devices) v) w' -> Q None w') ->
  (forall message w', pcap_findalldevs (events w) = inr message -> repr (closed no_answers false [] []) v w' -> Q (Some message) w') ->
  iwp T (ns_capture_list_interfaces Stdout) Q w.
Proof.
  intros Hw Hs HQ Herr. unfold ns_capture_list_interfaces. apply iwp_bind. eapply iwp_call; [exact Hw|]. intros found Ef.
  eexists. split; [res_ok|]. split; [by auto with netscope|]. split; [exact Ef|]. intros w1 _ Hw1.
  destruct found as [[|dev devices]|err]; cbn in Hw1.
  - iwrite w2 Hw2. iwrite w3 Hw3. apply iwp_ret. rewrite v_write_app in Hw3. by eapply HQ.
  - iwrite w2 Hw2. apply iwp_bind. eapply list_devices_spec; [exact Hw2|]. intros w3 Hw3. rewrite v_write_app in Hw3.
    assert (Hs3 : forall t, v_slot (v_write Stdout t v) = None) by (intros; by autorewrite with netscope).
    iemit w4 Hw4. apply iwp_ret. by eapply HQ.
  - apply iwp_ret. by eapply Herr.
Qed.

(** Whether the environment knows the interface when it is asked first *)
Definition interface_known (name : list byte) (found : list pcap_if_t + list byte) : bool :=
  match found with inl devices => find_device name devices | inr _ => false end.

Lemma interface_exists_spec name v Q w :
  repr (closed no_answers false [] []) v w -> v_slot v = None ->
  (forall w', repr (closed no_answers false [] []) v w' -> Q (interface_known name (pcap_findalldevs (events w))) w') ->
  iwp T (ns_capture_interface_exists name) Q w.
Proof.
  intros Hw Hs HQ. unfold ns_capture_interface_exists. apply iwp_bind. eapply iwp_call; [exact Hw|]. intros found Ef.
  rewrite <- Ef in HQ. eexists. split; [res_ok|]. split; [by auto with netscope|]. split; [exact Ef|]. intros w1 _ Hw1.
  destruct found as [[|dev devices]|err]; cbn in Hw1.
  - iemit w2 Hw2. by apply iwp_ret, HQ.
  - iemit w2 Hw2. by apply iwp_ret, HQ.
  - by apply iwp_ret, HQ.
Qed.

End Steps.
