(* ===== verification/Session.v ===== *)
(** * A capture session: the loop, the callback and [main]

    The packets of a session, decoded, counted and printed as they come, against the batch
    computation of the same results from the list of delivered packets; when the loop ends; and
    what [main] leaves behind on every path. *)

From stdpp Require Import gmap.
From S2P Require Import Prelude CMem Util Config Filter Link Network Transport Dns Packet FlowTable Stats Clock Binary64.
From S2P Require Import Report Output OutputText OutputJson System Capture Main Protocol SessionSteps.

(** ** Assumptions on libpcap *)

(** Documented behaviour of a delivered packet: [caplen] bytes are there, and the time stamp is
    in range. *)
Class SystemLaws `{System} := delivered_ok t h header data :
  pcap_loop_next t h = Delivers header data ->
  0 <= hdr_caplen header <= zlen data /\ hdr_caplen header < 2 ^ 32 /\
  ts_ok (Timestamp (hdr_tv_sec header) (hdr_tv_usec header)).

(** ** The batch computation *)

(** Packets are numbered from 1 in the order of delivery. *)
Definition decode_one (i : nat) (p : pcap_pkthdr * list byte) : M ns_packet_t :=
  let '(header, data) := p in
  ns_packet_parse data (hdr_caplen header) (hdr_len header)
    (Timestamp (hdr_tv_sec header) (hdr_tv_usec header)) (u64c (Z.of_nat i + 1)) NS_LINK_ETHERNET.

Fixpoint decode (i : nat) (ps : list (pcap_pkthdr * list byte)) : M (list ns_packet_t) :=
  match ps with
  | [] => Done []
  | p :: ps => pkt ← decode_one i p; pkts ← decode (S i) ps; Done (pkt :: pkts)
  end.

Definition outputs `{LocalTime} (opts : ns_output_options_t) (pkts : list ns_packet_t) : list byte :=
  concat ((fun p => packet_output p opts) <$> pkts).

(** [batch ps pkts s]: the delivered packets [ps] decode to [pkts] and have the statistics [s]. *)
Definition batch (ps : list (pcap_pkthdr * list byte)) (pkts : list ns_packet_t) (s : ns_stats_t) : Prop :=
  decode 0 ps = Done pkts /\ ns_stats_run ns_stats_init pkts = Done s /\ table_ok (stats_flows s).

Lemma decode_snoc i ps p pkts pkt :
  decode i ps = Done pkts -> decode_one (i + length ps) p = Done pkt -> decode i (ps ++ [p]) = Done (pkts ++ [pkt]).
Proof.
  revert i pkts. induction ps as [|q ps IH]; intros i pkts.
  { intros [= <-] Hp. cbn in *. rewrite Nat.add_0_r in Hp. rewrite Hp. done. }
  cbn [decode length app]. destruct (decode_one i q) as [pq|]; mred; [|done].
  destruct (decode (S i) ps) as [qs|] eqn:E; mred; [|done]. intros [= <-] Hp.
  rewrite (IH (S i) qs) by (done || by rewrite <- Nat.add_succ_comm in Hp). done.
Qed.

Lemma ns_stats_run_snoc s pkts s' pkt s'' :
  ns_stats_run s pkts = Done s' -> ns_stats_update s' pkt = Done s'' -> ns_stats_run s (pkts ++ [pkt]) = Done s''.
Proof.
  revert s. induction pkts as [|p pkts IH]; intros s; cbn [ns_stats_run app].
  - intros [= ->] ->. done.
  - destruct (ns_stats_update s p) as [s1|]; mred; [|done]. apply IH.
Qed.

Lemma outputs_snoc `{LocalTime} opts pkts pkt : outputs opts (pkts ++ [pkt]) = outputs opts pkts ++ packet_output pkt opts.
Proof. unfold outputs. rewrite fmap_app, concat_app. cbn. by rewrite app_nil_r. Qed.

Lemma batch_nil : batch [] [] ns_stats_init.
Proof. split; [done|]. split; [done|]. apply empty_table_ok. Qed.

Lemma i32c_small z : 0 <= z < 1000000 -> i32c z = z.
Proof. intros Hz. unfold i32c. rewrite Z.mod_small; lia. Qed.

(** ** Signals during the loop *)

Section Loop.
Context `{System}.

(** All packets of the trace came from [h], and each that was followed by a signal was followed
    by a call of [pcap_breakloop]. *)
Definition answered (h : pcap_t) (t : trace) : Prop :=
  forall t1 h' header data t0, t = t1 ++ LoopPacket h' header data :: t0 ->
    h' = h /\ (signal_arrives (LoopPacket h' header data :: t0) = true -> exists t2, t1 = t2 ++ [BreakLoop h; Signal]).

Definition is_packet (e : event) : bool := match e with LoopPacket _ _ _ => true | _ => false end.

Lemma answered_push h e t : is_packet e = false -> answered h t -> answered h (e :: t).
Proof.
  intros He Ht [|e1 t1] h' header data t0 E; cbn in E; injection E as -> E; [done|].
  destruct (Ht _ _ _ _ _ E) as [Hh Hs]. split; [done|]. intros [t2 ->]%Hs. by exists (e1 :: t2).
Qed.

Lemma answered_none h t : deliveries t = 0%nat -> answered h t.
Proof.
  intros Hd t1 h' header data t0 ->. exfalso. revert Hd. induction t1 as [|e t1 IH]; cbn; [done|].
  destruct e; cbn; (exact IH || discriminate).
Qed.

Lemma interrupt_events w : exists t, events (interrupt w) = t ++ events w /\ Forall (fun e => is_packet e = false) t.
Proof.
  unfold interrupt, handle_signal. destruct w as [ll sr [h|] hi o e f t], hi; cbn [andb handlers_installed events];
    try (by exists []); destruct (signal_arrives t); [by exists [BreakLoop h; Signal]; split; [|repeat constructor]
      |by exists []|by exists [Signal]; split; [|repeat constructor]|by exists []].
Qed.

Lemma answered_interrupt h w : answered h (events w) -> answered h (events (interrupt w)).
Proof.
  intros Hw. destruct (interrupt_events w) as (t & -> & Ht). induction Ht; [done|]. by apply answered_push.
Qed.

(** The handler of a signal that arrives with a packet stops the loop. *)
Lemma answered_packet h header data w :
  g_capture_handle w = Some h -> handlers_installed w = true -> answered h (events w) ->
  answered h (events (interrupt (push (LoopPacket h header data) w))).
Proof.
  intros Hh Hi Hw. destruct w as [ll sr ? ? o e f t]. cbn in Hh, Hi, Hw. subst. unfold interrupt, push, set_events.
  cbn [handlers_installed events andb]. destruct (signal_arrives (LoopPacket h header data :: t)) eqn:Es; cbn.
  - intros [|e1 [|e2 [|e3 t1]]] h' hd d t0 E; try discriminate E.
    + injection E as -> -> -> <-. split; [done|]. intros _. by exists [].
    + cbn in E. injection E as <- <- <- E. destruct (Hw _ _ _ _ _ E) as [Hh Hs]. split; [done|].
      intros [t2 ->]%Hs. by exists (BreakLoop h :: Signal :: LoopPacket h header data :: t2).
  - intros [|e1 t1] h' hd d t0 E; cbn in E.
    + injection E as -> -> -> <-. split; [done|]. by rewrite Es.
    + injection E as <- E. destruct (Hw _ _ _ _ _ E) as [Hh Hs]. split; [done|]. intros [t2 ->]%Hs.
      by exists (LoopPacket h header data :: t2).
Qed.

(** After [N] packets [pcap_loop] returns. *)
Definition must_end (N : nat) : Prop :=
  forall t h, answered h t -> (N <= deliveries t)%nat -> exists result, pcap_loop_next t h = Returns result.

(** The fuel is enough. *)
Definition enough (fuel : nat) : Prop := exists N, must_end N /\ (N < fuel)%nat.

(** A source with at most [N] packets, such as a file. *)
Lemma finite_must_end N :
  (forall t h, (N <= deliveries t)%nat -> exists result, pcap_loop_next t h = Returns result) -> must_end N.
Proof. intros Hf t h _. apply Hf. Qed.

(** Documented behaviour of [pcap_breakloop]: at most [K] more packets are delivered. *)
Definition break_law (K : nat) : Prop :=
  forall t1 t0 h, (K <= deliveries t1)%nat -> pcap_loop_next (t1 ++ BreakLoop h :: t0) h = Returns (-2).

Lemma deliveries_quiet t1 t0 : Forall (fun e => is_packet e = false) t1 -> deliveries (t1 ++ t0) = deliveries t0.
Proof. intros Ht. induction Ht as [|e t1 He _ IH]; [done|]. by destruct e. Qed.

Lemma deliveries_app t1 t0 : deliveries (t1 ++ t0) = (deliveries t1 + deliveries t0)%nat.
Proof. induction t1 as [|[] t1 IH]; cbn; auto. Qed.

(** The [n]-th packet of a trace *)
Lemma nth_delivery n t :
  (0 < n <= deliveries t)%nat -> exists t1 h header data t0, t = t1 ++ LoopPacket h header data :: t0 /\ deliveries t0 = pred n.
Proof.
  induction t as [|e t IH]; [cbn; lia|]. intros Hn.
  destruct (decide (n <= deliveries t)%nat) as [Hle|Hgt].
  { destruct IH as (t1 & h & hd & d & t0 & -> & Hd); [lia|]. by exists (e :: t1), h, hd, d, t0. }
  destruct e; cbn in Hn; try lia. eexists [], _, _, _, t. split; [done|]. lia.
Qed.

(** A signal that arrives with the [n]-th packet ends the loop within [K] more. *)
Lemma signal_must_end n K :
  (0 < n)%nat -> break_law K ->
  (forall h header data t, deliveries t = pred n -> signal_arrives (LoopPacket h header data :: t) = true) ->
  must_end (n + K).
Proof.
  intros Hn Hb Hs t h Ha Hd. destruct (nth_delivery n t) as (t1 & h' & header & data & t0 & -> & Hd0); [lia|].
  destruct (Ha _ _ _ _ _ eq_refl) as [-> Hsig]. destruct Hsig as [t2 ->]; [by apply Hs|].
  exists (-2). rewrite <- app_assoc. apply Hb. rewrite !deliveries_app in Hd. cbn in Hd. lia.
Qed.

Lemma replay_deliveries t r : replay t = Some r -> length (r_delivered r) = deliveries t.
Proof.
  revert r. induction t as [|e t IH]; intros r; [by intros [= <-]|]. rewrite replay_cons.
  destruct (replay t) as [[dv hd ac pr du lo fi de dm rf]|]; [|done]. specialize (IH _ eq_refl). cbn in IH. cbn.
  destruct e; cbn [deliveries]; rewrite <- IH; unfold guarded; repeat case_match; intros; simplify_eq/=; try done.
  rewrite length_app. cbn. lia.
Qed.

(** The rule for the loop: an invariant that the callback preserves, packet by packet. *)
Lemma pcap_loop_rule {U} (T : Prop) fuel h callback (I : nat -> U -> world -> Prop) k user w Q :
  (forall k user w header data, I k user w -> pcap_loop_next (events w) h = Delivers header data ->
    iwp T (emit (LoopPacket h header data);; callback user header data) (fun user' w' => I (S k) user' w') w) ->
  (forall k user w result, I k user w -> pcap_loop_next (events w) h = Returns result -> iwp T (emit (LoopEnd h result)) (fun _ w' => Q (result, user) w') w) ->
  T \/ (exists N, (forall k user w, I k user w -> (N <= k)%nat ->
          exists result, pcap_loop_next (events w) h = Returns result) /\ (k <= N < fuel + k)%nat) ->
  I k user w -> iwp T (pcap_loop fuel h callback user) Q w.
Proof.
  intros Hstep Hend Hfuel. revert k user w Hfuel. induction fuel as [|fuel IH]; intros k user w Hfuel Hi.
  { destruct Hfuel as [?|(N & _ & HN)]; [done|]. lia. }
  unfold iwp. cbn [pcap_loop]. destruct (pcap_loop_next (events w) h) as [header data|result] eqn:E.
  - change (iwp T (emit (LoopPacket h header data);; user ← callback user header data;
                   pcap_loop fuel h callback user) Q w).
    eapply iwp_bind_step; [exact (Hstep k user w header data Hi E)|]. intros user' w' Hi'. cbn beta in Hi'.
    apply (IH (S k)); [|done]. destruct Hfuel as [?|(N & Hr & HN)]; [by left|]. right. exists N. split; [done|].
    destruct (decide (N <= k)%nat) as [Hle|]; [|lia]. destruct (Hr k user w Hi Hle) as [result Hres]. congruence.
  - change (iwp T (emit (LoopEnd h result);; mret (result, user)) Q w). apply iwp_bind.
    eapply iwp_mono; [by eapply Hend|]. done.
Qed.

End Loop.

(** ** The callback *)

Section Callback.
Context `{SystemLaws, LocalTimeLaws, Requests} (T : Prop).

(** The packets a session saves *)
Definition saved (du : option pcap_dumper_t) (ps : list (pcap_pkthdr * list byte)) : list (pcap_pkthdr * list byte) :=
  match du with Some _ => ps | None => [] end.

(** The state of a running session that delivered [ps]: the streams hold the output of the decoded
    packets, the statistics count them, the dump file has them all, the next number is right. *)
Definition session_at (an : answers) (h : pcap_t) (du : option pcap_dumper_t) (fi : bool) (opts : ns_output_options_t) (out : stream)
    (v : visible) (k : nat) (user : ns_capture_t * ns_main_ctx_t) (w : world) : Prop :=
  exists ps pkts s,
    length ps = k /\ batch ps pkts s /\ answered h (events w) /\ deliveries (events w) = k /\
    repr (looping an h du fi ps (saved du ps)) (v_write out (outputs opts pkts) v) w /\
    user = (Capture (Some h) NS_LINK_ETHERNET du (u64c (Z.of_nat k)), MainCtx s opts out).

(** What parsing, counting and printing one packet gives. *)
Lemma packet_effects t h header data opts (out : list byte) s number :
  pcap_loop_next t h = Delivers header data -> table_ok (stats_flows s) ->
  exists p s', ns_packet_parse data (hdr_caplen header) (hdr_len header)
      (Timestamp (hdr_tv_sec header) (hdr_tv_usec header)) number NS_LINK_ETHERNET = Done p /\
    ns_stats_update s p = Done s' /\ table_ok (stats_flows s') /\
    ns_output_packet p opts out = Done (out ++ packet_output p opts).
Proof.
  intros Hd Hok. destruct (delivered_ok _ _ _ _ Hd) as (Hcap & Hlt & Hts).
  assert (Hv : view_ok data (hdr_caplen header)) by (split; lia).
  pose proof (parsed_printable data (hdr_caplen header) (hdr_len header)
    (Timestamp (hdr_tv_sec header) (hdr_tv_usec header)) number NS_LINK_ETHERNET Hv) as Hp.
  apply wp_done in Hp as (p & Hparse & Hp & Et & Ec & Er). exists p.
  destruct (ns_stats_update_spec s p Hok (proj1 Hp)) as (t' & Hu & Ht' & _). eexists. split; [done|].
  split; [done|]. split; [by destruct s|].
  apply ns_output_packet_spec; [done|by rewrite Et|by rewrite Er, Ec|rewrite Ec; lia].
Qed.

Lemma u64c_succ k : u64c (u64c (Z.of_nat k) + 1) = u64c (Z.of_nat k + 1).
Proof. unfold u64c. by rewrite Zplus_mod_idemp_l. Qed.

(** Parsing, counting and printing a packet that has been delivered and saved *)
Lemma packet_step an h du fi opts out v ps pkts s w header data :
  batch ps pkts s -> answered h (events w) -> deliveries (events w) = S (length ps) ->
  repr (looping an h du fi (ps ++ [(header, data)]) (saved du (ps ++ [(header, data)]))) (v_write out (outputs opts pkts) v) w ->
  (exists t, pcap_loop_next t h = Delivers header data) ->
  iwp T (let ts := Timestamp (hdr_tv_sec header) (i32c (hdr_tv_usec header)) in
         let number := u64c (u64c (Z.of_nat (length ps)) + 1) in
         let cap := Capture (Some h) NS_LINK_ETHERNET du number in
         pkt ← lift (ns_packet_parse data (hdr_caplen header) (hdr_len header) ts number (cap_link_type cap));
         ctx ← handle_packet (MainCtx s opts out) pkt;
         mret (cap, ctx)) (fun user' w' => session_at an h du fi opts out v (S (length ps)) user' w') w.
Proof.
  intros (Hdec & Hrun & Hok) Ha Hn Hw [t Hd]. set (text := v_stream out (v_write out (outputs opts pkts) v)).
  destruct (packet_effects _ _ _ _ opts text s (u64c (Z.of_nat (length ps) + 1)) Hd Hok)
    as (p & s' & Hparse & Hu & Hok' & Hout).
  destruct (delivered_ok _ _ _ _ Hd) as (_ & _ & _ & Hus). cbn [ts_microseconds] in Hus.
  cbn zeta. cbn [cap_link_type]. rewrite i32c_small, u64c_succ by done.
  apply iwp_bind. rewrite Hparse. apply iwp_lift_done, iwp_bind. unfold handle_packet.
  cbn [main_stats main_output_opts main_out]. apply iwp_bind. rewrite Hu. apply iwp_lift_done, iwp_bind.
  eapply iwp_get_text; [exact Hw|]. fold text. apply iwp_bind. rewrite Hout. apply iwp_lift_done, iwp_bind.
  eapply (iwp_set_text _ _ _ (packet_output p opts)); [exact Hw|done|]. intros w' He Hw'. apply iwp_ret, iwp_ret.
  exists (ps ++ [(header, data)]), (pkts ++ [p]), s'. rewrite He. split; [rewrite length_app; cbn; lia|].
  split; [split; [|split; [by eapply ns_stats_run_snoc|done]]; by eapply decode_snoc|].
  split; [done|]. split; [done|]. rewrite outputs_snoc, <- v_write_app. split; [done|].
  do 3 f_equal. lia.
Qed.

Lemma callback_step an h du fi opts out v k user w header data :
  v_slot v = Some h -> v_installed v = true -> session_at an h du fi opts out v k user w ->
  pcap_loop_next (events w) h = Delivers header data ->
  iwp T (emit (LoopPacket h header data);; pcap_packet_callback handle_packet user header data)
    (fun user' w' => session_at an h du fi opts out v (S k) user' w') w.
Proof.
  intros Hslot Hin (ps & pkts & s & <- & Hb & Ha & Hn & Hw & ->) Hd.
  set (ps' := ps ++ [(header, data)]). set (v1 := v_write out (outputs opts pkts) v) in *.
  assert (Hs1 : v_slot v1 = Some h) by (unfold v1; by autorewrite with netscope).
  assert (Hi1 : v_installed v1 = true) by (unfold v1; by autorewrite with netscope).
  apply iwp_bind. eapply (iwp_emit _ _ _ (looping an h du fi ps' (saved du ps))); [exact Hw|res_ok|by eapply target_push; [apply Hw|..]|exact Hd|].
  intros w1 Ew1 Hw1. pose proof Hw as (_ & Hvis & _). rewrite <- Hvis in Hs1, Hi1.
  pose proof (answered_packet h header data w Hs1 Hi1 Ha) as Ha1. rewrite <- Ew1 in Ha1.
  destruct (interrupt_events (push (LoopPacket h header data) w)) as (t1 & Ht1 & Hf1). rewrite <- Ew1 in Ht1.
  assert (Hn1 : deliveries (events w1) = S (length ps)).
  { rewrite Ht1, deliveries_quiet by done. destruct w. cbn in *. by rewrite Hn. }
  clear Ew1 Ht1. unfold pcap_packet_callback. apply iwp_bind. cbn [cap_dumper].
  destruct du as [d|]; cycle 1.
  { apply iwp_ret. apply (packet_step an h None fi opts out v ps pkts s w1 header data); eauto. }
  eapply (iwp_emit _ _ _ (looping an h (Some d) fi ps' ps')); [exact Hw1|res_ok|by eapply target_push; [apply Hw1|..]|done|].
  intros w2 -> Hw2. apply (packet_step an h (Some d) fi opts out v ps pkts s _ header data); [done|..|done|by eauto].
  - apply answered_interrupt. destruct w1. by apply answered_push.
  - destruct (interrupt_events (push (Dump d header data) w1)) as (t2 & -> & Hf2). rewrite deliveries_quiet by done.
    by destruct w1.
Qed.

(** ** The loop and its end *)

Lemma capture_run_spec an fuel h du fi opts out v Q w :
  T \/ enough fuel -> repr (ready an h du fi [] []) v w -> v_slot v = None -> v_installed v = true ->
  (forall ps pkts s failure an' w', batch ps pkts s -> outcome an failure an' ->
    failure = None \/ a_refusal an' = Some LoopFailed ->
    repr (ready an' h du fi ps (saved du ps)) (v_write out (outputs opts pkts) v) w' ->
    Q (Capture (Some h) NS_LINK_ETHERNET du (u64c (Z.of_nat (length ps))), MainCtx s opts out, failure) w') ->
  iwp T (ns_capture_run fuel (Capture (Some h) NS_LINK_ETHERNET du 0) handle_packet (MainCtx ns_stats_init opts out) 512) Q w.
Proof.
  intros Hfuel Hw Hs Hin HQ. unfold ns_capture_run. cbn [cap_handle]. apply iwp_bind, iwp_lift_done.
  eapply (iwp_enter_loop _ _ _ (looping an h du fi [] [])); [exact Hw|res_ok|done|done|]. intros w2 Hw2. set (v1 := v_set_slot (Some h) v) in *.
  assert (Hs1 : v_slot v1 = Some h) by (by destruct v). assert (Hin1 : v_installed v1 = true) by (by destruct v).
  apply iwp_bind. eapply (pcap_loop_rule _ _ _ _ (session_at an h du fi opts out v1) 0).
  - intros k user w' header data Hi Hd. by apply callback_step.
  - intros k user w' result (ps & pkts & s & <- & Hb & _ & _ & Hw' & ->) Hres.
    eapply iwp_emit; [exact Hw'|res_ok|by eapply target_push; [apply Hw'|..]|exact Hres|]. intros w3 _ Hw3. apply iwp_bind.
    eapply iwp_clear_slot; [exact Hw3|]. intros w4 Hw4.
    assert (Ev : v_set_slot None (v_write out (outputs opts pkts) v1) = v_write out (outputs opts pkts) v)
      by (unfold v1; destruct v, out; cbn in *; by subst). rewrite Ev in Hw4.
    assert (Hs4 : v_slot (v_write out (outputs opts pkts) v) = None) by (by autorewrite with netscope).
    destruct (result =? -1); [|by eapply iwp_ret, HQ; [..|by left|]].
    apply iwp_bind. eapply geterr_spec; [exact Hw4|done|done|]. intros e w5 Hw5.
    eapply iwp_ret, HQ; [done| | |exact Hw5]; [apply outcome_refused; by destruct an|right; by destruct an].
  - destruct Hfuel as [?|(N & Hm & HN)]; [by left|]. right. exists N. split; [|lia].
    intros k user w' (ps & pkts & s & _ & _ & Ha & Hn & _) Hle. apply Hm; [done|]. by rewrite Hn.
  - assert (Hd : deliveries (events w2) = 0%nat) by (destruct Hw2 as (Hr & _); by apply replay_deliveries in Hr).
    exists [], [], ns_stats_init. split; [done|]. split; [apply batch_nil|]. split; [by apply answered_none|].
    split; [done|]. change (outputs opts []) with (@nil byte). rewrite v_write_nil. split; [by destruct du|done].
Qed.

End Callback.
