(* ===== verification/Program.v ===== *)
(** * The program as a whole: what [main] does on every path

    Runs of [main], for every answer of libpcap and the operating system and every signal: when
    link types have names or debug messages are off, no fault, no resource left open, no call on
    something closed, exit status 0, or 1 with the error message the answers call for; and the
    output of a session. *)

From stdpp Require Import gmap.
From S2P Require Import Prelude CMem Util Config Filter Packet FlowTable Stats Clock Binary64 Report.
From S2P Require Import Output OutputText OutputJson System Capture Main Protocol SessionSteps Session.

Definition v_set_installed (b : bool) (v : visible) : visible :=
  let '(Visible ll sl _ o e f) := v in Visible ll sl b o e f.

Definition v_set_level (level : Z) (v : visible) : visible :=
  let '(Visible _ sl hi o e f) := v in Visible level sl hi o e f.

Lemma v_set_installed_write b s text v : v_set_installed b (v_write s text v) = v_write s text (v_set_installed b v).
Proof. by destruct v, s. Qed.

Definition live (config : ns_config_t) : bool := bool_decide (cfg_input_mode config = NS_INPUT_LIVE).

(** The lines that announce a live text session. *)
Definition banner (config : ns_config_t) : list byte :=
  if live config && bool_decide (cfg_format config = NS_FORMAT_TEXT) && negb (cfg_quiet config)
  then text_lines [NS_NAME ++ txt " " ++ NS_VERSION_STRING; txt "Interface: " ++ cfg_interface config;
                   txt "Capture started. Press Ctrl+C to stop."; []]
  else [].

Definition output_options (config : ns_config_t) (tty : bool) : ns_output_options_t :=
  OutputOptions (negb (cfg_no_color config) && tty) (cfg_verbose_output config) (cfg_quiet config)
    (cfg_hex_dump config) (cfg_format config).

Definition program : list byte := txt "netscope".

(** A time of the monotonic clock in seconds, and the length of a session. *)
Definition seconds (time : Z * Z) : b64 :=
  b64_add (b64_of_Z time.1) (b64_div (b64_of_Z time.2) (b64_of_Z (10 ^ 9))).

Definition duration (a : answers) : option b64 :=
  match a_times a with [start; stop] => Some (b64_sub (seconds stop) (seconds start)) | _ => None end.

(** What a session that delivered [ps] with the answers [a] leaves in the streams, given what they
    held before: the banner, the output of the packets, in color when the output stream is a
    terminal, and then the report, with the time from the first answer of the clock to the
    second, and status 0; or the error and status 1. *)
Definition session_output `{System, LocalTime, Qsort, Requests} (config : ns_config_t) (out : stream) (a : answers)
    (ps : list (pcap_pkthdr * list byte)) (code : Z) (v v' : visible) : Prop :=
  exists tty pkts s d,
    a_tty a = (if cfg_no_color config then None else Some (out, tty)) /\ duration a = Some d /\ batch ps pkts s /\
    let v1 := v_write out (outputs (output_options config tty) pkts) (v_write Stdout (banner config) v) in
    match a_refusal a with
    | None =>
        code = 0 /\ exists report,
          (if cfg_show_stats config || live config then ns_stats_print s d = Done report else report = []) /\
          v' = v_write Stdout report v1
    | Some r => r = LoopFailed /\ code = 1 /\ v' = v_write Stderr (error_text program (refusal_text a r)) v1
    end.

Section Program.
Context `{SystemLaws, LocalTimeLaws, Qsort, Requests} (T : Prop).

Lemma install_spec r v Q w :
  repr r v w -> v_slot v = None -> (forall w', repr r (v_set_installed true v) w' -> Q tt w') ->
  iwp T ns_install_signal_handlers Q w.
Proof.
  intros (Hr & <- & Ht & Hq) Hs HQ. unfold ns_install_signal_handlers. apply iwp_bind.
  change (iwp T (emit SigAction) Q (set_handlers true w)).
  eapply (iwp_emit _ _ r r (v_set_installed true (visible_of w))); [by destruct w|by destruct r| |done|intros w' _; apply HQ].
  destruct w. cbn in *. by subst.
Qed.

Lemma monotonic_spec r v Q w :
  repr r v w -> v_slot v = None ->
  (forall time w', repr (with_answers (note_time time (r_answers r)) r) v w' -> Q (seconds time) w') ->
  iwp T monotonic_seconds Q w.
Proof.
  intros Hw Hs HQ. unfold monotonic_seconds. apply iwp_bind. eapply (iwp_call _ _ _ r v); [exact Hw|].
  intros [sec nsec] Et. exists (with_answers (note_time (sec, nsec) (r_answers r)) r).
  split; [by destruct r|]. split; [by auto with netscope|]. split; [exact Et|].
  intros w' _ Hw'. by apply iwp_ret, (HQ (sec, nsec)).
Qed.

(** The announcement of a live session. *)
Lemma banner_spec config r v (Q : unit -> world -> Prop) w :
  repr r v w -> (forall w', repr r (v_write Stdout (banner config) v) w' -> Q tt w') ->
  iwp T (if live config && bool_decide (cfg_format config = NS_FORMAT_TEXT) && negb (cfg_quiet config) then
           fprintf Stdout (NS_NAME ++ txt " " ++ NS_VERSION_STRING ++ [x0a]);;
           fprintf Stdout (txt "Interface: " ++ cfg_interface config ++ [x0a]);;
           fprintf Stdout (txt "Capture started. Press Ctrl+C to stop." ++ [x0a; x0a])
         else mret tt) Q w.
Proof.
  intros Hw HQ. unfold banner in HQ. destruct (_ && _).
  - iwrite w1 Hw1. iwrite w2 Hw2. eapply iwp_fprintf; [exact Hw2|]. intros w3 Hw3. apply HQ.
    rewrite !v_write_app in Hw3. unfold text_lines. cbn [fmap list_fmap concat]. rewrite <- !(assoc_L (++)) in *. exact Hw3.
  - apply iwp_ret, HQ. by rewrite v_write_nil.
Qed.

(** The question whether the output is a terminal, which is asked unless colors are off. *)
Lemma tty_spec (no_color : bool) out r v (Q : bool -> world -> Prop) w :
  repr r v w -> v_slot v = None -> a_tty (r_answers r) = None ->
  (forall tty a w', a_tty a = (if no_color then None else Some (out, tty)) ->
     (forall b, ns_output_should_use_color no_color b = negb no_color && b) ->
     a_refusal a = a_refusal (r_answers r) -> a_times a = a_times (r_answers r) ->
     (forall level, open_log level a = open_log level (r_answers r)) ->
     repr (with_answers a r) v w' -> Q tty w') ->
  iwp T (if no_color then mret false else call (fun t => isatty t out) (IsATty out)) Q w.
Proof.
  intros Hw Hs Hy HQ. destruct no_color.
  - apply iwp_ret. apply (HQ false (r_answers r)); try done. by destruct r.
  - eapply (iwp_call _ _ _ r v); [exact Hw|]. intros tty Et. exists (with_answers (note_tty out tty (r_answers r)) r).
    split; [by destruct r|]. split; [by auto with netscope|]. split; [exact Et|]. intros w' _ Hw'.
    destruct r as [dv hd ac pr du lo fi de dm [rf er acv li ty ts]].
    apply (HQ tty (note_tty out tty (Answers rf er acv li ty ts))); try done.
Qed.

(** The answers at the end of a session, from those before its capture: the messages logged, the
    duration and the refusal. *)
Lemma session_answers a1 a5 failure start stop :
  a_refusal a1 = None -> a_times a1 = [] -> outcome (note_time start a1) failure a5 ->
  failure = None \/ a_refusal a5 = Some LoopFailed ->
  let a6 := note_time stop a5 in
  (forall level, open_log level a6 = open_log level a1) /\ a_tty a6 = a_tty a1 /\
  duration a6 = Some (b64_sub (seconds stop) (seconds start)) /\
  match failure with
  | None => a_refusal a6 = None
  | Some message => a_refusal a6 = Some LoopFailed /\ message = refusal_text a6 LoopFailed
  end.
Proof.
  intros Hr1 Ht1 Ho Hloop a6. split; [|split; [|split]].
  - intros level. transitivity (open_log level (note_time start a1)); [|by destruct a1].
    rewrite <- (outcome_log level _ failure a5 Ho). by destruct a5.
  - destruct Ho as (_ & _ & Hy & _). transitivity (a_tty a5); [by destruct a5|]. rewrite Hy. by destruct a1.
  - destruct Ho as (_ & _ & _ & Hts & _). unfold duration, a6. destruct a5, a1. cbn in *. subst. done.
  - destruct Ho as (_ & _ & _ & _ & Ho). destruct failure as [message|].
    + destruct Hloop as [?|Hloop]; [done|]. destruct Ho as (r & Er & ->). rewrite Hloop in Er. injection Er as <-.
      unfold a6. by destruct a5.
    + unfold a6. rewrite <- Hr1. by destruct a5, a1.
Qed.

(** The report, when one is asked for *)
Lemma report_spec config s d r v (Q : unit -> world -> Prop) w :
  repr r v w ->
  (forall report w', (if cfg_show_stats config || live config then ns_stats_print s d = Done report else report = []) ->
     repr r (v_write Stdout report v) w' -> Q tt w') ->
  iwp T (if cfg_show_stats config || live config then report ← lift (ns_stats_print s d); fprintf Stdout report
         else mret tt) Q w.
Proof.
  intros Hw HQ. destruct (cfg_show_stats config || live config).
  - apply iwp_bind. destruct (ns_stats_print_total s d) as [report Er]. rewrite Er. apply iwp_lift_done.
    eapply iwp_fprintf; [exact Hw|]. intros w' Hw'. by eapply HQ.
  - apply iwp_ret. apply (HQ []); [done|]. by rewrite v_write_nil.
Qed.

Lemma run_session_spec fuel config a h du out v Q w :
  T \/ enough fuel -> a_refusal a = None -> a_tty a = None -> a_times a = [] ->
  repr (ready a h du (negb (bool_decide (out = Stdout))) [] []) v w -> v_slot v = None ->
  (forall ps code a' v' w', repr (closed a' false ps (saved du ps)) v' w' ->
    (forall level, open_log level a' = open_log level a) ->
    session_output config out a' ps code (v_set_installed true v) v' -> Q code w') ->
  iwp T (run_session fuel program config (Capture (Some h) NS_LINK_ETHERNET du 0) out) Q w.
Proof.
  intros Hfuel Hnone Htty Htimes Hw Hs HQ. unfold run_session. set (fi := negb (bool_decide (out = Stdout))) in *.
  apply iwp_bind. eapply tty_spec; [exact Hw|done|done|]. intros tty a1 w1 Ht1 Hcolor Hr1 Hs1 Hl1 Hw1.
  cbn [with_answers ready r_answers] in Hr1, Hs1, Hl1, Hw1. fold (ready a1 h du fi [] []) in Hw1.
  cbn zeta. rewrite Hcolor. fold (output_options config tty).
  apply iwp_bind. eapply (banner_spec config); [exact Hw1|]. intros w2 Hw2.
  assert (Hs2 : v_slot (v_write Stdout (banner config) v) = None) by (by autorewrite with netscope).
  apply iwp_bind. eapply install_spec; [exact Hw2|done|]. intros w3 Hw3.
  set (v3 := v_set_installed true (v_write _ _ _)) in *.
  assert (Ev : v3 = v_write Stdout (banner config) (v_set_installed true v)) by apply v_set_installed_write.
  assert (Hs3 : v_slot v3 = None) by (rewrite Ev, v_write_slot; by destruct v).
  apply iwp_bind. eapply monotonic_spec; [exact Hw3|done|]. intros start w4 Hw4.
  cbn [with_answers ready r_answers] in Hw4. set (a4 := note_time start a1) in *. fold (ready a4 h du fi [] []) in Hw4.
  apply iwp_bind. eapply capture_run_spec; [exact Hfuel|exact Hw4|done|rewrite Ev, v_write_installed; by destruct v|].
  intros ps pkts s failure a5 w5 Hb Ho Hloop Hw5. set (v5 := v_write out _ v3) in *.
  assert (Hs5 : v_slot v5 = None) by (unfold v5; by autorewrite with netscope).
  apply iwp_bind. eapply monotonic_spec; [exact Hw5|done|]. intros stop w6 Hw6.
  cbn [with_answers ready r_answers] in Hw6. set (a6 := note_time stop a5) in *. fold (ready a6 h du fi ps (saved du ps)) in Hw6.
  destruct (session_answers a1 a5 failure start stop) as (Hl & Hy & Hd & Hr); [congruence|congruence|done|done|].
  fold a6 in Hl, Hy, Hd, Hr. rewrite Ht1 in Hy.
  assert (Hl6 : forall level, open_log level a6 = open_log level a) by (intros level; by rewrite Hl, Hl1).
  apply iwp_bind. eapply close_spec; [exact Hw6|done|]. intros cap w7 Hw7.
  apply iwp_bind. eapply (iwp_mono _ _ (fun _ w' => repr (closed a6 false ps (saved du ps)) v5 w')).
  { unfold fi in Hw7. destruct (bool_decide (out = Stdout)); [by apply iwp_ret|].
    eapply iwp_emit; [exact Hw7|res_ok|by auto with netscope|done|by intros]. }
  intros _ w8 Hw8. destruct failure as [message|].
  - destruct Hr as [Hr ->]. apply iwp_bind. eapply print_error_spec; [exact Hw8|]. intros w9 Hw9.
    apply iwp_ret. eapply HQ; [exact Hw9|exact Hl6|].
    exists tty, pkts, s, (b64_sub (seconds stop) (seconds start)). rewrite Hr. repeat (split; [done|]).
    unfold v5. by rewrite Ev.
  - apply iwp_bind. eapply report_spec; [exact Hw8|]. intros report w9 Hreport Hw9.
    apply iwp_ret. eapply HQ; [exact Hw9|exact Hl6|].
    exists tty, pkts, s, (b64_sub (seconds stop) (seconds start)). rewrite Hr. do 3 (split; [done|]).
    split; [done|]. exists report. split; [done|]. unfold v5. by rewrite Ev.
Qed.

End Program.

(** ** Every outcome of [main] *)

Definition requests_of (config : ns_config_t) : Requests := {|
  q_interface := cfg_interface config;
  q_read_file := cfg_read_file config;
  q_filter := until_nul (expression (filter_spec_of config));
  q_write_file := cfg_write_file config;
  q_output_file := cfg_output_file config |}.

(** The visible state after options have been read: nothing printed, the level set. *)
Definition started (level : Z) (installed : bool) (out err : list byte) : visible := Visible level None installed out err [].

(** The configuration of an accepted command line *)
Definition configuration `{GetoptLong} (argv : list (list byte)) : option ns_config_t :=
  let run := getopt_long argv optstring kLongOptions in
  if accepted run (zlen argv) then Some (config_of (run_calls run)) else None.

(** A configuration that lists the interfaces, or captures packets. *)
Definition lists (config : ns_config_t) : Prop :=
  cfg_show_help config = false /\ cfg_show_version config = false /\ cfg_list_interfaces config = true.

Definition captures (config : ns_config_t) : Prop :=
  cfg_show_help config = false /\ cfg_show_version config = false /\ cfg_list_interfaces config = false.

(** The packets delivered, the answers of the environment, the exit status and the visible state a
    run of [main] may end with, for a configuration or a rejected command line.  The messages,
    the log, the colors and the duration are those the answers call for. *)
Inductive main_result `{System, GetoptLong, LocalTime, Qsort} (argv : list (list byte)) :
    option ns_config_t -> list (pcap_pkthdr * list byte) -> answers -> Z -> visible -> Prop :=
  | Rejected config message :
      ns_config_parse argv 512 = Done (false, config, Some message) ->
      main_result argv None [] no_answers 1
        (started NS_LOG_WARN false [] (error_text program message ++ txt "Try '" ++ program ++ txt " --help' for usage." ++ [x0a]))
  | Help config :
      cfg_show_help config = true ->
      main_result argv (Some config) [] no_answers 0 (started NS_LOG_WARN false (ns_config_print_help program) [])
  | Version config :
      cfg_show_help config = false -> cfg_show_version config = true ->
      main_result argv (Some config) [] no_answers 0 (started NS_LOG_WARN false ns_config_print_version [])
  | Listed config devices :
      lists config -> pcap_findalldevs [] = inl devices ->
      main_result argv (Some config) [] no_answers 0 (started (cfg_log_level config) false (listing devices) [])
  | NotListed config message :
      lists config -> pcap_findalldevs [] = inr message ->
      main_result argv (Some config) [] no_answers 1 (started (cfg_log_level config) false [] (error_text program message))
  | Missing config :
      captures config -> live config = true -> interface_known (cfg_interface config) (pcap_findalldevs []) = false ->
      main_result argv (Some config) [] no_answers 1
        (started (cfg_log_level config) false []
          (error_text program (sn 512 (txt "interface '" ++ cfg_interface config ++ txt "' does not exist"))))
  | Refused config a r :
      captures config -> (live config = true -> interface_known (cfg_interface config) (pcap_findalldevs []) = true) ->
      a_refusal a = Some r -> a_times a = [] ->
      main_result argv (Some config) [] a 1
        (started (cfg_log_level config) false []
          (@open_log _ (requests_of config) (cfg_log_level config) a ++
           error_text program (@refusal_text _ (requests_of config) a r)))
  | Captured config a ps code v :
      captures config -> (live config = true -> interface_known (cfg_interface config) (pcap_findalldevs []) = true) ->
      @session_output _ _ _ (requests_of config) config
        (if bool_decide (cfg_format config = NS_FORMAT_JSON) && negb (bool_decide (cfg_output_file config = []))
         then OutFile else Stdout) a ps code
        (started (cfg_log_level config) true [] (@open_log _ (requests_of config) (cfg_log_level config) a)) v ->
      main_result argv (Some config) ps a code v.

(** The packets [--write] saves *)
Definition saved_by (config : ns_config_t) (ps : list (pcap_pkthdr * list byte)) : list (pcap_pkthdr * list byte) :=
  if bool_decide (cfg_write_file config = []) then [] else ps.

Section Outcomes.
Context `{SystemLaws, GetoptLaws, LocalTimeLaws, Qsort} (T : Prop) (argv : list (list byte)).

Lemma filter_of_config config :
  config_ok config ->
  exists buf, ns_filter_build_bpf (filter_spec_of config) (uninit_buf 512) 512 = Done (true, buf) /\
    cstring buf = Done (until_nul (expression (filter_spec_of config))).
Proof.
  intros (Hs & Hp & _). assert (Hf : wp (ns_filter_build_bpf (filter_spec_of config) (uninit_buf 512) 512)
    (fun '(ok, out') => ok = true /\ cstring out' = Done (until_nul (expression (filter_spec_of config))))).
  { apply filter_fits; [cbn; lia| |done]. cbn. destruct (cfg_has_raw_filter config); [|done]. cbn.
    rewrite !list.Forall_cons in Hs. by destruct Hs as (_ & _ & _ & _ & _ & _ & _ & Hraw & _). }
  apply wp_done in Hf as ([ok buf] & -> & -> & Hc). eauto.
Qed.

Section Start.
Context (config : ns_config_t) (Hok : config_ok config) (Hconfig : captures config).
Context (Hnames : names_known (cfg_log_level config)).
Context (Hknown : live config = true -> interface_known (cfg_interface config) (pcap_findalldevs []) = true).
Context (fuel : nat) (Hfuel : T \/ enough fuel).

Notation repr' := (@repr _ (requests_of config)).
Notation level := (cfg_log_level config).
Notation state err := (started level false [] err).
#[local] Instance config_requests : Requests := requests_of config.

Definition start_post (Q : Z -> world -> Prop) : Prop := forall ps a code v w,
  repr' (closed a false ps (saved_by config ps)) v w -> main_result argv (Some config) ps a code v -> Q code w.

(** Printing an error and giving up, with the session closed. *)
Lemma fail_spec a r (Q : Z -> world -> Prop) w :
  start_post Q -> a_refusal a = Some r -> a_times a = [] -> repr' (closed a false [] []) (state (open_log level a)) w ->
  iwp T (print_error program (refusal_text a r);; mret 1) Q w.
Proof.
  intros HQ Hr Ht Hw. apply iwp_bind. eapply print_error_spec; [exact Hw|].
  intros w1 Hw1. apply iwp_ret, (HQ [] a 1 (state (open_log level a ++ error_text program (refusal_text a r)))).
  - by unfold saved_by; case_bool_decide.
  - by constructor.
Qed.

Lemma fail_close_spec a r h du (Q : Z -> world -> Prop) w :
  start_post Q -> a_refusal a = Some r -> a_times a = [] -> repr' (ready a h du false [] []) (state (open_log level a)) w ->
  iwp T (print_error program (refusal_text a r);; ns_capture_close (Capture (Some h) NS_LINK_ETHERNET du 0);; mret 1) Q w.
Proof.
  intros HQ Hr Ht Hw. apply iwp_bind. eapply print_error_spec; [exact Hw|].
  intros w1 Hw1. apply iwp_bind. eapply close_spec; [exact Hw1|done|]. intros cap w2 Hw2.
  apply iwp_ret, (HQ [] a 1 (state (open_log level a ++ error_text program (refusal_text a r)))).
  - by unfold saved_by; case_bool_decide.
  - by constructor.
Qed.

(** The dump file, if one was asked for, and the output stream, once the capture is open. *)
Lemma streams_spec h a (Q : Z -> world -> Prop) w :
  start_post Q -> a_refusal a = None -> a_tty a = None -> a_times a = [] ->
  repr' (ready a h None false [] []) (state (open_log level a)) w ->
  iwp T ('(cap, failure) ←
          (if bool_decide (cfg_write_file config = []) then mret (Capture (Some h) NS_LINK_ETHERNET None 0, None)
           else ns_capture_open_dump (Capture (Some h) NS_LINK_ETHERNET None 0) (cfg_write_file config) 512);
        match failure with
        | Some err_buf => print_error program err_buf;; ns_capture_close cap;; mret 1
        | None =>
            if bool_decide (cfg_format config = NS_FORMAT_JSON) && negb (bool_decide (cfg_output_file config = []))
            then
              ok ← call (fun t => fopen_w t (cfg_output_file config)) (FOpen (cfg_output_file config));
              if negb ok then
                print_error program (sn 512 (txt "failed to open '" ++ cfg_output_file config ++ txt "' for writing"));;
                ns_capture_close cap;; mret 1
              else run_session fuel program config cap OutFile
            else run_session fuel program config cap Stdout
        end) Q w.
Proof.
  intros HQ Hr Hy Ht Hw.
  set (out := if bool_decide (cfg_format config = NS_FORMAT_JSON) && negb (bool_decide (cfg_output_file config = []))
              then OutFile else Stdout).
  assert (Hrun : forall du w', (forall ps, saved du ps = saved_by config ps) ->
    repr' (ready a h du (negb (bool_decide (out = Stdout))) [] []) (state (open_log level a)) w' ->
    iwp T (run_session fuel program config (Capture (Some h) NS_LINK_ETHERNET du 0) out) Q w').
  { intros du w' Hdu Hw'. eapply run_session_spec; [done..|exact Hw'|done|]. intros ps code a' v' w'' Hw'' Hlog Hout.
    rewrite Hdu in Hw''. eapply HQ; [exact Hw''|]. apply Captured; [done|done|]. rewrite <- Hlog in Hout. exact Hout. }
  assert (Hrest : forall du w', (forall ps, saved du ps = saved_by config ps) ->
    repr' (ready a h du false [] []) (state (open_log level a)) w' ->
    iwp T (if bool_decide (cfg_format config = NS_FORMAT_JSON) && negb (bool_decide (cfg_output_file config = []))
           then
             ok ← call (fun t => fopen_w t (cfg_output_file config)) (FOpen (cfg_output_file config));
             if negb ok then
               print_error program (sn 512 (txt "failed to open '" ++ cfg_output_file config ++ txt "' for writing"));;
               ns_capture_close (Capture (Some h) NS_LINK_ETHERNET du 0);; mret 1
             else run_session fuel program config (Capture (Some h) NS_LINK_ETHERNET du 0) OutFile
           else run_session fuel program config (Capture (Some h) NS_LINK_ETHERNET du 0) Stdout) Q w').
  { intros du w' Hdu Hw'. unfold out in Hrun. destruct (_ && _); [|by apply Hrun].
    icall ok w1 Hw1; [res_ok|]. destruct ok; cbn [negb]; [by apply Hrun|].
    apply (fail_close_spec (refuse CannotWrite a) CannotWrite); [done|by destruct a..|]. by destruct a. }
  apply iwp_bind. unfold saved_by in Hrest. destruct (bool_decide (cfg_write_file config = [])).
  - apply iwp_ret. by apply Hrest.
  - eapply open_dump_spec; [exact Hw|done|done|..].
    + intros d w1 Hw1. by apply (Hrest (Some d)).
    + intros e a' w1 Ho Hw1. rewrite <- (outcome_log level _ _ _ Ho) in Hw1. destruct Ho as (_ & _ & _ & Ht' & r & Hr' & ->).
      eapply fail_close_spec; [done|done|congruence|exact Hw1].
Qed.

Lemma start_session_spec (Q : Z -> world -> Prop) w :
  start_post Q -> repr' (closed no_answers false [] []) (state []) w -> iwp T (start_session fuel program config) Q w.
Proof.
  intros HQ Hw. unfold start_session. destruct (filter_of_config config Hok) as (buf & -> & Hc).
  apply iwp_bind, iwp_lift_done. cbn [negb]. apply iwp_bind. rewrite Hc. apply iwp_lift_done.
  assert (Hopened : forall cap o r log w', opened level o cap log r -> repr' r (v_write Stderr log (state [])) w' ->
    iwp T (match o with
           | Some err_buf => print_error program err_buf;; mret 1
           | None =>
               '(cap, failure) ←
                 (if bool_decide (cfg_write_file config = []) then mret (cap, None)
                  else ns_capture_open_dump cap (cfg_write_file config) 512);
               match failure with
               | Some err_buf => print_error program err_buf;; ns_capture_close cap;; mret 1
               | None =>
                   if bool_decide (cfg_format config = NS_FORMAT_JSON) && negb (bool_decide (cfg_output_file config = []))
                   then
                     ok ← call (fun t => fopen_w t (cfg_output_file config)) (FOpen (cfg_output_file config));
                     if negb ok then
                       print_error program (sn 512 (txt "failed to open '" ++ cfg_output_file config ++ txt "' for writing"));;
                       ns_capture_close cap;; mret 1
                     else run_session fuel program config cap OutFile
                   else run_session fuel program config cap Stdout
               end
           end) Q w').
  { intros cap [message|] r log w' (a & Ht & Hy & -> & Ho) Hw'.
    - destruct Ho as [(rf & Hr & ->) ->]. by apply (fail_spec a rf).
    - destruct Ho as (Hr & h & -> & ->). by apply (streams_spec h a). }
  apply iwp_bind. cbn zeta. destruct (bool_decide (cfg_input_mode config = NS_INPUT_LIVE)).
  - eapply open_live_spec; [exact Hw|done..|]. intros cap o r log w' Ho Hw'. by eapply Hopened.
  - eapply open_offline_spec; [exact Hw|done..|]. intros cap o r log w' Ho Hw'. by eapply Hopened.
Qed.

End Start.

(** ** [main] *)

(** What holds at the end of every run. *)
Definition main_post (config : option ns_config_t) (code : Z) (w : world) : Prop :=
  exists ps a v,
    @repr _ (requests_of (default zero_config config)) (closed a false ps (saved_by (default zero_config config) ps)) v w /\
    main_result argv config ps a code v.

Lemma configured_spec config fuel v w :
  config_ok config -> names_known (cfg_log_level config) -> T \/ enough fuel ->
  v = started NS_LOG_WARN false [] [] -> w = initial_world ->
  iwp T (if cfg_show_help config then fprintf Stdout (ns_config_print_help program);; mret 0
         else if cfg_show_version config then fprintf Stdout ns_config_print_version;; mret 0
         else
           ns_log_set_level (cfg_log_level config);;
           if cfg_list_interfaces config then
             failure ← ns_capture_list_interfaces Stdout;
             match failure with
             | Some pcap_err => print_error program pcap_err;; mret 1
             | None => mret 0
             end
           else
             let live := bool_decide (cfg_input_mode config = NS_INPUT_LIVE) in
             exists_ ← (if live then ns_capture_interface_exists (cfg_interface config) else mret true);
             if live && negb exists_ then
               print_error program (sn 512 (txt "interface '" ++ cfg_interface config ++ txt "' does not exist"));;
               mret 1
             else start_session fuel program config) (main_post (Some config)) w.
Proof.
  intros Hok Hnames Hfuel -> ->. pose (requests_of config : Requests) as q.
  assert (Hempty : saved_by config [] = []) by (by unfold saved_by; case_bool_decide).
  assert (Hdone : forall code w v, @repr _ q (closed no_answers false [] []) v w -> main_result argv (Some config) [] no_answers code v ->
    main_post (Some config) code w).
  { intros code w v Hw Hr. exists [], no_answers, v. change (default zero_config (Some config)) with config. by rewrite Hempty. }
  assert (Hw : @repr _ q (closed no_answers false [] []) (started NS_LOG_WARN false [] []) initial_world) by (by repeat constructor).
  destruct (cfg_show_help config) eqn:Eh.
  { iwrite w1 Hw1. eapply iwp_ret, Hdone; [exact Hw1|]. by constructor. }
  destruct (cfg_show_version config) eqn:Ev.
  { iwrite w1 Hw1. eapply iwp_ret, Hdone; [exact Hw1|]. by constructor. }
  apply iwp_bind. change (iwp T (ns_log_set_level (cfg_log_level config)) ?Q initial_world) with
    (Q tt (set_log_level_global (cfg_log_level config) initial_world)). cbn beta.
  assert (Hw1 : @repr _ q (closed no_answers false [] []) (started (cfg_log_level config) false [] [])
    (set_log_level_global (cfg_log_level config) initial_world)) by (by repeat constructor).
  set (w1 := set_log_level_global _ _) in *. destruct (cfg_list_interfaces config) eqn:El.
  - apply iwp_bind. eapply list_interfaces_spec; [exact Hw1|done|..].
    + intros devices w2 Hd Hw2. eapply iwp_ret, Hdone; [exact Hw2|]. by constructor.
    + intros message w2 Hd Hw2. apply iwp_bind. eapply print_error_spec; [exact Hw2|]. intros w3 Hw3.
      eapply iwp_ret, Hdone; [exact Hw3|]. by constructor.
  - assert (Hcap : captures config) by done. cbn zeta. change (bool_decide (cfg_input_mode config = NS_INPUT_LIVE)) with (live config).
    assert (Hpost : start_post config (main_post (Some config))) by (intros ps a code v w' Hw' Hr; by exists ps, a, v).
    apply iwp_bind. destruct (live config) eqn:Elive; [|by apply iwp_ret, start_session_spec; try (intros; congruence)].
    eapply interface_exists_spec; [exact Hw1|done|]. intros w2 Hw2. change (events w1) with (@nil event).
    destruct (interface_known _ _) eqn:Ek; cbn [andb negb]; [by apply start_session_spec; try (intros; congruence)|].
    apply iwp_bind. eapply print_error_spec; [exact Hw2|]. intros w3 Hw3. eapply iwp_ret, Hdone; [exact Hw3|]. by constructor.
Qed.

Lemma main_spec fuel :
  argv <> [] -> names_known (cfg_log_level (default zero_config (configuration argv))) -> T \/ enough fuel ->
  iwp T (main fuel argv) (main_post (configuration argv)) initial_world.
Proof.
  intros Hne Hnames Hfuel. unfold main. pose proof (ns_config_parse_spec argv 512 Hne) as Hp.
  apply wp_done in Hp as ([[ok config] err] & Hparse & Hok & Hconfig & Herr). rewrite Hparse.
  apply iwp_bind, iwp_lift_done. unfold configuration in *. rewrite <- Hok in *. destruct ok; cbn [negb].
  - rewrite <- Hconfig in * by done. eapply configured_spec; [|done..]. rewrite Hconfig by done. by eapply config_of_ok.
  - destruct Herr as [[message ->] _]; [done|]. apply iwp_bind. cbn [use_init]. apply iwp_lift_done.
    assert (Hw : @repr _ (requests_of zero_config) (closed no_answers false [] []) (started NS_LOG_WARN false [] []) initial_world)
      by (by repeat constructor).
    apply iwp_bind. eapply print_error_spec; [exact Hw|]. intros w1 Hw1. iwrite w2 Hw2. apply iwp_ret.
    exists [], no_answers, (v_write Stderr (error_text program message ++ txt "Try '" ++ program ++ txt " --help' for usage." ++ [x0a])
      (started NS_LOG_WARN false [] [])). rewrite v_write_app in Hw2. split; [exact Hw2|]. by eapply Rejected.
Qed.

End Outcomes.
