(* ===== verification/Runs.v ===== *)
(** * Properties of complete runs

    The theorems about [main], and a concrete environment they are applied to. *)

From S2P Require Import Prelude CMem Util Config Packet Stats Clock Binary64 Report Output OutputText.
From S2P Require Import System Capture Main Protocol SessionSteps Session Program.

(** ** A concrete environment *)

Definition is_break (e : event) : bool := match e with BreakLoop _ => true | _ => false end.

(** One Ethernet interface, or a file, that delivers the sample frame while [more] of the number
    of packets delivered holds and no stop was requested. *)
Definition sample_system (link : Z) (more : nat -> bool) (signals : trace -> bool) : System := {|
  pcap_findalldevs := fun _ => inl [PcapIf (txt "eth0") None []];
  pcap_create := fun _ _ => inl 1;
  pcap_activate := fun _ _ => 0;
  pcap_statustostr := fun _ => txt "warning";
  pcap_open_offline := fun _ _ => inl 1;
  pcap_datalink := fun _ _ => link;
  pcap_datalink_val_to_name := fun dlt => if dlt =? DLT_EN10MB then Some (txt "EN10MB") else None;
  pcap_compile := fun _ _ _ => 0;
  pcap_setfilter := fun _ _ => 0;
  pcap_geterr := fun _ _ => txt "error";
  pcap_dump_open := fun _ _ _ => Some 2;
  pcap_loop_next := fun t _ =>
    if existsb is_break t then Returns (-2)
    else if more (deliveries t) then Delivers (PktHdr 1700000000 123456 71 71) sample_frame else Returns 0;
  inet_ntop := fun _ _ _ => None;
  fopen_w := fun _ _ => true;
  isatty := fun _ _ => false;
  clock_monotonic := fun t => (100 + zlen t, 0);
  signal_arrives := signals
|}.

Definition quiet (t : trace) : bool := false.

(** A file of two packets *)
Definition two_packets : System := sample_system DLT_EN10MB (fun n => (n <? 2)%nat) quiet.

(** An interface with endless traffic, and a signal with the third packet *)
Definition interrupted_capture : System :=
  sample_system DLT_EN10MB (fun _ => true) (fun t => match t with LoopPacket _ _ _ :: _ => (deliveries t =? 3)%nat | _ => false end).

#[global] Instance sample_laws link more signals : @SystemLaws (sample_system link more signals).
Proof.
  intros t h header data. cbn. destruct (existsb is_break t); [done|]. destruct (more _); [|done].
  intros [= <- <-]. done.
Qed.

Lemma sample_break_law link more signals : @break_law (sample_system link more signals) 0.
Proof. intros t1 t0 h _. cbn. by rewrite existsb_app; cbn; rewrite orb_true_r. Qed.

Lemma sample_names level more signals : @names_known (sample_system DLT_EN10MB more signals) level.
Proof. right. intros t h. by exists (txt "EN10MB"). Qed.

Lemma two_packets_end : @must_end two_packets 2.
Proof.
  apply finite_must_end. intros t h Ht. cbn [two_packets sample_system pcap_loop_next].
  destruct (existsb is_break t); [by eexists|]. destruct (Nat.ltb_spec (deliveries t) 2); [lia|by eexists].
Qed.

Definition file_argv : list (list byte) :=
  [txt "netscope"; txt "-r"; txt "in.pcap"; txt "--write"; txt "out.pcap"; txt "--stats"].
Definition live_argv : list (list byte) := [txt "netscope"; txt "-i"; txt "eth0"].

(** ** Properties *)

(** Combinations of options with a documented effect: JSON is not combined with [--quiet],
    [--verbose] or [--hex], and goes to a file when a report is printed on standard output. *)
Definition documented (config : ns_config_t) : Prop :=
  cfg_format config = NS_FORMAT_JSON ->
  cfg_quiet config = false /\ cfg_verbose_output config = false /\ cfg_hex_dump config = false /\
  (cfg_show_stats config || live config = true -> cfg_output_file config <> []).

(** C2. What a run of the program does, from the command line to the exit status.  For every
    argument vector whose options have a documented effect together, every behaviour of libpcap
    and the operating system in which the source of packets ends within the fuel ([enough]) and,
    with debug messages on, the link type has a name ([names_known]; see [unnamed_link_faults]),
    and signals at any moments: [main] terminates without a fault, and the exit status and
    the contents of the streams are those of one of its outcomes: usage error, help, version,
    interface list, a failure to start, or a session.  A start fails (status 1, nothing on
    standard output) exactly when libpcap or the system refused a call the session needs, or
    does not know the interface, and the error message is the one for that refusal, after the
    lines of the log that the level enables.  The output of a session is, packet by packet in
    the order of delivery and numbered from 1, the text of the decoded packets, in color exactly
    when colors are on and the stream is a terminal, between the banner and the report, whose
    statistics are those of the batch computation on the same packets and whose duration is the
    difference of the two answers of the clock; its status is 1, with the message of libpcap
    instead of a report, exactly when the loop failed. *)
Theorem main_exact `{SystemLaws, GetoptLaws, LocalTimeLaws, Qsort} (fuel : nat) (argv : list (list byte)) :
  let config := default zero_config (configuration argv) in
  argv <> [] -> documented config -> names_known (cfg_log_level config) -> enough fuel ->
  exists code w ps a, main fuel argv initial_world = Done (code, w) /\
    replay (events w) = Some (closed a false ps (saved_by config ps)) /\
    @faithful _ (requests_of config) (events w) /\
    main_result argv (configuration argv) ps a code (visible_of w).
Proof.
  intros config Hne _ Hnames Hfuel. pose proof (main_spec False argv fuel Hne Hnames (or_intror Hfuel)) as Hm.
  unfold iwp in Hm. destruct (main fuel argv initial_world) as [[code w]|[]]; try done.
  destruct Hm as (ps & a & v & (Hr & <- & _ & Hf) & Hm). by exists code, w, ps, a.
Qed.

Lemma main_exact_witness :
  exists code w ps a, @main two_packets simple_getopt utc merge_qsort 3 file_argv initial_world = Done (code, w) /\
    replay (events w)
    = Some (closed a false ps (saved_by (default zero_config (@configuration simple_getopt file_argv)) ps)) /\
    @faithful two_packets (requests_of (default zero_config (@configuration simple_getopt file_argv))) (events w) /\
    @main_result two_packets simple_getopt utc merge_qsort file_argv (@configuration simple_getopt file_argv) ps a code
      (visible_of w).
Proof.
  apply (@main_exact two_packets (sample_laws _ _ _) simple_getopt simple_getopt_laws utc utc_laws merge_qsort 3 file_argv);
    [done|by vm_compute|apply sample_names|]. exists 2%nat. split; [apply two_packets_end|lia].
Defined.

(** C5. Resource and call discipline, signals included.  Provided that, with debug messages on,
    the link type has a name ([names_known]; otherwise the program faults, see
    [unnamed_link_faults]), no run faults: a run that does not end has run out of fuel.  In every
    run that ends, even on every error path, the calls obey the protocol: handles, dump files,
    compiled filters, device lists and the output file are released exactly once, the dump file
    before its handle, and never used before they are opened or after they are closed; a signal
    handler that runs between any two calls only reaches an open, activated handle, and no handle
    is left to it at the end; [pcap_breakloop] is called by the handler only; the dump file has
    received every delivered packet, in order; and only what the command line named has been
    opened, with the filter [ns_filter_build_bpf] makes of its options. *)
Theorem main_obeys_protocol `{SystemLaws, GetoptLaws, LocalTimeLaws, Qsort} (fuel : nat) (argv : list (list byte)) :
  let config := default zero_config (configuration argv) in
  argv <> [] -> names_known (cfg_log_level config) ->
  match main fuel argv initial_world with
  | Done (_, w) =>
      (exists ps a, replay (events w) = Some (closed a false ps (saved_by config ps))) /\
      @faithful _ (requests_of config) (events w) /\ g_capture_handle w = None
  | Fault f => f = OutOfFuel
  end.
Proof.
  intros config Hne Hnames. pose proof (main_spec True argv fuel Hne Hnames (or_introl I)) as Hm. unfold iwp in Hm.
  destruct (main fuel argv initial_world) as [[code w]|[]]; try done.
  destruct Hm as (ps & a & v & (Hr & <- & Ht & Hf) & _). split; [by exists ps, a|]. split; [done|].
  unfold target_ok, visible_of in Ht. cbn [v_slot] in Ht. by destruct (g_capture_handle w) as [h|]; [destruct Ht|].
Qed.

Lemma main_obeys_protocol_witness :
  match @main two_packets simple_getopt utc merge_qsort 3 file_argv initial_world with
  | Done (_, w) =>
      (exists ps a, replay (events w)
         = Some (closed a false ps (saved_by (default zero_config (@configuration simple_getopt file_argv)) ps))) /\
      @faithful two_packets (requests_of (default zero_config (@configuration simple_getopt file_argv))) (events w) /\
      g_capture_handle w = None
  | Fault f => f = OutOfFuel
  end.
Proof.
  apply (@main_obeys_protocol two_packets (sample_laws _ _ _) simple_getopt simple_getopt_laws utc utc_laws merge_qsort
    3 file_argv); [done|apply sample_names].
Defined.

(** C13. A stop request ends the capture.  If SIGINT or SIGTERM arrives while the [n]-th packet is
    handed over, and libpcap delivers at most [K] more packets after a [pcap_breakloop], then
    [main] returns, however long the traffic goes on: the loop ends after at most [n + K]
    packets and everything is released.  With debug messages on, the link type must have a name
    ([names_known]). *)
Theorem stop_request_ends_capture `{SystemLaws, GetoptLaws, LocalTimeLaws, Qsort}
    (fuel n K : nat) (argv : list (list byte)) :
  let config := default zero_config (configuration argv) in
  argv <> [] -> names_known (cfg_log_level config) -> (0 < n)%nat -> break_law K ->
  (forall h header data t, deliveries t = pred n -> signal_arrives (LoopPacket h header data :: t) = true) ->
  (n + K < fuel)%nat ->
  exists code w ps a, main fuel argv initial_world = Done (code, w) /\
    replay (events w) = Some (closed a false ps (saved_by config ps)).
Proof.
  intros config Hne Hnames Hn Hb Hs Hfuel.
  assert (He : enough fuel) by (exists (n + K)%nat; split; [by apply signal_must_end|done]).
  pose proof (main_spec False argv fuel Hne Hnames (or_intror He)) as Hm. unfold iwp in Hm.
  destruct (main fuel argv initial_world) as [[code w]|[]]; try done.
  destruct Hm as (ps & a & v & (Hr & _) & _). by exists code, w, ps, a.
Qed.

Lemma stop_request_ends_capture_witness :
  exists code w ps a, @main interrupted_capture simple_getopt utc merge_qsort 4 live_argv initial_world = Done (code, w) /\
    replay (events w)
    = Some (closed a false ps (saved_by (default zero_config (@configuration simple_getopt live_argv)) ps)).
Proof.
  apply (@stop_request_ends_capture interrupted_capture (sample_laws _ _ _) simple_getopt simple_getopt_laws utc utc_laws
    merge_qsort 4 3 0 live_argv); [done|apply sample_names|lia|apply sample_break_law| |lia].
  intros h header data t Ht. cbn. by rewrite Ht.
Defined.

(** ** What can go wrong *)

(** A signal before the loop is entered is never passed on. *)
Lemma faithful_no_break `{System, Requests} t h :
  (forall t, signal_arrives t = true -> loop_started t = false) -> faithful t -> BreakLoop h ∉ t.
Proof.
  intros Hs Hf. induction t as [|e t IH]; [apply not_elem_of_nil|]. destruct Hf as [He Hf].
  apply not_elem_of_cons. split; [|by apply IH]. intros <-. destruct He as [Hl [t' ->]].
  destruct Hf as [Ha _]. apply Hs in Ha. unfold loop_started in *. cbn in Hl. congruence.
Qed.

(** The two points of [main] between the installation of the handlers and the loop where a signal
    may arrive, and an interface with [n] packets of traffic and a signal there. *)
Inductive window := AfterHandlers | AfterClock.

Definition in_window (point : window) (t : trace) : bool :=
  match point, t with
  | AfterHandlers, SigAction :: _ => true
  | AfterClock, ClockGetTime _ :: SigAction :: _ => true
  | _, _ => false
  end.

Definition early_signal (n : nat) (point : window) : System :=
  sample_system DLT_EN10MB (fun k => (k <? n)%nat) (in_window point).

(** The same traffic, and a signal as soon as the loop is entered *)
Definition late_signal (n : nat) : System :=
  sample_system DLT_EN10MB (fun k => (k <? n)%nat) (fun t => match t with LoopStart _ :: _ => true | _ => false end).

Definition live_config : ns_config_t := default zero_config (@configuration simple_getopt live_argv).

Definition opened_events : trace :=
  [DataLink 1 DLT_EN10MB; Activate 1 0; SetTimeout 1 1000; SetPromisc 1 1; SetSnaplen 1 262144; Create (txt "eth0") (inl 1);
   FreeAllDevs [PcapIf (txt "eth0") None []]; FindAllDevs (inl [PcapIf (txt "eth0") None []])].

Definition opened_world : world := World NS_LOG_WARN 0 None false [] [] [] opened_events.

Lemma main_opens n point fuel :
  @main (early_signal n point) simple_getopt utc merge_qsort fuel live_argv initial_world
  = @run_session (early_signal n point) utc merge_qsort fuel program live_config (Capture (Some 1) NS_LINK_ETHERNET None 0)
      Stdout opened_world.
Proof.
  unfold main, start_session. generalize (@run_session (early_signal n point) utc merge_qsort fuel). intros run.
  destruct point; vm_compute; reflexivity.
Qed.

Definition is_signal (e : event) : bool := match e with Signal => true | _ => false end.

Section EarlySignal.
Context (n : nat) (point : window).
#[local] Instance early_system : System := early_signal n point.
#[local] Instance early_laws : SystemLaws := sample_laws _ _ _.
#[local] Existing Instance utc.
#[local] Existing Instance utc_laws.
#[local] Existing Instance merge_qsort.
#[local] Instance live_requests : Requests := requests_of live_config.

Definition keeps_events {A} (m : IO A) : Prop := forall w a w', m w = Done (a, w') -> events w' = events w.

Lemma keeps_bind {A B} (m : IO A) (k : A -> IO B) :
  keeps_events m -> (forall a, keeps_events (k a)) -> keeps_events (m ≫= k).
Proof.
  intros Hm Hk w b w'. unfold mbind, IO_bind. destruct (m w) as [[a w1]|] eqn:E; [|done]. intros Hb.
  by rewrite (Hk _ _ _ _ Hb), (Hm _ _ _ E).
Qed.

Lemma keeps_lift {A} (m : M A) : keeps_events (lift m).
Proof. intros w a w'. unfold lift. destruct m; [|done]. by intros [= _ <-]. Qed.

(** Without a dump file, the callback makes no calls. *)
Lemma callback_keeps h ctx number header data :
  keeps_events (pcap_packet_callback handle_packet (Capture h NS_LINK_ETHERNET None number, ctx) header data).
Proof.
  apply keeps_bind; [by intros w a w' [= _ <-]|]. intros _. apply keeps_bind; [apply keeps_lift|]. intros pkt.
  apply keeps_bind; [|by intros user w a w' [= _ <-]]. apply keeps_bind; [apply keeps_lift|]. intros s.
  apply keeps_bind; [by intros w a w' [= _ <-]|]. intros text. apply keeps_bind; [apply keeps_lift|]. intros text'.
  apply keeps_bind; [|by intros [] w a w' [= _ <-]]. intros w a w' [= _ <-]. apply events_set_stream.
Qed.

(** A signal has arrived, but no stop has been requested of libpcap. *)
Definition lost (t : trace) : Prop := existsb is_break t = false /\ existsb is_signal t = true.

(** A call without a signal *)
Lemma iwp_calm {A} T (answer : trace -> A) (ev : A -> event) (Q : A -> world -> Prop) w :
  signal_arrives (ev (answer (events w)) :: events w) = false ->
  Q (answer (events w)) (push (ev (answer (events w))) w) -> iwp T (call answer ev) Q w.
Proof. intros Hs HQ. unfold iwp, call, interrupt. destruct w. cbn in *. by rewrite Hs, andb_false_r. Qed.

Lemma outside_window e t :
  match e, t with SigAction, _ | ClockGetTime _, SigAction :: _ => false | _, _ => true end = true ->
  signal_arrives (e :: t) = false.
Proof. intros He. change (in_window point (e :: t) = false). by destruct point, e, t as [|[] t]. Qed.

Lemma events_push e w : events (push e w) = e :: events w.
Proof. by destruct w. Qed.

(** The session goes on. *)
Definition unaware (an : answers) (v : visible) (k : nat) (user : ns_capture_t * ns_main_ctx_t) (w : world) : Prop :=
  session_at an 1 None false (output_options live_config false) Stdout v k user w /\ lost (events w) /\ (k <= n)%nat.

Lemma unaware_next an v k user w :
  unaware an v k user w ->
  pcap_loop_next (events w) 1 = if (k <? n)%nat then Delivers (PktHdr 1700000000 123456 71 71) sample_frame else Returns 0.
Proof. intros [(ps & pkts & s & _ & _ & _ & Hk & _) [[Hb _] _]]. cbn. by rewrite Hb, Hk. Qed.

Lemma unaware_step an v k user w header data :
  v_slot v = Some 1 -> v_installed v = true -> unaware an v k user w -> pcap_loop_next (events w) 1 = Delivers header data ->
  iwp False (emit (LoopPacket 1 header data);; pcap_packet_callback handle_packet user header data)
    (fun user' w' => unaware an v (S k) user' w') w.
Proof.
  intros Hs Hi Hu Hd. pose proof (unaware_next _ _ _ _ _ Hu) as Hn. rewrite Hd in Hn.
  destruct Hu as (Hat & [Hb Hsig] & _). destruct (Nat.ltb_spec k n); [|done].
  apply (iwp_and _ _ (fun user' w' => session_at an 1 None false _ Stdout v (S k) user' w')).
  { by apply callback_step. }
  destruct Hat as (ps & pkts & s & _ & _ & _ & _ & _ & ->). intros user' w'. unfold mbind, IO_bind at 1, emit, call.
  intros Hcb%callback_keeps. rewrite Hcb. clear Hn Hd. unfold interrupt, lost. rewrite events_push, outside_window by done.
  rewrite andb_false_r, events_push. cbn. split; [done|lia].
Qed.

(** The world in which the loop starts: the stop has been requested, but nobody looks. *)
Definition looping_world : world := World NS_LOG_WARN 1 (Some 1) true (banner live_config) [] []
  (LoopStart 1 ::
   match point with
   | AfterHandlers => [ClockGetTime (111, 0); Signal; SigAction]
   | AfterClock => [Signal; ClockGetTime (110, 0); SigAction]
   end ++ IsATty Stdout false :: opened_events).

Definition looping_answers : answers :=
  Answers None [] (Some 0) (Some 1) (Some (Stdout, false))
    [match point with AfterHandlers => (111, 0) | AfterClock => (110, 0) end].

Lemma unaware_start : unaware looping_answers (visible_of looping_world) 0
  (Capture (Some 1) NS_LINK_ETHERNET None 0, MainCtx ns_stats_init (output_options live_config false) Stdout) looping_world.
Proof.
  unfold unaware, session_at, repr, looping_world, looping_answers, lost. destruct point eqn:Ep.
  all: split; [|split; [done|lia]]; exists [], [], ns_stats_init; split; [done|]; split; [apply batch_nil|].
  all: split; [by apply answered_none|]; split; [done|]; split; [|done].
  all: split; [by vm_compute|]; split; [by vm_compute|]; split; [done|]; vm_compute; rewrite ?Ep; repeat split; eauto.
Qed.

(** What is left of the session after the loop *)
Definition session_end (start : b64) (a : ns_capture_t * ns_main_ctx_t * option (list byte)) : IO Z :=
  let '(cap, ctx, failure) := a in
  end_time ← monotonic_seconds;
  _ ← ns_capture_close cap;
  (if bool_decide (Stdout = Stdout) then mret tt else emit FClose);;
  match failure with
  | Some err_buf => print_error program err_buf;; mret 1
  | None =>
      (if cfg_show_stats live_config || bool_decide (cfg_input_mode live_config = NS_INPUT_LIVE) then
         report ← lift (ns_stats_print (main_stats ctx) (b64_sub end_time start));
         fprintf Stdout report
       else mret tt);;
      mret 0
  end.

Lemma session_end_lost start s opts number w (Q : Z -> world -> Prop) e t :
  events w = e :: t -> lost (events w) -> match e with SigAction => false | _ => true end = true ->
  (forall w', lost (events w') -> deliveries (events w') = deliveries (events w) -> Q 0 w') ->
  iwp False (session_end start (Capture (Some 1) NS_LINK_ETHERNET None number, MainCtx s opts Stdout, None)) Q w.
Proof.
  intros Ew [Hb Hs] He HQ. unfold session_end, monotonic_seconds.
  apply iwp_bind, iwp_bind, iwp_calm; [rewrite Ew; apply outside_window; by destruct e|].
  destruct (clock_monotonic _) as [sec nsec]. apply iwp_ret. unfold ns_capture_close. cbn [cap_dumper].
  apply iwp_bind, iwp_bind, iwp_ret. cbn [cap_handle]. apply iwp_bind, iwp_calm; [by apply outside_window|].
  apply iwp_ret, iwp_bind, iwp_ret, iwp_bind. unfold live_config. apply iwp_bind. cbn [main_stats].
  destruct (ns_stats_print_total s (b64_sub (b64_add (b64_of_Z sec) (b64_div (b64_of_Z nsec) (b64_of_Z (10 ^ 9)))) start))
    as [report ->]. apply iwp_lift_done.
  set (w2 := push (Close 1) _). change (iwp False (fprintf Stdout report) ?Q w2) with
    (Q tt (set_stream Stdout (stream_text Stdout w2 ++ report) w2)). cbn beta. apply iwp_ret, HQ;
    rewrite events_set_stream; unfold w2, lost; rewrite !events_push; by cbn.
Qed.

Lemma loop_end_lost an v k user w result (Q : Z -> world -> Prop) start :
  unaware an v k user w -> pcap_loop_next (events w) 1 = Returns result ->
  (forall w', lost (events w') -> deliveries (events w') = n -> Q 0 w') ->
  iwp False (emit (LoopEnd 1 result))
    (fun _ => iwp False
      (let '(cap, ctx) := user in
       ns_signal_set_capture_handle None;;
       if result =? -1 then
         e ← geterr 1;
         mret (cap, ctx, Some (sn 512 (txt "capture loop failed: " ++ e)))
       else mret (cap, ctx, None))
      (fun a => iwp False (session_end start a) Q)) w.
Proof.
  intros Hu Hr HQ. rewrite (unaware_next _ _ _ _ _ Hu) in Hr.
  destruct Hu as [(ps & pkts & s & _ & _ & _ & Hk & _ & ->) [[Hb Hs] Hle]].
  destruct (Nat.ltb_spec k n); [done|]. injection Hr as <-. assert (k = n) as -> by lia.
  apply iwp_calm; [by apply outside_window|]. apply iwp_bind.
  set (w1 := set_capture_handle None (push (LoopEnd 1 0) w)).
  assert (E1 : events w1 = LoopEnd 1 0 :: events w) by (by destruct w).
  change (iwp False (ns_signal_set_capture_handle None) ?Q (push (LoopEnd 1 0) w)) with (Q tt w1). cbn beta.
  apply iwp_ret. eapply session_end_lost; [exact E1| |done|]; rewrite E1.
  - by split.
  - intros w' Hl Hd. apply HQ; [done|]. by rewrite Hd.
Qed.

(** The whole loop, from its start *)
Lemma loop_lost fuel (Q : Z -> world -> Prop) start :
  (n < fuel)%nat -> (forall w', lost (events w') -> deliveries (events w') = n -> Q 0 w') ->
  iwp False
    (pcap_loop fuel 1 (pcap_packet_callback handle_packet)
       (Capture (Some 1) NS_LINK_ETHERNET None 0, MainCtx ns_stats_init (output_options live_config false) Stdout))
    (fun a => iwp False
      (let '(result, (cap, ctx)) := a in
       ns_signal_set_capture_handle None;;
       if result =? -1 then
         e ← geterr 1;
         mret (cap, ctx, Some (sn 512 (txt "capture loop failed: " ++ e)))
       else mret (cap, ctx, None))
      (fun a => iwp False (session_end start a) Q)) looping_world.
Proof.
  intros Hfuel HQ. eapply (pcap_loop_rule _ _ _ _ (unaware looping_answers (visible_of looping_world)) 0).
  - intros k user w header data Hu Hd. by apply unaware_step.
  - intros k user w result Hu Hr. by eapply loop_end_lost.
  - right. exists n. split; [|lia]. intros k user w Hu Hle. rewrite (unaware_next _ _ _ _ _ Hu).
    destruct (Nat.ltb_spec k n); [lia|]. by eexists.
  - exact unaware_start.
Qed.

End EarlySignal.

Lemma early_signal_run n point fuel (Q : Z -> world -> Prop) :
  (n < fuel)%nat -> (forall w', lost (events w') -> deliveries (events w') = n -> Q 0 w') ->
  iwp False (@run_session (early_signal n point) utc merge_qsort fuel program live_config
    (Capture (Some 1) NS_LINK_ETHERNET None 0) Stdout) Q opened_world.
Proof.
  intros Hfuel HQ. unfold run_session. destruct point.
  all: do 2 (apply iwp_bind; eapply iwp_run; [vm_compute; reflexivity|]; cbv zeta).
  all: do 2 (apply iwp_bind; eapply iwp_run; [vm_compute; reflexivity|]).
  all: apply iwp_bind; unfold ns_capture_run; cbn [cap_handle].
  all: do 3 (apply iwp_bind; eapply iwp_run; [vm_compute; reflexivity|]); apply iwp_bind.
  - by apply (loop_lost n AfterHandlers).
  - by apply (loop_lost n AfterClock).
Qed.

Lemma existsb_elem {A} (f : A -> bool) l : existsb f l = true -> exists x, x ∈ l /\ f x = true.
Proof. rewrite existsb_exists. intros (x & Hx & Hf). exists x. by rewrite list_elem_of_In. Qed.

Lemma lost_facts t : lost t -> Signal ∈ t /\ forall h, BreakLoop h ∉ t.
Proof.
  intros [Hb (e & He & Hs)%existsb_elem]. destruct e; try done. split; [done|]. intros h Hh.
  assert (existsb is_break t = true); [|congruence]. apply existsb_exists. exists (BreakLoop h). by rewrite <- list_elem_of_In.
Qed.

Lemma early_signal_main n point fuel :
  (n < fuel)%nat ->
  exists w, @main (early_signal n point) simple_getopt utc merge_qsort fuel live_argv initial_world = Done (0, w) /\
    Signal ∈ events w /\ (forall h, BreakLoop h ∉ events w) /\ deliveries (events w) = n.
Proof.
  intros Hfuel. rewrite main_opens.
  pose proof (early_signal_run n point fuel (fun code w => code = 0 /\ lost (events w) /\ deliveries (events w) = n) Hfuel) as Hr.
  specialize (Hr ltac:(done)). unfold iwp in Hr. destruct (run_session fuel _ _ _ _ _) as [[code w]|[]]; try done.
  destruct Hr as (-> & Hl & Hd). apply lost_facts in Hl as [? ?]. by exists w.
Qed.

Lemma late_signal_main n fuel :
  (0 < fuel)%nat ->
  wp (@main (late_signal n) simple_getopt utc merge_qsort fuel live_argv initial_world) (fun '(code, w) =>
    code = 0 /\ Signal ∈ events w /\ BreakLoop 1 ∈ events w /\ deliveries (events w) = 0%nat).
Proof.
  destruct fuel as [|fuel]; [lia|]. intros _. vm_compute. split; [done|].
  repeat first [split; [repeat first [left | right]|] | done].
Qed.

(** C40. A stop request can be lost.  The handlers are installed before the handle is made known
    to them, and nothing ever reads [ns_stop_requested].  So, whatever the command line and the
    environment, when signals arrive only before the loop is entered, [pcap_breakloop] is never
    called.  For example, on an interface with [n] packets of traffic, a signal at either of the
    two points between the installation of the handlers and the loop reaches the handler, but all
    [n] packets are captured, although libpcap honours [pcap_breakloop] at once: the same signal
    as soon as the loop is entered stops the capture before the first packet. *)
Theorem early_stop_request_lost (n fuel : nat) (point : window) :
  (n < fuel)%nat ->
  (forall `{SystemLaws, GetoptLaws, LocalTimeLaws, Qsort} argv,
     argv <> [] -> names_known (cfg_log_level (default zero_config (configuration argv))) ->
     (forall t, signal_arrives t = true -> loop_started t = false) ->
     match main fuel argv initial_world with
     | Done (_, w) => forall h, BreakLoop h ∉ events w
     | Fault f => f = OutOfFuel
     end) /\
  (exists w, @main (early_signal n point) simple_getopt utc merge_qsort fuel live_argv initial_world = Done (0, w) /\
     Signal ∈ events w /\ (forall h, BreakLoop h ∉ events w) /\ deliveries (events w) = n) /\
  @break_law (early_signal n point) 0 /\ @break_law (late_signal n) 0 /\
  (exists w, @main (late_signal n) simple_getopt utc merge_qsort fuel live_argv initial_world = Done (0, w) /\
     Signal ∈ events w /\ BreakLoop 1 ∈ events w /\ deliveries (events w) = 0%nat).
Proof.
  intros Hfuel. split; [|split; [by apply early_signal_main|split; [apply sample_break_law|split; [apply sample_break_law|]]]].
  - intros ? ? ? ? ? ? ? argv Hne Hnames Hs. pose proof (main_spec True argv fuel Hne Hnames (or_introl I)) as Hm.
    unfold iwp in Hm. destruct (main fuel argv initial_world) as [[code w]|[]]; try done.
    destruct Hm as (ps & a & v & (_ & _ & _ & Hf) & _). intros h. by eapply faithful_no_break.
  - pose proof (late_signal_main n fuel ltac:(lia)) as Hl. apply wp_done in Hl as ([code w] & E & -> & Hw). by exists w.
Qed.

Lemma early_stop_request_lost_witness :
  exists w, @main (early_signal 2 AfterClock) simple_getopt utc merge_qsort 3 live_argv initial_world = Done (0, w) /\
    Signal ∈ events w /\ (forall h, BreakLoop h ∉ events w) /\ deliveries (events w) = 2%nat.
Proof. apply (early_stop_request_lost 2 3 AfterClock). lia. Defined.

(** With debug messages on, a link type without a name is passed as [NULL] to [%s], before the
    code that handles the missing name is reached. *)
Definition unnamed_link : System := sample_system 999 (fun _ => false) quiet.

Example unnamed_link_faults :
  @main unnamed_link simple_getopt utc merge_qsort 1 [txt "netscope"; txt "-r"; txt "in.pcap"; txt "--debug"] initial_world
  = Fault NullPointer.
Proof. by vm_compute. Qed.

Example unnamed_link_reported :
  wp (@main unnamed_link simple_getopt utc merge_qsort 1 [txt "netscope"; txt "-r"; txt "in.pcap"] initial_world)
    (fun '(code, w) => code = 1 /\ stderr_text w = text_lines [txt "netscope: unsupported datalink type: unknown"]).
Proof. by vm_compute. Qed.

(** A live JSON capture appends the statistics report to the JSON lines. *)
Example live_json_mixes_report :
  wp (@main (sample_system DLT_EN10MB (fun _ => false) quiet) simple_getopt utc merge_qsort 1
        [txt "netscope"; txt "-i"; txt "eth0"; txt "--format"; txt "json"] initial_world)
    (fun '(code, w) => code = 0 /\ exists rest, stdout_text w = rule ++ [x0a] ++ txt "NetScope Capture Statistics" ++ rest).
Proof. vm_compute. split; [done|]. by eexists. Qed.
